(* ===== verification/_CoqProject ===== *)
-Q . S2P
Prelude.v
Text.v
Dump.v
Commands.v
LogBuffer.v
Types.v
Header.v
Ie.v
Builder.v
Messages.v
Dict.v
Registry.v
Common.v
Tests.v
Gtpu.v
Xdp.v
Server.v
UpfTui.v
Startup.v
SessionStore.v
Handlers.v
Stats.v
HandlersSpec.v
Alike.v
Invariant.v
Typing.v
Mirror.v
Feed.v
Forwarding.v
Signalling.v
Reporter.v
SmfSim.v
Transport.v
SimTui.v
SimTasks.v
Ui.v
Scenario.v
System.v
Lossy.v
SimMain.v
TuiSystem.v
SimKeepalive.v
Concurrent.v
