(* ===== verification/Prelude.v ===== *)
(** * upf-edge: a verification library

    [src/] holds a user plane function of a 5G core ([upf-edge]) and a simulator
    of its peer ([smf-sim]).  An SMF speaks PFCP with the UPF's server over UDP:
    associations, and sessions that are established, modified and deleted.  The
    server turns the rules of a session (PDRs, FARs, URRs) into entries of eBPF
    maps; two XDP programs in the kernel forward packets by these maps, uplink
    packets out of their GTP-U tunnel and downlink packets into it, and count
    them; a reporter sends the counts back to the SMF.  Sessions are copied to
    Redis and loaded from it at start-up, counters are exported to Prometheus,
    both programs have a terminal.

    This library translates these programs into Rocq functions and proves what
    makes them correct, and, where they are not, what they do instead.  This
    file holds what all others share: the outcome of Rust code, state passing,
    machine integers, byte order, and their lemmas and tactics.

    ** How code is modelled

    Code that can fail returns an [outcome] ([Ok], [Err], [Panic]: an index out
    of range is a [Panic], so that its absence is a theorem).  Code with state
    is a function of the monad [st]; what it changed before an error stays
    changed.  Integers are [Z] and are truncated with [wrap] where the code
    wraps; [Typing.v] proves that they stay within their widths.  Octets are
    [list Z], text is [Text.str].  A [HashMap] is a [gmap]; where the code
    iterates over one, the order is a parameter, any permutation.  A step of
    [System.v] is a critical section; the locks of the simulator's terminal,
    which a task can hold while it sleeps, are in [SimTasks.v].

    What is not under [src/] is an interface, whose laws are classes: the eBPF
    maps and the kernel's helpers ([Common.v], [Xdp.v]), the Redis client
    ([SessionStore.v]), the machine at start-up ([Startup.v]), the socket and
    the link with its clock ([Transport.v], [SimKeepalive.v]), [f32]
    ([Ui.v]).  Those with laws have an instance on which the witnesses run; the
    laws of the link are discharged by the transport and by the server.

    ** Files

    - [Text.v]: the string functions of the standard library the code calls.
    - [Dump.v]: [pfcp-common/src/dump.rs].
    - [Types.v], [Registry.v]: [pfcp-common/src/types.rs].
    - [Header.v], [Ie.v], [Builder.v], [Messages.v], [Dict.v]: the codec of
      PFCP, [header.rs], [ie.rs], [builder.rs], [messages.rs], [dict.rs] and
      [dict_ext.rs] of [pfcp-common/src].
    - [Common.v]: [upf-edge-common/src/lib.rs].
    - [Gtpu.v], [Xdp.v]: [upf-edge-ebpf/src/gtpu.rs] and [main.rs].
    - [Server.v], [Handlers.v], [Reporter.v], [SessionStore.v], [Stats.v]:
      [pfcp_server.rs] with [association.rs], [handle_msg.rs],
      [urr_reporter.rs], [session_store.rs], [metrics/session_stats.rs] of
      [upf-edge/src].
    - [Startup.v]: [main.rs] and [config.rs] of [upf-edge/src].
    - [Commands.v], [LogBuffer.v], [UpfTui.v], [SimTui.v], [Ui.v]:
      [command.rs], [app.rs], [runner.rs] and the drawing ([ui.rs], [tui.rs]) of
      the two [tui] directories.
    - [SimTasks.v]: the tasks the simulator's terminal spawns ([tui/runner.rs]),
      side by side.
    - [Feed.v]: the channel between the server and its terminal ([main.rs] with
      [--tui], the start of [run]).
    - [SmfSim.v], [Transport.v], [SimKeepalive.v], [SimMain.v],
      [Concurrent.v]: [state.rs], [validator.rs] and
      [scenario/basic_lifecycle.rs], [transport.rs], [keepalive.rs], [main.rs]
      with [config.rs], and [main.rs] with the tasks it spawns, of [smf-sim/src].
    - [HandlersSpec.v], [Alike.v], [Invariant.v], [Typing.v], [Mirror.v]:
      properties of the handlers and of histories of datagrams.
    - [Forwarding.v], [Signalling.v]: the policy a session's rules express,
      its implementation by maps and XDP programs, and its evolution with the
      requests the server accepts.
    - [Scenario.v]: runs of the server on concrete octets.
    - [Tests.v]: the repository's own tests, carried out on the model.
    - [System.v], [Lossy.v], [TuiSystem.v]: the composition: server, XDP
      programs and reporter interleaved; the simulator against the server, over
      a network that loses, delays, reorders and duplicates, and from its
      terminal.

    ** What the theorems show

    - Codec.  The TLV iterator inverts concatenation ([Ie.iter_ies_exact]);
      headers, establishments and modifications survive encoding and decoding
      ([header_roundtrip] of [Header], [session_establishment_roundtrip] and
      [session_modification_roundtrip] of [Messages]); decoding fails exactly for
      its listed errors ([Header.header_decode_total]); validation is exact
      ([Dict.validate_exact]); no parser panics ([Ie.parsers_never_panic]).
    - Handlers.  No datagram makes the server panic; every handler does what it
      is specified to ([establishment_installs], [modification_functional],
      [deletion_refines], [association_setup], [heartbeat_spec] of
      [HandlersSpec]); sessions do not disturb each other
      ([modification_isolated]); a deletion removes the UE's current entry, the
      PDRs it lists and what they refer to, and nothing else
      ([deletion_exact]), which for well-formed requests is all that was
      installed, the usage configurations apart ([establish_delete_clean]).
    - Histories.  In every interleaving the server's tables stay well formed
      and a session identifier is handed out once ([System.seids_never_reused]);
      all values fit their types ([Typing.handle_message_typed]); the stored
      copy brings the sessions back as they were established
      ([SessionStore.store_refines], [Mirror.restart_recovers]), provided the
      writes succeed and those of a session keep their order
      ([Mirror.store_order]), though no one owns them then
      ([Mirror.restored_sessions_unowned]); the terminal lists the server's
      sessions as long as its channel has room for the lists
      ([Feed.terminal_lists_sessions]).
    - Forwarding.  The XDP programs select the right FAR ([Xdp.select_far_spec]),
      build and strip exactly the right headers, given octet by octet
      ([downlink_encap], [uplink_decap], [encap_decap]), touch nothing else ([uplink_untouched],
      [downlink_untouched]) and count once ([uplink_accounting]).  Together with
      the maps they carry out the policy of the sessions
      ([Forwarding.programs_implement_policy]), and the maps follow what the
      server accepts ([Signalling.forwarding_follows_signalling]).
    - Reporting.  A tick sends exactly the reports that are due
      ([Reporter.report_tick_exact], [threshold_reported_once]); the simulator
      collects them ([SimMain.reports_collected]); the exporter shows the
      counters ([Stats.stats_polled]).
    - Start-up.  Settings, MAC addresses and interface indices end up where the
      programs read them ([Startup.main_configures]).
    - Client.  Retransmission is correct ([SmfSim.send_and_recv_spec]), also
      in time ([Transport.timed_exchange_refines]) and over a bad network
      ([Lossy.lossy_exchange_spec]), where a repeated establishment is carried
      out once per copy that arrives, duplicates made by the network included
      ([establishment_over_lossy_network]), and a
      repeated deletion once ([deletion_repeated]); the server's answers are
      the ones the client accepts, and go to the SEIDs stated in [addressed]
      ([System.answers_accepted],
      [command_establishes]); the terminal's sessions do not clash, whatever the
      order its commands run in ([SimTasks.commands_interleaved]), are the ones
      it shows ([screen_lists_sessions]) and, for commands one after the other
      ([command_job_alone], [SimTui.commands_allocate]), the server's
      ([TuiSystem.terminals_agree]); but answers to commands that run at once can
      cross ([SimTasks.answers_can_cross]), and one of them can sleep with the
      lock the others need ([lock_held_across_send]); the keepalive probes in time
      ([SimKeepalive.keepalive_schedule]) and finds its way back after a restart
      or a loss ([SimKeepalive.keepalive_recovers]); beside the scenario it
      changes nothing and sends the heartbeats the scenario waits for
      ([Concurrent.scenario_beside_keepalive]), since a heartbeat of a known SMF
      leaves the server alike ([Alike.heartbeat_alike]); but two tasks that do
      exchange at the same time can take each other's answers
      ([Transport.shared_socket]).
    - Liveness and termination: [Server.keepalive_rhythm],
      [SimKeepalive.keepalive_schedule], [UpfTui.terminal_loop],
      [SimMain.reports_collected]; what the screens stop showing:
      [Ui.pane_stuck].

    ** Bounds and fuel

    [Ie.iter_ies] runs on the length of the buffer, which is enough because each
    element takes at least four octets.  [Text.digits] makes at most 64 digits,
    enough for a [u64] in any radix.  The loops of the XDP programs run over the
    eight PDR slots, as in the code.  The association loops of the simulator
    repeat forever while the UPF does not answer: their fuel is the number of
    tries followed, and running out of it is a result of its own.  Every other
    recursion is on its data.  [TuiSystem.terminals_agree] bounds the number of
    commands so that no counter runs over; [Messages] states the sizes up to
    which a length field is right.  [SimKeepalive.keepalive_run] follows a
    number of turns of a loop that never ends; the theorems hold for any number.
    A job of [SimTasks.v] is a finite tree (the association's, of a number of
    tries); [commands_interleaved] says that turns without new commands end.
    [Concurrent.catch_up] is given a number of turns too, and
    [scenario_beside_keepalive] says how many are enough.

    ** Not modelled

    The cells ratatui makes of a widget, raw mode and editing of the input
    line; logging, except where its text is the result (terminals, dump);
    sockets and timers as such: what they yield and when is an argument; the
    installation of the Prometheus exporter ([metrics/exporter.rs]); the server's
    own heartbeats on the link of [Concurrent.v], on which only the simulator
    asks; the order in which senders that wait for room in a channel are woken;
    whether the channel of the keepalive's restart events has room (ten events,
    which in a scenario a task takes at once): [SimKeepalive.ka_restarts] are
    those that were offered to it; flag constants nothing uses; build scripts. *)

From Stdlib Require Export ZArith Lia.
From stdpp Require Export base option list gmap strings pretty.

Declare Scope upf_scope.
Delimit Scope upf_scope with upf.

#[global] Open Scope Z_scope.

(** ** Outcomes of Rust code

    [Ok]/[Err] are the two constructors of [Result]; [Panic] is an unwinding
    panic (an index or a slice out of range, an [unwrap] of [None]). *)
Inductive outcome (E A : Type) : Type :=
| Ok (a : A)
| Err (e : E)
| Panic.
Arguments Ok {E A} a.
Arguments Err {E A} e.
Arguments Panic {E A}.

#[export] Instance outcome_ret {E} : MRet (outcome E) := λ A a, Ok a.
#[export] Instance outcome_bind {E} : MBind (outcome E) := λ A B f m,
  match m with Ok a => f a | Err e => Err e | Panic => Panic end.
#[export] Instance outcome_fmap {E} : FMap (outcome E) := λ A B f m,
  match m with Ok a => Ok (f a) | Err e => Err e | Panic => Panic end.

(** [Result::map_err] and [Option::ok_or]. *)
Definition map_err {E F A} (f : E → F) (m : outcome E A) : outcome F A :=
  match m with Ok a => Ok a | Err e => Err (f e) | Panic => Panic end.

Definition ok_or {E A} (o : option A) (e : E) : outcome E A :=
  match o with Some a => Ok a | None => Err e end.

(** [Result::ok]: an error becomes [None]; a panic stays a panic. *)
Definition result_ok {E F A} (m : outcome E A) : outcome F (option A) :=
  match m with Ok a => Ok (Some a) | Err _ => Ok None | Panic => Panic end.

(** A [for] loop whose body may leave with [?]. *)
Fixpoint foldM {E A B} (f : A → B → outcome E A) (acc : A) (l : list B) : outcome E A :=
  match l with
  | [] => Ok acc
  | x :: l => a ← f acc x; foldM f a l
  end.

(** ** Stateful code

    Code that changes a state and may fail: the state is kept as it is when an
    error leaves it, since nothing rolls back. *)
Definition st (S E A : Type) : Type := S → outcome E A * S.

#[export] Instance st_ret {S E} : MRet (st S E) := λ A a s, (Ok a, s).
#[export] Instance st_bind {S E} : MBind (st S E) := λ A B f m s,
  match m s with
  | (Ok a, s') => f a s'
  | (Err e, s') => (Err e, s')
  | (Panic, s') => (Panic, s')
  end.

Definition gets {S E A} (f : S → A) : st S E A := λ s, (Ok (f s), s).
Definition modify {S E} (f : S → S) : st S E unit := λ s, (Ok (), f s).
Definition lift {S E A} (m : outcome E A) : st S E A := λ s, (m, s).
Definition fail {S E A} (e : E) : st S E A := λ s, (Err e, s).

Fixpoint for_each {S E A} (f : A → st S E unit) (l : list A) : st S E unit :=
  match l with
  | [] => mret ()
  | x :: l => f x;; for_each f l
  end.

(** ** Machine integers and byte strings

    A [w]-bit unsigned integer is a [Z] in [0, 2^w); [wrap] is Rust's [as]
    truncation and the wrap-around of release-profile arithmetic. *)
Definition wrap (w x : Z) : Z := x mod 2 ^ w.
Definition u8 (x : Z) : Prop := 0 ≤ x < 256.
Definition u16 (x : Z) : Prop := 0 ≤ x < 65536.
Definition u32 (x : Z) : Prop := 0 ≤ x < 4294967296.
Definition u64 (x : Z) : Prop := 0 ≤ x < 18446744073709551616.

Definition bytes_ok (l : list Z) : Prop := Forall u8 l.

(** Little-endian digits, the memory order of the target ([bpfel]); the
    big-endian (network) order is its reversal. *)
Fixpoint to_le_bytes (n : nat) (x : Z) : list Z :=
  match n with
  | O => []
  | S n => x mod 256 :: to_le_bytes n (x / 256)
  end.

Fixpoint from_le_bytes (l : list Z) : Z :=
  match l with
  | [] => 0
  | b :: l => b + 256 * from_le_bytes l
  end.

Definition to_be_bytes (n : nat) (x : Z) : list Z := reverse (to_le_bytes n x).
Definition from_be_bytes (l : list Z) : Z := from_le_bytes (reverse l).

(** [uN::to_be] and [uN::from_be] on a little-endian machine: the same byte
    swap of an [n]-byte integer. *)
Definition bswap (n : nat) (x : Z) : Z := from_be_bytes (to_le_bytes n x).

(** [buf[i]], [&buf[a..b]] and [uN::from_be_bytes([buf[i], .., buf[i+n-1]])]. *)
Definition idx {E} (buf : list Z) (i : nat) : outcome E Z :=
  match buf !! i with Some b => Ok b | None => Panic end.

Definition slice {E} (buf : list Z) (a b : nat) : outcome E (list Z) :=
  if decide (a ≤ b ≤ length buf)%nat then Ok (take (b - a) (drop a buf)) else Panic.

Definition be_at {E} (n : nat) (buf : list Z) (i : nat) : outcome E Z :=
  bs ← mapM (idx buf) (seq i n); mret (from_be_bytes bs).

(** [x & mask != 0], the test of a flag. *)
Definition has_flag (x mask : Z) : bool := negb (Z.land x mask =? 0).

(** ** Tactics *)

Lemma bind_Ok {E A B} (a : A) (f : A → outcome E B) : Ok a ≫= f = f a.
Proof. done. Qed.
Lemma bind_Err {E A B} (e : E) (f : A → outcome E B) : Err e ≫= f = Err e.
Proof. done. Qed.
Lemma bind_Panic {E A B} (f : A → outcome E B) : Panic ≫= f = Panic.
Proof. done. Qed.
Lemma bind_Ok_inv {E A B} (m : outcome E A) (f : A → outcome E B) b :
  m ≫= f = Ok b → ∃ a, m = Ok a ∧ f a = Ok b.
Proof. destruct m as [a|e|]; [by exists a|done|done]. Qed.
Lemma mret_Ok {E A} (a : A) : mret a = Ok (E:=E) a.
Proof. done. Qed.

Create Rewrite HintDb outcome.
#[export] Hint Rewrite @bind_Ok @bind_Err @bind_Panic @mret_Ok : outcome.

(** Reduce the monad operations of [outcome]. *)
Ltac simpl_outcome := autorewrite with outcome; cbv beta iota.

(** Split the result of a bind that is known to be [Ok]. *)
Ltac inv_ok H :=
  lazymatch type of H with
  | mbind _ ?m = Ok _ =>
      let x := fresh "x" in let E := fresh "Hok" in
      destruct m as [x| |] eqn:E; simpl in H; [|discriminate H|discriminate H]
  | Ok _ = Ok _ => injection H as H
  | mret _ = Ok _ => injection H as H
  | Err _ = Ok _ => discriminate H
  | Panic = Ok _ => discriminate H
  end.

(** Split the bytes of a literal prefix out of a [bytes_ok] hypothesis. *)
Ltac inv_bytes :=
  repeat match goal with
  | H : bytes_ok (_ :: _) |- _ => apply Forall_cons_1 in H as [? H]
  | H : Forall u8 (_ :: _) |- _ => apply Forall_cons_1 in H as [? H]
  | H : bytes_ok (_ ++ _) |- _ => apply Forall_app in H as [? H]
  | H : Forall u8 (_ ++ _) |- _ => apply Forall_app in H as [? H]
  end.

(** Case analysis on a length guard, as a linear fact. *)
Ltac case_len :=
  match goal with
  | |- context [(?a <? ?b)%nat] => destruct (Nat.ltb_spec a b)
  | |- context [(?a <=? ?b)%nat] => destruct (Nat.leb_spec a b)
  | |- context [(?a =? ?b)%nat] => destruct (Nat.eqb_spec a b)
  end.

(** Prove [bytes_ok] of a literal list whose elements are known bytes. *)
Ltac lit_bytes := repeat (apply Forall_cons_2; [assumption|]); apply Forall_nil_2.

(** Prove [bytes_ok] of a closed list by evaluation. *)
Ltac check_bytes := apply (bool_decide_unpack _); vm_compute; exact I.

Ltac uint := unfold u8, u16, u32, u64 in *; lia.

(** ** Deciding widths *)

#[export] Instance u8_dec x : Decision (u8 x).
Proof. unfold u8. apply _. Defined.
#[export] Instance bytes_ok_dec l : Decision (bytes_ok l).
Proof. unfold bytes_ok. apply _. Defined.

(** ** Byte codecs *)

Create HintDb bytes.
Create Rewrite HintDb len.

Lemma length_to_le_bytes n x : length (to_le_bytes n x) = n.
Proof. revert x; induction n; intros; simpl; auto. Qed.

Lemma length_to_be_bytes n x : length (to_be_bytes n x) = n.
Proof. unfold to_be_bytes. by rewrite length_reverse, length_to_le_bytes. Qed.

Lemma bytes_ok_to_le_bytes n x : bytes_ok (to_le_bytes n x).
Proof.
  revert x; induction n as [|n IH]; intros x; constructor; [|apply IH].
  unfold u8. apply Z.mod_pos_bound. lia.
Qed.

Lemma bytes_ok_app l1 l2 : bytes_ok (l1 ++ l2) ↔ bytes_ok l1 ∧ bytes_ok l2.
Proof. apply Forall_app. Qed.

Lemma bytes_ok_reverse l : bytes_ok l → bytes_ok (reverse l).
Proof. unfold bytes_ok. by rewrite Forall_reverse. Qed.

Lemma bytes_ok_to_be_bytes n x : bytes_ok (to_be_bytes n x).
Proof. apply bytes_ok_reverse, bytes_ok_to_le_bytes. Qed.

Lemma bytes_ok_take n l : bytes_ok l → bytes_ok (take n l).
Proof. apply Forall_take. Qed.

Lemma bytes_ok_drop n l : bytes_ok l → bytes_ok (drop n l).
Proof. apply Forall_drop. Qed.

Lemma pow256_S n : 256 ^ Z.of_nat (S n) = 256 * 256 ^ Z.of_nat n.
Proof. rewrite Nat2Z.inj_succ, Z.pow_succ_r by lia. done. Qed.

Lemma pow256_pos n : 0 < 256 ^ Z.of_nat n.
Proof. apply Z.pow_pos_nonneg; lia. Qed.

Lemma from_to_le_bytes n x : from_le_bytes (to_le_bytes n x) = x mod 256 ^ Z.of_nat n.
Proof.
  revert x; induction n as [|n IH]; intros x.
  - simpl. by rewrite Z.mod_1_r.
  - cbn [to_le_bytes from_le_bytes]. rewrite IH, pow256_S.
    rewrite Z.rem_mul_r; [lia|lia|apply pow256_pos].
Qed.

Lemma to_from_le_bytes l : bytes_ok l → to_le_bytes (length l) (from_le_bytes l) = l.
Proof.
  induction 1 as [|b l Hb Hl IH]; cbn [length to_le_bytes from_le_bytes]; [done|].
  unfold u8 in Hb.
  rewrite (Z.mul_comm 256), Z.mod_add, Z.mod_small, Z.div_add, Z.div_small by lia.
  by rewrite Z.add_0_l, IH.
Qed.

Lemma from_le_bytes_bound l :
  bytes_ok l → 0 ≤ from_le_bytes l < 256 ^ Z.of_nat (length l).
Proof.
  induction 1 as [|b l Hb Hl IH]; cbn [length from_le_bytes]; [done|].
  rewrite pow256_S. unfold u8 in Hb. lia.
Qed.

Lemma from_to_be_bytes n x : from_be_bytes (to_be_bytes n x) = x mod 256 ^ Z.of_nat n.
Proof.
  unfold from_be_bytes, to_be_bytes. rewrite reverse_involutive. apply from_to_le_bytes.
Qed.

Lemma to_from_be_bytes l : bytes_ok l → to_be_bytes (length l) (from_be_bytes l) = l.
Proof.
  intros H. unfold from_be_bytes, to_be_bytes.
  rewrite <-(length_reverse l), to_from_le_bytes by by apply bytes_ok_reverse.
  apply reverse_involutive.
Qed.

Lemma from_be_bytes_bound l :
  bytes_ok l → 0 ≤ from_be_bytes l < 256 ^ Z.of_nat (length l).
Proof.
  intros H. unfold from_be_bytes. rewrite <-(length_reverse l).
  by apply from_le_bytes_bound, bytes_ok_reverse.
Qed.

Lemma from_be_bytes_1 b : from_be_bytes [b] = b.
Proof. unfold from_be_bytes. change (reverse [b]) with [b]. cbn [from_le_bytes]. lia. Qed.

Lemma from_to_be_16 x : u16 x → from_be_bytes (to_be_bytes 2 x) = x.
Proof. intros. rewrite from_to_be_bytes. apply Z.mod_small. by uint. Qed.

Lemma from_to_be_32 x : u32 x → from_be_bytes (to_be_bytes 4 x) = x.
Proof. intros. rewrite from_to_be_bytes. apply Z.mod_small. by uint. Qed.

Lemma from_to_be_64 x : u64 x → from_be_bytes (to_be_bytes 8 x) = x.
Proof. intros. rewrite from_to_be_bytes. apply Z.mod_small. by uint. Qed.

Lemma to_be_bytes_inj n x y :
  0 ≤ x < 256 ^ Z.of_nat n → 0 ≤ y < 256 ^ Z.of_nat n →
  to_be_bytes n x = to_be_bytes n y → x = y.
Proof.
  intros Hx Hy H. apply (f_equal from_be_bytes) in H.
  by rewrite !from_to_be_bytes, !Z.mod_small in H.
Qed.

(** The byte swap is an involution, hence injective. *)
Lemma bswap_bound n x : 0 ≤ bswap n x < 256 ^ Z.of_nat n.
Proof.
  unfold bswap. pose proof (from_be_bytes_bound (to_le_bytes n x)) as H.
  rewrite length_to_le_bytes in H. apply H, bytes_ok_to_le_bytes.
Qed.

Lemma to_be_bytes_bswap n x : to_be_bytes n (bswap n x) = to_le_bytes n x.
Proof.
  unfold bswap. pose proof (to_from_be_bytes (to_le_bytes n x)) as H.
  rewrite length_to_le_bytes in H. apply H, bytes_ok_to_le_bytes.
Qed.

Lemma to_le_bytes_bswap n x : to_le_bytes n (bswap n x) = to_be_bytes n x.
Proof.
  rewrite <-(reverse_involutive (to_le_bytes n (bswap n x))).
  change (reverse (to_le_bytes n (bswap n x))) with (to_be_bytes n (bswap n x)).
  by rewrite to_be_bytes_bswap.
Qed.

Lemma bswap_involutive n x : 0 ≤ x < 256 ^ Z.of_nat n → bswap n (bswap n x) = x.
Proof.
  intros Hx. unfold bswap at 1. rewrite to_le_bytes_bswap, from_to_be_bytes.
  by apply Z.mod_small.
Qed.

Lemma bswap_inj n x y :
  0 ≤ x < 256 ^ Z.of_nat n → 0 ≤ y < 256 ^ Z.of_nat n → bswap n x = bswap n y → x = y.
Proof.
  intros Hx Hy H. rewrite <-(bswap_involutive n x), <-(bswap_involutive n y) by done.
  by rewrite H.
Qed.

#[export] Hint Resolve bytes_ok_to_be_bytes bytes_ok_to_le_bytes bytes_ok_take
  bytes_ok_drop bytes_ok_reverse : bytes.
#[export] Hint Rewrite length_to_be_bytes length_to_le_bytes @length_app
  @length_reverse @length_cons @length_nil : len.

(** Compute lengths of concatenated encodings, then arithmetic. *)
Ltac len := autorewrite with len in *; simpl length in *; try lia.

(** ** Indexed reads *)

Lemma idx_Ok {E} buf i b : buf !! i = Some b → idx (E:=E) buf i = Ok b.
Proof. unfold idx. by intros ->. Qed.

Lemma idx_Ok_inv {E} buf i b : idx (E:=E) buf i = Ok b → buf !! i = Some b.
Proof. unfold idx. destruct (buf !! i); [by intros [= ->]|done]. Qed.

Lemma idx_total {E} buf i : (i < length buf)%nat → idx (E:=E) buf i = Ok (nth i buf 0).
Proof.
  intros H. destruct (lookup_lt_is_Some_2 buf i H) as [b Hb].
  rewrite (idx_Ok _ _ _ Hb). f_equal. symmetry. by apply nth_lookup_Some.
Qed.

Lemma slice_Ok {E} buf a b :
  (a ≤ b ≤ length buf)%nat → slice (E:=E) buf a b = Ok (take (b - a) (drop a buf)).
Proof. intros H. unfold slice. by rewrite decide_True. Qed.

Lemma slice_tail {E} buf a :
  (a ≤ length buf)%nat → slice (E:=E) buf a (length buf) = Ok (drop a buf).
Proof.
  intros. rewrite slice_Ok by lia. by rewrite take_ge by (rewrite length_drop; lia).
Qed.

Lemma mapM_idx_seq {E} buf i n :
  (i + n ≤ length buf)%nat → mapM (idx (E:=E) buf) (seq i n) = Ok (take n (drop i buf)).
Proof.
  revert i; induction n as [|n IH]; intros i Hi; [done|].
  destruct (lookup_lt_is_Some_2 buf i) as [b Hb]; [lia|].
  rewrite (drop_S buf b i Hb). cbn [seq take mapM].
  rewrite (idx_Ok _ _ _ Hb). simpl. by rewrite IH by lia.
Qed.

Lemma be_at_Ok {E} n buf i :
  (i + n ≤ length buf)%nat →
  be_at (E:=E) n buf i = Ok (from_be_bytes (take n (drop i buf))).
Proof. intros. unfold be_at. by rewrite mapM_idx_seq. Qed.

(** A field read at the offset where an encoder wrote it. *)
Lemma be_at_encoded {E} n i pre x post :
  i = length pre →
  be_at (E:=E) n (pre ++ to_be_bytes n x ++ post) i = Ok (x mod 256 ^ Z.of_nat n).
Proof.
  intros ->. rewrite be_at_Ok by len.
  rewrite drop_app_length, take_app_length' by len.
  by rewrite from_to_be_bytes.
Qed.

(** ** Loops *)

Lemma foldM_app {E A B} (f : A → B → outcome E A) a l1 l2 :
  foldM f a (l1 ++ l2) = (a' ← foldM f a l1; foldM f a' l2).
Proof.
  revert a; induction l1 as [|x l1 IH]; intros a; simpl; [done|].
  destruct (f a x); simpl; auto.
Qed.

Lemma foldM_no_panic {E A B} (f : A → B → outcome E A) a l :
  (∀ a x, x ∈ l → f a x ≠ Panic) → foldM f a l ≠ Panic.
Proof.
  revert a; induction l as [|x l IH]; intros a Hf; simpl; [done|].
  destruct (f a x) eqn:E1; simpl; [|done|].
  - apply IH. intros; apply Hf. by right.
  - exfalso. by eapply Hf; [left|].
Qed.

Lemma mapM_no_panic {E A B} (f : A → outcome E B) l :
  (∀ x, x ∈ l → f x ≠ Panic) → mapM f l ≠ Panic.
Proof.
  induction l as [|x l IH]; intros Hf; simpl; [done|].
  destruct (f x) eqn:E1; simpl; [|done|].
  - destruct (mapM f l) eqn:E2; simpl; try done.
    exfalso. apply IH; [|done]. intros; apply Hf. by right.
  - exfalso. by eapply Hf; [left|].
Qed.

Lemma mapM_Ok_fmap {E A B} (f : A → outcome E B) (g : A → B) l :
  (∀ x, x ∈ l → f x = Ok (g x)) → mapM f l = Ok (g <$> l).
Proof.
  induction l as [|x l IH]; intros Hf; simpl; [done|].
  rewrite Hf by left. simpl. rewrite IH; [done|]. intros; apply Hf. by right.
Qed.

Lemma omap_list_cons {A B} (f : A → option B) x (l : list A) :
  omap f (x :: l) = match f x with Some y => y :: omap f l | None => omap f l end.
Proof. done. Qed.

(** ** Reasoning about stateful code

    [no_panic]: no run ends in a panic, whatever the state.  [steps R m]: every
    run, also one that ends in an error, changes the state within [R]. *)

Definition no_panic {S E A} (m : st S E A) : Prop := ∀ s, (m s).1 ≠ Panic.

Definition steps {S E A} (R : relation S) (m : st S E A) : Prop := ∀ s, R s (m s).2.

Create HintDb stateful.

Section stateful.
Context {S E : Type}.

Lemma st_bind_eq {A B} (m : st S E A) (f : A → st S E B) s :
  (m ≫= f) s =
  match m s with
  | (Ok a, s') => f a s'
  | (Err e, s') => (Err e, s')
  | (Panic, s') => (Panic, s')
  end.
Proof. done. Qed.

(** A successful run of a sequence is a successful run of both parts. *)
Lemma st_bind_ok {A B} (m : st S E A) (f : A → st S E B) s b s' :
  (m ≫= f) s = (Ok b, s') ↔ ∃ a s1, m s = (Ok a, s1) ∧ f a s1 = (Ok b, s').
Proof.
  rewrite st_bind_eq. destruct (m s) as [[a|e|] s1]; split; try naive_solver.
Qed.

Lemma lift_ok {A} (m : outcome E A) (s : S) a s' : lift m s = (Ok a, s') → m = Ok a ∧ s' = s.
Proof. unfold lift. by intros [= -> ->]. Qed.

Lemma no_panic_ret {A} (a : A) : no_panic (mret a : st S E A).
Proof. by intros s. Qed.
Lemma no_panic_gets {A} (f : S → A) : no_panic (gets (E:=E) f).
Proof. by intros s. Qed.
Lemma no_panic_modify (f : S → S) : no_panic (modify (E:=E) f).
Proof. by intros s. Qed.
Lemma no_panic_fail {A} (e : E) : no_panic (fail e : st S E A).
Proof. by intros s. Qed.
Lemma no_panic_lift {A} (m : outcome E A) : m ≠ Panic → no_panic (lift m : st S E A).
Proof. by intros Hm s. Qed.
Lemma no_panic_bind {A B} (m : st S E A) (f : A → st S E B) :
  no_panic m → (∀ a, no_panic (f a)) → no_panic (m ≫= f).
Proof.
  intros Hm Hf s. rewrite st_bind_eq. specialize (Hm s).
  destruct (m s) as [[a|e|] s']; simpl in *; [apply Hf|done|done].
Qed.
Lemma no_panic_for_each {A} (f : A → st S E unit) l :
  (∀ a, no_panic (f a)) → no_panic (for_each f l).
Proof.
  intros Hf. induction l as [|x l IH]; [apply no_panic_ret|].
  by apply no_panic_bind.
Qed.

Context (R : relation S) `{!PreOrder R}.

Lemma steps_ret {A} (a : A) : steps R (mret a : st S E A).
Proof. intros s. simpl. reflexivity. Qed.
Lemma steps_gets {A} (f : S → A) : steps R (gets (E:=E) f).
Proof. intros s. simpl. reflexivity. Qed.
Lemma steps_fail {A} (e : E) : steps R (fail e : st S E A).
Proof. intros s. simpl. reflexivity. Qed.
Lemma steps_lift {A} (m : outcome E A) : steps R (lift m : st S E A).
Proof. intros s. simpl. reflexivity. Qed.
Lemma steps_modify (f : S → S) : (∀ s, R s (f s)) → steps R (modify (E:=E) f).
Proof. intros Hf s. apply Hf. Qed.
Lemma steps_bind {A B} (m : st S E A) (f : A → st S E B) :
  steps R m → (∀ a, steps R (f a)) → steps R (m ≫= f).
Proof.
  intros Hm Hf s. rewrite st_bind_eq. specialize (Hm s).
  destruct (m s) as [[a|e|] s']; simpl in *; [|done|done].
  transitivity s'; [done|apply Hf].
Qed.
Lemma steps_for_each {A} (f : A → st S E unit) l :
  (∀ a, a ∈ l → steps R (f a)) → steps R (for_each f l).
Proof.
  induction l as [|x l IH]; intros Hf; [apply steps_ret|].
  apply steps_bind; [apply Hf; left|]. intros _. apply IH. intros; apply Hf. by right.
Qed.

(** Two programs run from related states to equal results and related states. *)
Definition couples {A} (m m' : st S E A) : Prop := (R ==> prod_relation eq R)%signature m m'.

Lemma couples_ret {A} (a : A) : couples (mret a) (mret a).
Proof. by intros s s' HR. Qed.
Lemma couples_lift {A} (m : outcome E A) : couples (lift m) (lift m).
Proof. by intros s s' HR. Qed.
Lemma couples_fail {A} (e : E) : couples (fail e : st S E A) (fail e).
Proof. by intros s s' HR. Qed.
Lemma couples_gets {A} (f : S → A) : (∀ s s', R s s' → f s = f s') → couples (gets f) (gets f).
Proof. intros Hf s s' HR. split; [|done]. cbn. by rewrite (Hf s s'). Qed.
Lemma couples_modify (f f' : S → S) :
  (∀ s s', R s s' → R (f s) (f' s')) → couples (modify f) (modify f').
Proof. intros Hf s s' HR. split; [done|]. by apply Hf. Qed.
Lemma couples_bind {A B} (m m' : st S E A) (f f' : A → st S E B) :
  couples m m' → (∀ a, couples (f a) (f' a)) → couples (m ≫= f) (m' ≫= f').
Proof.
  intros Hm Hf s s' HR. rewrite !st_bind_eq. destruct (Hm s s' HR) as [E1 E2].
  destruct (m s) as [r t], (m' s') as [r' t']. cbn in E1, E2. subst r'.
  destruct r as [a|e|]; [by apply Hf|done|done].
Qed.
Lemma couples_for_each {A} (f f' : A → st S E unit) l :
  (∀ a, couples (f a) (f' a)) → couples (for_each f l) (for_each f' l).
Proof.
  intros Hf. induction l as [|x l IH]; [apply couples_ret|]. by apply couples_bind.
Qed.
End stateful.

#[export] Hint Resolve couples_ret couples_lift couples_fail : stateful.

(** Walk through one program run from two related states. *)
Ltac stroll_together :=
  repeat first
    [ progress intros
    | solve [eauto 2 with stateful]
    | apply couples_bind
    | apply couples_for_each
    | match goal with |- couples _ (match ?x with _ => _ end) _ => destruct x end
    | match goal with |- couples _ (if ?x then _ else _) _ => destruct x end ].

#[export] Hint Resolve no_panic_ret no_panic_gets no_panic_modify no_panic_fail no_panic_lift
  no_panic_bind no_panic_for_each : stateful.
#[export] Hint Resolve steps_ret steps_gets steps_fail steps_lift : stateful.

(** Walk through a stateful program, leaf by leaf. *)
Ltac stroll :=
  repeat first
    [ progress intros
    | solve [eauto 2 with stateful]
    | apply steps_bind; [apply _| |]
    | apply steps_for_each; [apply _|]
    | apply steps_ret, _ | apply steps_gets, _ | apply steps_lift, _ | apply steps_fail, _
    | match goal with |- steps _ (match ?x with _ => _ end) => destruct x end
    | match goal with |- steps _ (if ?x then _ else _) => destruct x end ].
