(* ===== verification/Text.v ===== *)
(** * Text: the Rust string operations the program uses

    A [str] is the list of its Unicode scalar values.  The definitions model
    the standard library functions that [src/] calls (they stand for no line of
    [src/] themselves): [Display] of unsigned integers and of [Ipv4Addr],
    [uN::from_str_radix] and [str::parse], [trim], [split_whitespace], [split],
    [strip_prefix], [trim_start_matches], [find], [lines]. *)

From S2P Require Import Prelude.

Definition str : Type := list Z.

(** The scalar values of a UTF-8 byte sequence; [lit] reads the text of a
    string literal, whose bytes the source file holds in UTF-8. *)
Fixpoint utf8_decode (l : list Z) : str :=
  match l with
  | [] => []
  | b :: l1 =>
      if b <? 128 then b :: utf8_decode l1 else
      match l1 with
      | [] => [65533]
      | b1 :: l2 =>
          if b <? 224 then ((b - 192) * 64 + (b1 - 128)) :: utf8_decode l2 else
          match l2 with
          | [] => [65533]
          | b2 :: l3 =>
              if b <? 240 then
                ((b - 224) * 4096 + (b1 - 128) * 64 + (b2 - 128)) :: utf8_decode l3
              else
              match l3 with
              | [] => [65533]
              | b3 :: l4 =>
                  ((b - 240) * 262144 + (b1 - 128) * 4096 + (b2 - 128) * 64 + (b3 - 128))
                    :: utf8_decode l4
              end
          end
      end
  end.

Fixpoint string_bytes (s : string) : list Z :=
  match s with
  | EmptyString => []
  | String c s => Z.of_N (Ascii.N_of_ascii c) :: string_bytes s
  end.

Definition lit (s : string) : str := utf8_decode (string_bytes s).

(** ** Characters *)

(** [char::is_whitespace]: the code points of the property [White_Space]. *)
Definition is_whitespace (c : Z) : bool :=
  ((9 <=? c) && (c <=? 13)) || (c =? 32) || (c =? 133) || (c =? 160) || (c =? 5760) ||
  ((8192 <=? c) && (c <=? 8202)) || (c =? 8232) || (c =? 8233) || (c =? 8239) ||
  (c =? 8287) || (c =? 12288).

(** [char::to_digit] and its inverse on the digits [Display] and [LowerHex] print. *)
Definition to_digit (radix c : Z) : option Z :=
  let d := if (48 <=? c) && (c <=? 57) then c - 48
           else if (97 <=? c) && (c <=? 122) then c - 87
           else if (65 <=? c) && (c <=? 90) then c - 55 else 36 in
  if d <? radix then Some d else None.

Definition digit_char (d : Z) : Z := if d <? 10 then 48 + d else 87 + d.

(** ** Numbers *)

(** The digits of [x], the least significant first; 64 digits are enough for a
    [u64] in any radix. *)
Fixpoint digits (radix : Z) (n : nat) (x : Z) : str :=
  match n with
  | O => []
  | S n => if x <? radix then [digit_char x]
           else digit_char (x mod radix) :: digits radix n (x / radix)
  end.

Definition show_uint (radix x : Z) : str := reverse (digits radix 64 x).

(** [x.to_string()] and [format!("{:#x}", x)]. *)
Definition show_dec (x : Z) : str := show_uint 10 x.
Definition show_hex (x : Z) : str := lit "0x" ++ show_uint 16 x.

(** The digit loop of [from_str_radix], with its checked arithmetic. *)
Fixpoint parse_digits (radix w acc : Z) (s : str) : option Z :=
  match s with
  | [] => Some acc
  | c :: s =>
      d ← to_digit radix c;
      let v := acc * radix + d in
      if v <? 2 ^ w then parse_digits radix w v s else None
  end.

(** [uN::from_str_radix(s, radix).ok()] for a [w]-bit type: no digits is an
    error, a sign alone is an error, one leading ['+'] is skipped. *)
Definition from_str_radix (w radix : Z) (s : str) : option Z :=
  match s with
  | [] => None
  | c :: ds =>
      if c =? 43 then match ds with [] => None | _ => parse_digits radix w 0 ds end
      else parse_digits radix w 0 s
  end.

(** [s.parse::<uN>().ok()] *)
Definition parse_uint (w : Z) (s : str) : option Z := from_str_radix w 10 s.

(** ** Addresses: an [Ipv4Addr] is its [u32] *)

Fixpoint intercalate (sep : str) (l : list str) : str :=
  match l with
  | [] => []
  | [s] => s
  | s :: l => s ++ sep ++ intercalate sep l
  end.

Definition show_ipv4 (ip : Z) : str := intercalate [46] (show_dec <$> to_be_bytes 4 ip).

(** [Parser::read_number] of [core::net] for an octet: at most three digits, no
    leading zero, a value of eight bits. *)
Fixpoint read_digits (s : str) (acc : Z) (n : nat) : Z * nat * str :=
  match s with
  | [] => (acc, n, [])
  | c :: s' =>
      match to_digit 10 c with
      | Some d => read_digits s' (acc * 10 + d) (S n)
      | None => (acc, n, s)
      end
  end.

Definition read_octet (s : str) : option (Z * str) :=
  let '(v, n, rest) := read_digits s 0 0 in
  if (n =? 0)%nat || (3 <? n)%nat then None
  else if (1 <? n)%nat && bool_decide (head s = Some 48) then None
  else if v <? 256 then Some (v, rest) else None.

(** The groups after the first, each behind a dot. *)
Fixpoint read_octets (n : nat) (s : str) : option (list Z * str) :=
  match n with
  | O => Some ([], s)
  | S n =>
      match s with
      | c :: s => if c =? 46 then
                    '(v, s) ← read_octet s;
                    '(vs, s) ← read_octets n s;
                    Some (v :: vs, s)
                  else None
      | [] => None
      end
  end.

(** [s.parse::<Ipv4Addr>().ok()] *)
Definition parse_ipv4 (s : str) : option Z :=
  '(v, s) ← read_octet s;
  '(vs, s) ← read_octets 3 s;
  match s with [] => Some (from_be_bytes (v :: vs)) | _ => None end.

(** ** Slices *)

Fixpoint trim_start (s : str) : str :=
  match s with
  | c :: s' => if is_whitespace c then trim_start s' else s
  | [] => []
  end.

Definition trim (s : str) : str := reverse (trim_start (reverse (trim_start s))).

(** [s.split(p)] *)
Fixpoint split (p : Z → bool) (s : str) : list str :=
  match s with
  | [] => [[]]
  | c :: s =>
      if p c then [] :: split p s else
      match split p s with
      | w :: ws => (c :: w) :: ws
      | [] => [[c]]
      end
  end.

Definition split_whitespace (s : str) : list str :=
  List.filter (λ w, match w with [] => false | _ => true end) (split is_whitespace s).

Fixpoint strip_prefix (p s : str) : option str :=
  match p, s with
  | [], _ => Some s
  | a :: p, b :: s => if a =? b then strip_prefix p s else None
  | _ :: _, [] => None
  end.

(** [s.trim_start_matches(p)] for a non-empty [p]: every leading occurrence. *)
Fixpoint trim_start_matches_fuel (n : nat) (p s : str) : str :=
  match n with
  | O => s
  | S n => match strip_prefix p s with Some s' => trim_start_matches_fuel n p s' | None => s end
  end.

Definition trim_start_matches (p s : str) : str := trim_start_matches_fuel (length s) p s.

(** [&s[s.find(p)? + p.len()..]]: what follows the first occurrence. *)
Fixpoint after_first (p s : str) : option str :=
  match strip_prefix p s with
  | Some s' => Some s'
  | None => match s with [] => None | _ :: s => after_first p s end
  end.

(** The part before the first character of [p], the whole text when there is
    none. *)
Fixpoint take_until (p : Z → bool) (s : str) : str :=
  match s with
  | c :: s => if p c then [] else c :: take_until p s
  | [] => []
  end.

(** [s.lines()] of a text without carriage returns: a final line feed ends the
    last line. *)
Definition lines (s : str) : list str :=
  let ls := split (λ c, c =? 10) s in
  match last ls with Some [] => take (length ls - 1) ls | _ => ls end.

(** ** Printing then parsing *)

Lemma to_digit_digit_char radix d :
  0 ≤ d < radix → radix ≤ 36 → to_digit radix (digit_char d) = Some d.
Proof.
  intros Hd Hr. unfold to_digit, digit_char.
  destruct (Z.ltb_spec d 10).
  - replace ((48 <=? 48 + d) && (48 + d <=? 57)) with true by lia.
    replace (48 + d - 48) with d by lia. by replace (d <? radix) with true by lia.
  - replace ((48 <=? 87 + d) && (87 + d <=? 57)) with false by lia.
    replace ((97 <=? 87 + d) && (87 + d <=? 122)) with true by lia.
    replace (87 + d - 87) with d by lia. by replace (d <? radix) with true by lia.
Qed.

(** The characters of a printed number. *)
Definition is_digit (radix c : Z) : Prop := ∃ d, 0 ≤ d < radix ∧ c = digit_char d.

Lemma digits_ok radix n x :
  2 ≤ radix → 0 ≤ x → Forall (is_digit radix) (digits radix n x).
Proof.
  intros Hr. revert x; induction n as [|n IH]; intros x Hx; simpl; [constructor|].
  destruct (Z.ltb_spec x radix); (constructor; [|]).
  - by exists x.
  - constructor.
  - exists (x mod radix). split; [apply Z.mod_pos_bound; lia|done].
  - apply IH. apply Z.div_pos; lia.
Qed.

Lemma show_uint_digits radix x :
  2 ≤ radix → 0 ≤ x → Forall (is_digit radix) (show_uint radix x).
Proof. intros. unfold show_uint. rewrite Forall_reverse. by apply digits_ok. Qed.

Lemma digits_S radix n x :
  digits radix (S n) x =
  if x <? radix then [digit_char x] else digit_char (x mod radix) :: digits radix n (x / radix).
Proof. done. Qed.

Lemma show_uint_nonnil radix x : show_uint radix x ≠ [].
Proof.
  unfold show_uint. change 64%nat with (S 63). rewrite digits_S. case_match;
    rewrite reverse_cons; by destruct (reverse _).
Qed.

Lemma parse_digits_app radix w acc s1 s2 :
  parse_digits radix w acc (s1 ++ s2) = (v ← parse_digits radix w acc s1; parse_digits radix w v s2).
Proof.
  revert acc; induction s1 as [|c s1 IH]; intros acc; [done|].
  simpl. destruct (to_digit radix c) as [d|]; [|done]. simpl. case_match; [apply IH|done].
Qed.

Lemma parse_digits_1 radix w acc d :
  0 ≤ d < radix → radix ≤ 36 → acc * radix + d < 2 ^ w →
  parse_digits radix w acc [digit_char d] = Some (acc * radix + d).
Proof.
  intros Hd Hr Hw. cbn [parse_digits]. rewrite to_digit_digit_char by done.
  cbn [mbind option_bind]. by replace (acc * radix + d <? 2 ^ w) with true by lia.
Qed.

Lemma parse_show_digits radix w n x :
  2 ≤ radix ≤ 36 → 0 ≤ x < 2 ^ w → x < radix ^ Z.of_nat n →
  (0 < n)%nat →
  parse_digits radix w 0 (reverse (digits radix n x)) = Some x.
Proof.
  intros Hr. revert x; induction n as [|n IH]; intros x Hx Hn Hpos; [lia|].
  rewrite digits_S.
  destruct (Z.ltb_spec x radix).
  - change (reverse [digit_char x]) with [digit_char x].
    by rewrite parse_digits_1 by lia.
  - rewrite Nat2Z.inj_succ, Z.pow_succ_r in Hn by lia.
    assert (x / radix < radix ^ Z.of_nat n) as Hq by (apply Z.div_lt_upper_bound; lia).
    assert (0 < x / radix) by (apply Z.div_str_pos; lia).
    assert (x / radix ≤ x) by (apply Z.div_le_upper_bound; nia).
    pose proof (Z.div_mod x radix).
    rewrite reverse_cons, parse_digits_app, IH; [|lia|done|destruct n; simpl in *; lia].
    cbn [mbind option_bind].
    rewrite parse_digits_1 by (try apply Z.mod_pos_bound; lia). f_equal. lia.
Qed.

Lemma digit_char_nonspecial radix c :
  radix ≤ 36 → is_digit radix c → 48 ≤ c ≤ 57 ∨ 97 ≤ c ≤ 122.
Proof. intros Hr (d & Hd & ->). unfold digit_char. case_match; lia. Qed.

(** [from_str_radix] is a left inverse of printing in the same radix. *)
Lemma from_str_radix_show w radix x :
  0 ≤ w ≤ 64 → 2 ≤ radix ≤ 36 → 0 ≤ x < 2 ^ w →
  from_str_radix w radix (show_uint radix x) = Some x.
Proof.
  intros Hw Hr Hx.
  assert (parse_digits radix w 0 (show_uint radix x) = Some x) as Hp.
  { apply parse_show_digits; [done|done| |lia].
    assert (2 ^ w ≤ radix ^ Z.of_nat 64); [|lia].
    etransitivity; [apply (Z.pow_le_mono_r 2 w (Z.of_nat 64)); lia|apply Z.pow_le_mono_l; lia]. }
  pose proof (show_uint_digits radix x) as Hf. pose proof (show_uint_nonnil radix x) as Hn.
  unfold from_str_radix. destruct (show_uint radix x) as [|c ds]; [done|].
  apply Forall_cons_1 in Hf as [Hc _]; [|lia|lia].
  apply digit_char_nonspecial in Hc; [|lia]. by replace (c =? 43) with false by lia.
Qed.

Lemma parse_show_uint w x : 0 ≤ w ≤ 64 → 0 ≤ x < 2 ^ w → parse_uint w (show_dec x) = Some x.
Proof. intros. by apply from_str_radix_show. Qed.

(** ** Addresses: printing then parsing *)

Definition no_digit (s : str) : Prop := match s with c :: _ => to_digit 10 c = None | [] => True end.

Lemma read_digits_app ds rest acc n :
  Forall (λ c, is_Some (to_digit 10 c)) ds → no_digit rest →
  read_digits (ds ++ rest) acc n =
  (foldl (λ a c, a * 10 + default 0 (to_digit 10 c)) acc ds, (n + length ds)%nat, rest).
Proof.
  intros Hds Hrest. revert acc n; induction Hds as [|c ds [d Hd] Hds IH]; intros acc n; simpl.
  - rewrite Nat.add_0_r. destruct rest as [|c rest]; [done|]. simpl in *. by rewrite Hrest.
  - rewrite Hd. simpl. rewrite IH. f_equal. f_equal. lia.
Qed.

(** What [read_octet] asks of the digits of an octet, by evaluation. *)
Definition octet_ok (v : Z) : bool :=
  let ds := show_dec v in
  bool_decide (Forall (λ c, is_Some (to_digit 10 c)) ds) &&
  (foldl (λ a c, a * 10 + default 0 (to_digit 10 c)) 0 ds =? v) &&
  (1 <=? length ds)%nat && (length ds <=? 3)%nat &&
  negb ((1 <? length ds)%nat && bool_decide (head ds = Some 48)).

Lemma octets_ok v : u8 v → octet_ok v = true.
Proof.
  intros Hv. assert (Forall (λ v, octet_ok v = true) (seqZ 0 256)) as Hall.
  { apply (bool_decide_unpack _). vm_compute. exact I. }
  apply (proj1 (Forall_forall _ _) Hall), elem_of_seqZ. unfold u8 in Hv. lia.
Qed.

Lemma read_octet_show v rest :
  u8 v → no_digit rest → read_octet (show_dec v ++ rest) = Some (v, rest).
Proof.
  intros Hv Hrest. pose proof (octets_ok v Hv) as Hok. unfold octet_ok in Hok.
  rewrite !andb_true_iff, negb_true_iff in Hok. destruct Hok as [[[[Hf He] H1] H3] Hz].
  apply bool_decide_eq_true_1 in Hf. apply Z.eqb_eq in He. apply Nat.leb_le in H1, H3.
  unfold read_octet. rewrite read_digits_app by done. rewrite He, Nat.add_0_l.
  replace (length (show_dec v) =? 0)%nat with false by (symmetry; apply Nat.eqb_neq; lia).
  replace (3 <? length (show_dec v))%nat with false by (symmetry; apply Nat.ltb_ge; lia).
  assert (head (show_dec v ++ rest) = head (show_dec v)) as ->
    by (destruct (show_dec v); [simpl in H1; lia|done]).
  rewrite Hz. simpl. by replace (v <? 256) with true by uint.
Qed.

Lemma show_ipv4_cons v vs :
  vs ≠ [] → intercalate [46] (show_dec <$> v :: vs) =
            show_dec v ++ 46 :: intercalate [46] (show_dec <$> vs).
Proof. by destruct vs. Qed.

(** [parse] is a left inverse of [Display] on addresses. *)
Lemma parse_show_ipv4 ip : u32 ip → parse_ipv4 (show_ipv4 ip) = Some ip.
Proof.
  intros Hip. unfold show_ipv4, parse_ipv4.
  pose proof (bytes_ok_to_be_bytes 4 ip) as Hb. pose proof (length_to_be_bytes 4 ip) as Hl.
  pose proof (from_to_be_32 ip Hip) as Hv.
  destruct (to_be_bytes 4 ip) as [|a [|b [|c [|d [|? ?]]]]]; try discriminate Hl.
  inv_bytes. rewrite !show_ipv4_cons by done.
  cbn [fmap list_fmap intercalate]. rewrite <-(app_nil_r (show_dec d)).
  rewrite read_octet_show by done. cbn [mbind option_bind read_octets].
  do 3 (rewrite Z.eqb_refl, read_octet_show by done; cbn [mbind option_bind read_octets]).
  by rewrite Hv.
Qed.

Lemma strip_prefix_spec p s s' : strip_prefix p s = Some s' ↔ s = p ++ s'.
Proof.
  revert s; induction p as [|a p IH]; intros s; simpl; [naive_solver|].
  destruct s as [|b s]; [done|]. destruct (Z.eqb_spec a b); [rewrite IH|]; naive_solver.
Qed.

(** ** Words *)

Definition word (w : str) : Prop := w ≠ [] ∧ Forall (λ c, is_whitespace c = false) w.

Lemma split_word p w s :
  Forall (λ c, p c = false) w → w ≠ [] → 
  split p (w ++ s) =
  match split p s with x :: xs => (w ++ x) :: xs | [] => [w] end.
Proof.
  intros Hw. induction Hw as [|c w Hc Hw IH]; intros Hn; [done|].
  simpl. rewrite Hc. destruct w as [|c' w].
  - simpl. by destruct (split p s).
  - rewrite IH by done. by destruct (split p s).
Qed.

Lemma split_nonnil p s : split p s ≠ [].
Proof. destruct s as [|c s]; simpl; [done|]. case_match; [done|]. by case_match. Qed.

(** A sequence of words, each followed by white space or the end. *)
Lemma split_whitespace_cons w c s :
  word w → is_whitespace c = true → split_whitespace (w ++ c :: s) = w :: split_whitespace s.
Proof.
  intros [Hn Hw] Hc. unfold split_whitespace. rewrite split_word by done.
  simpl. rewrite Hc, app_nil_r. by destruct w.
Qed.

Lemma split_whitespace_word w : word w → split_whitespace w = [w].
Proof.
  intros [Hn Hw]. unfold split_whitespace. rewrite <-(app_nil_r w) at 1.
  rewrite split_word by done. simpl. rewrite app_nil_r. by destruct w.
Qed.

Lemma split_whitespace_space c s :
  is_whitespace c = true → split_whitespace (c :: s) = split_whitespace s.
Proof. intros Hc. unfold split_whitespace. simpl. by rewrite Hc. Qed.

(** Leading and trailing white space changes no word. *)
Lemma split_whitespace_trim_start s : split_whitespace (trim_start s) = split_whitespace s.
Proof.
  induction s as [|c s IH]; [done|]. simpl. destruct (is_whitespace c) eqn:Hc; [|done].
  by rewrite split_whitespace_space.
Qed.

Lemma split_whitespace_all_space s :
  Forall (λ c, is_whitespace c = true) s → split_whitespace s = [].
Proof. induction 1 as [|c s Hc _ IH]; [done|]. by rewrite split_whitespace_space. Qed.

Lemma split_whitespace_app_space s t :
  Forall (λ c, is_whitespace c = true) t → split_whitespace (s ++ t) = split_whitespace s.
Proof.
  intros Ht. unfold split_whitespace. induction s as [|c s IH]; [by apply split_whitespace_all_space|].
  simpl. destruct (is_whitespace c); simpl; [exact IH|].
  assert (∃ x xs y ys, split is_whitespace (s ++ t) = x :: xs ∧ split is_whitespace s = y :: ys ∧
    x = y ∧ List.filter (λ w, match w with [] => false | _ => true end) xs =
            List.filter (λ w, match w with [] => false | _ => true end) ys)
    as (x & xs & y & ys & E1 & E2 & -> & Hf).
  { clear IH. induction s as [|c' s IHs].
    - simpl. destruct Ht as [|c' t Hc' Ht]; [by eexists _, _, _, _|].
      simpl. rewrite Hc'. eexists _, _, _, _. split; [done|]. split; [done|]. split; [done|].
      by apply split_whitespace_all_space.
    - simpl. destruct IHs as (x & xs & y & ys & -> & -> & -> & Hf).
      destruct (is_whitespace c'); eexists _, _, _, _; (split; [done|]); (split; [done|]);
        (split; [done|]); [|done]. simpl. destruct y; simpl; by rewrite Hf. }
  rewrite E1, E2. simpl. by rewrite Hf.
Qed.

Lemma trim_start_suffix s : ∃ t, s = t ++ trim_start s ∧ Forall (λ c, is_whitespace c = true) t.
Proof.
  induction s as [|c s (t & Hs & Ht)]; simpl; [by exists []|].
  destruct (is_whitespace c) eqn:Hc; [|by exists []].
  exists (c :: t). split; [by rewrite Hs at 1|by constructor].
Qed.

Lemma split_whitespace_trim s : split_whitespace (trim s) = split_whitespace s.
Proof.
  unfold trim. rewrite <-(split_whitespace_trim_start s).
  set (u := trim_start s). destruct (trim_start_suffix (reverse u)) as (t & Hu & Ht).
  apply (f_equal reverse) in Hu. rewrite reverse_involutive, reverse_app in Hu.
  rewrite Hu at 2. rewrite split_whitespace_app_space; [done|]. by rewrite Forall_reverse.
Qed.

Lemma digits_word radix x : 2 ≤ radix ≤ 36 → 0 ≤ x → word (show_uint radix x).
Proof.
  intros Hr Hx. split; [apply show_uint_nonnil|].
  eapply Forall_impl; [apply show_uint_digits; lia|]. intros c Hc.
  apply digit_char_nonspecial in Hc; [|lia]. unfold is_whitespace. lia.
Qed.

(** ** Numerals

    What [from_str_radix] accepts, as a predicate: an optional plus sign, then
    at least one digit, of a value that fits. *)

Definition digits_value (radix acc : Z) (s : str) : Z :=
  foldl (λ a c, a * radix + default 0 (to_digit radix c)) acc s.

Definition numeral (w radix : Z) (s : str) (v : Z) : Prop :=
  ∃ ds, (s = ds ∨ s = 43 :: ds) ∧ ds ≠ [] ∧ Forall (λ c, is_Some (to_digit radix c)) ds ∧
    digits_value radix 0 ds = v ∧ v < 2 ^ w.

Lemma to_digit_nonneg radix c d : to_digit radix c = Some d → 0 ≤ d < radix.
Proof.
  unfold to_digit. set (d' := if _ && _ then c - 48 else _).
  assert (0 ≤ d') by (subst d'; repeat case_match; lia).
  destruct (Z.ltb_spec d' radix); [|done]. intros [= <-]. lia.
Qed.

Lemma digits_value_mono radix acc s :
  1 ≤ radix → 0 ≤ acc → acc ≤ digits_value radix acc s.
Proof.
  intros Hr. revert acc; induction s as [|c s IH]; intros acc Ha; [done|].
  assert (0 ≤ default 0 (to_digit radix c)) as Hd.
  { destruct (to_digit radix c) as [d|] eqn:E; simpl; [|done]. apply to_digit_nonneg in E. lia. }
  change (digits_value radix acc (c :: s))
    with (digits_value radix (acc * radix + default 0 (to_digit radix c)) s).
  etransitivity; [|apply IH]; nia.
Qed.

Lemma parse_digits_spec radix w acc s v :
  1 ≤ radix → 0 ≤ acc < 2 ^ w →
  parse_digits radix w acc s = Some v ↔
  Forall (λ c, is_Some (to_digit radix c)) s ∧ digits_value radix acc s = v ∧ v < 2 ^ w.
Proof.
  intros Hr. revert acc; induction s as [|c s IH]; intros acc Ha; cbn [parse_digits].
  { split; [intros [= <-]; split; [constructor|by split; [|lia]]|]. by intros (_ & <- & _). }
  rewrite Forall_cons. destruct (to_digit radix c) as [d|] eqn:Hd; cbn [mbind option_bind].
  2:{ split; [done|]. by intros [[[? ?] _] _]. }
  pose proof (to_digit_nonneg _ _ _ Hd) as Hdr.
  assert (digits_value radix acc (c :: s) = digits_value radix (acc * radix + d) s) as ->
    by (unfold digits_value; simpl; by rewrite Hd).
  destruct (Z.ltb_spec (acc * radix + d) (2 ^ w)).
  - rewrite IH by nia. naive_solver.
  - split; [done|]. intros (_ & <- & Hlt).
    pose proof (digits_value_mono radix (acc * radix + d) s). nia.
Qed.

Lemma from_str_radix_numeral w radix s v :
  0 ≤ w → 1 ≤ radix ≤ 36 → from_str_radix w radix s = Some v ↔ numeral w radix s v.
Proof.
  intros Hw Hr.
  assert (∀ ds, Forall (λ c, is_Some (to_digit radix c)) (43 :: ds) → False) as Hplus.
  { intros ds [[d Hd] _]%Forall_cons. unfold to_digit in Hd. simpl in Hd.
    by replace (36 <? radix) with false in Hd by lia. }
  assert (0 ≤ 0 < 2 ^ w) as H0 by (split; [done|by apply Z.pow_pos_nonneg]).
  unfold from_str_radix, numeral. destruct s as [|c s]; [naive_solver|].
  destruct (Z.eqb_spec c 43) as [->|Hc].
  - destruct s as [|c s]; [naive_solver|]. rewrite parse_digits_spec by (done || lia).
    split; [intros H; exists (c :: s); naive_solver|].
    intros (ds & [<-|[= <-]] & _ & Hf & ?); [by apply Hplus in Hf|done].
  - rewrite parse_digits_spec by (done || lia). split; [intros H; exists (c :: s); naive_solver|].
    intros (ds & [<-|[=]] & _ & ?); done.
Qed.

Lemma numeral_bounds w radix s v : 1 ≤ radix → numeral w radix s v → 0 ≤ v < 2 ^ w.
Proof.
  intros Hr (ds & _ & _ & _ & <- & Hv). split; [|done].
  by apply (digits_value_mono radix 0 ds).
Qed.

(** Trimming a word with white space around it. *)
Lemma trim_start_space t s : Forall (λ c, is_whitespace c = true) t → trim_start (t ++ s) = trim_start s.
Proof. induction 1 as [|c t Hc _ IH]; [done|]. cbn. by rewrite Hc. Qed.

Lemma trim_start_word w s : word w → trim_start (w ++ s) = w ++ s.
Proof. intros [Hn Hw]. destruct w as [|c w]; [done|]. apply Forall_cons_1 in Hw as [Hc _]. cbn. by rewrite Hc. Qed.

Lemma word_reverse w : word w → word (reverse w).
Proof.
  intros [Hn Hw]. split; [|by apply Forall_reverse]. intros E. apply (f_equal reverse) in E.
  by rewrite reverse_involutive in E.
Qed.

Lemma trim_word t w t' :
  Forall (λ c, is_whitespace c = true) t → word w → Forall (λ c, is_whitespace c = true) t' →
  trim (t ++ w ++ t') = w.
Proof.
  intros Ht Hw Ht'. unfold trim. rewrite trim_start_space, trim_start_word by done.
  rewrite reverse_app, trim_start_space by (by apply Forall_reverse).
  rewrite <-(app_nil_r (reverse w)), trim_start_word by (by apply word_reverse).
  by rewrite app_nil_r, reverse_involutive.
Qed.

Lemma take_until_app (p : Z → bool) w c s :
  Forall (λ c, p c = false) w → p c = true → take_until p (w ++ c :: s) = w.
Proof. intros Hw Hc. induction Hw as [|d w Hd _ IH]; cbn; [by rewrite Hc|]. rewrite Hd. by f_equal. Qed.

Lemma take_until_all (p : Z → bool) w : Forall (λ c, p c = false) w → take_until p w = w.
Proof. induction 1 as [|d w Hd _ IH]; cbn; [done|]. rewrite Hd. by f_equal. Qed.
