(* ===== verification/Dump.v ===== *)
(** * Hex dump ([pfcp-common/src/dump.rs])

    [print_hex] as the lines it hands to [debug!]: a heading, one line for
    every sixteen octets, and an empty line.  A complete line is one format
    string, a shorter last line is put together octet by octet; the proof is
    that both can be read back, with one reader, to the octets they show. *)

From S2P Require Import Prelude Text.

Inductive Separated := NoSep | Space | Bar.

Definition sep_text (s : Separated) : str :=
  match s with NoSep => [] | Space => lit " " | Bar => lit " | " end.

(** [{:0wx}] *)
Definition show_padded (w : nat) (x : Z) : str :=
  let s := show_uint 16 x in replicate (w - length s) 48 ++ s.

(** What follows each octet in the format string of a complete line. *)
Definition full_separators : list Separated :=
  [NoSep; Space; NoSep; Bar; NoSep; Space; NoSep; Bar;
   NoSep; Space; NoSep; Bar; NoSep; Space; NoSep; Space].

Definition full_row {E} (buffer : list Z) (i : nat) : outcome E str :=
  octets ← mapM (λ k, idx buffer (i + k)) (seq 0 16);
  mret (show_padded 4 (Z.of_nat i) ++ lit ": " ++
    concat (zip_with (λ b s, show_padded 2 b ++ sep_text s) octets full_separators)).

(** One turn of [for j in i..length], with its [k]. *)
Definition partial_octet {E} (buffer : list Z) (buf : str) (jk : nat * nat) : outcome E str :=
  let '(j, k) := jk in
  b ← idx buffer j;
  let p := show_padded 2 b in
  if (k =? 0)%nat then mret (buf ++ show_padded 4 (Z.of_nat j) ++ lit ": " ++ p)
  else if (k mod 2 =? 1)%nat then mret (buf ++ p)
  else if (k mod 4 =? 2)%nat then mret (buf ++ lit " " ++ p)
  else if (k mod 4 =? 0)%nat then mret (buf ++ lit " | " ++ p)
  else mret buf.

Definition partial_row {E} (buffer : list Z) (length i : nat) : outcome E str :=
  foldM (partial_octet buffer) [] ((λ k, (i + k, k)%nat) <$> seq 0 (length - i)).

Definition row {E} (buffer : list Z) (length i : nat) : outcome E str :=
  if (i + 16 <=? length)%nat then full_row buffer i else partial_row buffer length i.

(** [(0..length).step_by(16)] *)
Definition row_starts (length : nat) : list nat := (λ r, 16 * r)%nat <$> seq 0 ((length + 15) / 16).

Definition print_hex {E} (buffer : list Z) (len : nat) : outcome E (list str) :=
  let len := Nat.min len (length buffer) in
  rows ← mapM (B:=str) (row buffer len) (row_starts len);
  mret ([lit "Message DUMP (" ++ show_dec (Z.of_nat len) ++ lit " Bytes)";
         lit "==================================="] ++ rows ++ [[]]).

(** ** Reading a dump back *)

Fixpoint read_octets_hex (s : str) : option (list Z) :=
  match s with
  | [] => Some []
  | c :: s =>
      if (c =? 32) || (c =? 124) then read_octets_hex s else
      match s with
      | d :: s => v ← from_str_radix 8 16 [c; d]; vs ← read_octets_hex s; Some (v :: vs)
      | [] => None
      end
  end.

Definition read_row (s : str) : option (Z * list Z) :=
  let offset := take_until (λ c, c =? 58) s in
  o ← from_str_radix 64 16 offset;
  vs ← read_octets_hex (drop (S (length offset)) s);
  Some (o, vs).

Example dump_short :
  print_hex (E:=unit) [32; 1; 0; 12; 255] 9 = Ok
    [lit "Message DUMP (5 Bytes)"; lit "==================================="; lit "0000: 2001 000c | ff"; []].
Proof. vm_compute. reflexivity. Qed.
Example dump_long :
  print_hex (E:=unit) (Z.of_nat <$> seq 0 17) 17 = Ok
    [lit "Message DUMP (17 Bytes)"; lit "===================================";
     lit "0000: 0001 0203 | 0405 0607 | 0809 0a0b | 0c0d 0e0f "; lit "0010: 10"; []].
Proof. vm_compute. reflexivity. Qed.

(** *** The pieces *)

Lemma show_padded_octet b :
  u8 b → show_padded 2 b = [digit_char (b / 16); digit_char (b mod 16)].
Proof.
  intros Hb.
  assert (forallb (λ n, let b := Z.of_nat n in
    bool_decide (show_padded 2 b = [digit_char (b / 16); digit_char (b mod 16)])) (seq 0 256) = true)
    as Hall by (vm_compute; reflexivity).
  rewrite forallb_forall in Hall. specialize (Hall (Z.to_nat b)). cbv zeta in Hall.
  rewrite Z2Nat.id in Hall by (unfold u8 in Hb; lia). apply (bool_decide_eq_true_1 _), Hall, in_seq. uint.
Qed.

Lemma read_sep sep s : read_octets_hex (sep_text sep ++ s) = read_octets_hex s.
Proof. by destruct sep. Qed.

Lemma read_octet b s :
  u8 b → read_octets_hex (show_padded 2 b ++ s) = vs ← read_octets_hex s; Some (b :: vs).
Proof.
  intros Hb. rewrite show_padded_octet by done.
  assert (forallb (λ n, let b := Z.of_nat n in let c := digit_char (b / 16) in
    negb ((c =? 32) || (c =? 124)) &&
    bool_decide (from_str_radix 8 16 [c; digit_char (b mod 16)] = Some b)) (seq 0 256) = true)
    as Hall by (vm_compute; reflexivity).
  rewrite forallb_forall in Hall. specialize (Hall (Z.to_nat b)). cbv zeta in Hall.
  rewrite Z2Nat.id in Hall by (unfold u8 in Hb; lia).
  assert (In (Z.to_nat b) (seq 0 256)) as Hin by (apply in_seq; uint).
  apply Hall in Hin as [Hc Hv]%andb_prop. apply (bool_decide_eq_true_1 _) in Hv.
  cbn [app read_octets_hex]. apply negb_true_iff in Hc. rewrite Hc, Hv. done.
Qed.

Lemma read_octets_zip seps bs :
  bytes_ok bs → length bs = length seps →
  read_octets_hex (concat (zip_with (λ b s, show_padded 2 b ++ sep_text s) bs seps)) = Some bs.
Proof.
  intros Hb. revert seps; induction Hb as [|b bs Hb _ IH]; intros [|s seps] [=]; [done|].
  cbn [zip_with concat]. rewrite <-!app_assoc, read_octet, read_sep, IH by done. done.
Qed.

(** *** The offset *)

Lemma hex_digits_nonspecial w x :
  0 ≤ x → Forall (λ c, (c =? 58) = false ∧ (c =? 43) = false) (show_padded w x).
Proof.
  intros Hx. unfold show_padded. apply Forall_app; split; [by apply Forall_replicate|].
  eapply Forall_impl; [by apply show_uint_digits|].
  intros c Hc%digit_char_nonspecial; [|done]. split; lia.
Qed.

Lemma parse_digits_zeros w n s :
  0 < 2 ^ w → parse_digits 16 w 0 (replicate n 48 ++ s) = parse_digits 16 w 0 s.
Proof.
  intros Hw. induction n as [|n IH]; [done|]. cbn [replicate app parse_digits].
  change (to_digit 16 48) with (Some 0). cbn [mbind option_bind]. cbv zeta.
  change (0 * 16 + 0) with 0. by replace (0 <? 2 ^ w) with true by lia.
Qed.

Lemma read_offset w x :
  u64 x → from_str_radix 64 16 (show_padded w x) = Some x.
Proof.
  intros Hx. pose proof (from_str_radix_show 64 16 x ltac:(done) ltac:(done) Hx) as Hs.
  assert (∀ s, s ≠ [] → Forall (λ c, (c =? 58) = false ∧ (c =? 43) = false) s →
    from_str_radix 64 16 s = parse_digits 16 64 0 s) as Hf.
  { intros [|c s] Hn Hs'; [done|].
    apply Forall_cons_1 in Hs' as [[_ Hc] _]. cbn [from_str_radix]. by rewrite Hc. }
  pose proof (show_uint_nonnil 16 x) as Hn.
  rewrite Hf in Hs; [|done|]. 2:{ apply (hex_digits_nonspecial 0). unfold u64 in Hx. lia. }
  rewrite Hf; [|by unfold show_padded; destruct (replicate _ _)|apply hex_digits_nonspecial; unfold u64 in Hx; lia].
  unfold show_padded. by rewrite parse_digits_zeros.
Qed.

(** A line that starts with an offset. *)
Lemma read_row_spec w i s :
  u64 i →
  read_row (show_padded w i ++ lit ": " ++ s) = vs ← read_octets_hex s; Some (i, vs).
Proof.
  intros Hi. unfold read_row. cbv zeta. change (lit ": ") with [58; 32]. cbn [app].
  rewrite take_until_app; [|eapply Forall_impl; [apply hex_digits_nonspecial; unfold u64 in Hi; lia|]; by intros c []|done].
  rewrite read_offset by done. cbn [mbind option_bind].
  replace (drop (S (length (show_padded w i))) (show_padded w i ++ 58 :: 32 :: s)) with (32 :: s).
  2:{ by rewrite <-Nat.add_1_r, <-drop_drop, drop_app_length. }
  done.
Qed.

(** *** The rows *)

Lemma mapM_idx {E} (buf : list Z) i n :
  (i + n ≤ length buf)%nat →
  mapM (M:=outcome E) (λ k, idx buf (i + k)) (seq 0 n) = Ok (take n (drop i buf)).
Proof.
  intros Hl. replace (take n (drop i buf)) with ((λ k, nth (i + k) buf 0) <$> seq 0 n).
  - assert (Forall (λ k, (i + k < length buf)%nat) (seq 0 n)) as Hf.
    { apply Forall_forall. intros k Hk%elem_of_seq. lia. }
    induction Hf as [|k ks Hk _ IH]; [done|]. cbn [mapM fmap list_fmap].
    rewrite idx_total, IH by done. done.
  - apply list_eq. intros k. rewrite list_lookup_fmap. destruct (decide (k < n)%nat).
    + rewrite lookup_seq_lt by done. rewrite lookup_take_lt, lookup_drop by done. cbn.
      destruct (lookup_lt_is_Some_2 buf (i + k)) as [b Hb]; [lia|]. rewrite Hb. f_equal.
      by apply nth_lookup_Some.
    + rewrite lookup_seq_ge, lookup_take_ge by lia. done.
Qed.

Lemma full_row_reads {E} (buf : list Z) i :
  bytes_ok buf → u64 (Z.of_nat i) → (i + 16 ≤ length buf)%nat →
  ∃ s, full_row (E:=E) buf i = Ok s ∧ read_row s = Some (Z.of_nat i, take 16 (drop i buf)).
Proof.
  intros Hb Hi Hl. unfold full_row. rewrite mapM_idx by done. simpl_outcome.
  eexists. split; [reflexivity|]. rewrite read_row_spec by done.
  rewrite read_octets_zip; [done|by apply bytes_ok_take, bytes_ok_drop|].
  rewrite length_take, length_drop. cbn [length full_separators]. lia.
Qed.

(** An octet of a partial row after the first one adds itself. *)
Lemma partial_octet_S {E} (buf : list Z) text j k b :
  buf !! j = Some b → ∃ sep, partial_octet (E:=E) buf text (j, S k) = Ok (text ++ sep_text sep ++ show_padded 2 b).
Proof.
  intros Hb. unfold partial_octet. rewrite (idx_Ok _ _ _ Hb). simpl_outcome.
  cbn [Nat.eqb]. pose proof (Nat.div_mod_eq (S k) 4). pose proof (Nat.mod_upper_bound (S k) 4).
  destruct (Nat.eqb_spec (S k mod 2) 1) as [|Hn2]; [by exists NoSep|].
  destruct (Nat.eqb_spec (S k mod 4) 2) as [|Hn4]; [by exists Space|].
  destruct (Nat.eqb_spec (S k mod 4) 0) as [|Hn0]; [by exists Bar|].
  exfalso. pose proof (Nat.div_mod_eq (S k) 2). pose proof (Nat.mod_upper_bound (S k) 2). lia.
Qed.

Lemma partial_octets {E} (buf : list Z) i k n text :
  bytes_ok buf → (i + k + n < length buf)%nat → 
  ∃ s, foldM (E:=E) (partial_octet buf) text ((λ k, (i + k, k)%nat) <$> seq (S k) n) = Ok (text ++ s) ∧
    read_octets_hex s = Some (take n (drop (i + S k) buf)).
Proof.
  intros Hb. revert k text; induction n as [|n IH]; intros k text Hl.
  { exists []. by rewrite app_nil_r. }
  cbn [seq fmap list_fmap foldM].
  destruct (lookup_lt_is_Some_2 buf (i + S k)) as [b Hk]; [lia|].
  destruct (partial_octet_S (E:=E) buf text (i + S k) k b Hk) as [sep ->]. simpl_outcome.
  destruct (IH (S k) (text ++ sep_text sep ++ show_padded 2 b)) as (s & -> & Hs); [lia|].
  exists (sep_text sep ++ show_padded 2 b ++ s). split; [by rewrite <-!app_assoc|].
  rewrite read_sep, read_octet by by apply (Forall_lookup_1 _ _ _ _ Hb Hk).
  rewrite Hs. cbn [mbind option_bind]. rewrite (drop_S _ _ _ Hk). cbn [take].
  by replace (S (i + S k)) with (i + S (S k))%nat by lia.
Qed.

Lemma partial_row_reads {E} (buf : list Z) len i :
  bytes_ok buf → u64 (Z.of_nat i) → (i < len ≤ length buf)%nat →
  ∃ s, partial_row (E:=E) buf len i = Ok s ∧
    read_row s = Some (Z.of_nat i, take (len - i) (drop i buf)).
Proof.
  intros Hb Hi Hl. unfold partial_row. destruct (len - i)%nat as [|n] eqn:En; [lia|].
  cbn [seq fmap list_fmap foldM]. rewrite Nat.add_0_r.
  destruct (lookup_lt_is_Some_2 buf i) as [b Hk]; [lia|].
  assert (partial_octet (E:=E) buf [] (i, 0%nat) =
    Ok (show_padded 4 (Z.of_nat i) ++ lit ": " ++ show_padded 2 b)) as ->
    by (unfold partial_octet; by rewrite (idx_Ok _ _ _ Hk)).
  rewrite bind_Ok.
  destruct (partial_octets (E:=E) buf i 0 n (show_padded 4 (Z.of_nat i) ++ lit ": " ++ show_padded 2 b))
    as (s & Hs & Hr); [done|lia|].
  exists (show_padded 4 (Z.of_nat i) ++ lit ": " ++ show_padded 2 b ++ s).
  split; [rewrite Hs; by rewrite <-!app_assoc|].
  rewrite read_row_spec, read_octet by first [done|by apply (Forall_lookup_1 _ _ _ _ Hb Hk)].
  rewrite Hr. cbn [mbind option_bind]. rewrite (drop_S _ _ _ Hk). cbn [take].
  by replace (i + 1)%nat with (S i) by lia.
Qed.

Lemma row_reads {E} (buf : list Z) len i :
  bytes_ok buf → u64 (Z.of_nat i) → (i < len ≤ length buf)%nat →
  ∃ s, row (E:=E) buf len i = Ok s ∧
    read_row s = Some (Z.of_nat i, take 16 (drop i (take len buf))).
Proof.
  intros Hb Hi Hl. unfold row. case_len.
  - destruct (full_row_reads (E:=E) buf i) as (s & Hs & Hr); [done|done|lia|]. exists s. split; [done|].
    rewrite Hr, skipn_firstn_comm, firstn_firstn. by replace (16 `min` (len - i))%nat with 16%nat by lia.
  - destruct (partial_row_reads (E:=E) buf len i) as (s & Hs & Hr); [done|done|lia|]. exists s.
    split; [done|]. rewrite Hr, skipn_firstn_comm, firstn_firstn.
    by replace (16 `min` (len - i))%nat with (len - i)%nat by lia.
Qed.

(** Cutting into sixteens and joining. *)
Lemma concat_chunks (l : list Z) r :
  concat ((λ r, take 16 (drop (16 * r) l)) <$> seq 0 r) = take (16 * r) l.
Proof.
  induction r as [|r IH]; [done|].
  rewrite seq_S, fmap_app, concat_app, IH. cbn [fmap list_fmap concat]. rewrite app_nil_r, Nat.add_0_l.
  replace (16 * S r)%nat with (16 * r + 16)%nat by lia. by rewrite <-take_take_drop.
Qed.

(** The dump shows the octets: for a buffer of octets [print_hex] never
    panics, whatever length is asked for, and prints a heading, the lines and
    an empty line; the lines, complete or not, can be read back with one
    reader, which finds the offsets 0, 16, 32, ... and, joined, exactly the
    first [len] octets of the buffer, or all of them when there are fewer. *)
Theorem dump_read_back {E} (buf : list Z) len :
  bytes_ok buf → u64 (Z.of_nat (length buf)) →
  ∃ (rows : list str) parts, print_hex (E:=E) buf len = Ok
      ([lit "Message DUMP (" ++ show_dec (Z.of_nat (Nat.min len (length buf))) ++ lit " Bytes)";
        lit "==================================="] ++ rows ++ [[]]) ∧
    mapM read_row rows = Some parts ∧
    (fst <$> parts) = (λ r, 16 * Z.of_nat r) <$> seq 0 (length rows) ∧
    concat (snd <$> parts) = take len buf.
Proof.
  intros Hb Hlen. unfold print_hex. cbv zeta. set (n := Nat.min len (length buf)).
  set (parts := (λ r, (16 * Z.of_nat r, take 16 (drop (16 * r) (take n buf)))) <$> seq 0 ((n + 15) / 16)).
  assert (∃ rows : list str, mapM (B:=str) (row (E:=E) buf n) (row_starts n) = Ok rows ∧ mapM read_row rows = Some parts)
    as (rows & -> & Hr).
  { unfold row_starts, parts.
    assert (Forall (λ r, (16 * r < n)%nat) (seq 0 ((n + 15) / 16))) as Hf.
    { apply Forall_forall. intros r Hr%elem_of_seq.
      pose proof (Nat.div_mod_eq (n + 15) 16). pose proof (Nat.mod_upper_bound (n + 15) 16). lia. }
    induction Hf as [|r rs Hr _ (rows & Hrows & Hread)]; [by exists []|].
    destruct (row_reads (E:=E) buf n (16 * r)) as (s & Hs & Hsr); [done|unfold u64 in *; lia|lia|].
    exists (s :: rows). cbn [fmap list_fmap mapM]. rewrite Hs, Hrows, Hsr. simpl_outcome.
    split; [done|]. cbn [mbind option_bind]. rewrite Hread. cbn. repeat f_equal. lia. }
  exists rows, parts. split; [done|]. split; [done|].
  assert (length rows = ((n + 15) / 16)%nat) as Hl.
  { apply length_mapM in Hr. unfold parts in Hr. by rewrite Hr, length_fmap, length_seq. }
  split.
  - unfold parts. rewrite <-list_fmap_compose, Hl. done.
  - unfold parts. rewrite <-list_fmap_compose. etransitivity; [exact (concat_chunks _ _)|].
    assert (take len buf = take n buf) as ->.
    { destruct (Nat.le_gt_cases len (length buf)); unfold n; [by rewrite Nat.min_l|].
      rewrite Nat.min_r, !take_ge by lia. done. }
    pose proof (Nat.div_mod_eq (n + 15) 16). pose proof (Nat.mod_upper_bound (n + 15) 16).
    apply take_ge. rewrite length_take. lia.
Qed.

Lemma dump_read_back_witness :
  ∃ (rows : list str) parts, print_hex (E:=unit) (Z.of_nat <$> seq 0 40) 33 = Ok
      ([lit "Message DUMP (33 Bytes)"; lit "==================================="] ++ rows ++ [[]]) ∧
    mapM read_row rows = Some parts ∧ concat (snd <$> parts) = Z.of_nat <$> seq 0 33.
Proof.
  destruct (dump_read_back (E:=unit) (Z.of_nat <$> seq 0 40) 33) as (rows & parts & Hp & Hr & _ & Hc);
    [check_bytes|vm_compute; split; [discriminate|reflexivity]|].
  exists rows, parts. split; [exact Hp|]. split; [exact Hr|]. exact Hc.
Defined.
