(* ===== verification/Commands.v ===== *)
(** * Command lines ([upf-edge/src/tui/command.rs], [smf-sim/src/tui/command.rs])

    The two terminals' command languages: the parsers as they are written, a
    grammar of each language as a relation on the words of the input, and the
    proof that the parser accepts exactly the grammar. *)

From S2P Require Import Prelude Text.

(** [ParseError(pub String)] *)
Definition ParseError : Type := str.

(** A slice pattern of literals, and one that binds a last element. *)
Definition is_words (parts : list str) (ws : list string) : bool :=
  bool_decide (parts = lit <$> ws).

Definition words_arg (parts : list str) (ws : list string) : option str :=
  match parts with
  | [a; b; x] => if is_words [a; b] ws then Some x else None
  | _ => None
  end.

(** [parse_seid] of the two crates; they differ in the text of the error. *)
Definition seid_value (s : str) : option Z :=
  match (match strip_prefix (lit "0x") s with
         | Some hex => Some hex
         | None => strip_prefix (lit "0X") s
         end) with
  | Some hex => from_str_radix 64 16 hex
  | None => parse_uint 64 s
  end.

(** ** The UPF's commands *)

Inductive UpfCommand :=
| UpfShowSessions
| UpfShowSession (seid : Z)
| UpfClear
| UpfHelp
| UpfQuit.

Definition upf_parse_seid (s : str) : outcome ParseError Z :=
  ok_or (seid_value s) (lit "Wrong SEID format: " ++ s).

Definition UpfCommand_from_input (input : str) : outcome ParseError UpfCommand :=
  let parts := split_whitespace (trim input) in
  if is_words parts ["show"; "sessions"] || is_words parts ["session"; "list"] then
    Ok UpfShowSessions else
  match words_arg parts ["show"; "session"] with
  | Some seid => seid ← upf_parse_seid seid; mret (UpfShowSession seid)
  | None =>
  if is_words parts ["clear"] then Ok UpfClear else
  if is_words parts ["help"] || is_words parts ["?"] then Ok UpfHelp else
  if is_words parts ["quit"] || is_words parts ["exit"] || is_words parts ["q"] then
    Ok UpfQuit else
  match parts with
  | [] => Err (lit "빈 명령어")
  | _ => Err (lit "알 수 없는 명령어: '" ++ trim input ++ lit "'")
  end
  end.

Definition upf_help_text : str := lit
"
            show sessions          — 전체 세션 목록
            show session <seid>    — 특정 세션 상세 (seid: 0x01 or 1)
            clear                  — 로그 초기화
            help / ?               — 도움말
            quit / q               — 종료
        ".

(** ** The simulator's commands *)

Inductive Command :=
| ShowSessions
| ShowSession (seid : Z)
| AddSession (count : Z)
| DelSession (seid : Z)
| Heartbeat
| Clear
| Help
| Quit.

Definition parse_seid (s : str) : outcome ParseError Z :=
  ok_or (seid_value s) (lit "Wrong SEID: " ++ s).

Definition Command_from_input (input : str) : outcome ParseError Command :=
  let parts := split_whitespace (trim input) in
  if is_words parts ["show"; "sessions"] || is_words parts ["session"; "list"] then
    Ok ShowSessions else
  match words_arg parts ["show"; "session"] with
  | Some seid => seid ← parse_seid seid; mret (ShowSession seid)
  | None =>
  if is_words parts ["add"; "session"] then Ok (AddSession 1) else
  match words_arg parts ["add"; "session"] with
  | Some n => count ← ok_or (parse_uint 32 n) (lit "input integer number");
              mret (AddSession count)
  | None =>
  match words_arg parts ["del"; "session"] with
  | Some seid => seid ← parse_seid seid; mret (DelSession seid)
  | None =>
  if is_words parts ["heartbeat"] || is_words parts ["hb"] then Ok Heartbeat else
  if is_words parts ["clear"] then Ok Clear else
  if is_words parts ["help"] || is_words parts ["?"] then Ok Help else
  if is_words parts ["quit"] || is_words parts ["exit"] || is_words parts ["q"] then
    Ok Quit else
  match parts with
  | [] => Err (lit "빈 명령어")
  | _ => Err (lit "알 수 없는 명령어: '" ++ trim input ++ lit "'")
  end
  end
  end
  end.

Definition help_text : str := lit
"Commands:
            show sessions          — 전체 세션 목록
            show session <seid>    — 특정 세션 상세 (seid: 0x01 or 1)
            add session [N]        — N개 세션 추가 (기본 1)
            del session <seid>     — 세션 삭제
            heartbeat / hb         — Heartbeat 수동 전송
            clear                  — 로그 초기화
            help / ?               — 도움말
            quit / q               — 종료
        ".

#[export] Instance UpfCommand_eq_dec : EqDecision UpfCommand.
Proof. solve_decision. Defined.
#[export] Instance Command_eq_dec : EqDecision Command.
Proof. solve_decision. Defined.

(** ** The grammars *)

(** A SEID is written in decimal, or in hexadecimal behind [0x] or [0X]. *)
Inductive seid_word : str → Z → Prop :=
| seid_hex s v : numeral 64 16 s v → seid_word (lit "0x" ++ s) v
| seid_HEX s v : numeral 64 16 s v → seid_word (lit "0X" ++ s) v
| seid_dec s v : numeral 64 10 s v → seid_word s v.

Definition one_of (parts : list str) (alts : list (list string)) : Prop :=
  ∃ ws, ws ∈ alts ∧ parts = lit <$> ws.

Inductive upf_grammar : list str → UpfCommand → Prop :=
| ug_list p : one_of p [["show"; "sessions"]; ["session"; "list"]] → upf_grammar p UpfShowSessions
| ug_show w seid : seid_word w seid →
    upf_grammar [lit "show"; lit "session"; w] (UpfShowSession seid)
| ug_clear p : one_of p [["clear"]] → upf_grammar p UpfClear
| ug_help p : one_of p [["help"]; ["?"]] → upf_grammar p UpfHelp
| ug_quit p : one_of p [["quit"]; ["exit"]; ["q"]] → upf_grammar p UpfQuit.

Inductive smf_grammar : list str → Command → Prop :=
| sg_list p : one_of p [["show"; "sessions"]; ["session"; "list"]] → smf_grammar p ShowSessions
| sg_show w seid : seid_word w seid →
    smf_grammar [lit "show"; lit "session"; w] (ShowSession seid)
| sg_add : smf_grammar [lit "add"; lit "session"] (AddSession 1)
| sg_add_n w n : numeral 32 10 w n → smf_grammar [lit "add"; lit "session"; w] (AddSession n)
| sg_del w seid : seid_word w seid →
    smf_grammar [lit "del"; lit "session"; w] (DelSession seid)
| sg_hb p : one_of p [["heartbeat"]; ["hb"]] → smf_grammar p Heartbeat
| sg_clear p : one_of p [["clear"]] → smf_grammar p Clear
| sg_help p : one_of p [["help"]; ["?"]] → smf_grammar p Help
| sg_quit p : one_of p [["quit"]; ["exit"]; ["q"]] → smf_grammar p Quit.

Lemma is_words_spec parts ws : is_words parts ws = true ↔ parts = lit <$> ws.
Proof. apply bool_decide_eq_true. Qed.

Lemma words_arg_spec parts a b x :
  words_arg parts [a; b] = Some x ↔ parts = [lit a; lit b; x].
Proof.
  unfold words_arg. destruct parts as [|p [|q [|r [|? ?]]]]; try done.
  unfold is_words. case_bool_decide as Hp; simplify_eq/=; naive_solver.
Qed.

(** A decimal numeral does not start with [0x]: the letter is no digit. *)
Lemma numeral_no_x s v c : numeral 64 10 (48 :: c :: s) v → c = 88 ∨ c = 120 → False.
Proof.
  intros (ds & [<-|[=]] & _ & Hf & _) Hc.
  apply Forall_cons in Hf as [_ [[d Hd] _]%Forall_cons].
  by destruct Hc as [-> | ->].
Qed.

Lemma seid_word_inv w v :
  seid_word w v →
  (∃ s, w = 48 :: 120 :: s ∧ numeral 64 16 s v) ∨
  (∃ s, w = 48 :: 88 :: s ∧ numeral 64 16 s v) ∨ numeral 64 10 w v.
Proof. intros [s v' H|s v' H|s v' H]; [left|right; left|right; right]; by eauto. Qed.

Lemma seid_value_spec s v : seid_value s = Some v ↔ seid_word s v.
Proof.
  unfold seid_value, parse_uint.
  destruct (strip_prefix (lit "0x") s) as [hex|] eqn:E1.
  { apply strip_prefix_spec in E1 as ->. rewrite from_str_radix_numeral by lia.
    split; [by constructor|]. intros [(s & [= <-] & ?)|[(s & [=] & ?)|Hd]]%seid_word_inv; [done|].
    exfalso. eapply numeral_no_x; [exact Hd|by right]. }
  destruct (strip_prefix (lit "0X") s) as [hex|] eqn:E2.
  { apply strip_prefix_spec in E2 as ->. rewrite from_str_radix_numeral by lia.
    split; [by constructor|]. intros [(s & [=] & ?)|[(s & [= <-] & ?)|Hd]]%seid_word_inv; [done|].
    exfalso. eapply numeral_no_x; [exact Hd|by left]. }
  rewrite from_str_radix_numeral by lia. split; [by constructor|].
  intros [(s' & -> & _)|[(s' & -> & _)|?]]%seid_word_inv; done.
Qed.

(** Decide the literal patterns of a parser, one after the other. *)
Ltac next_pattern :=
  lazymatch goal with
  | |- (if ?b then _ else _) = _ → _ =>
      lazymatch b with
      | context [is_words ?p ?ws] =>
          let E := fresh "Hw" in
          destruct (is_words p ws) eqn:E; [apply is_words_spec in E|]
      end
  | |- match words_arg ?p ?ws with _ => _ end = _ → _ =>
      let E := fresh "Hw" in
      destruct (words_arg p ws) eqn:E; [apply words_arg_spec in E|]
  end.

(** The alternatives of a rule whose words are all literal, one by one, each
    by evaluation of the parser. *)
Ltac each_alternative :=
  repeat match goal with
  | H : one_of _ _ |- _ => destruct H as (ws & Hws & ->)
  | H : _ ∈ _ :: _ |- _ => apply elem_of_cons in H as [->|H]
  | H : _ ∈ [] |- _ => by apply elem_of_nil in H
  end; try reflexivity.

Lemma upf_parse_seid_spec w seid : upf_parse_seid w = Ok seid ↔ seid_word w seid.
Proof. rewrite <-seid_value_spec. unfold upf_parse_seid. destruct (seid_value w); naive_solver. Qed.

Lemma parse_seid_spec w seid : parse_seid w = Ok seid ↔ seid_word w seid.
Proof. rewrite <-seid_value_spec. unfold parse_seid. destruct (seid_value w); naive_solver. Qed.

Lemma upf_command_exact input c :
  UpfCommand_from_input input = Ok c ↔ upf_grammar (split_whitespace input) c.
Proof.
  unfold UpfCommand_from_input. rewrite split_whitespace_trim.
  set (parts := split_whitespace input). clearbody parts. split.
  - repeat (next_pattern; cbn [orb]).
    all: try (intros [= <-]; subst parts; constructor; eexists; split; [|reflexivity]; set_solver).
    + intros H. inv_ok H. injection H as <-. subst parts. constructor. by apply upf_parse_seid_spec.
    + by destruct parts.
  - destruct 1 as [p Hp|w seid Hw|p Hp|p Hp|p Hp]; each_alternative.
    apply upf_parse_seid_spec in Hw. revert Hw. generalize upf_parse_seid. intros f Hf.
    change (f w ≫= (λ seid, mret (UpfShowSession seid)) = Ok (UpfShowSession seid)).
    by rewrite Hf.
Qed.

Lemma command_exact input c :
  Command_from_input input = Ok c ↔ smf_grammar (split_whitespace input) c.
Proof.
  unfold Command_from_input. rewrite split_whitespace_trim.
  set (parts := split_whitespace input). clearbody parts. split.
  - repeat (next_pattern; cbn [orb]).
    all: try (intros [= <-]; subst parts; constructor; eexists; split; [|reflexivity]; set_solver).
    all: try (intros H; inv_ok H; injection H as <-; subst parts; constructor;
              by apply parse_seid_spec).
    + intros [= <-]. subst parts. constructor.
    + intros H. inv_ok H. injection H as <-. subst parts. constructor.
      unfold parse_uint in *. destruct (from_str_radix 32 10 s) eqn:E; simplify_eq/=.
      by apply from_str_radix_numeral in E; [|lia..].
    + by destruct parts.
  - destruct 1 as [p Hp|w seid Hw| |w n Hw|w seid Hw|p Hp|p Hp|p Hp|p Hp]; each_alternative.
    + apply parse_seid_spec in Hw. revert Hw. generalize parse_seid. intros f Hf.
      change (f w ≫= (λ seid, mret (ShowSession seid)) = Ok (ShowSession seid)). by rewrite Hf.
    + apply from_str_radix_numeral in Hw; [|lia..]. revert Hw.
      change (from_str_radix 32 10 w) with (parse_uint 32 w). generalize parse_uint. intros f Hf.
      change (ok_or (f 32 w) (lit "input integer number") ≫= (λ n, mret (AddSession n))
              = Ok (AddSession n)). by rewrite Hf.
    + apply parse_seid_spec in Hw. revert Hw. generalize parse_seid. intros f Hf.
      change (f w ≫= (λ seid, mret (DelSession seid)) = Ok (DelSession seid)). by rewrite Hf.
Qed.

(** C34. The two command parsers accept exactly their grammars, with the SEID in
    decimal or in hexadecimal, whatever the white space around and between the
    words; every other input, an overflowing number included, is an error. *)
Theorem command_grammars :
  (∀ input c, UpfCommand_from_input input = Ok c ↔ upf_grammar (split_whitespace input) c) ∧
  (∀ input c, Command_from_input input = Ok c ↔ smf_grammar (split_whitespace input) c) ∧
  (∀ input, UpfCommand_from_input input ≠ Panic ∧ Command_from_input input ≠ Panic).
Proof.
  split; [apply upf_command_exact|]. split; [apply command_exact|].
  intros input. split.
  - unfold UpfCommand_from_input, upf_parse_seid.
    repeat case_match; try done. by destruct (seid_value _).
  - unfold Command_from_input, parse_seid.
    repeat case_match; try done; by (destruct (seid_value _) || destruct (parse_uint _ _)).
Qed.

(** A SEID as the listings print it, or in decimal, can be typed back. *)
Lemma seid_word_hex v : u64 v → seid_word (show_hex v) v.
Proof.
  intros Hv. constructor. apply from_str_radix_numeral; [lia..|].
  apply from_str_radix_show; [lia..|done].
Qed.

Lemma seid_word_dec v : u64 v → seid_word (show_dec v) v.
Proof.
  intros Hv. apply seid_dec, from_str_radix_numeral; [lia..|].
  apply from_str_radix_show; [lia..|done].
Qed.

Lemma show_hex_word v : 0 ≤ v → word (show_hex v).
Proof.
  intros Hv. destruct (digits_word 16 v) as [_ Hw]; [lia|done|].
  split; [done|]. apply Forall_app. split; [|done]. by apply (bool_decide_unpack _).
Qed.
