(* ===== verification/LogBuffer.v ===== *)
(** * The bounded log of the two terminals

    [LogEntry] and the body of [App::log], which [upf-edge/src/tui/app.rs] and
    [smf-sim/src/tui/app.rs] share word for word: an entry is pushed at the
    back, and one is popped at the front once there are more than 200.  The
    time of an entry is what [Local::now().format(..)] of chrono prints. *)

From S2P Require Import Prelude Text.

Record LogEntry := mkLogEntry { le_time : str; le_message : str }.

Definition log_push (logs : list LogEntry) (e : LogEntry) : list LogEntry :=
  let logs := logs ++ [e] in
  if (200 <? length logs)%nat then tail logs else logs.

(** The last [n] elements. *)
Definition last_n {A} (n : nat) (l : list A) : list A := drop (length l - n) l.

Lemma last_n_all {A} n (l : list A) : (length l ≤ n)%nat → last_n n l = l.
Proof. intros. unfold last_n. by replace (length l - n)%nat with 0%nat by lia. Qed.

Lemma length_last_n {A} n (l : list A) : (length (last_n n l) ≤ n)%nat.
Proof. unfold last_n. rewrite length_drop. lia. Qed.

(** Appending to a window is the window of the longer list. *)
Lemma last_n_app {A} n (l l' : list A) : last_n n (last_n n l ++ l') = last_n n (l ++ l').
Proof.
  unfold last_n. destruct (decide (length l ≤ n)%nat) as [Hl|Hl].
  - by replace (length l - n)%nat with 0%nat by lia.
  - rewrite !length_app, length_drop.
    assert (length l - (length l - n) = n)%nat as -> by lia.
    replace (n + length l' - n)%nat with (length l') by lia.
    destruct (decide (length l' ≤ n)%nat).
    + rewrite !drop_app_le by (rewrite ?length_drop; lia). rewrite drop_drop.
      do 2 f_equal. lia.
    + rewrite !drop_app_ge by (rewrite ?length_drop; lia). rewrite length_drop. f_equal. lia.
Qed.

(** One push keeps the last 200 of what was there and the new entry. *)
Lemma log_push_window l e : log_push (last_n 200 l) e = last_n 200 (l ++ [e]).
Proof.
  rewrite <-last_n_app. unfold log_push. pose proof (length_last_n 200 l) as Hl.
  set (w := last_n 200 l) in *. rewrite length_app. cbn [length].
  case_len.
  - unfold last_n. rewrite length_app. cbn [length].
    replace (length w + 1 - 200)%nat with 1%nat by lia. by destruct w.
  - symmetry. apply last_n_all. rewrite length_app. cbn [length]. lia.
Qed.

Lemma log_push_bounded l e : (length l ≤ 200)%nat → (length (log_push l e) ≤ 200)%nat.
Proof.
  intros Hl. rewrite <-(last_n_all 200 l) by done. rewrite log_push_window. apply length_last_n.
Qed.

#[export] Hint Resolve log_push_bounded : core.
