(* ===== verification/Types.v ===== *)
(** * PFCP constants ([pfcp-common/src/types.rs])

    The message types, information-element types, causes and flag bits that
    the rest of the program refers to, under the source's names, and the
    classification of grouped IEs. *)

From S2P Require Import Prelude.

Definition INTERFACE_ACCESS : Z := 0.
Definition INTERFACE_CORE : Z := 1.
Definition ACTION_DROP : Z := 1.
Definition ACTION_FORW : Z := 2.
Definition REPORT_TYPE_USAR : Z := 2.
Definition USAGE_REPORT_TRIGGER_PERIO : Z := 1.
Definition USAGE_REPORT_TRIGGER_VOLTH : Z := 2.
Definition VOLUME_MEASUREMENT_TOVOL : Z := 1.
Definition VOLUME_MEASUREMENT_ULVOL : Z := 2.
Definition VOLUME_MEASUREMENT_DLVOL : Z := 4.
Definition PFCP_HEARTBEAT_REQ : Z := 1.
Definition PFCP_HEARTBEAT_RSP : Z := 2.
Definition PFCP_ASSOCIATION_SETUP_REQ : Z := 5.
Definition PFCP_ASSOCIATION_SETUP_RSP : Z := 6.
Definition PFCP_SESSION_ESTABLISHMENT_REQ : Z := 50.
Definition PFCP_SESSION_ESTABLISHMENT_RSP : Z := 51.
Definition PFCP_SESSION_MODIFICATION_REQ : Z := 52.
Definition PFCP_SESSION_MODIFICATION_RSP : Z := 53.
Definition PFCP_SESSION_DELETION_REQ : Z := 54.
Definition PFCP_SESSION_DELETION_RSP : Z := 55.
Definition PFCP_SESSION_REPORT_REQ : Z := 56.
Definition PFCP_SESSION_REPORT_RSP : Z := 57.
Definition PFCP_IE_CREATE_PDR : Z := 1.
Definition PFCP_IE_PDI : Z := 2.
Definition PFCP_IE_CREATE_FAR : Z := 3.
Definition PFCP_IE_FORWARDING_PARAMETERS : Z := 4.
Definition PFCP_IE_CREATE_URR : Z := 6.
Definition PFCP_IE_CREATE_QER : Z := 7.
Definition PFCP_IE_CREATED_PDR : Z := 8.
Definition PFCP_IE_UPDATE_PDR : Z := 9.
Definition PFCP_IE_UPDATE_FAR : Z := 10.
Definition PFCP_IE_UPDATE_FORWARDING_PARAMETERS : Z := 11.
Definition PFCP_IE_UPDATE_URR : Z := 13.
Definition PFCP_IE_REMOVE_PDR : Z := 15.
Definition PFCP_IE_REMOVE_FAR : Z := 16.
Definition PFCP_IE_CAUSE : Z := 19.
Definition PFCP_IE_SOURCE_INTERFACE : Z := 20.
Definition PFCP_IE_FTEID : Z := 21.
Definition PFCP_IE_SDF_FILTER : Z := 23.
Definition PFCP_IE_PRECEDENCE : Z := 29.
Definition PFCP_IE_VOLUME_THRESHOLD : Z := 31.
Definition PFCP_IE_REPORTING_TRIGGERS : Z := 37.
Definition PFCP_IE_REPORT_TYPE : Z := 39.
Definition PFCP_IE_DESTINATION_INTERFACE : Z := 42.
Definition PFCP_IE_UP_FUNCTION_FEATURES : Z := 43.
Definition PFCP_IE_APPLY_ACTION : Z := 44.
Definition PFCP_IE_PDR_ID : Z := 56.
Definition PFCP_IE_FSEID : Z := 57.
Definition PFCP_IE_NODE_ID : Z := 60.
Definition PFCP_IE_MEASUREMENT_METHOD : Z := 62.
Definition PFCP_IE_USAGE_REPORT_TRIGGER : Z := 63.
Definition PFCP_IE_MEASUREMENT_PERIOD : Z := 64.
Definition PFCP_IE_VOLUME_MEASUREMENT : Z := 66.
Definition PFCP_IE_USAGE_REPORT_IN_SESS_MEL_RSP : Z := 79.
Definition PFCP_IE_USAGE_REPORT_IN_SESS_RPT_REQ : Z := 80.
Definition PFCP_IE_URR_ID : Z := 81.
Definition PFCP_IE_OUTER_HEADER_CREATION : Z := 84.
Definition PFCP_IE_CREATE_BAR : Z := 85.
Definition PFCP_IE_CP_FUNCTION_FEATURES : Z := 89.
Definition PFCP_IE_UE_IP_ADDRESS : Z := 93.
Definition PFCP_IE_OUTER_HEADER_REMOVAL : Z := 95.
Definition PFCP_IE_RECOVERY_TIME_STAMP : Z := 96.
Definition PFCP_IE_UR_SEQN : Z := 104.
Definition PFCP_IE_FAR_ID : Z := 108.
Definition CAUSE_REQUEST_ACCEPTED : Z := 1.
Definition REPORTING_TRIGGER_PERIO : Z := 1.
Definition REPORTING_TRIGGER_VOLTH : Z := 2.
Definition MEASUREMENT_METHOD_VOLUM : Z := 2.
Definition VOLUME_THRESHOLD_TOVOL : Z := 1.

(** [is_grouped_ie]: the IE types whose value is parsed as a list of IEs. *)
Definition grouped_ie_types : list Z :=
  [ PFCP_IE_CREATE_PDR; PFCP_IE_CREATE_FAR; PFCP_IE_CREATED_PDR;
    PFCP_IE_UPDATE_PDR; PFCP_IE_UPDATE_FAR; PFCP_IE_REMOVE_PDR;
    PFCP_IE_REMOVE_FAR; PFCP_IE_CREATE_URR; PFCP_IE_CREATE_QER;
    PFCP_IE_CREATE_BAR; PFCP_IE_PDI ].

Definition is_grouped_ie (ie_type : Z) : bool :=
  bool_decide (ie_type ∈ grouped_ie_types).
