(* ===== verification/Header.v ===== *)
(** * PFCP message header ([pfcp-common/src/header.rs])

    [PfcpHeader] with its constructors, [encode] and [decode]. [decode] reads
    every octet through [idx]/[be_at], which panic out of range, so that the
    absence of panics is a theorem and not an assumption. *)

From S2P Require Import Prelude Types.

Definition PFCP_S_FLAG : Z := 1.
Definition PFCP_MP_FLAG : Z := 2.
Definition PFCP_FO_FLAG : Z := 4.
Definition PFCP_VERSION : Z := 1.

Record PfcpHeader := {
  hdr_version : Z;       (* u8 *)
  hdr_s_flag : bool;
  hdr_mp_flag : bool;
  hdr_fo_flag : bool;
  hdr_msg_type : Z;      (* u8 *)
  hdr_length : Z;        (* u16 *)
  hdr_seid : option Z;   (* u64 *)
  hdr_seq_num : Z;       (* u32, 24 bits on the wire *)
  hdr_priority : Z;      (* u8, 4 bits on the wire *)
}.

(** [PfcpError]; the [reason] strings of [IeParseError] are kept as text. *)
Inductive PfcpError :=
| BufferTooShort (need have : nat)
| UnsupportedVersion (version : Z)
| IeParseError (ie_type : Z) (reason : string)
| SessionNotFound (seid : Z).

Definition new_node_msg (msg_type seq_num : Z) : PfcpHeader :=
  {| hdr_version := PFCP_VERSION; hdr_s_flag := false; hdr_mp_flag := false;
     hdr_fo_flag := false; hdr_msg_type := msg_type; hdr_length := 0;
     hdr_seid := None; hdr_seq_num := seq_num; hdr_priority := 0 |}.

Definition new_session_msg (msg_type seid seq_num : Z) : PfcpHeader :=
  {| hdr_version := PFCP_VERSION; hdr_s_flag := true; hdr_mp_flag := false;
     hdr_fo_flag := false; hdr_msg_type := msg_type; hdr_length := 0;
     hdr_seid := Some seid; hdr_seq_num := seq_num; hdr_priority := 0 |}.

Definition header_len (h : PfcpHeader) : nat := if hdr_s_flag h then 16 else 8.

(** The flag octet: version in bits 5-7, then FO, MP and S. *)
Definition encode_flags (h : PfcpHeader) : Z :=
  let flags := wrap 8 (Z.shiftl (Z.land (hdr_version h) 7) 5) in
  let flags := if hdr_fo_flag h then Z.lor flags PFCP_FO_FLAG else flags in
  let flags := if hdr_mp_flag h then Z.lor flags PFCP_MP_FLAG else flags in
  if hdr_s_flag h then Z.lor flags PFCP_S_FLAG else flags.

Definition encode (h : PfcpHeader) : list Z :=
  [encode_flags h; hdr_msg_type h]
  ++ to_be_bytes 2 (hdr_length h)
  ++ (if hdr_s_flag h then to_be_bytes 8 (default 0 (hdr_seid h)) else [])
  ++ [wrap 8 (Z.shiftr (hdr_seq_num h) 16); wrap 8 (Z.shiftr (hdr_seq_num h) 8);
      wrap 8 (hdr_seq_num h)]
  ++ [if hdr_mp_flag h then wrap 8 (Z.shiftl (hdr_priority h) 4) else 0].

Definition decode (buf : list Z) : outcome PfcpError (PfcpHeader * list Z) :=
  if (length buf <? 8)%nat then Err (BufferTooShort 8 (length buf)) else
  flags ← idx buf 0;
  let version := Z.shiftr flags 5 in
  if negb (version =? PFCP_VERSION) then Err (UnsupportedVersion version) else
  let s_flag := has_flag flags PFCP_S_FLAG in
  let mp_flag := has_flag flags PFCP_MP_FLAG in
  let fo_flag := has_flag flags PFCP_FO_FLAG in
  msg_type ← idx buf 1;
  len ← be_at 2 buf 2;
  '(seid, pos) ← (if s_flag then
      if (length buf <? 16)%nat then Err (BufferTooShort 16 (length buf)) else
      seid ← be_at 8 buf 4; mret (Some seid, 12%nat)
    else mret (None, 4%nat));
  b0 ← idx buf pos; b1 ← idx buf (pos + 1); b2 ← idx buf (pos + 2);
  let seq_num := from_be_bytes [0; b0; b1; b2] in
  last ← idx buf (pos + 3);
  let priority := if mp_flag then Z.shiftr last 4 else 0 in
  rest ← slice buf (pos + 4) (length buf);
  mret ({| hdr_version := version; hdr_s_flag := s_flag; hdr_mp_flag := mp_flag;
           hdr_fo_flag := fo_flag; hdr_msg_type := msg_type; hdr_length := len;
           hdr_seid := seid; hdr_seq_num := seq_num; hdr_priority := priority |},
        rest).

(** The headers a PFCP version-1 peer can represent on the wire. *)
Definition wf_header (h : PfcpHeader) : Prop :=
  hdr_version h = PFCP_VERSION ∧ u8 (hdr_msg_type h) ∧ u16 (hdr_length h) ∧
  (if hdr_s_flag h then ∃ seid, hdr_seid h = Some seid ∧ u64 seid
   else hdr_seid h = None) ∧
  0 ≤ hdr_seq_num h < 2 ^ 24 ∧
  (if hdr_mp_flag h then 0 ≤ hdr_priority h < 16 else hdr_priority h = 0).

(** When each error is returned: a short buffer, a foreign version, or a
    session header cut before octet 16. *)
Inductive decode_error (buf : list Z) : PfcpError → Prop :=
| derr_short8 : (length buf < 8)%nat → decode_error buf (BufferTooShort 8 (length buf))
| derr_version flags : (8 ≤ length buf)%nat → buf !! 0%nat = Some flags →
    Z.shiftr flags 5 ≠ PFCP_VERSION → decode_error buf (UnsupportedVersion (Z.shiftr flags 5))
| derr_short16 flags : (8 ≤ length buf < 16)%nat → buf !! 0%nat = Some flags →
    Z.shiftr flags 5 = PFCP_VERSION → has_flag flags PFCP_S_FLAG = true →
    decode_error buf (BufferTooShort 16 (length buf)).

(** ** Closed forms of [decode] on the two header layouts *)

Definition be_seq (b0 b1 b2 : Z) : Z := from_be_bytes [0; b0; b1; b2].

Lemma decode_node_layout flags t (lb : list Z) s0 s1 s2 p rest :
  Z.shiftr flags 5 = PFCP_VERSION → has_flag flags PFCP_S_FLAG = false →
  length lb = 2%nat →
  decode ([flags; t] ++ lb ++ [] ++ [s0; s1; s2] ++ [p] ++ rest) =
  Ok ({| hdr_version := PFCP_VERSION; hdr_s_flag := false;
         hdr_mp_flag := has_flag flags PFCP_MP_FLAG;
         hdr_fo_flag := has_flag flags PFCP_FO_FLAG;
         hdr_msg_type := t; hdr_length := from_be_bytes lb; hdr_seid := None;
         hdr_seq_num := be_seq s0 s1 s2;
         hdr_priority := if has_flag flags PFCP_MP_FLAG then Z.shiftr p 4 else 0 |}, rest).
Proof.
  intros Hv Hs Hlb. destruct lb as [|? [|? [|]]]; try discriminate Hlb. simpl app.
  unfold decode. replace (_ <? 8)%nat with false by (symmetry; apply Nat.ltb_ge; simpl; lia).
  cbn [idx lookup list_lookup mbind outcome_bind].
  rewrite Hv, Hs. cbn -[slice from_be_bytes].
  by rewrite slice_tail by (simpl; lia).
Qed.

Lemma decode_session_layout flags t (lb sb : list Z) s0 s1 s2 p rest :
  Z.shiftr flags 5 = PFCP_VERSION → has_flag flags PFCP_S_FLAG = true →
  length lb = 2%nat → length sb = 8%nat →
  decode ([flags; t] ++ lb ++ sb ++ [s0; s1; s2] ++ [p] ++ rest) =
  Ok ({| hdr_version := PFCP_VERSION; hdr_s_flag := true;
         hdr_mp_flag := has_flag flags PFCP_MP_FLAG;
         hdr_fo_flag := has_flag flags PFCP_FO_FLAG;
         hdr_msg_type := t; hdr_length := from_be_bytes lb;
         hdr_seid := Some (from_be_bytes sb);
         hdr_seq_num := be_seq s0 s1 s2;
         hdr_priority := if has_flag flags PFCP_MP_FLAG then Z.shiftr p 4 else 0 |}, rest).
Proof.
  intros Hv Hs Hlb Hsb. destruct lb as [|? [|? [|]]]; try discriminate Hlb.
  do 8 (destruct sb as [|? sb]; [discriminate Hsb|]). destruct sb; [|discriminate Hsb].
  simpl app. unfold decode.
  replace (_ <? 8)%nat with false by (symmetry; apply Nat.ltb_ge; simpl; lia).
  cbn [idx lookup list_lookup mbind outcome_bind].
  rewrite Hv, Hs. cbn -[slice from_be_bytes].
  by rewrite slice_tail by (simpl; lia).
Qed.

(** ** Flag octet, sequence number and priority survive the wire *)

Lemma encode_flags_fields h :
  hdr_version h = PFCP_VERSION →
  Z.shiftr (encode_flags h) 5 = PFCP_VERSION ∧
  has_flag (encode_flags h) PFCP_S_FLAG = hdr_s_flag h ∧
  has_flag (encode_flags h) PFCP_MP_FLAG = hdr_mp_flag h ∧
  has_flag (encode_flags h) PFCP_FO_FLAG = hdr_fo_flag h.
Proof.
  intros Hv. unfold encode_flags. rewrite Hv.
  destruct (hdr_s_flag h), (hdr_mp_flag h), (hdr_fo_flag h); by vm_compute.
Qed.

Lemma be_seq_encoded n :
  be_seq (wrap 8 (Z.shiftr n 16)) (wrap 8 (Z.shiftr n 8)) (wrap 8 n) = n mod 2 ^ 24.
Proof.
  unfold be_seq, from_be_bytes, wrap. cbn [reverse rev_append from_le_bytes].
  rewrite !Z.shiftr_div_pow2 by lia.
  change (2 ^ 24) with 16777216. change (2 ^ 16) with 65536. change (2 ^ 8) with 256.
  cbn. Z.div_mod_to_equations; lia.
Qed.

Lemma priority_encoded p : 0 ≤ p < 16 → Z.shiftr (wrap 8 (Z.shiftl p 4)) 4 = p.
Proof.
  intros Hp. unfold wrap. rewrite Z.shiftl_mul_pow2, Z.shiftr_div_pow2 by lia.
  change (2 ^ 8) with 256. change (2 ^ 4) with 16. Z.div_mod_to_equations; lia.
Qed.

Lemma length_encode h : length (encode h) = header_len h.
Proof.
  unfold encode, header_len. destruct (hdr_s_flag h); len.
Qed.

Lemma has_flag_range x m : has_flag x m = true → x ≠ 0.
Proof. intros H ->. unfold has_flag in H. by rewrite Z.land_0_l in H. Qed.

(** ** Round trip in both directions *)

Lemma decode_encode_app h body :
  wf_header h → decode (encode h ++ body) = Ok (h, body).
Proof.
  intros (Hv & Ht & Hl & Hs & Hq & Hp).
  destruct (encode_flags_fields h Hv) as (F1 & F2 & F3 & F4).
  unfold encode. rewrite <-!(assoc_L (++)).
  assert (Hprio : (if has_flag (encode_flags h) PFCP_MP_FLAG
    then Z.shiftr (if hdr_mp_flag h then wrap 8 (Z.shiftl (hdr_priority h) 4) else 0) 4
    else 0) = hdr_priority h).
  { rewrite F3. destruct (hdr_mp_flag h); [by apply priority_encoded|done]. }
  destruct (hdr_s_flag h) eqn:Es.
  - destruct Hs as (seid & Hseid & Hu).
    rewrite decode_session_layout by
      (congruence || apply length_to_be_bytes).
    rewrite Hprio, be_seq_encoded, Z.mod_small, from_to_be_16, F3, F4, Hseid by done.
    simpl. rewrite from_to_be_64 by done.
    destruct h; simpl in *; by subst.
  - rewrite decode_node_layout by (congruence || apply length_to_be_bytes).
    rewrite Hprio, be_seq_encoded, Z.mod_small, from_to_be_16, F3, F4 by done.
    destruct h; simpl in *; by subst.
Qed.

Lemma be_seq_bound s0 s1 s2 : u8 s0 → u8 s1 → u8 s2 → 0 ≤ be_seq s0 s1 s2 < 2 ^ 24.
Proof. intros. unfold be_seq, from_be_bytes. cbn. by uint. Qed.

Lemma priority_bound p : u8 p → 0 ≤ Z.shiftr p 4 < 16.
Proof.
  intros. rewrite Z.shiftr_div_pow2 by lia. change (2 ^ 4) with 16.
  unfold u8 in *. Z.div_mod_to_equations; lia.
Qed.

(** The header read from octets is well formed, whatever the octets. *)
Lemma wf_decoded s mp fo t l0 l1 s0 s1 s2 p seid (pre post : list Z) :
  bytes_ok (pre ++ t :: l0 :: l1 :: post ++ s0 :: s1 :: s2 :: p :: []) →
  (if s : bool then ∃ x, seid = Some x ∧ u64 x else seid = None) →
  wf_header {| hdr_version := PFCP_VERSION; hdr_s_flag := s; hdr_mp_flag := mp;
    hdr_fo_flag := fo; hdr_msg_type := t; hdr_length := from_be_bytes [l0; l1];
    hdr_seid := seid; hdr_seq_num := be_seq s0 s1 s2;
    hdr_priority := if mp then Z.shiftr p 4 else 0 |}.
Proof.
  intros Hb Hs. inv_bytes.
  refine (conj _ (conj _ (conj _ (conj _ (conj _ _))))); simpl; try done.
  - apply (from_be_bytes_bound [_; _]). lit_bytes.
  - by apply be_seq_bound.
  - destruct mp; [by apply priority_bound|done].
Qed.

(** Every branch of [decode], as a function of the buffer. *)
Lemma decode_cases buf :
  match decode buf with
  | Ok (h, rest) => (header_len h ≤ length buf)%nat ∧ rest = drop (header_len h) buf ∧
      hdr_version h = PFCP_VERSION ∧
      (if hdr_s_flag h then is_Some (hdr_seid h) else hdr_seid h = None) ∧
      (bytes_ok buf → wf_header h)
  | Err e => decode_error buf e
  | Panic => False
  end.
Proof.
  destruct (decide (length buf < 8)%nat) as [H8|H8].
  { unfold decode. replace (_ <? 8)%nat with true by (symmetry; apply Nat.ltb_lt; lia).
    by constructor. }
  do 8 (destruct buf as [|? buf]; [simpl in H8; lia|]).
  match goal with |- context [decode (?f :: _)] => rename f into flags end.
  destruct (decide (Z.shiftr flags 5 = PFCP_VERSION)) as [Hv|Hv]; last first.
  { unfold decode.
    replace (_ <? 8)%nat with false by (symmetry; apply Nat.ltb_ge; simpl; lia).
    cbn [idx lookup list_lookup mbind outcome_bind].
    rewrite (proj2 (Z.eqb_neq _ _) Hv). econstructor; [simpl; lia|done|done]. }
  destruct (has_flag flags PFCP_S_FLAG) eqn:Hs; last first.
  { match goal with |- context [decode (?f :: ?t :: ?l0 :: ?l1 :: ?s0 :: ?s1 :: ?s2 ::
        ?p :: ?rest)] =>
      pose proof (decode_node_layout f t [l0; l1] s0 s1 s2 p rest Hv Hs eq_refl) as Hd end.
    simpl app in Hd. rewrite Hd. split_and!; [unfold header_len; simpl; lia|done|done|done|].
    intros Hb. apply (wf_decoded _ _ _ _ _ _ _ _ _ _ _ [flags] []); [|done].
    inv_bytes. lit_bytes. }
  destruct (decide (length buf < 8)%nat) as [H16|H16].
  { unfold decode.
    replace (_ <? 8)%nat with false by (symmetry; apply Nat.ltb_ge; simpl; lia).
    cbn [idx lookup list_lookup mbind outcome_bind].
    rewrite Hv, Hs. cbn -[slice from_be_bytes Nat.ltb].
    replace (_ <? 16)%nat with true by (symmetry; apply Nat.ltb_lt; simpl; lia).
    econstructor; [simpl; lia|done|done|done]. }
  do 8 (destruct buf as [|? buf]; [simpl in H16; lia|]).
  match goal with |- context [decode (?f :: ?t :: ?l0 :: ?l1 :: ?a :: ?b :: ?c :: ?d ::
      ?e :: ?g :: ?i :: ?j :: ?s0 :: ?s1 :: ?s2 :: ?p :: ?rest)] =>
    pose proof (decode_session_layout f t [l0; l1] [a;b;c;d;e;g;i;j] s0 s1 s2 p rest Hv Hs
      eq_refl eq_refl) as Hd end.
  simpl app in Hd. rewrite Hd. split_and!; [unfold header_len; simpl; lia|done|done|by eexists|].
  intros Hb. apply (wf_decoded _ _ _ _ _ _ _ _ _ _ _ [flags] []);
    [inv_bytes; lit_bytes|]. eexists; split; [done|].
  inv_bytes.
  apply (from_be_bytes_bound [_;_;_;_;_;_;_;_]). lit_bytes.
Qed.

Lemma decode_not_panic buf : decode buf ≠ Panic.
Proof. pose proof (decode_cases buf) as H. by destruct (decode buf). Qed.

(** The message type is the second octet. *)
Lemma decode_msg_type buf h body : decode buf = Ok (h, body) → buf !! 1%nat = Some (hdr_msg_type h).
Proof.
  unfold decode. destruct (_ <? 8)%nat; [done|].
  intros (flags & _ & Hd)%bind_Ok_inv. cbv zeta in Hd. destruct (negb _); [done|].
  apply bind_Ok_inv in Hd as (t & ->%idx_Ok_inv & Hd). f_equal.
  apply bind_Ok_inv in Hd as (len & _ & Hd). apply bind_Ok_inv in Hd as ([seid pos] & _ & Hd).
  repeat (apply bind_Ok_inv in Hd as (? & _ & Hd)). by injection Hd as <- _.
Qed.

(** Encoding a well-formed header and decoding the result, with any body
    behind it, gives the header and the body back; the encoding is exactly as
    long as [header_len] says. *)
Theorem header_roundtrip h body :
  wf_header h →
  decode (encode h ++ body) = Ok (h, body) ∧ length (encode h) = header_len h.
Proof. intros. split; [by apply decode_encode_app|apply length_encode]. Qed.

Definition sample_header : PfcpHeader :=
  {| hdr_version := 1; hdr_s_flag := true; hdr_mp_flag := true; hdr_fo_flag := false;
     hdr_msg_type := 50; hdr_length := 513; hdr_seid := Some 3735928559;
     hdr_seq_num := 99; hdr_priority := 9 |}.

Lemma header_roundtrip_witness :
  wf_header sample_header ∧
  decode (encode sample_header ++ [7; 8]) = Ok (sample_header, [7; 8]).
Proof.
  assert (wf_header sample_header) as Hwf.
  { refine (conj _ (conj _ (conj _ (conj _ (conj _ _))))); simpl; try (done || by uint).
    exists 3735928559. split; [done|]. by uint. }
  split; [exact Hwf|]. exact (proj1 (header_roundtrip sample_header [7; 8] Hwf)).
Defined.

(** C39. Decoding any buffer of octets never panics; it fails exactly for the
    three documented reasons; and when it succeeds the header is well formed,
    the body is the buffer behind [header_len] octets, and encoding the header
    again gives octets that decode to the same result. *)
Theorem header_decode_total buf :
  bytes_ok buf →
  match decode buf with
  | Ok (h, rest) => wf_header h ∧ rest = drop (header_len h) buf ∧
      (header_len h ≤ length buf)%nat ∧ decode (encode h ++ rest) = Ok (h, rest)
  | Err e => decode_error buf e
  | Panic => False
  end.
Proof.
  intros Hb. pose proof (decode_cases buf) as H.
  destruct (decode buf) as [[h rest]|e|]; [|done|done].
  destruct H as (Hl & -> & _ & _ & Hwf). specialize (Hwf Hb).
  repeat split; try done; by apply decode_encode_app || apply Hwf.
Qed.

Lemma header_decode_total_witness :
  bytes_ok [32; 5; 0] ∧ decode_error [32; 5; 0] (BufferTooShort 8 3).
Proof.
  assert (bytes_ok [32; 5; 0]) as Hb by (repeat (apply Forall_cons_2; [by uint|]); apply Forall_nil_2).
  split; [exact Hb|]. exact (header_decode_total [32; 5; 0] Hb).
Defined.
