(* ===== verification/Ie.v ===== *)
(** * Information elements ([pfcp-common/src/ie.rs])

    The TLV iterator [iter_ies], the parsed structures, the parsers of the
    single IEs and of the grouped IEs (Create PDR, Create URR, Create/Update
    FAR, PDI, Forwarding Parameters).  An [Ipv4Addr] is its 32-bit value;
    [Ipv4Addr::new(v[i], .., v[i+3])] is [ipv4_at v i]. *)

From S2P Require Import Prelude Types Header.

(** ** Data *)

#[warnings="-register-all"]
Inductive RawIE := mkRawIE {
  ie_type : Z;
  ie_length : Z;
  ie_value : list Z;
  sub_ie : list RawIE;
}.

Definition ipv4_at {E} (v : list Z) (i : nat) : outcome E Z := be_at 4 v i.
Definition octets (ip : Z) : list Z := to_be_bytes 4 ip.
Definition UNSPECIFIED : Z := 0.

Record SdfFilter := mkSdfFilter {
  proto : Z; src_ip : Z; dst_ip : Z; src_port : Z; dst_port : Z;
}.

Record OuterHeaderCreation := mkOHC { ohc_teid : Z; ohc_peer_addr : Z; ohc_port : Z }.

Record ParsedPDR := mkParsedPDR {
  pdr_id : Z;
  precedence : Z;
  source_interface : Z;
  local_fteid : option (Z * Z);
  ue_ip : option Z;
  pdr_far_id : option Z;
  pdr_urr_id : option Z;
  outer_header_removal : bool;
  sdf_filter : option SdfFilter;
}.

Record ParsedFAR := mkParsedFAR {
  far_id : Z;
  apply_action : Z;
  dest_interface : option Z;
  outer_header_creation : option OuterHeaderCreation;
}.

Record ParsedURR := mkParsedURR {
  urr_id : Z;
  measurement_method : Z;
  reporting_triggers : Z;
  volume_threshold_total : option Z;
  measurement_period : option Z;
}.

(** ** The TLV iterator

    One turn of the [while buf.len() >= 4] loop reads type and length from the
    first four octets; [rest] is [&buf[4..]].  The loop and the recursion into
    grouped IEs both run on strictly shorter buffers: [iter_ies] gives them
    the buffer's length as fuel, and [iter_ies_unfold] below shows that the
    fuel never decides the result. *)
Fixpoint iter_ies_fuel (fuel : nat) (buf : list Z) : list RawIE :=
  match fuel with
  | O => []
  | S fuel =>
      match buf with
      | t0 :: t1 :: l0 :: l1 :: rest =>
          let ty := from_be_bytes [t0; t1] in
          let len := from_be_bytes [l0; l1] in
          if (Z.of_nat (length rest) <? len) then [] else
          let value := take (Z.to_nat len) rest in
          let sub := if is_grouped_ie ty then iter_ies_fuel fuel value else [] in
          mkRawIE ty len value sub :: iter_ies_fuel fuel (drop (Z.to_nat len) rest)
      | _ => []
      end
  end.

Definition iter_ies (buf : list Z) : list RawIE := iter_ies_fuel (length buf) buf.

(** ** Parsers of single IEs *)

Definition parse_node_id (value : list Z) : outcome PfcpError Z :=
  if (length value <? 5)%nat then Err (IeParseError PFCP_IE_NODE_ID "too short") else
  b0 ← idx value 0;
  let node_type := Z.land b0 15 in
  if negb (node_type =? 0) then
    Err (IeParseError PFCP_IE_NODE_ID ("unsupported type " +:+ pretty node_type +:+ " (only IPv4)"))
  else ipv4_at value 1.

Definition parse_recovery_timestamp (value : list Z) : outcome PfcpError Z :=
  if (length value <? 4)%nat then Err (IeParseError PFCP_IE_RECOVERY_TIME_STAMP "too short")
  else be_at 4 value 0.

Definition parse_fseid (value : list Z) : outcome PfcpError (Z * Z) :=
  if (length value <? 13)%nat then Err (IeParseError PFCP_IE_FSEID "too short") else
  seid ← be_at 8 value 1;
  addr ← ipv4_at value 9;
  mret (seid, addr).

Definition parse_fteid (value : list Z) : outcome PfcpError (Z * Z) :=
  if (length value <? 5)%nat then Err (IeParseError PFCP_IE_FTEID "too short") else
  flags ← idx value 0;
  let ch := has_flag flags 4 in
  teid ← be_at 4 value 1;
  if ch : bool then mret (0, UNSPECIFIED) else
  if (9 <=? length value)%nat then
    addr ← ipv4_at value 5; mret (teid, addr)
  else Err (IeParseError PFCP_IE_FTEID "no IPv4 address").

Definition parse_ue_ip_address (value : list Z) : outcome PfcpError Z :=
  if (length value <? 5)%nat then Err (IeParseError PFCP_IE_UE_IP_ADDRESS "too short") else
  b0 ← idx value 0;
  if has_flag b0 2 then ipv4_at value 1
  else Err (IeParseError PFCP_IE_UE_IP_ADDRESS "no IPv4").

Definition parse_outer_header_creation (value : list Z) : outcome PfcpError OuterHeaderCreation :=
  if (length value <? 10)%nat then
    Err (IeParseError PFCP_IE_OUTER_HEADER_CREATION "too short") else
  teid ← be_at 4 value 2;
  addr ← ipv4_at value 6;
  mret (mkOHC teid addr 2152).

Definition parse_apply_action (value : list Z) : outcome PfcpError Z :=
  if (length value =? 0)%nat then Err (IeParseError PFCP_IE_APPLY_ACTION "empty")
  else idx value 0.

Definition parse_sdf_filter (value : list Z) : outcome PfcpError SdfFilter :=
  if (length value <? 13)%nat then Err (IeParseError PFCP_IE_SDF_FILTER "too short") else
  proto ← idx value 0;
  src ← ipv4_at value 1;
  dst ← ipv4_at value 5;
  sp ← be_at 2 value 9;
  dp ← be_at 2 value 11;
  mret (mkSdfFilter proto src dst sp dp).

Definition parse_volume_threshold (value : list Z) : outcome PfcpError (option Z) :=
  if (length value =? 0)%nat then mret None else
  flags ← idx value 0;
  if has_flag flags VOLUME_THRESHOLD_TOVOL then
    if (length value <? 1 + 8)%nat then Err (BufferTooShort (1 + 8) (length value)) else
    v ← be_at 8 value 1; mret (Some v)
  else mret None.

(** ** Grouped IEs

    Each parser walks the IEs of its value in order and updates an
    accumulator; a later IE of the same type overwrites an earlier one. *)

Definition set_pdr_id v p := mkParsedPDR v (precedence p) (source_interface p) (local_fteid p)
  (ue_ip p) (pdr_far_id p) (pdr_urr_id p) (outer_header_removal p) (sdf_filter p).
Definition set_precedence v p := mkParsedPDR (pdr_id p) v (source_interface p) (local_fteid p)
  (ue_ip p) (pdr_far_id p) (pdr_urr_id p) (outer_header_removal p) (sdf_filter p).
Definition set_source_interface v p := mkParsedPDR (pdr_id p) (precedence p) v (local_fteid p)
  (ue_ip p) (pdr_far_id p) (pdr_urr_id p) (outer_header_removal p) (sdf_filter p).
Definition set_local_fteid v p := mkParsedPDR (pdr_id p) (precedence p) (source_interface p) (Some v)
  (ue_ip p) (pdr_far_id p) (pdr_urr_id p) (outer_header_removal p) (sdf_filter p).
Definition set_ue_ip v p := mkParsedPDR (pdr_id p) (precedence p) (source_interface p) (local_fteid p)
  (Some v) (pdr_far_id p) (pdr_urr_id p) (outer_header_removal p) (sdf_filter p).
Definition set_pdr_far_id v p := mkParsedPDR (pdr_id p) (precedence p) (source_interface p)
  (local_fteid p) (ue_ip p) (Some v) (pdr_urr_id p) (outer_header_removal p) (sdf_filter p).
Definition set_pdr_urr_id v p := mkParsedPDR (pdr_id p) (precedence p) (source_interface p)
  (local_fteid p) (ue_ip p) (pdr_far_id p) (Some v) (outer_header_removal p) (sdf_filter p).
Definition set_outer_header_removal p := mkParsedPDR (pdr_id p) (precedence p) (source_interface p)
  (local_fteid p) (ue_ip p) (pdr_far_id p) (pdr_urr_id p) true (sdf_filter p).
Definition set_sdf_filter v p := mkParsedPDR (pdr_id p) (precedence p) (source_interface p)
  (local_fteid p) (ue_ip p) (pdr_far_id p) (pdr_urr_id p) (outer_header_removal p) (Some v).

(** [if ie.value.len() >= n { field = uN::from_be_bytes(..) }] *)
Definition field_if_long {A} (n : nat) (ie : RawIE) (set : Z → A → A) (acc : A) : outcome PfcpError A :=
  if (n <=? length (ie_value ie))%nat then
    v ← be_at n (ie_value ie) 0; mret (set v acc)
  else mret acc.

Definition parse_pdi_step (pdr : ParsedPDR) (ie : RawIE) : outcome PfcpError ParsedPDR :=
  let t := ie_type ie in
  if t =? PFCP_IE_SOURCE_INTERFACE then
    field_if_long 1 ie (λ v, set_source_interface (Z.land v 15)) pdr
  else if t =? PFCP_IE_FTEID then
    v ← parse_fteid (ie_value ie); mret (set_local_fteid v pdr)
  else if t =? PFCP_IE_UE_IP_ADDRESS then
    v ← parse_ue_ip_address (ie_value ie); mret (set_ue_ip v pdr)
  else if t =? PFCP_IE_SDF_FILTER then
    v ← parse_sdf_filter (ie_value ie); mret (set_sdf_filter v pdr)
  else mret pdr.

Definition parse_pdi (value : list Z) (pdr : ParsedPDR) : outcome PfcpError ParsedPDR :=
  foldM parse_pdi_step pdr (iter_ies value).

Definition empty_pdr : ParsedPDR := mkParsedPDR 0 0 0 None None None None false None.

Definition parse_create_pdr_step (pdr : ParsedPDR) (ie : RawIE) : outcome PfcpError ParsedPDR :=
  let t := ie_type ie in
  if t =? PFCP_IE_PDR_ID then field_if_long 2 ie set_pdr_id pdr
  else if t =? PFCP_IE_PRECEDENCE then field_if_long 4 ie set_precedence pdr
  else if t =? PFCP_IE_PDI then parse_pdi (ie_value ie) pdr
  else if t =? PFCP_IE_FAR_ID then field_if_long 4 ie set_pdr_far_id pdr
  else if t =? PFCP_IE_URR_ID then field_if_long 4 ie set_pdr_urr_id pdr
  else if t =? PFCP_IE_OUTER_HEADER_REMOVAL then mret (set_outer_header_removal pdr)
  else if t =? PFCP_IE_SDF_FILTER then
    v ← parse_sdf_filter (ie_value ie); mret (set_sdf_filter v pdr)
  else mret pdr.

Definition parse_create_pdr (value : list Z) : outcome PfcpError ParsedPDR :=
  foldM parse_create_pdr_step empty_pdr (iter_ies value).

Definition set_urr_id v u := mkParsedURR v (measurement_method u) (reporting_triggers u)
  (volume_threshold_total u) (measurement_period u).
Definition set_measurement_method v u := mkParsedURR (urr_id u) v (reporting_triggers u)
  (volume_threshold_total u) (measurement_period u).
Definition set_reporting_triggers v u := mkParsedURR (urr_id u) (measurement_method u) v
  (volume_threshold_total u) (measurement_period u).
Definition set_volume_threshold v u := mkParsedURR (urr_id u) (measurement_method u)
  (reporting_triggers u) v (measurement_period u).
Definition set_measurement_period v u := mkParsedURR (urr_id u) (measurement_method u)
  (reporting_triggers u) (volume_threshold_total u) (Some v).

Definition empty_urr : ParsedURR := mkParsedURR 0 0 0 None None.

Definition parse_create_urr_step (urr : ParsedURR) (ie : RawIE) : outcome PfcpError ParsedURR :=
  let t := ie_type ie in
  if t =? PFCP_IE_URR_ID then field_if_long 4 ie set_urr_id urr
  else if t =? PFCP_IE_MEASUREMENT_METHOD then field_if_long 1 ie set_measurement_method urr
  else if t =? PFCP_IE_REPORTING_TRIGGERS then field_if_long 1 ie set_reporting_triggers urr
  else if t =? PFCP_IE_VOLUME_THRESHOLD then
    v ← parse_volume_threshold (ie_value ie); mret (set_volume_threshold v urr)
  else if t =? PFCP_IE_MEASUREMENT_PERIOD then field_if_long 4 ie set_measurement_period urr
  else mret urr.

Definition parse_create_urr (value : list Z) : outcome PfcpError ParsedURR :=
  foldM parse_create_urr_step empty_urr (iter_ies value).

Definition set_far_id v f := mkParsedFAR v (apply_action f) (dest_interface f)
  (outer_header_creation f).
Definition set_apply_action v f := mkParsedFAR (far_id f) v (dest_interface f)
  (outer_header_creation f).
Definition set_dest_interface v f := mkParsedFAR (far_id f) (apply_action f) (Some v)
  (outer_header_creation f).
Definition set_ohc v f := mkParsedFAR (far_id f) (apply_action f) (dest_interface f) (Some v).

Definition parse_forwarding_params_step (far : ParsedFAR) (ie : RawIE) : outcome PfcpError ParsedFAR :=
  let t := ie_type ie in
  if t =? PFCP_IE_DESTINATION_INTERFACE then
    field_if_long 1 ie (λ v, set_dest_interface (Z.land v 15)) far
  else if t =? PFCP_IE_OUTER_HEADER_CREATION then
    v ← parse_outer_header_creation (ie_value ie); mret (set_ohc v far)
  else mret far.

Definition parse_forwarding_params (value : list Z) (far : ParsedFAR) : outcome PfcpError ParsedFAR :=
  foldM parse_forwarding_params_step far (iter_ies value).

Definition empty_far : ParsedFAR := mkParsedFAR 0 0 None None.

Definition parse_create_far_step (far : ParsedFAR) (ie : RawIE) : outcome PfcpError ParsedFAR :=
  let t := ie_type ie in
  if t =? PFCP_IE_FAR_ID then field_if_long 4 ie set_far_id far
  else if t =? PFCP_IE_APPLY_ACTION then
    v ← parse_apply_action (ie_value ie); mret (set_apply_action v far)
  else if t =? PFCP_IE_FORWARDING_PARAMETERS then parse_forwarding_params (ie_value ie) far
  else mret far.

Definition parse_create_far (value : list Z) : outcome PfcpError ParsedFAR :=
  foldM parse_create_far_step empty_far (iter_ies value).

Definition parse_update_far_step (far : ParsedFAR) (ie : RawIE) : outcome PfcpError ParsedFAR :=
  let t := ie_type ie in
  if t =? PFCP_IE_FAR_ID then field_if_long 4 ie set_far_id far
  else if t =? PFCP_IE_APPLY_ACTION then
    v ← parse_apply_action (ie_value ie); mret (set_apply_action v far)
  else if t =? PFCP_IE_UPDATE_FORWARDING_PARAMETERS then
    parse_forwarding_params (ie_value ie) far
  else mret far.

Definition parse_update_far (value : list Z) : outcome PfcpError ParsedFAR :=
  foldM parse_update_far_step empty_far (iter_ies value).

(** The number of IEs in a parsed tree, and its nesting depth (which is the
    depth of the recursion of the parser on the call stack). *)
Fixpoint ie_size (ie : RawIE) : nat :=
  match ie with mkRawIE _ _ _ sub => S (sum_list_with ie_size sub) end.
Fixpoint ie_depth (ie : RawIE) : nat :=
  match ie with mkRawIE _ _ _ sub => S (max_list_with ie_depth sub) end.

(** The octets an IE was parsed from. *)
Definition ie_wire (ie : RawIE) : list Z :=
  to_be_bytes 2 (ie_type ie) ++ to_be_bytes 2 (ie_length ie) ++ ie_value ie.

(** A remainder no further IE can be read from: fewer than four octets, or a
    declared length beyond its end. *)
Definition ie_stuck (tail : list Z) : Prop :=
  (length tail < 4)%nat ∨
  ∃ t0 t1 l0 l1 rest, tail = t0 :: t1 :: l0 :: l1 :: rest ∧
    Z.of_nat (length rest) < from_be_bytes [l0; l1].

Definition ie_ok (ie : RawIE) : Prop :=
  u16 (ie_type ie) ∧ u16 (ie_length ie) ∧ ie_length ie = Z.of_nat (length (ie_value ie)) ∧
  sub_ie ie = if is_grouped_ie (ie_type ie) then iter_ies (ie_value ie) else [].

(** ** Fuel of [iter_ies] *)

Lemma iter_ies_fuel_irrel n m buf :
  (length buf ≤ n)%nat → (length buf ≤ m)%nat → iter_ies_fuel n buf = iter_ies_fuel m buf.
Proof.
  revert m buf; induction n as [|n IH]; intros [|m] buf Hn Hm;
    try (destruct buf; [done|simpl in *; lia]).
  destruct buf as [|t0 [|t1 [|l0 [|l1 rest]]]]; try done. simpl in *.
  destruct (_ <? _) eqn:E; [done|].
  rewrite (IH m (take _ _)), (IH m (drop _ _));
    rewrite ?length_take, ?length_drop; try lia. done.
Qed.

Lemma iter_ies_cons t0 t1 l0 l1 rest :
  iter_ies (t0 :: t1 :: l0 :: l1 :: rest) =
  let ty := from_be_bytes [t0; t1] in
  let len := from_be_bytes [l0; l1] in
  if Z.of_nat (length rest) <? len then [] else
  let value := take (Z.to_nat len) rest in
  mkRawIE ty len value (if is_grouped_ie ty then iter_ies value else []) ::
  iter_ies (drop (Z.to_nat len) rest).
Proof.
  unfold iter_ies at 1. cbn [length].
  remember (S (S (S (length rest)))) as n eqn:Hn. cbn [iter_ies_fuel]. cbv zeta.
  destruct (_ <? _); [done|]. unfold iter_ies.
  f_equal; [f_equal; destruct (is_grouped_ie _); [|done]|];
    apply iter_ies_fuel_irrel; rewrite ?length_take, ?length_drop; lia.
Qed.

Lemma iter_ies_short buf : (length buf < 4)%nat → iter_ies buf = [].
Proof. destruct buf as [|? [|? [|? [|]]]]; simpl; done || lia. Qed.

Lemma iter_ies_stuck buf : ie_stuck buf → iter_ies buf = [].
Proof.
  intros [H|(t0 & t1 & l0 & l1 & rest & -> & H)]; [by apply iter_ies_short|].
  rewrite iter_ies_cons. cbv zeta. by rewrite (proj2 (Z.ltb_lt _ _) H).
Qed.


(** Every buffer of octets is stuck or starts with a complete IE. *)
Lemma ie_stuck_or_wire buf :
  bytes_ok buf →
  ie_stuck buf ∨
  ∃ ie rest, ie_ok ie ∧ buf = ie_wire ie ++ rest ∧ iter_ies buf = ie :: iter_ies rest.
Proof.
  intros Hb. destruct (decide (length buf < 4)%nat) as [|H4]; [by left; left|].
  do 4 (destruct buf as [|? buf]; [simpl in H4; lia|]). inv_bytes.
  match goal with |- ie_stuck (?a :: ?b :: ?c :: ?d :: _) ∨ _ =>
    rename a into t0, b into t1, c into l0, d into l1 end.
  destruct (decide (Z.of_nat (length buf) < from_be_bytes [l0; l1])) as [Hl|Hl].
  { left. right. eauto 10. }
  right. set (len := from_be_bytes [l0; l1]) in *.
  assert (0 ≤ len < 65536) as Hlen
    by (apply (from_be_bytes_bound [l0; l1]); lit_bytes).
  assert (u16 (from_be_bytes [t0; t1])) as Hty
    by (apply (from_be_bytes_bound [t0; t1]); lit_bytes).
  eexists (mkRawIE _ _ (take (Z.to_nat len) buf) _), (drop (Z.to_nat len) buf).
  split_and!; last first.
  - rewrite iter_ies_cons. cbv zeta. fold len.
    rewrite (proj2 (Z.ltb_ge _ _)) by lia. reflexivity.
  - unfold ie_wire, len; cbn [ie_type ie_length ie_value].
    rewrite (to_from_be_bytes [t0; t1] : _ → to_be_bytes 2 _ = _) by lit_bytes.
    rewrite (to_from_be_bytes [l0; l1] : _ → to_be_bytes 2 _ = _) by lit_bytes.
    simpl. by rewrite take_drop.
  - refine (conj Hty (conj Hlen (conj _ eq_refl))). cbn [ie_length ie_value]. rewrite length_take. lia.
Qed.

Lemma length_ie_wire ie : length (ie_wire ie) = (4 + length (ie_value ie))%nat.
Proof. unfold ie_wire. len. Qed.

Lemma bytes_ok_ie_wire ie : bytes_ok (ie_wire ie) → bytes_ok (ie_value ie).
Proof. unfold ie_wire. rewrite !bytes_ok_app. tauto. Qed.

(** Induction along the parse of a buffer. *)
Lemma iter_ies_ind (P : list Z → list RawIE → Prop) :
  (∀ buf, ie_stuck buf → P buf []) →
  (∀ ie rest, ie_ok ie →
     P (ie_value ie) (iter_ies (ie_value ie)) → P rest (iter_ies rest) →
     P (ie_wire ie ++ rest) (ie :: iter_ies rest)) →
  ∀ buf, bytes_ok buf → P buf (iter_ies buf).
Proof.
  intros Hstuck Hcons buf.
  remember (length buf) as n eqn:Hn. revert buf Hn.
  induction (lt_wf n) as [n _ IH]. intros buf -> Hb.
  destruct (ie_stuck_or_wire buf Hb) as [Hs|(ie & rest & Hie & -> & ->)].
  { rewrite iter_ies_stuck by done. auto. }
  apply bytes_ok_app in Hb as [Hw Hr].
  apply Hcons; [done| |]; (eapply IH; [|reflexivity|]);
    eauto using bytes_ok_ie_wire; rewrite length_app, length_ie_wire; lia.
Qed.

(** Reading back one encoded IE. *)
Lemma iter_ies_wire ty v rest :
  u16 ty → Z.of_nat (length v) < 65536 →
  iter_ies (to_be_bytes 2 ty ++ to_be_bytes 2 (Z.of_nat (length v)) ++ v ++ rest) =
  mkRawIE ty (Z.of_nat (length v)) v (if is_grouped_ie ty then iter_ies v else []) ::
  iter_ies rest.
Proof.
  intros Hty Hv. assert (u16 (Z.of_nat (length v))) as Hl by uint.
  pose proof (from_to_be_16 _ Hty) as E1. pose proof (from_to_be_16 _ Hl) as E2.
  pose proof (length_to_be_bytes 2 ty) as L1.
  pose proof (length_to_be_bytes 2 (Z.of_nat (length v))) as L2.
  destruct (to_be_bytes 2 ty) as [|t0 [|t1 [|]]]; try discriminate L1.
  destruct (to_be_bytes 2 (Z.of_nat (length v))) as [|l0 [|l1 [|]]]; try discriminate L2.
  simpl app. rewrite iter_ies_cons. cbv zeta. rewrite E1, E2, Nat2Z.id.
  rewrite (proj2 (Z.ltb_ge _ _)) by len.
  by rewrite take_app_length, drop_app_length.
Qed.

(** ** Absence of panics in the parsers *)

(** Evaluate the guarded reads of a single-IE parser. *)
Ltac no_panic :=
  repeat first [case_len | rewrite idx_total by lia | rewrite be_at_Ok by lia
               | progress simpl_outcome | case_match]; try discriminate.

Lemma parse_node_id_not_panic v : parse_node_id v ≠ Panic.
Proof. unfold parse_node_id, ipv4_at. no_panic. Qed.

Lemma parse_recovery_timestamp_not_panic v : parse_recovery_timestamp v ≠ Panic.
Proof. unfold parse_recovery_timestamp. no_panic. Qed.

Lemma parse_fseid_not_panic v : parse_fseid v ≠ Panic.
Proof. unfold parse_fseid, ipv4_at. no_panic. Qed.

Lemma parse_fteid_not_panic v : parse_fteid v ≠ Panic.
Proof. unfold parse_fteid, ipv4_at. no_panic. Qed.

Lemma parse_ue_ip_address_not_panic v : parse_ue_ip_address v ≠ Panic.
Proof. unfold parse_ue_ip_address, ipv4_at. no_panic. Qed.

Lemma parse_outer_header_creation_not_panic v : parse_outer_header_creation v ≠ Panic.
Proof. unfold parse_outer_header_creation, ipv4_at. no_panic. Qed.

Lemma parse_apply_action_not_panic v : parse_apply_action v ≠ Panic.
Proof. unfold parse_apply_action. no_panic. Qed.

Lemma parse_sdf_filter_not_panic v : parse_sdf_filter v ≠ Panic.
Proof. unfold parse_sdf_filter, ipv4_at. no_panic. Qed.

Lemma parse_volume_threshold_not_panic v : parse_volume_threshold v ≠ Panic.
Proof. unfold parse_volume_threshold. no_panic. Qed.

Lemma field_if_long_eq {A} n ie (set : Z → A → A) acc :
  field_if_long n ie set acc =
  Ok (if (n <=? length (ie_value ie))%nat
      then set (from_be_bytes (take n (ie_value ie))) acc else acc).
Proof. unfold field_if_long. case_len; [by rewrite be_at_Ok by lia|done]. Qed.

Lemma bind_not_panic {E A B} (m : outcome E A) (f : A → outcome E B) :
  m ≠ Panic → (∀ a, f a ≠ Panic) → m ≫= f ≠ Panic.
Proof. destruct m; simpl; auto. Qed.

Create HintDb nopanic.
#[export] Hint Resolve parse_node_id_not_panic parse_recovery_timestamp_not_panic
  parse_fseid_not_panic parse_fteid_not_panic parse_ue_ip_address_not_panic
  parse_outer_header_creation_not_panic parse_apply_action_not_panic
  parse_sdf_filter_not_panic parse_volume_threshold_not_panic : nopanic.

(** A step of a grouped parser: a dispatch on the type over fields and
    single-IE parsers. *)
Ltac step_no_panic :=
  repeat case_match; rewrite ?field_if_long_eq; try discriminate;
  try (apply bind_not_panic; [|intros; discriminate]); auto with nopanic.

Lemma parse_pdi_not_panic v pdr : parse_pdi v pdr ≠ Panic.
Proof. apply foldM_no_panic. intros ? ie _. unfold parse_pdi_step. step_no_panic. Qed.

Lemma parse_forwarding_params_not_panic v far : parse_forwarding_params v far ≠ Panic.
Proof.
  apply foldM_no_panic. intros ? ie _. unfold parse_forwarding_params_step. step_no_panic.
Qed.

#[export] Hint Resolve parse_pdi_not_panic parse_forwarding_params_not_panic : nopanic.

Lemma parse_create_pdr_not_panic v : parse_create_pdr v ≠ Panic.
Proof. apply foldM_no_panic. intros ? ie _. unfold parse_create_pdr_step. step_no_panic. Qed.

Lemma parse_create_urr_not_panic v : parse_create_urr v ≠ Panic.
Proof. apply foldM_no_panic. intros ? ie _. unfold parse_create_urr_step. step_no_panic. Qed.

Lemma parse_create_far_not_panic v : parse_create_far v ≠ Panic.
Proof. apply foldM_no_panic. intros ? ie _. unfold parse_create_far_step. step_no_panic. Qed.

Lemma parse_update_far_not_panic v : parse_update_far v ≠ Panic.
Proof. apply foldM_no_panic. intros ? ie _. unfold parse_update_far_step. step_no_panic. Qed.

#[export] Hint Resolve parse_create_pdr_not_panic parse_create_urr_not_panic
  parse_create_far_not_panic parse_update_far_not_panic : nopanic.

(** ** Properties of the iterator *)

(** Completeness, one IE at a time. *)
Lemma iter_ies_wire_cons ie rest :
  ie_ok ie → iter_ies (ie_wire ie ++ rest) = ie :: iter_ies rest.
Proof.
  destruct ie as [ty len v sub]. intros (Hty & Hl & Hlen & Hsub).
  unfold ie_wire; cbn [ie_type ie_length ie_value sub_ie] in *. subst len.
  rewrite <-!(assoc_L (++)), iter_ies_wire by (done || by uint). by subst sub.
Qed.

Lemma iter_ies_complete l tail :
  Forall ie_ok l → ie_stuck tail → iter_ies (concat (ie_wire <$> l) ++ tail) = l.
Proof.
  intros Hl Ht. induction Hl as [|ie l Hie Hl IH].
  - by apply iter_ies_stuck.
  - rewrite fmap_cons, concat_cons. by rewrite <-(assoc_L (++)), iter_ies_wire_cons, IH.
Qed.

Lemma iter_ies_sound buf :
  bytes_ok buf →
  Forall ie_ok (iter_ies buf) ∧
  ∃ tail, buf = concat (ie_wire <$> iter_ies buf) ++ tail ∧ ie_stuck tail.
Proof.
  apply (iter_ies_ind (λ buf l, Forall ie_ok l ∧
    ∃ tail, buf = concat (ie_wire <$> l) ++ tail ∧ ie_stuck tail)).
  - intros b Hs. split; [constructor|]. by exists b.
  - intros ie rest Hie _ [Hl (tail & Heq & Ht)]. split; [by constructor|].
    exists tail. split; [|done]. rewrite fmap_cons, concat_cons, <-(assoc_L (++)).
    by rewrite <-Heq.
Qed.

Lemma ie_ok_size ie :
  ie_ok ie → ie_size ie =
  S (if is_grouped_ie (ie_type ie) then sum_list_with ie_size (iter_ies (ie_value ie)) else 0).
Proof.
  destruct ie as [ty len v sub]. intros (_ & _ & _ & Hs). simpl in *. subst sub.
  by destruct (is_grouped_ie ty).
Qed.

Lemma ie_ok_depth ie :
  ie_ok ie → ie_depth ie =
  S (if is_grouped_ie (ie_type ie) then max_list_with ie_depth (iter_ies (ie_value ie)) else 0).
Proof.
  destruct ie as [ty len v sub]. intros (_ & _ & _ & Hs). simpl in *. subst sub.
  by destruct (is_grouped_ie ty).
Qed.

Lemma iter_ies_size buf :
  bytes_ok buf → (4 * sum_list_with ie_size (iter_ies buf) ≤ length buf)%nat.
Proof.
  apply (iter_ies_ind (λ buf l, (4 * sum_list_with ie_size l ≤ length buf)%nat)).
  - intros. simpl. lia.
  - intros ie rest Hie Hv Hr. cbn [sum_list_with].
    rewrite (ie_ok_size _ Hie), length_app, length_ie_wire.
    destruct (is_grouped_ie _); lia.
Qed.

Lemma iter_ies_depth buf :
  bytes_ok buf → (4 * max_list_with ie_depth (iter_ies buf) ≤ length buf)%nat.
Proof.
  apply (iter_ies_ind (λ buf l, (4 * max_list_with ie_depth l ≤ length buf)%nat)).
  - intros. simpl. lia.
  - intros ie rest Hie Hv Hr. cbn [max_list_with].
    rewrite (ie_ok_depth _ Hie), length_app, length_ie_wire.
    destruct (is_grouped_ie _); lia.
Qed.

(** C24. [iter_ies] is the exact inverse of concatenating IEs: on any buffer of
    octets it returns well-formed IEs whose wire images, in order, make up the
    buffer except for a tail no IE can be read from; and any other way to cut
    the buffer into well-formed IEs and such a tail is the same list. *)
Theorem iter_ies_exact buf :
  bytes_ok buf →
  (Forall ie_ok (iter_ies buf) ∧
   ∃ tail, buf = concat (ie_wire <$> iter_ies buf) ++ tail ∧ ie_stuck tail) ∧
  ∀ l tail, Forall ie_ok l → ie_stuck tail →
    buf = concat (ie_wire <$> l) ++ tail → l = iter_ies buf.
Proof.
  intros Hb. split; [by apply iter_ies_sound|].
  intros l tail Hl Ht ->. symmetry. by apply iter_ies_complete.
Qed.

Definition sample_ies : list Z :=
  [0; 56; 0; 2; 0; 1; 0; 29; 0; 4; 0; 0; 0; 100; 0; 60; 0; 9; 1].

Lemma sample_ies_ok : bytes_ok sample_ies.
Proof. check_bytes. Qed.

Lemma iter_ies_exact_witness :
  bytes_ok sample_ies ∧ length (iter_ies sample_ies) = 2%nat ∧
  Forall ie_ok (iter_ies sample_ies).
Proof.
  split; [exact sample_ies_ok|]. split; [by vm_compute|].
  exact (proj1 (proj1 (iter_ies_exact sample_ies sample_ies_ok))).
Defined.

(** Parsing is linear in space: the whole tree of IEs that [iter_ies]
    builds, sub-IEs included, has at most one node for every four octets, and
    the recursion into grouped IEs is at most that deep.  The server's receive
    buffer of 4096 octets bounds both by 1024. *)
Theorem iter_ies_bounded buf :
  bytes_ok buf →
  (4 * sum_list_with ie_size (iter_ies buf) ≤ length buf)%nat ∧
  (4 * max_list_with ie_depth (iter_ies buf) ≤ length buf)%nat ∧
  (length buf ≤ 4096 →
   sum_list_with ie_size (iter_ies buf) ≤ 1024 ∧
   max_list_with ie_depth (iter_ies buf) ≤ 1024)%nat.
Proof.
  intros Hb. pose proof (iter_ies_size _ Hb). pose proof (iter_ies_depth _ Hb). lia.
Qed.

Lemma iter_ies_bounded_witness :
  bytes_ok sample_ies ∧ (4 * sum_list_with ie_size (iter_ies sample_ies) ≤ 19)%nat.
Proof.
  split; [exact sample_ies_ok|].
  exact (proj1 (iter_ies_bounded sample_ies sample_ies_ok)).
Defined.

(** No input makes a parser panic: every parser of a single or grouped IE
    ends with a value or an error, whatever the octets (and whatever the
    lengths nested inside them). *)
Theorem parsers_never_panic value :
  parse_create_pdr value ≠ Panic ∧ parse_create_far value ≠ Panic ∧
  parse_update_far value ≠ Panic ∧ parse_create_urr value ≠ Panic ∧
  parse_node_id value ≠ Panic ∧ parse_recovery_timestamp value ≠ Panic ∧
  parse_fseid value ≠ Panic ∧ parse_fteid value ≠ Panic.
Proof. auto 10 with nopanic. Qed.
