(* ===== verification/Builder.v ===== *)
(** * Message builder ([pfcp-common/src/builder.rs])

    [MsgBuilder] is its buffer [buf]; a method that takes [&mut self] returns
    the new buffer.  The [build_*] functions are the complete messages the
    server and the simulator send.  The second half proves that what is built
    is parsed back. *)

From S2P Require Import Prelude Types Header Ie.

Definition msg_new (header : PfcpHeader) : list Z := encode header.

(** [finish]: patch the length field.  [self.buf[2..4]] panics on a buffer
    shorter than four octets. *)
Definition finish {E} (buf : list Z) : outcome E (list Z) :=
  if (length buf <? 4)%nat then Panic else
  let len := wrap 16 (Z.of_nat (length buf) - 4) in
  Ok (take 2 buf ++ to_be_bytes 2 len ++ drop 4 buf).

(** The octets of one IE; the length field is [value.len() as u16]. *)
Definition ie_bytes (ty : Z) (value : list Z) : list Z :=
  to_be_bytes 2 ty ++ to_be_bytes 2 (wrap 16 (Z.of_nat (length value))) ++ value.

Definition append_ie (buf : list Z) (ty : Z) (value : list Z) : list Z :=
  buf ++ ie_bytes ty value.

Definition add_ie (buf : list Z) (ty : Z) (value : list Z) : list Z :=
  buf ++ ie_bytes ty value.

Definition add_node_id_v4 (buf : list Z) (addr : Z) : list Z :=
  add_ie buf PFCP_IE_NODE_ID ([0] ++ octets addr).

Definition add_cause (buf : list Z) (cause : Z) : list Z :=
  add_ie buf PFCP_IE_CAUSE [cause].

Definition add_recovery_timestamp (buf : list Z) (ntp_ts : Z) : list Z :=
  add_ie buf PFCP_IE_RECOVERY_TIME_STAMP (to_be_bytes 4 ntp_ts).

Definition add_fseid (buf : list Z) (seid addr : Z) : list Z :=
  add_ie buf PFCP_IE_FSEID ([2] ++ to_be_bytes 8 seid ++ octets addr).

Definition add_up_function_features (buf : list Z) : list Z :=
  add_ie buf PFCP_IE_UP_FUNCTION_FEATURES [4; 0].

Definition created_pdr_value (pdr_id teid addr : Z) : list Z :=
  let inner := append_ie [] PFCP_IE_PDR_ID (to_be_bytes 2 pdr_id) in
  append_ie inner PFCP_IE_FTEID ([2] ++ to_be_bytes 4 teid ++ octets addr).

Definition add_created_pdr (buf : list Z) (pdr_id teid addr : Z) : list Z :=
  add_ie buf PFCP_IE_CREATED_PDR (created_pdr_value pdr_id teid addr).

(** ** Parameters of the grouped IEs *)

Record PdrParams := {
  pp_pdr_id : Z;
  pp_precedence : Z;
  pp_source_interface : Z;
  pp_fteid_choose : bool;
  pp_ue_ip : option Z;
  pp_far_id : Z;
  pp_urr_id : option Z;
  pp_outer_header_removal : bool;
  pp_sdf_filter : option SdfFilter;
}.

Record FarParams := {
  fp_far_id : Z;
  fp_apply_action : Z;
  fp_dest_interface : Z;
  fp_outer_header_creation : option OuterHeaderCreation;
}.

Record UrrParams := {
  up_urr_id : Z;
  up_measurement_method : Z;
  up_reporting_triggers : Z;
  up_volume_threshold_total : option Z;
  up_measurement_period : option Z;
}.

(** [if let Some(x) = o { Self::append_ie(..) }] *)
Definition append_opt {A} (o : option A) (ty : Z) (value : A → list Z) (buf : list Z) : list Z :=
  match o with Some a => append_ie buf ty (value a) | None => buf end.

Definition sdf_value (sdf : SdfFilter) : list Z :=
  [proto sdf] ++ octets (src_ip sdf) ++ octets (dst_ip sdf)
  ++ to_be_bytes 2 (src_port sdf) ++ to_be_bytes 2 (dst_port sdf).

Definition pdi_value (p : PdrParams) : list Z :=
  let pdi := append_ie [] PFCP_IE_SOURCE_INTERFACE [pp_source_interface p] in
  let pdi := if pp_fteid_choose p then append_ie pdi PFCP_IE_FTEID [4; 0; 0; 0; 0] else pdi in
  let pdi := append_opt (pp_ue_ip p) PFCP_IE_UE_IP_ADDRESS (λ ip, [2] ++ octets ip) pdi in
  append_opt (pp_sdf_filter p) PFCP_IE_SDF_FILTER sdf_value pdi.

Definition create_pdr_value (p : PdrParams) : list Z :=
  let inner := append_ie [] PFCP_IE_PDR_ID (to_be_bytes 2 (pp_pdr_id p)) in
  let inner := append_ie inner PFCP_IE_PRECEDENCE (to_be_bytes 4 (pp_precedence p)) in
  let inner := append_ie inner PFCP_IE_PDI (pdi_value p) in
  let inner := append_ie inner PFCP_IE_FAR_ID (to_be_bytes 4 (pp_far_id p)) in
  let inner := append_opt (pp_urr_id p) PFCP_IE_URR_ID (to_be_bytes 4) inner in
  if pp_outer_header_removal p then append_ie inner PFCP_IE_OUTER_HEADER_REMOVAL [0] else inner.

Definition add_create_pdr (buf : list Z) (p : PdrParams) : list Z :=
  add_ie buf PFCP_IE_CREATE_PDR (create_pdr_value p).

Definition urr_value (u : UrrParams) : list Z :=
  let inner := append_ie [] PFCP_IE_URR_ID (to_be_bytes 4 (up_urr_id u)) in
  let inner := append_ie inner PFCP_IE_MEASUREMENT_METHOD [up_measurement_method u] in
  let inner := append_ie inner PFCP_IE_REPORTING_TRIGGERS [up_reporting_triggers u; 0] in
  let inner := append_opt (up_volume_threshold_total u) PFCP_IE_VOLUME_THRESHOLD
                 (λ total, [VOLUME_THRESHOLD_TOVOL] ++ to_be_bytes 8 total) inner in
  append_opt (up_measurement_period u) PFCP_IE_MEASUREMENT_PERIOD (to_be_bytes 4) inner.

Definition add_update_urr (buf : list Z) (u : UrrParams) : list Z :=
  add_ie buf PFCP_IE_UPDATE_URR (urr_value u).

Definition add_create_urr (buf : list Z) (u : UrrParams) : list Z :=
  add_ie buf PFCP_IE_CREATE_URR (urr_value u).

Definition ohc_value (ohc : OuterHeaderCreation) : list Z :=
  [1; 0] ++ to_be_bytes 4 (ohc_teid ohc) ++ octets (ohc_peer_addr ohc).

Definition fwd_value (f : FarParams) : list Z :=
  let fwd := append_ie [] PFCP_IE_DESTINATION_INTERFACE [fp_dest_interface f] in
  append_opt (fp_outer_header_creation f) PFCP_IE_OUTER_HEADER_CREATION ohc_value fwd.

Definition create_far_value (f : FarParams) : list Z :=
  let inner := append_ie [] PFCP_IE_FAR_ID (to_be_bytes 4 (fp_far_id f)) in
  let inner := append_ie inner PFCP_IE_APPLY_ACTION [fp_apply_action f] in
  append_ie inner PFCP_IE_FORWARDING_PARAMETERS (fwd_value f).

Definition add_create_far (buf : list Z) (f : FarParams) : list Z :=
  add_ie buf PFCP_IE_CREATE_FAR (create_far_value f).

Definition update_far_value (f : FarParams) : list Z :=
  let inner := append_ie [] PFCP_IE_FAR_ID (to_be_bytes 4 (fp_far_id f)) in
  let inner := append_ie inner PFCP_IE_APPLY_ACTION [fp_apply_action f] in
  append_ie inner PFCP_IE_UPDATE_FORWARDING_PARAMETERS (fwd_value f).

Definition add_update_far (buf : list Z) (f : FarParams) : list Z :=
  add_ie buf PFCP_IE_UPDATE_FAR (update_far_value f).

(** ** Complete messages *)

Definition build_heartbeat_response {E} (seq_num recovery_ts : Z) : outcome E (list Z) :=
  let msg := msg_new (new_node_msg PFCP_HEARTBEAT_RSP seq_num) in
  finish (add_recovery_timestamp msg recovery_ts).

Definition build_association_setup_response {E} (seq_num our_addr recovery_ts : Z)
    : outcome E (list Z) :=
  let msg := msg_new (new_node_msg PFCP_ASSOCIATION_SETUP_RSP seq_num) in
  let msg := add_node_id_v4 msg our_addr in
  let msg := add_cause msg CAUSE_REQUEST_ACCEPTED in
  let msg := add_recovery_timestamp msg recovery_ts in
  finish (add_up_function_features msg).

Definition build_session_establishment_request {E}
    (seq smf_addr cp_seid ue_ip gnb_addr gnb_teid : Z) : outcome E (list Z) :=
  let msg := msg_new (new_session_msg PFCP_SESSION_ESTABLISHMENT_REQ 0 seq) in
  let msg := add_node_id_v4 msg smf_addr in
  let msg := add_fseid msg cp_seid smf_addr in
  (* Uplink PDR: gNB -> UPF -> Core *)
  let msg := add_create_pdr msg
    {| pp_pdr_id := 1; pp_precedence := 100; pp_source_interface := INTERFACE_ACCESS;
       pp_fteid_choose := true; pp_ue_ip := Some ue_ip; pp_far_id := 1; pp_urr_id := None;
       pp_outer_header_removal := true; pp_sdf_filter := None |} in
  (* Downlink PDR: Core -> UPF -> gNB *)
  let msg := add_create_pdr msg
    {| pp_pdr_id := 2; pp_precedence := 100; pp_source_interface := INTERFACE_CORE;
       pp_fteid_choose := false; pp_ue_ip := Some ue_ip; pp_far_id := 2; pp_urr_id := None;
       pp_outer_header_removal := false; pp_sdf_filter := None |} in
  let msg := add_create_far msg
    {| fp_far_id := 1; fp_apply_action := ACTION_FORW; fp_dest_interface := INTERFACE_CORE;
       fp_outer_header_creation := None |} in
  let msg := add_create_far msg
    {| fp_far_id := 2; fp_apply_action := ACTION_FORW; fp_dest_interface := INTERFACE_ACCESS;
       fp_outer_header_creation := Some (mkOHC gnb_teid gnb_addr 2152) |} in
  finish msg.

Definition build_session_establishment_response {E}
    (seq_num cp_seid our_seid our_addr : Z) (created_pdrs : list (Z * Z * Z))
    : outcome E (list Z) :=
  let msg := msg_new (new_session_msg PFCP_SESSION_ESTABLISHMENT_RSP cp_seid seq_num) in
  let msg := add_node_id_v4 msg our_addr in
  let msg := add_cause msg CAUSE_REQUEST_ACCEPTED in
  let msg := add_fseid msg our_seid our_addr in
  finish (foldl (λ msg '(pdr_id, teid, addr), add_created_pdr msg pdr_id teid addr)
            msg created_pdrs).

Definition build_session_modification_response {E} (seq_num seid : Z) : outcome E (list Z) :=
  let msg := msg_new (new_session_msg PFCP_SESSION_MODIFICATION_RSP seid seq_num) in
  finish (add_cause msg CAUSE_REQUEST_ACCEPTED).

Definition build_session_deletion_response {E} (seq_num seid : Z) : outcome E (list Z) :=
  let msg := msg_new (new_session_msg PFCP_SESSION_DELETION_RSP seid seq_num) in
  finish (add_cause msg CAUSE_REQUEST_ACCEPTED).

Definition build_session_report_request {E}
    (seq_num cp_seid urr_id ur_seqn trigger total_volume ul_volume dl_volume : Z)
    : outcome E (list Z) :=
  let msg := msg_new (new_session_msg PFCP_SESSION_REPORT_REQ cp_seid seq_num) in
  let msg := add_ie msg PFCP_IE_REPORT_TYPE [REPORT_TYPE_USAR] in
  let ur := append_ie [] PFCP_IE_URR_ID (to_be_bytes 4 urr_id) in
  let ur := append_ie ur PFCP_IE_UR_SEQN (to_be_bytes 4 ur_seqn) in
  let ur := append_ie ur PFCP_IE_USAGE_REPORT_TRIGGER [trigger; 0] in
  let vm := [Z.lor (Z.lor VOLUME_MEASUREMENT_TOVOL VOLUME_MEASUREMENT_ULVOL)
               VOLUME_MEASUREMENT_DLVOL]
            ++ to_be_bytes 8 total_volume ++ to_be_bytes 8 ul_volume
            ++ to_be_bytes 8 dl_volume in
  let ur := append_ie ur PFCP_IE_VOLUME_MEASUREMENT vm in
  finish (add_ie msg PFCP_IE_USAGE_REPORT_IN_SESS_RPT_REQ ur).

Definition build_session_report_response {E} (seq_num seid : Z) : outcome E (list Z) :=
  let msg := msg_new (new_session_msg PFCP_SESSION_REPORT_RSP seid seq_num) in
  finish (add_cause msg CAUSE_REQUEST_ACCEPTED).

(** ** The header of a finished message *)

Definition with_length (n : Z) (h : PfcpHeader) : PfcpHeader :=
  {| hdr_version := hdr_version h; hdr_s_flag := hdr_s_flag h;
     hdr_mp_flag := hdr_mp_flag h; hdr_fo_flag := hdr_fo_flag h;
     hdr_msg_type := hdr_msg_type h; hdr_length := n; hdr_seid := hdr_seid h;
     hdr_seq_num := hdr_seq_num h; hdr_priority := hdr_priority h |}.

Definition body_length (h : PfcpHeader) (body : list Z) : Z :=
  wrap 16 (Z.of_nat (header_len h + length body) - 4).

Lemma finish_encode {E} h body :
  finish (E:=E) (encode h ++ body) =
  Ok (encode (with_length (body_length h body) h) ++ body).
Proof.
  unfold finish. rewrite length_app, length_encode.
  replace (_ <? 4)%nat with false
    by (symmetry; apply Nat.ltb_ge; unfold header_len; destruct (hdr_s_flag h); lia).
  reflexivity.
Qed.

Lemma wf_with_length n h : wf_header h → u16 n → wf_header (with_length n h).
Proof. intros (?&?&?&?&?&?) ?. refine (conj _ (conj _ (conj _ (conj _ (conj _ _))))); done. Qed.

Lemma body_length_u16 h body : u16 (body_length h body).
Proof. unfold u16, body_length, wrap. apply Z.mod_pos_bound. lia. Qed.

Lemma finish_is {E} h body req :
  finish (E:=E) (encode h ++ body) = Ok req → req = encode (with_length (body_length h body) h) ++ body.
Proof. rewrite finish_encode. by intros [= <-]. Qed.

(** A finished message decodes to its header, with the length patched in, and
    its body. *)
Lemma decode_finish {E} h body :
  wf_header h →
  ∃ msg, finish (E:=E) (encode h ++ body) = Ok msg ∧ length msg = (header_len h + length body)%nat ∧
    decode msg = Ok (with_length (body_length h body) h, body).
Proof.
  intros Hwf. eexists. split; [apply finish_encode|]. split.
  - by rewrite length_app, length_encode.
  - apply decode_encode_app, wf_with_length; [done|apply body_length_u16].
Qed.

Lemma wf_node_msg t seq : u8 t → 0 ≤ seq < 2 ^ 24 → wf_header (new_node_msg t seq).
Proof. intros. refine (conj _ (conj _ (conj _ (conj _ (conj _ _))))); try done. Qed.

Lemma wf_session_msg t seid seq :
  u8 t → u64 seid → 0 ≤ seq < 2 ^ 24 → wf_header (new_session_msg t seid seq).
Proof.
  intros. refine (conj _ (conj _ (conj _ (conj _ (conj _ _))))); try done. simpl. eauto.
Qed.

(** ** Parsing back a sequence of appended IEs *)

Definition complete (buf : list Z) : Prop :=
  ∀ rest, iter_ies (buf ++ rest) = iter_ies buf ++ iter_ies rest.

Definition parsed_ie (ty : Z) (v : list Z) : RawIE :=
  mkRawIE ty (Z.of_nat (length v)) v (if is_grouped_ie ty then iter_ies v else []).

Lemma iter_ies_ie_bytes ty v rest :
  u16 ty → Z.of_nat (length v) < 65536 →
  iter_ies (ie_bytes ty v ++ rest) = parsed_ie ty v :: iter_ies rest.
Proof.
  intros. unfold ie_bytes, wrap. rewrite Z.mod_small by lia.
  rewrite <-!(assoc_L (++)). by apply iter_ies_wire.
Qed.

Lemma complete_nil : complete [].
Proof. done. Qed.

Lemma complete_ie_bytes ty v :
  u16 ty → Z.of_nat (length v) < 65536 → complete (ie_bytes ty v).
Proof.
  intros Ht Hv rest. rewrite iter_ies_ie_bytes by done.
  rewrite <-(app_nil_r (ie_bytes ty v)), iter_ies_ie_bytes by done. done.
Qed.

Lemma complete_app b1 b2 : complete b1 → complete b2 → complete (b1 ++ b2).
Proof.
  intros H1 H2 rest. by rewrite <-(assoc_L (++)), H1, H2, H1, (assoc_L (++)).
Qed.

Lemma complete_append_ie buf ty v :
  complete buf → u16 ty → Z.of_nat (length v) < 65536 → complete (append_ie buf ty v).
Proof. intros. by apply complete_app, complete_ie_bytes. Qed.

Lemma iter_ies_append_ie buf ty v :
  complete buf → u16 ty → Z.of_nat (length v) < 65536 →
  iter_ies (append_ie buf ty v) = iter_ies buf ++ [parsed_ie ty v].
Proof.
  intros Hc Ht Hv. unfold append_ie. rewrite Hc. f_equal.
  rewrite <-(app_nil_r (ie_bytes ty v)), iter_ies_ie_bytes by done. done.
Qed.

(** Folding a parser over a buffer with one more IE. *)
Lemma foldM_append_ie {E A} (f : A → RawIE → outcome E A) acc buf ty v :
  complete buf → u16 ty → Z.of_nat (length v) < 65536 →
  foldM f acc (iter_ies (append_ie buf ty v)) =
  (a ← foldM f acc (iter_ies buf); f a (parsed_ie ty v)).
Proof.
  intros. rewrite iter_ies_append_ie, foldM_app by done. simpl.
  destruct (foldM f acc (iter_ies buf)) as [a| |]; simpl_outcome; [|done|done].
  by destruct (f a _).
Qed.

Lemma length_append_ie buf ty v :
  length (append_ie buf ty v) = (length buf + 4 + length v)%nat.
Proof. unfold append_ie, ie_bytes. len. Qed.

Lemma length_octets ip : length (octets ip) = 4%nat.
Proof. apply length_to_be_bytes. Qed.

#[export] Hint Rewrite length_append_ie length_octets : len.
#[export] Hint Resolve complete_nil complete_append_ie : bytes.

(** ** Parsing back single values *)

(** A field of a value, given what stands before and after it. *)
Lemma field_at {E} n (pre post : list Z) x buf i :
  buf = pre ++ to_be_bytes n x ++ post → i = length pre →
  0 ≤ x < 256 ^ Z.of_nat n → be_at (E:=E) n buf i = Ok x.
Proof. intros -> -> Hx. rewrite be_at_encoded by done. by rewrite Z.mod_small. Qed.

Ltac read_field n i pre post x :=
  rewrite (field_at n pre post x _ i) by
    (first [assumption | by rewrite ?app_nil_r, <-?(assoc_L (++)) | by len]).

(** Evaluate the comparisons of a dispatch on constant IE types. *)
Ltac eval_eqb :=
  repeat match goal with
  | |- context [?a =? ?b] =>
      let r := eval vm_compute in (a =? b) in
      match r with
      | true => change (a =? b) with true
      | false => change (a =? b) with false
      end
  end; cbv iota.

Ltac eval_len :=
  repeat match goal with
  | |- context [(?a <? ?b)%nat] =>
      first [ replace (a <? b)%nat with false by (symmetry; apply Nat.ltb_ge; len)
            | replace (a <? b)%nat with true by (symmetry; apply Nat.ltb_lt; len) ]
  | |- context [(?a <=? ?b)%nat] =>
      first [ replace (a <=? b)%nat with true by (symmetry; apply Nat.leb_le; len)
            | replace (a <=? b)%nat with false by (symmetry; apply Nat.leb_gt; len) ]
  | |- context [(?a =? ?b)%nat] =>
      first [ replace (a =? b)%nat with false by (symmetry; apply Nat.eqb_neq; len) ]
  end; cbv iota.

Lemma parse_node_id_built addr : u32 addr → parse_node_id ([0] ++ octets addr) = Ok addr.
Proof.
  intros. unfold parse_node_id, ipv4_at, octets. eval_len.
  read_field 4%nat 1%nat [0] (@nil Z) addr. reflexivity.
Qed.

Lemma parse_recovery_timestamp_built ts :
  u32 ts → parse_recovery_timestamp (to_be_bytes 4 ts) = Ok ts.
Proof.
  intros. unfold parse_recovery_timestamp. eval_len. read_field 4%nat 0%nat (@nil Z) (@nil Z) ts. done.
Qed.

Lemma parse_fseid_built seid addr :
  u64 seid → u32 addr →
  parse_fseid ([2] ++ to_be_bytes 8 seid ++ octets addr) = Ok (seid, addr).
Proof.
  intros. unfold parse_fseid, ipv4_at, octets. eval_len.
  read_field 8%nat 1%nat [2] (to_be_bytes 4 addr) seid.
  read_field 4%nat 9%nat ([2] ++ to_be_bytes 8 seid) (@nil Z) addr. done.
Qed.

Lemma parse_fteid_built teid addr :
  u32 teid → u32 addr →
  parse_fteid ([2] ++ to_be_bytes 4 teid ++ octets addr) = Ok (teid, addr).
Proof.
  intros. unfold parse_fteid, ipv4_at, octets. eval_len.
  read_field 4%nat 1%nat [2] (to_be_bytes 4 addr) teid.
  read_field 4%nat 5%nat ([2] ++ to_be_bytes 4 teid) (@nil Z) addr. done.
Qed.

Lemma parse_ue_ip_address_built ip :
  u32 ip → parse_ue_ip_address ([2] ++ octets ip) = Ok ip.
Proof.
  intros. unfold parse_ue_ip_address, ipv4_at, octets. eval_len.
  read_field 4%nat 1%nat [2] (@nil Z) ip. done.
Qed.

Definition wf_sdf (f : SdfFilter) : Prop :=
  u8 (proto f) ∧ u32 (src_ip f) ∧ u32 (dst_ip f) ∧ u16 (src_port f) ∧ u16 (dst_port f).

Lemma parse_sdf_filter_built f : wf_sdf f → parse_sdf_filter (sdf_value f) = Ok f.
Proof.
  intros (Hp & Hs & Hd & Hsp & Hdp).
  unfold parse_sdf_filter, sdf_value, ipv4_at, octets. eval_len.
  read_field 4%nat 1%nat [proto f] (to_be_bytes 4 (dst_ip f) ++ to_be_bytes 2 (src_port f)
    ++ to_be_bytes 2 (dst_port f)) (src_ip f).
  read_field 4%nat 5%nat ([proto f] ++ to_be_bytes 4 (src_ip f)) (to_be_bytes 2 (src_port f)
    ++ to_be_bytes 2 (dst_port f)) (dst_ip f).
  read_field 2%nat 9%nat ([proto f] ++ to_be_bytes 4 (src_ip f) ++ to_be_bytes 4 (dst_ip f))
    (to_be_bytes 2 (dst_port f)) (src_port f).
  read_field 2%nat 11%nat ([proto f] ++ to_be_bytes 4 (src_ip f) ++ to_be_bytes 4 (dst_ip f)
    ++ to_be_bytes 2 (src_port f)) (@nil Z) (dst_port f).
  by destruct f.
Qed.

Definition wf_ohc (o : OuterHeaderCreation) : Prop :=
  u32 (ohc_teid o) ∧ u32 (ohc_peer_addr o) ∧ ohc_port o = 2152.

Lemma parse_outer_header_creation_built o :
  wf_ohc o → parse_outer_header_creation (ohc_value o) = Ok o.
Proof.
  intros (Ht & Ha & Hp). unfold parse_outer_header_creation, ohc_value, ipv4_at, octets.
  eval_len. read_field 4%nat 2%nat [1; 0] (to_be_bytes 4 (ohc_peer_addr o)) (ohc_teid o).
  read_field 4%nat 6%nat ([1; 0] ++ to_be_bytes 4 (ohc_teid o)) (@nil Z) (ohc_peer_addr o).
  destruct o; simpl in *. by subst.
Qed.

Lemma parse_volume_threshold_built v :
  u64 v → parse_volume_threshold ([VOLUME_THRESHOLD_TOVOL] ++ to_be_bytes 8 v) = Ok (Some v).
Proof.
  intros. unfold parse_volume_threshold. eval_len.
  change (idx ([VOLUME_THRESHOLD_TOVOL] ++ to_be_bytes 8 v) 0) with
    (Ok (E:=PfcpError) VOLUME_THRESHOLD_TOVOL). simpl_outcome.
  change (has_flag VOLUME_THRESHOLD_TOVOL VOLUME_THRESHOLD_TOVOL) with true. cbv iota.
  read_field 8%nat 1%nat [VOLUME_THRESHOLD_TOVOL] (@nil Z) v. done.
Qed.

(** ** Parsing back grouped IEs *)

Lemma field_built {A} n ty x (set : Z → A → A) acc :
  0 ≤ x < 256 ^ Z.of_nat n →
  field_if_long n (parsed_ie ty (to_be_bytes n x)) set acc = Ok (set x acc).
Proof.
  intros Hx. rewrite field_if_long_eq. cbn [ie_value parsed_ie]. eval_len.
  rewrite take_ge by len. by rewrite from_to_be_bytes, Z.mod_small.
Qed.

Lemma field_built_byte {A} ty b rest (set : Z → A → A) acc :
  field_if_long 1 (parsed_ie ty (b :: rest)) set acc = Ok (set b acc).
Proof.
  rewrite field_if_long_eq. cbn [ie_value parsed_ie]. eval_len.
  change (take 1 (b :: rest)) with [b]. by rewrite from_be_bytes_1.
Qed.

Ltac u16_const := split; by vm_compute.

#[export] Hint Extern 1 (u16 _) => u16_const : bytes.
#[export] Hint Extern 1 (Z.of_nat _ < _) => (by len) : bytes.

(** Side conditions of [foldM_append_ie]. *)
Ltac ie_side := by eauto 20 with bytes.

(** Move the last appended IE of a literal sequence out of the fold. *)
Ltac peel := rewrite foldM_append_ie by ie_side; simpl_outcome.

(** Run a parser's step function [f] over the peeled IEs, from the first. *)
Ltac run f :=
  repeat peel; change (iter_ies []) with (@nil RawIE); cbn [foldM]; simpl_outcome;
  unfold f; cbn [parsed_ie ie_type ie_value]; eval_eqb;
  repeat first [ rewrite field_built_byte | rewrite field_built by assumption
               | progress simpl_outcome ].

Definition opt {A} (P : A → Prop) (o : option A) : Prop := from_option P True o.

Definition wf_pdr (p : PdrParams) : Prop :=
  u16 (pp_pdr_id p) ∧ u32 (pp_precedence p) ∧ 0 ≤ pp_source_interface p < 16 ∧
  opt u32 (pp_ue_ip p) ∧ u32 (pp_far_id p) ∧ opt u32 (pp_urr_id p) ∧
  opt wf_sdf (pp_sdf_filter p).

Definition wf_far (f : FarParams) : Prop :=
  u32 (fp_far_id f) ∧ u8 (fp_apply_action f) ∧ 0 ≤ fp_dest_interface f < 16 ∧
  opt wf_ohc (fp_outer_header_creation f).

Definition wf_urr (u : UrrParams) : Prop :=
  u32 (up_urr_id u) ∧ u8 (up_measurement_method u) ∧ u8 (up_reporting_triggers u) ∧
  opt u64 (up_volume_threshold_total u) ∧ opt u32 (up_measurement_period u).

(** What the parser must find for given parameters.  A CHOOSE F-TEID is read
    back as the pair (0, 0.0.0.0). *)
Definition pdr_of_params (p : PdrParams) : ParsedPDR :=
  mkParsedPDR (pp_pdr_id p) (pp_precedence p) (pp_source_interface p)
    (if pp_fteid_choose p then Some (0, UNSPECIFIED) else None) (pp_ue_ip p)
    (Some (pp_far_id p)) (pp_urr_id p) (pp_outer_header_removal p) (pp_sdf_filter p).

Definition far_of_params (f : FarParams) : ParsedFAR :=
  mkParsedFAR (fp_far_id f) (fp_apply_action f) (Some (fp_dest_interface f))
    (fp_outer_header_creation f).

Definition urr_of_params (u : UrrParams) : ParsedURR :=
  mkParsedURR (up_urr_id u) (up_measurement_method u) (up_reporting_triggers u)
    (up_volume_threshold_total u) (up_measurement_period u).

Lemma length_sdf_value f : length (sdf_value f) = 13%nat.
Proof. unfold sdf_value. len. Qed.

Lemma length_ohc_value o : length (ohc_value o) = 10%nat.
Proof. unfold ohc_value. len. Qed.

#[export] Hint Rewrite length_sdf_value length_ohc_value : len.

Lemma land_15 x : 0 ≤ x < 16 → Z.land x 15 = x.
Proof. intros. change 15 with (Z.ones 4). rewrite Z.land_ones by lia. by apply Z.mod_small. Qed.

Lemma parse_pdi_built p pdr :
  wf_pdr p →
  parse_pdi (pdi_value p) pdr =
  Ok (mkParsedPDR (pdr_id pdr) (precedence pdr) (pp_source_interface p)
        (if pp_fteid_choose p then Some (0, UNSPECIFIED) else local_fteid pdr)
        (match pp_ue_ip p with Some ip => Some ip | None => ue_ip pdr end)
        (pdr_far_id pdr) (pdr_urr_id pdr) (outer_header_removal pdr)
        (match pp_sdf_filter p with Some f => Some f | None => sdf_filter pdr end)).
Proof.
  intros (_ & _ & Hi & Hue & _ & _ & Hsdf). unfold parse_pdi, pdi_value.
  destruct (pp_fteid_choose p), (pp_ue_ip p) as [ip|], (pp_sdf_filter p) as [f|];
    cbv zeta; cbn [append_opt opt from_option] in *; run parse_pdi_step;
    rewrite ?(land_15 _ Hi);
    repeat first [ rewrite parse_ue_ip_address_built by done
                 | rewrite parse_sdf_filter_built by done | progress simpl_outcome ];
    reflexivity.
Qed.

Lemma length_pdi_value p : (length (pdi_value p) ≤ 40)%nat.
Proof.
  unfold pdi_value, append_opt.
  destruct (pp_fteid_choose p), (pp_ue_ip p), (pp_sdf_filter p); len.
Qed.

Lemma length_fwd_value f : (length (fwd_value f) ≤ 19)%nat.
Proof. unfold fwd_value, append_opt. destruct (fp_outer_header_creation f); len. Qed.

Lemma length_create_pdr_value p : (length (create_pdr_value p) ≤ 79)%nat.
Proof.
  pose proof (length_pdi_value p). unfold create_pdr_value, append_opt.
  destruct (pp_urr_id p), (pp_outer_header_removal p); len.
Qed.

Lemma length_urr_value u : (length (urr_value u) ≤ 40)%nat.
Proof.
  unfold urr_value, append_opt.
  destruct (up_volume_threshold_total u), (up_measurement_period u); len.
Qed.

Lemma length_create_far_value f : (length (create_far_value f) ≤ 36)%nat.
Proof. pose proof (length_fwd_value f). unfold create_far_value. len. Qed.

Lemma length_update_far_value f : (length (update_far_value f) ≤ 36)%nat.
Proof. pose proof (length_fwd_value f). unfold update_far_value. len. Qed.

(** Bring the bounds of the built values into the context. *)
Ltac built_lengths :=
  repeat match goal with
  | |- context [pdi_value ?p] => lazymatch goal with
      | _ : (length (pdi_value p) ≤ _)%nat |- _ => fail
      | _ => pose proof (length_pdi_value p) end
  | |- context [fwd_value ?p] => lazymatch goal with
      | _ : (length (fwd_value p) ≤ _)%nat |- _ => fail
      | _ => pose proof (length_fwd_value p) end
  | |- context [create_pdr_value ?p] => lazymatch goal with
      | _ : (length (create_pdr_value p) ≤ _)%nat |- _ => fail
      | _ => pose proof (length_create_pdr_value p) end
  | |- context [urr_value ?p] => lazymatch goal with
      | _ : (length (urr_value p) ≤ _)%nat |- _ => fail
      | _ => pose proof (length_urr_value p) end
  | |- context [create_far_value ?p] => lazymatch goal with
      | _ : (length (create_far_value p) ≤ _)%nat |- _ => fail
      | _ => pose proof (length_create_far_value p) end
  | |- context [update_far_value ?p] => lazymatch goal with
      | _ : (length (update_far_value p) ≤ _)%nat |- _ => fail
      | _ => pose proof (length_update_far_value p) end
  end.

Lemma parse_create_pdr_built p :
  wf_pdr p → parse_create_pdr (create_pdr_value p) = Ok (pdr_of_params p).
Proof.
  intros Hp. pose proof Hp as (Hid & Hprec & _ & _ & Hfar & Hurr & _).
  unfold parse_create_pdr, create_pdr_value. built_lengths.
  destruct (pp_urr_id p) as [urr|] eqn:Eu, (pp_outer_header_removal p) eqn:Eo;
    cbv zeta; cbn [append_opt opt from_option] in *; run parse_create_pdr_step;
    rewrite (parse_pdi_built p) by done; simpl_outcome;
    repeat first [ rewrite field_built by assumption | progress simpl_outcome ];
    unfold pdr_of_params; rewrite Eu, Eo; simpl;
    destruct (pp_ue_ip p), (pp_sdf_filter p); reflexivity.
Qed.

Lemma parse_create_urr_built u :
  wf_urr u → parse_create_urr (urr_value u) = Ok (urr_of_params u).
Proof.
  intros (Hid & Hm & Hr & Hv & Hp).
  unfold parse_create_urr, urr_value, urr_of_params.
  destruct (up_volume_threshold_total u) as [v|], (up_measurement_period u) as [t|];
    cbv zeta; cbn [append_opt opt from_option] in *; run parse_create_urr_step;
    rewrite ?parse_volume_threshold_built by done; simpl_outcome;
    rewrite ?field_built by assumption; reflexivity.
Qed.

Lemma parse_forwarding_params_built f far :
  wf_far f →
  parse_forwarding_params (fwd_value f) far =
  Ok (mkParsedFAR (far_id far) (apply_action far) (Some (fp_dest_interface f))
        (match fp_outer_header_creation f with
         | Some o => Some o | None => outer_header_creation far end)).
Proof.
  intros (_ & _ & Hi & Ho). unfold parse_forwarding_params, fwd_value.
  destruct (fp_outer_header_creation f) as [o|];
    cbv zeta; cbn [append_opt opt from_option] in *; run parse_forwarding_params_step;
    rewrite ?(land_15 _ Hi), ?parse_outer_header_creation_built by done; reflexivity.
Qed.

Lemma parse_apply_action_built a : parse_apply_action [a] = Ok a.
Proof. done. Qed.

Lemma parse_create_far_built f :
  wf_far f → parse_create_far (create_far_value f) = Ok (far_of_params f).
Proof.
  intros Hf. pose proof Hf as (Hid & Ha & _).
  unfold parse_create_far, create_far_value. built_lengths. cbv zeta.
  run parse_create_far_step.
  rewrite parse_apply_action_built; simpl_outcome.
  rewrite parse_forwarding_params_built by done. unfold far_of_params.
  by destruct (fp_outer_header_creation f).
Qed.

Lemma parse_update_far_built f :
  wf_far f → parse_update_far (update_far_value f) = Ok (far_of_params f).
Proof.
  intros Hf. pose proof Hf as (Hid & Ha & _).
  unfold parse_update_far, update_far_value. built_lengths. cbv zeta.
  run parse_update_far_step.
  rewrite parse_apply_action_built; simpl_outcome.
  rewrite parse_forwarding_params_built by done. unfold far_of_params.
  by destruct (fp_outer_header_creation f).
Qed.

(** ** Bodies as lists of typed values *)

Definition ies_bytes (l : list (Z * list Z)) : list Z :=
  concat ((λ '(ty, v), ie_bytes ty v) <$> l).

Definition ie_fits (tv : Z * list Z) : Prop :=
  u16 (tv.1) ∧ Z.of_nat (length tv.2) < 65536.

Lemma iter_ies_ies_bytes l :
  Forall ie_fits l → iter_ies (ies_bytes l) = (λ '(ty, v), parsed_ie ty v) <$> l.
Proof.
  induction 1 as [|[ty v] l [Ht Hv] _ IH]; [done|].
  unfold ies_bytes in *. rewrite !fmap_cons, concat_cons, iter_ies_ie_bytes by done.
  by rewrite IH.
Qed.

Lemma ies_bytes_cons ty v l : ies_bytes ((ty, v) :: l) = ie_bytes ty v ++ ies_bytes l.
Proof. done. Qed.

Lemma ies_bytes_app l1 l2 : ies_bytes (l1 ++ l2) = ies_bytes l1 ++ ies_bytes l2.
Proof. unfold ies_bytes. by rewrite fmap_app, concat_app. Qed.

(** [buf] grows by one IE, resp. by one IE for each element. *)
Lemma add_ie_body h l ty v : add_ie (encode h ++ ies_bytes l) ty v = encode h ++ ies_bytes (l ++ [(ty, v)]).
Proof.
  unfold add_ie. rewrite ies_bytes_app. unfold ies_bytes at 3. simpl.
  by rewrite app_nil_r, (assoc_L (++)).
Qed.

Lemma foldl_add_ie_body {A} ty (f : A → list Z) (xs : list A) h l :
  foldl (λ msg x, add_ie msg ty (f x)) (encode h ++ ies_bytes l) xs =
  encode h ++ ies_bytes (l ++ ((λ x, (ty, f x)) <$> xs)).
Proof.
  revert l; induction xs as [|x xs IH]; intros l; cbn [foldl].
  - by rewrite app_nil_r.
  - rewrite add_ie_body, IH. by rewrite <-(assoc_L (++)).
Qed.

Lemma msg_new_body h : msg_new h = encode h ++ ies_bytes [].
Proof. unfold msg_new. by rewrite app_nil_r. Qed.
