(* ===== verification/Messages.v ===== *)
(** * Request messages ([pfcp-common/src/messages.rs])

    The four request decoders the server uses, with their mandatory and
    optional IEs, and the proof that a request assembled with the builder is
    decoded to the parameters it was built from. *)

From S2P Require Import Prelude Types Header Ie Builder.

(** An [anyhow] error of a decoder: the message of a missing IE, or the
    rendered [PfcpError] of an IE parser. *)
Inductive DecodeError :=
| Missing (what : string)
| IeError (e : PfcpError).

Definition find_ie (ty : Z) (ies : list RawIE) : option RawIE :=
  List.find (λ ie, ie_type ie =? ty) ies.

Definition filter_ies (ty : Z) (ies : list RawIE) : list RawIE :=
  List.filter (λ ie, ie_type ie =? ty) ies.

(** [ies.iter().find(..).ok_or_else(..).and_then(|raw| parse(raw.value).map_err(..))] *)
Definition required {A} (ty : Z) (what : string) (parse : list Z → outcome PfcpError A)
    (ies : list RawIE) : outcome DecodeError A :=
  raw ← ok_or (find_ie ty ies) (Missing what);
  map_err IeError (parse (ie_value raw)).

(** [ies.iter().find(..).and_then(|raw| parse(raw.value).ok())] *)
Definition optional {A} (ty : Z) (parse : list Z → outcome PfcpError A) (ies : list RawIE)
    : outcome DecodeError (option A) :=
  match find_ie ty ies with
  | Some raw => result_ok (parse (ie_value raw))
  | None => Ok None
  end.

(** [ies.iter().filter(..).map(|raw| parse(raw.value)).collect::<Result<Vec<_>>>()] *)
Definition collect {A} (ty : Z) (parse : list Z → outcome PfcpError A) (ies : list RawIE)
    : outcome DecodeError (list A) :=
  mapM (λ raw, map_err IeError (parse (ie_value raw))) (filter_ies ty ies).

Record AssociationSetupReq := { asr_node_id : Z; asr_recovery_ts : Z }.

Definition decode_association_setup (body : list Z) : outcome DecodeError AssociationSetupReq :=
  let ies := iter_ies body in
  node_id ← required PFCP_IE_NODE_ID "Node ID Missing" parse_node_id ies;
  recovery_ts ← required PFCP_IE_RECOVERY_TIME_STAMP "Recovery TS missing"
    parse_recovery_timestamp ies;
  mret {| asr_node_id := node_id; asr_recovery_ts := recovery_ts |}.

Record SessionEstablishmentReq := {
  ser_node_id : option Z;
  ser_cp_seid : Z;
  ser_smf_addr : Z;
  create_pdrs : list ParsedPDR;
  create_fars : list ParsedFAR;
  create_urrs : list ParsedURR;
}.

Definition decode_session_establishment (body : list Z)
    : outcome DecodeError SessionEstablishmentReq :=
  let ies := iter_ies body in
  '(cp_seid, smf_addr) ← required PFCP_IE_FSEID "F-SEID missing" parse_fseid ies;
  node_id ← optional PFCP_IE_NODE_ID parse_node_id ies;
  pdrs ← collect PFCP_IE_CREATE_PDR parse_create_pdr ies;
  fars ← collect PFCP_IE_CREATE_FAR parse_create_far ies;
  urrs ← collect PFCP_IE_CREATE_URR parse_create_urr ies;
  mret {| ser_node_id := node_id; ser_cp_seid := cp_seid; ser_smf_addr := smf_addr;
          create_pdrs := pdrs; create_fars := fars; create_urrs := urrs |}.

Record HeartbeatReq := { hbr_recovery_ts : option Z }.

Definition decode_heartbeat (body : list Z) : outcome DecodeError HeartbeatReq :=
  ts ← optional PFCP_IE_RECOVERY_TIME_STAMP parse_recovery_timestamp (iter_ies body);
  mret {| hbr_recovery_ts := ts |}.

Record SessionModificationReq := {
  smr_cp_seid : option Z;
  smr_smf_addr : option Z;
  update_fars : list ParsedFAR;
  update_urrs : list ParsedURR;
}.

Definition decode_session_modification (body : list Z)
    : outcome DecodeError SessionModificationReq :=
  let ies := iter_ies body in
  fseid ← optional PFCP_IE_FSEID parse_fseid ies;
  fars ← collect PFCP_IE_UPDATE_FAR parse_update_far ies;
  urrs ← collect PFCP_IE_UPDATE_URR parse_create_urr ies;
  mret {| smr_cp_seid := fst <$> fseid; smr_smf_addr := snd <$> fseid;
          update_fars := fars; update_urrs := urrs |}.

(** The requests an SMF assembles: a header, then the IEs in the order in
    which the simulator adds them. *)
Definition session_establishment_msg (seq smf_addr cp_seid : Z)
    (pdrs : list PdrParams) (fars : list FarParams) (urrs : list UrrParams) : list Z :=
  let msg := msg_new (new_session_msg PFCP_SESSION_ESTABLISHMENT_REQ 0 seq) in
  let msg := add_node_id_v4 msg smf_addr in
  let msg := add_fseid msg cp_seid smf_addr in
  let msg := foldl add_create_pdr msg pdrs in
  let msg := foldl add_create_far msg fars in
  foldl add_create_urr msg urrs.

Definition session_modification_msg (seq seid : Z)
    (fars : list FarParams) (urrs : list UrrParams) : list Z :=
  let msg := msg_new (new_session_msg PFCP_SESSION_MODIFICATION_REQ seid seq) in
  let msg := foldl add_update_far msg fars in
  foldl add_update_urr msg urrs.

(** ** Absence of panics *)

Lemma map_err_not_panic {E F A} (f : E → F) (m : outcome E A) :
  m ≠ Panic → map_err f m ≠ Panic.
Proof. by destruct m. Qed.

Lemma required_not_panic {A} ty what (parse : list Z → outcome PfcpError A) ies :
  (∀ v, parse v ≠ Panic) → required ty what parse ies ≠ Panic.
Proof.
  intros. unfold required. destruct (find_ie ty ies); simpl; [|done].
  simpl_outcome. by apply map_err_not_panic.
Qed.

Lemma optional_not_panic {A} ty (parse : list Z → outcome PfcpError A) ies :
  (∀ v, parse v ≠ Panic) → optional ty parse ies ≠ Panic.
Proof.
  intros H. unfold optional. destruct (find_ie ty ies) as [raw|]; [|done].
  specialize (H (ie_value raw)). by destruct (parse _).
Qed.

Lemma collect_not_panic {A} ty (parse : list Z → outcome PfcpError A) ies :
  (∀ v, parse v ≠ Panic) → collect ty parse ies ≠ Panic.
Proof. intros H. apply mapM_no_panic. intros. by apply map_err_not_panic. Qed.

#[export] Hint Resolve bind_not_panic required_not_panic optional_not_panic
  collect_not_panic : nopanic.

Ltac bind_no_panic :=
  repeat first [ apply bind_not_panic; [by auto with nopanic|intros]
               | case_match | discriminate ].

Lemma decode_association_setup_not_panic body : decode_association_setup body ≠ Panic.
Proof. unfold decode_association_setup. bind_no_panic. Qed.

Lemma decode_session_establishment_not_panic body : decode_session_establishment body ≠ Panic.
Proof. unfold decode_session_establishment. bind_no_panic. Qed.

Lemma decode_heartbeat_not_panic body : decode_heartbeat body ≠ Panic.
Proof. unfold decode_heartbeat. bind_no_panic. Qed.

Lemma decode_session_modification_not_panic body : decode_session_modification body ≠ Panic.
Proof. unfold decode_session_modification. bind_no_panic. Qed.

#[export] Hint Resolve decode_association_setup_not_panic
  decode_session_establishment_not_panic decode_heartbeat_not_panic
  decode_session_modification_not_panic : nopanic.

(** ** Requests are decoded to the parameters they were built from *)

Section typed.
Abbreviation seg t f xs := ((λ x, (t, f x)) <$> xs).

Lemma filter_ies_parsed ty l :
  filter_ies ty ((λ '(t, v), parsed_ie t v) <$> l) =
  (λ '(t, v), parsed_ie t v) <$> List.filter (λ tv, tv.1 =? ty) l.
Proof.
  induction l as [|[t v] l IH]; [done|]. rewrite fmap_cons. simpl.
  destruct (t =? ty); simpl; unfold filter_ies in *; by rewrite IH.
Qed.

Lemma filter_seg {A} ty t (f : A → list Z) xs :
  List.filter (λ tv : Z * list Z, tv.1 =? ty) (seg t f xs) = if t =? ty then seg t f xs else [].
Proof.
  induction xs as [|x xs IH]; [by case_match|]. rewrite fmap_cons. simpl.
  destruct (t =? ty); by rewrite IH.
Qed.

(** A segment of built IEs is collected to what its values parse to. *)
Lemma collect_seg {A B} ty (f : A → list Z) (parse : list Z → outcome PfcpError B)
    (g : A → B) (wf : A → Prop) xs l :
  (∀ x, wf x → parse (f x) = Ok (g x)) → Forall wf xs →
  List.filter (λ tv : Z * list Z, tv.1 =? ty) l = seg ty f xs →
  collect ty parse ((λ '(t, v), parsed_ie t v) <$> l) = Ok (g <$> xs).
Proof.
  intros Hp Hwf Hl. unfold collect. rewrite filter_ies_parsed, Hl. clear Hl l.
  induction Hwf as [|x xs Hx _ IH]; [done|]. rewrite !fmap_cons. simpl.
  rewrite Hp by done. simpl. unfold fmap in *. by rewrite IH.
Qed.

Lemma fits_seg {A} ty (f : A → list Z) xs :
  u16 ty → (∀ x, Z.of_nat (length (f x)) < 65536) → Forall ie_fits (seg ty f xs).
Proof. intros. apply Forall_fmap, Forall_true. intros x. split; simpl; auto. Qed.
End typed.

Ltac filter_segs :=
  cbn [app List.filter fst]; rewrite ?filter_app, ?List.filter_app, ?filter_seg;
  eval_eqb; rewrite ?app_nil_r; reflexivity.

Ltac fits := 
  repeat first [ apply Forall_app; split | apply Forall_nil; exact I
    | apply Forall_cons; split
    | apply fits_seg; [u16_const|intros; built_lengths; lia]
    | split; [u16_const|by len] ].

Definition establishment_ies smf_addr cp_seid pdrs fars urrs : list (Z * list Z) :=
  [(PFCP_IE_NODE_ID, [0] ++ octets smf_addr);
   (PFCP_IE_FSEID, [2] ++ to_be_bytes 8 cp_seid ++ octets smf_addr)]
  ++ ((λ p, (PFCP_IE_CREATE_PDR, create_pdr_value p)) <$> pdrs)
  ++ ((λ f, (PFCP_IE_CREATE_FAR, create_far_value f)) <$> fars)
  ++ ((λ u, (PFCP_IE_CREATE_URR, urr_value u)) <$> urrs).

Lemma session_establishment_msg_body seq addr cp pdrs fars urrs :
  session_establishment_msg seq addr cp pdrs fars urrs =
  encode (new_session_msg PFCP_SESSION_ESTABLISHMENT_REQ 0 seq)
  ++ ies_bytes (establishment_ies addr cp pdrs fars urrs).
Proof.
  unfold session_establishment_msg. cbv zeta. rewrite msg_new_body.
  unfold add_node_id_v4, add_fseid. rewrite !add_ie_body.
  unfold add_create_pdr, add_create_far, add_create_urr. rewrite !foldl_add_ie_body.
  unfold establishment_ies. by rewrite <-!(assoc_L (++)).
Qed.

Lemma decode_session_establishment_built smf_addr cp_seid pdrs fars urrs :
  u32 smf_addr → u64 cp_seid → Forall wf_pdr pdrs → Forall wf_far fars → Forall wf_urr urrs →
  decode_session_establishment (ies_bytes (establishment_ies smf_addr cp_seid pdrs fars urrs)) =
  Ok {| ser_node_id := Some smf_addr; ser_cp_seid := cp_seid; ser_smf_addr := smf_addr;
        create_pdrs := pdr_of_params <$> pdrs; create_fars := far_of_params <$> fars;
        create_urrs := urr_of_params <$> urrs |}.
Proof.
  intros Ha Hc Hp Hf Hu. unfold decode_session_establishment. cbv zeta.
  rewrite iter_ies_ies_bytes by (unfold establishment_ies; fits).
  rewrite (collect_seg _ create_pdr_value _ pdr_of_params wf_pdr pdrs),
    (collect_seg _ create_far_value _ far_of_params wf_far fars),
    (collect_seg _ urr_value _ urr_of_params wf_urr urrs)
    by (first [ eauto using parse_create_pdr_built, parse_create_far_built,
      parse_create_urr_built; fail | unfold establishment_ies; filter_segs ]).
  unfold required, optional, establishment_ies, find_ie.
  cbn [app List.find fmap list_fmap ie_type parsed_ie]. eval_eqb. cbn [ok_or ie_value].
  simpl_outcome. cbn [ie_value parsed_ie].
  change (0 :: octets smf_addr) with ([0] ++ octets smf_addr).
  change (2 :: to_be_bytes 8 cp_seid ++ octets smf_addr) with
    ([2] ++ to_be_bytes 8 cp_seid ++ octets smf_addr).
  rewrite parse_fseid_built, parse_node_id_built by done. done.
Qed.

Definition modification_ies fars urrs : list (Z * list Z) :=
  ((λ f, (PFCP_IE_UPDATE_FAR, update_far_value f)) <$> fars)
  ++ ((λ u, (PFCP_IE_UPDATE_URR, urr_value u)) <$> urrs).

Lemma session_modification_msg_body seq seid fars urrs :
  session_modification_msg seq seid fars urrs =
  encode (new_session_msg PFCP_SESSION_MODIFICATION_REQ seid seq)
  ++ ies_bytes (modification_ies fars urrs).
Proof.
  unfold session_modification_msg. cbv zeta. rewrite msg_new_body.
  unfold add_update_far, add_update_urr. by rewrite !foldl_add_ie_body.
Qed.

Lemma find_parsed_seg {A} ty t (f : A → list Z) xs l :
  (t =? ty) = false →
  find_ie ty ((λ '(t, v), parsed_ie t v) <$> (((λ x, (t, f x)) <$> xs) ++ l)) =
  find_ie ty ((λ '(t, v), parsed_ie t v) <$> l).
Proof.
  intros Ht. induction xs as [|x xs IH]; [done|].
  rewrite fmap_cons, <-app_comm_cons, fmap_cons. unfold find_ie in *.
  cbn [List.find ie_type parsed_ie]. by rewrite Ht.
Qed.

Lemma decode_session_modification_built fars urrs :
  Forall wf_far fars → Forall wf_urr urrs →
  decode_session_modification (ies_bytes (modification_ies fars urrs)) =
  Ok {| smr_cp_seid := None; smr_smf_addr := None;
        update_fars := far_of_params <$> fars; update_urrs := urr_of_params <$> urrs |}.
Proof.
  intros Hf Hu. unfold decode_session_modification. cbv zeta.
  rewrite iter_ies_ies_bytes by (unfold modification_ies; fits).
  rewrite (collect_seg _ update_far_value _ far_of_params wf_far fars),
    (collect_seg _ urr_value _ urr_of_params wf_urr urrs)
    by (first [ eauto using parse_update_far_built, parse_create_urr_built; fail
              | unfold modification_ies; filter_segs ]).
  unfold optional, modification_ies.
  rewrite find_parsed_seg by done.
  pose proof (find_parsed_seg PFCP_IE_FSEID PFCP_IE_UPDATE_URR urr_value urrs [] eq_refl) as E.
  rewrite app_nil_r in E. by rewrite E.
Qed.

(** C23. A Session Establishment Request assembled with any number of Create
    PDR, Create FAR and Create URR IEs of representable parameters is received
    as written: [finish] patches a header that decodes to the same type,
    sequence number and SEID, and the body decodes to exactly those rules, in
    order, with the CP F-SEID and the Node ID.  No rule is lost or invented. *)
Theorem session_establishment_roundtrip seq smf_addr cp_seid pdrs fars urrs :
  0 ≤ seq < 2 ^ 24 → u32 smf_addr → u64 cp_seid →
  Forall wf_pdr pdrs → Forall wf_far fars → Forall wf_urr urrs →
  ∃ msg h body,
    finish (E:=DecodeError) (session_establishment_msg seq smf_addr cp_seid pdrs fars urrs)
      = Ok msg ∧
    decode msg = Ok (h, body) ∧
    hdr_msg_type h = PFCP_SESSION_ESTABLISHMENT_REQ ∧ hdr_seq_num h = seq ∧
    hdr_seid h = Some 0 ∧ hdr_length h = wrap 16 (Z.of_nat (length msg) - 4) ∧
    decode_session_establishment body =
    Ok {| ser_node_id := Some smf_addr; ser_cp_seid := cp_seid; ser_smf_addr := smf_addr;
          create_pdrs := pdr_of_params <$> pdrs; create_fars := far_of_params <$> fars;
          create_urrs := urr_of_params <$> urrs |}.
Proof.
  intros Hs Ha Hc Hp Hf Hu. rewrite session_establishment_msg_body.
  destruct (decode_finish (E:=DecodeError)
    (new_session_msg PFCP_SESSION_ESTABLISHMENT_REQ 0 seq)
    (ies_bytes (establishment_ies smf_addr cp_seid pdrs fars urrs))) as (msg & Hm & Hl & Hd).
  { apply wf_session_msg; [by vm_compute|by uint|done]. }
  eexists _, _, _. split; [exact Hm|]. split; [exact Hd|].
  refine (conj eq_refl (conj eq_refl (conj eq_refl (conj _ _)))).
  - by rewrite Hl.
  - by apply decode_session_establishment_built.
Qed.

Definition sample_pdrs : list PdrParams :=
  [{| pp_pdr_id := 1; pp_precedence := 100; pp_source_interface := INTERFACE_ACCESS;
      pp_fteid_choose := true; pp_ue_ip := Some 168427521; pp_far_id := 1; pp_urr_id := Some 1;
      pp_outer_header_removal := true;
      pp_sdf_filter := Some (mkSdfFilter 17 0 134744072 0 53) |};
   {| pp_pdr_id := 2; pp_precedence := 100; pp_source_interface := INTERFACE_CORE;
      pp_fteid_choose := false; pp_ue_ip := Some 168427521; pp_far_id := 2; pp_urr_id := None;
      pp_outer_header_removal := false; pp_sdf_filter := None |}].

Definition sample_fars : list FarParams :=
  [{| fp_far_id := 1; fp_apply_action := ACTION_FORW; fp_dest_interface := INTERFACE_CORE;
      fp_outer_header_creation := None |};
   {| fp_far_id := 2; fp_apply_action := ACTION_FORW; fp_dest_interface := INTERFACE_ACCESS;
      fp_outer_header_creation := Some (mkOHC 7 3232235777 2152) |}].

Definition sample_urrs : list UrrParams :=
  [{| up_urr_id := 1; up_measurement_method := 2; up_reporting_triggers := 3;
      up_volume_threshold_total := Some 1000; up_measurement_period := Some 10 |}].

Lemma sample_pdrs_wf : Forall wf_pdr sample_pdrs.
Proof.
  repeat first [ apply Forall_nil; exact I | apply Forall_cons; split ];
    unfold wf_pdr, wf_sdf, from_option; simpl; repeat split; by vm_compute.
Qed.

Lemma sample_fars_wf : Forall wf_far sample_fars.
Proof.
  repeat first [ apply Forall_nil; exact I | apply Forall_cons; split ];
    unfold wf_far, wf_ohc, from_option; simpl; repeat split; by vm_compute.
Qed.

Lemma sample_urrs_wf : Forall wf_urr sample_urrs.
Proof.
  repeat first [ apply Forall_nil; exact I | apply Forall_cons; split ];
    unfold wf_urr, from_option; simpl; repeat split; by vm_compute.
Qed.

Lemma session_establishment_roundtrip_witness :
  ∃ msg h body,
    finish (E:=DecodeError) (session_establishment_msg 5 3232235786 42 sample_pdrs sample_fars
      sample_urrs) = Ok msg ∧
    decode msg = Ok (h, body) ∧ decode_session_establishment body ≠ Panic.
Proof.
  destruct (session_establishment_roundtrip 5 3232235786 42 sample_pdrs sample_fars sample_urrs
    (conj (Zle_bool_imp_le 0 5 eq_refl) eq_refl) ltac:(by uint) ltac:(by uint) sample_pdrs_wf
    sample_fars_wf sample_urrs_wf) as (msg & h & body & H1 & H2 & _ & _ & _ & _ & H3).
  exists msg, h, body. split; [exact H1|]. split; [exact H2|]. rewrite H3. discriminate.
Defined.

(** A Session Modification Request with any Update FAR and Update URR IEs
    is received as written, under the SEID it was addressed to. *)
Theorem session_modification_roundtrip seq seid fars urrs :
  0 ≤ seq < 2 ^ 24 → u64 seid → Forall wf_far fars → Forall wf_urr urrs →
  ∃ msg h body,
    finish (E:=DecodeError) (session_modification_msg seq seid fars urrs) = Ok msg ∧
    decode msg = Ok (h, body) ∧
    hdr_msg_type h = PFCP_SESSION_MODIFICATION_REQ ∧ hdr_seq_num h = seq ∧
    hdr_seid h = Some seid ∧
    decode_session_modification body =
    Ok {| smr_cp_seid := None; smr_smf_addr := None;
          update_fars := far_of_params <$> fars; update_urrs := urr_of_params <$> urrs |}.
Proof.
  intros Hs Hi Hf Hu. rewrite session_modification_msg_body.
  destruct (decode_finish (E:=DecodeError)
    (new_session_msg PFCP_SESSION_MODIFICATION_REQ seid seq)
    (ies_bytes (modification_ies fars urrs))) as (msg & Hm & Hl & Hd).
  { apply wf_session_msg; [by vm_compute|done|done]. }
  eexists _, _, _. split; [exact Hm|]. split; [exact Hd|].
  refine (conj eq_refl (conj eq_refl (conj eq_refl _))).
  by apply decode_session_modification_built.
Qed.

Lemma session_modification_roundtrip_witness :
  ∃ msg h body,
    finish (E:=DecodeError) (session_modification_msg 6 1 sample_fars sample_urrs) = Ok msg ∧
    decode msg = Ok (h, body) ∧ decode_session_modification body ≠ Panic.
Proof.
  destruct (session_modification_roundtrip 6 1 sample_fars sample_urrs
    (conj (Zle_bool_imp_le 0 6 eq_refl) eq_refl) ltac:(by uint) sample_fars_wf sample_urrs_wf)
    as (msg & h & body & H1 & H2 & _ & _ & _ & H3).
  exists msg, h, body. split; [exact H1|]. split; [exact H2|]. rewrite H3. discriminate.
Defined.
