(* ===== verification/Dict.v ===== *)
(** * Message dictionary ([pfcp-common/src/dict.rs], [dict_ext.rs])

    The table of mandatory, conditional and optional IEs of every message, and
    [validate], which lists the mandatory IEs a received body lacks. *)

From S2P Require Import Prelude Types Header Ie Builder Messages.

Inductive Presence := Mandatory | Conditional | Optional.

#[export] Instance presence_eq_dec : EqDecision Presence.
Proof. solve_decision. Defined.

Record IeSpec := mkIeSpec { is_type : Z; is_presence : Presence; is_name : string }.

Record MessageSpec := mkMessageSpec { ms_type : Z; ms_name : string; ms_ies : list IeSpec }.

Definition madatory_ies (m : MessageSpec) : list IeSpec :=
  List.filter (λ ie, bool_decide (is_presence ie = Mandatory)) (ms_ies m).

Definition spec_find_ie (m : MessageSpec) (ie_type : Z) : option IeSpec :=
  List.find (λ ie, is_type ie =? ie_type) (ms_ies m).

Definition PFCP_DICT : gmap Z MessageSpec := list_to_map
  [ (1, mkMessageSpec PFCP_HEARTBEAT_REQ "Heartbeat Request"
      [ mkIeSpec PFCP_IE_RECOVERY_TIME_STAMP Optional "Recovery Time Stamp" ]);
    (2, mkMessageSpec PFCP_HEARTBEAT_RSP "Heartbeat Response"
      [ mkIeSpec PFCP_IE_RECOVERY_TIME_STAMP Optional "Recovery Time Stamp" ]);
    (5, mkMessageSpec PFCP_ASSOCIATION_SETUP_REQ "Association Setup Request"
      [ mkIeSpec PFCP_IE_NODE_ID Mandatory "Node ID";
        mkIeSpec PFCP_IE_RECOVERY_TIME_STAMP Mandatory "Recovery Time Stamp";
        mkIeSpec PFCP_IE_CP_FUNCTION_FEATURES Conditional "CP Function Feature";
        mkIeSpec PFCP_IE_UP_FUNCTION_FEATURES Conditional "UP Function Feature" ]);
    (6, mkMessageSpec PFCP_ASSOCIATION_SETUP_RSP "Association Setup Response"
      [ mkIeSpec PFCP_IE_NODE_ID Mandatory "Node ID";
        mkIeSpec PFCP_IE_CAUSE Mandatory "Cause";
        mkIeSpec PFCP_IE_RECOVERY_TIME_STAMP Mandatory "Recovery Time Stamp";
        mkIeSpec PFCP_IE_UP_FUNCTION_FEATURES Conditional "UP Function Feature" ]);
    (50, mkMessageSpec PFCP_SESSION_ESTABLISHMENT_REQ "Session Establishment Request"
      [ mkIeSpec PFCP_IE_NODE_ID Mandatory "Node ID";
        mkIeSpec PFCP_IE_FSEID Mandatory "FSEID";
        mkIeSpec PFCP_IE_CREATE_PDR Mandatory "Create PDR";
        mkIeSpec PFCP_IE_CREATE_FAR Mandatory "Create FAR";
        mkIeSpec PFCP_IE_CREATE_URR Conditional "Create URR";
        mkIeSpec PFCP_IE_CREATE_QER Conditional "Create QER";
        mkIeSpec PFCP_IE_CREATE_BAR Optional "Create BAR" ]);
    (51, mkMessageSpec PFCP_SESSION_ESTABLISHMENT_RSP "Session Establishment Response"
      [ mkIeSpec PFCP_IE_NODE_ID Mandatory "Node ID";
        mkIeSpec PFCP_IE_CAUSE Mandatory "Cause";
        mkIeSpec PFCP_IE_FSEID Conditional "FSEID";
        mkIeSpec PFCP_IE_CREATE_PDR Conditional "Create PDR" ]);
    (52, mkMessageSpec PFCP_SESSION_MODIFICATION_REQ "Session Modification Request"
      [ mkIeSpec PFCP_IE_FSEID Conditional "F-SEID";
        mkIeSpec PFCP_IE_UPDATE_PDR Conditional "Update PDR";
        mkIeSpec PFCP_IE_UPDATE_FAR Conditional "Update FAR";
        mkIeSpec PFCP_IE_REMOVE_PDR Optional "Remove PDR";
        mkIeSpec PFCP_IE_REMOVE_FAR Optional "Remove FAR" ]);
    (53, mkMessageSpec PFCP_SESSION_MODIFICATION_RSP "Session Modification Response"
      [ mkIeSpec PFCP_IE_CAUSE Mandatory "Cause";
        mkIeSpec PFCP_IE_CREATED_PDR Optional "Created PDR" ]);
    (54, mkMessageSpec PFCP_SESSION_DELETION_REQ "Session Deletion Request" []);
    (55, mkMessageSpec PFCP_SESSION_DELETION_RSP "Session Deletion Response"
      [ mkIeSpec PFCP_IE_CAUSE Mandatory "Cause";
        mkIeSpec PFCP_IE_USAGE_REPORT_IN_SESS_MEL_RSP Optional "Usage Report" ]);
    (56, mkMessageSpec PFCP_SESSION_REPORT_REQ "Session Report Request"
      [ mkIeSpec PFCP_IE_REPORT_TYPE Mandatory "Report Type";
        mkIeSpec PFCP_IE_USAGE_REPORT_IN_SESS_RPT_REQ Conditional
          "Usage Report in Session Report Request" ]);
    (57, mkMessageSpec PFCP_SESSION_REPORT_RSP "Session Report Response" []) ].

Definition dict_lookup (msg_type : Z) : option MessageSpec := PFCP_DICT !! msg_type.

Record ValidationResult := mkValidation { missing : list string }.

Definition validation_is_ok (r : ValidationResult) : bool :=
  match missing r with [] => true | _ => false end.

(** The [HashSet] of received types is a [gset]. *)
Definition validate (msg_type : Z) (body : list Z) : ValidationResult :=
  match dict_lookup msg_type with
  | None => mkValidation []
  | Some dictionary =>
      let recv_ies : gset Z := list_to_set (ie_type <$> iter_ies body) in
      mkValidation
        (is_name <$> List.filter (λ s, negb (bool_decide (is_type s ∈ recv_ies)))
           (List.filter (λ s, bool_decide (is_presence s = Mandatory)) (ms_ies dictionary)))
  end.

(** ** Characterisation *)

(** The reference: every mandatory type of the message occurs in the body. *)
Definition mandatory_present (msg_type : Z) (body : list Z) : Prop :=
  ∀ m s, dict_lookup msg_type = Some m → s ∈ ms_ies m → is_presence s = Mandatory →
    ∃ ie, ie ∈ iter_ies body ∧ ie_type ie = is_type s.

Lemma elem_of_List_filter {A} (f : A → bool) (l : list A) x :
  x ∈ List.filter f l ↔ x ∈ l ∧ f x = true.
Proof. rewrite !list_elem_of_In. apply List.filter_In. Qed.

Lemma elem_of_missing msg_type body n :
  n ∈ missing (validate msg_type body) ↔
  ∃ m s, dict_lookup msg_type = Some m ∧ s ∈ ms_ies m ∧ is_presence s = Mandatory ∧
    is_name s = n ∧ is_type s ∉ ie_type <$> iter_ies body.
Proof.
  unfold validate. destruct (dict_lookup msg_type) as [m|]; simpl.
  - rewrite list_elem_of_fmap. setoid_rewrite elem_of_List_filter.
    setoid_rewrite elem_of_List_filter. setoid_rewrite negb_true_iff.
    setoid_rewrite bool_decide_eq_true. setoid_rewrite bool_decide_eq_false.
    setoid_rewrite elem_of_list_to_set. naive_solver.
  - split; [by intros ?%not_elem_of_nil|naive_solver].
Qed.

Lemma validation_ok_spec msg_type body :
  validation_is_ok (validate msg_type body) = true ↔ mandatory_present msg_type body.
Proof.
  assert (validation_is_ok (validate msg_type body) = true ↔
    ∀ n, n ∉ missing (validate msg_type body)) as ->.
  { unfold validation_is_ok. destruct (missing _) as [|n l]; [set_solver|].
    split; [done|]. intros H. exfalso. apply (H n). by left. }
  setoid_rewrite elem_of_missing. unfold mandatory_present. split.
  - intros H m s Hm Hs Hp. destruct (decide (is_type s ∈ ie_type <$> iter_ies body)) as [Hi|Hi].
    + apply list_elem_of_fmap in Hi as (ie & ? & ?). eauto.
    + exfalso. eapply H. naive_solver.
  - intros H n (m & s & Hm & Hs & Hp & _ & Hn). destruct (H m s Hm Hs Hp) as (ie & Hie & Ht).
    apply Hn. rewrite <-Ht. by apply list_elem_of_fmap_2.
Qed.

Lemma find_ie_elem ty ies : (∃ ie, ie ∈ ies ∧ ie_type ie = ty) → is_Some (find_ie ty ies).
Proof.
  intros (ie & Hin & Ht). unfold find_ie. destruct (List.find _ ies) eqn:E; [by eexists|].
  apply list_elem_of_In in Hin.
  pose proof (List.find_none _ _ E ie Hin) as Hf. simpl in Hf. lia.
Qed.

Lemma required_present {A} ty what (parse : list Z → outcome PfcpError A) ies w :
  is_Some (find_ie ty ies) → required ty what parse ies ≠ Err (Missing w).
Proof.
  intros [raw Hr]. unfold required. rewrite Hr. simpl. simpl_outcome.
  by destruct (parse _).
Qed.

Lemma optional_not_missing {A} ty (parse : list Z → outcome PfcpError A) ies w :
  optional ty parse ies ≠ Err (Missing w).
Proof. unfold optional. destruct (find_ie _ _); [|done]. by destruct (parse _). Qed.

Lemma collect_not_missing {A} ty (parse : list Z → outcome PfcpError A) ies w :
  collect ty parse ies ≠ Err (Missing w).
Proof.
  unfold collect. induction (filter_ies ty ies) as [|raw l IH]; [done|]. cbn [mapM].
  destruct (parse (ie_value raw)); simpl_outcome; simpl; try done.
  destruct (mapM _ l); simpl; try done.
Qed.

Lemma bind_err_inv {E A B} (m : outcome E A) (f : A → outcome E B) e :
  m ≫= f = Err e → m = Err e ∨ ∃ a, m = Ok a ∧ f a = Err e.
Proof. destruct m; simpl; naive_solver. Qed.

(** The types a decoder requires are mandatory in the dictionary. *)
Lemma mandatory_lookup t m s body :
  mandatory_present t body → dict_lookup t = Some m → s ∈ ms_ies m →
  is_presence s = Mandatory → is_Some (find_ie (is_type s) (iter_ies body)).
Proof. intros H ???. apply find_ie_elem. eauto. Qed.

Lemma mandatory_association body :
  mandatory_present PFCP_ASSOCIATION_SETUP_REQ body →
  is_Some (find_ie PFCP_IE_NODE_ID (iter_ies body)) ∧
  is_Some (find_ie PFCP_IE_RECOVERY_TIME_STAMP (iter_ies body)).
Proof.
  intros H. split.
  - apply (mandatory_lookup _ _ (mkIeSpec PFCP_IE_NODE_ID Mandatory "Node ID") _ H eq_refl);
      [repeat constructor|done].
  - apply (mandatory_lookup _ _ (mkIeSpec PFCP_IE_RECOVERY_TIME_STAMP Mandatory
      "Recovery Time Stamp") _ H eq_refl); [repeat constructor|done].
Qed.

Lemma mandatory_establishment body :
  mandatory_present PFCP_SESSION_ESTABLISHMENT_REQ body →
  is_Some (find_ie PFCP_IE_FSEID (iter_ies body)).
Proof.
  intros H.
  apply (mandatory_lookup _ _ (mkIeSpec PFCP_IE_FSEID Mandatory "FSEID") _ H eq_refl);
    [repeat constructor|done].
Qed.

(** ** Built messages satisfy the dictionary *)

(** A body of typed values satisfies the dictionary when the mandatory types
    are among them. *)
Lemma validate_ies t l :
  Forall ie_fits l →
  forallb (λ s, existsb (λ tv, tv.1 =? is_type s) l)
    (default [] (madatory_ies <$> dict_lookup t)) = true →
  validation_is_ok (validate t (ies_bytes l)) = true.
Proof.
  intros Hl Hf. apply validation_ok_spec. intros m s Hm Hs Hp. rewrite Hm in Hf. simpl in Hf.
  rewrite List.forallb_forall in Hf. specialize (Hf s).
  unfold madatory_ies in Hf. rewrite <-list_elem_of_In, elem_of_List_filter, Hp in Hf.
  apply List.existsb_exists in Hf as ([ty v] & Hin & Ht); [|done].
  rewrite iter_ies_ies_bytes by done. exists (parsed_ie ty v). split.
  - apply list_elem_of_fmap. exists (ty, v). by rewrite list_elem_of_In.
  - apply Z.eqb_eq. exact Ht.
Qed.

(** A received message is acceptable to a peer that validates it, and its cause,
    if it has one, is that the request was accepted. *)
Definition accepted_as (t seq : Z) (seid : option Z) (m : outcome PfcpError (list Z)) : Prop :=
  ∃ msg h body, m = Ok msg ∧ decode msg = Ok (h, body) ∧ hdr_msg_type h = t ∧
    hdr_seq_num h = seq ∧ hdr_seid h = seid ∧ validation_is_ok (validate t body) = true ∧
    (∀ ie, find_ie PFCP_IE_CAUSE (iter_ies body) = Some ie →
       ie_value ie = [CAUSE_REQUEST_ACCEPTED]).

(** An IE that is no Cause or says accepted. *)
Definition cause_ok (tv : Z * list Z) : bool :=
  negb (tv.1 =? PFCP_IE_CAUSE) || bool_decide (tv.2 = [CAUSE_REQUEST_ACCEPTED]).

Lemma find_cause_ok l ie :
  Forall ie_fits l → forallb cause_ok l = true →
  find_ie PFCP_IE_CAUSE (iter_ies (ies_bytes l)) = Some ie →
  ie_value ie = [CAUSE_REQUEST_ACCEPTED].
Proof.
  intros Hl Hc Hf. rewrite iter_ies_ies_bytes in Hf by done.
  apply List.find_some in Hf as [Hin Ht]. apply list_elem_of_In in Hin.
  apply list_elem_of_fmap in Hin as ([ty v] & -> & Hin). cbn in Ht.
  rewrite List.forallb_forall in Hc. apply list_elem_of_In in Hin. specialize (Hc _ Hin).
  unfold cause_ok in Hc. cbn in Hc. rewrite Ht in Hc. cbn in Hc.
  by apply bool_decide_eq_true in Hc.
Qed.

Lemma accepted_finish h l :
  wf_header h → Forall ie_fits l →
  forallb (λ s, existsb (λ tv, tv.1 =? is_type s) l)
    (default [] (madatory_ies <$> dict_lookup (hdr_msg_type h))) = true →
  forallb cause_ok l = true →
  accepted_as (hdr_msg_type h) (hdr_seq_num h) (hdr_seid h) (finish (encode h ++ ies_bytes l)).
Proof.
  intros Hwf Hl Hf Hc. destruct (decode_finish (E:=PfcpError) h (ies_bytes l) Hwf)
    as (msg & Hm & _ & Hd).
  exists msg, (with_length (body_length h (ies_bytes l)) h), (ies_bytes l).
  refine (conj Hm (conj Hd (conj eq_refl (conj eq_refl (conj eq_refl (conj _ _)))))).
  - by apply validate_ies.
  - intros ie. by apply find_cause_ok.
Qed.

Lemma foldl_created_pdr h l xs :
  foldl (λ msg '(pdr_id, teid, addr), add_created_pdr msg pdr_id teid addr)
    (encode h ++ ies_bytes l) xs =
  encode h ++ ies_bytes (l ++ ((λ x : Z * Z * Z,
    (PFCP_IE_CREATED_PDR, created_pdr_value x.1.1 x.1.2 x.2)) <$> xs)).
Proof.
  rewrite <-foldl_add_ie_body. generalize (encode h ++ ies_bytes l).
  induction xs as [|[[a b] c] xs IH]; intros buf; [done|]. cbn [foldl]. by rewrite IH.
Qed.

Lemma length_created_pdr_value p t a : (length (created_pdr_value p t a) = 19)%nat.
Proof. unfold created_pdr_value. len. Qed.

Ltac accepted :=
  match goal with |- accepted_as _ _ _ (finish (encode ?h ++ ies_bytes ?l)) =>
    apply (accepted_finish h l);
    [ first [ apply wf_node_msg | apply wf_session_msg ];
        first [ assumption | by vm_compute ]
    | cbv beta; fits
    | reflexivity
    | reflexivity ] end.

Lemma heartbeat_response_accepted seq ts :
  0 ≤ seq < 2 ^ 24 →
  accepted_as PFCP_HEARTBEAT_RSP seq None (build_heartbeat_response seq ts).
Proof.
  intros. unfold build_heartbeat_response, add_recovery_timestamp. cbv zeta.
  rewrite msg_new_body, add_ie_body. accepted.
Qed.

Lemma association_response_accepted seq addr ts :
  0 ≤ seq < 2 ^ 24 →
  accepted_as PFCP_ASSOCIATION_SETUP_RSP seq None (build_association_setup_response seq addr ts).
Proof.
  intros. unfold build_association_setup_response, add_recovery_timestamp, add_node_id_v4,
    add_cause, add_up_function_features. cbv zeta.
  rewrite msg_new_body, !add_ie_body. accepted.
Qed.

Lemma establishment_response_accepted seq cp_seid seid addr created :
  0 ≤ seq < 2 ^ 24 → u64 cp_seid →
  accepted_as PFCP_SESSION_ESTABLISHMENT_RSP seq (Some cp_seid)
    (build_session_establishment_response seq cp_seid seid addr created).
Proof.
  intros. unfold build_session_establishment_response, add_node_id_v4, add_cause, add_fseid.
  cbv zeta. rewrite msg_new_body, !add_ie_body, foldl_created_pdr.
  match goal with |- context [encode ?h ++ ies_bytes ?l] =>
    apply (accepted_finish h l) end.
  - by apply wf_session_msg.
  - fits. apply fits_seg; [u16_const|]. intros x. rewrite length_created_pdr_value. lia.
  - reflexivity.
  - rewrite List.forallb_app. by induction created.
Qed.

Lemma modification_response_accepted seq seid :
  0 ≤ seq < 2 ^ 24 → u64 seid →
  accepted_as PFCP_SESSION_MODIFICATION_RSP seq (Some seid)
    (build_session_modification_response seq seid).
Proof.
  intros. unfold build_session_modification_response, add_cause. cbv zeta.
  rewrite msg_new_body, add_ie_body. accepted.
Qed.

Lemma deletion_response_accepted seq seid :
  0 ≤ seq < 2 ^ 24 → u64 seid →
  accepted_as PFCP_SESSION_DELETION_RSP seq (Some seid)
    (build_session_deletion_response seq seid).
Proof.
  intros. unfold build_session_deletion_response, add_cause. cbv zeta.
  rewrite msg_new_body, add_ie_body. accepted.
Qed.

(** C38. For every message type, [validate] passes a body exactly when each
    mandatory IE of the dictionary occurs in it, and then neither request
    decoder of the server fails for a missing IE: dictionary and decoders
    agree. *)
Theorem validate_exact t body :
  (validation_is_ok (validate t body) = true ↔ mandatory_present t body) ∧
  (t = PFCP_ASSOCIATION_SETUP_REQ → mandatory_present t body →
     ∀ w, decode_association_setup body ≠ Err (Missing w)) ∧
  (t = PFCP_SESSION_ESTABLISHMENT_REQ → mandatory_present t body →
     ∀ w, decode_session_establishment body ≠ Err (Missing w)).
Proof.
  split; [apply validation_ok_spec|]. split; intros -> H w He.
  - apply mandatory_association in H as [H1 H2]. unfold decode_association_setup in He.
    repeat (apply bind_err_inv in He as [He|(? & _ & He)];
      [by eapply required_present in He|]). done.
  - apply mandatory_establishment in H. unfold decode_session_establishment in He. cbv zeta in He.
    apply bind_err_inv in He as [He|([? ?] & _ & He)]; [by eapply required_present in He|].
    apply bind_err_inv in He as [He|(? & _ & He)]; [by eapply optional_not_missing in He|].
    repeat (apply bind_err_inv in He as [He|(? & _ & He)];
      [by eapply collect_not_missing in He|]). done.
Qed.

Lemma validate_exact_witness :
  validation_is_ok (validate PFCP_ASSOCIATION_SETUP_REQ [0; 96; 0; 4; 0; 0; 0; 1]) = false ∧
  ¬ mandatory_present PFCP_ASSOCIATION_SETUP_REQ [0; 96; 0; 4; 0; 0; 0; 1].
Proof.
  assert (validation_is_ok (validate PFCP_ASSOCIATION_SETUP_REQ [0; 96; 0; 4; 0; 0; 0; 1]) = false)
    as H by (vm_compute; reflexivity).
  split; [exact H|].
  intros Hm. apply (proj1 (validate_exact PFCP_ASSOCIATION_SETUP_REQ [0; 96; 0; 4; 0; 0; 0; 1])) in Hm.
  rewrite H in Hm. discriminate Hm.
Defined.

(** Every response the server builds, for any sequence number, addresses,
    identifiers and any list of created PDRs, is a complete message: it decodes
    to a header of the response's type with the request's sequence number and
    the given SEID, and its body passes the dictionary for that type. *)
Theorem responses_valid seq cp_seid seid addr ts created :
  0 ≤ seq < 2 ^ 24 → u64 cp_seid → u64 seid →
  accepted_as PFCP_HEARTBEAT_RSP seq None (build_heartbeat_response seq ts) ∧
  accepted_as PFCP_ASSOCIATION_SETUP_RSP seq None
    (build_association_setup_response seq addr ts) ∧
  accepted_as PFCP_SESSION_ESTABLISHMENT_RSP seq (Some cp_seid)
    (build_session_establishment_response seq cp_seid seid addr created) ∧
  accepted_as PFCP_SESSION_MODIFICATION_RSP seq (Some seid)
    (build_session_modification_response seq seid) ∧
  accepted_as PFCP_SESSION_DELETION_RSP seq (Some seid)
    (build_session_deletion_response seq seid).
Proof.
  intros. split_and!.
  - by apply heartbeat_response_accepted.
  - by apply association_response_accepted.
  - by apply establishment_response_accepted.
  - by apply modification_response_accepted.
  - by apply deletion_response_accepted.
Qed.

Lemma responses_valid_witness :
  accepted_as PFCP_SESSION_DELETION_RSP 99 (Some 3) (build_session_deletion_response 99 3).
Proof.
  exact (proj2 (proj2 (proj2 (proj2 (responses_valid 99 1 3 0 0 []
    (conj (Zle_bool_imp_le 0 99 eq_refl) eq_refl) ltac:(by uint) ltac:(by uint)))))).
Defined.
