(* ===== verification/Registry.v ===== *)
(** * The registers of PFCP numbers ([pfcp-common/src/types.rs])

    Every message type, information-element type and cause [types.rs] declares,
    by name, the ones the program never uses included; the program's own
    constants are those of [Types.v].  The proofs are consistency checks over
    the whole registers. *)

From S2P Require Import Prelude Types Header Ie Builder Messages Dict.

#[local] Open Scope string_scope.
#[local] Open Scope list_scope.
#[local] Open Scope Z_scope.

Definition message_types : list (string * Z) := [
  ("RESERVED", 0); ("PFCP_HEARTBEAT_REQ", 1); ("PFCP_HEARTBEAT_RSP", 2);
  ("PFCP_PFD_MANAGEMENT_REQ", 3); ("PFCP_PFD_MANAGEMENT_RSP", 4);
  ("PFCP_ASSOCIATION_SETUP_REQ", 5); ("PFCP_ASSOCIATION_SETUP_RSP", 6);
  ("PFCP_ASSOCIATION_UPDATE_REQ", 7); ("PFCP_ASSOCIATION_UPDATE_RSP", 8);
  ("PFCP_ASSOCIATION_RELEASE_REQ", 9); ("PFCP_ASSOCIATION_RELEASE_RSP", 10);
  ("PFCP_VERSION_NOT_SUPPORTED_RSP", 11); ("PFCP_NODE_REPORT_REQ", 12);
  ("PFCP_NODE_REPORT_RSP", 13); ("PFCP_SESSION_SET_DELETION_REQ", 14);
  ("PFCP_SESSION_SET_DELETION_RSP", 15); ("PFCP_SESSION_SET_MODIFICATION_REQ", 16);
  ("PFCP_SESSION_SET_MODIFCATION_RSP", 17); ("PFCP_SESSION_ESTABLISHMENT_REQ", 50);
  ("PFCP_SESSION_ESTABLISHMENT_RSP", 51); ("PFCP_SESSION_MODIFICATION_REQ", 52);
  ("PFCP_SESSION_MODIFICATION_RSP", 53); ("PFCP_SESSION_DELETION_REQ", 54);
  ("PFCP_SESSION_DELETION_RSP", 55); ("PFCP_SESSION_REPORT_REQ", 56);
  ("PFCP_SESSION_REPORT_RSP", 57)].

Definition ie_types_1 : list (string * Z) := [
  ("PFCP_IE_CREATE_PDR", 1); ("PFCP_IE_PDI", 2); ("PFCP_IE_CREATE_FAR", 3);
  ("PFCP_IE_FORWARDING_PARAMETERS", 4); ("PFCP_IE_DUPLICATING_PARAMETERS", 5);
  ("PFCP_IE_CREATE_URR", 6); ("PFCP_IE_CREATE_QER", 7); ("PFCP_IE_CREATED_PDR", 8);
  ("PFCP_IE_UPDATE_PDR", 9); ("PFCP_IE_UPDATE_FAR", 10);
  ("PFCP_IE_UPDATE_FORWARDING_PARAMETERS", 11); ("PFCP_IE_UPDATE_BAR", 12);
  ("PFCP_IE_UPDATE_URR", 13); ("PFCP_IE_UPDATE_QER", 14); ("PFCP_IE_REMOVE_PDR", 15);
  ("PFCP_IE_REMOVE_FAR", 16); ("PFCP_IE_REMOVE_URR", 17); ("PFCP_IE_REMOVE_QER", 18);
  ("PFCP_IE_CAUSE", 19); ("PFCP_IE_SOURCE_INTERFACE", 20); ("PFCP_IE_FTEID", 21);
  ("PFCP_IE_NETWORK_INSTANCE", 22); ("PFCP_IE_SDF_FILTER", 23); ("PFCP_IE_APPLICATION_ID", 24);
  ("PFCP_IE_GATE_STATUS", 25); ("PFCP_IE_MBR", 26); ("PFCP_IE_GBR", 27);
  ("PFCP_IE_QER_CORRELATION_ID", 28); ("PFCP_IE_PRECEDENCE", 29);
  ("PFCP_IE_TRANSPORT_LEVEL_MARKING", 30); ("PFCP_IE_VOLUME_THRESHOLD", 31);
  ("PFCP_IE_TIME_THRESHOLD", 32); ("PFCP_IE_MONITORING_TIME", 33);
  ("PFCP_IE_SUBSEQUENT_VOLUME_THRESHOLD", 34); ("PFCP_IE_SUBSEQUENT_TIME_THRESHOLD", 35);
  ("PFCP_IE_INACTIVITY_DETECTION_TIME", 36); ("PFCP_IE_REPORTING_TRIGGERS", 37);
  ("PFCP_IE_REDIRECT_INFORMATION", 38); ("PFCP_IE_REPORT_TYPE", 39);
  ("PFCP_IE_OFFENDING_IE", 40); ("PFCP_IE_FORWARDING_POLICY", 41);
  ("PFCP_IE_DESTINATION_INTERFACE", 42); ("PFCP_IE_UP_FUNCTION_FEATURES", 43);
  ("PFCP_IE_APPLY_ACTION", 44); ("PFCP_IE_DOWNLINK_DATA_SERVICE_INFORMATION", 45);
  ("PFCP_IE_DOWNLINK_DATA_NOTIFICATION_DELAY", 46); ("PFCP_IE_DL_BUFFERING_DURATION", 47);
  ("PFCP_IE_DL_BUFFERING_SUGGESTED_PACKET_COUNT", 48); ("PFCP_IE_PFCPSMREQ_FLAGS", 49);
  ("PFCP_IE_PFCPSRRSP_FLAGS", 50); ("PFCP_IE_LOAD_CONTROL_INFORMATION", 51);
  ("PFCP_IE_SEQUENCE_NUMBER", 52); ("PFCP_IE_METRIC", 53);
  ("PFCP_IE_OVERLOAD_CONTROL_INFORMATION", 54); ("PFCP_IE_TIMER", 55); ("PFCP_IE_PDR_ID", 56);
  ("PFCP_IE_FSEID", 57); ("PFCP_IE_APPLICATION_ID_PFDS", 58); ("PFCP_IE_PFD_CONTEXT", 59);
  ("PFCP_IE_NODE_ID", 60); ("PFCP_IE_PFD_CONTENTS", 61); ("PFCP_IE_MEASUREMENT_METHOD", 62);
  ("PFCP_IE_USAGE_REPORT_TRIGGER", 63); ("PFCP_IE_MEASUREMENT_PERIOD", 64);
  ("PFCP_IE_FQCSID", 65); ("PFCP_IE_VOLUME_MEASUREMENT", 66);
  ("PFCP_IE_DURATION_MEASUREMENT", 67); ("PFCP_IE_APPLICATION_DETECTION_INFORMATION", 68);
  ("PFCP_IE_TIME_OF_FIRST_PACKET", 69); ("PFCP_IE_TIME_OF_LAST_PACKET", 70);
  ("PFCP_IE_QUOTA_HOLDING_TIME", 71); ("PFCP_IE_DROPPED_DL_TRAFFIC_THRESHOLD", 72);
  ("PFCP_IE_VOLUME_QUOTA", 73); ("PFCP_IE_TIME_QUOTA", 74); ("PFCP_IE_START_TIME", 75);
  ("PFCP_IE_END_TIME", 76); ("PFCP_IE_QUERY_URR", 77);
  ("PFCP_IE_USAGE_REPORT_IN_SESS_MOD_RSP", 78); ("PFCP_IE_USAGE_REPORT_IN_SESS_MEL_RSP", 79);
  ("PFCP_IE_USAGE_REPORT_IN_SESS_RPT_REQ", 80); ("PFCP_IE_URR_ID", 81);
  ("PFCP_IE_LINKED_URR_ID", 82); ("PFCP_IE_DOWNLINK_DATA_REPORT", 83);
  ("PFCP_IE_OUTER_HEADER_CREATION", 84); ("PFCP_IE_CREATE_BAR", 85);
  ("PFCP_IE_UPDATE_BAR_SESSION_MOD_REQ", 86); ("PFCP_IE_REMOVE_BAR", 87); ("PFCP_IE_BAR_ID", 88);
  ("PFCP_IE_CP_FUNCTION_FEATURES", 89); ("PFCP_IE_USAGE_INFORMATION", 90);
  ("PFCP_IE_APPLICATION_INSTANCE_ID", 91); ("PFCP_IE_FLOW_INFORMATION", 92);
  ("PFCP_IE_UE_IP_ADDRESS", 93); ("PFCP_IE_PACKET_RATE", 94);
  ("PFCP_IE_OUTER_HEADER_REMOVAL", 95); ("PFCP_IE_RECOVERY_TIME_STAMP", 96);
  ("PFCP_IE_DL_FLOW_LEVEL_MARKING", 97); ("PFCP_IE_HEADER_ENRICHMENT", 98);
  ("PFCP_IE_ERROR_INDICATION_REPORT", 99); ("PFCP_IE_MEASUREMENT_INFORMATION", 100);
  ("PFCP_IE_NODE_REPORT_TYPE", 101); ("PFCP_IE_USER_PLANE_PATH_FAILURE_REPORT", 102);
  ("PFCP_IE_REMOTE_GTPU_PEER", 103); ("PFCP_IE_UR_SEQN", 104);
  ("PFCP_IE_UPDATE_DUPLICATING_PARAMETERS", 105); ("PFCP_IE_ACTIVATE_PREDEFINED_RULES", 106);
  ("PFCP_IE_DEACTIVATE_PREDEFINED_RULES", 107); ("PFCP_IE_FAR_ID", 108); ("PFCP_IE_QER_ID", 109);
  ("PFCP_IE_OCI_FLAGS", 110); ("PFCP_IE_PFCP_ASSOCIATION_RELEASE_REQUEST", 111);
  ("PFCP_IE_GRACEFUL_RELEASE_PERIOD", 112); ("PFCP_IE_PDN_TYPE", 113);
  ("PFCP_IE_FAILED_RULE_ID", 114); ("PFCP_IE_TIME_QUOTA_MECHANISM", 115);
  ("PFCP_IE_RESERVED", 116); ("PFCP_IE_USER_PLANE_INACTIVITY_TIMER", 117);
  ("PFCP_IE_AGGREGATED_URRS", 118); ("PFCP_IE_MULTIPLIER", 119);
  ("PFCP_IE_AGGREGATED_URR_ID", 120); ("PFCP_IE_SUBSEQUENT_VOLUME_QUOTA", 121);
  ("PFCP_IE_SUBSEQUENT_TIME_QUOTA", 122); ("PFCP_IE_RQI", 123); ("PFCP_IE_QFI", 124);
  ("PFCP_IE_QUERY_URR_REFERENCE", 125); ("PFCP_IE_ADDITIONAL_USAGE_REPORTS_INFORMATION", 126);
  ("PFCP_IE_CREATE_TRAFFIC_ENDPOINT", 127); ("PFCP_IE_CREATED_TRAFFIC_ENDPOINT", 128);
  ("PFCP_IE_UPDATE_TRAFFIC_ENDPOINT", 129); ("PFCP_IE_REMOVE_TRAFFIC_ENDPOINT", 130);
  ("PFCP_IE_TRAFFIC_ENDPOINT_ID", 131); ("PFCP_IE_ETHERNET_PACKET_FILTER", 132);
  ("PFCP_IE_MAC_ADDRESS", 133); ("PFCP_IE_CTAG", 134); ("PFCP_IE_STAG", 135);
  ("PFCP_IE_ETHERTYPE", 136); ("PFCP_IE_PROXYING", 137); ("PFCP_IE_ETHERNET_FILTER_ID", 138);
  ("PFCP_IE_ETHERNET_FILTER_PROPERTIES", 139);
  ("PFCP_IE_SUGGESTED_BUFFERING_PACKETS_COUNT", 140); ("PFCP_IE_USER_ID", 141);
  ("PFCP_IE_ETHERNET_PDU_SESSION_INFORMATION", 142);
  ("PFCP_IE_ETHERNET_TRAFFIC_INFORMATION", 143); ("PFCP_IE_MAC_ADDRESSES_DETECTED", 144);
  ("PFCP_IE_MAC_ADDRESSES_REMOVED", 145); ("PFCP_IE_ETHERNET_INACTIVITY_TIMER", 146);
  ("PFCP_IE_ADDITIONAL_MONITORING_TIME", 147); ("PFCP_IE_EVENT_QUOTA", 148);
  ("PFCP_IE_EVENT_THRESHOLD", 149); ("PFCP_IE_SUBSEQUENT_EVENT_QUOTA", 150)].

Definition ie_types_2 : list (string * Z) := [
  ("PFCP_IE_SUBSEQUENT_EVENT_THRESHOLD", 151); ("PFCP_IE_TRACE_INFORMATION", 152);
  ("PFCP_IE_FRAMED_ROUTE", 153); ("PFCP_IE_FRAMED_ROUTING", 154);
  ("PFCP_IE_FRAMED_IPV6_ROUTE", 155); ("PFCP_IE_TIME_STAMP", 156);
  ("PFCP_IE_AVERAGING_WINDOW", 157); ("PFCP_IE_PAGING_POLICY_INDICATOR", 158);
  ("PFCP_IE_APN_DNN", 159); ("PFCP_IE_INTERFACE_TYPE_3GPP", 160);
  ("PFCP_IE_PFCPSRREQ_FLAGS", 161); ("PFCP_IE_PFCPAUREQ_FLAGS", 162);
  ("PFCP_IE_ACTIVATION_TIME", 163); ("PFCP_IE_DEACTIVATION_TIME", 164);
  ("PFCP_IE_CREATE_MAR", 165); ("PFCP_IE_ACCESS_FORWARDING_ACTION_INFORMATION_3GPP", 166);
  ("PFCP_IE_NON_3GPP_ACCESS_FORWARDING_ACTION_INFORMATION", 167); ("PFCP_IE_REMOVE_MAR", 168);
  ("PFCP_IE_UPDATE_MAR", 169); ("PFCP_IE_MAR_ID", 170); ("PFCP_IE_STEERING_FUNCTIONALITY", 171);
  ("PFCP_IE_STEERING_MODE", 172); ("PFCP_IE_WEIGHT", 173); ("PFCP_IE_PRIORITY", 174);
  ("PFCP_IE_UPDATE_3GPP_ACCESS_FORWARDING_ACTION_INFORMATION", 175);
  ("PFCP_IE_UPDATE_NON_3GPP_ACCESS_FORWARDING_ACTION_INFORMATION", 176);
  ("PFCP_IE_UE_IP_ADDRESS_POOL_IDENTITY", 177); ("PFCP_IE_ALTERNATIVE_SMF_IP_ADDRESS", 178);
  ("PFCP_IE_PACKET_REPLICATION_AND_DETECTION_CARRY_ON_INFORMATION", 179);
  ("PFCP_IE_SMF_SET_ID", 180); ("PFCP_IE_QUOTA_VALIDITY_TIME", 181);
  ("PFCP_IE_NUMBER_OF_REPORTS", 182); ("PFCP_IE_PFCP_SESSION_RETENTION_INFORMATION", 183);
  ("PFCP_IE_PFCPASRSP_FLAGS", 184); ("PFCP_IE_CP_PFCP_ENTITY_IP_ADDRESS", 185);
  ("PFCP_IE_PFCPSEREQ_FLAGS", 186); ("PFCP_IE_USER_PLANE_PATH_RECOVERY_REPORT", 187);
  ("PFCP_IE_IP_MULTICAST_ADDRESSING_INFO", 188); ("PFCP_IE_JOIN_IP_MULTICAST_INFORMATION", 189);
  ("PFCP_IE_LEAVE_IP_MULTICAST_INFORMATION", 190); ("PFCP_IE_IP_MULTICAST_ADDRESS", 191);
  ("PFCP_IE_SOURCE_IP_ADDRESS", 192); ("PFCP_IE_PACKET_RATE_STATUS", 193);
  ("PFCP_IE_CREATE_BRIDGE__ROUTER_INFO", 194); ("PFCP_IE_CREATED_BRIDGE__ROUTER_INFO", 195);
  ("PFCP_IE_PORT_NUMBER", 196); ("PFCP_IE_NW_TT_PORT_NUMBER", 197);
  ("PFCP_IE_USER_PLANE_NODE_ID_5GS", 198); ("PFCP_IE_TSC_MANAGEMENT_INFORMATION_MOD_REQ", 199);
  ("PFCP_IE_TSC_MANAGEMENT_INFORMATION_MOD_RSP", 200);
  ("PFCP_IE_TSC_MANAGEMENT_INFORMATION_REPORT_REQ", 201);
  ("PFCP_IE_PORT_MANAGEMENT_INFORMATION_CONTAINER", 202);
  ("PFCP_IE_CLOCK_DRIFT_CONTROL_INFORMATION", 203);
  ("PFCP_IE_REQUESTED_CLOCK_DRIFT_INFORMATION", 204); ("PFCP_IE_CLOCK_DRIFT_REPORT", 205);
  ("PFCP_IE_TIME_DOMAIN_NUMBER", 206); ("PFCP_IE_TIME_OFFSET_THRESHOLD", 207);
  ("PFCP_IE_CUMULATIVE_RATERATIO_THRESHOLD", 208); ("PFCP_IE_TIME_OFFSET_MEASUREMENT", 209);
  ("PFCP_IE_CUMULATIVE_RATERATIO_MEASUREMENT", 210); ("PFCP_IE_REMOVE_SRR", 211);
  ("PFCP_IE_CREATE_SRR", 212); ("PFCP_IE_UPDATE_SRR", 213); ("PFCP_IE_SESSION_REPORT", 214);
  ("PFCP_IE_SRR_ID", 215); ("PFCP_IE_ACCESS_AVAILABILITY_CONTROL_INFORMATION", 216);
  ("PFCP_IE_REQUESTED_ACCESS_AVAILABILITY_INFORMATION", 217);
  ("PFCP_IE_ACCESS_AVAILABILITY_REPORT", 218); ("PFCP_IE_ACCESS_AVAILABILITY_INFORMATION", 219);
  ("PFCP_IE_PROVIDE_ATSSS_CONTROL_INFORMATION", 220); ("PFCP_IE_ATSSS_CONTROL_PARAMETERS", 221);
  ("PFCP_IE_MPTCP_CONTROL_INFORMATION", 222); ("PFCP_IE_ATSSS_LL_CONTROL_INFORMATION", 223);
  ("PFCP_IE_PMF_CONTROL_INFORMATION", 224); ("PFCP_IE_MPTCP_PARAMETERS", 225);
  ("PFCP_IE_ATSSS_LL_PARAMETERS", 226); ("PFCP_IE_PMF_PARAMETERS", 227);
  ("PFCP_IE_MPTCP_ADDRESS_INFORMATION", 228);
  ("PFCP_IE_LINK_SPECIFIC_MULTIPATH_IP_ADDRESS", 229); ("PFCP_IE_PMF_ADDRESS_INFORMATION", 230);
  ("PFCP_IE_ATSSS_LL_INFORMATION", 231); ("PFCP_IE_DATA_NETWORK_ACCESS_IDENTIFIER", 232);
  ("PFCP_IE_UE_IP_ADDRESS_POOL_INFORMATION", 233); ("PFCP_IE_AVERAGE_PACKET_DELAY", 234);
  ("PFCP_IE_MINIMUM_PACKET_DELAY", 235); ("PFCP_IE_MAXIMUM_PACKET_DELAY", 236);
  ("PFCP_IE_QOS_REPORT_TRIGGER", 237); ("PFCP_IE_GTP_U_PATH_QOS_CONTROL_INFORMATION", 238);
  ("PFCP_IE_GTP_U_PATH_QOS_REPORT", 239);
  ("PFCP_IE_QOS_INFORMATION_IN_GTP_U_PATH_QOS_REPORT", 240);
  ("PFCP_IE_GTP_U_PATH_INTERFACE_TYPE", 241);
  ("PFCP_IE_QOS_MONITORING_PER_QOS_FLOW_CONTROL_INFORMATION", 242);
  ("PFCP_IE_REQUESTED_QOS_MONITORING", 243); ("PFCP_IE_REPORTING_FREQUENCY", 244);
  ("PFCP_IE_PACKET_DELAY_THRESHOLDS", 245); ("PFCP_IE_MINIMUM_WAIT_TIME", 246);
  ("PFCP_IE_QOS_MONITORING_REPORT", 247); ("PFCP_IE_QOS_MONITORING_MEASUREMENT", 248);
  ("PFCP_IE_MT_EDT_CONTROL_INFORMATION", 249); ("PFCP_IE_DL_DATA_PACKETS_SIZE", 250);
  ("PFCP_IE_QER_CONTROL_INDICATIONS", 251); ("PFCP_IE_PACKET_RATE_STATUS_REPORT", 252);
  ("PFCP_IE_NF_INSTANCE_ID", 253); ("PFCP_IE_ETHERNET_CONTEXT_INFORMATION", 254);
  ("PFCP_IE_REDUNDANT_TRANSMISSION_PARAMETERS", 255); ("PFCP_IE_UPDATED_PDR", 256);
  ("PFCP_IE_S_NSSAI", 257); ("PFCP_IE_IP_VERSION", 258); ("PFCP_IE_PFCPASREQ_FLAGS", 259);
  ("PFCP_IE_DATA_STATUS", 260); ("PFCP_IE_PROVIDE_RDS_CONFIGURATION_INFORMATION", 261);
  ("PFCP_IE_RDS_CONFIGURATION_INFORMATION", 262); ("PFCP_IE_QUERY_PACKET_RATE_STATUS", 263);
  ("PFCP_IE_PACKET_RATE_STATUS_REPORT_IN_SESSION_MOD_RSP", 264);
  ("PFCP_IE_MULTIPATH_APPLICABLE_INDICATION", 265);
  ("PFCP_IE_USER_PLANE_NODE_MANAGEMENT_INFORMATION_CONTAINER", 266);
  ("PFCP_IE_UE_IP_ADDRESS_USAGE_INFORMATION", 267); ("PFCP_IE_NUMBER_OF_UE_IP_ADDRESSES", 268);
  ("PFCP_IE_VALIDITY_TIMER", 269); ("PFCP_IE_REDUNDANT_TRANSMISSION_FORWARDING_PARAMETERS", 270);
  ("PFCP_IE_TRANSPORT_DELAY_REPORTING", 271); ("PFCP_IE_PARTIAL_FAILURE_INFORMATION_", 272);
  ("PFCP_IE_SPARE", 273); ("PFCP_IE_OFFENDING_IE_INFORMATION", 274); ("PFCP_IE_RAT_TYPE", 275);
  ("PFCP_IE_L2TP_TUNNEL_INFORMATION", 276); ("PFCP_IE_L2TP_SESSION_INFORMATION", 277);
  ("PFCP_IE_L2TP_USER_AUTHENTICATION", 278); ("PFCP_IE_CREATED_L2TP_SESSION", 279);
  ("PFCP_IE_LNS_ADDRESS", 280); ("PFCP_IE_TUNNEL_PREFERENCE", 281);
  ("PFCP_IE_CALLING_NUMBER", 282); ("PFCP_IE_CALLED_NUMBER", 283);
  ("PFCP_IE_L2TP_SESSION_INDICATIONS", 284); ("PFCP_IE_DNS_SERVER_ADDRESS", 285);
  ("PFCP_IE_NBNS_SERVER_ADDRESS", 286); ("PFCP_IE_MAXIMUM_RECEIVE_UNIT", 287);
  ("PFCP_IE_THRESHOLDS", 288); ("PFCP_IE_STEERING_MODE_INDICATOR", 289);
  ("PFCP_IE_PFCP_SESSION_CHANGE_INFO", 290); ("PFCP_IE_GROUP_ID", 291);
  ("PFCP_IE_CP_IP_ADDRESS", 292); ("PFCP_IE_IP_ADDRESS_AND_PORT_NUMBER_REPLACEMENT", 293);
  ("PFCP_IE_DNS_QUERY_RESPONSE_FILTER", 294); ("PFCP_IE_DIRECT_REPORTING_INFORMATION", 295);
  ("PFCP_IE_EVENT_NOTIFICATION_URI", 296); ("PFCP_IE_NOTIFICATION_CORRELATION_ID", 297);
  ("PFCP_IE_REPORTING_FLAGS", 298); ("PFCP_IE_PREDEFINED_RULES_NAME", 299);
  ("PFCP_IE_MBS_SESSION_N4MB_CONTROL_INFORMATION", 300)].

Definition ie_types_3 : list (string * Z) := [
  ("PFCP_IE_MBS_MULTICAST_PARAMETERS", 301); ("PFCP_IE_ADD_MBS_UNICAST_PARAMETERS", 302);
  ("PFCP_IE_MBS_SESSION_N4MB_INFORMATION", 303); ("PFCP_IE_REMOVE_MBS_UNICAST_PARAMETERS", 304);
  ("PFCP_IE_MBS_SESSION_IDENTIFIER", 305); ("PFCP_IE_MULTICAST_TRANSPORT_INFORMATION", 306);
  ("PFCP_IE_MBSN4MBREQ_FLAGS", 307); ("PFCP_IE_LOCAL_INGRESS_TUNNEL", 308);
  ("PFCP_IE_MBS_UNICAST_PARAMETERS_ID", 309);
  ("PFCP_IE_MBS_SESSION_N4_CONTROL_INFORMATION", 310);
  ("PFCP_IE_MBS_SESSION_N4_INFORMATION", 311); ("PFCP_IE_MBSN4RESP_FLAGS", 312);
  ("PFCP_IE_TUNNEL_PASSWORD", 313); ("PFCP_IE_AREA_SESSION_ID", 314);
  ("PFCP_IE_PEER_UP_RESTART_REPORT", 315); ("PFCP_IE_DSCP_TO_PPI_CONTROL_INFORMATION", 316);
  ("PFCP_IE_DSCP_TO_PPI_MAPPING_INFORMATION", 317); ("PFCP_IE_PFCPSDRSP_FLAGS", 318);
  ("PFCP_IE_QER_INDICATIONS", 319); ("PFCP_IE_VENDOR_SPECIFIC_NODE_REPORT_TYPE", 320);
  ("PFCP_IE_CONFIGURED_TIME_DOMAIN", 321); ("PFCP_IE_METADATA", 322);
  ("PFCP_IE_TRAFFIC_PARAMETER_MEASUREMENT_CONTROL_INFORMATION", 323);
  ("PFCP_IE_TRAFFIC_PARAMETER_MEASUREMENT_REPORT", 324);
  ("PFCP_IE_TRAFFIC_PARAMETER_THRESHOLD", 325); ("PFCP_IE_DL_PERIODICITY", 326);
  ("PFCP_IE_N6_JITTER_MEASUREMENT", 327);
  ("PFCP_IE_TRAFFIC_PARAMETER_MEASUREMENT_INDICATION", 328); ("PFCP_IE_UL_PERIODICITY", 329);
  ("PFCP_IE_MPQUIC_CONTROL_INFORMATION", 330); ("PFCP_IE_MPQUIC_PARAMETERS", 331);
  ("PFCP_IE_MPQUIC_ADDRESS_INFORMATION", 332); ("PFCP_IE_TRANSPORT_MODE", 333);
  ("PFCP_IE_PROTOCOL_DESCRIPTION", 334); ("PFCP_IE_REPORTING_SUGGESTION_INFO", 335);
  ("PFCP_IE_TL_CONTAINER", 336); ("PFCP_IE_MEASUREMENT_INDICATION", 337);
  ("PFCP_IE_HPLMN_S_NSSAI", 338); ("PFCP_IE_MEDIA_TRANSPORT_PROTOCOL", 339);
  ("PFCP_IE_RTP_HEADER_EXTENSION_INFORMATION", 340); ("PFCP_IE_RTP_PAYLOAD_INFORMATION", 341);
  ("PFCP_IE_RTP_HEADER_EXTENSION_TYPE", 342); ("PFCP_IE_RTP_HEADER_EXTENSION_ID", 343);
  ("PFCP_IE_RTP_PAYLOAD_TYPE", 344); ("PFCP_IE_RTP_PAYLOAD_FORMAT", 345);
  ("PFCP_IE_EXTENDED_DL_BUFFERING_NOTIFICATION_POLICY", 346);
  ("PFCP_IE_MT_SDT_CONTROL_INFORMATION", 347); ("PFCP_IE_REPORTING_THRESHOLDS", 348);
  ("PFCP_IE_RTP_HEADER_EXTENSION_ADDITIONAL_INFORMATION", 349);
  ("PFCP_IE_MAPPED_N6_IP_ADDRESS", 350); ("PFCP_IE_N6_ROUTING_INFORMATION", 351)].

Definition ie_types : list (string * Z) := ie_types_1 ++ ie_types_2 ++ ie_types_3.

Definition causes : list (string * Z) := [
  ("CAUSE_REQUEST_ACCEPTED", 1); ("CAUSE_MORE_USAGE_REPORT_TO_SEND", 2);
  ("CAUSE_REQUEST_PARTIALLY_ACCEPTED", 3); ("CAUSE_REQUEST_REJECTED", 64);
  ("CAUSE_SESSION_CONTEXT_NOT_FOUND", 65); ("CAUSE_MANDATORY_IE_MISSING", 66);
  ("CAUSE_CONDITIONAL_IE_MISSING", 67); ("CAUSE_INVALID_LENGTH", 68);
  ("CAUSE_MANDATORY_IE_INCORRECT", 69); ("CAUSE_INVALID_FORWARDING_POLICY", 70);
  ("CAUSE_INVALID_FTEID_ALLOCATION_OPTION", 71); ("CAUSE_NO_ESTABLISHED_PFCP_ASSOCIATION", 72);
  ("CAUSE_RULE_CREATION_MODIFICATION_FAILURE", 73); ("CAUSE_PFCP_ENTITY_IN_CONGESTION", 74);
  ("CAUSE_NO_RESOURCES_AVAILABLE", 75); ("CAUSE_SERVICE_NOT_SUPPORTED", 76);
  ("CAUSE_SYSTEM_FAILURE", 77); ("CAUSE_REDIRECTION_REQUESTED", 78);
  ("CAUSE_ALL_DYNAMIC_ADDRESSES_ARE_OCCUPIED", 79); ("CAUSE_UNKNOWN_PRE_DEFINED_RULE", 80);
  ("CAUSE_UNKNOWN_APPLICATION_ID", 81); ("CAUSE_L2TP_TUNNEL_ESTABLISHMENT_FAILURE", 82);
  ("CAUSE_L2TP_SESSION_ESTABLISHMENT_FAILURE", 83); ("CAUSE_L2TP_TUNNEL_RELEASE", 84);
  ("CAUSE_L2TP_SESSION_RELEASE", 85); ("CAUSE_PFCP_SESSION_RESTORATION_FAILURE", 86);
  ("CAUSE_L2TP_TUNNEL_AUTH_FAILURE", 87); ("CAUSE_L2TP_SESSION_AUTH_FAILURE", 88);
  ("CAUSE_L2TP_TUNNEL_LNS_NOT_REACHABLE", 89)].

(** The constants the other files use, under the names they have there. *)
Definition used_message_types : list (string * Z) := [
  ("PFCP_HEARTBEAT_REQ", PFCP_HEARTBEAT_REQ); ("PFCP_HEARTBEAT_RSP", PFCP_HEARTBEAT_RSP);
  ("PFCP_ASSOCIATION_SETUP_REQ", PFCP_ASSOCIATION_SETUP_REQ);
  ("PFCP_ASSOCIATION_SETUP_RSP", PFCP_ASSOCIATION_SETUP_RSP);
  ("PFCP_SESSION_ESTABLISHMENT_REQ", PFCP_SESSION_ESTABLISHMENT_REQ);
  ("PFCP_SESSION_ESTABLISHMENT_RSP", PFCP_SESSION_ESTABLISHMENT_RSP);
  ("PFCP_SESSION_MODIFICATION_REQ", PFCP_SESSION_MODIFICATION_REQ);
  ("PFCP_SESSION_MODIFICATION_RSP", PFCP_SESSION_MODIFICATION_RSP);
  ("PFCP_SESSION_DELETION_REQ", PFCP_SESSION_DELETION_REQ);
  ("PFCP_SESSION_DELETION_RSP", PFCP_SESSION_DELETION_RSP);
  ("PFCP_SESSION_REPORT_REQ", PFCP_SESSION_REPORT_REQ);
  ("PFCP_SESSION_REPORT_RSP", PFCP_SESSION_REPORT_RSP)].

Definition used_ie_types : list (string * Z) := [
  ("PFCP_IE_CREATE_PDR", PFCP_IE_CREATE_PDR); ("PFCP_IE_PDI", PFCP_IE_PDI);
  ("PFCP_IE_CREATE_FAR", PFCP_IE_CREATE_FAR);
  ("PFCP_IE_FORWARDING_PARAMETERS", PFCP_IE_FORWARDING_PARAMETERS);
  ("PFCP_IE_CREATE_URR", PFCP_IE_CREATE_URR); ("PFCP_IE_CREATE_QER", PFCP_IE_CREATE_QER);
  ("PFCP_IE_CREATED_PDR", PFCP_IE_CREATED_PDR); ("PFCP_IE_UPDATE_PDR", PFCP_IE_UPDATE_PDR);
  ("PFCP_IE_UPDATE_FAR", PFCP_IE_UPDATE_FAR);
  ("PFCP_IE_UPDATE_FORWARDING_PARAMETERS", PFCP_IE_UPDATE_FORWARDING_PARAMETERS);
  ("PFCP_IE_UPDATE_URR", PFCP_IE_UPDATE_URR); ("PFCP_IE_REMOVE_PDR", PFCP_IE_REMOVE_PDR);
  ("PFCP_IE_REMOVE_FAR", PFCP_IE_REMOVE_FAR); ("PFCP_IE_CAUSE", PFCP_IE_CAUSE);
  ("PFCP_IE_SOURCE_INTERFACE", PFCP_IE_SOURCE_INTERFACE); ("PFCP_IE_FTEID", PFCP_IE_FTEID);
  ("PFCP_IE_SDF_FILTER", PFCP_IE_SDF_FILTER); ("PFCP_IE_PRECEDENCE", PFCP_IE_PRECEDENCE);
  ("PFCP_IE_VOLUME_THRESHOLD", PFCP_IE_VOLUME_THRESHOLD);
  ("PFCP_IE_REPORTING_TRIGGERS", PFCP_IE_REPORTING_TRIGGERS);
  ("PFCP_IE_REPORT_TYPE", PFCP_IE_REPORT_TYPE);
  ("PFCP_IE_DESTINATION_INTERFACE", PFCP_IE_DESTINATION_INTERFACE);
  ("PFCP_IE_UP_FUNCTION_FEATURES", PFCP_IE_UP_FUNCTION_FEATURES);
  ("PFCP_IE_APPLY_ACTION", PFCP_IE_APPLY_ACTION); ("PFCP_IE_PDR_ID", PFCP_IE_PDR_ID);
  ("PFCP_IE_FSEID", PFCP_IE_FSEID); ("PFCP_IE_NODE_ID", PFCP_IE_NODE_ID);
  ("PFCP_IE_MEASUREMENT_METHOD", PFCP_IE_MEASUREMENT_METHOD);
  ("PFCP_IE_USAGE_REPORT_TRIGGER", PFCP_IE_USAGE_REPORT_TRIGGER);
  ("PFCP_IE_MEASUREMENT_PERIOD", PFCP_IE_MEASUREMENT_PERIOD);
  ("PFCP_IE_VOLUME_MEASUREMENT", PFCP_IE_VOLUME_MEASUREMENT);
  ("PFCP_IE_USAGE_REPORT_IN_SESS_MEL_RSP", PFCP_IE_USAGE_REPORT_IN_SESS_MEL_RSP);
  ("PFCP_IE_USAGE_REPORT_IN_SESS_RPT_REQ", PFCP_IE_USAGE_REPORT_IN_SESS_RPT_REQ);
  ("PFCP_IE_URR_ID", PFCP_IE_URR_ID);
  ("PFCP_IE_OUTER_HEADER_CREATION", PFCP_IE_OUTER_HEADER_CREATION);
  ("PFCP_IE_CREATE_BAR", PFCP_IE_CREATE_BAR);
  ("PFCP_IE_CP_FUNCTION_FEATURES", PFCP_IE_CP_FUNCTION_FEATURES);
  ("PFCP_IE_UE_IP_ADDRESS", PFCP_IE_UE_IP_ADDRESS);
  ("PFCP_IE_OUTER_HEADER_REMOVAL", PFCP_IE_OUTER_HEADER_REMOVAL);
  ("PFCP_IE_RECOVERY_TIME_STAMP", PFCP_IE_RECOVERY_TIME_STAMP);
  ("PFCP_IE_UR_SEQN", PFCP_IE_UR_SEQN); ("PFCP_IE_FAR_ID", PFCP_IE_FAR_ID)].

(** A name that ends in [suffix]. *)
Definition ends_in (suffix name : string) : bool :=
  let n := (String.length name - String.length suffix)%nat in
  String.eqb (String.substring n (String.length suffix) name) suffix.

Definition of_number (n : Z) (table : list (string * Z)) : list string :=
  fst <$> List.filter (λ e, e.2 =? n) table.

(** The registers are consistent: the information elements number 1 to 351,
    each type once; no two message types and no two causes have a number in
    common, and no two constants a name; a request type is followed by the
    type of its response, which is what the simulator's [req_type + 1] relies
    on, and a response other than Version Not Supported follows its request;
    every type of the dictionary is registered, each message under its own
    key; and the constants the program uses have the registered values. *)
Theorem registers_consistent :
  (snd <$> ie_types) = seqZ 1 351 ∧
  NoDup (snd <$> message_types) ∧ NoDup (snd <$> causes) ∧
  NoDup (fst <$> message_types ++ ie_types ++ causes) ∧
  Forall (λ e, ends_in "_REQ" e.1 = true →
    Exists (λ name, ends_in "_RSP" name = true) (of_number (e.2 + 1) message_types)) message_types ∧
  Forall (λ e, ends_in "_RSP" e.1 = true → e.2 ≠ 11 →
    Exists (λ name, ends_in "_REQ" name = true) (of_number (e.2 - 1) message_types)) message_types ∧
  map_Forall (λ t spec, ms_type spec = t ∧ t ∈ snd <$> message_types ∧
    Forall (λ ie, is_type ie ∈ snd <$> ie_types) (ms_ies spec)) PFCP_DICT ∧
  used_message_types ⊆ message_types ∧ used_ie_types ⊆ ie_types.
Proof.
  split; [vm_compute; reflexivity|].
  do 6 (split; [apply (bool_decide_unpack _); vm_compute; exact I|]).
  split; apply (bool_decide_unpack _); vm_compute; exact I.
Qed.
