(* ===== verification/Common.v ===== *)
(** * Shared map keys and values ([upf-edge-common/src/lib.rs])

    The [repr(C)] keys and values user space and the XDP programs exchange
    through eBPF maps, the composition of the 64-bit keys, and the interface
    of the maps themselves.  The maps are kernel objects behind the [aya]
    crates: their operations are the methods of the classes below and what the
    program relies on are the laws of those classes. *)

From S2P Require Import Prelude.

Definition IFACE_ACCESS : Z := 0.
Definition IFACE_CORE : Z := 1.
Definition ACTION_DROP : Z := 1.
Definition ACTION_FORW : Z := 2.
Definition ACTION_BUFF : Z := 4.
Definition GTP_UDP_PORT : Z := 2152.
Definition MAX_PDR_PER_SESSION : nat := 8.

(** A [SessionKey] is its only field, the UE address as the 32-bit integer whose
    memory is the address in network order. *)
Definition SessionKey : Type := Z.

(** [(seid << 16) | (id as u64 & 0xFFFF)] in 64 bits: the body of the three
    constructors [PdrKey::new], [FarKey::new] and [UrrKey::new]. *)
Definition compose_key (seid id : Z) : Z :=
  Z.lor (wrap 64 (Z.shiftl seid 16)) (Z.land id 65535).

Definition PdrKey_new (seid pdr_id : Z) : Z := compose_key seid pdr_id.
Definition FarKey_new (seid far_id : Z) : Z := compose_key seid far_id.
Definition UrrKey_new (seid urr_id : Z) : Z := compose_key seid urr_id.

Record PdrValue := mkPdrValue {
  pv_precedence : Z;
  pv_source_interface : Z;
  pv_ue_ip : Z;
  pv_qfi : Z;
  pv_far_id : Z;
  pv_qer_id : Z;
  pv_urr_id : Z;
  pv_outer_header_removal : Z;
  pv_sdf_proto : Z;
  pv_sdf_src_ip : Z;
  pv_sdf_dst_ip : Z;
  pv_sdf_src_port : Z;
  pv_sdf_dst_port : Z;
}.

Record SessionInfo := mkSessionInfo {
  si_seid : Z;
  si_teid : Z;
  si_gnb_ip : Z;
  si_upf_ip : Z;
  si_pdr_ids : list Z;     (* [u32; MAX_PDR_PER_SESSION] *)
  si_pdr_count : Z;
}.

Record FarValue := mkFarValue {
  fv_apply_action : Z;
  fv_dst_interface : Z;
  fv_gnb_ip : Z;
  fv_teid : Z;
  fv_upf_n3_ip : Z;
}.

Record UrrStats := mkUrrStats {
  ul_bytes : Z; ul_packets : Z; dl_bytes : Z; dl_packets : Z;
}.

Record SessionStats := mkSessionStats {
  rx_bytes : Z; rx_packets : Z; tx_bytes : Z; tx_packets : Z;
}.

(** The kernel zeroes fresh memory. *)
#[export] Instance UrrStats_zero : Inhabited UrrStats := populate (mkUrrStats 0 0 0 0).
#[export] Instance SessionStats_zero : Inhabited SessionStats := populate (mkSessionStats 0 0 0 0).

#[export] Instance PdrValue_eq_dec : EqDecision PdrValue.
Proof. solve_decision. Defined.
#[export] Instance SessionInfo_eq_dec : EqDecision SessionInfo.
Proof. solve_decision. Defined.
#[export] Instance FarValue_eq_dec : EqDecision FarValue.
Proof. solve_decision. Defined.

(** ** eBPF maps

    A hash map: [insert] may be refused by the kernel (the map is full) and
    [remove] fails on an absent key; both then leave the map as it was. *)
Class BpfMap (M : Type → Type) := {
  bpf_get {V} : M V → Z → option V;
  bpf_insert {V} : M V → Z → V → option (M V);
  bpf_remove {V} : M V → Z → option (M V);
}.

Class BpfMapLaws (M : Type → Type) `{BpfMap M} := {
  get_insert {V} (m m' : M V) k v j :
    bpf_insert m k v = Some m' → bpf_get m' j = if decide (k = j) then Some v else bpf_get m j;
  get_remove {V} (m m' : M V) k j :
    bpf_remove m k = Some m' → bpf_get m' j = if decide (k = j) then None else bpf_get m j;
  remove_absent {V} (m : M V) k : bpf_remove m k = None ↔ bpf_get m k = None;
}.

(** [let _ = map.insert(..)] and [map.remove(..).ok()]: the result is ignored. *)
Definition insert_ {M} `{BpfMap M} {V} (m : M V) (k : Z) (v : V) : M V :=
  default m (bpf_insert m k v).

Definition remove_ {M} `{BpfMap M} {V} (m : M V) (k : Z) : M V := default m (bpf_remove m k).

(** A per-CPU hash map: an entry has one slot for each of the [pc_cpus] CPUs.
    [pc_values] is what user space reads, [pc_write] a store through the
    pointer [get_ptr_mut] returns on CPU [c], [pc_insert] an insertion by CPU
    [c] of an absent key, which zeroes the slots of the other CPUs, and
    [pc_insert_all] the insertion of all slots by user space. *)
Class PerCpuMap (P : Type → Type) := {
  pc_cpus : nat;
  pc_values {V} : P V → Z → option (list V);
  pc_write {V} : P V → nat → Z → V → P V;
  pc_insert {V} `{Inhabited V} : P V → nat → Z → V → option (P V);
  pc_insert_all {V} : P V → Z → list V → option (P V);
  pc_remove {V} : P V → Z → option (P V);
}.

Definition pc_get {P} `{PerCpuMap P} {V} (m : P V) (c : nat) (k : Z) : option V :=
  vs ← pc_values m k; vs !! c.

Class PerCpuMapLaws (P : Type → Type) `{PerCpuMap P} := {
  values_length {V} (m : P V) k vs : pc_values m k = Some vs → length vs = pc_cpus;
  values_write {V} (m : P V) c k v vs j :
    pc_values m k = Some vs →
    pc_values (pc_write m c k v) j = if decide (k = j) then Some (<[c := v]> vs) else pc_values m j;
  values_insert {V} `{Inhabited V} (m m' : P V) c k v j :
    pc_insert m c k v = Some m' → pc_values m k = None →
    pc_values m' j =
      if decide (k = j) then Some (<[c := v]> (replicate pc_cpus inhabitant)) else pc_values m j;
  values_insert_all {V} (m m' : P V) k vs j :
    pc_insert_all m k vs = Some m' →
    pc_values m' j = if decide (k = j) then Some vs else pc_values m j;
  values_remove {V} (m m' : P V) k j :
    pc_remove m k = Some m' → pc_values m' j = if decide (k = j) then None else pc_values m j;
  pc_remove_absent {V} (m : P V) k : pc_remove m k = None ↔ pc_values m k = None;
}.

(** The kernel's array maps have all their entries from the start. *)
Class BpfArray (A : Type → Type) := {
  arr_get {V} : A V → Z → option V;
  arr_set {V} : A V → Z → V → option (A V);
}.

(** ** The maps of the program ([upf-edge-ebpf/src/main.rs])

    [SESSION_MAP], [PDR_MAP], [FAR_MAP], [IF_INDEX], [GW_MAC], [STATS_MAP] and
    [URR_MAP]: written by the server, read and counted into by the XDP
    programs. *)
Record Maps (M P A : Type → Type) := mkMaps {
  SESSION_MAP : M SessionInfo;
  PDR_MAP : M PdrValue;
  FAR_MAP : M FarValue;
  IF_INDEX : A Z;
  GW_MAC : A (list Z);
  STATS_MAP : P SessionStats;
  URR_MAP : P UrrStats;
}.
Arguments mkMaps {M P A} _ _ _ _ _ _ _.
Arguments SESSION_MAP {M P A} _.
Arguments PDR_MAP {M P A} _.
Arguments FAR_MAP {M P A} _.
Arguments IF_INDEX {M P A} _.
Arguments GW_MAC {M P A} _.
Arguments STATS_MAP {M P A} _.
Arguments URR_MAP {M P A} _.

Section setters.
Context {M P A : Type → Type}.
Implicit Types m : Maps M P A.

Definition set_session_map v m := mkMaps v (PDR_MAP m) (FAR_MAP m) (IF_INDEX m) (GW_MAC m)
  (STATS_MAP m) (URR_MAP m).
Definition set_pdr_map v m := mkMaps (SESSION_MAP m) v (FAR_MAP m) (IF_INDEX m) (GW_MAC m)
  (STATS_MAP m) (URR_MAP m).
Definition set_far_map v m := mkMaps (SESSION_MAP m) (PDR_MAP m) v (IF_INDEX m) (GW_MAC m)
  (STATS_MAP m) (URR_MAP m).
Definition set_stats_map v m := mkMaps (SESSION_MAP m) (PDR_MAP m) (FAR_MAP m) (IF_INDEX m)
  (GW_MAC m) v (URR_MAP m).
Definition set_urr_map v m := mkMaps (SESSION_MAP m) (PDR_MAP m) (FAR_MAP m) (IF_INDEX m)
  (GW_MAC m) (STATS_MAP m) v.
End setters.

(** ** The key composition *)

Lemma compose_key_eq seid id :
  0 ≤ seid < 2 ^ 48 → compose_key seid id = seid * 65536 + id mod 65536.
Proof.
  intros Hs. unfold compose_key, wrap. change 65535 with (Z.ones 16).
  rewrite Z.land_ones, Z.shiftl_mul_pow2 by lia. change (2 ^ 16) with 65536.
  rewrite Z.mod_small by (change (2 ^ 64) with (2 ^ 48 * 65536); lia).
  assert (Hd : Z.land (seid * 65536) (id mod 65536) = 0).
  { change 65536 with (2 ^ 16). rewrite <-Z.shiftl_mul_pow2 by lia.
    apply Z.bits_inj'. intros n Hn. rewrite Z.land_spec, Z.bits_0.
    destruct (Z.ltb_spec n 16).
    - by rewrite Z.shiftl_spec_low.
    - rewrite Z.mod_pow2_bits_high by lia. apply andb_false_r. }
  pose proof (Z.add_lor_land (seid * 65536) (id mod 65536)). lia.
Qed.

Lemma compose_key_separates s1 i1 s2 i2 :
  0 ≤ s1 < 2 ^ 48 → 0 ≤ s2 < 2 ^ 48 →
  (compose_key s1 i1 = compose_key s2 i2 ↔ s1 = s2 ∧ i1 mod 65536 = i2 mod 65536) ∧
  (u16 i1 → u16 i2 → compose_key s1 i1 = compose_key s2 i2 → s1 = s2 ∧ i1 = i2) ∧
  compose_key s1 (i1 + 65536) = compose_key s1 i1.
Proof.
  intros H1 H2. rewrite !compose_key_eq by done.
  pose proof (Z.mod_pos_bound i1 65536). pose proof (Z.mod_pos_bound i2 65536).
  split; [|split].
  - split; [intros|intros [-> ->]; done]. lia.
  - intros Hi1 Hi2. rewrite !(Z.mod_small i1), !(Z.mod_small i2) by uint. unfold u16 in *. lia.
  - f_equal. by rewrite <-(Z.mul_1_l 65536) at 1; rewrite Z.mod_add by lia.
Qed.

(** C40. For PDRs, FARs and URRs alike, the composed 64-bit key is the same for
    two rules of local SEIDs below 2^48 exactly when they belong to the same
    session and their identifiers agree modulo 2^16: 16-bit identifiers never
    collide, while the 32-bit FAR and URR identifiers the parser accepts do. *)
Theorem compose_key_injective s1 i1 s2 i2 :
  0 ≤ s1 < 2 ^ 48 → 0 ≤ s2 < 2 ^ 48 →
  Forall (λ key,
    (key s1 i1 = key s2 i2 ↔ s1 = s2 ∧ i1 mod 65536 = i2 mod 65536) ∧
    (u16 i1 → u16 i2 → key s1 i1 = key s2 i2 → s1 = s2 ∧ i1 = i2) ∧
    key s1 (i1 + 65536) = key s1 i1) [PdrKey_new; FarKey_new; UrrKey_new].
Proof.
  intros H1 H2. pose proof (compose_key_separates s1 i1 s2 i2 H1 H2) as H.
  exact (Forall_cons_2 _ _ _ H (Forall_cons_2 _ _ _ H (Forall_cons_2 _ _ _ H (Forall_nil_2 _)))).
Qed.

Lemma compose_key_injective_witness :
  (PdrKey_new 5 1 ≠ PdrKey_new 6 1 ∧ FarKey_new 5 1 ≠ FarKey_new 6 1 ∧
   UrrKey_new 5 1 ≠ UrrKey_new 6 1) ∧
  PdrKey_new 5 65537 = PdrKey_new 5 1 ∧ FarKey_new 5 65537 = FarKey_new 5 1 ∧
  UrrKey_new 5 65537 = UrrKey_new 5 1.
Proof.
  pose proof (compose_key_injective 5 1 6 1 ltac:(lia) ltac:(lia)) as H.
  apply Forall_cons_1 in H as [(Hp & _ & Cp) H]. apply Forall_cons_1 in H as [(Hf & _ & Cf) H].
  apply Forall_cons_1 in H as [(Hu & _ & Cu) _].
  split; [|exact (conj Cp (conj Cf Cu))].
  split; [intros E; apply Hp in E|split; [intros E; apply Hf in E|intros E; apply Hu in E]];
    destruct E as [E _]; discriminate E.
Defined.

(** ** A reference implementation of the maps

    Finite maps of bounded size, as the kernel's preallocated hash maps: used
    to instantiate the interface on concrete inputs. *)
Record bounded_map (V : Type) := mkBounded { bm_cap : nat; bm_map : gmap Z V }.
Arguments mkBounded {V} _ _.
Arguments bm_cap {V} _.
Arguments bm_map {V} _.

#[export] Instance bounded_bpf_map : BpfMap bounded_map := {
  bpf_get V m k := bm_map m !! k;
  bpf_insert V m k v :=
    if decide (is_Some (bm_map m !! k) ∨ (size (bm_map m) < bm_cap m)%nat)
    then Some (mkBounded (bm_cap m) (<[k:=v]> (bm_map m))) else None;
  bpf_remove V m k :=
    match bm_map m !! k with
    | Some _ => Some (mkBounded (bm_cap m) (delete k (bm_map m)))
    | None => None
    end;
}.

#[export] Instance bounded_bpf_map_laws : BpfMapLaws bounded_map.
Proof.
  split; simpl.
  - intros V m m' k v j H. case_decide as Hd; [|done]. injection H as <-. simpl.
    destruct (decide (k = j)) as [->|]; simplify_map_eq; done.
  - intros V m m' k j H. case_match; [|done]. injection H as <-. simpl.
    destruct (decide (k = j)) as [->|]; simplify_map_eq; done.
  - intros V m k. by destruct (bm_map m !! k).
Qed.

Definition ncpus : nat := 4.

Record slots (V : Type) := mkSlots { slot_list : list V; slot_count : length slot_list = ncpus }.
Arguments mkSlots {V} _ _.
Arguments slot_list {V} _.
Arguments slot_count {V} _.

Lemma slots_write_count {V} (s : slots V) c v : length (<[c := v]> (slot_list s)) = ncpus.
Proof. rewrite length_insert. apply slot_count. Qed.

Lemma slots_fresh_count {V} c (v z : V) : length (<[c := v]> (replicate ncpus z)) = ncpus.
Proof. by rewrite length_insert, length_replicate. Qed.

Record percpu_map (V : Type) := mkPerCpu { pm_cap : nat; pm_map : gmap Z (slots V) }.
Arguments mkPerCpu {V} _ _.
Arguments pm_cap {V} _.
Arguments pm_map {V} _.

#[export] Instance percpu_pc_map : PerCpuMap percpu_map := {
  pc_cpus := ncpus;
  pc_values V m k := slot_list <$> pm_map m !! k;
  pc_write V m c k v :=
    match pm_map m !! k with
    | Some s => mkPerCpu (pm_cap m)
        (<[k := mkSlots (<[c := v]> (slot_list s)) (slots_write_count s c v)]> (pm_map m))
    | None => m
    end;
  pc_insert V _ m c k v :=
    if decide (size (pm_map m) < pm_cap m)%nat
    then Some (mkPerCpu (pm_cap m)
      (<[k := mkSlots (<[c := v]> (replicate ncpus inhabitant)) (slots_fresh_count c v _)]>
         (pm_map m)))
    else None;
  pc_insert_all V m k vs :=
    match decide (length vs = ncpus) with
    | left Hvs =>
        if decide (is_Some (pm_map m !! k) ∨ (size (pm_map m) < pm_cap m)%nat)
        then Some (mkPerCpu (pm_cap m) (<[k := mkSlots vs Hvs]> (pm_map m))) else None
    | right _ => None
    end;
  pc_remove V m k :=
    match pm_map m !! k with
    | Some _ => Some (mkPerCpu (pm_cap m) (delete k (pm_map m)))
    | None => None
    end;
}.

#[export] Instance percpu_pc_map_laws : PerCpuMapLaws percpu_map.
Proof.
  split; simpl.
  - intros V m k vs H. apply fmap_Some in H as (s & _ & ->). apply slot_count.
  - intros V m c k v vs j H. apply fmap_Some in H as (s & Hs & ->). rewrite Hs. simpl.
    destruct (decide (k = j)) as [->|]; by simplify_map_eq.
  - intros V ? m m' c k v j H Hk. case_decide; [|done]. injection H as <-. simpl.
    destruct (decide (k = j)) as [->|]; by simplify_map_eq.
  - intros V m m' k vs j H. destruct (decide (length vs = ncpus)); [|done].
    case_decide; [|done]. injection H as <-. simpl.
    destruct (decide (k = j)) as [->|]; by simplify_map_eq.
  - intros V m m' k j H. case_match; [|done]. injection H as <-. simpl.
    destruct (decide (k = j)) as [->|]; by simplify_map_eq.
  - intros V m k. by destruct (pm_map m !! k).
Qed.

(** An array map. *)
Record array_map (V : Type) := mkArray { am_list : list V }.
Arguments mkArray {V} _.
Arguments am_list {V} _.

#[export] Instance array_bpf_array : BpfArray array_map := {
  arr_get V a i := if decide (0 ≤ i) then am_list a !! Z.to_nat i else None;
  arr_set V a i v :=
    if decide (0 ≤ i < Z.of_nat (length (am_list a)))
    then Some (mkArray (<[Z.to_nat i := v]> (am_list a))) else None;
}.
