(* ===== verification/Tests.v ===== *)
(** * The repository's own tests

    The tests of [pfcp-common], [upf-edge-common] and of the two terminals'
    command parsers, as statements about the model, under their names in the
    source: each is decided by evaluating the definitions. *)

From S2P Require Import Prelude Text Types Header Ie Builder Messages Dict Registry Common Commands.

Definition ipv4 (a b c d : Z) : Z := from_be_bytes [a; b; c; d].

(** A test passes when its assertions, in their order, come out true; an
    [unwrap] of an error fails it. *)
Definition unwrap {E A} (m : outcome E A) (test : A → bool) : bool :=
  match m with Ok a => test a | _ => false end.
Definition is_err {E A} (m : outcome E A) : bool := match m with Err _ => true | _ => false end.
Definition get {A} (l : list A) (i : nat) (test : A → bool) : bool :=
  match l !! i with Some a => test a | None => false end.
Definition same {A} `{EqDecision A} (a b : A) : bool := bool_decide (a = b).

Ltac passes := vm_compute; reflexivity.

(** ** [pfcp-common/src/header.rs] *)

Example node_header_roundtrip :
  let bytes := encode (new_node_msg 1 42) in
  same (length bytes) 8%nat &&
  unwrap (decode bytes) (λ '(decoded, body),
    (hdr_version decoded =? 1) && negb (hdr_s_flag decoded) && (hdr_msg_type decoded =? 1) &&
    (hdr_seq_num decoded =? 42) && same (hdr_seid decoded) None && same (length body) 0%nat) = true.
Proof. passes. Qed.

Example session_header_roundtrip :
  let bytes := encode (new_session_msg 50 3735928559 99) in
  same (length bytes) 16%nat &&
  unwrap (decode bytes) (λ '(decoded, _),
    hdr_s_flag decoded && (hdr_msg_type decoded =? 50) &&
    same (hdr_seid decoded) (Some 3735928559) && (hdr_seq_num decoded =? 99)) = true.
Proof. passes. Qed.

Example too_short_buffer : is_err (decode [32; 1; 0]) = true.
Proof. passes. Qed.

(** ** [pfcp-common/src/ie.rs] *)

Example test_iter_ies :
  let ies := iter_ies [0; 56; 0; 2; 0; 1; 0; 29; 0; 4; 0; 0; 0; 100] in
  same (length ies) 2%nat && get ies 0 (λ ie, ie_type ie =? PFCP_IE_PDR_ID) &&
  get ies 1 (λ ie, ie_type ie =? PFCP_IE_PRECEDENCE) = true.
Proof. passes. Qed.

Example test_parse_node_id :
  unwrap (parse_node_id [0; 10; 45; 0; 1]) (λ addr, addr =? ipv4 10 45 0 1) = true.
Proof. passes. Qed.

Example test_parse_fteid_choose :
  unwrap (parse_fteid [4; 0; 0; 0; 0]) (λ '(teid, addr), (teid =? 0) && (addr =? 0)) = true.
Proof. passes. Qed.

Example test_parse_ue_ip :
  unwrap (parse_ue_ip_address [2; 10; 45; 0; 100]) (λ addr, addr =? ipv4 10 45 0 100) = true.
Proof. passes. Qed.

Example test_truncated_ie : same (length (iter_ies [0; 56; 0; 10; 0; 1])) 0%nat = true.
Proof. passes. Qed.

Definition test_pdr (choose : bool) (ue_ip : option Z) (urr_id : option Z) (removal : bool) : PdrParams :=
  {| pp_pdr_id := 1; pp_precedence := 100; pp_source_interface := 0; pp_fteid_choose := choose;
     pp_ue_ip := ue_ip; pp_far_id := 1; pp_urr_id := urr_id; pp_outer_header_removal := removal;
     pp_sdf_filter := None |}.
Definition pdr_message (p : PdrParams) : outcome PfcpError (list Z) :=
  finish (add_create_pdr (msg_new (new_session_msg PFCP_SESSION_ESTABLISHMENT_REQ 0 1)) p).

Example test_pdr_with_urr_id_roundtrip :
  unwrap (pdr_message (test_pdr false None (Some 7) false)) (λ bytes,
    unwrap (decode bytes) (λ '(_, body),
      match find_ie PFCP_IE_CREATE_PDR (iter_ies body) with
      | Some pdr_ie => unwrap (parse_create_pdr (ie_value pdr_ie)) (λ parsed,
          same (pdr_urr_id parsed) (Some 7) && same (pdr_far_id parsed) (Some 1))
      | None => false
      end)) = true.
Proof. passes. Qed.

(** ** [pfcp-common/src/builder.rs] *)

Example heartbeat_response_roundtrip :
  unwrap (build_heartbeat_response (E:=PfcpError) 42 3836947456) (λ bytes,
    unwrap (decode bytes) (λ '(hdr, body),
      (hdr_msg_type hdr =? PFCP_HEARTBEAT_RSP) && (hdr_seq_num hdr =? 42) &&
      let ies := iter_ies body in
      same (length ies) 1%nat && get ies 0 (λ ie,
        unwrap (parse_recovery_timestamp (ie_value ie)) (λ ts, ts =? 3836947456)))) = true.
Proof. passes. Qed.

Example session_establishment_response_roundtrip :
  unwrap (build_session_establishment_response (E:=PfcpError) 7 43981 1 (ipv4 10 45 0 4)
    [(1, 1000, ipv4 10 45 0 3)]) (λ bytes,
    unwrap (decode bytes) (λ '(hdr, body),
      (hdr_msg_type hdr =? PFCP_SESSION_ESTABLISHMENT_RSP) && same (hdr_seid hdr) (Some 43981) &&
      same (length (iter_ies body)) 4%nat)) = true.
Proof. passes. Qed.

Example create_pdr_roundtrip :
  unwrap (pdr_message (test_pdr true (Some (ipv4 10 45 0 100)) None true)) (λ bytes,
    unwrap (decode bytes) (λ '(_, body),
      let ies := iter_ies body in
      same (length ies) 1%nat && get ies 0 (λ ie, (ie_type ie =? PFCP_IE_CREATE_PDR) &&
        unwrap (parse_create_pdr (ie_value ie)) (λ pdr,
          (pdr_id pdr =? 1) && (precedence pdr =? 100) && (source_interface pdr =? 0) &&
          same (ue_ip pdr) (Some (ipv4 10 45 0 100)) && same (pdr_far_id pdr) (Some 1) &&
          outer_header_removal pdr)))) = true.
Proof. passes. Qed.

Definition test_urr (urr_id triggers total : Z) : list Z :=
  let inner := append_ie [] PFCP_IE_URR_ID (to_be_bytes 4 urr_id) in
  let inner := append_ie inner PFCP_IE_MEASUREMENT_METHOD [MEASUREMENT_METHOD_VOLUM] in
  let inner := append_ie inner PFCP_IE_REPORTING_TRIGGERS [triggers; 0] in
  append_ie inner PFCP_IE_VOLUME_THRESHOLD (VOLUME_THRESHOLD_TOVOL :: to_be_bytes 8 total).

Example test_urr_build_parse_roundtrip :
  let inner := append_ie (test_urr 5 (Z.lor REPORTING_TRIGGER_PERIO REPORTING_TRIGGER_VOLTH) 1000000)
                 PFCP_IE_MEASUREMENT_PERIOD (to_be_bytes 4 60) in
  unwrap (parse_create_urr inner) (λ parsed,
    (urr_id parsed =? 5) && (measurement_method parsed =? MEASUREMENT_METHOD_VOLUM) &&
    (Z.land (reporting_triggers parsed) REPORTING_TRIGGER_PERIO =? REPORTING_TRIGGER_PERIO) &&
    (Z.land (reporting_triggers parsed) REPORTING_TRIGGER_VOLTH =? REPORTING_TRIGGER_VOLTH) &&
    same (volume_threshold_total parsed) (Some 1000000) && same (measurement_period parsed) (Some 60)) = true.
Proof. passes. Qed.

Example test_urr_volth_only :
  unwrap (parse_create_urr (test_urr 1 REPORTING_TRIGGER_VOLTH 500)) (λ parsed,
    same (volume_threshold_total parsed) (Some 500) && same (measurement_period parsed) None &&
    (Z.land (reporting_triggers parsed) REPORTING_TRIGGER_PERIO =? 0)) = true.
Proof. passes. Qed.

(** ** [pfcp-common/src/types.rs] *)

Example test_parse_pdr_with_sdf_filter :
  let pdi := [0; 20; 0; 1; 0] ++ [0; 93; 0; 5; 2; 192; 168; 100; 100] ++
    [0; 23; 0; 13; 6; 0; 0; 0; 0; 0; 0; 0; 0; 0; 0; 0; 0] in
  let outer := [0; 56; 0; 2; 0; 1] ++ [0; 29; 0; 4; 0; 0; 0; 100] ++
    [0; 2] ++ to_be_bytes 2 (wrap 16 (Z.of_nat (length pdi))) ++ pdi ++ [0; 108; 0; 4; 0; 0; 0; 1] in
  unwrap (parse_create_pdr outer) (λ pdr,
    match sdf_filter pdr with Some sdf => proto sdf =? 6 | None => false end) = true.
Proof. passes. Qed.

(** ** [pfcp-common/src/dict_ext.rs] *)

Example lookup_heartbeat :
  match dict_lookup PFCP_HEARTBEAT_REQ with
  | Some dictionary => same (ms_name dictionary) "Heartbeat Request"%string && same (length (ms_ies dictionary)) 1%nat
  | None => false
  end = true.
Proof. passes. Qed.

Example lookup_unknown_returns_none : dict_lookup 99 = None.
Proof. passes. Qed.

Example validate_association_setup_missing_node_id :
  let result := validate PFCP_ASSOCIATION_SETUP_REQ [0; 96; 0; 4; 0; 0; 0; 1] in
  negb (validation_is_ok result) && bool_decide ("Node ID"%string ∈ missing result) = true.
Proof. passes. Qed.

Example validate_heartbeat_empty_body_is_ok : validation_is_ok (validate PFCP_HEARTBEAT_REQ []) = true.
Proof. passes. Qed.

(** ** [upf-edge-common/src/lib.rs] *)

Example test_pdr_key_composition : PdrKey_new 1 2 = 65538.
Proof. passes. Qed.

Example test_far_key_composition : FarKey_new 1 2 = 65538.
Proof. passes. Qed.

Example test_different_seid_no_collision : negb (PdrKey_new 1 1 =? PdrKey_new 2 1) = true.
Proof. passes. Qed.

Example test_same_session_different_ids : negb (PdrKey_new 5 1 =? PdrKey_new 5 2) = true.
Proof. passes. Qed.

Example test_max_pdr_id_u16 : PdrKey_new 3 65535 = Z.lor (Z.shiftl 3 16) 65535.
Proof. passes. Qed.

Example test_urr_key_composition : UrrKey_new 1 2 = 65538.
Proof. passes. Qed.

Example test_urr_key_different_seid_no_collision : negb (UrrKey_new 1 1 =? UrrKey_new 2 1) = true.
Proof. passes. Qed.

Example test_urr_key_same_session_multiple_urrs :
  let u1 := UrrKey_new 5 1 in let u2 := UrrKey_new 5 2 in let u3 := UrrKey_new 5 3 in
  negb (u1 =? u2) && negb (u2 =? u3) && negb (u1 =? u3) = true.
Proof. passes. Qed.

(** ** The command parsers ([tui/command.rs] of [upf-edge] and [smf-sim]) *)

Module Upf.
Example upf_parse_show_sessions : UpfCommand_from_input (lit "show sessions") = Ok UpfShowSessions.
Proof. passes. Qed.

Example upf_parse_seid_hex : UpfCommand_from_input (lit "show session 0x02") = Ok (UpfShowSession 2).
Proof. passes. Qed.

Example upf_parse_quit : UpfCommand_from_input (lit "q") = Ok UpfQuit.
Proof. passes. Qed.
End Upf.

Module Smf.
Example parse_show_sessions :
  Command_from_input (lit "show sessions") = Ok ShowSessions ∧
  Command_from_input (lit "session list") = Ok ShowSessions.
Proof. split; passes. Qed.

Example parse_add_session : Command_from_input (lit "add session 3") = Ok (AddSession 3).
Proof. passes. Qed.

Example parse_seid_hex : Command_from_input (lit "del session 0x01") = Ok (DelSession 1).
Proof. passes. Qed.

Example parse_unknown : is_err (Command_from_input (lit "foo bar")) = true.
Proof. passes. Qed.
End Smf.
