(* ===== verification/Gtpu.v ===== *)
(** * GTP-U encapsulation headers ([upf-edge-ebpf/src/gtpu.rs])

    The [repr(C)] headers the downlink program writes, as the octets they
    occupy in memory on the little-endian target, and the IPv4 header
    checksum. *)

From S2P Require Import Prelude.

Record GtpuHdr := mkGtpuHdr {
  gtpu_flags : Z; gtpu_msg_type : Z; gtpu_length : Z; gtpu_teid : Z;
}.

Definition GTPU_FLAG_S : Z := 2.
Definition GTPU_FLAG_PN : Z := 1.
Definition GTPU_FLAG_E : Z := 4.
Definition GTPU_GPDU : Z := 255.

Definition ETH_HDR_LEN : nat := 14.
Definition IP_HDR_LEN : nat := 20.
Definition UDP_HDR_LEN : nat := 8.
Definition GTPU_HDR_LEN : nat := 8.
Definition GTPU_OPT_LEN : nat := 4.
Definition GTPU_EXT_HDR_LEN : nat := 8.

Record EthHdr := mkEthHdr { eth_dst : list Z; eth_src : list Z; eth_type : Z }.

Record IpHdr := mkIpHdr {
  version_ihl : Z; tos : Z; tot_len : Z; ip_id : Z; frag_off : Z;
  ttl : Z; protocol : Z; check : Z; saddr : Z; daddr : Z;
}.

Record UdpHdr := mkUdpHdr { udp_source : Z; udp_dest : Z; udp_len : Z; udp_check : Z }.

(** What [write_unaligned] of each struct puts into memory. *)
Definition EthHdr_bytes (h : EthHdr) : list Z :=
  eth_dst h ++ eth_src h ++ to_le_bytes 2 (eth_type h).

Definition IpHdr_bytes (h : IpHdr) : list Z :=
  [version_ihl h; tos h] ++ to_le_bytes 2 (tot_len h) ++ to_le_bytes 2 (ip_id h)
  ++ to_le_bytes 2 (frag_off h) ++ [ttl h; protocol h] ++ to_le_bytes 2 (check h)
  ++ to_le_bytes 4 (saddr h) ++ to_le_bytes 4 (daddr h).

Definition UdpHdr_bytes (h : UdpHdr) : list Z :=
  to_le_bytes 2 (udp_source h) ++ to_le_bytes 2 (udp_dest h) ++ to_le_bytes 2 (udp_len h)
  ++ to_le_bytes 2 (udp_check h).

Definition GtpuHdr_bytes (h : GtpuHdr) : list Z :=
  [gtpu_flags h; gtpu_msg_type h] ++ to_le_bytes 2 (gtpu_length h) ++ to_le_bytes 4 (gtpu_teid h).

(** [*p] for [p] a [*const uN] at offset [i] of [mem]. *)
Definition le_read (n : nat) (mem : list Z) (i : nat) : Z :=
  from_le_bytes (take n (drop i mem)).

(** [*p.add(i)] of a [*const u16] over the header's memory. *)
Definition half_word (mem : list Z) (i : nat) : Z := le_read 2 mem (2 * i).

(** [sum = (sum & 0xFFFF) + (sum >> 16)] *)
Definition fold_carry (sum : Z) : Z := wrap 32 (Z.land sum 65535 + Z.shiftr sum 16).

Definition ip_checksum (hdr : IpHdr) : Z :=
  let p := IpHdr_bytes hdr in
  let sum := foldl (λ sum i, wrap 32 (sum + bswap 2 (half_word p i))) 0 (seq 0 10) in
  let sum := fold_carry sum in
  let sum := fold_carry sum in
  65535 - wrap 16 sum.

(** ** The checksum a receiver computes (RFC 1071)

    The 16-bit words of the header in network order; the header is intact when
    their one's-complement sum is all ones, that is when the sum is a non-zero
    multiple of 65535. *)
Fixpoint be_sum (l : list Z) : Z :=
  match l with
  | a :: b :: l => 256 * a + b + be_sum l
  | _ => 0
  end.

Definition header_intact (bytes : list Z) : Prop :=
  0 < be_sum bytes ∧ be_sum bytes mod 65535 = 0.

Definition set_check (c : Z) (h : IpHdr) : IpHdr :=
  mkIpHdr (version_ihl h) (tos h) (tot_len h) (ip_id h) (frag_off h) (ttl h) (protocol h) c
    (saddr h) (daddr h).

Definition wf_ip (h : IpHdr) : Prop :=
  u8 (version_ihl h) ∧ u8 (tos h) ∧ u16 (tot_len h) ∧ u16 (ip_id h) ∧ u16 (frag_off h) ∧
  u8 (ttl h) ∧ u8 (protocol h) ∧ u16 (check h) ∧ u32 (saddr h) ∧ u32 (daddr h).

Lemma length_IpHdr_bytes h : length (IpHdr_bytes h) = 20%nat.
Proof. unfold IpHdr_bytes. len. Qed.

Lemma length_UdpHdr_bytes h : length (UdpHdr_bytes h) = 8%nat.
Proof. unfold UdpHdr_bytes. len. Qed.

Lemma length_GtpuHdr_bytes h : length (GtpuHdr_bytes h) = 8%nat.
Proof. unfold GtpuHdr_bytes. len. Qed.

#[export] Hint Rewrite length_IpHdr_bytes length_UdpHdr_bytes length_GtpuHdr_bytes : len.

Lemma bswap_2 a b : u8 a → u8 b → bswap 2 (a + 256 * b) = 256 * a + b.
Proof.
  intros Ha Hb. unfold bswap, from_be_bytes. cbn.
  unfold u8 in *. Z.div_mod_to_equations; lia.
Qed.

Lemma IpHdr_bytes_ok h : wf_ip h → bytes_ok (IpHdr_bytes h).
Proof.
  intros (?&?&?&?&?&?&?&?&?&?). unfold IpHdr_bytes.
  repeat first [ apply bytes_ok_app; split | apply bytes_ok_to_le_bytes
               | apply Forall_cons; split; [assumption|] | apply Forall_nil; exact I ].
Qed.

(** The loop sums the words of any twenty octets, without overflow. *)
Lemma sum_words l :
  length l = 20%nat → bytes_ok l →
  foldl (λ sum i, wrap 32 (sum + bswap 2 (half_word l i))) 0 (seq 0 10) = be_sum l ∧
  0 ≤ be_sum l ≤ 655350.
Proof.
  intros Hl Hb. do 20 (destruct l as [|? l]; [discriminate Hl|]). destruct l; [|discriminate Hl].
  inv_bytes. cbn [foldl seq be_sum]. unfold half_word, le_read.
  cbn [Nat.mul Nat.add take drop from_le_bytes].
  rewrite !Z.mul_0_r, !Z.add_0_r. rewrite !bswap_2 by assumption.
  unfold wrap. change (2 ^ 32) with 4294967296. unfold u8 in *.
  repeat match goal with |- context [?x mod 4294967296] =>
    lazymatch x with
    | context [_ mod _] => fail
    | _ => rewrite (Z.mod_small x) by lia
    end end. lia.
Qed.

Lemma fold_carry_spec s :
  0 ≤ s < 2 ^ 32 → fold_carry s = s mod 65536 + s / 65536.
Proof.
  intros Hs. unfold fold_carry, wrap. change 65535 with (Z.ones 16).
  rewrite Z.land_ones, Z.shiftr_div_pow2 by lia. change (2 ^ 16) with 65536.
  rewrite Z.mod_small; [done|]. change (2 ^ 32) with 4294967296 in *.
  Z.div_mod_to_equations; lia.
Qed.

(** Two carry folds bring any sum of ten words below 2^16 and keep it modulo
    65535. *)
Lemma two_folds s :
  0 ≤ s ≤ 655350 →
  0 ≤ fold_carry (fold_carry s) < 65536 ∧
  (fold_carry (fold_carry s)) mod 65535 = s mod 65535 ∧
  (fold_carry (fold_carry s) = 0 → s = 0).
Proof.
  intros Hs. rewrite (fold_carry_spec s) by lia.
  rewrite fold_carry_spec by (Z.div_mod_to_equations; lia).
  Z.div_mod_to_equations; lia.
Qed.

Lemma be_sum_app l1 l2 : Nat.Even (length l1) → be_sum (l1 ++ l2) = be_sum l1 + be_sum l2.
Proof.
  revert l1. fix IH 1. intros [|a [|b l1]] He; [done|destruct He; simpl in *; lia|].
  cbn [app be_sum]. rewrite IH; [lia|]. destruct He as [k Hk]. exists (pred k). simpl in *. lia.
Qed.

Lemma be_sum_set_check h c :
  check h = 0 → u16 c →
  be_sum (IpHdr_bytes (set_check c h)) = be_sum (IpHdr_bytes h) + bswap 2 c.
Proof.
  intros H0 Hc. unfold IpHdr_bytes. cbn [set_check version_ihl tos tot_len ip_id frag_off ttl
    protocol check saddr daddr]. rewrite H0.
  rewrite !(assoc_L (++)), <-!(assoc_L (++)).
  repeat first
    [ rewrite (be_sum_app (_ :: _ :: [])) by (by exists 1%nat)
    | rewrite (be_sum_app (to_le_bytes _ _)) by
        (rewrite length_to_le_bytes; first [ by exists 1%nat | by exists 2%nat ]) ].
  assert (be_sum (to_le_bytes 2 c) = bswap 2 c) as ->.
  { unfold bswap, from_be_bytes. cbn. lia. }
  change (be_sum (to_le_bytes 2 0)) with 0. lia.
Qed.

Lemma ip_checksum_octets h :
  bytes_ok (IpHdr_bytes h) →
  u16 (ip_checksum h) ∧ (be_sum (IpHdr_bytes h) + ip_checksum h) mod 65535 = 0 ∧
  (0 < be_sum (IpHdr_bytes h) → 0 < be_sum (IpHdr_bytes h) + ip_checksum h).
Proof.
  intros Hok. destruct (sum_words (IpHdr_bytes h)) as [Hs Hb];
    [apply length_IpHdr_bytes|done|].
  unfold ip_checksum. cbv zeta. rewrite Hs.
  destruct (two_folds _ Hb) as (Hf & Hm & _).
  unfold wrap. change (2 ^ 16) with 65536. rewrite (Z.mod_small _ 65536) by done.
  split; [unfold u16; lia|]. split; [|lia].
  revert Hm. generalize (fold_carry (fold_carry (be_sum (IpHdr_bytes h)))).
  intros x Hm. Z.div_mod_to_equations; lia.
Qed.

Lemma ip_checksum_spec h :
  wf_ip h →
  u16 (ip_checksum h) ∧ (be_sum (IpHdr_bytes h) + ip_checksum h) mod 65535 = 0 ∧
  (0 < be_sum (IpHdr_bytes h) → 0 < be_sum (IpHdr_bytes h) + ip_checksum h).
Proof. intros Hwf. by apply ip_checksum_octets, IpHdr_bytes_ok. Qed.

Lemma be_sum_nonneg l : bytes_ok l → 0 ≤ be_sum l.
Proof.
  revert l. fix IH 1. intros [|a [|b l]] Hl; [done|done|]. inv_bytes. cbn [be_sum].
  specialize (IH l Hl). unfold u8 in *. lia.
Qed.

Lemma be_sum_positive h : wf_ip h → 0 < version_ihl h → 0 < be_sum (IpHdr_bytes h).
Proof.
  intros Hwf Hv. pose proof (IpHdr_bytes_ok h Hwf) as Hok. revert Hok.
  unfold IpHdr_bytes. cbn [app be_sum]. generalize (to_le_bytes 2 (tot_len h) ++
    to_le_bytes 2 (ip_id h) ++ to_le_bytes 2 (frag_off h) ++ ttl h :: protocol h ::
    to_le_bytes 2 (check h) ++ to_le_bytes 4 (saddr h) ++ to_le_bytes 4 (daddr h)).
  intros l Hok. apply Forall_cons_1 in Hok as [_ Hok]. apply Forall_cons_1 in Hok as [Ht Hok].
  apply be_sum_nonneg in Hok. unfold u8 in *. lia.
Qed.

(** Swapping two octets multiplies by 256 modulo 65535. *)
Lemma bswap_2_mod c : u16 c → ∃ hi lo, u8 hi ∧ u8 lo ∧ c = 256 * hi + lo ∧ bswap 2 c = 256 * lo + hi.
Proof.
  intros Hc. exists (c / 256), (c mod 256). unfold u16, u8 in *.
  split; [Z.div_mod_to_equations; lia|]. split; [Z.div_mod_to_equations; lia|].
  split; [Z.div_mod_to_equations; lia|].
  rewrite (Z.div_mod c 256) at 1 by lia.
  rewrite (Z.add_comm (256 * _)), bswap_2; unfold u8; Z.div_mod_to_equations; lia.
Qed.

(** [ip_checksum] of a header whose [check] is zero is right as a number:
    written in network order it makes the header pass the receiver's test, and
    the two carry folds are enough.  Stored as the host integer it is, as the
    downlink program stores it, the header passes exactly when the two octets
    of the checksum are equal. *)
Theorem ip_checksum_correct h :
  wf_ip h → check h = 0 → 0 < version_ihl h →
  header_intact (IpHdr_bytes (set_check (bswap 2 (ip_checksum h)) h)) ∧
  (header_intact (IpHdr_bytes (set_check (ip_checksum h) h)) ↔
   bswap 2 (ip_checksum h) = ip_checksum h).
Proof.
  intros Hwf H0 Hv. destruct (ip_checksum_spec h Hwf) as (Hc & Hm & Hp).
  pose proof (be_sum_positive h Hwf Hv) as Hpos.
  specialize (Hp Hpos). unfold header_intact.
  rewrite !be_sum_set_check by (done || apply (bswap_bound 2)).
  rewrite bswap_involutive by (by unfold u16 in Hc).
  split; [done|]. destruct (bswap_2_mod _ Hc) as (hi & lo & Hhi & Hlo & Hceq & ->).
  rewrite Hceq in Hm |- *. revert Hm Hpos. generalize (be_sum (IpHdr_bytes h)). intros s Hm Hpos.
  unfold u8 in *. split; [|intros E; assert (lo = hi) as -> by lia; split; [lia|done]].
  intros [_ Hs]. Z.div_mod_to_equations; lia.
Qed.

Definition sample_ip : IpHdr :=
  mkIpHdr 69 0 (bswap 2 120) 0 0 64 17 0 (bswap 4 2886729751) (bswap 4 3232235777).

(** The header the downlink program writes for this packet is rejected. *)
Lemma ip_checksum_correct_witness :
  header_intact (IpHdr_bytes (set_check (bswap 2 (ip_checksum sample_ip)) sample_ip)) ∧
  ¬ header_intact (IpHdr_bytes (set_check (ip_checksum sample_ip) sample_ip)).
Proof.
  destruct (ip_checksum_correct sample_ip) as [H1 H2];
    [unfold wf_ip; refine (conj _ (conj _ (conj _ (conj _ (conj _ (conj _ (conj _ (conj _ (conj _ _)))))))));
       split; by vm_compute|reflexivity|reflexivity|].
  split; [exact H1|]. intros H. apply H2 in H. vm_compute in H. discriminate H.
Defined.
