(* ===== verification/Xdp.v ===== *)
(** * The XDP programs ([upf-edge-ebpf/src/main.rs])

    [upf_edge_n3] strips the GTP-U encapsulation of uplink packets,
    [upf_edge_n6] adds it to downlink packets; both select a FAR through the
    PDRs of the session and count traffic.  A packet is the octets between
    [ctx.data()] and [ctx.data_end()].  The kernel helpers are parameters. *)

From S2P Require Import Prelude Common Gtpu.

(** The verdicts of an XDP program ([enum xdp_action] of the kernel). *)
Definition XDP_ABORTED : Z := 0.
Definition XDP_DROP : Z := 1.
Definition XDP_PASS : Z := 2.
Definition XDP_REDIRECT : Z := 4.

Record XdpContext := mkCtx { headroom : nat; packet : list Z }.

(** [bpf_xdp_adjust_head(ctx, delta)] ([None] is a non-zero return, which
    leaves the packet as it was) and [bpf_redirect(ifindex, flags)]. *)
Class XdpHelpers := {
  bpf_xdp_adjust_head : XdpContext → Z → option XdpContext;
  bpf_redirect : Z → Z → Z;
}.

(** The documented behaviour of the helper: moving the head forward needs
    fourteen octets behind it and drops the octets before it; moving it back
    needs headroom, must leave fourteen octets too, and brings octets of
    unspecified content. *)
Class XdpHelperLaws `{XdpHelpers} := {
  adjust_shrink ctx n ctx' :
    bpf_xdp_adjust_head ctx (Z.of_nat n) = Some ctx' ↔
    (n + 14 ≤ length (packet ctx))%nat ∧
    ctx' = mkCtx (headroom ctx + n) (drop n (packet ctx));
  adjust_grow_ok ctx n :
    (0 < n ≤ headroom ctx)%nat → (14 ≤ n + length (packet ctx))%nat →
    is_Some (bpf_xdp_adjust_head ctx (- Z.of_nat n));
  adjust_grow ctx n ctx' :
    (0 < n)%nat → bpf_xdp_adjust_head ctx (- Z.of_nat n) = Some ctx' →
    ∃ pre, length pre = n ∧ ctx' = mkCtx (headroom ctx - n) (pre ++ packet ctx);
}.

(** [ptr_at::<T>]: readable when [start + offset + size_of::<T>() <= end]. *)
Definition ptr_at (size : nat) (ctx : XdpContext) (offset : nat) : option (list Z) :=
  if (length (packet ctx) <? offset + size)%nat then None
  else Some (take size (drop offset (packet ctx))).

(** The values read through the pointer: [u8], [u16], [u32] and [[u8; 6]]. *)
Definition read_u8 (ctx : XdpContext) (offset : nat) : option Z :=
  from_le_bytes <$> ptr_at 1 ctx offset.
Definition read_u16 (ctx : XdpContext) (offset : nat) : option Z :=
  from_le_bytes <$> ptr_at 2 ctx offset.
Definition read_u32 (ctx : XdpContext) (offset : nat) : option Z :=
  from_le_bytes <$> ptr_at 4 ctx offset.
Definition read_mac (ctx : XdpContext) (offset : nat) : option (list Z) := ptr_at 6 ctx offset.

Definition read_gtpu (ctx : XdpContext) (offset : nat) : option GtpuHdr :=
  bs ← ptr_at 8 ctx offset;
  Some (mkGtpuHdr (le_read 1 bs 0) (le_read 1 bs 1) (le_read 2 bs 2) (le_read 4 bs 4)).

(** A store of [bs] at [data + offset]. *)
Definition write_at (ctx : XdpContext) (offset : nat) (bs : list Z) : XdpContext :=
  mkCtx (headroom ctx)
    (take offset (packet ctx) ++ bs ++ drop (offset + length bs) (packet ctx)).

(** [match e { Some(x) => x, None => return r }] *)
Notation "'let?' x ':=' e 'else' r 'in' k" :=
  (match e with Some x => k | None => r end)
  (at level 200, x pattern, e at level 200, r at level 200, k at level 200, right associativity).

Definition sdf_matches (pdr : PdrValue) (proto src_ip dst_ip src_port dst_port : Z) : bool :=
  if negb (pv_sdf_proto pdr =? 0) && negb (pv_sdf_proto pdr =? proto) then false else
  if negb (pv_sdf_src_ip pdr =? 0) && negb (pv_sdf_src_ip pdr =? src_ip) then false else
  if negb (pv_sdf_dst_ip pdr =? 0) && negb (pv_sdf_dst_ip pdr =? dst_ip) then false else
  if negb (pv_sdf_src_port pdr =? 0) && negb (pv_sdf_src_port pdr =? src_port) then false else
  if negb (pv_sdf_dst_port pdr =? 0) && negb (pv_sdf_dst_port pdr =? dst_port) then false else
  true.

Section programs.
Context {M P A : Type → Type}.
Context `{BpfMap M} `{PerCpuMap P} `{BpfArray A} `{XdpHelpers}.
Implicit Types m : Maps M P A.

Section far_selection.
Variable m : Maps M P A.
Variable session : SessionInfo.

(** The loop of [select_far] from index [i], with [n] turns left of
    [MAX_PDR_PER_SESSION].  [pdr_ids] has that many elements, so that the
    index is in range. *)
Fixpoint select_far_loop (iface_filter proto src_ip dst_ip src_port dst_port : Z)
    (n i : nat) (best_far : option (FarValue * Z)) (best_precedence : Z)
    : option (FarValue * Z) :=
  let loop := select_far_loop iface_filter proto src_ip dst_ip src_port dst_port in
  match n with
  | O => best_far
  | S n =>
      if si_pdr_count session <=? Z.of_nat i then best_far else
      let pdr_id := si_pdr_ids session !!! i in
      let i := S i in
      let? pdr := bpf_get (PDR_MAP m) (PdrKey_new (si_seid session) pdr_id)
        else loop n i best_far best_precedence in
      if negb (pv_source_interface pdr =? iface_filter) then
        loop n i best_far best_precedence else
      if negb (sdf_matches pdr proto src_ip dst_ip src_port dst_port) then
        loop n i best_far best_precedence else
      if best_precedence <=? pv_precedence pdr then
        loop n i best_far best_precedence else
      let? far := bpf_get (FAR_MAP m) (FarKey_new (si_seid session) (pv_far_id pdr))
        else loop n i best_far best_precedence in
      loop n i (Some (far, pv_urr_id pdr)) (pv_precedence pdr)
  end.

Definition select_far (iface_filter proto src_ip dst_ip src_port dst_port : Z)
    : option (FarValue * Z) :=
  select_far_loop iface_filter proto src_ip dst_ip src_port dst_port
    MAX_PDR_PER_SESSION 0 None 4294967295.

(** [uplink_check_far] (defined, never called) and [downlink_get_far]:
    the first PDR of the interface that has a FAR. *)
Fixpoint uplink_check_far_loop (n i : nat) : bool :=
  match n with
  | O => false
  | S n =>
      if si_pdr_count session <=? Z.of_nat i then false else
      let pdr_id := si_pdr_ids session !!! i in
      let i := S i in
      let? pdr := bpf_get (PDR_MAP m) (PdrKey_new (si_seid session) pdr_id)
        else uplink_check_far_loop n i in
      if negb (pv_source_interface pdr =? IFACE_ACCESS) then uplink_check_far_loop n i else
      let? far := bpf_get (FAR_MAP m) (FarKey_new (si_seid session) (pv_far_id pdr))
        else uplink_check_far_loop n i in
      if has_flag (fv_apply_action far) ACTION_DROP then true else
      if has_flag (fv_apply_action far) ACTION_FORW then false else true
  end.

Definition uplink_check_far : bool := uplink_check_far_loop MAX_PDR_PER_SESSION 0.

Fixpoint downlink_get_far_loop (n i : nat) : option FarValue :=
  match n with
  | O => None
  | S n =>
      if si_pdr_count session <=? Z.of_nat i then None else
      let pdr_id := si_pdr_ids session !!! i in
      let i := S i in
      let? pdr := bpf_get (PDR_MAP m) (PdrKey_new (si_seid session) pdr_id)
        else downlink_get_far_loop n i in
      if negb (pv_source_interface pdr =? IFACE_CORE) then downlink_get_far_loop n i else
      let? far := bpf_get (FAR_MAP m) (FarKey_new (si_seid session) (pv_far_id pdr))
        else downlink_get_far_loop n i in
      Some far
  end.

Definition downlink_get_far : option FarValue := downlink_get_far_loop MAX_PDR_PER_SESSION 0.
End far_selection.

(** ** Counters, on the CPU [cpu] *)

Definition urr_count (cpu : nat) (m : Maps M P A) (seid urr_id pkt_len : Z) (uplink : bool)
    : Maps M P A :=
  if urr_id =? 0 then m else
  let key := UrrKey_new seid urr_id in
  match pc_get (URR_MAP m) cpu key with
  | Some s =>
      let s' := if uplink
        then mkUrrStats (wrap 64 (ul_bytes s + pkt_len)) (wrap 64 (ul_packets s + 1))
               (dl_bytes s) (dl_packets s)
        else mkUrrStats (ul_bytes s) (ul_packets s)
               (wrap 64 (dl_bytes s + pkt_len)) (wrap 64 (dl_packets s + 1)) in
      set_urr_map (pc_write (URR_MAP m) cpu key s') m
  | None =>
      let init := if uplink then mkUrrStats pkt_len 1 0 0 else mkUrrStats 0 0 pkt_len 1 in
      set_urr_map (default (URR_MAP m) (pc_insert (URR_MAP m) cpu key init)) m
  end.

(** The statistics updates of the two programs. *)
Definition stats_rx (cpu : nat) (m : Maps M P A) (key : SessionKey) (pkt_len : Z) : Maps M P A :=
  set_stats_map
    (match pc_get (STATS_MAP m) cpu key with
     | Some s => pc_write (STATS_MAP m) cpu key
         (mkSessionStats (wrap 64 (rx_bytes s + pkt_len)) (wrap 64 (rx_packets s + 1))
            (tx_bytes s) (tx_packets s))
     | None => default (STATS_MAP m)
         (pc_insert (STATS_MAP m) cpu key (mkSessionStats pkt_len 1 0 0))
     end) m.

Definition stats_tx (cpu : nat) (m : Maps M P A) (key : SessionKey) (pkt_len : Z) : Maps M P A :=
  set_stats_map
    (match pc_get (STATS_MAP m) cpu key with
     | Some s => pc_write (STATS_MAP m) cpu key
         (mkSessionStats (rx_bytes s) (rx_packets s)
            (wrap 64 (tx_bytes s + pkt_len)) (wrap 64 (tx_packets s + 1)))
     | None => default (STATS_MAP m)
         (pc_insert (STATS_MAP m) cpu key (mkSessionStats 0 0 pkt_len 1))
     end) m.

(** The end of a run: the verdict, the packet and the maps as they are then,
    and the interface a redirect was requested to. *)
Record XdpResult := mkXdp {
  xr_action : Z;
  xr_ctx : XdpContext;
  xr_maps : Maps M P A;
  xr_redirect : option Z;
}.

Definition pkt_len (ctx : XdpContext) : Z := Z.of_nat (length (packet ctx)).

(** The length of the optional GTP-U fields the flags announce. *)
Definition gtpu_opt_len (flags : Z) : nat :=
  if has_flag flags GTPU_FLAG_E then GTPU_EXT_HDR_LEN
  else if has_flag flags (Z.lor GTPU_FLAG_S GTPU_FLAG_PN) then GTPU_OPT_LEN
  else 0.

Definition try_n3_uplink (cpu : nat) (m : Maps M P A) (ctx : XdpContext) : XdpResult :=
  let pass := mkXdp XDP_PASS ctx m None in
  (* 1. Ethernet header: EtherType = IPv4 *)
  let? eth_type := bswap 2 <$> read_u16 ctx 12 else pass in
  if negb (eth_type =? 2048) then pass else
  (* 2. IP protocol = UDP *)
  let? ip_proto := read_u8 ctx (ETH_HDR_LEN + 9) else pass in
  if negb (ip_proto =? 17) then pass else
  (* 3. UDP destination port *)
  let? udp_dst := bswap 2 <$> read_u16 ctx (ETH_HDR_LEN + IP_HDR_LEN + 2) else pass in
  if negb (udp_dst =? GTP_UDP_PORT) then pass else
  (* 4. GTP-U header *)
  let? gtpu := read_gtpu ctx (ETH_HDR_LEN + IP_HDR_LEN + UDP_HDR_LEN) else pass in
  if negb (gtpu_msg_type gtpu =? GTPU_GPDU) then pass else
  (* 5. optional fields *)
  let opt_len := gtpu_opt_len (gtpu_flags gtpu) in
  (* 6. the inner packet *)
  let outer_total := (ETH_HDR_LEN + IP_HDR_LEN + UDP_HDR_LEN + GTPU_HDR_LEN + opt_len)%nat in
  let? ue_ip_be := read_u32 ctx (outer_total + 12) else pass in
  let? inner_proto := read_u8 ctx (outer_total + 9) else pass in
  let? inner_dst_ip_be := read_u32 ctx (outer_total + 16) else pass in
  let? ports :=
    (if (inner_proto =? 6) || (inner_proto =? 17) then
       sp ← read_u16 ctx (outer_total + 20);
       dp ← read_u16 ctx (outer_total + 22);
       Some (sp, dp)
     else Some (0, 0)) else pass in
  (* 7. the session *)
  let key : SessionKey := ue_ip_be in
  let? session := bpf_get (SESSION_MAP m) key else pass in
  (* 9. PDR/FAR lookup *)
  let selected :=
    if 0 <? si_pdr_count session then
      select_far m session IFACE_ACCESS inner_proto ue_ip_be inner_dst_ip_be ports.1 ports.2
    else None in
  let matched_urr_id := match selected with Some (_, urr_id) => urr_id | None => 0 end in
  let should_drop := match selected with
    | Some (far, _) => has_flag (fv_apply_action far) ACTION_DROP
    | None => false
    end in
  if should_drop : bool then mkXdp XDP_DROP ctx m None else
  (* 8. statistics *)
  let m := stats_rx cpu m key (pkt_len ctx) in
  let m := urr_count cpu m (si_seid session) matched_urr_id (pkt_len ctx) false in
  (* 9. Ethernet source *)
  let? eth_src := read_mac ctx 6 else mkXdp XDP_PASS ctx m None in
  let? ctx1 := bpf_xdp_adjust_head ctx (Z.of_nat outer_total)
    else mkXdp XDP_PASS ctx m None in
  let? ctx2 := bpf_xdp_adjust_head ctx1 (- Z.of_nat ETH_HDR_LEN)
    else mkXdp XDP_PASS ctx1 m None in
  if (length (packet ctx2) <? ETH_HDR_LEN)%nat then mkXdp XDP_PASS ctx2 m None else
  let? br_mac := arr_get (GW_MAC m) 0 else mkXdp XDP_PASS ctx2 m None in
  let ctx3 := write_at ctx2 0 br_mac in
  let ctx3 := write_at ctx3 6 eth_src in
  let ctx3 := write_at ctx3 12 (to_le_bytes 2 8) in
  let? n6_ifindex := arr_get (IF_INDEX m) 1 else mkXdp XDP_PASS ctx3 m None in
  mkXdp (wrap 32 (bpf_redirect n6_ifindex 0)) ctx3 m (Some n6_ifindex).

(** The PDU Session Container extension header (downlink, QFI 1). *)
Definition ext_bytes : list Z := [0; 0; 0; 133; 1; 0; 1; 0].

Definition encap_len : nat := IP_HDR_LEN + UDP_HDR_LEN + GTPU_HDR_LEN + GTPU_EXT_HDR_LEN.

(** The headers written around an inner packet whose total-length field is
    [inner_ip_tot_len] (16-bit arithmetic). *)
Definition outer_ip (upf_ip gnb_ip_be inner_ip_tot_len : Z) : IpHdr :=
  let outer_ip_len := wrap 16 (Z.of_nat encap_len + inner_ip_tot_len) in
  let ip := mkIpHdr 69 0 (bswap 2 outer_ip_len) 0 0 64 17 0 upf_ip gnb_ip_be in
  mkIpHdr 69 0 (bswap 2 outer_ip_len) 0 0 64 17 (ip_checksum ip) upf_ip gnb_ip_be.

Definition outer_udp (inner_ip_tot_len : Z) : UdpHdr :=
  let udp_len := wrap 16 (Z.of_nat (UDP_HDR_LEN + GTPU_HDR_LEN + GTPU_EXT_HDR_LEN)
                          + inner_ip_tot_len) in
  mkUdpHdr (bswap 2 GTP_UDP_PORT) (bswap 2 GTP_UDP_PORT) (bswap 2 udp_len) 0.

Definition outer_gtpu (teid_be inner_ip_tot_len : Z) : GtpuHdr :=
  let gtp_len := wrap 16 (inner_ip_tot_len + Z.of_nat GTPU_EXT_HDR_LEN) in
  mkGtpuHdr 52 GTPU_GPDU (bswap 2 gtp_len) teid_be.

(** The tunnel end point of a downlink packet: [None] is the early drop. *)
Definition downlink_target (m : Maps M P A) (session : SessionInfo) : option (Z * Z) :=
  if 0 <? si_pdr_count session then
    match downlink_get_far m session with
    | Some far =>
        if has_flag (fv_apply_action far) ACTION_DROP then None
        else if has_flag (fv_apply_action far) ACTION_FORW then Some (fv_gnb_ip far, fv_teid far)
        else Some (si_gnb_ip session, si_teid session)
    | None => Some (si_gnb_ip session, si_teid session)
    end
  else Some (si_gnb_ip session, si_teid session).

Definition try_n6_downlink (cpu : nat) (m : Maps M P A) (ctx : XdpContext) : XdpResult :=
  let pass := mkXdp XDP_PASS ctx m None in
  let? eth_type := bswap 2 <$> read_u16 ctx 12 else pass in
  if negb (eth_type =? 2048) then pass else
  let? protocol := read_u8 ctx (ETH_HDR_LEN + 9) else pass in
  let? src_ip_be := read_u32 ctx (ETH_HDR_LEN + 12) else pass in
  let? dst_ip_be := read_u32 ctx (ETH_HDR_LEN + 16) else pass in
  let? src_port_be := read_u16 ctx (ETH_HDR_LEN + IP_HDR_LEN) else pass in
  let? dst_port_be := read_u16 ctx (ETH_HDR_LEN + IP_HDR_LEN + 2) else pass in
  (* 3. the session *)
  let key : SessionKey := dst_ip_be in
  let? session := bpf_get (SESSION_MAP m) key else pass in
  let should_drop :=
    if 0 <? si_pdr_count session then
      match select_far m session IFACE_CORE protocol src_ip_be dst_ip_be src_port_be
              dst_port_be with
      | Some (far, _) => has_flag (fv_apply_action far) ACTION_DROP
      | None => false
      end
    else false in
  if should_drop : bool then mkXdp XDP_DROP ctx m None else
  (* 4. statistics *)
  let m := stats_tx cpu m key (pkt_len ctx) in
  (* 4. PDR/FAR lookup *)
  let? target := downlink_target m session else mkXdp XDP_DROP ctx m None in
  let '(gnb_ip_be, teid_be) := target in
  (* 5. inner total length *)
  let? inner_ip_tot_len := bswap 2 <$> read_u16 ctx (ETH_HDR_LEN + 2)
    else mkXdp XDP_PASS ctx m None in
  let? eth_src := read_mac ctx 0 else mkXdp XDP_PASS ctx m None in
  (* 6. room for the outer headers *)
  let? ctx1 := bpf_xdp_adjust_head ctx (- Z.of_nat encap_len)
    else mkXdp XDP_PASS ctx m None in
  if (length (packet ctx1) <? ETH_HDR_LEN + encap_len)%nat then mkXdp XDP_PASS ctx1 m None else
  let? gnb_mac := arr_get (GW_MAC m) 1 else mkXdp XDP_PASS ctx1 m None in
  (* 8. to 11. the headers *)
  let ctx2 := write_at ctx1 0 (EthHdr_bytes (mkEthHdr gnb_mac eth_src 8)) in
  let ctx2 := write_at ctx2 ETH_HDR_LEN
    (IpHdr_bytes (outer_ip (si_upf_ip session) gnb_ip_be inner_ip_tot_len)) in
  let ctx2 := write_at ctx2 (ETH_HDR_LEN + IP_HDR_LEN)
    (UdpHdr_bytes (outer_udp inner_ip_tot_len)) in
  let ctx2 := write_at ctx2 (ETH_HDR_LEN + IP_HDR_LEN + UDP_HDR_LEN)
    (GtpuHdr_bytes (outer_gtpu teid_be inner_ip_tot_len)) in
  let ctx2 := write_at ctx2 (ETH_HDR_LEN + IP_HDR_LEN + UDP_HDR_LEN + GTPU_HDR_LEN) ext_bytes in
  let? n3_ifindex := arr_get (IF_INDEX m) 0 else mkXdp XDP_PASS ctx2 m None in
  mkXdp (wrap 32 (bpf_redirect n3_ifindex 0)) ctx2 m (Some n3_ifindex).

(** The entry points.  The verdict [XDP_ABORTED] they have for an error is never
    given: neither function returns one. *)
Definition upf_edge_n3 (cpu : nat) (m : Maps M P A) (ctx : XdpContext) : XdpResult :=
  try_n3_uplink cpu m ctx.
Definition upf_edge_n6 (cpu : nat) (m : Maps M P A) (ctx : XdpContext) : XdpResult :=
  try_n6_downlink cpu m ctx.
End programs.

(** ** Reading and writing packets *)

Definition be16 (pkt : list Z) (i : nat) : Z := 256 * (pkt !!! i) + pkt !!! S i.
Definition u32_at (pkt : list Z) (i : nat) : Z := from_le_bytes (take 4 (drop i pkt)).
Definition u16_at (pkt : list Z) (i : nat) : Z := from_le_bytes (take 2 (drop i pkt)).

Lemma ptr_at_Some n ctx o :
  (o + n ≤ length (packet ctx))%nat → ptr_at n ctx o = Some (take n (drop o (packet ctx))).
Proof. intros. unfold ptr_at. case_len; [lia|done]. Qed.

Lemma ptr_at_None n ctx o : (length (packet ctx) < o + n)%nat → ptr_at n ctx o = None.
Proof. intros. unfold ptr_at. case_len; [done|lia]. Qed.

Lemma drop_take_1 (l : list Z) o : (o < length l)%nat → take 1 (drop o l) = [l !!! o].
Proof.
  intros Ho. destruct (lookup_lt_is_Some_2 l o Ho) as [x Hx].
  rewrite (drop_S l x o Hx), (list_lookup_total_correct _ _ _ Hx). done.
Qed.

Lemma drop_take_2 (l : list Z) o :
  (S o < length l)%nat → take 2 (drop o l) = [l !!! o; l !!! S o].
Proof.
  intros Ho. destruct (lookup_lt_is_Some_2 l o) as [x Hx]; [lia|].
  rewrite (drop_S l x o Hx), (list_lookup_total_correct _ _ _ Hx). cbn [take].
  f_equal. by apply drop_take_1.
Qed.

Lemma read_u8_eq ctx o :
  read_u8 ctx o = if (length (packet ctx) <? o + 1)%nat then None else Some (packet ctx !!! o).
Proof.
  unfold read_u8, ptr_at. case_len; [done|]. rewrite drop_take_1 by lia.
  simpl fmap. f_equal. cbn [from_le_bytes]. lia.
Qed.

Lemma read_u16_eq ctx o :
  read_u16 ctx o = if (length (packet ctx) <? o + 2)%nat then None else Some (u16_at (packet ctx) o).
Proof. unfold read_u16, ptr_at. by case_len. Qed.

Lemma read_u32_eq ctx o :
  read_u32 ctx o = if (length (packet ctx) <? o + 4)%nat then None else Some (u32_at (packet ctx) o).
Proof. unfold read_u32, ptr_at. by case_len. Qed.

Lemma lookup_total_u8 pkt i : bytes_ok pkt → u8 (pkt !!! i).
Proof.
  intros Hb. rewrite list_lookup_total_alt. destruct (pkt !! i) as [b|] eqn:E; [|split; by vm_compute].
  simpl. by eapply Forall_lookup_1.
Qed.

Lemma read_be16 ctx o :
  bytes_ok (packet ctx) →
  bswap 2 <$> read_u16 ctx o =
  if (length (packet ctx) <? o + 2)%nat then None else Some (be16 (packet ctx) o).
Proof.
  intros Hb. rewrite read_u16_eq. case_len; [done|]. cbn. f_equal. unfold u16_at.
  rewrite drop_take_2 by lia. cbn [from_le_bytes]. rewrite Z.mul_0_r, Z.add_0_r.
  apply bswap_2; by apply lookup_total_u8.
Qed.

Lemma write_next h (done rest bs : list Z) o :
  o = length done → (length bs ≤ length rest)%nat →
  write_at (mkCtx h (done ++ rest)) o bs = mkCtx h ((done ++ bs) ++ drop (length bs) rest).
Proof.
  intros -> Hl. unfold write_at. cbn [headroom packet].
  rewrite take_app_length, drop_app_add'; [|done]. by rewrite (assoc_L (++)).
Qed.

(** ** Selection of the FAR

    The reference: the candidates of a session, in the order of its PDR list,
    are the PDRs of the interface whose filter matches and whose FAR exists. *)
Section selection.
Context {M P A : Type → Type}.
Context `{BpfMap M}.
Variable m : Maps M P A.
Variable session : SessionInfo.
Variables iface proto src_ip dst_ip src_port dst_port : Z.

Definition session_pdrs : list Z :=
  (λ i, si_pdr_ids session !!! i) <$>
    seq 0 (MAX_PDR_PER_SESSION `min` Z.to_nat (si_pdr_count session)).

Definition candidate (pdr_id : Z) : option (Z * (FarValue * Z)) :=
  pdr ← bpf_get (PDR_MAP m) (PdrKey_new (si_seid session) pdr_id);
  if (pv_source_interface pdr =? iface) &&
     sdf_matches pdr proto src_ip dst_ip src_port dst_port then
    far ← bpf_get (FAR_MAP m) (FarKey_new (si_seid session) (pv_far_id pdr));
    Some (pv_precedence pdr, (far, pv_urr_id pdr))
  else None.

Definition candidates : list (Z * (FarValue * Z)) := omap candidate session_pdrs.

Definition better (best : Z * option (FarValue * Z)) (c : Z * (FarValue * Z)) :=
  if best.1 <=? c.1 then best else (c.1, Some c.2).

Lemma select_far_loop_eq n i best p :
  select_far_loop m session iface proto src_ip dst_ip src_port dst_port n i best p =
  (foldl better (p, best) (omap candidate ((λ i, si_pdr_ids session !!! i) <$>
    seq i (n `min` (Z.to_nat (si_pdr_count session) - i))))).2.
Proof.
  revert i best p. induction n as [|n IH]; intros i best p; [done|].
  cbn [select_far_loop]. destruct (Z.leb_spec (si_pdr_count session) (Z.of_nat i)) as [Hc|Hc].
  { by replace (Z.to_nat _ - i)%nat with 0%nat by lia. }
  replace (S n `min` (Z.to_nat (si_pdr_count session) - i))%nat with
    (S (n `min` (Z.to_nat (si_pdr_count session) - S i))) by lia.
  cbn [seq fmap list_fmap omap list_omap]. unfold candidate at 1.
  destruct (bpf_get (PDR_MAP m) _) as [pdr|]; simpl; [|apply IH].
  destruct (pv_source_interface pdr =? iface); simpl; [|apply IH].
  destruct (sdf_matches _ _ _ _ _ _); simpl; [|apply IH].
  destruct (bpf_get (FAR_MAP m) _) as [far|] eqn:Ef; simpl.
  - unfold better at 2; simpl. destruct (p <=? pv_precedence pdr); simpl; rewrite IH; done.
  - destruct (p <=? pv_precedence pdr); rewrite IH; done.
Qed.

Lemma select_far_eq :
  select_far m session iface proto src_ip dst_ip src_port dst_port =
  (foldl better (4294967295, None) candidates).2.
Proof. unfold select_far. rewrite select_far_loop_eq. by rewrite Nat.sub_0_r. Qed.

Lemma foldl_better cs p b :
  (Forall (λ c, p ≤ c.1) cs ∧ foldl better (p, b) cs = (p, b)) ∨
  ∃ cs1 q x cs2, cs = cs1 ++ (q, x) :: cs2 ∧ q < p ∧ Forall (λ c, q < c.1) cs1 ∧
    Forall (λ c, q ≤ c.1) cs2 ∧ foldl better (p, b) cs = (q, Some x).
Proof.
  revert p b; induction cs as [|[q x] cs IH]; intros p b; [left; split; [constructor|done]|].
  cbn [foldl]. unfold better at 2 4; simpl. destruct (Z.leb_spec p q) as [Hq|Hq].
  - destruct (IH p b) as [[Hall Heq]|(cs1 & r & y & cs2 & -> & Hr & H1 & H2 & Heq)].
    + left. split; [by constructor|done].
    + right. exists ((q, x) :: cs1), r, y, cs2. split_and!; try done. constructor; [simpl; lia|done].
  - right. destruct (IH q (Some x)) as [[Hall Heq]|(cs1 & r & y & cs2 & -> & Hr & H1 & H2 & Heq)].
    + exists [], q, x, cs. split_and!; try done.
    + exists ((q, x) :: cs1), r, y, cs2. split_and!; try done; try lia.
      constructor; [done|done].
Qed.
End selection.

(** C10. The FAR selection of both directions: among the session's first eight
    PDRs of the interface whose SDF filter matches and whose FAR is installed,
    the one of the lowest precedence value wins, and among equal ones the
    first in the session's list; a PDR of precedence [u32::MAX] is never
    selected. *)
Theorem select_far_spec {M P A} `{BpfMap M} (m : Maps M P A) session iface proto src dst sp dp :
  match select_far m session iface proto src dst sp dp with
  | Some x => ∃ cs1 p cs2,
      candidates m session iface proto src dst sp dp = cs1 ++ (p, x) :: cs2 ∧
      p < 4294967295 ∧ Forall (λ c, p < c.1) cs1 ∧ Forall (λ c, p ≤ c.1) cs2
  | None => Forall (λ c, 4294967295 ≤ c.1) (candidates m session iface proto src dst sp dp)
  end.
Proof.
  rewrite select_far_eq. destruct (foldl_better (candidates m session iface proto src dst sp dp)
    4294967295 None) as [[Hall ->]|(cs1 & q & x & cs2 & Hc & Hq & H1 & H2 & ->)]; simpl; [done|].
  eauto 10.
Qed.

(** ** The downlink tunnel

    The reference: the first of the session's (at most eight) PDRs that is a
    downlink PDR with an installed FAR decides, whatever its filter and
    precedence: a DROP FAR drops, a FORW FAR gives the tunnel, and anything
    else, or no such PDR, leaves the session's own tunnel. *)
Section tunnel.
Context {M P A : Type → Type}.
Context `{BpfMap M}.
Implicit Types m : Maps M P A.

Definition far_candidate m (info : SessionInfo) (pdr_id : Z) : option FarValue :=
  pdr ← bpf_get (PDR_MAP m) (PdrKey_new (si_seid info) pdr_id);
  if pv_source_interface pdr =? IFACE_CORE
  then bpf_get (FAR_MAP m) (FarKey_new (si_seid info) (pv_far_id pdr)) else None.

Lemma downlink_get_far_loop_eq m info n i :
  downlink_get_far_loop m info n i =
  head (omap (far_candidate m info) ((λ i, si_pdr_ids info !!! i) <$>
    seq i (n `min` (Z.to_nat (si_pdr_count info) - i)))).
Proof.
  revert i; induction n as [|n IH]; intros i; [done|].
  cbn [downlink_get_far_loop]. destruct (Z.leb_spec (si_pdr_count info) (Z.of_nat i)) as [Hc|Hc].
  { by replace (Z.to_nat _ - i)%nat with 0%nat by lia. }
  replace (S n `min` (Z.to_nat (si_pdr_count info) - i))%nat
    with (S (n `min` (Z.to_nat (si_pdr_count info) - S i)))%nat by lia.
  cbn [seq fmap list_fmap]. rewrite omap_list_cons. cbv zeta. unfold far_candidate at 1.
  destruct (bpf_get (PDR_MAP m) _) as [pdr|]; cbn [mbind option_bind]; [|apply IH].
  destruct (pv_source_interface pdr =? IFACE_CORE); cbn [negb]; [|apply IH].
  destruct (bpf_get (FAR_MAP m) _) as [far|]; [done|apply IH].
Qed.

Definition packet_tunnel m (session : SessionInfo) : option (Z * Z) :=
  match head (omap (far_candidate m session) (session_pdrs session)) with
  | Some far =>
      if has_flag (fv_apply_action far) ACTION_DROP then None
      else if has_flag (fv_apply_action far) ACTION_FORW then Some (fv_gnb_ip far, fv_teid far)
      else Some (si_gnb_ip session, si_teid session)
  | None => Some (si_gnb_ip session, si_teid session)
  end.

Lemma downlink_target_tunnel m session : downlink_target m session = packet_tunnel m session.
Proof.
  unfold downlink_target, packet_tunnel, downlink_get_far.
  rewrite downlink_get_far_loop_eq, Nat.sub_0_r. fold (session_pdrs session).
  destruct (Z.ltb_spec 0 (si_pdr_count session)) as [Hc|Hc]; [done|].
  unfold session_pdrs. by replace (Z.to_nat (si_pdr_count session)) with 0%nat by lia.
Qed.
End tunnel.

(** ** The uplink program *)

(** An IPv4/UDP/GTP-U G-PDU as the program recognises it: an outer IPv4 header
    of twenty octets is assumed, as in the code. *)
Definition opt_len_of (pkt : list Z) : nat := gtpu_opt_len (pkt !!! 42%nat).
Definition outer_total_of (pkt : list Z) : nat := 50 + opt_len_of pkt.
Definition inner_packet (pkt : list Z) : list Z := drop (outer_total_of pkt) pkt.

Definition has_ports (inner : list Z) : bool := (inner !!! 9%nat =? 6) || (inner !!! 9%nat =? 17).

(** The inner packet is long enough for the fields that are read. *)
Definition inner_readable (inner : list Z) : Prop :=
  (20 ≤ length inner)%nat ∧ (has_ports inner = true → (24 ≤ length inner)%nat).

Definition gpdu (pkt : list Z) : Prop :=
  (50 ≤ length pkt)%nat ∧ be16 pkt 12 = 2048 ∧ pkt !!! 23%nat = 17 ∧ be16 pkt 36 = GTP_UDP_PORT ∧
  pkt !!! 43%nat = GTPU_GPDU ∧ inner_readable (inner_packet pkt).

#[export] Instance gpdu_dec pkt : Decision (gpdu pkt).
Proof. unfold gpdu, inner_readable. apply _. Defined.

Lemma inner_lookup pkt i : inner_packet pkt !!! i = pkt !!! (outer_total_of pkt + i)%nat.
Proof. unfold inner_packet. by rewrite !list_lookup_total_alt, lookup_drop. Qed.

Lemma inner_u32 pkt i : u32_at (inner_packet pkt) i = u32_at pkt (outer_total_of pkt + i).
Proof. unfold u32_at, inner_packet. by rewrite drop_drop. Qed.

Lemma inner_u16 pkt i : u16_at (inner_packet pkt) i = u16_at pkt (outer_total_of pkt + i).
Proof. unfold u16_at, inner_packet. by rewrite drop_drop. Qed.

Lemma length_inner pkt : length (inner_packet pkt) = (length pkt - outer_total_of pkt)%nat.
Proof. apply length_drop. Qed.

Lemma le_read_byte l k : (k < length l)%nat → le_read 1 l k = l !!! k.
Proof. intros. unfold le_read. rewrite drop_take_1 by lia. cbn [from_le_bytes]. lia. Qed.

Section uplink.
Context {M P A : Type → Type}.
Context `{BpfMap M} `{PerCpuMap P} `{BpfArray A} `{XdpHelpers}.
Implicit Types m : Maps M P A.

Definition inner_ports (inner : list Z) : Z * Z :=
  if has_ports inner then (u16_at inner 20, u16_at inner 22) else (0, 0).

(** What the PDRs of the session decide about an uplink packet. *)
Definition uplink_selected m (session : SessionInfo) (inner : list Z) : option (FarValue * Z) :=
  if 0 <? si_pdr_count session then
    select_far m session IFACE_ACCESS (inner !!! 9%nat) (u32_at inner 12) (u32_at inner 16)
      (inner_ports inner).1 (inner_ports inner).2
  else None.

Definition selected_drops (sel : option (FarValue * Z)) : bool :=
  match sel with Some (far, _) => has_flag (fv_apply_action far) ACTION_DROP | None => false end.

Definition selected_urr (sel : option (FarValue * Z)) : Z :=
  match sel with Some (_, urr_id) => urr_id | None => 0 end.

(** The counters after a forwarded uplink packet. *)
Definition uplink_counted cpu m session (ctx : XdpContext) : Maps M P A :=
  let inner := inner_packet (packet ctx) in
  urr_count cpu (stats_rx cpu m (u32_at inner 12) (pkt_len ctx)) (si_seid session)
    (selected_urr (uplink_selected m session inner)) (pkt_len ctx) false.

Lemma read_gtpu_eq ctx :
  bytes_ok (packet ctx) → (50 ≤ length (packet ctx))%nat →
  ∃ l t, read_gtpu ctx (ETH_HDR_LEN + IP_HDR_LEN + UDP_HDR_LEN) =
    Some (mkGtpuHdr (packet ctx !!! 42%nat) (packet ctx !!! 43%nat) l t).
Proof.
  intros Hb Hl. unfold read_gtpu. change (ETH_HDR_LEN + IP_HDR_LEN + UDP_HDR_LEN)%nat with 42%nat.
  rewrite ptr_at_Some by lia. simpl mbind.
  rewrite !le_read_byte by (rewrite length_take, length_drop; lia).
  rewrite !list_lookup_total_alt, !lookup_take_lt, !lookup_drop by lia.
  eexists _, _. reflexivity.
Qed.

(** Steps 9 on: the packet is rewritten and redirected. *)
Definition uplink_tail m (ctx : XdpContext) : XdpResult :=
  let outer_total := outer_total_of (packet ctx) in
  let? eth_src := read_mac ctx 6 else mkXdp XDP_PASS ctx m None in
  let? ctx1 := bpf_xdp_adjust_head ctx (Z.of_nat outer_total)
    else mkXdp XDP_PASS ctx m None in
  let? ctx2 := bpf_xdp_adjust_head ctx1 (- Z.of_nat ETH_HDR_LEN)
    else mkXdp XDP_PASS ctx1 m None in
  if (length (packet ctx2) <? ETH_HDR_LEN)%nat then mkXdp XDP_PASS ctx2 m None else
  let? br_mac := arr_get (GW_MAC m) 0 else mkXdp XDP_PASS ctx2 m None in
  let ctx3 := write_at ctx2 0 br_mac in
  let ctx3 := write_at ctx3 6 eth_src in
  let ctx3 := write_at ctx3 12 (to_le_bytes 2 8) in
  let? n6_ifindex := arr_get (IF_INDEX m) 1 else mkXdp XDP_PASS ctx3 m None in
  mkXdp (wrap 32 (bpf_redirect n6_ifindex 0)) ctx3 m (Some n6_ifindex).

Definition uplink_session cpu m (ctx : XdpContext) : XdpResult :=
  let inner := inner_packet (packet ctx) in
  match bpf_get (SESSION_MAP m) (u32_at inner 12) with
  | None => mkXdp XDP_PASS ctx m None
  | Some session =>
      if selected_drops (uplink_selected m session inner) then mkXdp XDP_DROP ctx m None
      else uplink_tail (uplink_counted cpu m session ctx) ctx
  end.

(** Step 6: the fields of the inner packet. *)
Lemma read_ports ctx :
  (20 ≤ length (inner_packet (packet ctx)))%nat →
  (if has_ports (inner_packet (packet ctx)) then
     sp ← read_u16 ctx (outer_total_of (packet ctx) + 20);
     dp ← read_u16 ctx (outer_total_of (packet ctx) + 22);
     Some (sp, dp)
   else Some (0, 0)) =
  if decide (inner_readable (inner_packet (packet ctx)))
  then Some (inner_ports (inner_packet (packet ctx))) else None.
Proof.
  intros Hl. pose proof (length_inner (packet ctx)) as Hi.
  unfold inner_ports, inner_readable. destruct (has_ports _).
  - rewrite !read_u16_eq, !inner_u16. destruct (decide _) as [[_ Hp]|Hn].
    + specialize (Hp eq_refl). repeat case_len; (lia || reflexivity).
    + repeat case_len; try reflexivity.
      exfalso. apply Hn. split; [done|]. intros _. lia.
  - by rewrite decide_True.
Qed.

Ltac not_gpdu :=
  rewrite decide_False by
    (let G := fresh in intros G; unfold gpdu, inner_readable in G;
     decompose [and] G; first [lia | congruence | contradiction]); reflexivity.

Lemma try_n3_uplink_eq cpu m ctx :
  bytes_ok (packet ctx) →
  try_n3_uplink cpu m ctx =
  if decide (gpdu (packet ctx)) then uplink_session cpu m ctx else mkXdp XDP_PASS ctx m None.
Proof.
  intros Hb. unfold try_n3_uplink. cbv zeta.
  change (ETH_HDR_LEN + 9)%nat with 23%nat.
  change (ETH_HDR_LEN + IP_HDR_LEN + 2)%nat with 36%nat.
  rewrite read_be16 by done. case_len; [not_gpdu|].
  destruct (be16 _ 12 =? 2048) eqn:E12; cbn [negb]; [|not_gpdu].
  rewrite read_u8_eq. case_len; [not_gpdu|].
  destruct (_ =? 17) eqn:E23; cbn [negb]; [|not_gpdu].
  rewrite read_be16 by done. case_len; [not_gpdu|].
  destruct (_ =? GTP_UDP_PORT) eqn:E36; cbn [negb]; [|not_gpdu].
  destruct (decide (50 ≤ length (packet ctx))%nat) as [H50|H50]; last first.
  { unfold read_gtpu. rewrite ptr_at_None by (simpl; lia). not_gpdu. }
  destruct (read_gtpu_eq ctx Hb H50) as (l & t & ->). cbn [gtpu_msg_type gtpu_flags].
  destruct (_ =? GTPU_GPDU) eqn:E43; cbn [negb]; [|not_gpdu].
  change (ETH_HDR_LEN + IP_HDR_LEN + UDP_HDR_LEN + GTPU_HDR_LEN + gtpu_opt_len (packet ctx !!! 42%nat))%nat
    with (outer_total_of (packet ctx)).
  pose proof (length_inner (packet ctx)) as Hi.
  rewrite !read_u32_eq, read_u8_eq. repeat (case_len; try not_gpdu).
  rewrite <-inner_lookup. change (_ || _) with (has_ports (inner_packet (packet ctx))).
  rewrite read_ports by lia.
  destruct (decide (inner_readable _)) as [Hr|Hr]; last first.
  { rewrite decide_False by (by intros (_ & _ & _ & _ & _ & Hr')). reflexivity. }
  apply Z.eqb_eq in E12, E23, E36, E43. rewrite decide_True by done.
  rewrite <-!inner_u32. unfold uplink_session.
  destruct (bpf_get (SESSION_MAP m) _) as [session|]; [|done].
  reflexivity.
Qed.
End uplink.

(** ** Counters *)

Section counters.
Context {M P A : Type → Type}.
Context `{BpfMap M} `{PerCpuMapLaws P} `{BpfArray A} `{XdpHelpers}.
Implicit Types m : Maps M P A.

Definition add_rx (len : Z) (s : SessionStats) : SessionStats :=
  mkSessionStats (wrap 64 (rx_bytes s + len)) (wrap 64 (rx_packets s + 1)) (tx_bytes s) (tx_packets s).
Definition add_tx (len : Z) (s : SessionStats) : SessionStats :=
  mkSessionStats (rx_bytes s) (rx_packets s) (wrap 64 (tx_bytes s + len)) (wrap 64 (tx_packets s + 1)).
Definition add_dl (len : Z) (s : UrrStats) : UrrStats :=
  mkUrrStats (ul_bytes s) (ul_packets s) (wrap 64 (dl_bytes s + len)) (wrap 64 (dl_packets s + 1)).
Definition add_ul (len : Z) (s : UrrStats) : UrrStats :=
  mkUrrStats (wrap 64 (ul_bytes s + len)) (wrap 64 (ul_packets s + 1)) (dl_bytes s) (dl_packets s).

(** One CPU's slot of one key is updated by [f]; a key seen for the first
    time starts from zero; only a full map loses the count. *)
Definition counted {V} `{Inhabited V} (f : V → V) (cpu : nat) (key : Z) (p p' : P V) : Prop :=
  match pc_values p key with
  | Some vs => ∀ j, pc_values p' j =
      if decide (key = j) then Some (alter f cpu vs) else pc_values p j
  | None => p' = p ∨ ∀ j, pc_values p' j =
      if decide (key = j) then Some (alter f cpu (replicate pc_cpus inhabitant)) else pc_values p j
  end.

Lemma pc_get_alter {V} (p : P V) cpu k vs s :
  pc_values p k = Some vs → pc_get p cpu k = Some s → vs !! cpu = Some s.
Proof. unfold pc_get. by intros ->. Qed.

Lemma alter_insert {V} (f : V → V) (vs : list V) i v :
  vs !! i = Some v → <[i := f v]> vs = alter f i vs.
Proof.
  intros Hv. apply list_eq. intros j. destruct (decide (i = j)) as [->|Hj].
  - rewrite list_lookup_alter_eq, Hv. apply list_lookup_insert_eq.
    by eapply lookup_lt_Some.
  - by rewrite list_lookup_alter_ne, list_lookup_insert_ne.
Qed.

Lemma counted_update {V} `{Inhabited V} (f : V → V) cpu key (p : P V) :
  (cpu < pc_cpus)%nat →
  counted f cpu key p
    (match pc_get p cpu key with
     | Some s => pc_write p cpu key (f s)
     | None => default p (pc_insert p cpu key (f inhabitant))
     end).
Proof.
  intros Hc. unfold counted, pc_get. destruct (pc_values p key) as [vs|] eqn:E; simpl.
  - pose proof (values_length p key vs E) as Hl.
    destruct (lookup_lt_is_Some_2 vs cpu) as [s Hs]; [lia|]. rewrite Hs. intros j.
    rewrite (values_write p cpu key (f s) vs j E). by rewrite (alter_insert f vs cpu s Hs).
  - destruct (pc_insert p cpu key (f inhabitant)) as [p'|] eqn:Ei; simpl; [|by left].
    right. intros j. rewrite (values_insert p p' cpu key _ j Ei E).
    rewrite alter_insert; [done|]. by apply lookup_replicate_2.
Qed.

Lemma wrap_small w x : 0 ≤ x < 2 ^ w → wrap w x = x.
Proof. apply Z.mod_small. Qed.

Lemma add_rx_zero len : 0 ≤ len < 2 ^ 64 → add_rx len inhabitant = mkSessionStats len 1 0 0.
Proof. intros. unfold add_rx. simpl. by rewrite !wrap_small. Qed.
Lemma add_tx_zero len : 0 ≤ len < 2 ^ 64 → add_tx len inhabitant = mkSessionStats 0 0 len 1.
Proof. intros. unfold add_tx. simpl. by rewrite !wrap_small. Qed.
Lemma add_ul_zero len : 0 ≤ len < 2 ^ 64 → add_ul len inhabitant = mkUrrStats len 1 0 0.
Proof. intros. unfold add_ul. simpl. by rewrite !wrap_small. Qed.
Lemma add_dl_zero len : 0 ≤ len < 2 ^ 64 → add_dl len inhabitant = mkUrrStats 0 0 len 1.
Proof. intros. unfold add_dl. simpl. by rewrite !wrap_small. Qed.

Lemma stats_rx_counted cpu m key len :
  (cpu < pc_cpus)%nat → 0 ≤ len < 2 ^ 64 →
  counted (add_rx len) cpu key (STATS_MAP m) (STATS_MAP (stats_rx cpu m key len)).
Proof.
  intros Hc Hl. pose proof (counted_update (add_rx len) cpu key (STATS_MAP m) Hc) as Hu.
  rewrite add_rx_zero in Hu by done. exact Hu.
Qed.

Lemma stats_tx_counted cpu m key len :
  (cpu < pc_cpus)%nat → 0 ≤ len < 2 ^ 64 →
  counted (add_tx len) cpu key (STATS_MAP m) (STATS_MAP (stats_tx cpu m key len)).
Proof.
  intros Hc Hl. pose proof (counted_update (add_tx len) cpu key (STATS_MAP m) Hc) as Hu.
  rewrite add_tx_zero in Hu by done. exact Hu.
Qed.

Lemma urr_count_counted cpu m seid urr_id len (uplink : bool) :
  (cpu < pc_cpus)%nat → 0 ≤ len < 2 ^ 64 → urr_id ≠ 0 →
  counted (if uplink then add_ul len else add_dl len) cpu (UrrKey_new seid urr_id)
    (URR_MAP m) (URR_MAP (urr_count cpu m seid urr_id len uplink)).
Proof.
  intros Hc Hl Hu. unfold urr_count. apply Z.eqb_neq in Hu. rewrite Hu. cbv zeta.
  pose proof (counted_update (if uplink then add_ul len else add_dl len) cpu
    (UrrKey_new seid urr_id) (URR_MAP m) Hc) as Hd. revert Hd.
  destruct uplink; rewrite ?add_ul_zero, ?add_dl_zero by done;
    by destruct (pc_get (URR_MAP m) cpu _).
Qed.

(** Uplink traffic is accounted for: a forwarded packet adds its length
    and one packet to the received counters of the UE's session on the
    current CPU; the usage of the URR of the selected PDR is counted too, but
    as DOWNLINK volume: the uplink counters of every URR stay as they are. *)
Theorem uplink_accounting cpu m session ctx :
  (cpu < pc_cpus)%nat → pkt_len ctx < 2 ^ 64 →
  let inner := inner_packet (packet ctx) in
  let m' := uplink_counted cpu m session ctx in
  let urr_id := selected_urr (uplink_selected m session inner) in
  counted (add_rx (pkt_len ctx)) cpu (u32_at inner 12) (STATS_MAP m) (STATS_MAP m') ∧
  (if urr_id =? 0 then URR_MAP m' = URR_MAP m
   else counted (add_dl (pkt_len ctx)) cpu (UrrKey_new (si_seid session) urr_id)
          (URR_MAP m) (URR_MAP m')) ∧
  SESSION_MAP m' = SESSION_MAP m ∧ PDR_MAP m' = PDR_MAP m ∧ FAR_MAP m' = FAR_MAP m.
Proof.
  intros Hc Hl. cbv zeta. unfold uplink_counted.
  set (inner := inner_packet (packet ctx)). set (u := selected_urr _).
  assert (0 ≤ pkt_len ctx) by (unfold pkt_len; lia).
  pose proof (stats_rx_counted cpu m (u32_at inner 12) (pkt_len ctx) Hc ltac:(lia)) as Hs.
  pose proof (urr_count_counted cpu (stats_rx cpu m (u32_at inner 12) (pkt_len ctx))
    (si_seid session) u (pkt_len ctx) false Hc ltac:(lia)) as Hu.
  split; [|split].
  - unfold urr_count. destruct (u =? 0); [exact Hs|]. by destruct (pc_get (URR_MAP _) _ _).
  - destruct (u =? 0) eqn:E.
    + unfold urr_count. by rewrite E.
    + apply Hu. by apply Z.eqb_neq.
  - unfold urr_count. destruct (u =? 0); [done|]. by destruct (pc_get (URR_MAP _) _ _).
Qed.
End counters.

(** ** Functional behaviour of the uplink program *)

Section uplink_spec.
Context {M P A : Type → Type}.
Context `{BpfMap M} `{PerCpuMap P} `{BpfArray A} `{XdpHelperLaws}.
Implicit Types m : Maps M P A.

(** Three stores that overwrite the fourteen octets brought by the helper. *)
Lemma write_eth h (pre inner mac src : list Z) :
  length pre = 14%nat → length mac = 6%nat → length src = 6%nat →
  write_at (write_at (write_at (mkCtx h (pre ++ inner)) 0 mac) 6 src) 12 (to_le_bytes 2 8) =
  mkCtx h (mac ++ src ++ [8; 0] ++ inner).
Proof.
  intros Hp Hm Hs.
  rewrite (write_next h [] (pre ++ inner)) by len.
  do 2 rewrite write_next by (rewrite ?length_drop; len).
  rewrite !drop_drop, drop_app_length' by len.
  change (to_le_bytes 2 8) with [8; 0]. f_equal. by rewrite <-!(assoc_L (++)).
Qed.

Lemma uplink_tail_ok m ctx br_mac n6 :
  gpdu (packet ctx) →
  arr_get (GW_MAC m) 0 = Some br_mac → length br_mac = 6%nat →
  arr_get (IF_INDEX m) 1 = Some n6 →
  uplink_tail m ctx =
  mkXdp (wrap 32 (bpf_redirect n6 0))
    (mkCtx (headroom ctx + outer_total_of (packet ctx) - 14)
       (br_mac ++ take 6 (drop 6 (packet ctx)) ++ [8; 0] ++ inner_packet (packet ctx)))
    m (Some n6).
Proof.
  intros (Hl & _ & _ & _ & _ & [Hi _]) Hmac Hml Hif. rewrite length_inner in Hi.
  assert (outer_total_of (packet ctx) + 14 ≤ length (packet ctx))%nat as Hot by lia.
  unfold uplink_tail, read_mac. rewrite ptr_at_Some by lia.
  rewrite (proj2 (adjust_shrink ctx (outer_total_of (packet ctx)) _) (conj Hot eq_refl)).
  set (ctx1 := mkCtx _ _).
  destruct (adjust_grow_ok ctx1 ETH_HDR_LEN) as [ctx2 Hc2].
  { simpl. unfold outer_total_of, ETH_HDR_LEN. lia. }
  { unfold ETH_HDR_LEN. lia. }
  rewrite Hc2. apply adjust_grow in Hc2 as (pre & Hpre & ->); [|unfold ETH_HDR_LEN; lia].
  cbn [packet]. case_len; [rewrite length_app, Hpre in *; unfold ETH_HDR_LEN in *; lia|]. rewrite Hmac, Hif. cbn [headroom ctx1 packet].
  rewrite write_eth by (first [done | rewrite length_take, length_drop; lia]).
  reflexivity.
Qed.

(** A G-PDU of a known UE that no selected FAR drops, in terms of the
    program's own reading of the frame. *)
Lemma uplink_redirect cpu m ctx session br_mac n6 :
  bytes_ok (packet ctx) → gpdu (packet ctx) →
  let inner := inner_packet (packet ctx) in
  bpf_get (SESSION_MAP m) (u32_at inner 12) = Some session →
  selected_drops (uplink_selected m session inner) = false →
  arr_get (GW_MAC m) 0 = Some br_mac → length br_mac = 6%nat →
  arr_get (IF_INDEX m) 1 = Some n6 →
  try_n3_uplink cpu m ctx =
  mkXdp (wrap 32 (bpf_redirect n6 0))
    (mkCtx (headroom ctx + outer_total_of (packet ctx) - 14)
       (br_mac ++ take 6 (drop 6 (packet ctx)) ++ [8; 0] ++ inner))
    (uplink_counted cpu m session ctx) (Some n6).
Proof.
  intros Hb Hg inner Hs Hd Hmac Hml Hif.
  rewrite try_n3_uplink_eq, decide_True by done. unfold uplink_session.
  fold inner. rewrite Hs, Hd.
  assert (GW_MAC (uplink_counted cpu m session ctx) = GW_MAC m ∧
    IF_INDEX (uplink_counted cpu m session ctx) = IF_INDEX m) as [Eg Ei].
  { unfold uplink_counted, urr_count. destruct (_ =? 0); [done|].
    by destruct (pc_get (URR_MAP _) _ _). }
  by rewrite (uplink_tail_ok _ ctx br_mac n6) by (rewrite ?Eg, ?Ei; done).
Qed.

(** Everything else is left alone: a frame that is not a complete G-PDU
    and a G-PDU of an unknown UE are passed to the kernel stack unchanged; a
    packet whose selected FAR drops is dropped; neither counts anything. *)
Theorem uplink_untouched cpu m ctx :
  bytes_ok (packet ctx) →
  let inner := inner_packet (packet ctx) in
  (¬ gpdu (packet ctx) ∨ bpf_get (SESSION_MAP m) (u32_at inner 12) = None →
   try_n3_uplink cpu m ctx = mkXdp XDP_PASS ctx m None) ∧
  (∀ session, gpdu (packet ctx) →
   bpf_get (SESSION_MAP m) (u32_at inner 12) = Some session →
   selected_drops (uplink_selected m session inner) = true →
   try_n3_uplink cpu m ctx = mkXdp XDP_DROP ctx m None).
Proof.
  intros Hb inner. rewrite try_n3_uplink_eq by done. split.
  - intros Hn. destruct (decide _) as [Hg|]; [|done].
    destruct Hn as [|Hn]; [done|]. unfold uplink_session. fold inner. by rewrite Hn.
  - intros session Hg Hs Hd. rewrite decide_True by done. unfold uplink_session.
    fold inner. by rewrite Hs, Hd.
Qed.
End uplink_spec.

(** ** Functional behaviour of the downlink program *)

(** The frames the program considers: IPv4, long enough for the ports. *)
Definition ip_frame (pkt : list Z) : Prop := (38 ≤ length pkt)%nat ∧ be16 pkt 12 = 2048.

#[export] Instance ip_frame_dec pkt : Decision (ip_frame pkt).
Proof. unfold ip_frame. apply _. Defined.

(** The encapsulated frame. *)
Definition encap_headers (gnb_mac src : list Z) (upf_ip gnb_ip_be teid_be tot : Z) : list Z :=
  EthHdr_bytes (mkEthHdr gnb_mac src 8) ++ IpHdr_bytes (outer_ip upf_ip gnb_ip_be tot)
  ++ UdpHdr_bytes (outer_udp tot) ++ GtpuHdr_bytes (outer_gtpu teid_be tot) ++ ext_bytes.

Lemma length_encap_headers mac src upf gnb teid tot :
  length mac = 6%nat → length src = 6%nat →
  length (encap_headers mac src upf gnb teid tot) = 58%nat.
Proof. intros. unfold encap_headers, EthHdr_bytes, ext_bytes. cbn [eth_dst eth_src]. len. Qed.

Section downlink_spec.
Context {M P A : Type → Type}.
Context `{BpfMap M} `{PerCpuMap P} `{BpfArray A} `{XdpHelperLaws}.
Implicit Types m : Maps M P A.

Definition downlink_selected m (session : SessionInfo) (pkt : list Z) : option (FarValue * Z) :=
  if 0 <? si_pdr_count session then
    select_far m session IFACE_CORE (pkt !!! 23%nat) (u32_at pkt 26) (u32_at pkt 30)
      (u16_at pkt 34) (u16_at pkt 36)
  else None.

(** Steps 5 on, for a packet with a tunnel end point. *)
Definition downlink_tail m session (gnb_ip_be teid_be : Z) (ctx : XdpContext) : XdpResult :=
  let? inner_ip_tot_len := bswap 2 <$> read_u16 ctx 16 else mkXdp XDP_PASS ctx m None in
  let? eth_src := read_mac ctx 0 else mkXdp XDP_PASS ctx m None in
  let? ctx1 := bpf_xdp_adjust_head ctx (- Z.of_nat encap_len)
    else mkXdp XDP_PASS ctx m None in
  if (length (packet ctx1) <? ETH_HDR_LEN + encap_len)%nat then mkXdp XDP_PASS ctx1 m None else
  let? gnb_mac := arr_get (GW_MAC m) 1 else mkXdp XDP_PASS ctx1 m None in
  let ctx2 := write_at ctx1 0 (EthHdr_bytes (mkEthHdr gnb_mac eth_src 8)) in
  let ctx2 := write_at ctx2 14
    (IpHdr_bytes (outer_ip (si_upf_ip session) gnb_ip_be inner_ip_tot_len)) in
  let ctx2 := write_at ctx2 34 (UdpHdr_bytes (outer_udp inner_ip_tot_len)) in
  let ctx2 := write_at ctx2 42 (GtpuHdr_bytes (outer_gtpu teid_be inner_ip_tot_len)) in
  let ctx2 := write_at ctx2 50 ext_bytes in
  let? n3_ifindex := arr_get (IF_INDEX m) 0 else mkXdp XDP_PASS ctx2 m None in
  mkXdp (wrap 32 (bpf_redirect n3_ifindex 0)) ctx2 m (Some n3_ifindex).

Definition downlink_session cpu m (ctx : XdpContext) : XdpResult :=
  match bpf_get (SESSION_MAP m) (u32_at (packet ctx) 30) with
  | None => mkXdp XDP_PASS ctx m None
  | Some session =>
      if selected_drops (downlink_selected m session (packet ctx))
      then mkXdp XDP_DROP ctx m None
      else
        let m' := stats_tx cpu m (u32_at (packet ctx) 30) (pkt_len ctx) in
        match downlink_target m session with
        | None => mkXdp XDP_DROP ctx m' None
        | Some (gnb_ip_be, teid_be) => downlink_tail m' session gnb_ip_be teid_be ctx
        end
  end.

Ltac not_ip := rewrite decide_False by (intros [? ?]; first [lia|congruence]); reflexivity.

Lemma try_n6_downlink_eq cpu m ctx :
  bytes_ok (packet ctx) →
  try_n6_downlink cpu m ctx =
  if decide (ip_frame (packet ctx)) then downlink_session cpu m ctx
  else mkXdp XDP_PASS ctx m None.
Proof.
  intros Hb. unfold try_n6_downlink. cbv zeta.
  change (ETH_HDR_LEN + 9)%nat with 23%nat. change (ETH_HDR_LEN + 12)%nat with 26%nat.
  change (ETH_HDR_LEN + 16)%nat with 30%nat. change (ETH_HDR_LEN + IP_HDR_LEN)%nat with 34%nat.
  change (34 + 2)%nat with 36%nat.
  rewrite read_be16 by done. case_len; [not_ip|].
  destruct (be16 _ 12 =? 2048) eqn:E12; cbn [negb]; [|not_ip].
  rewrite read_u8_eq, !read_u32_eq, (read_u16_eq _ 34), (read_u16_eq _ 36).
  repeat (case_len; try not_ip).
  apply Z.eqb_eq in E12. rewrite decide_True by (split; [lia|done]).
  unfold downlink_session.
  destruct (bpf_get (SESSION_MAP m) _) as [session|]; [|done].
  change (match (if 0 <? si_pdr_count session then _ else None) with
          | Some (far, _) => _ | None => _ end) with
    (selected_drops (downlink_selected m session (packet ctx))) || idtac.
  assert (∀ b1 b2 : bool, b1 = b2 → ∀ (T : Type) (x y y' : T), y = y' →
    (if b1 then x else y) = (if b2 then x else y')) as Hif by (by intros ?? -> ???? ->).
  apply Hif.
  - unfold selected_drops, downlink_selected. by destruct (0 <? si_pdr_count session).
  - change (downlink_target (stats_tx cpu m (u32_at (packet ctx) 30) (pkt_len ctx)) session)
      with (downlink_target m session).
    destruct (downlink_target m session) as [[g t]|]; reflexivity.
Qed.

(** The five header stores fill the space the helper made and the old
    Ethernet header. *)
Lemma write_headers h (pre mac src : list Z) upf gnb teid tot :
  length mac = 6%nat → length src = 6%nat → (58 ≤ length pre)%nat →
  write_at (write_at (write_at (write_at (write_at (mkCtx h pre)
    0 (EthHdr_bytes (mkEthHdr mac src 8)))
    14 (IpHdr_bytes (outer_ip upf gnb tot)))
    34 (UdpHdr_bytes (outer_udp tot)))
    42 (GtpuHdr_bytes (outer_gtpu teid tot)))
    50 ext_bytes =
  mkCtx h (encap_headers mac src upf gnb teid tot ++ drop 58 pre).
Proof.
  intros Hm Hs Hp.
  assert (length (EthHdr_bytes (mkEthHdr mac src 8)) = 14%nat) as He.
  { unfold EthHdr_bytes. cbn [eth_dst eth_src]. len. }
  assert (length ext_bytes = 8%nat) as Hx by done.
  rewrite (write_next h [] pre) by len.
  do 4 rewrite write_next by (rewrite ?drop_drop, ?length_drop, ?length_app, ?He, ?Hx; len).
  rewrite !drop_drop, He, Hx, length_IpHdr_bytes, length_UdpHdr_bytes, length_GtpuHdr_bytes.
  f_equal. unfold encap_headers. by rewrite <-!(assoc_L (++)).
Qed.

Lemma downlink_tail_ok m session gnb teid ctx mac n3 :
  bytes_ok (packet ctx) → (38 ≤ length (packet ctx))%nat → (44 ≤ headroom ctx)%nat →
  arr_get (GW_MAC m) 1 = Some mac → length mac = 6%nat →
  arr_get (IF_INDEX m) 0 = Some n3 →
  downlink_tail m session gnb teid ctx =
  mkXdp (wrap 32 (bpf_redirect n3 0))
    (mkCtx (headroom ctx - 44)
      (encap_headers mac (take 6 (packet ctx)) (si_upf_ip session) gnb teid (be16 (packet ctx) 16)
       ++ drop 14 (packet ctx)))
    m (Some n3).
Proof.
  intros Hb Hl Hh Hmac Hml Hif. unfold downlink_tail, read_mac.
  rewrite read_be16 by done. case_len; [lia|]. rewrite ptr_at_Some by lia.
  destruct (adjust_grow_ok ctx encap_len) as [ctx1 Hc1]; [change encap_len with 44%nat; lia..|].
  rewrite Hc1.
  apply adjust_grow in Hc1 as (pre & Hpre & ->); [|by vm_compute; lia].
  change encap_len with 44%nat in *.
  cbn [packet]. case_len; [rewrite length_app, Hpre in *; unfold ETH_HDR_LEN in *; lia|].
  rewrite Hmac, Hif. rewrite drop_0.
  rewrite write_headers by (rewrite ?length_app, ?length_take; lia).
  rewrite drop_app_ge by lia. rewrite Hpre. reflexivity.
Qed.

(** An IPv4 packet for a known UE that no FAR drops, in terms of the headers
    the program builds. *)
Lemma downlink_redirect cpu m ctx session gnb teid mac n3 :
  bytes_ok (packet ctx) → ip_frame (packet ctx) → (44 ≤ headroom ctx)%nat →
  bpf_get (SESSION_MAP m) (u32_at (packet ctx) 30) = Some session →
  selected_drops (downlink_selected m session (packet ctx)) = false →
  downlink_target m session = Some (gnb, teid) →
  arr_get (GW_MAC m) 1 = Some mac → length mac = 6%nat →
  arr_get (IF_INDEX m) 0 = Some n3 →
  let m' := stats_tx cpu m (u32_at (packet ctx) 30) (pkt_len ctx) in
  try_n6_downlink cpu m ctx =
  mkXdp (wrap 32 (bpf_redirect n3 0))
    (mkCtx (headroom ctx - 44)
      (encap_headers mac (take 6 (packet ctx)) (si_upf_ip session) gnb teid
         (be16 (packet ctx) 16) ++ drop 14 (packet ctx)))
    m' (Some n3) ∧ URR_MAP m' = URR_MAP m.
Proof.
  intros Hb Hf Hh Hs Hd Ht Hmac Hml Hif m'.
  rewrite try_n6_downlink_eq, decide_True by done. unfold downlink_session.
  rewrite Hs, Hd, Ht. cbv zeta.
  rewrite (downlink_tail_ok _ session gnb teid ctx mac n3) by (done || apply Hf). done.
Qed.

(** A frame that is not IPv4, is too short, or is for an unknown UE is
    passed unchanged; a packet whose selected FAR drops is dropped uncounted;
    when instead the first downlink PDR of the session (whatever its filter
    and precedence) drops, the packet is dropped AFTER it was counted as
    transmitted. *)
Theorem downlink_untouched cpu m ctx :
  bytes_ok (packet ctx) →
  (¬ ip_frame (packet ctx) ∨ bpf_get (SESSION_MAP m) (u32_at (packet ctx) 30) = None →
   try_n6_downlink cpu m ctx = mkXdp XDP_PASS ctx m None) ∧
  (∀ session, ip_frame (packet ctx) →
   bpf_get (SESSION_MAP m) (u32_at (packet ctx) 30) = Some session →
   (selected_drops (downlink_selected m session (packet ctx)) = true →
    try_n6_downlink cpu m ctx = mkXdp XDP_DROP ctx m None) ∧
   (selected_drops (downlink_selected m session (packet ctx)) = false →
    downlink_target m session = None →
    try_n6_downlink cpu m ctx =
    mkXdp XDP_DROP ctx (stats_tx cpu m (u32_at (packet ctx) 30) (pkt_len ctx)) None)).
Proof.
  intros Hb. rewrite try_n6_downlink_eq by done. split.
  - intros Hn. destruct (decide _) as [Hg|]; [|done].
    destruct Hn as [|Hn]; [done|]. unfold downlink_session. by rewrite Hn.
  - intros session Hf Hs. rewrite decide_True by done. unfold downlink_session. rewrite Hs.
    by split; [intros ->|intros -> ->].
Qed.
End downlink_spec.

(** ** The tunnel *)

Lemma to_le_bytes_2_bswap x :
  u16 x → ∃ hi lo, u8 hi ∧ u8 lo ∧ x = 256 * hi + lo ∧
    bswap 2 x mod 256 = hi ∧ (bswap 2 x / 256) mod 256 = lo.
Proof.
  intros Hx. destruct (bswap_2_mod x Hx) as (hi & lo & Hhi & Hlo & Hxe & ->).
  exists hi, lo. unfold u8 in *. repeat split; try done; Z.div_mod_to_equations; lia.
Qed.

(** The sixteen-bit fields of the written headers, read back in network order. *)
Lemma encap_fields mac src upf gnb teid tot inner :
  length mac = 6%nat → length src = 6%nat →
  let out := encap_headers mac src upf gnb teid tot ++ inner in
  be16 out 12 = 2048 ∧ out !!! 23%nat = 17 ∧ be16 out 36 = GTP_UDP_PORT ∧
  out !!! 42%nat = 52 ∧ out !!! 43%nat = GTPU_GPDU ∧
  be16 out 16 = wrap 16 (44 + tot) ∧ be16 out 38 = wrap 16 (24 + tot) ∧
  be16 out 44 = wrap 16 (tot + 8) ∧
  (u32 gnb → u32_at out 30 = gnb) ∧ (u32 teid → u32_at out 46 = teid).
Proof.
  intros Hm Hs. do 6 (destruct mac as [|? mac]; [discriminate Hm|]).
  do 6 (destruct src as [|? src]; [discriminate Hs|]).
  destruct mac; [|discriminate Hm]. destruct src; [|discriminate Hs]. clear Hm Hs.
  assert (∀ x, u16 (wrap 16 x)) as Hw.
  { intros x. unfold u16, wrap. apply Z.mod_pos_bound. lia. }
  unfold encap_headers, outer_ip, outer_udp, outer_gtpu. cbv zeta.
  unfold EthHdr_bytes, IpHdr_bytes, UdpHdr_bytes, GtpuHdr_bytes.
  cbn [eth_dst eth_src eth_type version_ihl tos tot_len ip_id frag_off ttl protocol check saddr
    daddr udp_source udp_dest udp_len udp_check gtpu_flags gtpu_msg_type gtpu_length gtpu_teid].
  generalize (ip_checksum (mkIpHdr 69 0 (bswap 2 (wrap 16 (Z.of_nat encap_len + tot))) 0 0 64 17 0
    upf gnb)). intros c.
  change (Z.of_nat encap_len) with 44. change (Z.of_nat GTPU_EXT_HDR_LEN) with 8.
  change (Z.of_nat (UDP_HDR_LEN + GTPU_HDR_LEN + GTPU_EXT_HDR_LEN)) with 24.
  destruct (to_le_bytes_2_bswap (wrap 16 (44 + tot)) (Hw _)) as (h1 & l1 & _ & _ & E1 & A1 & B1).
  destruct (to_le_bytes_2_bswap (wrap 16 (24 + tot)) (Hw _)) as (h2 & l2 & _ & _ & E2 & A2 & B2).
  destruct (to_le_bytes_2_bswap (wrap 16 (tot + 8)) (Hw _)) as (h3 & l3 & _ & _ & E3 & A3 & B3).
  rewrite E1, E2, E3 in *.
  assert (∀ x, u32 x → from_le_bytes (to_le_bytes 4 x) = x) as H4.
  { intros x Hx. rewrite from_to_le_bytes. by apply Z.mod_small. }
  cbn [to_le_bytes app] in *. rewrite A1, B1, A2, B2, A3, B3. unfold be16, u32_at, ext_bytes.
  cbn [app take drop].
  repeat split; try done; try (intros; by apply H4).
Qed.

(** The addresses and the tunnel identifier as they are sent. *)
Lemma encap_addresses mac src upf gnb teid tot inner :
  length mac = 6%nat → length src = 6%nat →
  let out := encap_headers mac src upf gnb teid tot ++ inner in
  take 4 (drop 26 out) = to_le_bytes 4 upf ∧ take 4 (drop 30 out) = to_le_bytes 4 gnb ∧
  take 4 (drop 46 out) = to_le_bytes 4 teid.
Proof.
  intros Hm Hs. do 6 (destruct mac as [|? mac]; [discriminate Hm|]).
  do 6 (destruct src as [|? src]; [discriminate Hs|]).
  destruct mac; [|discriminate Hm]. destruct src; [|discriminate Hs]. repeat split.
Qed.

(** The written frame is a G-PDU around the original packet. *)
Lemma encap_gpdu mac src upf gnb teid tot inner :
  length mac = 6%nat → length src = 6%nat → (24 ≤ length inner)%nat →
  let out := encap_headers mac src upf gnb teid tot ++ inner in
  gpdu out ∧ inner_packet out = inner.
Proof.
  intros Hm Hs Hi. destruct (encap_fields mac src upf gnb teid tot inner Hm Hs)
    as (F1 & F2 & F3 & F4 & F5 & _).
  pose proof (length_encap_headers mac src upf gnb teid tot Hm Hs). cbv zeta.
  set (out := _ ++ inner) in *.
  assert (inner_packet out = inner) as Hinner.
  { unfold inner_packet, outer_total_of, opt_len_of. rewrite F4.
    change (50 + gtpu_opt_len 52)%nat with 58%nat. by apply drop_app_length'. }
  split; [|done]. unfold gpdu, inner_readable. rewrite Hinner. unfold out. rewrite length_app.
  repeat split; try done; lia.
Qed.

(** C37. What the downlink program writes, the uplink program undoes: the
    encapsulated frame is a G-PDU whose inner packet is the original IP packet;
    its IP, UDP and GTP-U length fields are the true lengths when the original
    length field was, and it is addressed to the tunnel's peer and TEID. *)
Theorem encap_decap mac src upf gnb teid inner :
  length mac = 6%nat → length src = 6%nat → u32 gnb → u32 teid →
  (24 ≤ length inner)%nat → Z.of_nat (length inner) + 44 < 65536 →
  let out := encap_headers mac src upf gnb teid (Z.of_nat (length inner)) ++ inner in
  gpdu out ∧ inner_packet out = inner ∧
  be16 out 16 = Z.of_nat (length out) - 14 ∧ be16 out 38 = Z.of_nat (length out) - 34 ∧
  be16 out 44 = Z.of_nat (length out) - 50 ∧
  u32_at out 30 = gnb ∧ u32_at out 46 = teid.
Proof.
  intros Hm Hs Hg Ht Hi Hf. destruct (encap_fields mac src upf gnb teid
    (Z.of_nat (length inner)) inner Hm Hs) as (F1 & F2 & F3 & F4 & F5 & F6 & F7 & F8 & F9 & F10).
  destruct (encap_gpdu mac src upf gnb teid (Z.of_nat (length inner)) inner Hm Hs Hi) as [Hg' Hin].
  pose proof (length_encap_headers mac src upf gnb teid (Z.of_nat (length inner)) Hm Hs).
  cbv zeta. split; [exact Hg'|]. split; [exact Hin|].
  rewrite F6, F7, F8, F9, F10, length_app by done. unfold wrap.
  rewrite !Z.mod_small by lia. repeat split; lia.
Qed.

(** Port filters: user space stores a filter's port as the host integer,
    the program compares it with the two octets of the packet read as a host
    integer.  A PDR that filters on destination port [p] therefore matches
    exactly the packets to the byte-swapped port, and never those to [p] unless
    the two octets of [p] are equal. *)
Theorem port_filter_swapped pdr proto src dst sp p wire :
  u16 p → p ≠ 0 → u16 wire →
  pv_sdf_proto pdr = 0 → pv_sdf_src_ip pdr = 0 → pv_sdf_dst_ip pdr = 0 →
  pv_sdf_src_port pdr = 0 → pv_sdf_dst_port pdr = p →
  (sdf_matches pdr proto src dst sp (bswap 2 wire) = true ↔ wire = bswap 2 p) ∧
  (sdf_matches pdr proto src dst sp (bswap 2 p) = true ↔ bswap 2 p = p).
Proof.
  intros Hp Hp0 Hw H1 H2 H3 H4 H5. unfold sdf_matches. rewrite H1, H2, H3, H4, H5. simpl.
  apply Z.eqb_neq in Hp0. rewrite Hp0. cbn [negb andb].
  assert (∀ x, (if negb (p =? x) then false else true) = true ↔ p = x) as Hx.
  { intros x. destruct (Z.eqb_spec p x); simpl; by split. }
  rewrite !Hx. split; [|split; congruence].
  split; [intros ->|intros ->]; by rewrite bswap_involutive.
Qed.

(** ** The frames on the N3 side, octet by octet

    Written down from the formats (IEEE 802.3, RFC 791, RFC 768, 3GPP TS
    29.281), not from the structures the programs use. *)

(** A 16-bit number in network order. *)
Definition net16 (x : Z) : list Z := [(x / 256) mod 256; x mod 256].

(** The outer IPv4 header: version 4, five words, DSCP 0, identification 0, no
    flags, TTL 64, UDP; the address words as they are stored. *)
Definition tunnel_ip (upf gnb tot : Z) (check : list Z) : list Z :=
  [69; 0] ++ net16 (44 + tot) ++ [0; 0; 0; 0; 64; 17] ++ check
  ++ to_le_bytes 4 upf ++ to_le_bytes 4 gnb.

(** A downlink frame on N3: Ethernet, IPv4, UDP from and to port 2152 without a
    checksum, a GTP-U G-PDU with the E flag, and the PDU Session Container
    (downlink, QFI 1). *)
Definition tunnel_frame (mac src : list Z) (upf gnb teid tot : Z) (check inner : list Z) : list Z :=
  mac ++ src ++ [8; 0] ++ tunnel_ip upf gnb tot check
  ++ [8; 104; 8; 104] ++ net16 (24 + tot) ++ [0; 0]
  ++ [52; 255] ++ net16 (8 + tot) ++ to_le_bytes 4 teid
  ++ [0; 0; 0; 133; 1; 0; 1; 0] ++ inner.

(** The optional GTP-U octets: eight when the E bit is set (sequence number,
    N-PDU number, and one four-octet extension header, the only one the
    program allows for), four when S or PN is. *)
Definition optional_octets (flags : Z) : nat :=
  if Z.testbit flags 2 then 8 else if Z.testbit flags 1 || Z.testbit flags 0 then 4 else 0.

(** An uplink frame: fields the program does not look at are unconstrained. *)
Record uplink_frame (pkt src : list Z) (inner : list Z) : Prop := {
  uplink_parts : ∃ dst ip1 ip2 sport udp gtp opt flags,
    pkt = dst ++ src ++ [8; 0] ++ ip1 ++ [17] ++ ip2 ++ sport ++ [8; 104] ++ udp
          ++ [flags; 255] ++ gtp ++ opt ++ inner ∧
    length dst = 6%nat ∧ length src = 6%nat ∧ length ip1 = 9%nat ∧ length ip2 = 10%nat ∧
    length sport = 2%nat ∧ length udp = 4%nat ∧ length gtp = 6%nat ∧
    length opt = optional_octets flags;
  uplink_inner : inner_readable inner;
}.

Lemma gtpu_opt_len_bits flags : u8 flags → gtpu_opt_len flags = optional_octets flags.
Proof.
  intros Hf.
  assert (Forall (λ n, gtpu_opt_len (Z.of_nat n) = optional_octets (Z.of_nat n)) (seq 0 256)) as Hall
    by (apply (bool_decide_unpack _); vm_compute; exact I).
  rewrite Forall_forall in Hall. specialize (Hall (Z.to_nat flags)).
  unfold u8 in Hf. rewrite Z2Nat.id in Hall by lia. apply Hall, elem_of_seq. lia.
Qed.

Lemma uplink_frame_gpdu pkt src inner :
  bytes_ok pkt → uplink_frame pkt src inner →
  gpdu pkt ∧ inner_packet pkt = inner ∧ take 6 (drop 6 pkt) = src ∧
  outer_total_of pkt = (length pkt - length inner)%nat.
Proof.
  intros Hb [(dst & ip1 & ip2 & sport & udp & gtp & opt & flags & -> & L1 & L2 & L3 & L4 & L5 & L6
    & L7 & L8) Hi].
  assert (u8 flags) as Hf. { repeat (apply Forall_app in Hb as [? Hb]). by inv_bytes. }
  clear Hb. rewrite <-gtpu_opt_len_bits in L8 by done.
  do 6 (destruct dst as [|? dst]; [discriminate|]). destruct dst; [|discriminate].
  do 6 (destruct src as [|? src]; [discriminate|]). destruct src; [|discriminate].
  do 9 (destruct ip1 as [|? ip1]; [discriminate|]). destruct ip1; [|discriminate].
  do 10 (destruct ip2 as [|? ip2]; [discriminate|]). destruct ip2; [|discriminate].
  do 2 (destruct sport as [|? sport]; [discriminate|]). destruct sport; [|discriminate].
  do 4 (destruct udp as [|? udp]; [discriminate|]). destruct udp; [|discriminate].
  do 6 (destruct gtp as [|? gtp]; [discriminate|]). destruct gtp; [|discriminate].
  clear L1 L2 L3 L4 L5 L6 L7. cbn [app].
  match goal with |- gpdu ?x ∧ _ => set (pkt := x) end.
  assert (outer_total_of pkt = 50 + length opt)%nat as Ho by (by rewrite L8).
  assert (inner_packet pkt = inner) as Hin.
  { unfold inner_packet. rewrite Ho. unfold pkt. cbn [Nat.add drop]. by rewrite drop_app_length. }
  assert (length pkt = 50 + length opt + length inner)%nat as Hl.
  { unfold pkt. cbn [length]. rewrite length_app. lia. }
  split; [|split; [done|split; [done|lia]]].
  unfold gpdu. rewrite Hin, Hl. repeat split; try done; first [lia|apply Hi].
Qed.

Lemma net16_be x : to_le_bytes 2 (bswap 2 (wrap 16 x)) = net16 x.
Proof.
  assert (u16 (wrap 16 x)) as Hw by (unfold u16, wrap; apply Z.mod_pos_bound; lia).
  destruct (to_le_bytes_2_bswap _ Hw) as (h & l & Hh & Hl & E & A & B).
  cbn [to_le_bytes]. rewrite A, B. unfold net16, u8, wrap in *. change (2 ^ 16) with 65536 in E.
  f_equal; [|f_equal]; Z.div_mod_to_equations; lia.
Qed.

(** The headers the program builds are these octets. *)
Lemma encap_headers_octets mac src upf gnb teid tot inner :
  ∃ c, u16 c ∧ (be_sum (tunnel_ip upf gnb tot [0; 0]) + c) mod 65535 = 0 ∧
    encap_headers mac src upf gnb teid tot ++ inner =
    tunnel_frame mac src upf gnb teid tot [c mod 256; c / 256] inner.
Proof.
  set (ip := mkIpHdr 69 0 (bswap 2 (wrap 16 (44 + tot))) 0 0 64 17 0 upf gnb).
  assert (IpHdr_bytes ip = tunnel_ip upf gnb tot [0; 0]) as Hip.
  { unfold IpHdr_bytes, ip, tunnel_ip. cbn [version_ihl tos tot_len ip_id frag_off ttl protocol
      check saddr daddr]. by rewrite net16_be. }
  destruct (ip_checksum_octets ip) as (Hc & Hs & _).
  { unfold IpHdr_bytes. repeat first [ apply bytes_ok_app; split | apply bytes_ok_to_le_bytes
      | apply Forall_cons; split; [split; by vm_compute|] | apply Forall_nil; exact I ]. }
  exists (ip_checksum ip). split; [done|]. split; [by rewrite <-Hip|].
  unfold encap_headers, outer_ip, outer_udp, outer_gtpu, tunnel_frame, tunnel_ip. cbv zeta.
  change (Z.of_nat encap_len) with 44. change (Z.of_nat GTPU_EXT_HDR_LEN) with 8.
  change (Z.of_nat (UDP_HDR_LEN + GTPU_HDR_LEN + GTPU_EXT_HDR_LEN)) with 24. fold ip.
  unfold EthHdr_bytes, IpHdr_bytes, UdpHdr_bytes, GtpuHdr_bytes.
  cbn [eth_dst eth_src eth_type version_ihl tos tot_len ip_id frag_off ttl protocol check saddr
    daddr udp_source udp_dest udp_len udp_check gtpu_flags gtpu_msg_type gtpu_length gtpu_teid].
  rewrite !net16_be, (Z.add_comm tot 8).
  assert (to_le_bytes 2 (ip_checksum ip) = [ip_checksum ip mod 256; ip_checksum ip / 256]) as ->.
  { cbn [to_le_bytes]. do 2 f_equal. unfold u16 in Hc. Z.div_mod_to_equations; lia. }
  rewrite <-!(assoc_L (++)). reflexivity.
Qed.

Section tunnel_spec.
Context {M P A : Type → Type}.
Context `{BpfMap M} `{PerCpuMapLaws P} `{BpfArray A} `{XdpHelperLaws}.
Implicit Types m : Maps M P A.

(** The maps the programs only read. *)
Definition tables_kept m m' : Prop :=
  SESSION_MAP m' = SESSION_MAP m ∧ PDR_MAP m' = PDR_MAP m ∧ FAR_MAP m' = FAR_MAP m ∧
  IF_INDEX m' = IF_INDEX m ∧ GW_MAC m' = GW_MAC m.

(** C8. Encapsulation: an IPv4 packet for a UE with a session, that no
    selected FAR drops, leaves through the N3 interface, with the original IP
    packet, octet for octet, behind exactly the 58 octets written out in
    [tunnel_frame]: from the gNB's MAC and the frame's old destination MAC to
    the PDU Session Container, with the UPF's and the tunnel's addresses, the
    TEID, and the three lengths computed from the total length of the inner
    header.  The checksum is the right number [c], but stored with its octets
    swapped.  The packet adds its length and one packet to the transmitted
    counters of the UE on this CPU; no URR is counted and no other map
    changes. *)
Theorem downlink_encap cpu m ctx session gnb teid mac n3 :
  (cpu < pc_cpus)%nat → pkt_len ctx < 2 ^ 64 →
  bytes_ok (packet ctx) → ip_frame (packet ctx) → (44 ≤ headroom ctx)%nat →
  bpf_get (SESSION_MAP m) (u32_at (packet ctx) 30) = Some session →
  selected_drops (downlink_selected m session (packet ctx)) = false →
  packet_tunnel m session = Some (gnb, teid) →
  arr_get (GW_MAC m) 1 = Some mac → length mac = 6%nat →
  arr_get (IF_INDEX m) 0 = Some n3 →
  let tot := be16 (packet ctx) 16 in
  let upf := si_upf_ip session in
  ∃ c m',
    u16 c ∧ (be_sum (tunnel_ip upf gnb tot [0; 0]) + c) mod 65535 = 0 ∧
    try_n6_downlink cpu m ctx =
    mkXdp (wrap 32 (bpf_redirect n3 0))
      (mkCtx (headroom ctx - 44)
        (tunnel_frame mac (take 6 (packet ctx)) upf gnb teid tot [c mod 256; c / 256]
           (drop 14 (packet ctx))))
      m' (Some n3) ∧
    counted (add_tx (pkt_len ctx)) cpu (u32_at (packet ctx) 30) (STATS_MAP m) (STATS_MAP m') ∧
    URR_MAP m' = URR_MAP m ∧ tables_kept m m'.
Proof.
  intros Hc Hlen Hb Hf Hh Hs Hd Ht Hmac Hml Hif. cbv zeta. rewrite <-downlink_target_tunnel in Ht.
  destruct (downlink_redirect cpu m ctx session gnb teid mac n3 Hb Hf Hh Hs Hd Ht Hmac Hml Hif)
    as [Hrun _].
  destruct (encap_headers_octets mac (take 6 (packet ctx)) (si_upf_ip session) gnb teid
    (be16 (packet ctx) 16) (drop 14 (packet ctx))) as (c & Hu & Hsum & Hoct).
  exists c. eexists. split; [done|]. split; [done|]. split; [by rewrite Hrun, Hoct|].
  split; [|done]. apply stats_tx_counted; [done|]. unfold pkt_len in *. lia.
Qed.

(** C9. Decapsulation: a G-PDU ([uplink_frame]: IPv4, UDP to port 2152, message
    type 255, with four or eight optional octets as the flags announce) whose
    inner source address has a session, and which no selected FAR drops,
    leaves through the N6 interface as the inner IP packet, octet for octet,
    behind a new Ethernet header (gateway MAC, the frame's source MAC,
    EtherType IPv4); everything before it, the optional fields included, is
    gone.  The packet adds its length and one packet to the received counters
    of the UE on this CPU, and the maps the program only reads stay as they
    are. *)
Theorem uplink_decap cpu m ctx session src inner br_mac n6 :
  (cpu < pc_cpus)%nat → pkt_len ctx < 2 ^ 64 →
  bytes_ok (packet ctx) → uplink_frame (packet ctx) src inner →
  bpf_get (SESSION_MAP m) (u32_at inner 12) = Some session →
  selected_drops (uplink_selected m session inner) = false →
  arr_get (GW_MAC m) 0 = Some br_mac → length br_mac = 6%nat →
  arr_get (IF_INDEX m) 1 = Some n6 →
  ∃ m',
    try_n3_uplink cpu m ctx =
    mkXdp (wrap 32 (bpf_redirect n6 0))
      (mkCtx (headroom ctx + (length (packet ctx) - length inner) - 14)
         (br_mac ++ src ++ [8; 0] ++ inner))
      m' (Some n6) ∧
    counted (add_rx (pkt_len ctx)) cpu (u32_at inner 12) (STATS_MAP m) (STATS_MAP m') ∧
    tables_kept m m'.
Proof.
  intros Hc Hlen Hb Hf Hs Hd Hmac Hml Hif.
  destruct (uplink_frame_gpdu _ _ _ Hb Hf) as (Hg & Hin & Hsrc & Ho). subst inner.
  exists (uplink_counted cpu m session ctx). split.
  { rewrite (uplink_redirect cpu m ctx session br_mac n6) by done. by rewrite Ho, Hsrc. }
  split; [exact (proj1 (uplink_accounting cpu m session ctx Hc Hlen))|].
  unfold uplink_counted, urr_count. destruct (_ =? 0); [done|].
  by destruct (pc_get (URR_MAP _) _ _).
Qed.
End tunnel_spec.

(** ** A concrete instance *)

Module Example.
#[export] Instance helpers : XdpHelpers := {
  bpf_xdp_adjust_head ctx d :=
    if decide (0 ≤ d) then
      let n := Z.to_nat d in
      if decide (n + 14 ≤ length (packet ctx))%nat
      then Some (mkCtx (headroom ctx + n) (drop n (packet ctx))) else None
    else
      let n := Z.to_nat (- d) in
      if decide (n ≤ headroom ctx ∧ 14 ≤ n + length (packet ctx))%nat
      then Some (mkCtx (headroom ctx - n) (replicate n 0 ++ packet ctx)) else None;
  bpf_redirect ifindex flags := XDP_REDIRECT;
}.

#[export] Instance helper_laws : XdpHelperLaws.
Proof.
  split; simpl.
  - intros ctx n ctx'. rewrite decide_True, Nat2Z.id by lia.
    case_decide; split; try naive_solver.
  - intros ctx n Hn Hl. rewrite decide_False, Z.opp_involutive, Nat2Z.id by lia.
    rewrite decide_True by lia. by eexists.
  - intros ctx n ctx' Hn. rewrite decide_False, Z.opp_involutive, Nat2Z.id by lia.
    case_decide; [|done]. intros [= <-]. exists (replicate n 0).
    by rewrite length_replicate.
Qed.

(** UE 10.10.0.1 with two PDRs, FORW FARs and a tunnel to gNB 172.18.0.23,
    TEID 7. *)
Definition ue : Z := bswap 4 168427521.
Definition gnb : Z := bswap 4 2886860823.

Definition session : SessionInfo :=
  mkSessionInfo 1 (bswap 4 7) gnb (bswap 4 2886860800) [1; 2; 0; 0; 0; 0; 0; 0] 2.

Definition pdr (precedence iface far urr dst_port : Z) : PdrValue :=
  mkPdrValue precedence iface ue 0 far 0 urr 0 0 0 0 0 dst_port.

Definition maps : Maps bounded_map percpu_map array_map :=
  mkMaps (mkBounded 1024 {[ ue := session ]})
    (mkBounded 4096 (list_to_map [(PdrKey_new 1 1, pdr 100 IFACE_ACCESS 1 9 0);
                                  (PdrKey_new 1 2, pdr 100 IFACE_CORE 2 9 0)]))
    (mkBounded 4096 (list_to_map [(FarKey_new 1 1, mkFarValue ACTION_FORW IFACE_CORE 0 0 0);
       (FarKey_new 1 2, mkFarValue ACTION_FORW IFACE_ACCESS gnb (bswap 4 7) 0)]))
    (mkArray [3; 4]) (mkArray [[2;0;0;0;0;1]; [2;0;0;0;0;2]])
    (mkPerCpu 1024 ∅) (mkPerCpu 4096 ∅).

(** A session whose downlink FAR drops. *)
Definition drop_maps : Maps bounded_map percpu_map array_map :=
  set_far_map (mkBounded 4096 (list_to_map
    [(FarKey_new 1 1, mkFarValue ACTION_DROP IFACE_CORE 0 0 0);
     (FarKey_new 1 2, mkFarValue ACTION_DROP IFACE_ACCESS gnb (bswap 4 7) 0)])) maps.

(** An inner UDP packet 10.10.0.1:1000 -> 8.8.8.8:53. *)
Definition inner : list Z :=
  [69;0;0;28;0;0;0;0;64;17;0;0;10;10;0;1;8;8;8;8;3;232;0;53;0;8;0;0].
(** The answer. *)
Definition answer : list Z :=
  [69;0;0;28;0;0;0;0;64;17;0;0;8;8;8;8;10;10;0;1;0;53;3;232;0;8;0;0].

Definition mac_a : list Z := [2;0;0;0;0;10].
Definition mac_b : list Z := [2;0;0;0;0;11].

Definition uplink_with (flags : Z) (opt : list Z) : XdpContext :=
  mkCtx 256 (mac_a ++ mac_b ++ [8;0;69;0;0;64;0;0;0;0;64;17;0;0;172;18;0;23;172;18;0;1;
    8;104;8;104;0;44;0;0; flags;255;0;28;0;0;0;1] ++ opt ++ inner).
Definition uplink_ctx : XdpContext := uplink_with 48 [].
Definition downlink_ctx : XdpContext := mkCtx 256 (mac_a ++ mac_b ++ [8;0] ++ answer).

(** The forwarded packet and the FAR found for it. *)
Definition decapped : list Z := [2;0;0;0;0;1] ++ mac_b ++ [8;0] ++ inner.
End Example.

Import Example.

Ltac closed_dec := apply (bool_decide_unpack _); vm_compute; exact I.

Lemma uplink_accounting_witness :
  (1 < pc_cpus)%nat ∧
  counted (add_dl 78) 1 (UrrKey_new 1 9) (URR_MAP Example.maps)
    (URR_MAP (uplink_counted 1 Example.maps Example.session Example.uplink_ctx)).
Proof.
  assert (1 < pc_cpus (P:=percpu_map))%nat as Hc by (vm_compute; lia).
  split; [exact Hc|].
  exact (proj1 (proj2 (uplink_accounting 1 Example.maps Example.session Example.uplink_ctx Hc
    ltac:(vm_compute; reflexivity)))).
Defined.

Ltac uplink_frame_of flags opt :=
  split; [|closed_dec];
  exists mac_a, [69;0;0;64;0;0;0;0;64], [0;0;172;18;0;23;172;18;0;1], [8;104], [0;44;0;0],
    [0;28;0;0;0;1], opt, flags; repeat split; reflexivity.

(** The same packet without optional octets, with the sequence number alone, and
    with an extension header. *)
Lemma uplink_decap_witness :
  let out flags opt := packet (xr_ctx (try_n3_uplink 1 Example.maps (uplink_with flags opt))) in
  out 48 [] = Example.decapped ∧ out 50 [0; 1; 0; 0] = Example.decapped ∧
  out 52 [0; 0; 0; 133; 1; 16; 1; 0] = Example.decapped.
Proof.
  cbv zeta. split; [|split];
    [ edestruct (uplink_decap 1 Example.maps (uplink_with 48 [])
        Example.session mac_b Example.inner [2;0;0;0;0;1] 4) as (m' & -> & _)
    | edestruct (uplink_decap 1 Example.maps (uplink_with 50 [0; 1; 0; 0])
        Example.session mac_b Example.inner [2;0;0;0;0;1] 4) as (m' & -> & _)
    | edestruct (uplink_decap 1 Example.maps (uplink_with 52 [0; 0; 0; 133; 1; 16; 1; 0])
        Example.session mac_b Example.inner [2;0;0;0;0;1] 4) as (m' & -> & _) ];
    try (vm_compute; reflexivity); try (vm_compute; lia); try check_bytes;
    [ uplink_frame_of 48 (@nil Z) | uplink_frame_of 50 [0; 1; 0; 0]
    | uplink_frame_of 52 [0; 0; 0; 133; 1; 16; 1; 0] ].
Defined.

Lemma uplink_untouched_witness :
  try_n3_uplink 1 Example.maps Example.downlink_ctx =
    mkXdp XDP_PASS Example.downlink_ctx Example.maps None ∧
  try_n3_uplink 1 Example.drop_maps Example.uplink_ctx =
    mkXdp XDP_DROP Example.uplink_ctx Example.drop_maps None.
Proof.
  split.
  - apply (uplink_untouched 1 Example.maps Example.downlink_ctx); [check_bytes|].
    left. closed_dec.
  - apply (proj2 (uplink_untouched 1 Example.drop_maps Example.uplink_ctx ltac:(check_bytes))
      Example.session); [closed_dec|vm_compute; reflexivity..].
Defined.

(** The 86 octets on the wire, up to the checksum. *)
Lemma downlink_encap_witness :
  ∃ c, u16 c ∧
    (be_sum [69;0;0;72;0;0;0;0;64;17;0;0;172;18;0;0;172;18;0;23] + c) mod 65535 = 0 ∧
    packet (xr_ctx (try_n6_downlink 1 Example.maps Example.downlink_ctx)) =
    [2;0;0;0;0;2; 2;0;0;0;0;10; 8;0;
     69;0;0;72; 0;0;0;0; 64;17;c mod 256;c / 256; 172;18;0;0; 172;18;0;23;
     8;104;8;104;0;52;0;0; 52;255;0;36;0;0;0;7; 0;0;0;133;1;0;1;0] ++ Example.answer.
Proof.
  edestruct (downlink_encap 1 Example.maps Example.downlink_ctx Example.session Example.gnb
    (bswap 4 7) [2;0;0;0;0;2] 3) as (c & m' & Hu & Hs & -> & _);
    [vm_compute; lia|vm_compute; reflexivity|check_bytes|closed_dec|vm_compute; lia
    |vm_compute; reflexivity..|].
  exists c. split; [exact Hu|]. split; [exact Hs|reflexivity].
Defined.

Lemma downlink_untouched_witness :
  try_n6_downlink 1 Example.drop_maps Example.downlink_ctx =
  mkXdp XDP_DROP Example.downlink_ctx Example.drop_maps None.
Proof.
  apply (proj2 (downlink_untouched 1 Example.drop_maps Example.downlink_ctx ltac:(check_bytes))
    Example.session); [closed_dec|vm_compute; reflexivity..].
Defined.

Lemma encap_decap_witness :
  inner_packet (encap_headers Example.mac_a Example.mac_b 0 Example.gnb (bswap 4 7) 28
    ++ Example.answer) = Example.answer.
Proof.
  apply (encap_decap Example.mac_a Example.mac_b 0 Example.gnb (bswap 4 7) Example.answer);
    [reflexivity|reflexivity|split; by vm_compute|split; by vm_compute|vm_compute; lia|reflexivity].
Defined.

(** A filter on port 53 matches packets to port 13568. *)
Lemma port_filter_swapped_witness :
  sdf_matches (Example.pdr 100 IFACE_ACCESS 1 9 53) 17 Example.ue 0 0 (bswap 2 13568) = true ∧
  sdf_matches (Example.pdr 100 IFACE_ACCESS 1 9 53) 17 Example.ue 0 0 (bswap 2 53) ≠ true.
Proof.
  destruct (port_filter_swapped (Example.pdr 100 IFACE_ACCESS 1 9 53) 17 Example.ue 0 0 53 13568)
    as [H1 H2]; [split; by vm_compute|discriminate|split; by vm_compute|reflexivity..|].
  split; [apply H1; vm_compute; reflexivity|].
  intros E. apply H2 in E. vm_compute in E. discriminate E.
Defined.
