(* ===== verification/Server.v ===== *)
(** * Server state ([upf-edge/src/association.rs], [upf-edge/src/pfcp_server.rs])

    The associations, the server's tables and counters, the keepalive check
    and the restoration of stored sessions.  A [HashMap] is a [gmap]; an
    [Instant] is an integer (nanoseconds); [tx_tui] is
    whether the terminal's channel was set; what becomes of what is sent to it
    is in [UpfTui.v].  [session_store] is modelled by whether a store is configured:
    what is sent to it is in the [World]'s log. *)

From S2P Require Import Prelude Text Types Header Ie Builder Common.

(** ** Addresses *)

Inductive IpAddr := V4 (ip : Z) | V6 (ip : Z).
Record SocketAddr := mkSocketAddr { sa_ip : IpAddr; sa_port : Z }.

#[export] Instance IpAddr_eq_dec : EqDecision IpAddr.
Proof. solve_decision. Defined.
#[export] Instance SocketAddr_eq_dec : EqDecision SocketAddr.
Proof. solve_decision. Defined.

(** ** Associations *)

Record SessionData := mkSessionData {
  sd_ue_ip : Z; sd_teid : Z; sd_gnb_ip : Z; sd_cp_seid : Z;
}.

(** The widths of the fields. *)
Definition wf_data (data : SessionData) : Prop :=
  u32 (sd_ue_ip data) ∧ u32 (sd_teid data) ∧ u32 (sd_gnb_ip data) ∧ u64 (sd_cp_seid data).

(** ** The terminal's events ([tui/app.rs]) and the calls that send them

    [CallSessionsUpdated] carries the sessions the call reads. *)
Record SessionEntry := mkSessionEntry {
  se_seid : Z; se_ue_ip : Z; se_teid : Z; se_gnb_ip : Z; se_duration : Z;
}.

Inductive AppEvent :=
| Log (msg : str)
| AssociationChanged (v : bool)
| SessionsUpdated (s : list SessionEntry)
| HeartbeatUpdated.

Inductive TuiCall :=
| CallLog (msg : str)
| CallSend (ev : AppEvent)
| CallSessionsUpdated (snapshot : gmap Z SessionData).

#[export] Instance SessionData_eq_dec : EqDecision SessionData.
Proof. solve_decision. Defined.
#[export] Instance TuiCall_eq_dec : EqDecision TuiCall.
Proof.
  assert (EqDecision SessionEntry) by solve_decision.
  assert (EqDecision AppEvent) by solve_decision. solve_decision.
Defined.

Inductive AssociationState := Active | HeartbeatTimeOut.

Record HeartbeatTracker := mkHeartbeat {
  hb_next_seq : Z;
  hb_last_sent : option Z;
  hb_last_response : option Z;
  hb_consecutive_failures : Z;
}.

Definition HeartbeatTracker_new : HeartbeatTracker := mkHeartbeat 200 None None 0.

Record SmfAssociation := mkAssociation {
  as_node_id : Z;
  as_peer_addr : SocketAddr;
  as_recovery_ts : Z;
  as_state : AssociationState;
  as_sessions : gmap Z SessionData;
  as_last_activity : Z;
  as_heartbeat : HeartbeatTracker;
}.

Definition SmfAssociation_new (now node_id : Z) (peer_addr : SocketAddr) (recovery_ts : Z)
    : SmfAssociation :=
  mkAssociation node_id peer_addr recovery_ts Active ∅ now HeartbeatTracker_new.

Definition set_as_sessions (f : gmap Z SessionData → gmap Z SessionData) (a : SmfAssociation) :=
  mkAssociation (as_node_id a) (as_peer_addr a) (as_recovery_ts a) (as_state a)
    (f (as_sessions a)) (as_last_activity a) (as_heartbeat a).

(** ** The server *)

Record UrrConfig := mkUrrConfig {
  uc_urr_id : Z;
  uc_seid : Z;
  uc_cp_seid : Z;
  uc_measurement_method : Z;
  uc_reporting_triggers : Z;
  uc_volume_threshold_total : option Z;
  uc_measurement_period : option Z;
  uc_last_report : Z;
  uc_threshold_reported : bool;
  uc_ur_seqn : Z;
}.

Record PfcpServer := mkServer {
  n4_addr : Z;
  n3_addr : Z;
  recovery_ts : Z;
  associations : gmap Z SmfAssociation;
  next_seid : Z;
  next_teid : Z;
  sessions : gmap Z SessionData;
  urr_configs : gmap (Z * Z) UrrConfig;
  peer_addr : option SocketAddr;
  last_activity : Z;
  tx_tui : bool;
  session_store : bool;
  next_report_seq : Z;
}.

(** [wrapping_add] on [u32]. *)
Definition wrapping_add32 (a b : Z) : Z := wrap 32 (a + b).

Definition PfcpServer_new (unix_now now n4 n3 : Z) : PfcpServer :=
  mkServer n4 n3 (wrapping_add32 (wrap 32 unix_now) 2208980800) ∅ 1 1000 ∅ ∅ None now false false 1000.

Definition set_associations f s := mkServer (n4_addr s) (n3_addr s) (recovery_ts s)
  (f (associations s)) (next_seid s) (next_teid s) (sessions s) (urr_configs s) (peer_addr s)
  (last_activity s) (tx_tui s) (session_store s) (next_report_seq s).
Definition set_sessions f s := mkServer (n4_addr s) (n3_addr s) (recovery_ts s)
  (associations s) (next_seid s) (next_teid s) (f (sessions s)) (urr_configs s) (peer_addr s)
  (last_activity s) (tx_tui s) (session_store s) (next_report_seq s).
Definition set_urr_configs f s := mkServer (n4_addr s) (n3_addr s) (recovery_ts s)
  (associations s) (next_seid s) (next_teid s) (sessions s) (f (urr_configs s)) (peer_addr s)
  (last_activity s) (tx_tui s) (session_store s) (next_report_seq s).
Definition set_peer_addr v s := mkServer (n4_addr s) (n3_addr s) (recovery_ts s)
  (associations s) (next_seid s) (next_teid s) (sessions s) (urr_configs s) v
  (last_activity s) (tx_tui s) (session_store s) (next_report_seq s).
Definition set_last_activity v s := mkServer (n4_addr s) (n3_addr s) (recovery_ts s)
  (associations s) (next_seid s) (next_teid s) (sessions s) (urr_configs s) (peer_addr s)
  v (tx_tui s) (session_store s) (next_report_seq s).
Definition set_counters seid teid report s := mkServer (n4_addr s) (n3_addr s) (recovery_ts s)
  (associations s) seid teid (sessions s) (urr_configs s) (peer_addr s)
  (last_activity s) (tx_tui s) (session_store s) report.

Definition set_session_store (s : PfcpServer) := mkServer (n4_addr s) (n3_addr s)
  (recovery_ts s) (associations s) (next_seid s) (next_teid s) (sessions s) (urr_configs s)
  (peer_addr s) (last_activity s) (tx_tui s) true (next_report_seq s).

Definition set_tui_sender (s : PfcpServer) := mkServer (n4_addr s) (n3_addr s)
  (recovery_ts s) (associations s) (next_seid s) (next_teid s) (sessions s) (urr_configs s)
  (peer_addr s) (last_activity s) true (session_store s) (next_report_seq s).

Definition get_association (node_id : Z) (s : PfcpServer) : option SmfAssociation :=
  associations s !! node_id.

(** The allocators: the value handed out and the server after it. *)
Definition alloc_seid (s : PfcpServer) : Z * PfcpServer :=
  (next_seid s, set_counters (wrap 64 (next_seid s + 1)) (next_teid s) (next_report_seq s) s).
Definition alloc_teid (s : PfcpServer) : Z * PfcpServer :=
  (next_teid s, set_counters (next_seid s) (wrap 32 (next_teid s + 1)) (next_report_seq s) s).
Definition alloc_report_seq (s : PfcpServer) : Z * PfcpServer :=
  (next_report_seq s,
   set_counters (next_seid s) (next_teid s) (wrap 32 (next_report_seq s + 1)) s).

(** [Instant::elapsed]: saturating. *)
Definition elapsed (now t : Z) : Z := Z.max 0 (now - t).

(** [check_keepalive]: the heartbeat to send, its destination, and the
    sequence number afterwards. *)
Definition check_keepalive (now unix_now interval : Z) (s : PfcpServer) (seq : Z)
    : outcome PfcpError (option (list Z * SocketAddr)) * Z :=
  if elapsed now (last_activity s) <? interval then (Ok None, seq) else
  match peer_addr s with
  | None => (Ok None, seq)
  | Some peer =>
      let msg := msg_new (new_node_msg PFCP_HEARTBEAT_REQ seq) in
      let msg := add_recovery_timestamp msg (wrapping_add32 (wrap 32 unix_now) 2208988800) in
      (m ← finish msg; mret (Some (m, peer)), wrap 32 (seq + 1))
  end.

Definition touch_activity (now : Z) (s : PfcpServer) : PfcpServer := set_last_activity now s.

(** One turn of [keepalive_task] after its sleep: the datagram sent, if any.
    [send_ok] is the result of [send_to]. *)
Definition keepalive_turn (now unix_now : Z) (send_ok : bool) (s : PfcpServer) (seq : Z)
    : outcome PfcpError (option (list Z * SocketAddr)) * PfcpServer * Z :=
  match check_keepalive now unix_now 15000000000 s seq with
  | (Ok (Some req), seq) =>
      (Ok (Some req), if send_ok then touch_activity now s else s, seq)
  | (r, seq) => (r, s, seq)
  end.

(** [run], before its loop: sessions loaded from the store. *)
Definition restore_sessions (loaded : list (Z * SessionData)) (s : PfcpServer) : PfcpServer :=
  foldl (λ s '(seid, data), set_sessions (insert seid data) s) s loaded.

(** ** Recovery time stamps *)

(** The NTP time stamp of a Unix time. *)
Definition ntp_of_unix (unix_now : Z) : Z := wrap 32 (unix_now + 2208988800).

Lemma recovery_ts_new unix_now now n4 n3 :
  recovery_ts (PfcpServer_new unix_now now n4 n3) = wrap 32 (unix_now + 2208980800).
Proof.
  unfold PfcpServer_new, wrapping_add32, wrap. simpl. by rewrite Zplus_mod_idemp_l.
Qed.

(** The Recovery Time Stamp the server announces is not the NTP time of its
    start but 8000 seconds earlier, at any time: the offset in [new] is not the
    NTP epoch offset, which the server's own keepalive (and the simulator) use. *)
Theorem recovery_ts_offset unix_now now n4 n3 :
  wrap 32 (recovery_ts (PfcpServer_new unix_now now n4 n3) + 8000) = ntp_of_unix unix_now ∧
  recovery_ts (PfcpServer_new unix_now now n4 n3) ≠ ntp_of_unix unix_now.
Proof.
  rewrite recovery_ts_new. unfold ntp_of_unix, wrap. change (2 ^ 32) with 4294967296.
  rewrite Zplus_mod_idemp_l. split; [f_equal; lia|]. Z.div_mod_to_equations; lia.
Qed.

(** The keepalive: a heartbeat is produced exactly when the server has been
    idle for the interval and knows a peer; it is a complete Heartbeat Request
    to that peer, carrying the current NTP time and the task's sequence number,
    which then advances. *)
Theorem keepalive_spec now unix_now interval s seq :
  0 ≤ seq < 2 ^ 24 →
  match check_keepalive now unix_now interval s seq with
  | (Ok None, seq') => seq' = seq ∧ (elapsed now (last_activity s) < interval ∨ peer_addr s = None)
  | (Ok (Some (msg, peer)), seq') =>
      seq' = seq + 1 ∧ interval ≤ elapsed now (last_activity s) ∧ peer_addr s = Some peer ∧
      ∃ h body, decode msg = Ok (h, body) ∧ hdr_msg_type h = PFCP_HEARTBEAT_REQ ∧
        hdr_seq_num h = seq ∧
        iter_ies body = [parsed_ie PFCP_IE_RECOVERY_TIME_STAMP (to_be_bytes 4 (ntp_of_unix unix_now))]
  | _ => False
  end.
Proof.
  intros Hs. unfold check_keepalive.
  destruct (Z.ltb_spec (elapsed now (last_activity s)) interval); [by auto|].
  destruct (peer_addr s) as [peer|]; [|by auto].
  replace (wrapping_add32 (wrap 32 unix_now) 2208988800) with (ntp_of_unix unix_now)
    by (unfold wrapping_add32, ntp_of_unix, wrap; by rewrite Zplus_mod_idemp_l).
  unfold add_recovery_timestamp, add_ie, msg_new.
  destruct (decode_finish (E:=PfcpError) (new_node_msg PFCP_HEARTBEAT_REQ seq)
    (ie_bytes PFCP_IE_RECOVERY_TIME_STAMP (to_be_bytes 4 (ntp_of_unix unix_now))))
    as (msg & -> & _ & Hd).
  { by apply wf_node_msg. }
  simpl_outcome. split; [unfold wrap; rewrite Z.mod_small; lia|]. split; [done|]. split; [done|].
  eexists _, _. split; [exact Hd|]. split; [done|]. split; [done|].
  rewrite <-(app_nil_r (ie_bytes _ _)), iter_ies_ie_bytes by (done || (by len) || u16_const).
  done.
Qed.

Lemma keepalive_spec_witness :
  (0 ≤ 200 < 2 ^ 24) ∧
  check_keepalive 20 0 15 (PfcpServer_new 0 0 0 0) 200 = (Ok None, 200).
Proof.
  assert (0 ≤ 200 < 2 ^ 24) as Hs by lia. split; [exact Hs|].
  pose proof (keepalive_spec 20 0 15 (PfcpServer_new 0 0 0 0) 200 Hs) as H.
  destruct (check_keepalive 20 0 15 (PfcpServer_new 0 0 0 0) 200) as [[[[msg peer]|]|e|] seq'].
  - destruct H as (_ & _ & Hp & _). discriminate Hp.
  - destruct H as [-> _]. reflexivity.
  - destruct H.
  - destruct H.
Defined.

(** ** The rhythm of the keepalive *)

(** [keepalive_task]: the length of its sleep is computed once, when the task
    is spawned. *)
Definition keepalive_interval : Z := 15000000000.

Definition keepalive_sleep (now : Z) (s : PfcpServer) : Z :=
  if keepalive_interval <=? elapsed now (last_activity s) then 1000000
  else keepalive_interval - elapsed now (last_activity s).

(** Its loop, for the times it wakes up at (the clock, the UNIX time, and
    whether sending succeeds), while nothing else touches the server. *)
Fixpoint keepalive_task (wakes : list (Z * Z * bool)) (s : PfcpServer) (seq : Z)
    : list (outcome PfcpError (option (list Z * SocketAddr))) * PfcpServer * Z :=
  match wakes with
  | [] => ([], s, seq)
  | (now, unix_now, send_ok) :: wakes =>
      let '(r, s, seq) := keepalive_turn now unix_now send_ok s seq in
      let '(rs, s, seq) := keepalive_task wakes s seq in (r :: rs, s, seq)
  end.

(** Waking up exactly when the sleeps end. *)
Fixpoint wakes_from (t sleep unix : Z) (n : nat) : list (Z * Z * bool) :=
  match n with
  | O => []
  | S n => (t, unix, true) :: wakes_from (t + sleep) sleep (unix + sleep / 1000000000) n
  end.

Definition heartbeat_sent (peer : SocketAddr) (r : outcome PfcpError (option (list Z * SocketAddr))) : bool :=
  match r with
  | Ok (Some (msg, dst)) =>
      bool_decide (dst = peer) &&
      match decode msg with Ok (h, _) => hdr_msg_type h =? PFCP_HEARTBEAT_REQ | _ => false end
  | _ => false
  end.

Fixpoint alternating (b : bool) (n : nat) : list bool :=
  match n with O => [] | S n => b :: alternating (negb b) n end.

Lemma keepalive_turn_spec now unix_now s seq peer :
  0 ≤ seq < 2 ^ 24 → peer_addr s = Some peer →
  let '(r, s', seq') := keepalive_turn now unix_now true s seq in
  peer_addr s' = Some peer ∧ 0 ≤ seq' ≤ seq + 1 ∧
  if keepalive_interval <=? elapsed now (last_activity s)
  then heartbeat_sent peer r = true ∧ last_activity s' = now
  else heartbeat_sent peer r = false ∧ last_activity s' = last_activity s.
Proof.
  intros Hseq Hp. unfold keepalive_turn.
  pose proof (keepalive_spec now unix_now 15000000000 s seq Hseq) as Hs.
  destruct (check_keepalive _ _ _ _ _) as [[[[msg dst]|]|e|] seq']; [| |done|done].
  - destruct Hs as (-> & Hi & Hd & h & body & Hdec & Ht & _). rewrite Hp in Hd. injection Hd as <-.
    cbn [touch_activity]. split; [done|]. split; [lia|].
    unfold keepalive_interval. rewrite (proj2 (Z.leb_le _ _)) by done. split; [|done].
    unfold heartbeat_sent. rewrite bool_decide_true, Hdec, Ht by done. done.
  - destruct Hs as [-> [Hi|Hn]]; [|congruence]. split; [done|]. split; [lia|].
    unfold keepalive_interval. by rewrite (proj2 (Z.leb_gt _ _)) by done.
Qed.

Lemma keepalive_alternates sleep n (b : bool) t unix s seq peer :
  peer_addr s = Some peer → 0 ≤ seq → seq + Z.of_nat n < 2 ^ 24 →
  0 < sleep < keepalive_interval → keepalive_interval ≤ 2 * sleep →
  (if b then keepalive_interval ≤ elapsed t (last_activity s) else last_activity s = t - sleep) →
  heartbeat_sent peer <$> (keepalive_task (wakes_from t sleep unix n) s seq).1.1 = alternating b n.
Proof.
  intros Hp H0 Hn Hsl H2 Hb. revert b t unix s seq Hp H0 Hn Hb.
  induction n as [|n IH]; intros b t unix s seq Hp H0 Hn Hb; [done|].
  cbn [wakes_from keepalive_task alternating].
  pose proof (keepalive_turn_spec t unix s seq peer ltac:(lia) Hp) as Ht.
  destruct (keepalive_turn t unix true s seq) as [[r s'] seq'].
  cbv beta iota in Ht. destruct Ht as (Hp' & Hseq' & Hr).
  assert (heartbeat_sent peer r = b ∧ last_activity s' = if b then t else t - sleep) as [Hrb Hla].
  { destruct b.
    - by rewrite (proj2 (Z.leb_le _ _)) in Hr by done.
    - unfold elapsed in Hr. rewrite Hb, (proj2 (Z.leb_gt _ _)) in Hr by lia. done. }
  specialize (IH (negb b) (t + sleep) (unix + sleep / 1000000000) s' seq').
  destruct (keepalive_task _ s' seq') as [[rs s2] seq2]. cbn [fst snd fmap list_fmap] in IH |- *.
  rewrite IH; [by rewrite Hrb|done|lia|lia|].
  destruct b; cbn [negb]; [lia|]. unfold elapsed. lia.
Qed.

Lemma keepalive_every n t unix s seq peer :
  peer_addr s = Some peer → 0 ≤ seq → seq + Z.of_nat n < 2 ^ 24 →
  keepalive_interval ≤ elapsed t (last_activity s) →
  heartbeat_sent peer <$> (keepalive_task (wakes_from t keepalive_interval unix n) s seq).1.1 =
    replicate n true.
Proof.
  revert t unix s seq; induction n as [|n IH]; intros t unix s seq Hp H0 Hn Hb; [done|].
  cbn [wakes_from keepalive_task replicate].
  pose proof (keepalive_turn_spec t unix s seq peer ltac:(lia) Hp) as Ht.
  destruct (keepalive_turn t unix true s seq) as [[r s'] seq'].
  cbv beta iota in Ht. destruct Ht as (Hp' & Hseq' & Hr). rewrite (proj2 (Z.leb_le _ _)) in Hr by done.
  destruct Hr as [Hrb Hla].
  specialize (IH (t + keepalive_interval) (unix + keepalive_interval / 1000000000) s' seq').
  destruct (keepalive_task _ s' seq') as [[rs s2] seq2]. cbn [fst snd fmap list_fmap] in IH |- *.
  rewrite IH; [by rewrite Hrb|done|lia|lia|]. unfold elapsed. lia.
Qed.


