(* ===== verification/UpfTui.v ===== *)
(** * The UPF's terminal ([upf-edge/src/tui/app.rs], [upf-edge/src/tui/runner.rs])

    The state of the screen, the events the server sends to it
    ([tui_log], [tui_sessions_updated], [tui_send] of [pfcp_server.rs]), the
    commands, and the turns of [run_loop].  The channel between the two is in
    [Feed.v], drawing in [Ui.v]; the raw mode of the terminal and the editing of
    the input line are not modelled: a key event carries the first line of the
    text area.  The [f32] readings of sysinfo are
    values of a type of their own. *)

From S2P Require Import Prelude Text Commands LogBuffer.
From S2P Require Import Types Header Ie Builder Common Server.

(** ** What the server sends

    [tx_tui] is the channel when there is one; [try_send] drops the event when
    the channel has no room, which is not an error.  [iter] is the order in
    which the [HashMap] yields its entries. *)
Definition tui_send (tx_tui : bool) (room : bool) (ev : AppEvent) : list AppEvent :=
  if tx_tui && room then [ev] else [].

Definition tui_log (tx_tui room : bool) (msg : str) : list AppEvent :=
  tui_send tx_tui room (Log msg).

Definition session_entry (now seid : Z) (data : SessionData) : SessionEntry :=
  mkSessionEntry seid (sd_ue_ip data) (sd_teid data) (sd_gnb_ip data) now.

Definition tui_sessions_updated (iter : gmap Z SessionData → list (Z * SessionData)) (now : Z)
    (tx_tui room : bool) (s : PfcpServer) : list AppEvent :=
  tui_send tx_tui room
    (SessionsUpdated ((λ '(seid, data), session_entry now seid data) <$> iter (sessions s))).

(** The three methods of [PfcpServer], as the handlers call them. *)
Definition tui_call (iter : gmap Z SessionData → list (Z * SessionData)) (now : Z)
    (tx_tui room : bool) (c : TuiCall) : list AppEvent :=
  match c with
  | CallLog msg => tui_log tx_tui room msg
  | CallSend ev => tui_send tx_tui room ev
  | CallSessionsUpdated m => tui_send tx_tui room
      (SessionsUpdated ((λ '(seid, data), session_entry now seid data) <$> iter m))
  end.

(** ** The screen *)

Section tui.
Context {F32 : Type}.

Record App := mkApp {
  logs : list LogEntry;
  app_sessions : list SessionEntry;
  associated : bool;
  last_hb_secs : Z;
  cpu_pct : F32;
  mem_pct : F32;
  should_quit : bool;
}.

Definition App_new (zero : F32) : App := mkApp [] [] false 0 zero zero false.

Definition set_logs l a := mkApp l (app_sessions a) (associated a) (last_hb_secs a)
  (cpu_pct a) (mem_pct a) (should_quit a).
Definition set_app_sessions s a := mkApp (logs a) s (associated a) (last_hb_secs a)
  (cpu_pct a) (mem_pct a) (should_quit a).
Definition set_associated v a := mkApp (logs a) (app_sessions a) v (last_hb_secs a)
  (cpu_pct a) (mem_pct a) (should_quit a).
Definition set_last_hb_secs v a := mkApp (logs a) (app_sessions a) (associated a) v
  (cpu_pct a) (mem_pct a) (should_quit a).
Definition set_readings cpu mem a := mkApp (logs a) (app_sessions a) (associated a)
  (last_hb_secs a) cpu mem (should_quit a).
Definition set_should_quit v a := mkApp (logs a) (app_sessions a) (associated a)
  (last_hb_secs a) (cpu_pct a) (mem_pct a) v.

Definition App_log (time msg : str) (a : App) : App :=
  set_logs (log_push (logs a) (mkLogEntry time msg)) a.

Definition session_count (a : App) : nat := length (app_sessions a).

(** ** Commands

    [clock i] is the time the [i]-th call of [log] reads. *)
Fixpoint log_lines (clock : nat → str) (i : nat) (lines : list str) (a : App) : App :=
  match lines with
  | [] => a
  | line :: lines => log_lines clock (S i) lines (App_log (clock i) line a)
  end.

Definition session_line (s : SessionEntry) : str :=
  lit "  SEID=" ++ show_hex (se_seid s) ++ lit "  UE=" ++ show_ipv4 (se_ue_ip s) ++
  lit "  TEID=" ++ show_hex (se_teid s) ++ lit "  gNB=" ++ show_ipv4 (se_gnb_ip s).

Definition execute_command (clock : nat → str) (input : str) (a : App) : App :=
  let a := App_log (clock 0%nat) (lit "> " ++ input) a in
  match UpfCommand_from_input input with
  | Ok UpfShowSessions =>
      match app_sessions a with
      | [] => App_log (clock 1%nat) (lit "no session") a
      | sessions =>
          let a := App_log (clock 1%nat) (lit " Total " ++
            show_dec (Z.of_nat (length sessions)) ++ lit " sessions(s)") a in
          log_lines clock 2 (session_line <$> sessions) a
      end
  | Ok (UpfShowSession seid) =>
      match List.find (λ s, se_seid s =? seid) (app_sessions a) with
      | Some s =>
          let a := App_log (clock 1%nat) (lit "  SEID    : " ++ show_hex (se_seid s)) a in
          let a := App_log (clock 2%nat) (lit "  UE IP   : " ++ show_ipv4 (se_ue_ip s)) a in
          let a := App_log (clock 3%nat) (lit "  TEID    : " ++ show_hex (se_teid s)) a in
          App_log (clock 4%nat) (lit "  gNB IP  : " ++ show_ipv4 (se_gnb_ip s)) a
      | None => App_log (clock 1%nat) (lit "  SEID    : " ++ show_hex seid ++ lit " 없음") a
      end
  | Ok UpfClear => set_logs [] a
  | Ok UpfHelp => log_lines clock 1 (lines upf_help_text) a
  | Ok UpfQuit => set_should_quit true a
  | Err e => App_log (clock 1%nat) (lit "  명령어 파싱 실패: " ++ e) a
  | Panic => a
  end.

(** ** The loop *)

(** [saturating_add] on [u64]. *)
Definition saturating_add64 (a b : Z) : Z := Z.min (a + b) (2 ^ 64 - 1).

(** What [select!] yields: the end of the 500 ms sleep, with the readings when
    a second has passed since the last ones; a message of the channel, [None]
    when it is closed; a key. *)
Inductive LoopEvent :=
| SleepElapsed (readings : option (F32 * F32))
| ChannelEvent (ev : option AppEvent)
| KeyCtrlC
| KeyEnter (first_line : str)
| KeyOther.

(** The body of one turn; [None] when it leaves the loop by [break]. *)
Definition handle_event (clock : nat → str) (ev : LoopEvent) (a : App) : option App :=
  match ev with
  | SleepElapsed readings =>
      let a := set_last_hb_secs (saturating_add64 (last_hb_secs a) 1) a in
      Some (match readings with Some (cpu, mem) => set_readings cpu mem a | None => a end)
  | ChannelEvent (Some (Log msg)) => Some (App_log (clock 0%nat) msg a)
  | ChannelEvent (Some (AssociationChanged v)) =>
      Some (App_log (clock 0%nat)
        (lit (if v : bool then "✅ UPF Associated" else "❌ UPF Disassociated"))
        (set_associated v a))
  | ChannelEvent (Some (SessionsUpdated s)) => Some (set_app_sessions s a)
  | ChannelEvent (Some HeartbeatUpdated) => Some (set_last_hb_secs 0 a)
  | ChannelEvent None => None
  | KeyCtrlC => Some (set_should_quit true a)
  | KeyEnter first_line =>
      let input := trim first_line in
      Some (match input with [] => a | _ => execute_command clock input a end)
  | KeyOther => Some a
  end.

(** A turn and the test at its end: the screen, and whether the loop ends. *)
Definition loop_turn (clock : nat → str) (ev : LoopEvent) (a : App) : App * bool :=
  match handle_event clock ev a with
  | None => (a, true)
  | Some a => (a, should_quit a)
  end.

Fixpoint loop (clock : nat → nat → str) (turn : nat) (events : list LoopEvent) (a : App)
    : App * bool :=
  match events with
  | [] => (a, false)
  | ev :: events =>
      let '(a, ended) := loop_turn (clock turn) ev a in
      if ended : bool then (a, true) else loop clock (S turn) events a
  end.

(** The screen the loop starts with. *)
Definition start_screen (zero : F32) (start : str) : App :=
  App_log start (lit " smf-sim TUI Start! Check the'help' command.") (App_new zero).

Definition run_loop (zero : F32) (clock : nat → nat → str) (start : str)
    (events : list LoopEvent) : App * bool :=
  loop clock 0 events (start_screen zero start).
End tui.
Arguments App : clear implicits.
Arguments LoopEvent : clear implicits.

(** ** The loop ends when it should *)

Section tui_spec.
Context {F32 : Type}.
Implicit Types a : App F32.

Definition is_quit (input : str) : bool :=
  match UpfCommand_from_input input with Ok UpfQuit => true | _ => false end.

(** The events that end the loop, whatever the screen shows. *)
Definition quits (ev : LoopEvent F32) : bool :=
  match ev with
  | ChannelEvent None | KeyCtrlC => true
  | KeyEnter l => is_quit (trim l)
  | _ => false
  end.

(** What every turn preserves: at most 200 lines of log, a counter of 64 bits. *)
Definition app_ok a : Prop := (length (logs a) ≤ 200)%nat ∧ u64 (last_hb_secs a).

Lemma App_log_ok time msg a : app_ok a → app_ok (App_log time msg a).
Proof. intros [Hl Hh]. split; [by apply log_push_bounded|done]. Qed.

Lemma log_lines_ok clock i ls a : app_ok a → app_ok (log_lines clock i ls a).
Proof. revert i a; induction ls as [|l ls IH]; intros i a Ha; [done|]. by apply IH, App_log_ok. Qed.

Lemma log_lines_quit clock i ls a : should_quit (log_lines clock i ls a) = should_quit a.
Proof. revert i a; induction ls as [|l ls IH]; intros i a; [done|]. simpl. by rewrite IH. Qed.

#[local] Hint Resolve App_log_ok log_lines_ok : core.

Lemma execute_command_ok clock input a : app_ok a → app_ok (execute_command clock input a).
Proof.
  intros Ha. unfold execute_command.
  assert (∀ b, app_ok b → app_ok (set_logs [] b)) as Hc by (intros b [_ Hh]; split; [simpl; lia|done]).
  assert (∀ b, app_ok b → app_ok (set_should_quit true b)) as Hq by done.
  repeat case_match; auto 10.
Qed.

Lemma execute_command_quit clock input a :
  should_quit (execute_command clock input a) =
  should_quit a || is_quit input.
Proof.
  unfold execute_command, is_quit.
  by destruct (UpfCommand_from_input input) as [[]| |]; rewrite ?orb_true_r, ?orb_false_r;
    try case_match; rewrite ?log_lines_quit.
Qed.

Lemma handle_event_spec clock ev a :
  match handle_event clock ev a with
  | Some a' => (app_ok a → app_ok a') ∧ should_quit a' = should_quit a || quits ev
  | None => quits ev = true
  end.
Proof.
  destruct ev as [r|[[msg|v|ss|]|]| |l|]; simpl; rewrite ?orb_false_r, ?orb_true_r.
  - destruct r as [[cpu mem]|]; (split; [|done]); intros [Hl Hh]; (split; [done|]);
      change (u64 (saturating_add64 (last_hb_secs a) 1)); unfold saturating_add64;
      change (2 ^ 64 - 1) with 18446744073709551615; by uint.
  - split; [apply App_log_ok|done].
  - split; [|done]. intros Ha. apply App_log_ok. exact Ha.
  - split; [|done]. exact id.
  - split; [|done]. intros [Hl _]. split; [done|]. change (u64 0). by uint.
  - done.
  - split; [|done]. exact id.
  - destruct (trim l) as [|c s] eqn:E.
    + split; [done|]. by rewrite orb_false_r.
    + rewrite <-E. split; [apply execute_command_ok|apply execute_command_quit].
  - done.
Qed.

Lemma loop_spec clock n evs a :
  app_ok a → should_quit a = false →
  app_ok (loop clock n evs a).1 ∧ (loop clock n evs a).2 = existsb quits evs.
Proof.
  revert n a; induction evs as [|ev evs IH]; intros n a Ha Hq; [done|].
  change (existsb quits (ev :: evs)) with (quits ev || existsb quits evs).
  cbn [loop]. unfold loop_turn.
  pose proof (handle_event_spec (clock n) ev a) as Hev.
  destruct (handle_event (clock n) ev a) as [a'|]; [|split; [done|by rewrite Hev]].
  destruct Hev as [Ha' Hq']. rewrite Hq in Hq'. change (should_quit a' = quits ev) in Hq'.
  destruct (should_quit a') eqn:E; rewrite <-Hq'; [split; [by apply Ha'|done]|].
  apply IH; [by apply Ha'|done].
Qed.

(** The terminal's loop ends exactly when one of its events asks for it
    (Ctrl-C, a [quit] command, the closing of the server's channel), whatever
    the state of the screen, and at every point its log holds at most 200
    lines and its heartbeat counter fits its 64 bits. *)
Theorem terminal_loop zero clock start evs :
  let r := run_loop (F32:=F32) zero clock start evs in
  r.2 = existsb quits evs ∧ (length (logs r.1) ≤ 200)%nat ∧ u64 (last_hb_secs r.1).
Proof.
  cbv zeta. unfold run_loop.
  destruct (loop_spec clock 0 evs (start_screen zero start)) as [Hok Hend]; [|done|by split].
  apply App_log_ok. split; [simpl; lia|]. change (u64 0). by uint.
Qed.

(** ** What the operator reads is what the server recorded *)

Lemma find_entry iter now (m : gmap Z SessionData) seid data :
  iter m ≡ₚ map_to_list m → m !! seid = Some data →
  List.find (λ s, se_seid s =? seid) ((λ '(seid, data), session_entry now seid data) <$> iter m)
  = Some (session_entry now seid data).
Proof.
  intros Hp Hm. set (l := _ <$> iter m).
  assert (∀ e, e ∈ l → ∃ k d, e = session_entry now k d ∧ m !! k = Some d) as Hl.
  { intros e He. apply list_elem_of_fmap in He as ([k d] & -> & Hin). rewrite Hp in Hin.
    apply elem_of_map_to_list in Hin. by exists k, d. }
  destruct (List.find _ l) as [e|] eqn:Ef.
  - apply find_some in Ef as [Hin Hk]. apply list_elem_of_In, Hl in Hin as (k & d & -> & Hd).
    apply Z.eqb_eq in Hk. simpl in Hk. subst k. by simplify_eq.
  - assert (session_entry now seid data ∈ l) as Hin.
    { apply list_elem_of_fmap. exists (seid, data). split; [done|]. rewrite Hp.
      by apply elem_of_map_to_list. }
    apply list_elem_of_In in Hin. pose proof (find_none _ _ Ef _ Hin) as Hn.
    cbn in Hn. by rewrite Z.eqb_refl in Hn.
Qed.

Lemma find_missing iter now (m : gmap Z SessionData) seid :
  iter m ≡ₚ map_to_list m → m !! seid = None →
  List.find (λ s, se_seid s =? seid) ((λ '(seid, data), session_entry now seid data) <$> iter m)
  = None.
Proof.
  intros Hp Hm. destruct (List.find _ _) as [e|] eqn:Ef; [|done].
  apply find_some in Ef as [Hin Hk]. apply list_elem_of_In, list_elem_of_fmap in Hin as ([k d] & -> & Hin).
  rewrite Hp in Hin. apply elem_of_map_to_list in Hin. apply Z.eqb_eq in Hk. cbn in Hk. congruence.
Qed.

Definition entries (clock : nat → str) (msgs : list str) : list LogEntry :=
  imap (λ i msg, mkLogEntry (clock i) msg) msgs.

(** An operator who asks for a session by its SEID, in decimal or in
    hexadecimal and with any white space, is shown the SEID, UE address, TEID
    and gNB address that the server has recorded under it: the server's
    update reached the screen whole, and the five lines are appended to the
    window of the last 200. *)
Theorem shown_session clock iter now (s : PfcpServer) seid data a evs input w :
  (∀ m, iter m ≡ₚ map_to_list m) → sessions s !! seid = Some data →
  tui_sessions_updated iter now true true s = evs →
  split_whitespace input = [lit "show"; lit "session"; w] → seid_word w seid →
  (length (logs a) ≤ 200)%nat →
  let a' := foldl (λ a ev, default a (handle_event clock (ChannelEvent (Some ev)) a)) a evs in
  logs (execute_command clock input a') = last_n 200 (logs a ++ entries clock
    [lit "> " ++ input; lit "  SEID    : " ++ show_hex seid;
     lit "  UE IP   : " ++ show_ipv4 (sd_ue_ip data);
     lit "  TEID    : " ++ show_hex (sd_teid data);
     lit "  gNB IP  : " ++ show_ipv4 (sd_gnb_ip data)]).
Proof.
  intros Hiter Hs <- Hw Hseid Hl a'.
  assert (app_sessions a' =
    (λ '(seid, data), session_entry now seid data) <$> iter (sessions s)) as Ha by done.
  assert (logs a' = logs a) as Hla by done. clearbody a'. rewrite <-Hla in *. clear Hla.
  assert (UpfCommand_from_input input = Ok (UpfShowSession seid)) as Hc.
  { apply upf_command_exact. rewrite Hw. by constructor. }
  unfold execute_command. rewrite Hc. cbv zeta.
  change (app_sessions (App_log (clock 0%nat) (lit "> " ++ input) a')) with (app_sessions a').
  rewrite Ha, (find_entry iter now _ _ _ (Hiter _) Hs). unfold App_log.
  cbn [logs set_logs se_seid se_ue_ip se_teid se_gnb_ip session_entry].
  rewrite <-(last_n_all 200 (logs a')) at 1 by done. rewrite !log_push_window.
  by rewrite <-!(assoc_L (++)).
Qed.
End tui_spec.

Definition shown_server : PfcpServer :=
  set_sessions (insert 26 (mkSessionData 170721281 1000 3232235543 7)) (PfcpServer_new 0 0 0 0).

Lemma shown_session_witness :
  le_message <$> logs (execute_command (λ _, []) (lit " show  session 0X1a ")
    (set_app_sessions [mkSessionEntry 26 170721281 1000 3232235543 5] (App_new (F32:=Z) 0))) =
  [lit ">  show  session 0X1a "; lit "  SEID    : 0x1a"; lit "  UE IP   : 10.45.0.1";
   lit "  TEID    : 0x3e8"; lit "  gNB IP  : 192.168.0.23"].
Proof.
  pose proof (shown_session (λ _, []) map_to_list 5 shown_server 26
    (mkSessionData 170721281 1000 3232235543 7) (App_new (F32:=Z) 0)
    (tui_sessions_updated map_to_list 5 true true shown_server) (lit " show  session 0X1a ")
    (lit "0X1a") (λ m, Permutation_refl _) (lookup_insert_eq _ _ _) eq_refl) as H.
  assert (split_whitespace (lit " show  session 0X1a ") =
    [lit "show"; lit "session"; lit "0X1a"]) as Hw by (vm_compute; reflexivity).
  assert (seid_word (lit "0X1a") 26) as Hs.
  { apply seid_value_spec. vm_compute. reflexivity. }
  specialize (H Hw Hs). 
  assert (length (logs (App_new (F32:=Z) 0%Z)) ≤ 200)%nat as Hl by (simpl; lia).
  specialize (H Hl). cbv zeta in H.
  apply (f_equal (fmap le_message)) in H. etransitivity; [|etransitivity; [exact H|]].
  - vm_compute. reflexivity.
  - vm_compute. reflexivity.
Defined.
