(* ===== verification/Startup.v ===== *)
(** * Start-up ([upf-edge/src/main.rs], [config.rs]) and the UE routes of
      [handle_msg.rs]

    How the settings of the command line and of the configuration file are
    combined, how the MAC addresses and interface indices the XDP programs need
    are found and installed, and how the server is made from them.  The machine
    (files, the [ip] and [ping] commands, attaching a program, Redis and
    Prometheus clients) is an interface, [Host], each operation of which may
    fail with an error of its own; the texts [anyhow] adds to an error on its
    way up are not distinguished. *)

From S2P Require Import Prelude Text Types Header Ie Builder Common Server.

(** ** The configuration file

    A [Doc] is what the file says: a section or a key may be missing.  Reading
    it as TOML is the [toml] crate's; the defaults are those of the
    [#[serde(default)]] attributes. *)

Record InterfacesConfig := mkInterfaces {
  n3_iface : option str; if_n3_addr : option str; n6_iface : option str;
  ue_deliver_iface : option str;
}.
Record PfcpConfig := mkPfcp { pfcp_n4_addr : option str; n4_port : Z }.
Record PeersConfig := mkPeers {
  gnb_mac : option str; gnb_addr : option str; smf_addr : option str;
}.
Record RedisConfig := mkRedis { url : str; redis_enabled : bool }.
Record MetricsConfig := mkMetrics { metrics_enabled : bool; listen_addr : str }.

Record UpfConfig := mkConfig {
  interfaces : InterfacesConfig; pfcp : PfcpConfig; peers : PeersConfig; redis : RedisConfig;
  metrics : MetricsConfig;
}.

Definition default_metrics_enabled : bool := true.
Definition default_metrics_addr : str := lit "0.0.0.0:9091".
Definition default_pfcp_port : Z := 8805.
Definition default_redis_url : str := lit "redis://127.0.0.1/".
Definition default_true : bool := true.

(** [Default]: derived for the first three, which for [n4_port] is 0. *)
Definition InterfacesConfig_default : InterfacesConfig := mkInterfaces None None None None.
Definition PfcpConfig_default : PfcpConfig := mkPfcp None 0.
Definition PeersConfig_default : PeersConfig := mkPeers None None None.
Definition RedisConfig_default : RedisConfig := mkRedis default_redis_url true.
Definition MetricsConfig_default : MetricsConfig := mkMetrics true default_metrics_addr.
Definition UpfConfig_default : UpfConfig :=
  mkConfig InterfacesConfig_default PfcpConfig_default PeersConfig_default RedisConfig_default
    MetricsConfig_default.

(** What a file says about a section that has keys with defaults. *)
Record PfcpDoc := mkPfcpDoc { doc_n4_addr : option str; doc_n4_port : option Z }.
Record RedisDoc := mkRedisDoc { doc_url : option str; doc_redis_enabled : option bool }.
Record MetricsDoc := mkMetricsDoc { doc_enabled : option bool; doc_listen_addr : option str }.
Record Doc := mkDoc {
  doc_interfaces : option InterfacesConfig; doc_pfcp : option PfcpDoc;
  doc_peers : option PeersConfig; doc_redis : option RedisDoc; doc_metrics : option MetricsDoc;
}.

(** The derived [Deserialize]. *)
Definition of_doc (d : Doc) : UpfConfig := {|
  interfaces := default InterfacesConfig_default (doc_interfaces d);
  pfcp := match doc_pfcp d with
          | Some p => mkPfcp (doc_n4_addr p) (default default_pfcp_port (doc_n4_port p))
          | None => PfcpConfig_default end;
  peers := default PeersConfig_default (doc_peers d);
  redis := match doc_redis d with
           | Some r => mkRedis (default default_redis_url (doc_url r))
                         (default default_true (doc_redis_enabled r))
           | None => RedisConfig_default end;
  metrics := match doc_metrics d with
             | Some m => mkMetrics (default default_metrics_enabled (doc_enabled m))
                           (default default_metrics_addr (doc_listen_addr m))
             | None => MetricsConfig_default end;
|}.

(** ** The machine *)

Inductive StartError (E : Type) :=
| EHost (e : E)
| EConfigParse
| EInvalidIp (s : str)
| EInvalidByte
| EInvalidMac (s : str)
| EConfigMac
| EConfigAddr
| EArpFailed (addr : Z)
| EGnbUnknown
| EIfIndex
| EMapSet
| EIpCommand (route neigh : bool).
Arguments EHost {E} _.
Arguments EConfigParse {E}.
Arguments EInvalidIp {E} _.
Arguments EInvalidByte {E}.
Arguments EInvalidMac {E} _.
Arguments EConfigMac {E}.
Arguments EConfigAddr {E}.
Arguments EArpFailed {E} _.
Arguments EGnbUnknown {E}.
Arguments EIfIndex {E}.
Arguments EMapSet {E}.
Arguments EIpCommand {E} _ _.

Inductive XdpProgram := upf_edge_n3 | upf_edge_n6.

Class Host (H E : Type) := {
  (** [Path::exists], [read_to_string] *)
  path_exists : str → H → bool;
  read_to_string : str → st H (StartError E) str;
  (** [ip args..] with its exit status, and with its output as text *)
  ip_status : list str → st H (StartError E) bool;
  ip_output : list str → st H (StartError E) str;
  (** [ping args..], whose result is ignored *)
  ping : list str → H → H;
  (** [Ebpf::load] *)
  ebpf_load : st H (StartError E) unit;
  (** [program.load()] and [program.attach(iface, SKB_MODE)] *)
  attach : XdpProgram → str → st H (StartError E) unit;
  (** [redis::Client::open] *)
  client_open : str → H → bool;
  (** parsing the address and installing the exporter *)
  exporter_init : str → st H (StartError E) unit;
}.

Section startup.
Context {H E : Type} `{!Host H E}.

Abbreviation prog := (st H (StartError E)).

(** ** Settings *)

(** [UpfConfig::load]; [from_str] stands for [toml::from_str]. *)
Definition load (from_str : str → option Doc) (path : str) : prog UpfConfig :=
  ex ← gets (path_exists path);
  if negb ex then mret UpfConfig_default else
  content ← read_to_string path;
  lift (ok_or (of_doc <$> from_str content) EConfigParse).

Definition load_or_default (from_str : str → option Doc) (explicit : option str) : prog UpfConfig :=
  load from_str (default (lit "upf-edge/configs/upf-edge-default.toml") explicit).

Definition override_with_config (cli_value cli_default : str) (config_value : option str) : str :=
  if negb (bool_decide (cli_value = cli_default)) then cli_value
  else default cli_value config_value.

Definition override_ipv4_with_config (cli_value cli_default : Z) (config_value : option str)
    : outcome (StartError E) Z :=
  if negb (cli_value =? cli_default) then Ok cli_value
  else match config_value with
       | Some s => ok_or (parse_ipv4 s) (EInvalidIp s)
       | None => Ok cli_value
       end.

(** ** MAC addresses *)

Definition colon (c : Z) : bool := c =? 58.

Definition parse_mac (s : str) : outcome (StartError E) (list Z) :=
  parts ← mapM (λ p, ok_or (from_str_radix 8 16 p) EInvalidByte) (split colon (trim s));
  if negb (length parts =? 6)%nat then Err (EInvalidMac s) else mret parts.

Definition read_arp_cache (addr : Z) : prog (option (list Z)) :=
  s ← ip_output [lit "neigh"; lit "show"; show_ipv4 addr];
  match after_first (lit "lladdr ") s with
  | Some rest =>
      let mac_str := take_until is_whitespace rest in
      if (length (split colon mac_str) =? 6)%nat then
        mac ← lift (parse_mac mac_str);
        mret (Some mac)
      else mret None
  | None => mret None
  end.

Definition arp_learn_mac (addr : Z) : prog (list Z) :=
  cached ← read_arp_cache addr;
  match cached with
  | Some mac => mret mac
  | None =>
      modify (ping [lit "-c"; lit "1"; lit "-W"; lit "1"; show_ipv4 addr]);;
      learned ← read_arp_cache addr;
      lift (ok_or learned (EArpFailed addr))
  end.

Definition read_iface_mac (iface : str) : prog (list Z) :=
  s ← read_to_string (lit "/sys/class/net/" ++ iface ++ lit "/address");
  lift (parse_mac (trim s)).

Definition read_gnb_mac (config_mac config_addr : option str) : prog (list Z) :=
  match config_mac with
  | Some mac_str => lift (map_err (λ _, EConfigMac) (parse_mac mac_str))
  | None =>
      match config_addr with
      | Some addr_str =>
          addr ← lift (ok_or (parse_ipv4 addr_str) EConfigAddr);
          arp_learn_mac addr
      | None => fail EGnbUnknown
      end
  end.

Definition read_ifindex (iface : str) : prog Z :=
  s ← read_to_string (lit "/sys/class/net/" ++ iface ++ lit "/ifindex");
  lift (ok_or (parse_uint 32 (trim s)) EIfIndex).

(** ** The routes of the UEs *)

(** [UE_DELIVER_IFACE]: set once. *)
Definition set_ue_deliver_iface (iface : str) (cell : option str) : option str :=
  match cell with Some i => Some i | None => Some iface end.
Definition deliver_iface (cell : option str) : str := default (lit "upfedge1") cell.

Definition setup_ue_route (cell : option str) (ue_ip : Z) : prog unit :=
  let iface := deliver_iface cell in
  mac ← read_to_string (lit "/sys/class/net/" ++ iface ++ lit "/address");
  let mac := trim mac in
  let ue_ip_str := show_ipv4 ue_ip in
  let cidr := ue_ip_str ++ lit "/32" in
  r1 ← ip_status [lit "route"; lit "replace"; cidr; lit "dev"; iface];
  r2 ← ip_status [lit "neigh"; lit "replace"; ue_ip_str; lit "lladdr"; mac; lit "dev"; iface;
                  lit "nud"; lit "permanent"];
  if r1 && r2 then mret () else fail (EIpCommand r1 r2).

(** [let _ = m]: whether it failed is not looked at. *)
Definition ignore {A} (m : prog A) : prog unit := λ h, (Ok (), (m h).2).

Definition teardown_ue_route (cell : option str) (ue_ip : Z) : prog unit :=
  let iface := deliver_iface cell in
  let cidr := show_ipv4 ue_ip ++ lit "/32" in
  let ue_ip_s := show_ipv4 ue_ip in
  ignore (ip_status [lit "route"; lit "del"; cidr; lit "dev"; iface]);;
  ignore (ip_status [lit "neigh"; lit "del"; ue_ip_s; lit "dev"; iface]).
End startup.

(** ** [main], up to the server's run *)

Record Opt := mkOpt {
  o_config : option str; o_iface_n3 : str; o_iface_n6 : str; o_n4_addr : Z; o_n3_addr : Z;
  o_tui : bool;
}.

(** What start-up changes: the machine, [UE_DELIVER_IFACE] and the maps. *)
Record Boot (H : Type) (M P A : Type → Type) := mkBoot {
  b_host : H; b_cell : option str; b_maps : Maps M P A;
}.
Arguments mkBoot {H M P A} _ _ _.
Arguments b_host {H M P A} _.
Arguments b_cell {H M P A} _.
Arguments b_maps {H M P A} _.

Definition set_gw_mac {M P A} v (m : Maps M P A) := mkMaps (SESSION_MAP m) (PDR_MAP m) (FAR_MAP m)
  (IF_INDEX m) v (STATS_MAP m) (URR_MAP m).
Definition set_if_index {M P A} v (m : Maps M P A) := mkMaps (SESSION_MAP m) (PDR_MAP m) (FAR_MAP m)
  v (GW_MAC m) (STATS_MAP m) (URR_MAP m).

Section main.
Context {H E : Type} `{!Host H E}.
Context {M P A : Type → Type} `{!BpfArray A}.
Variable from_str : str → option Doc.

(** [SystemTime::now()] and [Instant::now()] when the server is made. *)
Variables unix_now now : Z.

Abbreviation prog := (st (Boot H M P A) (StartError E)).

Definition on_host {T} (m : st H (StartError E) T) : prog T := λ b,
  let '(r, h) := m (b_host b) in (r, mkBoot h (b_cell b) (b_maps b)).

Definition gw_mac_set (i : Z) (mac : list Z) : prog unit := λ b,
  match arr_set (GW_MAC (b_maps b)) i mac with
  | Some a => (Ok (), mkBoot (b_host b) (b_cell b) (set_gw_mac a (b_maps b)))
  | None => (Err EMapSet, b)
  end.
Definition if_index_set (i : Z) (ix : Z) : prog unit := λ b,
  match arr_set (IF_INDEX (b_maps b)) i ix with
  | Some a => (Ok (), mkBoot (b_host b) (b_cell b) (set_if_index a (b_maps b)))
  | None => (Err EMapSet, b)
  end.

(** From [main]'s first line to its last before [pfcp_server::run] is
    spawned; the loggers and the two printed lines apart. *)
Definition main (opt : Opt) : prog PfcpServer :=
  config ← on_host (load_or_default from_str (o_config opt));
  let iface_n3 := override_with_config (o_iface_n3 opt) (lit "eth0") (n3_iface (interfaces config)) in
  let iface_n6 := override_with_config (o_iface_n6 opt) (lit "eth1") (n6_iface (interfaces config)) in
  let ue_deliver := default (lit "upfedge1") (ue_deliver_iface (interfaces config)) in
  modify (λ b, mkBoot (b_host b) (set_ue_deliver_iface ue_deliver (b_cell b)) (b_maps b));;
  on_host ebpf_load;;
  upfedge0_mac ← on_host (read_iface_mac (lit "upfedge0"));
  gnb_mac_addr ← on_host (read_gnb_mac (gnb_mac (peers config)) (gnb_addr (peers config)));
  gw_mac_set 0 upfedge0_mac;;
  gw_mac_set 1 gnb_mac_addr;;
  n6_redirect_ifindex ← on_host (read_ifindex ue_deliver);
  n3_redirect_ifindex ← on_host (read_ifindex iface_n3);
  if_index_set 0 n3_redirect_ifindex;;
  if_index_set 1 n6_redirect_ifindex;;
  on_host (attach upf_edge_n3 iface_n3);;
  on_host (attach upf_edge_n6 iface_n6);;
  n4 ← lift (override_ipv4_with_config (o_n4_addr opt) 0 (pfcp_n4_addr (pfcp config)));
  n3 ← lift (override_ipv4_with_config (o_n3_addr opt) (from_be_bytes [127; 22; 0; 8])
               (if_n3_addr (interfaces config)));
  let server := PfcpServer_new unix_now now n4 n3 in
  store ← on_host (gets (client_open (url (redis config))));
  let server := if store : bool then set_session_store server else server in
  (if metrics_enabled (metrics config) then on_host (exporter_init (listen_addr (metrics config)))
   else mret ());;
  mret (if o_tui opt then set_tui_sender server else server).
End main.

(** ** Parsing MAC addresses *)

Definition show_02x (b : Z) : str := [digit_char (b / 16); digit_char (b mod 16)].
Definition show_mac (mac : list Z) : str := intercalate [58] (show_02x <$> mac).

Lemma mapM_ok {E X Y} (f : X → outcome E Y) l r :
  mapM f l = Ok r ↔ Forall2 (λ x y, f x = Ok y) l r.
Proof.
  revert r; induction l as [|x l IH]; intros r; cbn [mapM].
  - split; [by intros [= <-]|by inversion 1].
  - destruct (f x) as [y|e|] eqn:Ef; cbn; [|split; [done|inversion 1; congruence]..].
    destruct (mapM f l) as [ys|e|]; cbn.
    + split; [intros [= <-]; constructor; [done|by apply IH]|].
      inversion 1 as [|? y' ? ys' Hy Hys]; subst. apply IH in Hys.
      rewrite Ef in Hy. injection Hy as ->. by injection Hys as ->.
    + split; [done|]. inversion 1 as [|? y' ? ys' Hy Hys]; subst. by apply IH in Hys.
    + split; [done|]. inversion 1 as [|? y' ? ys' Hy Hys]; subst. by apply IH in Hys.
Qed.

Lemma parse_mac_spec {E} s m :
  parse_mac (E:=E) s = Ok m ↔ length m = 6%nat ∧ Forall2 (numeral 8 16) (split colon (trim s)) m.
Proof.
  assert (∀ l r, mapM (λ p, ok_or (from_str_radix 8 16 p) (EInvalidByte (E:=E))) l = Ok r ↔
    Forall2 (numeral 8 16) l r) as Hm.
  { intros l r. rewrite mapM_ok.
    split; intros Hf; (eapply Forall2_impl; [exact Hf|]); intros p v;
      rewrite <-from_str_radix_numeral by lia; destruct (from_str_radix 8 16 p); naive_solver. }
  unfold parse_mac. destruct (mapM _ _) as [parts|e|] eqn:Em.
  - apply Hm in Em as Hp. rewrite bind_Ok. destruct (Nat.eqb_spec (length parts) 6); cbn.
    + split; [by intros [= <-]|]. intros [_ Hf]. apply Hm in Hf. rewrite Em in Hf. by injection Hf as ->.
    + split; [done|]. intros [Hl Hf]. apply Hm in Hf. rewrite Em in Hf. injection Hf as ->. done.
  - split; [done|]. intros [_ Hf]. apply Hm in Hf. by rewrite Em in Hf.
  - split; [done|]. intros [_ Hf]. apply Hm in Hf. by rewrite Em in Hf.
Qed.

Lemma show_02x_ok b : u8 b →
  from_str_radix 8 16 (show_02x b) = Some b ∧
  Forall (λ c, is_whitespace c = false ∧ colon c = false) (show_02x b).
Proof.
  intros Hb.
  assert (Forall (λ b, from_str_radix 8 16 (show_02x b) = Some b ∧
    Forall (λ c, is_whitespace c = false ∧ colon c = false) (show_02x b)) (seqZ 0 256)) as Hall.
  { apply (bool_decide_unpack _). vm_compute. exact I. }
  apply (proj1 (Forall_forall _ _) Hall), elem_of_seqZ. unfold u8 in Hb. lia.
Qed.

Lemma split_intercalate (sep : Z) (parts : list str) :
  parts ≠ [] → Forall (λ w, w ≠ [] ∧ Forall (λ c, (c =? sep) = false) w) parts →
  split (λ c, c =? sep) (intercalate [sep] parts) = parts.
Proof.
  intros Hn Hp. induction Hp as [|w parts [Hw Hs] Hp IH]; [done|].
  destruct parts as [|v parts].
  - cbn [intercalate]. rewrite <-(app_nil_r w) at 1. rewrite split_word by done. cbn.
    by rewrite app_nil_r.
  - cbn [intercalate app]. rewrite split_word by done. cbn [app split]. rewrite Z.eqb_refl.
    cbn [intercalate app] in IH. rewrite IH by done. by rewrite app_nil_r.
Qed.

Lemma show_mac_ok mac : bytes_ok mac → mac ≠ [] →
  word (show_mac mac) ∧ split colon (show_mac mac) = show_02x <$> mac ∧
  Forall2 (numeral 8 16) (show_02x <$> mac) mac.
Proof.
  intros Hb Hn. split; [|split].
  - split.
    + destruct mac as [|b [|b' mac]]; done.
    + clear Hn. induction Hb as [|b mac Hb Hbs IH]; [constructor|].
      apply show_02x_ok in Hb as [_ Hb].
      assert (Forall (λ c, is_whitespace c = false) (show_02x b)) as Hw
        by (eapply Forall_impl; [exact Hb|]; by intros c [? _]).
      destruct mac as [|b' mac]; [done|].
      change (show_mac (b :: b' :: mac)) with (show_02x b ++ [58] ++ show_mac (b' :: mac)).
      apply Forall_app_2; [done|]. by apply Forall_app_2; [repeat constructor|].
  - apply (split_intercalate 58); [by destruct mac|]. apply Forall_fmap.
    eapply Forall_impl; [exact Hb|]. intros b Hb'. apply show_02x_ok in Hb' as [_ Hb'].
    split; [done|]. eapply Forall_impl; [exact Hb'|]. intros c [_ Hc]. exact Hc.
  - clear Hn. induction Hb as [|b mac Hb Hbs IH]; [constructor|]. constructor; [|done].
    apply from_str_radix_numeral; [lia|lia|]. by apply show_02x_ok.
Qed.

Lemma parse_mac_bytes {E} s m : parse_mac (E:=E) s = Ok m → bytes_ok m.
Proof.
  intros [_ Hf]%parse_mac_spec. induction Hf as [|p v ps vs Hp _ IH]; constructor; [|done].
  apply numeral_bounds in Hp; [exact Hp|lia].
Qed.

(** A MAC address is six hexadecimal numerals of one octet, separated by
    colons, with any white space around: exactly such texts are accepted, with
    the octets they denote, and what [Display] in the usual form prints is
    among them. *)
Theorem mac_grammar {E} s m :
  (parse_mac (E:=E) s = Ok m ↔
     length m = 6%nat ∧ Forall2 (numeral 8 16) (split colon (trim s)) m) ∧
  (∀ t mac t', length mac = 6%nat → bytes_ok mac →
     Forall (λ c, is_whitespace c = true) t → Forall (λ c, is_whitespace c = true) t' →
     parse_mac (E:=E) (t ++ show_mac mac ++ t') = Ok mac) ∧
  (parse_mac (E:=E) s = Ok m → bytes_ok m).
Proof.
  split; [apply parse_mac_spec|]. split.
  - intros t mac t' Hl Hb Ht Ht'. apply parse_mac_spec. split; [done|].
    destruct (show_mac_ok mac Hb) as (Hw & Hs & Hf); [by destruct mac|].
    rewrite trim_word by done. by rewrite Hs.
  - apply parse_mac_bytes.
Qed.

(** ** Learning the gNB's MAC address *)

Section arp.
Context {H E : Type} `{!Host H E}.
Implicit Types (h : H) (s out : str).

Definition neigh_args (ip : Z) : list str := [lit "neigh"; lit "show"; show_ipv4 ip].
Definition ping_args (ip : Z) : list str := [lit "-c"; lit "1"; lit "-W"; lit "1"; show_ipv4 ip].

(** The neighbour table's answer names the link-layer address [mac]. *)
Definition names_mac out (mac : list Z) : Prop :=
  length mac = 6%nat ∧ bytes_ok mac ∧ ∃ c rest, is_whitespace c = true ∧
    after_first (lit "lladdr ") out = Some (show_mac mac ++ c :: rest).

Lemma read_arp_cache_hit ip h out h1 mac :
  ip_output (neigh_args ip) h = (Ok out, h1) → names_mac out mac →
  read_arp_cache ip h = (Ok (Some mac), h1).
Proof.
  intros Ho (Hl & Hb & c & rest & Hc & Ha).
  destruct (show_mac_ok mac Hb) as ([Hn Hw] & Hs & Hf); [by destruct mac|].
  unfold read_arp_cache. rewrite st_bind_eq. fold (neigh_args ip). rewrite Ho, Ha. cbv zeta.
  rewrite take_until_app, Hs, length_fmap, Hl by done. cbn [Nat.eqb].
  rewrite st_bind_eq. cbn [lift]. replace (parse_mac (show_mac mac)) with (Ok (E:=StartError E) mac).
  { done. }
  symmetry. apply parse_mac_spec. split; [done|].
  pose proof (trim_word [] (show_mac mac) []) as Ht. rewrite app_nil_r in Ht. cbn [app] in Ht.
  rewrite Ht by done. by rewrite Hs.
Qed.

Lemma read_arp_cache_miss ip h out h1 :
  ip_output (neigh_args ip) h = (Ok out, h1) → after_first (lit "lladdr ") out = None →
  read_arp_cache ip h = (Ok None, h1).
Proof.
  intros Ho Ha. unfold read_arp_cache. rewrite st_bind_eq. fold (neigh_args ip). by rewrite Ho, Ha.
Qed.

(** Where the gNB's MAC address comes from.  A configured [gnb_mac] decides
    alone, and a text that is no MAC address is an error even when [gnb_addr]
    is there too.  Otherwise the neighbour table is asked for [gnb_addr]: an
    entry it has is taken without sending anything; when it has none the
    address is pinged once and the table is asked again, and what it says then
    is the answer or the error.  Without either setting start-up fails. *)
Theorem gnb_mac_sources s h :
  (∀ addr, read_gnb_mac (Some s) addr h = (map_err (λ _, EConfigMac) (parse_mac (E:=E) s), h)) ∧
  (parse_ipv4 s = None → read_gnb_mac None (Some s) h = (Err EConfigAddr, h)) ∧
  (∀ ip out h1, parse_ipv4 s = Some ip → ip_output (neigh_args ip) h = (Ok out, h1) →
     (∀ mac, names_mac out mac → read_gnb_mac None (Some s) h = (Ok mac, h1)) ∧
     (after_first (lit "lladdr ") out = None → ∀ out2 h2,
        ip_output (neigh_args ip) (ping (ping_args ip) h1) = (Ok out2, h2) →
        (∀ mac, names_mac out2 mac → read_gnb_mac None (Some s) h = (Ok mac, h2)) ∧
        (after_first (lit "lladdr ") out2 = None →
           read_gnb_mac None (Some s) h = (Err (EArpFailed ip), h2)))) ∧
  read_gnb_mac None None h = (Err EGnbUnknown, h).
Proof.
  split; [done|]. split; [by intros Hs; unfold read_gnb_mac; rewrite Hs|]. split; [|done].
  intros ip out h1 Hs Ho. unfold read_gnb_mac. rewrite st_bind_eq, Hs. cbn [ok_or lift].
  unfold arp_learn_mac. rewrite st_bind_eq. split.
  - intros mac Hm. by rewrite (read_arp_cache_hit _ _ _ _ _ Ho Hm).
  - intros Hm out2 h2 Ho2. rewrite (read_arp_cache_miss _ _ _ _ Ho Hm), st_bind_eq.
    cbn [modify]. fold (ping_args ip). rewrite st_bind_eq. split.
    + intros mac Hm2. by rewrite (read_arp_cache_hit _ _ _ _ _ Ho2 Hm2).
    + intros Hm2. by rewrite (read_arp_cache_miss _ _ _ _ Ho2 Hm2).
Qed.
End arp.

(** ** What start-up leaves behind *)

Class BpfArrayLaws (A : Type → Type) `{BpfArray A} := {
  get_set {V} (a a' : A V) i v j :
    arr_set a i v = Some a' → arr_get a' j = if decide (i = j) then Some v else arr_get a j;
}.

#[export] Instance array_bpf_array_laws : BpfArrayLaws array_map.
Proof.
  split. intros V [l] a' i v j Hs. cbn in *. case_decide as Hi; [|done]. injection Hs as <-. cbn.
  destruct (decide (i = j)) as [<-|Hne].
  - rewrite decide_True by lia. apply list_lookup_insert_eq. lia.
  - case_decide; [|done]. apply list_lookup_insert_ne. lia.
Qed.

(** The value an address setting takes: the command line's unless that is the
    built-in default, then the file's, then the default. *)
Definition setting (cli dflt : Z) (cfg : option str) (v : Z) : Prop :=
  if decide (cli = dflt)
  then match cfg with Some s => parse_ipv4 s = Some v | None => v = dflt end
  else v = cli.

Lemma override_ipv4_setting {E} cli dflt cfg v :
  override_ipv4_with_config (E:=E) cli dflt cfg = Ok v ↔ setting cli dflt cfg v.
Proof.
  unfold override_ipv4_with_config, setting.
  destruct (Z.eqb_spec cli dflt) as [->|Hne]; cbn [negb].
  - rewrite decide_True by done. destruct cfg as [s|]; [|naive_solver].
    destruct (parse_ipv4 s); naive_solver.
  - rewrite decide_False by done. naive_solver.
Qed.

Section booted.
Context {H E : Type} `{!Host H E}.
Context {M P A : Type → Type} `{BpfArrayLaws A}.
Variable from_str : str → option Doc.
Variables unix_now now : Z.
Implicit Types (b : Boot H M P A).

Lemma on_host_ok {T} (m : st H (StartError E) T) b a b' :
  on_host (M:=M) (P:=P) (A:=A) m b = (Ok a, b') ↔
  ∃ h, m (b_host b) = (Ok a, h) ∧ b' = mkBoot h (b_cell b) (b_maps b).
Proof.
  unfold on_host. destruct (m (b_host b)) as [r h]. split; [intros [= -> <-]; by exists h|].
  by intros (h' & [= -> ->] & ->).
Qed.

Lemma gw_mac_set_ok i mac b b' :
  gw_mac_set (E:=E) i mac b = (Ok (), b') →
  ∃ a, b' = mkBoot (b_host b) (b_cell b) (set_gw_mac a (b_maps b)) ∧
    ∀ j, arr_get a j = if decide (i = j) then Some mac else arr_get (GW_MAC (b_maps b)) j.
Proof.
  unfold gw_mac_set. destruct (arr_set _ _ _) as [a|] eqn:Ea; [|done]. intros [= <-].
  exists a. split; [done|]. intros j. by apply get_set.
Qed.

Lemma if_index_set_ok i ix b b' :
  if_index_set (E:=E) i ix b = (Ok (), b') →
  ∃ a, b' = mkBoot (b_host b) (b_cell b) (set_if_index a (b_maps b)) ∧
    ∀ j, arr_get a j = if decide (i = j) then Some ix else arr_get (IF_INDEX (b_maps b)) j.
Proof.
  unfold if_index_set. destruct (arr_set _ _ _) as [a|] eqn:Ea; [|done]. intros [= <-].
  exists a. split; [done|]. intros j. by apply get_set.
Qed.

Lemma read_iface_mac_ok iface h mac h' :
  read_iface_mac iface h = (Ok mac, h') →
  length mac = 6%nat ∧ bytes_ok mac ∧ ∃ s,
    read_to_string (lit "/sys/class/net/" ++ iface ++ lit "/address") h = (Ok s, h') ∧
    parse_mac (E:=E) (trim s) = Ok mac.
Proof.
  intros (s & h1 & Hr & Hp)%st_bind_ok. unfold lift in Hp. injection Hp as Hp <-.
  split; [by apply parse_mac_spec in Hp as [? _]|]. split; [by apply parse_mac_bytes in Hp|].
  by exists s.
Qed.

Lemma read_gnb_mac_ok cfg_mac cfg_addr h mac h' :
  read_gnb_mac (E:=E) cfg_mac cfg_addr h = (Ok mac, h') → length mac = 6%nat ∧ bytes_ok mac.
Proof.
  assert (∀ s m, parse_mac (E:=E) s = Ok m → length m = 6%nat ∧ bytes_ok m) as Hm.
  { intros s m Hp. split; [by apply parse_mac_spec in Hp as [? _]|by apply parse_mac_bytes in Hp]. }
  assert (∀ ip h m h', read_arp_cache (E:=E) ip h = (Ok (Some m), h') →
    length m = 6%nat ∧ bytes_ok m) as Ha.
  { intros ip h1 m h2 (s & h3 & _ & Hr)%st_bind_ok. destruct (after_first _ _); [|done]. cbv zeta in Hr.
    destruct (_ =? 6)%nat; [|done]. apply st_bind_ok in Hr as (m' & h4 & Hp & Hr).
    injection Hr as <- <-. injection Hp as Hp _. by eapply Hm. }
  unfold read_gnb_mac. destruct cfg_mac as [s|].
  { intros [= Hp _]. destruct (parse_mac s) eqn:Ep; [|done..]. injection Hp as <-. by eapply Hm. }
  destruct cfg_addr as [s|]; [|done]. intros (ip & h1 & _ & Hr)%st_bind_ok.
  unfold arp_learn_mac in Hr. apply st_bind_ok in Hr as ([m|] & h2 & Hc & Hr).
  { injection Hr as <- <-. by eapply Ha. }
  apply st_bind_ok in Hr as ([] & h3 & _ & Hr). apply st_bind_ok in Hr as ([m|] & h4 & Hc2 & Hr); [|done].
  injection Hr as <- <-. by eapply Ha.
Qed.

Lemma read_ifindex_ok iface h ix h' :
  read_ifindex (E:=E) iface h = (Ok ix, h') → ∃ s,
    read_to_string (lit "/sys/class/net/" ++ iface ++ lit "/ifindex") h = (Ok s, h') ∧
    numeral 32 10 (trim s) ix.
Proof.
  intros (s & h1 & Hr & Hp)%st_bind_ok. unfold lift in Hp. injection Hp as Hp <-. exists s.
  split; [done|]. apply from_str_radix_numeral; [lia|lia|]. unfold parse_uint in Hp.
  by destruct (from_str_radix _ _ _); [injection Hp as ->|].
Qed.
End booted.

Section started.
Context {H E : Type} `{!Host H E}.
Context {M P A : Type → Type} `{BpfArrayLaws A}.
Variable from_str : str → option Doc.
Variables unix_now now : Z.
Implicit Types (b : Boot H M P A) (m : Maps M P A).

(** The file of an interface, read at some point of start-up, says [v]. *)
Definition iface_says (iface what : str) (v : str) : Prop :=
  ∃ (h h' : H), read_to_string (E:=E) (lit "/sys/class/net/" ++ iface ++ what) h = (Ok v, h').

(** What the XDP programs rely on: the addresses and interfaces they use are in
    the arrays, an address being six octets. *)
Record wired m (br_mac gnb_mac : list Z) (n3 n6 : Z) : Prop := {
  wired_br : arr_get (GW_MAC m) 0 = Some br_mac ∧ length br_mac = 6%nat ∧ bytes_ok br_mac;
  wired_gnb : arr_get (GW_MAC m) 1 = Some gnb_mac ∧ length gnb_mac = 6%nat ∧ bytes_ok gnb_mac;
  wired_n3 : arr_get (IF_INDEX m) 0 = Some n3 ∧ u32 n3;
  wired_n6 : arr_get (IF_INDEX m) 1 = Some n6 ∧ u32 n6;
}.

(** One step of [main] that succeeded: on the machine, or on the maps. *)
Ltac host_step Hm x h H :=
  let b := fresh "b" in let Hs := fresh "Hs" in
  apply st_bind_ok in Hm as (x & b & Hs & Hm); apply on_host_ok in Hs as (h & H & ->);
  cbn [b_host b_cell b_maps] in Hm, H.
Ltac map_step Hm g H :=
  let b := fresh "b" in let Hs := fresh "Hs" in
  apply st_bind_ok in Hm as ([] & b & Hs & Hm);
  first [apply gw_mac_set_ok in Hs as (g & -> & H) | apply if_index_set_ok in Hs as (g & -> & H)];
  cbn [b_host b_cell b_maps] in Hm, H.
Ltac lift_step Hm x H :=
  let b := fresh "b" in let Hs := fresh "Hs" in
  apply st_bind_ok in Hm as (x & b & Hs & Hm); apply lift_ok in Hs as [H ->].

(** C21. Start-up, when it succeeds, leaves the program as the rest of it needs
    it.  Of the settings, an address is the command line's unless that is the
    built-in default, then the configuration file's, then the default.  The
    arrays of the XDP programs hold the MAC address of [upfedge0], a MAC
    address for the gNB, and the indices the kernel gives for the N3 interface
    and for the interface the UEs are behind, at the places the programs read
    them from; the routes use that same interface.  The server has no session
    and no association, it talks to a terminal if asked to, and no other map was
    written. *)
Theorem main_configures opt b s b' :
  b_cell b = None →
  main from_str unix_now now opt b = (Ok s, b') →
  ∃ config h0 br_mac gnb_mac n3 n6,
    load_or_default from_str (o_config opt) (b_host b) = (Ok config, h0) ∧
    let iface_n3 := override_with_config (o_iface_n3 opt) (lit "eth0") (n3_iface (interfaces config)) in
    let ue_iface := default (lit "upfedge1") (ue_deliver_iface (interfaces config)) in
    wired (b_maps b') br_mac gnb_mac n3 n6 ∧
    (∃ t, iface_says (lit "upfedge0") (lit "/address") t ∧ parse_mac (E:=E) (trim t) = Ok br_mac) ∧
    (∃ t, iface_says iface_n3 (lit "/ifindex") t ∧ numeral 32 10 (trim t) n3) ∧
    (∃ t, iface_says ue_iface (lit "/ifindex") t ∧ numeral 32 10 (trim t) n6) ∧
    deliver_iface (b_cell b') = ue_iface ∧
    setting (o_n4_addr opt) 0 (pfcp_n4_addr (pfcp config)) (n4_addr s) ∧
    setting (o_n3_addr opt) (from_be_bytes [127; 22; 0; 8]) (if_n3_addr (interfaces config))
      (n3_addr s) ∧
    sessions s = ∅ ∧ associations s = ∅ ∧ next_seid s = 1 ∧ tx_tui s = o_tui opt ∧
    SESSION_MAP (b_maps b') = SESSION_MAP (b_maps b) ∧ PDR_MAP (b_maps b') = PDR_MAP (b_maps b) ∧
    FAR_MAP (b_maps b') = FAR_MAP (b_maps b) ∧ URR_MAP (b_maps b') = URR_MAP (b_maps b) ∧
    STATS_MAP (b_maps b') = STATS_MAP (b_maps b).
Proof.
  destruct b as [hb cb mb]. cbn [b_cell b_host b_maps]. intros -> Hm. unfold main in Hm.
  host_step Hm config h0 Hc. cbv zeta in Hm.
  apply st_bind_ok in Hm as ([] & b1 & Hs & Hm). injection Hs as <-.
  cbn [b_host b_cell b_maps set_ue_deliver_iface] in Hm.
  host_step Hm u1 h1 Hu1. host_step Hm br h2 Hbr. host_step Hm gnb h3 Hgnb.
  map_step Hm g0 Hg0. map_step Hm g1 Hg1.
  host_step Hm n6 h4 Hn6. host_step Hm n3 h5 Hn3.
  map_step Hm i0 Hi0. map_step Hm i1 Hi1.
  host_step Hm u6 h6 Hu6. host_step Hm u7 h7 Hu7.
  lift_step Hm n4 Hn4. lift_step Hm n3a Hn3a. host_step Hm store h8 Hstore.
  apply st_bind_ok in Hm as ([] & b1 & Hs & Hm).
  assert (∃ h, b1 = mkBoot h (Some (default (lit "upfedge1") (ue_deliver_iface (interfaces config))))
    (set_if_index i1 (set_if_index i0 (set_gw_mac g1 (set_gw_mac g0 mb))))) as [h9 ->].
  { destruct (metrics_enabled (metrics config)).
    - apply on_host_ok in Hs as (h & _ & ->). by exists h.
    - injection Hs as <-. by eexists. }
  injection Hm as <- <-.
  apply read_iface_mac_ok in Hbr as (Hl0 & Hb0 & t0 & Ht0 & Hp0).
  apply read_gnb_mac_ok in Hgnb as [Hl1 Hb1].
  apply read_ifindex_ok in Hn6 as (t6 & Ht6 & Hn6). apply read_ifindex_ok in Hn3 as (t3 & Ht3 & Hn3).
  exists config, h0, br, gnb, n3, n6. split; [exact Hc|]. cbv zeta. cbn [b_maps b_cell b_host] in *.
  apply override_ipv4_setting in Hn4, Hn3a.
  split.
  { split; cbn [GW_MAC IF_INDEX set_if_index set_gw_mac].
    - by rewrite Hg1, Hg0.
    - by rewrite Hg1.
    - rewrite Hi1, Hi0. cbn. split; [done|]. by apply numeral_bounds in Hn3.
    - rewrite Hi1. cbn. split; [done|]. by apply numeral_bounds in Hn6. }
  split; [exists t0; split; [by eexists _, _|done]|].
  split; [exists t3; split; [by eexists _, _|done]|].
  split; [exists t6; split; [by eexists _, _|done]|].
  split; [done|]. by destruct store, (o_tui opt).
Qed.
End started.

(** ** A machine to run start-up on *)

(** Files, the successive answers of the neighbour table, and the commands and
    programs that were run. *)
Record Machine := mkMachine {
  files : gmap str str; neigh_answers : list str; ran : list (list str);
}.

#[export] Instance machine_host : Host Machine unit := {
  path_exists p m := bool_decide (is_Some (files m !! p));
  read_to_string p := λ m, (ok_or (files m !! p) (EHost ()), m);
  ip_status args := λ m, (Ok true, mkMachine (files m) (neigh_answers m) (ran m ++ [args]));
  ip_output args := λ m,
    match neigh_answers m with
    | a :: rest => (Ok a, mkMachine (files m) rest (ran m ++ [args]))
    | [] => (Err (EHost ()), m)
    end;
  ping args m := mkMachine (files m) (neigh_answers m) (ran m ++ [args]);
  ebpf_load := mret ();
  attach p iface := modify (λ m, mkMachine (files m) (neigh_answers m) (ran m ++ [[iface]]));
  client_open _ _ := true;
  exporter_init _ := mret ();
}.

Definition sample_machine : Machine := mkMachine
  (<[lit "/sys/class/net/upfedge0/address" := lit "02:00:00:00:00:0a" ++ [10]]>
   (<[lit "/sys/class/net/eth0/ifindex" := lit "3" ++ [10]]>
    (<[lit "/sys/class/net/upfedge1/ifindex" := lit "14" ++ [10]]>
     (<[lit "upf.toml" := lit "[peers]" ++ [10]]> ∅))))
  [[]; lit "172.22.0.23 dev n3 lladdr ae:87:cb:d4:60:46 REACHABLE"] [].

(** What the file [upf.toml] says, parsed. *)
Definition sample_toml (s : str) : option Doc :=
  Some (mkDoc None (Some (mkPfcpDoc (Some (lit "172.22.0.8")) None))
    (Some (mkPeers None (Some (lit "172.22.0.23")) None)) None None).

Definition sample_opt : Opt :=
  mkOpt (Some (lit "upf.toml")) (lit "eth0") (lit "eth1") 0 (from_be_bytes [127; 22; 0; 8]) true.

Definition sample_boot : Boot Machine bounded_map percpu_map array_map :=
  mkBoot sample_machine None
    (mkMaps (mkBounded 1024 ∅) (mkBounded 4096 ∅) (mkBounded 4096 ∅)
       (mkArray [0; 0]) (mkArray [replicate 6 0; replicate 6 0]) (mkPerCpu 1024 ∅) (mkPerCpu 4096 ∅)).

Definition sample_main : st (Boot Machine bounded_map percpu_map array_map) (StartError unit) PfcpServer :=
  main sample_toml 1700000000 0 sample_opt.

Lemma mac_grammar_witness :
  parse_mac (E:=unit) (lit "  ae:87:cb:d4:60:46 ") = Ok [174; 135; 203; 212; 96; 70].
Proof.
  apply (mac_grammar (E:=unit) [] []) with (t := [32; 32]) (t' := [32])
    (mac := [174; 135; 203; 212; 96; 70]).
  - reflexivity.
  - check_bytes.
  - repeat constructor.
  - repeat constructor.
Defined.

(** The neighbour table learns the address only after the ping. *)
Lemma gnb_mac_sources_witness :
  (read_gnb_mac (E:=unit) None (Some (lit "172.22.0.23")) sample_machine).1 =
  Ok [174; 135; 203; 212; 96; 70].
Proof.
  destruct (gnb_mac_sources (E:=unit) (lit "172.22.0.23") sample_machine) as (_ & _ & Hl & _).
  destruct (Hl (from_be_bytes [172; 22; 0; 23]) [] _ ltac:(vm_compute; reflexivity) eq_refl)
    as [_ Hping].
  destruct (Hping eq_refl _ _ eq_refl) as [Hhit _].
  rewrite (Hhit [174; 135; 203; 212; 96; 70]); [reflexivity|].
  split; [reflexivity|]. split; [check_bytes|]. exists 32, (lit "REACHABLE").
  split; vm_compute; reflexivity.
Defined.

Lemma main_configures_witness :
  ∃ s b' mac, sample_main sample_boot = (Ok s, b') ∧
    wired (b_maps b') mac [174; 135; 203; 212; 96; 70] 3 14.
Proof.
  destruct (sample_main sample_boot) as [[s|e|] b'] eqn:Em;
    [|exfalso; vm_compute in Em; discriminate Em..].
  destruct (main_configures sample_toml 1700000000 0 sample_opt sample_boot s b' eq_refl Em)
    as (config & h0 & br & gnb & n3 & n6 & _ & Hw & _).
  exists s, b', br. split; [reflexivity|].
  assert (gnb = [174; 135; 203; 212; 96; 70] ∧ n3 = 3 ∧ n6 = 14) as (<- & <- & <-); [|exact Hw].
  destruct Hw as [_ [H1 _] [H3 _] [H6 _]]. vm_compute in Em. injection Em as _ <-.
  vm_compute in H1, H3, H6. injection H1 as <-. injection H3 as <-. injection H6 as <-.
  split; [reflexivity|split; reflexivity].
Defined.
