(* ===== verification/SessionStore.v ===== *)
(** * The session store ([upf-edge/src/session_store.rs])

    Sessions are kept in Redis as one hash per session, with its numbers as
    text.  The Redis client is a parameter: an interface of the five operations
    the code uses, and as its laws what Redis documents of a command that
    succeeded; nothing is assumed of one that failed.  The store refines a
    finite map of sessions. *)

From S2P Require Import Prelude Text Types Header Ie Builder Common Server.

Definition KEY_PREFIX : str := lit "upf:session:".

(** ** The client *)

Class Redis (R E : Type) := {
  get_connection : st R E unit;
  (** a pipeline of [HSET key field value] *)
  exec_hset : list (str * str * str) → st R E unit;
  del : str → st R E unit;
  keys : str → st R E (list str);
  hgetall : str → st R E (gmap str str);
}.

Section store.
Context {R E : Type}.
Context `{!Redis R E}.

Definition save (seid : Z) (data : SessionData) : st R E unit :=
  get_connection;;
  let key := KEY_PREFIX ++ show_dec seid in
  exec_hset
    [ (key, lit "ue_ip", show_ipv4 (sd_ue_ip data));
      (key, lit "teid", show_dec (sd_teid data));
      (key, lit "gnb_ip", show_ipv4 (sd_gnb_ip data));
      (key, lit "cp_seid", show_dec (sd_cp_seid data)) ].

Definition delete_session (seid : Z) : st R E unit :=
  get_connection;;
  let key := KEY_PREFIX ++ show_dec seid in
  del key.

(** [fields.get(f).and_then(|s| s.parse().ok()).unwrap_or(d)] *)
Definition field (fields : gmap str str) (f : string) (parse : str → option Z) (d : Z) : Z :=
  default d (fields !! lit f ≫= parse).

Definition session_of_fields (fields : gmap str str) : SessionData :=
  {| sd_ue_ip := field fields "ue_ip" parse_ipv4 0;
     sd_teid := field fields "teid" (parse_uint 32) 0;
     sd_gnb_ip := field fields "gnb_ip" parse_ipv4 0;
     sd_cp_seid := field fields "cp_seid" (parse_uint 64) 0 |}.

Fixpoint load_keys (ks : list str) : st R E (list (Z * SessionData)) :=
  match ks with
  | [] => mret []
  | key :: ks =>
      match parse_uint 64 (trim_start_matches KEY_PREFIX key) with
      | None => load_keys ks
      | Some seid =>
          fields ← hgetall key;
          rest ← load_keys ks;
          mret ((seid, session_of_fields fields) :: rest)
      end
  end.

Definition load_all : st R E (list (Z * SessionData)) :=
  get_connection;;
  ks ← keys (KEY_PREFIX ++ lit "*");
  load_keys ks.
End store.

(** ** What Redis promises *)

Definition hset (c : gmap str (gmap str str)) (cmd : str * str * str) : gmap str (gmap str str) :=
  <[cmd.1.1 := <[cmd.1.2 := cmd.2]> (default ∅ (c !! cmd.1.1))]> c.

Definition has_prefix (p k : str) : Prop := ∃ s, k = p ++ s.

Class RedisLaws (R E : Type) `{!Redis R E} := {
  contents : R → gmap str (gmap str str);
  get_connection_ok r r' : get_connection r = (Ok (), r') → contents r' = contents r;
  exec_hset_ok cmds r r' :
    exec_hset cmds r = (Ok (), r') → contents r' = foldl hset (contents r) cmds;
  del_ok k r r' : del k r = (Ok (), r') → contents r' = delete k (contents r);
  (** the keys that match a literal prefix followed by a star *)
  keys_ok p r ks r' :
    Forall (λ c, c ∉ lit "*?[]^-\") p → keys (p ++ lit "*") r = (Ok ks, r') →
    contents r' = contents r ∧ NoDup ks ∧
    ∀ k, k ∈ ks ↔ is_Some (contents r !! k) ∧ has_prefix p k;
  hgetall_ok k r f r' :
    hgetall k r = (Ok f, r') → contents r' = contents r ∧ f = default ∅ (contents r !! k);
}.

(** ** The refinement *)

Definition session_key (seid : Z) : str := KEY_PREFIX ++ show_dec seid.

Definition fields_of (data : SessionData) : gmap str str :=
  <[lit "cp_seid" := show_dec (sd_cp_seid data)]>
  (<[lit "gnb_ip" := show_ipv4 (sd_gnb_ip data)]>
  (<[lit "teid" := show_dec (sd_teid data)]>
  (<[lit "ue_ip" := show_ipv4 (sd_ue_ip data)]> ∅))).

Definition wf_sessions (m : gmap Z SessionData) : Prop :=
  ∀ seid data, m !! seid = Some data → u64 seid ∧ wf_data data.

(** The hashes under the prefix are exactly those of the sessions. *)
Definition represents (c : gmap str (gmap str str)) (m : gmap Z SessionData) : Prop :=
  wf_sessions m ∧
  (∀ seid, u64 seid → c !! session_key seid = fields_of <$> m !! seid) ∧
  (∀ k, has_prefix KEY_PREFIX k → is_Some (c !! k) → ∃ seid, u64 seid ∧ k = session_key seid).

Lemma show_dec_inj x y : u64 x → u64 y → show_dec x = show_dec y → x = y.
Proof.
  intros Hx Hy Hs. apply (f_equal (parse_uint 64)) in Hs.
  rewrite !parse_show_uint in Hs by (done || lia). by injection Hs.
Qed.

Lemma session_key_inj x y : u64 x → u64 y → session_key x = session_key y → x = y.
Proof. intros Hx Hy Hs. apply (app_inv_head KEY_PREFIX) in Hs. by apply show_dec_inj. Qed.

(** The prefix is stripped once: a number does not start with it. *)
Lemma strip_key seid : 0 ≤ seid → trim_start_matches KEY_PREFIX (session_key seid) = show_dec seid.
Proof.
  intros Hs. unfold trim_start_matches, session_key.
  set (n := show_dec seid). assert (length (KEY_PREFIX ++ n) = S (11 + length n)) as ->
    by (rewrite length_app; done).
  cbn [trim_start_matches_fuel]. rewrite (proj2 (strip_prefix_spec _ _ n) eq_refl).
  pose proof (show_uint_digits 10 seid ltac:(lia) Hs) as Hd. fold (show_dec seid) in Hd. fold n in Hd.
  destruct n as [|c n]; [done|]. apply Forall_cons_1 in Hd as [Hd _].
  destruct Hd as (d & Hd & ->). cbn [Nat.add trim_start_matches_fuel].
  destruct (strip_prefix KEY_PREFIX (_ :: n)) as [s|] eqn:Es; [|done].
  apply strip_prefix_spec in Es. change KEY_PREFIX with (117 :: tail KEY_PREFIX) in Es.
  injection Es as Ec _. unfold digit_char in Ec. by replace (d <? 10) with true in Ec by lia; lia.
Qed.

Lemma field_fields_of data :
  wf_data data → session_of_fields (fields_of data) = data.
Proof.
  intros (Hu & Ht & Hg & Hc). unfold session_of_fields, field, fields_of, u32, u64 in *.
  repeat first [ rewrite lookup_insert_eq
    | rewrite lookup_insert_ne by (intros Ek; vm_compute in Ek; discriminate Ek) ].
  cbn [mbind option_bind]. rewrite !parse_show_ipv4, !parse_show_uint by (done || lia).
  by destruct data.
Qed.

Lemma session_key_prefix seid : has_prefix KEY_PREFIX (session_key seid).
Proof. by eexists. Qed.

(** The pipeline of [save] writes every field of the hash. *)
Lemma hset_fields c seid data :
  (c !! session_key seid = None ∨ ∃ d, c !! session_key seid = Some (fields_of d)) →
  foldl hset c
    [ (session_key seid, lit "ue_ip", show_ipv4 (sd_ue_ip data));
      (session_key seid, lit "teid", show_dec (sd_teid data));
      (session_key seid, lit "gnb_ip", show_ipv4 (sd_gnb_ip data));
      (session_key seid, lit "cp_seid", show_dec (sd_cp_seid data)) ] =
  <[session_key seid := fields_of data]> c.
Proof.
  intros Hc. cbn [foldl]. unfold hset at 1 2 3 4. cbn [fst snd].
  rewrite !lookup_insert_eq, !insert_insert_eq. cbn [default]. f_equal.
  destruct Hc as [-> |[d ->]]; [done|]. unfold default, id, fields_of.
  apply map_eq. intros k.
  destruct (decide (k = lit "cp_seid")) as [->|]; [by rewrite !lookup_insert_eq|].
  rewrite !(lookup_insert_ne _ (lit "cp_seid")) by done.
  destruct (decide (k = lit "gnb_ip")) as [->|]; [by rewrite !lookup_insert_eq|].
  rewrite !(lookup_insert_ne _ (lit "gnb_ip")) by done.
  destruct (decide (k = lit "teid")) as [->|]; [by rewrite !lookup_insert_eq|].
  rewrite !(lookup_insert_ne _ (lit "teid")) by done.
  destruct (decide (k = lit "ue_ip")) as [->|]; [by rewrite !lookup_insert_eq|].
  repeat (rewrite lookup_insert_ne by done). done.
Qed.

Section refinement.
Context {R E : Type}.
Context `{RedisLaws R E}.

Lemma save_represents m seid data r r' :
  represents (contents r) m → u64 seid → wf_data data →
  save seid data r = (Ok (), r') → represents (contents r') (<[seid := data]> m).
Proof.
  intros (Hwf & Hc & Hk) Hseid Hdata Hr. unfold save in Hr. cbv zeta in Hr.
  apply st_bind_ok in Hr as ([] & r1 & H1 & Hr). apply get_connection_ok in H1.
  apply exec_hset_ok in Hr. rewrite H1 in Hr. fold (session_key seid) in Hr.
  rewrite hset_fields in Hr.
  2:{ rewrite (Hc seid Hseid). destruct (m !! seid) as [d|]; [right; by exists d|by left]. }
  rewrite Hr. split; [|split].
  - intros k d. rewrite lookup_insert_Some. intros [[<- <-]|[_ Hm]]; [done|by apply Hwf].
  - intros k Hk64. destruct (decide (seid = k)) as [<-|Hne]; [by rewrite !lookup_insert_eq|].
    rewrite !lookup_insert_ne; [by apply Hc|done|].
    intros Heq. by apply session_key_inj in Heq.
  - intros k Hp. rewrite lookup_insert_is_Some. intros [<-|[_ Hs]]; [by exists seid|by apply Hk].
Qed.

Lemma delete_represents m seid r r' :
  represents (contents r) m → u64 seid →
  delete_session seid r = (Ok (), r') → represents (contents r') (delete seid m).
Proof.
  intros (Hwf & Hc & Hk) Hseid Hr. unfold delete_session in Hr. cbv zeta in Hr.
  apply st_bind_ok in Hr as ([] & r1 & H1 & Hr). apply get_connection_ok in H1.
  apply del_ok in Hr. rewrite H1 in Hr. fold (session_key seid) in Hr. rewrite Hr.
  split; [|split].
  - intros k d. rewrite lookup_delete_Some. intros [_ Hm]. by apply Hwf.
  - intros k Hk64. destruct (decide (seid = k)) as [<-|Hne]; [by rewrite !lookup_delete_eq|].
    rewrite !lookup_delete_ne; [by apply Hc|done|].
    intros Heq. by apply session_key_inj in Heq.
  - intros k Hp. rewrite lookup_delete_is_Some. intros [_ Hs]. by apply Hk.
Qed.

Lemma load_keys_represents m seids r l r' :
  represents (contents r) m → Forall (λ s, u64 s ∧ is_Some (m !! s)) seids →
  load_keys (session_key <$> seids) r = (Ok l, r') →
  contents r' = contents r ∧ l = omap (λ s, (s,.) <$> m !! s) seids.
Proof.
  intros (Hwf & Hc & _). intros Hs. revert r l r' Hc. induction Hs as [|s seids [Hs [d Hd]] _ IH];
    intros r l r' Hc Hr; [by injection Hr as <- <-|].
  cbn [fmap list_fmap load_keys] in Hr. unfold u64 in Hs.
  rewrite strip_key in Hr by lia. rewrite parse_show_uint in Hr by (done || lia).
  apply st_bind_ok in Hr as (f & r1 & H1 & Hr). apply hgetall_ok in H1 as [E1 ->].
  apply st_bind_ok in Hr as (rest & r2 & H2 & Hr). injection Hr as <- <-.
  apply IH in H2 as [E2 ->]; [|by rewrite E1]. rewrite E2, E1. split; [done|].
  rewrite omap_list_cons, Hd, Hc, Hd by done.
  change (default ∅ (fields_of <$> Some d)) with (fields_of d).
  cbn [fmap option_fmap option_map].
  by rewrite field_fields_of by apply (Hwf s d Hd).
Qed.

Lemma load_represents m r l r' :
  represents (contents r) m → load_all r = (Ok l, r') →
  contents r' = contents r ∧ l ≡ₚ map_to_list m.
Proof.
  intros Hrep Hr. pose proof Hrep as (Hwf & Hc & Hk). unfold load_all in Hr.
  apply st_bind_ok in Hr as ([] & r1 & H1 & Hr). apply get_connection_ok in H1.
  apply st_bind_ok in Hr as (ks & r2 & H2 & Hr).
  apply keys_ok in H2 as (E2 & Hnd & Hks); [|by apply (bool_decide_unpack _); vm_compute].
  rewrite H1 in E2, Hks.
  assert (∃ seids, ks = session_key <$> seids ∧ Forall (λ s, u64 s ∧ is_Some (m !! s)) seids)
    as (seids & -> & Hseids).
  { clear Hnd Hr. assert (∀ k, k ∈ ks → ∃ s, k = session_key s ∧ u64 s ∧ is_Some (m !! s)) as Hall.
    { intros k Hin. apply Hks in Hin as [Hin Hp]. destruct (Hk k Hp Hin) as (s & Hs & ->).
      exists s. split; [done|]. split; [done|]. rewrite Hc in Hin by done.
      by apply fmap_is_Some in Hin. }
    clear Hks. induction ks as [|k ks IH]; [by exists []|].
    destruct (Hall k) as (s & -> & Hs); [by left|]. destruct IH as (ss & -> & Hss).
    { intros k' Hk'. apply Hall. by right. }
    exists (s :: ss). split; [done|]. by constructor. }
  apply (load_keys_represents m) in Hr as [E3 ->]; [|by rewrite E2|done].
  split; [by rewrite E3, E2|].
  assert (NoDup seids) as Hn by (apply NoDup_fmap_1 in Hnd; exact Hnd).
  apply NoDup_Permutation; [|apply NoDup_map_to_list|].
  - clear -Hn. induction Hn as [|s seids Hs Hn IH]; [constructor|]. rewrite omap_list_cons.
    destruct (m !! s) as [d|]; cbn [fmap option_fmap option_map]; [|done]. constructor; [|done].
    intros (s' & Hin & Hs')%list_elem_of_omap. destruct (m !! s'); [|done]. by injection Hs' as -> _.
  - intros [s d]. rewrite elem_of_map_to_list, list_elem_of_omap. split.
    + intros (s' & _ & Hd). destruct (m !! s') eqn:Em; [|done]. by injection Hd as -> ->.
    + intros Hd. destruct (Hwf s d Hd) as [Hs _]. exists s. rewrite Hd. split; [|done].
      assert (session_key s ∈ session_key <$> seids) as Hin.
      { apply Hks. split; [|apply session_key_prefix]. rewrite Hc by done. by rewrite Hd. }
      apply list_elem_of_fmap in Hin as (s' & He & Hin).
      apply session_key_inj in He as ->; [done|done|].
      by apply (proj1 (Forall_forall _ _) Hseids) in Hin as [? _].
Qed.
End refinement.

(** ** A reference client: a map that never fails *)

Definition strip_star (pattern : str) : str := take (length pattern - 1) pattern.

#[export] Instance memory_redis {E} : Redis (gmap str (gmap str str)) E := {
  get_connection := mret ();
  exec_hset cmds := modify (λ c, foldl hset c cmds);
  del k := modify (delete k);
  keys pattern := gets (λ c, (map_to_list c).*1 ≫= λ k,
    match strip_prefix (strip_star pattern) k with Some _ => [k] | None => [] end);
  hgetall k := gets (λ c, default ∅ (c !! k));
}.

Lemma NoDup_guarded {A B} (f : A → option B) (l : list A) :
  NoDup l → NoDup (l ≫= λ x, match f x with Some _ => [x] | None => [] end).
Proof.
  induction 1 as [|x l Hx Hn IH]; [constructor|]. cbn [mbind list_bind].
  destruct (f x); [|done]. cbn [app]. constructor; [|done].
  rewrite list_elem_of_bind. intros (y & Hy & Hin). destruct (f y); [|by apply not_elem_of_nil in Hy].
  by apply list_elem_of_singleton in Hy as ->.
Qed.

#[export] Instance memory_redis_laws {E} : RedisLaws (gmap str (gmap str str)) E.
Proof.
  refine {| contents := id |}.
  - by intros r r' [= <-].
  - by intros cmds r r' [= <-].
  - by intros k r r' [= <-].
  - intros p r ks r' _ Hr. unfold keys, memory_redis, gets in Hr. injection Hr as <- <-.
    assert (strip_star (p ++ lit "*") = p) as ->.
    { unfold strip_star. change (lit "*") with [42]. rewrite length_app. cbn [length].
      replace (length p + 1 - 1)%nat with (length p) by lia. apply take_app_length. }
    split; [done|]. split; [apply NoDup_guarded, NoDup_fst_map_to_list|].
    intros k. rewrite list_elem_of_bind. unfold has_prefix. split.
    + intros (k' & Hin & Hk'). destruct (strip_prefix p k') as [s|] eqn:Es;
        [|by apply not_elem_of_nil in Hin].
      apply list_elem_of_singleton in Hin as ->. apply strip_prefix_spec in Es.
      apply list_elem_of_fmap in Hk' as ([k f] & -> & Hk'). apply elem_of_map_to_list in Hk'.
      split; [by exists f|by exists s].
    + intros [[f Hf] [s ->]]. exists (p ++ s).
      rewrite (proj2 (strip_prefix_spec p _ s) eq_refl). split; [by left|].
      apply list_elem_of_fmap. exists (p ++ s, f). split; [done|]. by apply elem_of_map_to_list.
  - by intros k r f r' [= <- <-].
Defined.

(** C20. The store is a finite map of sessions: over any client that behaves as
    Redis documents, a save that succeeds adds the session or replaces it
    whole, a deletion that succeeds removes it, and loading returns exactly the
    sessions saved and not deleted, each once, with the UE address, TEID, gNB
    address and CP SEID they were saved with: what is printed into the hash is
    parsed back. *)
Theorem store_refines {R E} `{RedisLaws R E} m r :
  represents (contents r) m →
  (∀ seid data r', u64 seid → wf_data data → save seid data r = (Ok (), r') →
     represents (contents r') (<[seid := data]> m)) ∧
  (∀ seid r', u64 seid → delete_session seid r = (Ok (), r') →
     represents (contents r') (delete seid m)) ∧
  (∀ l r', load_all r = (Ok l, r') → contents r' = contents r ∧ l ≡ₚ map_to_list m).
Proof.
  intros Hrep. split; [|split].
  - intros seid data r' Hs Hd. by apply save_represents.
  - intros seid r' Hs. by apply delete_represents.
  - intros l r'. by apply load_represents.
Qed.

Lemma represents_empty : represents ∅ ∅.
Proof.
  split; [intros seid data Hs; by rewrite lookup_empty in Hs|]. split.
  - intros seid _. by rewrite !lookup_empty.
  - intros k _ [f Hf]. by rewrite lookup_empty in Hf.
Qed.

Definition sample_data : SessionData := mkSessionData 170721282 1000 3232235543 7.

Definition saved_sample : gmap str (gmap str str) :=
  (save (E:=unit) 18446744073709551615 sample_data (∅ : gmap str (gmap str str))).2.

Lemma store_refines_witness :
  represents saved_sample {[ 18446744073709551615 := sample_data ]} ∧
  (load_all (E:=unit) saved_sample).1 = Ok [(18446744073709551615, sample_data)].
Proof.
  destruct (store_refines (R:=gmap str (gmap str str)) (E:=unit) ∅ ∅) as (Hsave & _ & _);
    [exact represents_empty|].
  split; [|vm_compute; reflexivity].
  apply (Hsave 18446744073709551615 sample_data saved_sample).
  - by uint.
  - repeat split; by vm_compute.
  - vm_compute. reflexivity.
Defined.
