(* ===== verification/Handlers.v ===== *)
(** * Message handlers ([upf-edge/src/handle_msg.rs])

    One definition per handler, on the [World] they share: the server, the
    eBPF maps and the log of what is handed to the environment (the Redis
    store, the [ip] commands, the session gauge, the terminal).  A handler is a program of
    the state-and-error monad: what it changed before an error stays changed,
    as in the code, which rolls nothing back. *)

From S2P Require Import Prelude Text Types Header Ie Builder Messages Dict Common Server.

(** The [anyhow] errors, by the place that raises them. *)
Inductive HandlerError :=
| EHeader (e : PfcpError)
| EDecode (e : DecodeError)
| ENonIpv4 (ip : IpAddr)
| ENoAssociation (src : SocketAddr)
| ENotOwner (cp_seid : Z) (src : SocketAddr)
| EUnknownSeid (seid : Z)
| EMissingSeid
| ENoUeIp
| ENoOuterHeader
| EMapInsert
| EUnhandled (msg_type : Z).

(** What leaves the process, in order. *)
Inductive Effect :=
| StoreSave (seid : Z) (data : SessionData)
| StoreDelete (seid : Z)
| RouteSetup (ue_ip : Z)
| RouteTeardown (ue_ip : Z)
| GaugeInc
| GaugeDec
| Tui (call : TuiCall).

#[export] Instance Effect_eq_dec : EqDecision Effect.
Proof. solve_decision. Defined.

(** [u32::from(ip).to_be()] and [x.to_be()] of a [u32]. *)
Definition to_be32 (x : Z) : Z := bswap 4 x.

(** [iter().find_map(f)] *)
Fixpoint find_map {A B} (f : A → option B) (l : list A) : option B :=
  match l with
  | [] => None
  | x :: l => match f x with Some y => Some y | None => find_map f l end
  end.

Definition has_key {V} (m : gmap Z V) (k : Z) : bool := bool_decide (is_Some (m !! k)).

(** ** Values installed in the maps *)

Definition pdr_value_of (ue_ip : Z) (pdr : ParsedPDR) : PdrValue :=
  mkPdrValue (precedence pdr) (source_interface pdr) (to_be32 ue_ip) 0
    (default 0 (pdr_far_id pdr)) 0 (default 0 (pdr_urr_id pdr))
    (if outer_header_removal pdr then 1 else 0)
    (default 0 (proto <$> sdf_filter pdr))
    (default 0 ((λ f, to_be32 (src_ip f)) <$> sdf_filter pdr))
    (default 0 ((λ f, to_be32 (dst_ip f)) <$> sdf_filter pdr))
    (default 0 (src_port <$> sdf_filter pdr))
    (default 0 (dst_port <$> sdf_filter pdr)).

Definition far_value_of (n3_addr : Z) (far : ParsedFAR) : FarValue :=
  mkFarValue (apply_action far) (default 0 (dest_interface far))
    (default 0 ((λ o, to_be32 (ohc_peer_addr o)) <$> outer_header_creation far))
    (default 0 ((λ o, to_be32 (ohc_teid o)) <$> outer_header_creation far))
    (to_be32 n3_addr).

(** [pdr_ids[i] = pdr.pdr_id as u32] for the first eight PDRs, the rest zero. *)
Definition pdr_id_array (pdrs : list ParsedPDR) : list Z :=
  let ids := pdr_id <$> take MAX_PDR_PER_SESSION pdrs in
  ids ++ replicate (MAX_PDR_PER_SESSION - length ids) 0.

Definition session_info_of (seid teid n3_addr : Z) (ohc : OuterHeaderCreation)
    (pdrs : list ParsedPDR) : SessionInfo :=
  mkSessionInfo seid (to_be32 teid) (to_be32 (ohc_peer_addr ohc)) (to_be32 n3_addr)
    (pdr_id_array pdrs) (Z.of_nat (length pdrs `min` MAX_PDR_PER_SESSION)).

Definition urr_config_of (now seid cp_seid : Z) (urr : ParsedURR) : UrrConfig :=
  mkUrrConfig (urr_id urr) seid cp_seid (measurement_method urr) (reporting_triggers urr)
    (volume_threshold_total urr) (measurement_period urr) now false 0.

Section handlers.
Context {M P A : Type → Type}.
Context `{BpfMap M} `{PerCpuMap P} `{BpfArray A}.

(** The order in which [associations.values_mut()] visits the entries of the
    [HashMap], which Rust leaves open. *)
Variable assoc_iter : gmap Z SmfAssociation → list (Z * SmfAssociation).

(** [Instant::now()] during the handler. *)
Variable now : Z.

Record World := mkWorld {
  w_srv : PfcpServer;
  w_maps : Maps M P A;
  w_log : list Effect;
}.

Definition with_srv (f : PfcpServer → PfcpServer) (w : World) : World :=
  mkWorld (f (w_srv w)) (w_maps w) (w_log w).
Definition with_maps (f : Maps M P A → Maps M P A) (w : World) : World :=
  mkWorld (w_srv w) (f (w_maps w)) (w_log w).
Definition emit (e : Effect) : st World HandlerError unit :=
  modify (λ w, mkWorld (w_srv w) (w_maps w) (w_log w ++ [e])).

Definition on_srv (f : PfcpServer → PfcpServer) : st World HandlerError unit :=
  modify (with_srv f).
Definition get_srv {T} (f : PfcpServer → T) : st World HandlerError T := gets (λ w, f (w_srv w)).

(** [if let Some(tx) = &self.tx_tui], in [tui_log] and its siblings. *)
Definition tui (call : TuiCall) : st World HandlerError unit :=
  tx ← get_srv tx_tui;
  if tx : bool then emit (Tui call) else mret ().
Definition tui_sessions : st World HandlerError unit :=
  m ← get_srv sessions;
  tui (CallSessionsUpdated m).

Definition require {T} (o : option T) (e : HandlerError) : st World HandlerError T :=
  lift (ok_or o e).

Definition alloc {T} (f : PfcpServer → T * PfcpServer) : st World HandlerError T :=
  λ w, (Ok (f (w_srv w)).1, with_srv (λ _, (f (w_srv w)).2) w).

(** [map.insert(k, v, 0)?] on each map. *)
Definition session_insert (k : Z) (v : SessionInfo) : st World HandlerError unit := λ w,
  match bpf_insert (SESSION_MAP (w_maps w)) k v with
  | Some m => (Ok (), with_maps (set_session_map m) w)
  | None => (Err EMapInsert, w)
  end.
Definition pdr_insert (k : Z) (v : PdrValue) : st World HandlerError unit := λ w,
  match bpf_insert (PDR_MAP (w_maps w)) k v with
  | Some m => (Ok (), with_maps (set_pdr_map m) w)
  | None => (Err EMapInsert, w)
  end.
Definition far_insert (k : Z) (v : FarValue) : st World HandlerError unit := λ w,
  match bpf_insert (FAR_MAP (w_maps w)) k v with
  | Some m => (Ok (), with_maps (set_far_map m) w)
  | None => (Err EMapInsert, w)
  end.
Definition urr_insert_zeros (k : Z) : st World HandlerError unit := λ w,
  match pc_insert_all (URR_MAP (w_maps w)) k (replicate pc_cpus (mkUrrStats 0 0 0 0)) with
  | Some m => (Ok (), with_maps (set_urr_map m) w)
  | None => (Err EMapInsert, w)
  end.

(** [associations.values_mut().find(|a| a.peer_addr == src)] *)
Definition find_assoc (s : PfcpServer) (src : SocketAddr) : option (Z * SmfAssociation) :=
  List.find (λ ka, bool_decide (as_peer_addr ka.2 = src)) (assoc_iter (associations s)).

(** [decode_header]: the dictionary check only logs. *)
Definition decode_header (data : list Z) : outcome HandlerError (PfcpHeader * list Z) :=
  map_err EHeader (decode data).

(** ** What the operator reads *)

Definition heartbeat_line (seq : Z) : str :=
  lit "<- HB Response (seq=" ++ show_dec seq ++ lit ")".
Definition association_line : str := lit "✅ UPF Association Established".
Definition session_added_line (ue seid : Z) : str :=
  lit "✅ Session 추가: UE=" ++ show_ipv4 ue ++ lit " SEID=" ++ show_hex seid.
Definition session_deleted_line (seid : Z) : str :=
  lit "🗑️ Session Deleted: SEID=" ++ show_hex seid.
#[global] Arguments heartbeat_line : simpl never.
#[global] Arguments association_line : simpl never.
#[global] Arguments session_added_line : simpl never.
#[global] Arguments session_deleted_line : simpl never.

(** ** Heartbeat Request *)

Definition heartbeat_assoc (recv : Z) (a : SmfAssociation) : SmfAssociation :=
  let a := if negb (as_recovery_ts a =? recv)
    then mkAssociation (as_node_id a) (as_peer_addr a) recv (as_state a) ∅
           (as_last_activity a) (as_heartbeat a)
    else a in
  mkAssociation (as_node_id a) (as_peer_addr a) (as_recovery_ts a) (as_state a) (as_sessions a)
    now (mkHeartbeat (hb_next_seq (as_heartbeat a)) (hb_last_sent (as_heartbeat a)) (Some now) 0).

Definition handle_heartbeat (header : PfcpHeader) (body : list Z) (src : SocketAddr)
    : st World HandlerError (list Z) :=
  req ← lift (map_err EDecode (decode_heartbeat body));
  (match sa_ip src with
   | V4 _ =>
       assoc_opt ← get_srv (λ s, find_assoc s src);
       match assoc_opt, hbr_recovery_ts req with
       | Some (k, assoc), Some recv =>
           on_srv (set_associations (insert k (heartbeat_assoc recv assoc)))
       | _, _ => mret ()
       end
   | V6 _ => mret ()
   end);;
  tui (CallSend HeartbeatUpdated);;
  tui (CallLog (heartbeat_line (hdr_seq_num header)));;
  ts ← get_srv recovery_ts;
  lift (build_heartbeat_response (hdr_seq_num header) ts).

(** ** Association Setup Request *)

Definition handle_session_association (header : PfcpHeader) (body : list Z) (src : SocketAddr)
    : st World HandlerError (list Z) :=
  req ← lift (map_err EDecode (decode_association_setup body));
  let smf_node_id := asr_node_id req in
  let ts := asr_recovery_ts req in
  existing ← get_srv (λ s, associations s !! smf_node_id);
  n3 ← get_srv n3_addr;
  our_ts ← get_srv recovery_ts;
  if (match existing with Some a => ts =? as_recovery_ts a | None => false end) : bool then
    lift (build_association_setup_response (hdr_seq_num header) n3 our_ts)
  else
    on_srv (set_associations (insert smf_node_id (SmfAssociation_new now smf_node_id src ts)));;
    tui (CallLog association_line);;
    tui (CallSend (AssociationChanged true));;
    on_srv (set_peer_addr (Some (mkSocketAddr (V4 smf_node_id) 8805)));;
    lift (build_association_setup_response (hdr_seq_num header) n3 our_ts).

(** ** Session Establishment Request *)

Definition install_pdr (seid ue_ip : Z) (pdr : ParsedPDR) : st World HandlerError unit :=
  pdr_insert (PdrKey_new seid (pdr_id pdr)) (pdr_value_of ue_ip pdr).

Definition install_far (seid n3 : Z) (far : ParsedFAR) : st World HandlerError unit :=
  far_insert (FarKey_new seid (far_id far)) (far_value_of n3 far).

Definition install_urr (seid cp_seid : Z) (urr : ParsedURR) : st World HandlerError unit :=
  urr_insert_zeros (UrrKey_new seid (urr_id urr));;
  on_srv (set_urr_configs (insert (seid, urr_id urr) (urr_config_of now seid cp_seid urr))).

Definition register_session (node_id local_seid : Z) (data : SessionData)
    : st World HandlerError unit :=
  on_srv (set_sessions (insert local_seid data));;
  on_srv (set_associations (alter (set_as_sessions (insert (sd_cp_seid data) data)) node_id)).

Definition created_pdrs_of (teid n3 : Z) (pdrs : list ParsedPDR) : list (Z * Z * Z) :=
  (λ p, (pdr_id p, teid, n3)) <$>
    List.filter (λ p, source_interface p =? INTERFACE_ACCESS) pdrs.

(** The association of the sender; the error of a sender that has none. *)
Definition sender_node (src : SocketAddr) : st World HandlerError (Z * SmfAssociation) :=
  (match sa_ip src with
   | V4 _ => mret ()
   | V6 _ => fail (ENonIpv4 (sa_ip src))
   end);;
  assoc_opt ← get_srv (λ s, find_assoc s src);
  require assoc_opt (ENoAssociation src).

Definition handle_session_establishment (header : PfcpHeader) (body : list Z) (src : SocketAddr)
    : st World HandlerError (list Z) :=
  req ← lift (map_err EDecode (decode_session_establishment body));
  let cp_seid := ser_cp_seid req in
  '(_, assoc) ← sender_node src;
  let smf_node_id := as_node_id assoc in
  local_seid ← alloc alloc_seid;
  teid ← alloc alloc_teid;
  ue ← require (find_map ue_ip (create_pdrs req)) ENoUeIp;
  gnb_info ← require (find_map outer_header_creation (create_fars req)) ENoOuterHeader;
  n3 ← get_srv n3_addr;
  session_insert (to_be32 ue) (session_info_of local_seid teid n3 gnb_info (create_pdrs req));;
  for_each (install_pdr local_seid ue) (create_pdrs req);;
  for_each (install_far local_seid n3) (create_fars req);;
  for_each (install_urr local_seid cp_seid) (create_urrs req);;
  let session_data := mkSessionData ue teid (ohc_peer_addr gnb_info) cp_seid in
  register_session smf_node_id local_seid session_data;;
  store ← get_srv session_store;
  (if store : bool then emit (StoreSave local_seid session_data) else mret ());;
  tui_sessions;;
  tui (CallLog (session_added_line ue local_seid));;
  emit GaugeInc;;
  emit (RouteSetup ue);;
  lift (build_session_establishment_response (hdr_seq_num header) cp_seid local_seid n3
          (created_pdrs_of teid n3 (create_pdrs req))).

(** The association of the sender, provided it owns [cp_seid]. *)
Definition owning_node (src : SocketAddr) (cp_seid : Z) : st World HandlerError Z :=
  '(_, assoc) ← sender_node src;
  if negb (has_key (as_sessions assoc) cp_seid) then fail (ENotOwner cp_seid src)
  else mret (as_node_id assoc).

(** ** Session Modification Request *)

Definition set_far_tunnel (gnb teid : Z) (fv : FarValue) : FarValue :=
  mkFarValue (fv_apply_action fv) (fv_dst_interface fv) (to_be32 gnb) (to_be32 teid)
    (fv_upf_n3_ip fv).

Definition set_session_tunnel (gnb teid : Z) (info : SessionInfo) : SessionInfo :=
  mkSessionInfo (si_seid info) (to_be32 teid) (to_be32 gnb) (si_upf_ip info)
    (si_pdr_ids info) (si_pdr_count info).

Definition set_data_tunnel (gnb teid : Z) (d : SessionData) : SessionData :=
  mkSessionData (sd_ue_ip d) teid gnb (sd_cp_seid d).

Definition update_far (local_seid ue : Z) (far : ParsedFAR) : st World HandlerError unit :=
  match outer_header_creation far with
  | None => mret ()
  | Some ohc =>
      let gnb := ohc_peer_addr ohc in
      let teid := ohc_teid ohc in
      let far_key := FarKey_new local_seid (far_id far) in
      fv ← gets (λ w, bpf_get (FAR_MAP (w_maps w)) far_key);
      (match fv with
       | Some fv => far_insert far_key (set_far_tunnel gnb teid fv)
       | None => mret ()
       end);;
      if bool_decide (dest_interface far = Some IFACE_ACCESS) then
        info ← gets (λ w, bpf_get (SESSION_MAP (w_maps w)) (to_be32 ue));
        (match info with
         | Some info => session_insert (to_be32 ue) (set_session_tunnel gnb teid info)
         | None => mret ()
         end);;
        on_srv (set_sessions (alter (set_data_tunnel gnb teid) local_seid))
      else mret ()
  end.

Definition update_urr_config (urr : ParsedURR) (cfg : UrrConfig) : UrrConfig :=
  mkUrrConfig (uc_urr_id cfg) (uc_seid cfg) (uc_cp_seid cfg) (measurement_method urr)
    (reporting_triggers urr) (volume_threshold_total urr) (measurement_period urr)
    (uc_last_report cfg) false (uc_ur_seqn cfg).

Definition update_urr (local_seid : Z) (urr : ParsedURR) : st World HandlerError unit :=
  on_srv (set_urr_configs (alter (update_urr_config urr) (local_seid, urr_id urr))).

Definition handle_session_modification (header : PfcpHeader) (body : list Z) (src : SocketAddr)
    : st World HandlerError (list Z) :=
  req ← lift (map_err EDecode (decode_session_modification body));
  local_seid ← require (hdr_seid header) EMissingSeid;
  data ← get_srv (λ s, sessions s !! local_seid);
  session_data ← require data (EUnknownSeid local_seid);
  let ue := sd_ue_ip session_data in
  let cp_seid := sd_cp_seid session_data in
  owning_node src cp_seid;;
  for_each (update_far local_seid ue) (update_fars req);;
  for_each (update_urr local_seid) (update_urrs req);;
  lift (build_session_modification_response (hdr_seq_num header) cp_seid).

(** ** Session Deletion Request

    [delete_begin] runs under the server's lock; [delete_finish] after it was
    released. *)

Definition delete_begin (header : PfcpHeader) (src : SocketAddr)
    : st World HandlerError (option SessionData * bool) :=
  let seid := default 0 (hdr_seid header) in
  data ← get_srv (λ s, sessions s !! seid);
  existing ← require data (EUnknownSeid seid);
  let cp_seid := sd_cp_seid existing in
  owning_node_id ← owning_node src cp_seid;
  data ← get_srv (λ s, sessions s !! seid);
  on_srv (set_sessions (delete seid));;
  on_srv (set_associations (alter (set_as_sessions (delete cp_seid)) owning_node_id));;
  tui_sessions;;
  tui (CallLog (session_deleted_line seid));;
  emit GaugeDec;;
  store ← get_srv session_store;
  mret (data, store).

(** The identifiers of the rules the session's PDRs refer to, the
    [HashSet]s as lists without repetition. *)
Definition session_pdr_ids (m : Maps M P A) (key : Z) : list Z :=
  match bpf_get (SESSION_MAP m) key with
  | Some info => take (Z.to_nat (si_pdr_count info) `min` MAX_PDR_PER_SESSION) (si_pdr_ids info)
  | None => []
  end.

Definition session_far_ids (m : Maps M P A) (seid : Z) (pdr_ids : list Z) : list Z :=
  remove_dups (omap (λ id, pv_far_id <$> bpf_get (PDR_MAP m) (PdrKey_new seid id)) pdr_ids).

Definition session_urr_ids (m : Maps M P A) (seid : Z) (pdr_ids : list Z) : list Z :=
  remove_dups (omap (λ id,
    pv ← bpf_get (PDR_MAP m) (PdrKey_new seid id);
    if pv_urr_id pv =? 0 then None else Some (pv_urr_id pv)) pdr_ids).

Definition remove_keys {V} (keys : list Z) (m : M V) : M V := foldl remove_ m keys.

Definition remove_keys_percpu {V} (keys : list Z) (m : P V) : P V :=
  foldl (λ m k, default m (pc_remove m k)) m keys.

Definition delete_maps (seid ue : Z) (m : Maps M P A) : Maps M P A :=
  let key := to_be32 ue in
  let pdr_ids := session_pdr_ids m key in
  let far_ids := session_far_ids m seid pdr_ids in
  let urr_ids := session_urr_ids m seid pdr_ids in
  let m := set_pdr_map (remove_keys (PdrKey_new seid <$> pdr_ids) (PDR_MAP m)) m in
  let m := set_far_map (remove_keys (FarKey_new seid <$> far_ids) (FAR_MAP m)) m in
  let m := set_urr_map (remove_keys_percpu (UrrKey_new seid <$> urr_ids) (URR_MAP m)) m in
  set_session_map (remove_ (SESSION_MAP m) key) m.

Definition delete_finish (header : PfcpHeader) (found : option SessionData * bool)
    : st World HandlerError (list Z) :=
  let seid := default 0 (hdr_seid header) in
  (match found.1 with
   | Some data =>
       modify (with_maps (delete_maps seid (sd_ue_ip data)));;
       emit (RouteTeardown (sd_ue_ip data))
   | None => mret ()
   end);;
  (if found.2 : bool then emit (StoreDelete seid) else mret ());;
  lift (build_session_deletion_response (hdr_seq_num header) seid).

Definition handle_session_deletion (header : PfcpHeader) (src : SocketAddr)
    : st World HandlerError (list Z) :=
  found ← delete_begin header src;
  delete_finish header found.

(** ** Dispatch *)

Definition handle_message (data : list Z) (src : SocketAddr) : st World HandlerError (list Z) :=
  '(header, body) ← lift (decode_header data);
  let t := hdr_msg_type header in
  if t =? PFCP_HEARTBEAT_REQ then handle_heartbeat header body src
  else if t =? PFCP_ASSOCIATION_SETUP_REQ then handle_session_association header body src
  else if t =? PFCP_SESSION_ESTABLISHMENT_REQ then handle_session_establishment header body src
  else if t =? PFCP_SESSION_MODIFICATION_REQ then handle_session_modification header body src
  else if t =? PFCP_SESSION_DELETION_REQ then handle_session_deletion header src
  else if t =? PFCP_SESSION_REPORT_RSP then mret []
  else if t mod 2 =? 0 then mret []
  else fail (EUnhandled t).
End handlers.
