(* ===== verification/Stats.v ===== *)
(** * Traffic statistics ([upf-edge/src/metrics/session_stats.rs])

    Every five seconds the poller sums the per-CPU counters of every entry of
    [STATS_MAP] and sets four counters of the exporter, labelled with the UE's
    address.  One tick is a function of the entries the map iterates over; what
    it hands to the [metrics] crate is the list of counters it sets. *)

From S2P Require Import Prelude Text Types Common Handlers Xdp.

Definition add_session_stats (total v : SessionStats) : SessionStats :=
  mkSessionStats (wrap 64 (rx_bytes total + rx_bytes v)) (wrap 64 (rx_packets total + rx_packets v))
    (wrap 64 (tx_bytes total + tx_bytes v)) (wrap 64 (tx_packets total + tx_packets v)).

Definition session_total (per_cpu_values : list SessionStats) : SessionStats :=
  foldl add_session_stats (mkSessionStats 0 0 0 0) per_cpu_values.

(** [Ipv4Addr::from(u32::from_be(key.ue_ip)).to_string()] *)
Definition ue_label (key : SessionKey) : str := show_ipv4 (bswap 4 key).

(** [counter!(name, "ue_ip" => label).absolute(value)] *)
Record CounterSet := mkCounterSet { cs_name : str; cs_ue_ip : str; cs_value : Z }.

Definition counters_of (label : str) (total : SessionStats) : list CounterSet :=
  [ mkCounterSet (lit "upf_session_rx_bytes_total") label (rx_bytes total);
    mkCounterSet (lit "upf_session_tx_bytes_total") label (tx_bytes total);
    mkCounterSet (lit "upf_session_rx_packets_total") label (rx_packets total);
    mkCounterSet (lit "upf_session_tx_packets_total") label (tx_packets total) ].

(** One entry; an iteration error is skipped. *)
Definition poll_entry (entry : option (SessionKey * list SessionStats)) : list CounterSet :=
  match entry with
  | None => []
  | Some (key, per_cpu_values) => counters_of (ue_label key) (session_total per_cpu_values)
  end.

Definition stats_tick (entries : list (option (SessionKey * list SessionStats))) : list CounterSet :=
  entries ≫= poll_entry.

(** ** Summing commutes with counting *)

Lemma wrap_add_l a b : wrap 64 (wrap 64 a + b) = wrap 64 (a + b).
Proof. unfold wrap. by rewrite Z.add_mod_idemp_l. Qed.
Lemma wrap_add_r a b : wrap 64 (a + wrap 64 b) = wrap 64 (a + b).
Proof. unfold wrap. by rewrite Z.add_mod_idemp_r. Qed.

(** A way of counting that the sum over the CPUs does not notice the place of. *)
Definition adds (f : SessionStats → SessionStats) : Prop :=
  (∀ t v, add_session_stats t (f v) = f (add_session_stats t v)) ∧
  (∀ t v, add_session_stats (f t) v = f (add_session_stats t v)).

Lemma add_rx_adds len : adds (add_rx len).
Proof.
  split; intros t v; unfold add_session_stats, add_rx; cbn [rx_bytes rx_packets tx_bytes tx_packets];
    rewrite ?wrap_add_r, ?wrap_add_l; do 2 f_equal; lia.
Qed.

Lemma add_tx_adds len : adds (add_tx len).
Proof.
  split; intros t v; unfold add_session_stats, add_tx; cbn [rx_bytes rx_packets tx_bytes tx_packets];
    rewrite ?wrap_add_r, ?wrap_add_l; do 2 f_equal; lia.
Qed.

Lemma session_total_alter f cpu vs :
  adds f → (cpu < length vs)%nat → session_total (alter f cpu vs) = f (session_total vs).
Proof.
  intros [Hr Hl] Hc. unfold session_total. generalize (mkSessionStats 0 0 0 0).
  assert (∀ vs t, foldl add_session_stats (f t) vs = f (foldl add_session_stats t vs)) as Hacc.
  { clear -Hl. induction vs as [|v vs IH]; intros t; [done|]. cbn. by rewrite Hl, IH. }
  revert cpu Hc; induction vs as [|v vs IH]; intros cpu Hc t; [cbn in Hc; lia|].
  destruct cpu as [|cpu]; cbn.
  - by rewrite Hr, Hacc.
  - apply (IH cpu). cbn in Hc. lia.
Qed.

Lemma session_total_zero n :
  session_total (replicate n inhabitant) = mkSessionStats 0 0 0 0.
Proof. unfold session_total. by induction n as [|n IH]. Qed.

(** The octets or packets all CPUs counted. *)
Definition over_cpus (count : SessionStats → Z) (vs : list SessionStats) : Z :=
  foldr (λ v sum, count v + sum) 0 vs.

Lemma session_total_sums vs :
  session_total vs =
  mkSessionStats (wrap 64 (over_cpus rx_bytes vs)) (wrap 64 (over_cpus rx_packets vs))
    (wrap 64 (over_cpus tx_bytes vs)) (wrap 64 (over_cpus tx_packets vs)).
Proof.
  unfold session_total, over_cpus.
  assert (∀ a b c d, foldl add_session_stats
    (mkSessionStats (wrap 64 a) (wrap 64 b) (wrap 64 c) (wrap 64 d)) vs =
    mkSessionStats (wrap 64 (a + foldr (λ v sum, rx_bytes v + sum) 0 vs))
      (wrap 64 (b + foldr (λ v sum, rx_packets v + sum) 0 vs))
      (wrap 64 (c + foldr (λ v sum, tx_bytes v + sum) 0 vs))
      (wrap 64 (d + foldr (λ v sum, tx_packets v + sum) 0 vs))) as Hacc.
  { induction vs as [|v vs IH]; intros a b c d; cbn [foldl foldr].
    - by rewrite !Z.add_0_r.
    - unfold add_session_stats at 2. cbn [rx_bytes rx_packets tx_bytes tx_packets].
      rewrite !wrap_add_l, IH, <-!(assoc_L Z.add). done. }
  exact (Hacc 0 0 0 0).
Qed.

Section polled.
Context {M P A : Type → Type} `{PerCpuMapLaws P}.
Implicit Types m : Maps M P A.

(** What the poller exports for a key: nothing before its first packet. *)
Definition exported (p : P SessionStats) (key : SessionKey) : list CounterSet :=
  poll_entry ((λ vs, (key, vs)) <$> pc_values p key).

Lemma exported_counted f cpu ip (p p' : P SessionStats) :
  u32 ip → (cpu < pc_cpus)%nat → adds f → counted f cpu (to_be32 ip) p p' →
  (∀ vs, pc_values p (to_be32 ip) = Some vs →
     exported p (to_be32 ip) = counters_of (show_ipv4 ip) (session_total vs) ∧
     exported p' (to_be32 ip) = counters_of (show_ipv4 ip) (f (session_total vs))) ∧
  (pc_values p (to_be32 ip) = None → exported p (to_be32 ip) = [] ∧
     (p' = p ∨ exported p' (to_be32 ip) =
        counters_of (show_ipv4 ip) (f (mkSessionStats 0 0 0 0)))) ∧
  (∀ key, key ≠ to_be32 ip → exported p' key = exported p key).
Proof.
  intros Hip Hc Hf Hcnt.
  assert (ue_label (to_be32 ip) = show_ipv4 ip) as Hlabel.
  { unfold ue_label, to_be32. by rewrite bswap_involutive. }
  unfold counted in Hcnt. unfold exported. split; [|split].
  - intros vs Hvs. rewrite Hvs in Hcnt. rewrite Hvs, Hcnt, decide_True by done.
    cbn [fmap option_fmap option_map poll_entry]. rewrite Hlabel. split; [done|].
    rewrite session_total_alter; [done|done|]. by rewrite (values_length p _ _ Hvs).
  - intros Hn. rewrite Hn in Hcnt. rewrite Hn. split; [done|].
    destruct Hcnt as [->|Hcnt]; [by left|right]. rewrite Hcnt, decide_True by done.
    cbn [fmap option_fmap option_map poll_entry]. rewrite Hlabel.
    rewrite session_total_alter; [|done|by rewrite length_replicate]. by rewrite session_total_zero.
  - intros key Hk. destruct (pc_values p (to_be32 ip)) as [vs|].
    + by rewrite Hcnt, decide_False.
    + destruct Hcnt as [->|Hcnt]; [done|]. by rewrite Hcnt, decide_False.
Qed.

(** C31. The exporter shows the traffic.  For a UE the XDP programs have counted
    before, the poll sets the four counters named here, labelled with the
    UE's address as text, to the sums over the CPUs of the octets and packets
    received and sent.  When a program has counted one more received packet of
    [len] octets on any CPU, the next poll shows [len] octets and one packet
    more in the received counters and the same in the sent ones, and the
    other way round for a packet sent; for a UE not seen before they start
    from zero, unless the map was full and the packet is lost to the
    statistics; the other UEs' counters do not move. *)
Theorem stats_polled (rx : bool) len cpu ip m :
  u32 ip → (cpu < pc_cpus)%nat → 0 ≤ len < 2 ^ 64 →
  let key := to_be32 ip in
  let m' := if rx then stats_rx cpu m key len else stats_tx cpu m key len in
  let counters rxb rxp txb txp :=
    [ mkCounterSet (lit "upf_session_rx_bytes_total") (show_ipv4 ip) (rxb mod 2 ^ 64);
      mkCounterSet (lit "upf_session_tx_bytes_total") (show_ipv4 ip) (txb mod 2 ^ 64);
      mkCounterSet (lit "upf_session_rx_packets_total") (show_ipv4 ip) (rxp mod 2 ^ 64);
      mkCounterSet (lit "upf_session_tx_packets_total") (show_ipv4 ip) (txp mod 2 ^ 64) ] in
  let counters_then rxb rxp txb txp :=
    if rx then counters (rxb + len) (rxp + 1) txb txp
    else counters rxb rxp (txb + len) (txp + 1) in
  (∀ vs, pc_values (STATS_MAP m) key = Some vs →
     exported (STATS_MAP m) key =
       counters (over_cpus rx_bytes vs) (over_cpus rx_packets vs)
         (over_cpus tx_bytes vs) (over_cpus tx_packets vs) ∧
     exported (STATS_MAP m') key =
       counters_then (over_cpus rx_bytes vs) (over_cpus rx_packets vs)
         (over_cpus tx_bytes vs) (over_cpus tx_packets vs)) ∧
  (pc_values (STATS_MAP m) key = None → exported (STATS_MAP m) key = [] ∧
     (STATS_MAP m' = STATS_MAP m ∨ exported (STATS_MAP m') key = counters_then 0 0 0 0)) ∧
  (∀ other, other ≠ key → exported (STATS_MAP m') other = exported (STATS_MAP m) other).
Proof.
  intros Hip Hc Hl key m' counters counters_then.
  set (f := if rx then add_rx len else add_tx len).
  assert (adds f) as Hf by (subst f; destruct rx; [apply add_rx_adds|apply add_tx_adds]).
  assert (counted f cpu key (STATS_MAP m) (STATS_MAP m')) as Hcnt
    by (subst f m'; destruct rx; [by apply stats_rx_counted|by apply stats_tx_counted]).
  destruct (exported_counted f cpu ip _ _ Hip Hc Hf Hcnt) as (Hold & Hnew & Hother).
  assert (∀ a b c d, counters_of (show_ipv4 ip)
      (f (mkSessionStats (wrap 64 a) (wrap 64 b) (wrap 64 c) (wrap 64 d))) =
    counters_then a b c d) as Hthen.
  { intros a b c d. subst f counters_then counters. unfold counters_of.
    destruct rx; cbn -[lit show_ipv4 wrap Z.modulo Z.pow]; rewrite !wrap_add_l; reflexivity. }
  split; [|split; [|exact Hother]].
  - intros vs Hvs. destruct (Hold vs Hvs) as [E1 E2]. rewrite session_total_sums in E1, E2.
    split; [exact E1|]. etransitivity; [exact E2|apply Hthen].
  - intros Hn. destruct (Hnew Hn) as [E1 [E2|E2]]; split; [done|by left|done|right].
    etransitivity; [exact E2|apply (Hthen 0 0 0 0)].
Qed.
End polled.

(** Two packets of the same UE on two CPUs. *)
Definition ue_10 : Z := 168427521.
Definition one_packet : Maps bounded_map percpu_map array_map :=
  stats_rx 1 Xdp.Example.maps (to_be32 ue_10) 78.
Definition two_packets : Maps bounded_map percpu_map array_map :=
  stats_rx 2 one_packet (to_be32 ue_10) 100.

Lemma stats_polled_witness :
  exported (STATS_MAP two_packets) (to_be32 ue_10) =
    [ mkCounterSet (lit "upf_session_rx_bytes_total") (lit "10.10.0.1") 178;
      mkCounterSet (lit "upf_session_tx_bytes_total") (lit "10.10.0.1") 0;
      mkCounterSet (lit "upf_session_rx_packets_total") (lit "10.10.0.1") 2;
      mkCounterSet (lit "upf_session_tx_packets_total") (lit "10.10.0.1") 0 ] ∧
  exported (STATS_MAP (stats_tx 3 two_packets (to_be32 ue_10) 60)) (to_be32 ue_10) =
    [ mkCounterSet (lit "upf_session_rx_bytes_total") (lit "10.10.0.1") 178;
      mkCounterSet (lit "upf_session_tx_bytes_total") (lit "10.10.0.1") 60;
      mkCounterSet (lit "upf_session_rx_packets_total") (lit "10.10.0.1") 2;
      mkCounterSet (lit "upf_session_tx_packets_total") (lit "10.10.0.1") 1 ].
Proof.
  assert (u32 ue_10) as Hu by (unfold u32, ue_10; lia).
  destruct (stats_polled true 100 2 ue_10 one_packet Hu) as (Hrx & _); [vm_compute; lia|lia|].
  destruct (stats_polled false 60 3 ue_10 two_packets Hu) as (Htx & _); [vm_compute; lia|lia|].
  split.
  - destruct (pc_values (STATS_MAP one_packet) (to_be32 ue_10)) as [vs|] eqn:Ev;
      [|exfalso; vm_compute in Ev; discriminate Ev].
    destruct (Hrx vs eq_refl) as [_ E]. refine (eq_trans E _). vm_compute in Ev. injection Ev as <-.
    vm_compute. reflexivity.
  - destruct (pc_values (STATS_MAP two_packets) (to_be32 ue_10)) as [vs|] eqn:Ev;
      [|exfalso; vm_compute in Ev; discriminate Ev].
    destruct (Htx vs eq_refl) as [_ E]. refine (eq_trans E _). vm_compute in Ev. injection Ev as <-.
    vm_compute. reflexivity.
Defined.
