(* ===== verification/HandlersSpec.v ===== *)
(** * Correctness of the message handlers

    Absence of panics, ownership, what each handler installs and removes, and
    the isolation of sessions. *)

From S2P Require Import Prelude Types Header Ie Builder Messages Dict Common Server Handlers.

(** ** Absence of panics *)

Lemma finish_encode_no_panic {E} h body : finish (E:=E) (encode h ++ body) ≠ Panic.
Proof. by rewrite finish_encode. Qed.

Lemma heartbeat_response_no_panic {E} seq ts : build_heartbeat_response (E:=E) seq ts ≠ Panic.
Proof. apply finish_encode_no_panic. Qed.

Lemma association_response_no_panic {E} seq addr ts :
  build_association_setup_response (E:=E) seq addr ts ≠ Panic.
Proof.
  unfold build_association_setup_response, add_up_function_features, add_recovery_timestamp,
    add_cause, add_node_id_v4. cbv zeta.
  rewrite msg_new_body, !add_ie_body. apply finish_encode_no_panic.
Qed.

Lemma establishment_response_no_panic {E} seq cp seid addr created :
  build_session_establishment_response (E:=E) seq cp seid addr created ≠ Panic.
Proof.
  unfold build_session_establishment_response, add_fseid, add_cause, add_node_id_v4. cbv zeta.
  rewrite msg_new_body, !add_ie_body, foldl_created_pdr. apply finish_encode_no_panic.
Qed.

Lemma modification_response_no_panic {E} seq seid :
  build_session_modification_response (E:=E) seq seid ≠ Panic.
Proof. apply finish_encode_no_panic. Qed.

Lemma deletion_response_no_panic {E} seq seid :
  build_session_deletion_response (E:=E) seq seid ≠ Panic.
Proof. apply finish_encode_no_panic. Qed.

Lemma ok_or_no_panic {E A} (o : option A) (e : E) : ok_or o e ≠ Panic.
Proof. by destruct o. Qed.

#[export] Hint Resolve heartbeat_response_no_panic association_response_no_panic
  establishment_response_no_panic modification_response_no_panic deletion_response_no_panic
  ok_or_no_panic map_err_not_panic decode_not_panic : nopanic stateful.
#[export] Hint Resolve decode_association_setup_not_panic
  decode_session_establishment_not_panic decode_heartbeat_not_panic
  decode_session_modification_not_panic : stateful.

(** Walk through a handler, splitting binds and matches. *)
Ltac walk :=
  repeat first
    [ progress intros
    | solve [eauto 3 with stateful]
    | apply no_panic_bind
    | apply no_panic_for_each
    | match goal with |- no_panic (match ?x with _ => _ end) => destruct x end
    | match goal with |- no_panic (if ?x then _ else _) => destruct x end ].

Section spec.
Context {M P A : Type → Type}.
Context `{BpfMap M} `{PerCpuMap P} `{BpfArray A}.
Variable assoc_iter : gmap Z SmfAssociation → list (Z * SmfAssociation).
Variable now : Z.

Abbreviation World := (@World M P A).
Implicit Types w : World.

Lemma no_panic_inserts :
  (∀ k v, no_panic (session_insert (M:=M) (P:=P) (A:=A) k v)) ∧
  (∀ k v, no_panic (pdr_insert (M:=M) (P:=P) (A:=A) k v)) ∧
  (∀ k v, no_panic (far_insert (M:=M) (P:=P) (A:=A) k v)) ∧
  (∀ k, no_panic (urr_insert_zeros (M:=M) (P:=P) (A:=A) k)).
Proof.
  repeat split; intros; intros w; unfold session_insert, pdr_insert, far_insert,
    urr_insert_zeros; by case_match.
Qed.

Lemma no_panic_alloc {T} (f : PfcpServer → T * PfcpServer) :
  no_panic (alloc (M:=M) (P:=P) (A:=A) f).
Proof. by intros w. Qed.

Lemma no_panic_sender src : no_panic (sender_node (M:=M) (P:=P) (A:=A) assoc_iter src).
Proof. unfold sender_node, get_srv, require. walk. Qed.

Lemma no_panic_owning src cp : no_panic (owning_node (M:=M) (P:=P) (A:=A) assoc_iter src cp).
Proof. unfold owning_node. pose proof no_panic_sender. walk. Qed.

Lemma handle_heartbeat_no_panic h body src :
  no_panic (handle_heartbeat (M:=M) (P:=P) (A:=A) assoc_iter now h body src).
Proof. unfold handle_heartbeat, get_srv, on_srv. walk. Qed.

Lemma handle_session_association_no_panic h body src :
  no_panic (handle_session_association (M:=M) (P:=P) (A:=A) now h body src).
Proof. unfold handle_session_association, get_srv, on_srv. cbv zeta. walk. Qed.

Lemma handle_session_establishment_no_panic h body src :
  no_panic (handle_session_establishment (M:=M) (P:=P) (A:=A) assoc_iter now h body src).
Proof.
  destruct no_panic_inserts as (Hs & Hp & Hf & Hu). pose proof @no_panic_alloc.
  pose proof no_panic_sender.
  unfold handle_session_establishment, register_session, install_pdr, install_far, install_urr,
    emit, get_srv, on_srv, require. cbv zeta. walk.
Qed.

Lemma handle_session_modification_no_panic h body src :
  no_panic (handle_session_modification (M:=M) (P:=P) (A:=A) assoc_iter h body src).
Proof.
  destruct no_panic_inserts as (Hs & Hp & Hf & Hu). pose proof no_panic_owning.
  unfold handle_session_modification, update_far, update_urr, get_srv, on_srv, require.
  cbv zeta. walk.
Qed.

Lemma handle_session_deletion_no_panic h src :
  no_panic (handle_session_deletion (M:=M) (P:=P) (A:=A) assoc_iter h src).
Proof.
  pose proof no_panic_owning.
  unfold handle_session_deletion, delete_begin, delete_finish, emit, get_srv, on_srv, require.
  cbv zeta. walk.
Qed.

Lemma message_no_panic data src :
  no_panic (handle_message (M:=M) (P:=P) (A:=A) assoc_iter now data src).
Proof.
  pose proof handle_heartbeat_no_panic. pose proof handle_session_association_no_panic.
  pose proof handle_session_establishment_no_panic.
  pose proof handle_session_modification_no_panic. pose proof handle_session_deletion_no_panic.
  unfold handle_message, decode_header. cbv zeta. walk.
Qed.

(** C25. The server survives any datagram: whatever the octets, the sender and
    the state, [handle_message] returns a response, an empty response or an
    error; it never panics, so that the server's mutex is never poisoned. *)
Theorem handle_message_no_panic data src :
  no_panic (handle_message (M:=M) (P:=P) (A:=A) assoc_iter now data src).
Proof. apply message_no_panic. Qed.
End spec.

(** ** Map lemmas shared by the handlers *)

Section map_lemmas.
Context {M P : Type → Type}.
Context `{BpfMapLaws M} `{PerCpuMapLaws P}.

Lemma get_remove_ {V} (m : M V) k j :
  bpf_get (remove_ m k) j = if decide (k = j) then None else bpf_get m j.
Proof.
  unfold remove_. destruct (bpf_remove m k) as [m'|] eqn:E; simpl.
  - by apply get_remove.
  - apply remove_absent in E. by case_decide; subst.
Qed.

Lemma get_remove_keys {V} ks (m : M V) j :
  bpf_get (remove_keys ks m) j = if decide (j ∈ ks) then None else bpf_get m j.
Proof.
  unfold remove_keys. revert m; induction ks as [|k ks IH]; intros m; cbn [foldl].
  - case_decide as Hj; [by apply not_elem_of_nil in Hj|done].
  - rewrite IH, get_remove_. repeat case_decide; set_solver.
Qed.

Lemma values_remove_keys {V} ks (m : P V) j :
  pc_values (remove_keys_percpu ks m) j = if decide (j ∈ ks) then None else pc_values m j.
Proof.
  unfold remove_keys_percpu. revert m; induction ks as [|k ks IH]; intros m; cbn [foldl].
  - case_decide as Hj; [by apply not_elem_of_nil in Hj|done].
  - rewrite IH. assert (pc_values (default m (pc_remove m k)) j =
      if decide (k = j) then None else pc_values m j) as ->.
    { destruct (pc_remove m k) as [m'|] eqn:E; simpl.
      - by apply values_remove.
      - apply pc_remove_absent in E. destruct (decide (k = j)) as [<-|]; done. }
    repeat case_decide; set_solver.
Qed.

(** The entry at [j] after installing [val x] at [key x] for each [x]. *)
Fixpoint installed {X V} (key : X → Z) (val : X → V) (l : list X) (base : option V) (j : Z)
    : option V :=
  match l with
  | [] => base
  | x :: l => installed key val l (if decide (key x = j) then Some (val x) else base) j
  end.

Lemma installed_out {X V} (key : X → Z) (val : X → V) l base j :
  j ∉ key <$> l → installed key val l base j = base.
Proof.
  revert base; induction l as [|x l IH]; intros base Hj; [done|]. rewrite fmap_cons in Hj.
  apply not_elem_of_cons in Hj as [Hx Hj]. simpl. rewrite decide_False by congruence. auto.
Qed.

Lemma installed_in {X V} (key : X → Z) (val : X → V) l base x :
  NoDup (key <$> l) → x ∈ l → installed key val l base (key x) = Some (val x).
Proof.
  revert base; induction l as [|y l IH]; intros base Hnd Hx; [by apply not_elem_of_nil in Hx|].
  rewrite fmap_cons in Hnd. apply NoDup_cons in Hnd as [Hy Hnd]. simpl.
  apply elem_of_cons in Hx as [->|Hx]; [|by apply IH].
  rewrite decide_True by done. by apply installed_out.
Qed.
End map_lemmas.

(** Keys of different sessions differ. *)
Lemma session_keys_differ s s' i i' :
  0 ≤ s < 2 ^ 48 → 0 ≤ s' < 2 ^ 48 → s ≠ s' → compose_key s i ≠ compose_key s' i'.
Proof.
  intros Hs Hs' Hn. rewrite !compose_key_eq by done.
  pose proof (Z.mod_pos_bound i 65536). pose proof (Z.mod_pos_bound i' 65536). lia.
Qed.

Lemma other_session_key s s' i (ks : list Z) :
  0 ≤ s < 2 ^ 48 → 0 ≤ s' < 2 ^ 48 → s ≠ s' → compose_key s' i ∉ compose_key s <$> ks.
Proof.
  intros Hs Hs' Hn (i' & E & _)%list_elem_of_fmap. symmetry in E.
  by eapply session_keys_differ in E.
Qed.

(** ** Who may change a session *)

Section ownership.
Context {M P A : Type → Type}.
Context `{BpfMapLaws M} `{PerCpuMapLaws P} `{BpfArray A}.
Variable assoc_iter : gmap Z SmfAssociation → list (Z * SmfAssociation).
Variable now : Z.

Abbreviation World := (@World M P A).
Implicit Types w : World.

(** The decision the code implements for a request under local SEID [seid]
    from [src]: the session and the node that is taken for its owner. *)
Definition authorise (s : PfcpServer) (src : SocketAddr) (seid : Z)
    : outcome HandlerError (Z * SessionData) :=
  match sessions s !! seid with
  | None => Err (EUnknownSeid seid)
  | Some d =>
      match sa_ip src with
      | V6 ip => Err (ENonIpv4 (V6 ip))
      | V4 _ =>
          match find_assoc assoc_iter s src with
          | None => Err (ENoAssociation src)
          | Some (_, a) =>
              if has_key (as_sessions a) (sd_cp_seid d) then Ok (as_node_id a, d)
              else Err (ENotOwner (sd_cp_seid d) src)
          end
      end
  end.

Lemma sender_node_eq src w :
  sender_node assoc_iter src w =
  (match sa_ip src with
   | V6 ip => Err (ENonIpv4 (V6 ip))
   | V4 _ => match find_assoc assoc_iter (w_srv w) src with
             | Some ka => Ok ka | None => Err (ENoAssociation src) end
   end, w).
Proof.
  unfold sender_node, require, get_srv. destruct (sa_ip src); [|reflexivity].
  rewrite st_bind_eq. cbn [mret st_ret]. rewrite st_bind_eq. cbn [gets lift].
  destruct (find_assoc assoc_iter (w_srv w) src); reflexivity.
Qed.

Lemma owning_node_eq src cp w :
  owning_node assoc_iter src cp w =
  (match sa_ip src with
   | V6 ip => Err (ENonIpv4 (V6 ip))
   | V4 _ => match find_assoc assoc_iter (w_srv w) src with
             | None => Err (ENoAssociation src)
             | Some (_, a) => if has_key (as_sessions a) cp then Ok (as_node_id a)
                              else Err (ENotOwner cp src)
             end
   end, w).
Proof.
  unfold owning_node. rewrite st_bind_eq, sender_node_eq.
  destruct (sa_ip src); [|done]. destruct (find_assoc _ _ _) as [[k a]|]; [|done].
  by destruct (has_key _ _).
Qed.

(** The server after a deletion. *)
Definition deleted_srv (seid node cp : Z) (s : PfcpServer) : PfcpServer :=
  set_associations (alter (set_as_sessions (delete cp)) node) (set_sessions (delete seid) s).

(** What the calls of the terminal's methods leave in the log. *)
Definition tui_part (s : PfcpServer) (calls : list TuiCall) : list Effect :=
  if tx_tui s then Tui <$> calls else [].

Definition deleted_log (s : PfcpServer) (seid ue : Z) : list Effect :=
  tui_part s [CallSessionsUpdated (delete seid (sessions s)); CallLog (session_deleted_line seid)]
  ++ [GaugeDec; RouteTeardown ue] ++ (if session_store s then [StoreDelete seid] else []).

Lemma tui_eq call w :
  tui (M:=M) (P:=P) (A:=A) call w =
  (Ok (), mkWorld (w_srv w) (w_maps w) (w_log w ++ tui_part (w_srv w) [call])).
Proof.
  unfold tui, get_srv, tui_part. rewrite st_bind_eq. cbn [gets]. destruct w as [s m l].
  cbn [w_srv]. destruct (tx_tui s); [done|]. cbn. by rewrite app_nil_r.
Qed.

(** A deletion, from beginning to end. *)
Lemma deletion_eq h src w :
  let seid := default 0 (hdr_seid h) in
  handle_session_deletion assoc_iter h src w =
  match authorise (w_srv w) src seid with
  | Ok (node, d) =>
      (build_session_deletion_response (hdr_seq_num h) seid,
       mkWorld (deleted_srv seid node (sd_cp_seid d) (w_srv w))
         (delete_maps seid (sd_ue_ip d) (w_maps w))
         (w_log w ++ deleted_log (w_srv w) seid (sd_ue_ip d)))
  | Err e => (Err e, w)
  | Panic => (Panic, w)
  end.
Proof.
  cbv zeta. unfold handle_session_deletion, delete_begin, authorise, require, get_srv. cbv zeta.
  set (seid := default 0 (hdr_seid h)).
  rewrite !st_bind_eq. cbn [gets lift].
  destruct (sessions (w_srv w) !! seid) as [d|] eqn:Es; cbn [ok_or]; [|done].
  rewrite st_bind_eq. cbn [lift]. rewrite st_bind_eq, owning_node_eq.
  destruct (sa_ip src); [|done]. destruct (find_assoc _ _ _) as [[k a]|]; [|done].
  destruct (has_key _ _); [|done].
  unfold delete_finish, tui_sessions, get_srv. cbv zeta.
  repeat first [rewrite tui_eq | rewrite st_bind_eq
    | progress cbn [gets on_srv modify lift emit mret st_ret with_srv with_maps w_srv w_maps w_log fst snd]
    | rewrite Es].
  cbn [set_associations set_sessions session_store]. unfold deleted_log, tui_part.
  cbn [set_associations set_sessions tx_tui sessions].
  destruct (session_store (w_srv w)), (tx_tui (w_srv w));
    cbn [w_srv w_maps w_log fst snd fmap list_fmap emit modify mret st_ret];
    rewrite <-?(assoc_L (++)), ?app_nil_r; reflexivity.
Qed.

(** C7. Session deletion implements its specification completely: a request
    that is not authorised is answered by the exact error and changes
    nothing at all; an authorised one removes the session from the server
    and from the owner's association, removes its rules from the eBPF maps,
    tears the UE's route down, deletes the stored copy, and answers. *)
Theorem deletion_refines h src w :
  let seid := default 0 (hdr_seid h) in
  handle_session_deletion assoc_iter h src w =
  match authorise (w_srv w) src seid with
  | Ok (node, d) =>
      (build_session_deletion_response (hdr_seq_num h) seid,
       mkWorld (deleted_srv seid node (sd_cp_seid d) (w_srv w))
         (delete_maps seid (sd_ue_ip d) (w_maps w))
         (w_log w ++ deleted_log (w_srv w) seid (sd_ue_ip d)))
  | Err e => (Err e, w)
  | Panic => (Panic, w)
  end.
Proof. exact (deletion_eq h src w). Qed.

(** A modification that is not authorised, or that carries no SEID, is
    refused with the exact error and changes nothing. *)
Theorem modification_refused h body src w req :
  decode_session_modification body = Ok req →
  (hdr_seid h = None →
   handle_session_modification assoc_iter h body src w = (Err EMissingSeid, w)) ∧
  (∀ seid e, hdr_seid h = Some seid → authorise (w_srv w) src seid = Err e →
   handle_session_modification assoc_iter h body src w = (Err e, w)).
Proof.
  intros Hd. unfold handle_session_modification, require, get_srv, gets, lift, mbind, st_bind.
  rewrite Hd. cbn [map_err]. split; [by intros ->|]. intros seid e -> Ha. cbn [ok_or].
  unfold authorise in Ha. destruct (sessions (w_srv w) !! seid) as [d|]; [|by injection Ha as <-].
  cbn [ok_or]. rewrite owning_node_eq. destruct (sa_ip src); [|by injection Ha as <-].
  destruct (find_assoc _ _ _) as [[k a]|]; [|by injection Ha as <-].
  destruct (has_key _ _); [done|by injection Ha as <-].
Qed.
End ownership.

(** ** What deletion removes and what it leaves *)

Section deletion.
Context {M P A : Type → Type}.
Context `{BpfMapLaws M} `{PerCpuMapLaws P} `{BpfArray A}.
Implicit Types m : Maps M P A.

Lemma delete_maps_pdr seid ue m j :
  bpf_get (PDR_MAP (delete_maps seid ue m)) j =
  if decide (j ∈ PdrKey_new seid <$> session_pdr_ids m (to_be32 ue)) then None
  else bpf_get (PDR_MAP m) j.
Proof. unfold delete_maps. cbn [PDR_MAP set_session_map set_urr_map set_far_map set_pdr_map].
  apply get_remove_keys. Qed.

Lemma delete_maps_far seid ue m j :
  bpf_get (FAR_MAP (delete_maps seid ue m)) j =
  if decide (j ∈ FarKey_new seid <$> session_far_ids m seid (session_pdr_ids m (to_be32 ue)))
  then None else bpf_get (FAR_MAP m) j.
Proof. unfold delete_maps. cbn [FAR_MAP set_session_map set_urr_map set_far_map set_pdr_map].
  apply get_remove_keys. Qed.

Lemma delete_maps_urr seid ue m j :
  pc_values (URR_MAP (delete_maps seid ue m)) j =
  if decide (j ∈ UrrKey_new seid <$> session_urr_ids m seid (session_pdr_ids m (to_be32 ue)))
  then None else pc_values (URR_MAP m) j.
Proof. unfold delete_maps. cbn [URR_MAP set_session_map set_urr_map set_far_map set_pdr_map].
  apply values_remove_keys. Qed.

Lemma delete_maps_session seid ue m j :
  bpf_get (SESSION_MAP (delete_maps seid ue m)) j =
  if decide (to_be32 ue = j) then None else bpf_get (SESSION_MAP m) j.
Proof. unfold delete_maps. cbn [SESSION_MAP set_session_map set_urr_map set_far_map set_pdr_map].
  apply get_remove_. Qed.

(** The PDRs that the entry of UE address [ue] lists: the first
    [si_pdr_count] of its identifiers, at most eight. *)
Definition listed m ue (id : Z) : Prop :=
  ∃ info i, bpf_get (SESSION_MAP m) (to_be32 ue) = Some info ∧
    (i < 8)%nat ∧ Z.of_nat i < si_pdr_count info ∧ si_pdr_ids info !! i = Some id.

(** The keys of the rules that go: of the listed PDRs and, where they are in
    the map, of what they refer to; [0] is no URR. *)
Definition doomed_pdr m seid ue (j : Z) : Prop := ∃ id, listed m ue id ∧ j = PdrKey_new seid id.
Definition doomed_far m seid ue (j : Z) : Prop := ∃ id pv, listed m ue id ∧
  bpf_get (PDR_MAP m) (PdrKey_new seid id) = Some pv ∧ j = FarKey_new seid (pv_far_id pv).
Definition doomed_urr m seid ue (j : Z) : Prop := ∃ id pv, listed m ue id ∧
  bpf_get (PDR_MAP m) (PdrKey_new seid id) = Some pv ∧ pv_urr_id pv ≠ 0 ∧
  j = UrrKey_new seid (pv_urr_id pv).

(** [now] is [before] without the keys in [gone]. *)
Definition without {V} (gone : Z → Prop) (before after : Z → option V) : Prop :=
  ∀ j, (gone j → after j = None) ∧ (¬ gone j → after j = before j).

Lemma without_decide {V} (keys : list Z) (gone : Z → Prop) (before after : Z → option V) :
  (∀ j, after j = if decide (j ∈ keys) then None else before j) → (∀ j, gone j ↔ j ∈ keys) →
  without gone before after.
Proof. intros Ha Hg j. rewrite Ha, Hg. by case_decide. Qed.

Lemma listed_ids m ue id : listed m ue id ↔ id ∈ session_pdr_ids m (to_be32 ue).
Proof.
  unfold listed, session_pdr_ids, MAX_PDR_PER_SESSION. split.
  - intros (info & i & -> & Hi & Hc & Hid). apply list_elem_of_lookup. exists i.
    rewrite lookup_take_lt by lia. done.
  - destruct (bpf_get (SESSION_MAP m) (to_be32 ue)) as [info|];
      [|intros Hin; by apply not_elem_of_nil in Hin].
    intros [i [Hi Hlt]%lookup_take_Some]%list_elem_of_lookup. exists info, i. split; [done|]. split; [lia|]. split; [lia|done].
Qed.

Lemma doomed_pdr_keys m seid ue j :
  doomed_pdr m seid ue j ↔ j ∈ PdrKey_new seid <$> session_pdr_ids m (to_be32 ue).
Proof.
  unfold doomed_pdr. rewrite list_elem_of_fmap. split.
  - intros (id & Hl & ->). exists id. split; [done|]. by apply listed_ids.
  - intros (id & -> & Hl). exists id. split; [by apply listed_ids|done].
Qed.

Lemma doomed_far_keys m seid ue j :
  doomed_far m seid ue j ↔
  j ∈ FarKey_new seid <$> session_far_ids m seid (session_pdr_ids m (to_be32 ue)).
Proof.
  unfold doomed_far, session_far_ids. rewrite list_elem_of_fmap. split.
  - intros (id & pv & Hl & Hpv & ->). exists (pv_far_id pv). split; [done|].
    apply elem_of_remove_dups, list_elem_of_omap. exists id. rewrite Hpv. split; [by apply listed_ids|done].
  - intros (fid & -> & Hf). apply elem_of_remove_dups, list_elem_of_omap in Hf as (id & Hid & E).
    destruct (bpf_get _ _) as [pv|] eqn:Hpv; [|done]. injection E as <-. exists id, pv.
    split; [by apply listed_ids|done].
Qed.

Lemma doomed_urr_keys m seid ue j :
  doomed_urr m seid ue j ↔
  j ∈ UrrKey_new seid <$> session_urr_ids m seid (session_pdr_ids m (to_be32 ue)).
Proof.
  unfold doomed_urr, session_urr_ids. rewrite list_elem_of_fmap. split.
  - intros (id & pv & Hl & Hpv & Hu & ->). exists (pv_urr_id pv). split; [done|].
    apply elem_of_remove_dups, list_elem_of_omap. exists id. rewrite Hpv. split; [by apply listed_ids|].
    cbn. by rewrite (proj2 (Z.eqb_neq _ _) Hu).
  - intros (uid & -> & Hf). apply elem_of_remove_dups, list_elem_of_omap in Hf as (id & Hid & E).
    destruct (bpf_get _ _) as [pv|] eqn:Hpv; [|done]. cbn in E.
    destruct (Z.eqb_spec (pv_urr_id pv) 0); [done|]. injection E as <-. exists id, pv.
    split; [by apply listed_ids|done].
Qed.

Lemma delete_maps_without seid ue m :
  let m' := delete_maps seid ue m in
  without (λ j, j = to_be32 ue) (bpf_get (SESSION_MAP m)) (bpf_get (SESSION_MAP m')) ∧
  without (doomed_pdr m seid ue) (bpf_get (PDR_MAP m)) (bpf_get (PDR_MAP m')) ∧
  without (doomed_far m seid ue) (bpf_get (FAR_MAP m)) (bpf_get (FAR_MAP m')) ∧
  without (doomed_urr m seid ue) (pc_values (URR_MAP m)) (pc_values (URR_MAP m')) ∧
  STATS_MAP m' = STATS_MAP m ∧ IF_INDEX m' = IF_INDEX m ∧ GW_MAC m' = GW_MAC m.
Proof.
  cbv zeta. split; [|split; [|split; [|split; [|done]]]].
  - intros j. rewrite delete_maps_session. split; [intros ->; by rewrite decide_True|].
    intros Hj. by rewrite decide_False by auto.
  - eapply without_decide; [apply delete_maps_pdr|apply doomed_pdr_keys].
  - eapply without_decide; [apply delete_maps_far|apply doomed_far_keys].
  - eapply without_decide; [apply delete_maps_urr|apply doomed_urr_keys].
Qed.

Variable assoc_iter : gmap Z SmfAssociation → list (Z * SmfAssociation).

End deletion.

(** ** What establishment installs *)

Section establishment.
Context {M P A : Type → Type}.
Context `{BpfMapLaws M} `{PerCpuMapLaws P} `{BpfArray A}.
Variable assoc_iter : gmap Z SmfAssociation → list (Z * SmfAssociation).
Variable now : Z.

Abbreviation World := (@World M P A).
Implicit Types w : World.

Lemma install_pdrs_ok seid ue pdrs w w' :
  for_each (install_pdr seid ue) pdrs w = (Ok (), w') →
  ∃ pm, w' = with_maps (set_pdr_map pm) w ∧ ∀ j, bpf_get pm j =
    installed (λ p, PdrKey_new seid (pdr_id p)) (pdr_value_of ue) pdrs
      (bpf_get (PDR_MAP (w_maps w)) j) j.
Proof.
  revert w; induction pdrs as [|p pdrs IH]; intros w Hr.
  - injection Hr as <-. exists (PDR_MAP (w_maps w)). split; [|done]. by destruct w as [? [] ?].
  - apply st_bind_ok in Hr as ([] & w1 & Hop1 & Hr). unfold install_pdr, pdr_insert in Hop1.
    destruct (bpf_insert _ _ _) as [pm1|] eqn:Ei; [|done]. injection Hop1 as <-.
    apply IH in Hr as (pm & -> & Hpm). exists pm. split; [done|]. intros j. rewrite Hpm.
    simpl. by rewrite (get_insert _ _ _ _ j Ei).
Qed.

Lemma install_fars_ok seid n3 fars w w' :
  for_each (install_far seid n3) fars w = (Ok (), w') →
  ∃ fm, w' = with_maps (set_far_map fm) w ∧ ∀ j, bpf_get fm j =
    installed (λ f, FarKey_new seid (far_id f)) (far_value_of n3) fars
      (bpf_get (FAR_MAP (w_maps w)) j) j.
Proof.
  revert w; induction fars as [|p fars IH]; intros w Hr.
  - injection Hr as <-. exists (FAR_MAP (w_maps w)). split; [|done]. by destruct w as [? [] ?].
  - apply st_bind_ok in Hr as ([] & w1 & Hop1 & Hr). unfold install_far, far_insert in Hop1.
    destruct (bpf_insert _ _ _) as [fm1|] eqn:Ei; [|done]. injection Hop1 as <-.
    apply IH in Hr as (fm & -> & Hfm). exists fm. split; [done|]. intros j. rewrite Hfm.
    simpl. by rewrite (get_insert _ _ _ _ j Ei).
Qed.

Definition zero_slots : list UrrStats := replicate (pc_cpus (P:=P)) (mkUrrStats 0 0 0 0).

(** The usage configurations after the Create URRs. *)
Definition with_urr_configs (seid cp : Z) (urrs : list ParsedURR)
    (c : gmap (Z * Z) UrrConfig) : gmap (Z * Z) UrrConfig :=
  foldl (λ c u, <[(seid, urr_id u) := urr_config_of now seid cp u]> c) c urrs.

Lemma install_urrs_ok seid cp urrs w w' :
  for_each (install_urr now seid cp) urrs w = (Ok (), w') →
  ∃ um, w' = with_srv (set_urr_configs (with_urr_configs seid cp urrs))
               (with_maps (set_urr_map um) w) ∧ ∀ j, pc_values um j =
    installed (λ u, UrrKey_new seid (urr_id u)) (λ _, zero_slots) urrs
      (pc_values (URR_MAP (w_maps w)) j) j.
Proof.
  revert w; induction urrs as [|u urrs IH]; intros w Hr.
  - injection Hr as <-. exists (URR_MAP (w_maps w)). split; [|done].
    destruct w as [[] [] ?]. reflexivity.
  - apply st_bind_ok in Hr as ([] & w1 & Hop1 & Hr). unfold install_urr in Hop1.
    apply st_bind_ok in Hop1 as ([] & w0 & Hop0 & Hop1). unfold urr_insert_zeros in Hop0.
    destruct (pc_insert_all _ _ _) as [um1|] eqn:Ei; [|done]. injection Hop0 as <-.
    injection Hop1 as <-. apply IH in Hr as (um & -> & Hum). exists um.
    split; [by destruct w as [[] [] ?]|]. intros j. rewrite Hum. simpl.
    by rewrite (values_insert_all _ _ _ _ j Ei).
Qed.

Lemma emit_eq (e : Effect) w : emit e w = (Ok (), mkWorld (w_srv w) (w_maps w) (w_log w ++ [e])).
Proof. done. Qed.

(** The server after a successful establishment. *)
Definition established_srv (node cp : Z) (data : SessionData) (urrs : list ParsedURR)
    (s : PfcpServer) : PfcpServer :=
  set_associations (alter (set_as_sessions (insert cp data)) node)
    (set_sessions (insert (next_seid s) data)
      (set_urr_configs (with_urr_configs (next_seid s) cp urrs)
        (set_counters (wrap 64 (next_seid s + 1)) (wrap 32 (next_teid s + 1))
           (next_report_seq s) s))).

Definition established_log (s : PfcpServer) (data : SessionData) : list Effect :=
  (if session_store s then [StoreSave (next_seid s) data] else [])
  ++ tui_part s [CallSessionsUpdated (<[next_seid s := data]> (sessions s));
       CallLog (session_added_line (sd_ue_ip data) (next_seid s))]
  ++ [GaugeInc; RouteSetup (sd_ue_ip data)].

(** The rules a request installs, for the identifiers it is given. *)
Record established (req : SessionEstablishmentReq) (ue seid teid n3 : Z)
    (ohc : OuterHeaderCreation) (m m' : Maps M P A) : Prop := {
  est_session j : bpf_get (SESSION_MAP m') j =
    if decide (to_be32 ue = j) then Some (session_info_of seid teid n3 ohc (create_pdrs req))
    else bpf_get (SESSION_MAP m) j;
  est_pdr j : bpf_get (PDR_MAP m') j =
    installed (λ p, PdrKey_new seid (pdr_id p)) (pdr_value_of ue) (create_pdrs req)
      (bpf_get (PDR_MAP m) j) j;
  est_far j : bpf_get (FAR_MAP m') j =
    installed (λ f, FarKey_new seid (far_id f)) (far_value_of n3) (create_fars req)
      (bpf_get (FAR_MAP m) j) j;
  est_urr j : pc_values (URR_MAP m') j =
    installed (λ u, UrrKey_new seid (urr_id u)) (λ _, zero_slots) (create_urrs req)
      (pc_values (URR_MAP m) j) j;
  est_rest : STATS_MAP m' = STATS_MAP m ∧ IF_INDEX m' = IF_INDEX m ∧ GW_MAC m' = GW_MAC m;
}.

Lemma require_ok {T} (o : option T) e w a w' :
  require (M:=M) (P:=P) (A:=A) o e w = (Ok a, w') → o = Some a ∧ w' = w.
Proof. unfold require, lift. destruct o; simpl; by intros [= -> ->]. Qed.

Lemma establishment_ok h body src w rsp w' :
  handle_session_establishment assoc_iter now h body src w = (Ok rsp, w') →
  ∃ req k a ue ohc,
    decode_session_establishment body = Ok req ∧ (∃ ip, sa_ip src = V4 ip) ∧
    find_assoc assoc_iter (w_srv w) src = Some (k, a) ∧
    find_map ue_ip (create_pdrs req) = Some ue ∧
    find_map outer_header_creation (create_fars req) = Some ohc ∧
    let s := w_srv w in
    let data := mkSessionData ue (next_teid s) (ohc_peer_addr ohc) (ser_cp_seid req) in
    build_session_establishment_response (E:=HandlerError) (hdr_seq_num h) (ser_cp_seid req)
      (next_seid s) (n3_addr s) (created_pdrs_of (next_teid s) (n3_addr s) (create_pdrs req))
      = Ok rsp ∧
    w_srv w' = established_srv (as_node_id a) (ser_cp_seid req) data (create_urrs req) s ∧
    w_log w' = w_log w ++ established_log s data ∧
    established req ue (next_seid s) (next_teid s) (n3_addr s) ohc (w_maps w) (w_maps w').
Proof.
  unfold handle_session_establishment. intros Hr. cbv zeta in Hr.
  apply st_bind_ok in Hr as (req & w1 & Hreq & Hr). apply lift_ok in Hreq as [Hreq ->].
  apply st_bind_ok in Hr as ([k a] & w1 & Ha & Hr). rewrite sender_node_eq in Ha.
  destruct (sa_ip src) as [ip|] eqn:Eip; [|done].
  destruct (find_assoc assoc_iter (w_srv w) src) as [ka|] eqn:Ef; [|done].
  injection Ha as -> <-.
  apply st_bind_ok in Hr as (seid & w1 & Hseid & Hr). injection Hseid as <- <-.
  apply st_bind_ok in Hr as (teid & w1 & Hteid & Hr). injection Hteid as <- <-.
  apply st_bind_ok in Hr as (ue & w1 & Hue & Hr). apply require_ok in Hue as [Hue ->].
  apply st_bind_ok in Hr as (ohc & w1 & Hohc & Hr). apply require_ok in Hohc as [Hohc ->].
  apply st_bind_ok in Hr as (n3 & w1 & Hn3 & Hr). injection Hn3 as <- <-.
  apply st_bind_ok in Hr as ([] & w1 & Hs & Hr). unfold session_insert in Hs.
  destruct (bpf_insert _ _ _) as [sm|] eqn:Esm; [|done]. injection Hs as <-.
  apply st_bind_ok in Hr as ([] & w1 & Hp & Hr). apply install_pdrs_ok in Hp as (pm & -> & Hpm).
  apply st_bind_ok in Hr as ([] & w1 & Hf & Hr). apply install_fars_ok in Hf as (fm & -> & Hfm).
  apply st_bind_ok in Hr as ([] & w1 & Hu & Hr). apply install_urrs_ok in Hu as (um & -> & Hum).
  apply st_bind_ok in Hr as ([] & w1 & Hreg & Hr). unfold register_session in Hreg.
  apply st_bind_ok in Hreg as ([] & w0 & Hg & Hreg). injection Hg as <-. injection Hreg as <-.
  apply st_bind_ok in Hr as (store & w1 & Hst & Hr). injection Hst as <- <-.
  apply st_bind_ok in Hr as ([] & w1 & Hsave & Hr).
  apply st_bind_ok in Hr as ([] & w0 & Hg & Hr). unfold tui_sessions in Hg.
  rewrite st_bind_eq in Hg. cbn [get_srv gets] in Hg. rewrite tui_eq in Hg. injection Hg as <-.
  apply st_bind_ok in Hr as ([] & w0 & Hg & Hr). rewrite tui_eq in Hg. injection Hg as <-.
  apply st_bind_ok in Hr as ([] & w2 & Hg & Hr). injection Hg as <-.
  apply st_bind_ok in Hr as ([] & w3 & Hg & Hr). injection Hg as <-.
  apply lift_ok in Hr as [Hrsp ->].
  exists req, k, a, ue, ohc. cbv zeta.
  assert (decode_session_establishment body = Ok req) as Hdec.
  { by destruct (decode_session_establishment body); simplify_eq/=. }
  split; [exact Hdec|]. split; [by exists ip|]. split; [done|]. split; [done|]. split; [done|].
  split; [exact Hrsp|].
  assert (w_srv w1 = established_srv (as_node_id a) (ser_cp_seid req)
      (mkSessionData ue (next_teid (w_srv w)) (ohc_peer_addr ohc) (ser_cp_seid req))
      (create_urrs req) (w_srv w) ∧
    w_log w1 = w_log w ++ (if session_store (w_srv w) then [StoreSave (next_seid (w_srv w))
      (mkSessionData ue (next_teid (w_srv w)) (ohc_peer_addr ohc) (ser_cp_seid req))] else []) ∧
    w_maps w1 = set_urr_map um (set_far_map fm (set_pdr_map pm (set_session_map sm (w_maps w)))))
    as (Es & El & Em).
  { revert Hsave. cbn [w_srv with_srv with_maps]. destruct w as [s mp lg]. cbn [w_srv w_maps w_log].
    cbn. destruct (session_store s); intros Hsave; injection Hsave as <-; cbn;
      rewrite ?app_nil_r; done. }
  cbn [w_srv w_log w_maps]. rewrite Es, El, Em. split; [done|]. split.
  { unfold established_log, tui_part. cbn [established_srv tx_tui sessions set_associations set_sessions
      set_urr_configs set_counters]. destruct (tx_tui (w_srv w));
      cbn [fmap list_fmap]; rewrite ?app_nil_r, <-?(assoc_L (++)); reflexivity. }
  split; intros.
  - apply (get_insert _ _ _ _ j Esm).
  - apply Hpm.
  - apply Hfm.
  - apply Hum.
  - done.
Qed.
End establishment.

(** ** Properties of establishment *)

Lemma NoDup_keys {X} seid (id : X → Z) (l : list X) :
  0 ≤ seid < 2 ^ 48 → Forall (λ x, u16 (id x)) l → NoDup (id <$> l) →
  NoDup ((λ x, compose_key seid (id x)) <$> l).
Proof.
  intros Hs Hl Hnd. induction Hl as [|x l Hx Hl IH]; [constructor|].
  rewrite fmap_cons in *. apply NoDup_cons in Hnd as [Hn Hnd]. apply NoDup_cons. split; [|by apply IH].
  intros (y & E & Hy)%list_elem_of_fmap. apply Hn. apply list_elem_of_fmap. exists y. split; [|done].
  rewrite Forall_forall in Hl. specialize (Hl y Hy). rewrite !compose_key_eq in E by done.
  unfold u16 in *. rewrite !Z.mod_small in E by lia. lia.
Qed.

Lemma other_key_installed {X} seid seid' i (id : X → Z) (l : list X) :
  0 ≤ seid < 2 ^ 48 → 0 ≤ seid' < 2 ^ 48 → seid ≠ seid' →
  compose_key seid' i ∉ (λ x, compose_key seid (id x)) <$> l.
Proof.
  intros Hs Hs' Hn (x & E & _)%list_elem_of_fmap. symmetry in E. by eapply session_keys_differ in E.
Qed.

Lemma take_pdr_ids pdrs :
  take (length pdrs `min` MAX_PDR_PER_SESSION) (pdr_id_array pdrs) =
  pdr_id <$> take MAX_PDR_PER_SESSION pdrs.
Proof.
  unfold pdr_id_array. rewrite take_app_le by (rewrite length_fmap, length_take; lia).
  rewrite <-fmap_take, take_take. destruct (decide (length pdrs ≤ 8)%nat).
  - by rewrite !take_ge by (unfold MAX_PDR_PER_SESSION; lia).
  - f_equal. f_equal. unfold MAX_PDR_PER_SESSION. lia.
Qed.

Section establishment_spec.
Context {M P A : Type → Type}.
Context `{BpfMapLaws M} `{PerCpuMapLaws P} `{BpfArray A}.
Variable assoc_iter : gmap Z SmfAssociation → list (Z * SmfAssociation).
Variable now : Z.

Abbreviation World := (@World M P A).
Implicit Types w : World.

(** What the XDP programs are to read of a request: numbers they compare with
    packets in network order, the rest as in the message, zero where the message
    has nothing. *)
Definition entry_carries (seid teid n3 : Z) (ohc : OuterHeaderCreation) (pdrs : list ParsedPDR)
    (info : SessionInfo) : Prop :=
  si_seid info = seid ∧ si_teid info = to_be32 teid ∧ si_gnb_ip info = to_be32 (ohc_peer_addr ohc) ∧
  si_upf_ip info = to_be32 n3 ∧ si_pdr_count info = Z.min (Z.of_nat (length pdrs)) 8 ∧
  length (si_pdr_ids info) = 8%nat ∧
  ∀ i p, (i < 8)%nat → pdrs !! i = Some p → si_pdr_ids info !! i = Some (pdr_id p).

Definition pdr_carried (ue : Z) (p : ParsedPDR) (v : PdrValue) : Prop :=
  pv_precedence v = precedence p ∧ pv_source_interface v = source_interface p ∧
  pv_ue_ip v = to_be32 ue ∧ pv_far_id v = default 0 (pdr_far_id p) ∧
  pv_urr_id v = default 0 (pdr_urr_id p) ∧
  (pv_outer_header_removal v ≠ 0 ↔ outer_header_removal p = true) ∧
  match sdf_filter p with
  | Some f => pv_sdf_proto v = proto f ∧ pv_sdf_src_ip v = to_be32 (src_ip f) ∧
      pv_sdf_dst_ip v = to_be32 (dst_ip f) ∧ pv_sdf_src_port v = src_port f ∧
      pv_sdf_dst_port v = dst_port f
  | None => pv_sdf_proto v = 0 ∧ pv_sdf_src_ip v = 0 ∧ pv_sdf_dst_ip v = 0 ∧
      pv_sdf_src_port v = 0 ∧ pv_sdf_dst_port v = 0
  end.

Definition far_carried (n3 : Z) (f : ParsedFAR) (v : FarValue) : Prop :=
  fv_apply_action v = apply_action f ∧ fv_dst_interface v = default 0 (dest_interface f) ∧
  fv_upf_n3_ip v = to_be32 n3 ∧
  match outer_header_creation f with
  | Some o => fv_gnb_ip v = to_be32 (ohc_peer_addr o) ∧ fv_teid v = to_be32 (ohc_teid o)
  | None => fv_gnb_ip v = 0 ∧ fv_teid v = 0
  end.

Definition urr_configured (seid cp : Z) (u : ParsedURR) (c : UrrConfig) : Prop :=
  uc_urr_id c = urr_id u ∧ uc_seid c = seid ∧ uc_cp_seid c = cp ∧
  uc_measurement_method c = measurement_method u ∧ uc_reporting_triggers c = reporting_triggers u ∧
  uc_volume_threshold_total c = volume_threshold_total u ∧
  uc_measurement_period c = measurement_period u ∧ uc_last_report c = now ∧
  uc_threshold_reported c = false ∧ uc_ur_seqn c = 0.

Lemma session_info_carries seid teid n3 ohc pdrs :
  entry_carries seid teid n3 ohc pdrs (session_info_of seid teid n3 ohc pdrs).
Proof.
  unfold entry_carries, session_info_of, pdr_id_array, MAX_PDR_PER_SESSION. cbn [si_seid si_teid
    si_gnb_ip si_upf_ip si_pdr_ids si_pdr_count].
  do 4 (split; [done|]). split; [lia|]. split.
  - rewrite length_app, length_replicate, length_fmap, length_take. lia.
  - intros i p Hi Hp. rewrite lookup_app_l.
    + rewrite list_lookup_fmap, lookup_take_lt by done. by rewrite Hp.
    + rewrite length_fmap, length_take. apply lookup_lt_Some in Hp. lia.
Qed.

Lemma pdr_value_carries ue p : pdr_carried ue p (pdr_value_of ue p).
Proof.
  unfold pdr_carried, pdr_value_of. cbn. do 5 (split; [done|]).
  split; [by destruct (outer_header_removal p)|]. by destruct (sdf_filter p).
Qed.

Lemma far_value_carries n3 f : far_carried n3 f (far_value_of n3 f).
Proof. unfold far_carried, far_value_of. cbn. by destruct (outer_header_creation f). Qed.

(** Installing the same value under every key leaves it under each of them. *)
Lemma installed_same {X V} (key : X → Z) (v : V) l base x :
  x ∈ l → installed key (λ _, v) l base (key x) = Some v.
Proof.
  revert x base. induction l as [|y l IH]; intros x base Hx; [by apply not_elem_of_nil in Hx|].
  cbn [installed]. destruct (decide (key x ∈ key <$> l)) as [Hin|Hout].
  - apply list_elem_of_fmap in Hin as (x' & -> & Hx'). by apply IH.
  - apply elem_of_cons in Hx as [->|Hx]; [|by destruct Hout; apply list_elem_of_fmap_2].
    rewrite installed_out by done. by rewrite decide_True.
Qed.

Lemma with_urr_configs_out seid cp urrs c k :
  k ∉ (λ u, (seid, urr_id u)) <$> urrs → with_urr_configs now seid cp urrs c !! k = c !! k.
Proof.
  unfold with_urr_configs. revert c. induction urrs as [|u urrs IH]; intros c Hk; [done|].
  cbn [foldl]. rewrite fmap_cons, not_elem_of_cons in Hk. destruct Hk as [Hu Hk].
  rewrite IH by done. by apply lookup_insert_ne.
Qed.

Lemma with_urr_configs_in seid cp urrs c u :
  NoDup (urr_id <$> urrs) → u ∈ urrs →
  ∃ x, with_urr_configs now seid cp urrs c !! (seid, urr_id u) = Some x ∧ urr_configured seid cp u x.
Proof.
  revert c. induction urrs as [|v urrs IH]; intros c Hnd Hu; [by apply not_elem_of_nil in Hu|].
  rewrite fmap_cons, NoDup_cons in Hnd. destruct Hnd as [Hv Hnd].
  apply elem_of_cons in Hu as [->|Hu]; [|by apply IH].
  exists (urr_config_of now seid cp v). split; [|by repeat split].
  change (with_urr_configs now seid cp (v :: urrs) c) with
    (with_urr_configs now seid cp urrs (<[(seid, urr_id v) := urr_config_of now seid cp v]> c)).
  rewrite with_urr_configs_out; [by rewrite lookup_insert_eq|].
  intros (y & [= E] & Hy)%list_elem_of_fmap. apply Hv. rewrite E. by apply list_elem_of_fmap_2.
Qed.

(** C6. A Session Establishment that is answered has installed what it was
    asked for, under a fresh SEID below 2^48: the UE's entry has the SEID, the
    tunnel and the first eight PDRs; each PDR and each FAR of the request is in
    the maps the XDP programs read, field by field, provided the identifiers are
    of 16 bits and none is used twice; every URR counts from zero on every CPU,
    and, none being used twice, has the configuration of the request in the
    reporter's table; the session is recorded in the server and at the sender's
    association.  No rule and no configuration of another session and no other
    UE's entry was touched. *)
Theorem establishment_installs h body src w rsp w' :
  handle_session_establishment assoc_iter now h body src w = (Ok rsp, w') →
  0 ≤ next_seid (w_srv w) < 2 ^ 48 →
  let seid := next_seid (w_srv w) in
  ∃ req ue ohc k a,
    decode_session_establishment body = Ok req ∧
    find_map ue_ip (create_pdrs req) = Some ue ∧
    find_map outer_header_creation (create_fars req) = Some ohc ∧
    find_assoc assoc_iter (w_srv w) src = Some (k, a) ∧
    (∃ info, bpf_get (SESSION_MAP (w_maps w')) (to_be32 ue) = Some info ∧
       entry_carries seid (next_teid (w_srv w)) (n3_addr (w_srv w)) ohc (create_pdrs req) info) ∧
    (Forall (λ p, u16 (pdr_id p)) (create_pdrs req) → NoDup (pdr_id <$> create_pdrs req) →
     ∀ p, p ∈ create_pdrs req → ∃ v,
       bpf_get (PDR_MAP (w_maps w')) (PdrKey_new seid (pdr_id p)) = Some v ∧ pdr_carried ue p v) ∧
    (Forall (λ f, u16 (far_id f)) (create_fars req) → NoDup (far_id <$> create_fars req) →
     ∀ f, f ∈ create_fars req → ∃ v,
       bpf_get (FAR_MAP (w_maps w')) (FarKey_new seid (far_id f)) = Some v ∧
       far_carried (n3_addr (w_srv w)) f v) ∧
    (∀ u, u ∈ create_urrs req →
       pc_values (URR_MAP (w_maps w')) (UrrKey_new seid (urr_id u)) =
         Some (replicate (pc_cpus (P:=P)) (mkUrrStats 0 0 0 0))) ∧
    (NoDup (urr_id <$> create_urrs req) → ∀ u, u ∈ create_urrs req → ∃ c,
       urr_configs (w_srv w') !! (seid, urr_id u) = Some c ∧
       urr_configured seid (ser_cp_seid req) u c) ∧
    (let data := mkSessionData ue (next_teid (w_srv w)) (ohc_peer_addr ohc) (ser_cp_seid req) in
     sessions (w_srv w') !! seid = Some data ∧
     associations (w_srv w') =
       alter (set_as_sessions (insert (ser_cp_seid req) data)) (as_node_id a) (associations (w_srv w))) ∧
    next_seid (w_srv w') = seid + 1 ∧
    (∀ seid' i, 0 ≤ seid' < 2 ^ 48 → seid' ≠ seid →
       bpf_get (PDR_MAP (w_maps w')) (PdrKey_new seid' i) =
         bpf_get (PDR_MAP (w_maps w)) (PdrKey_new seid' i) ∧
       bpf_get (FAR_MAP (w_maps w')) (FarKey_new seid' i) =
         bpf_get (FAR_MAP (w_maps w)) (FarKey_new seid' i) ∧
       pc_values (URR_MAP (w_maps w')) (UrrKey_new seid' i) =
         pc_values (URR_MAP (w_maps w)) (UrrKey_new seid' i) ∧
       urr_configs (w_srv w') !! (seid', i) = urr_configs (w_srv w) !! (seid', i) ∧
       sessions (w_srv w') !! seid' = sessions (w_srv w) !! seid') ∧
    (∀ k, k ≠ to_be32 ue →
       bpf_get (SESSION_MAP (w_maps w')) k = bpf_get (SESSION_MAP (w_maps w)) k).
Proof.
  intros Hr Hs seid. apply establishment_ok in Hr
    as (req & k & a & ue & ohc & Hdec & _ & Ha & Hue & Hohc & Hrest). cbv zeta in Hrest.
  destruct Hrest as (_ & Esrv & _ & [Es Ep Ef Eu _]). exists req, ue, ohc, k, a.
  do 4 (split; [done|]). split; [|split; [|split; [|split; [|split; [|split; [|split; [|split]]]]]]].
  - eexists. split; [|apply session_info_carries]. rewrite Es. by rewrite decide_True.
  - intros Hid Hnd p Hp. eexists. split; [|apply pdr_value_carries]. rewrite Ep.
    apply (installed_in (λ p, PdrKey_new seid (pdr_id p))); [|done]. by apply NoDup_keys.
  - intros Hid Hnd f Hf. eexists. split; [|apply far_value_carries]. rewrite Ef.
    apply (installed_in (λ f, FarKey_new seid (far_id f))); [|done]. by apply NoDup_keys.
  - intros u Hu. rewrite Eu. by apply (installed_same (λ u, UrrKey_new seid (urr_id u))).
  - intros Hnd u Hu. rewrite Esrv. by apply with_urr_configs_in.
  - rewrite Esrv. cbn. split; [by rewrite lookup_insert_eq|done].
  - rewrite Esrv. simpl. unfold wrap. rewrite Z.mod_small; [done|].
    change (2 ^ 64) with (2 ^ 48 * 65536). lia.
  - intros seid' i Hs' Hne. rewrite Ep, Ef, Eu, Esrv.
    rewrite !installed_out by (apply other_key_installed; auto). simpl.
    rewrite lookup_insert_ne by auto. rewrite with_urr_configs_out; [done|].
    by intros (y & [= ? _] & _)%list_elem_of_fmap.
  - intros j Hj. rewrite Es. by rewrite decide_False by auto.
Qed.

(** Established and deleted, for a request with at most eight PDRs, whose
    identifiers are distinct and of 16 bits, and whose FARs and URRs each are
    referred to by one of its PDRs: [req] is such a request. *)
Record deletable (req : SessionEstablishmentReq) : Prop := {
  dl_count : (length (create_pdrs req) ≤ 8)%nat;
  dl_width : Forall (λ p, u16 (pdr_id p)) (create_pdrs req);
  dl_distinct : NoDup (pdr_id <$> create_pdrs req);
  dl_fars f : f ∈ create_fars req → ∃ p, p ∈ create_pdrs req ∧ pdr_far_id p = Some (far_id f);
  dl_urrs u : u ∈ create_urrs req → urr_id u ≠ 0 ∧
    ∃ p, p ∈ create_pdrs req ∧ pdr_urr_id p = Some (urr_id u);
}.

(** No rule of this SEID. *)
Definition no_rules (m : Maps M P A) (seid : Z) : Prop :=
  ∀ i, bpf_get (PDR_MAP m) (PdrKey_new seid i) = None ∧
       bpf_get (FAR_MAP m) (FarKey_new seid i) = None ∧
       pc_values (URR_MAP m) (UrrKey_new seid i) = None.

(** The two maps of rules agree. *)
Definition rules_restored (m m' : Maps M P A) : Prop :=
  (∀ j, bpf_get (PDR_MAP m') j = bpf_get (PDR_MAP m) j) ∧
  (∀ j, bpf_get (FAR_MAP m') j = bpf_get (FAR_MAP m) j) ∧
  (∀ j, pc_values (URR_MAP m') j = pc_values (URR_MAP m) j).

Lemma delete_maps_undoes req ue seid teid n3 ohc m m1 :
  established req ue seid teid n3 ohc m m1 → deletable req → 0 ≤ seid < 2 ^ 48 → no_rules m seid →
  rules_restored m (delete_maps seid ue m1).
Proof.
  intros [Es Ep Ef Eu _] [Hlen Hid Hnd Hfars Hurrs] Hs Hnone.
  assert (session_pdr_ids m1 (to_be32 ue) = pdr_id <$> create_pdrs req) as Hids.
  { unfold session_pdr_ids. rewrite Es. case_decide as He; [|done].
    cbn [si_pdr_count si_pdr_ids
      session_info_of]. rewrite Nat2Z.id. rewrite <-Nat.min_assoc, Nat.min_id, take_pdr_ids.
    by rewrite take_ge. }
  assert (∀ p, p ∈ create_pdrs req → bpf_get (PDR_MAP m1) (PdrKey_new seid (pdr_id p))
      = Some (pdr_value_of ue p)) as Hpdr.
  { intros p Hp. rewrite Ep. apply (installed_in (λ p, PdrKey_new seid (pdr_id p))); [|done].
    by apply NoDup_keys. }
  split; [intros j|split; intros j].
  - rewrite delete_maps_pdr, Hids. case_decide as Hi.
    + apply list_elem_of_fmap in Hi as (i & -> & _). symmetry. apply Hnone.
    + rewrite Ep. rewrite <-list_fmap_compose in Hi. by apply installed_out.
  - rewrite delete_maps_far, Hids. case_decide as Hi.
    + apply list_elem_of_fmap in Hi as (i & -> & _). symmetry. apply Hnone.
    + rewrite Ef. apply installed_out. intros (f & -> & Hf)%list_elem_of_fmap. apply Hi.
      destruct (Hfars f Hf) as (p & Hp & Hpf). apply list_elem_of_fmap_2, elem_of_remove_dups.
      apply list_elem_of_omap. exists (pdr_id p). split; [by apply list_elem_of_fmap_2|].
      rewrite (Hpdr p Hp). simpl. by rewrite Hpf.
  - rewrite delete_maps_urr, Hids. case_decide as Hi.
    + apply list_elem_of_fmap in Hi as (i & -> & _). symmetry. apply Hnone.
    + rewrite Eu. apply installed_out. intros (u & -> & Hu)%list_elem_of_fmap. apply Hi.
      destruct (Hurrs u Hu) as (Hu0 & p & Hp & Hpu). apply list_elem_of_fmap_2, elem_of_remove_dups.
      apply list_elem_of_omap. exists (pdr_id p). split; [by apply list_elem_of_fmap_2|].
      rewrite (Hpdr p Hp). simpl. rewrite Hpu. simpl. by rewrite (proj2 (Z.eqb_neq _ _) Hu0).
Qed.

(** C22. There and back: establish a session with a request that is [deletable]
    (at most eight PDRs with distinct 16-bit identifiers, every FAR and URR
    referred to by one of them), under a SEID below 2^48 that had no rule and no
    session, and let a deletion of that SEID be accepted next.  Then the PDR, FAR
    and URR maps and the server's table of sessions are what they were before
    the establishment, and the UE's entry is gone, whatever it was before.  What
    stays behind are the usage configurations, one for each URR. *)
Theorem establish_delete_clean h body src w rsp w1 req h' src' rsp' w2 :
  handle_session_establishment assoc_iter now h body src w = (Ok rsp, w1) →
  handle_session_deletion assoc_iter h' src' w1 = (Ok rsp', w2) →
  decode_session_establishment body = Ok req → deletable req →
  let seid := next_seid (w_srv w) in
  hdr_seid h' = Some seid → 0 ≤ seid < 2 ^ 48 →
  no_rules (w_maps w) seid → sessions (w_srv w) !! seid = None →
  rules_restored (w_maps w) (w_maps w2) ∧ sessions (w_srv w2) = sessions (w_srv w) ∧
  (∃ ue, find_map ue_ip (create_pdrs req) = Some ue ∧
     bpf_get (SESSION_MAP (w_maps w2)) (to_be32 ue) = None ∧
     ∀ k, k ≠ to_be32 ue →
       bpf_get (SESSION_MAP (w_maps w2)) k = bpf_get (SESSION_MAP (w_maps w)) k) ∧
  urr_configs (w_srv w2) =
    with_urr_configs now seid (ser_cp_seid req) (create_urrs req) (urr_configs (w_srv w)).
Proof.
  intros Hr Hr' Hdec Hreq seid Hh' Hs Hnone Hfresh.
  apply establishment_ok in Hr as (req' & k & a & ue & ohc & Hdec' & _ & _ & Hue & Hohc & Hrest).
  cbv zeta in Hrest. rewrite Hdec in Hdec'. injection Hdec' as <-.
  destruct Hrest as (_ & Esrv & _ & Hest). pose proof Hest as [Es _ _ _ _]. fold seid in Es, Hest, Esrv.
  rewrite deletion_eq in Hr'. cbv zeta in Hr'. rewrite Hh' in Hr'.
  change (default 0 (Some seid)) with seid in Hr'.
  destruct (authorise assoc_iter (w_srv w1) src' seid) as [[node d]|e|] eqn:Ea; [|done..].
  injection Hr' as _ <-. cbn [w_maps w_srv].
  assert (sd_ue_ip d = ue) as ->.
  { unfold authorise in Ea. rewrite Esrv in Ea at 1. cbn in Ea. rewrite lookup_insert_eq in Ea.
    destruct (sa_ip src'); [|done]. destruct (find_assoc _ _ _) as [[? ?]|]; [|done].
    destruct (has_key _ _); [|done]. by injection Ea as _ <-. }
  split; [by eapply delete_maps_undoes|]. split; [|split].
  - cbn. rewrite Esrv. cbn. fold seid. rewrite delete_insert_eq. by apply delete_id.
  - exists ue. split; [done|]. split.
    + rewrite delete_maps_session. by rewrite decide_True.
    + intros j Hj. rewrite delete_maps_session, decide_False by auto. rewrite Es. by rewrite decide_False by auto.
  - cbn. by rewrite Esrv.
Qed.
End establishment_spec.

(** ** Associations and heartbeats *)

Lemma decode_heartbeat_ok body : ∃ req, decode_heartbeat body = Ok req.
Proof.
  pose proof (decode_heartbeat_not_panic body) as Hp. unfold decode_heartbeat, optional in *.
  destruct (find_ie _ _) as [raw|]; [|by eexists].
  destruct (parse_recovery_timestamp (ie_value raw)) as [ts|e|]; simpl in *.
  - by eexists.
  - by eexists.
  - by destruct Hp.
Qed.

Section association_spec.
Context {M P A : Type → Type}.
Context `{BpfMap M} `{PerCpuMap P} `{BpfArray A}.
Variable assoc_iter : gmap Z SmfAssociation → list (Z * SmfAssociation).
Variable now : Z.

(** Whatever the order of the [HashMap], it visits the entries, each once. *)
Hypothesis assoc_iter_perm : ∀ m, assoc_iter m ≡ₚ map_to_list m.

Abbreviation World := (@World M P A).
Implicit Types w : World.

Lemma find_assoc_Some s src k a :
  find_assoc assoc_iter s src = Some (k, a) → associations s !! k = Some a ∧ as_peer_addr a = src.
Proof.
  unfold find_assoc. intros Hf. apply List.find_some in Hf as [Hin Hp].
  apply bool_decide_eq_true in Hp. split; [|done].
  apply elem_of_map_to_list. rewrite <-assoc_iter_perm. by apply list_elem_of_In.
Qed.

Lemma find_assoc_None s src k a :
  find_assoc assoc_iter s src = None → associations s !! k = Some a → as_peer_addr a ≠ src.
Proof.
  unfold find_assoc. intros Hf Ha Hp. apply elem_of_map_to_list in Ha.
  rewrite <-assoc_iter_perm in Ha. apply list_elem_of_In in Ha.
  pose proof (List.find_none _ _ Hf _ Ha) as Hn. simpl in Hn.
  by apply bool_decide_eq_false in Hn.
Qed.

(** Only one association has this peer address. *)
Definition sole_peer (s : PfcpServer) (k : Z) (src : SocketAddr) : Prop :=
  ∀ k' a', associations s !! k' = Some a' → as_peer_addr a' = src → k' = k.

(** Association setup: every well-formed request is accepted with the
    same response.  A duplicate (same Recovery Time Stamp) changes nothing;
    any other, also one with an OLDER time stamp, which the log calls
    rejected, replaces the association by a fresh one without sessions and
    makes the sender the peer for reports, and the terminal is told; the
    sessions themselves, their rules in the maps and all counters stay. *)
Theorem association_setup h body src w req :
  decode_association_setup body = Ok req →
  let node := asr_node_id req in
  let s := w_srv w in
  let rsp := build_association_setup_response (E:=HandlerError) (hdr_seq_num h) (n3_addr s)
               (recovery_ts s) in
  handle_session_association now h body src w =
  if decide (as_recovery_ts <$> associations s !! node = Some (asr_recovery_ts req))
  then (rsp, w)
  else (rsp, mkWorld (set_peer_addr (Some (mkSocketAddr (V4 node) 8805))
      (set_associations (insert node (SmfAssociation_new now node src (asr_recovery_ts req))) s))
    (w_maps w)
    (w_log w ++ tui_part s [CallLog association_line; CallSend (AssociationChanged true)])).
Proof.
  intros Hd. cbv zeta. unfold handle_session_association, get_srv.
  rewrite st_bind_eq, Hd. cbn [map_err lift]. do 3 (rewrite st_bind_eq; cbn [gets]).
  assert (∀ b : bool, b = bool_decide (as_recovery_ts <$> associations (w_srv w) !! asr_node_id req =
    Some (asr_recovery_ts req)) → ∀ (m1 m2 : st World HandlerError (list Z)) r1 r2,
    m1 w = r1 → m2 w = r2 → (if b then m1 else m2) w = if decide (as_recovery_ts <$>
      associations (w_srv w) !! asr_node_id req = Some (asr_recovery_ts req)) then r1 else r2) as Hif.
  { intros b -> m1 m2 r1 r2 <- <-. by case_bool_decide as E; [rewrite decide_True|rewrite decide_False]. }
  apply Hif; [|done|].
  - destruct (associations (w_srv w) !! asr_node_id req) as [a|]; [|done]. cbn.
    destruct (Z.eqb_spec (asr_recovery_ts req) (as_recovery_ts a)) as [E|E]; symmetry;
      [by apply bool_decide_eq_true; rewrite E|apply bool_decide_eq_false; congruence].
  - rewrite st_bind_eq. cbn [on_srv modify]. do 2 rewrite st_bind_eq, tui_eq.
    rewrite st_bind_eq. cbn [on_srv modify lift with_srv w_srv w_maps w_log]. unfold lift, tui_part.
    cbn [tx_tui set_associations]. destruct (tx_tui (w_srv w)); cbn [fmap list_fmap];
      rewrite ?app_nil_r, <-?(assoc_L (++)); reflexivity.
Qed.

(** The server after a heartbeat. *)
Definition heartbeat_srv (src : SocketAddr) (req : HeartbeatReq) (s : PfcpServer) : PfcpServer :=
  match sa_ip src, find_assoc assoc_iter s src, hbr_recovery_ts req with
  | V4 _, Some (k, a), Some recv => set_associations (insert k (heartbeat_assoc now recv a)) s
  | _, _, _ => s
  end.

Lemma heartbeat_eq h body src w req :
  decode_heartbeat body = Ok req →
  handle_heartbeat assoc_iter now h body src w =
  (build_heartbeat_response (hdr_seq_num h) (recovery_ts (w_srv w)),
   mkWorld (heartbeat_srv src req (w_srv w)) (w_maps w)
     (w_log w ++ tui_part (w_srv w)
        [CallSend HeartbeatUpdated; CallLog (heartbeat_line (hdr_seq_num h))])).
Proof.
  intros Hd. unfold handle_heartbeat, get_srv. rewrite st_bind_eq, Hd. cbn [map_err lift].
  rewrite st_bind_eq.
  match goal with |- context [match ?m w with _ => _ end] =>
    assert (m w = (Ok (), with_srv (heartbeat_srv src req) w)) as -> end.
  { unfold heartbeat_srv. destruct w as [s m l]. destruct (sa_ip src); [|done].
    rewrite st_bind_eq. cbn [gets w_srv]. unfold with_srv. cbn [w_srv].
    destruct (find_assoc assoc_iter s src) as [[k a]|]; [|done]. by destruct (hbr_recovery_ts req). }
  do 2 rewrite st_bind_eq, tui_eq. rewrite st_bind_eq. cbn [gets with_srv w_srv w_maps w_log].
  assert (tx_tui (heartbeat_srv src req (w_srv w)) = tx_tui (w_srv w) ∧
    recovery_ts (heartbeat_srv src req (w_srv w)) = recovery_ts (w_srv w)) as [Et Er].
  { unfold heartbeat_srv. by repeat case_match. }
  unfold lift, tui_part. rewrite Et, Er. destruct (tx_tui (w_srv w)); cbn [fmap list_fmap];
    rewrite ?app_nil_r, <-?(assoc_L (++)); reflexivity.
Qed.

(** Heartbeat: every heartbeat is answered, whatever its body and sender,
    with the server's Recovery Time Stamp.  Only the sender's association can
    change: an unchanged time stamp keeps its sessions, a changed one clears
    them.  The server's session table and the maps never change, and nothing
    but the terminal is told. *)
Theorem heartbeat_spec h body src w :
  ∃ req w', decode_heartbeat body = Ok req ∧
    handle_heartbeat assoc_iter now h body src w =
      (build_heartbeat_response (hdr_seq_num h) (recovery_ts (w_srv w)), w') ∧
    w_maps w' = w_maps w ∧
    w_log w' = w_log w ++ tui_part (w_srv w)
      [CallSend HeartbeatUpdated; CallLog (heartbeat_line (hdr_seq_num h))] ∧
    sessions (w_srv w') = sessions (w_srv w) ∧
    ∀ k, associations (w_srv w') !! k =
      match sa_ip src, find_assoc assoc_iter (w_srv w) src, hbr_recovery_ts req with
      | V4 _, Some (k', a), Some recv =>
          if decide (k' = k) then Some (mkAssociation (as_node_id a) src recv (as_state a)
            (if as_recovery_ts a =? recv then as_sessions a else ∅) now
            (mkHeartbeat (hb_next_seq (as_heartbeat a)) (hb_last_sent (as_heartbeat a))
               (Some now) 0))
          else associations (w_srv w) !! k
      | _, _, _ => associations (w_srv w) !! k
      end.
Proof.
  destruct (decode_heartbeat_ok body) as [req Hd]. eexists req, _. split; [done|].
  split; [by apply heartbeat_eq|]. cbn [w_srv w_maps w_log]. unfold heartbeat_srv.
  split; [done|]. split; [done|]. split; [by repeat case_match|]. intros k.
  destruct (sa_ip src) as [ip|ip]; [|done].
  destruct (find_assoc assoc_iter (w_srv w) src) as [[k' a]|] eqn:Ef; [|done].
  destruct (hbr_recovery_ts req) as [recv|] eqn:Er; [|done].
  cbn. apply find_assoc_Some in Ef as [_ Hsrc]. rewrite <-Hsrc.
  case_decide as Hk.
  - subst k'. rewrite lookup_insert_eq. unfold heartbeat_assoc.
    destruct (Z.eqb_spec (as_recovery_ts a) recv) as [E|E]; simpl; [by rewrite E|done].
  - by rewrite lookup_insert_ne.
Qed.

(** A restart of the SMF orphans its sessions: after a heartbeat with a
    new time stamp, no session at all can be modified or deleted from that
    address any more, although the sessions and their forwarding rules are
    still in place. *)
Theorem heartbeat_restart_orphans h body src w ip k a req recv :
  sa_ip src = V4 ip → find_assoc assoc_iter (w_srv w) src = Some (k, a) →
  sole_peer (w_srv w) k src →
  decode_heartbeat body = Ok req → hbr_recovery_ts req = Some recv → as_recovery_ts a ≠ recv →
  let w' := (handle_heartbeat assoc_iter now h body src w).2 in
  w_maps w' = w_maps w ∧ sessions (w_srv w') = sessions (w_srv w) ∧
  ∀ seid d, sessions (w_srv w) !! seid = Some d →
    authorise assoc_iter (w_srv w') src seid = Err (ENotOwner (sd_cp_seid d) src).
Proof.
  intros Hip Hf Hsole Hd Hr Hne w'.
  destruct (find_assoc_Some _ _ _ _ Hf) as [Hk Hsrc].
  assert (w_srv w' = set_associations (insert k (heartbeat_assoc now recv a)) (w_srv w) ∧
    w_maps w' = w_maps w) as [Esrv Emaps].
  { unfold w'. rewrite (heartbeat_eq _ _ _ _ req Hd). split; [|done]. cbn [snd w_srv].
    unfold heartbeat_srv. by rewrite Hip, Hf, Hr. }
  rewrite Esrv. split; [done|]. split; [done|]. intros seid d Hs.
  unfold authorise. cbn. rewrite Hs, Hip.
  set (s' := set_associations (insert k (heartbeat_assoc now recv a)) (w_srv w)).
  destruct (find_assoc assoc_iter s' src) as [[k' a']|] eqn:Ef.
  - apply find_assoc_Some in Ef as [Hk' Hsrc']. unfold s' in Hk'. cbn in Hk'.
    destruct (decide (k = k')) as [<-|Hkk].
    + rewrite lookup_insert_eq in Hk'. injection Hk' as <-. unfold heartbeat_assoc, has_key.
      apply Z.eqb_neq in Hne. rewrite Hne. cbn. rewrite bool_decide_eq_false_2; [done|].
      rewrite lookup_empty. by intros [? ?].
    + rewrite lookup_insert_ne in Hk' by done. by destruct Hkk; rewrite (Hsole k' a').
  - exfalso. eapply (find_assoc_None s' src k); [done|apply lookup_insert_eq|].
    unfold heartbeat_assoc. by destruct (_ =? _).
Qed.
End association_spec.

(** ** Modification *)

Section modification_spec.
Context {M P A : Type → Type}.
Context `{BpfMapLaws M} `{PerCpuMapLaws P} `{BpfArray A}.
Variable assoc_iter : gmap Z SmfAssociation → list (Z * SmfAssociation).

Abbreviation World := (@World M P A).
Implicit Types w : World.

(** What a modification of session [seid] of UE [ue] may touch. *)
Definition modifies (seid ue : Z) (w w' : World) : Prop :=
  PDR_MAP (w_maps w') = PDR_MAP (w_maps w) ∧
  URR_MAP (w_maps w') = URR_MAP (w_maps w) ∧
  STATS_MAP (w_maps w') = STATS_MAP (w_maps w) ∧
  w_log w' = w_log w ∧ associations (w_srv w') = associations (w_srv w) ∧
  next_seid (w_srv w') = next_seid (w_srv w) ∧ next_teid (w_srv w') = next_teid (w_srv w) ∧
  (∀ j, (∀ i, j ≠ FarKey_new seid i) →
     bpf_get (FAR_MAP (w_maps w')) j = bpf_get (FAR_MAP (w_maps w)) j) ∧
  (∀ k, k ≠ to_be32 ue →
     bpf_get (SESSION_MAP (w_maps w')) k = bpf_get (SESSION_MAP (w_maps w)) k) ∧
  (∀ s, s ≠ seid → sessions (w_srv w') !! s = sessions (w_srv w) !! s) ∧
  (∀ s u, s ≠ seid → urr_configs (w_srv w') !! (s, u) = urr_configs (w_srv w) !! (s, u)).

#[local] Instance modifies_preorder seid ue : PreOrder (modifies seid ue).
Proof.
  split.
  - intros w. unfold modifies. by repeat split.
  - intros w1 w2 w3 (A1&A2&A3&A4&A5&A6&A7&A8&A9&A10&A11) (B1&B2&B3&B4&B5&B6&B7&B8&B9&B10&B11).
    unfold modifies. repeat split; try congruence; intros;
      [rewrite B8, A8|rewrite B9, A9|rewrite B10, A10|rewrite B11, A11]; done.
Qed.

Ltac unchanged := unfold modifies; repeat split; try done.

Lemma steps_far_insert seid ue i v :
  steps (modifies seid ue) (far_insert (M:=M) (P:=P) (A:=A) (FarKey_new seid i) v).
Proof.
  intros w. unfold far_insert. destruct (bpf_insert _ _ _) as [m|] eqn:E; simpl; [|done].
  unchanged. intros j Hj. simpl. rewrite (get_insert _ _ _ _ j E). rewrite decide_False; [done|].
  intros E'. by apply (Hj i).
Qed.

Lemma steps_session_insert seid ue v :
  steps (modifies seid ue) (session_insert (M:=M) (P:=P) (A:=A) (to_be32 ue) v).
Proof.
  intros w. unfold session_insert. destruct (bpf_insert _ _ _) as [m|] eqn:E; simpl; [|done].
  unchanged. intros k Hk. simpl. rewrite (get_insert _ _ _ _ k E). by rewrite decide_False.
Qed.

Lemma steps_set_data seid ue f :
  steps (modifies seid ue) (on_srv (M:=M) (P:=P) (A:=A) (set_sessions (alter f seid))).
Proof. intros w. unchanged. intros s Hs. simpl. by rewrite lookup_alter_ne. Qed.

Lemma steps_set_config seid ue u f :
  steps (modifies seid ue) (on_srv (M:=M) (P:=P) (A:=A) (set_urr_configs (alter f (seid, u)))).
Proof. intros w. unchanged. intros s v Hs. simpl. rewrite lookup_alter_ne; [done|]. congruence. Qed.

Lemma steps_update_far seid ue far :
  steps (modifies seid ue) (update_far (M:=M) (P:=P) (A:=A) seid ue far).
Proof.
  unfold update_far. destruct (outer_header_creation far) as [ohc|]; [|apply steps_ret, _].
  apply steps_bind; [apply _|apply steps_gets, _|]. intros fv.
  apply steps_bind; [apply _| |].
  - destruct fv; [apply steps_far_insert|apply steps_ret, _].
  - intros _. destruct (bool_decide _); [|apply steps_ret, _].
    apply steps_bind; [apply _|apply steps_gets, _|]. intros info.
    apply steps_bind; [apply _| |intros _; apply steps_set_data].
    destruct info; [apply steps_session_insert|apply steps_ret, _].
Qed.

Lemma modification_modifies h body src w seid d :
  hdr_seid h = Some seid → sessions (w_srv w) !! seid = Some d →
  modifies seid (sd_ue_ip d) w (handle_session_modification assoc_iter h body src w).2.
Proof.
  intros Hh Hd. unfold handle_session_modification.
  unfold require at 1 2. unfold get_srv at 1, gets at 1. rewrite Hh.
  rewrite st_bind_eq. cbn [lift]. destruct (decode_session_modification body) as [req|e|];
    cbn [map_err]; [|reflexivity|reflexivity].
  rewrite st_bind_eq. cbn [lift ok_or]. rewrite st_bind_eq. rewrite Hd. cbn [ok_or].
  rewrite st_bind_eq. cbn [lift].
  match goal with |- modifies _ _ w (?m w).2 =>
    assert (steps (modifies seid (sd_ue_ip d)) m) as Hst; [|apply Hst] end.
  apply steps_bind; [apply _| |].
  { intros w'. rewrite owning_node_eq. reflexivity. }
  intros _. apply steps_bind; [apply _| |].
  { apply steps_for_each; [apply _|]. intros far _. apply steps_update_far. }
  intros _. apply steps_bind; [apply _| |].
  { apply steps_for_each; [apply _|]. intros urr _. apply steps_set_config. }
  intros _. apply steps_lift, _.
Qed.


(** The entry at [j] of [FAR_MAP] after the Update FARs: the tunnel of the last
    one that names it, everything else as it was. *)
Fixpoint retunnelled (seid : Z) (fars : list ParsedFAR) (base : option FarValue) (j : Z)
    : option FarValue :=
  match fars with
  | [] => base
  | far :: fars => retunnelled seid fars
      (match outer_header_creation far with
       | Some o => if decide (FarKey_new seid (far_id far) = j)
                   then (λ fv, mkFarValue (fv_apply_action fv) (fv_dst_interface fv)
                           (to_be32 (ohc_peer_addr o)) (to_be32 (ohc_teid o))
                           (fv_upf_n3_ip fv)) <$> base
                   else base
       | None => base
       end) j
  end.

Lemma update_far_ok seid ue far w w' :
  update_far seid ue far w = (Ok (), w') →
  ∀ j, bpf_get (FAR_MAP (w_maps w')) j = retunnelled seid [far] (bpf_get (FAR_MAP (w_maps w)) j) j.
Proof.
  unfold update_far, retunnelled.
  destruct (outer_header_creation far) as [ohc|]; [|by intros [= <-]].
  intros Hr j. apply st_bind_ok in Hr as (fv & w1 & Hg & Hr). injection Hg as <- <-.
  apply st_bind_ok in Hr as ([] & w1 & Hg & Hr).
  assert (FAR_MAP (w_maps w') = FAR_MAP (w_maps w1)) as ->.
  { destruct (bool_decide _); [|by injection Hr as <-].
    apply st_bind_ok in Hr as (info & w2 & Hi & Hr). injection Hi as <- <-.
    apply st_bind_ok in Hr as ([] & w2 & Hi & Hr). injection Hr as <-.
    destruct (bpf_get (SESSION_MAP _) _); [|by injection Hi as <-].
    unfold session_insert in Hi. destruct (bpf_insert _ _ _); [|done]. by injection Hi as <-. }
  destruct (bpf_get (FAR_MAP (w_maps w)) (FarKey_new seid (far_id far))) as [fv|] eqn:Ef.
  - unfold far_insert in Hg. destruct (bpf_insert _ _ _) as [m|] eqn:Ei; [|done].
    injection Hg as <-. simpl. rewrite (get_insert _ _ _ _ j Ei).
    destruct (decide (FarKey_new seid (far_id far) = j)) as [<-|Hj]; [by rewrite Ef|done].
  - injection Hg as <-.
    destruct (decide (FarKey_new seid (far_id far) = j)) as [<-|Hj]; [by rewrite Ef|done].
Qed.

Lemma update_fars_ok seid ue fars w w' :
  for_each (update_far seid ue) fars w = (Ok (), w') →
  ∀ j, bpf_get (FAR_MAP (w_maps w')) j = retunnelled seid fars (bpf_get (FAR_MAP (w_maps w)) j) j.
Proof.
  revert w; induction fars as [|far fars IH]; intros w Hr j; [by injection Hr as <-|].
  apply st_bind_ok in Hr as ([] & w1 & H1' & Hr). rewrite (IH w1 Hr j).
  rewrite (update_far_ok _ _ _ _ _ H1' j). done.
Qed.

Lemma update_fars_action seid ue fars w w' j fv fv' :
  for_each (update_far seid ue) fars w = (Ok (), w') →
  bpf_get (FAR_MAP (w_maps w)) j = Some fv → bpf_get (FAR_MAP (w_maps w')) j = Some fv' →
  fv_apply_action fv' = fv_apply_action fv.
Proof.
  intros Hf Hfv. rewrite (update_fars_ok _ _ _ _ _ Hf j), Hfv. clear.
  revert fv. induction fars as [|far fars IH]; intros fv; simpl; [by intros [= ->]|].
  destruct (outer_header_creation far) as [o|]; [|apply IH].
  case_decide; [|apply IH]. simpl. intros Hx. by apply IH in Hx.
Qed.

Lemma update_fars_untunnelled seid ue fars w w' :
  for_each (update_far seid ue) fars w = (Ok (), w') →
  Forall (λ f, outer_header_creation f = None) fars → w_maps w' = w_maps w.
Proof.
  intros Hf Hn. revert w Hf. induction Hn as [|far fars Hfar Hn IH]; intros w Hf.
  - by injection Hf as <-.
  - apply st_bind_ok in Hf as ([] & w3 & Hg & Hf). unfold update_far in Hg. rewrite Hfar in Hg.
    injection Hg as <-. by apply IH.
Qed.

Lemma update_urrs_maps seid urrs w w' :
  for_each (update_urr seid) urrs w = (Ok (), w') → w_maps w' = w_maps w.
Proof.
  revert w; induction urrs as [|u urrs IH]; intros w Hr; [by injection Hr as <-|].
  apply st_bind_ok in Hr as ([] & w1 & H1' & Hr). injection H1' as <-. by apply IH in Hr.
Qed.

(** The tunnel the Update FARs towards the access side hand the session over
    to: that of the last of them that has one. *)
Definition access_tunnel (far : ParsedFAR) : option OuterHeaderCreation :=
  if decide (dest_interface far = Some 0) then outer_header_creation far else None.
Definition handover_to (fars : list ParsedFAR) : option OuterHeaderCreation :=
  last (omap access_tunnel fars).

Definition entry_moved (o : option OuterHeaderCreation) (info : SessionInfo) : SessionInfo :=
  match o with
  | Some o => mkSessionInfo (si_seid info) (to_be32 (ohc_teid o)) (to_be32 (ohc_peer_addr o))
                (si_upf_ip info) (si_pdr_ids info) (si_pdr_count info)
  | None => info
  end.
Definition record_moved (o : option OuterHeaderCreation) (d : SessionData) : SessionData :=
  match o with
  | Some o => mkSessionData (sd_ue_ip d) (ohc_teid o) (ohc_peer_addr o) (sd_cp_seid d)
  | None => d
  end.

(** The last Update URR for [u], and a usage configuration after it. *)
Definition urr_update (urrs : list ParsedURR) (u : Z) : option ParsedURR :=
  last (filter (λ r, urr_id r = u) urrs).
Definition reconfigured (r : option ParsedURR) (c : UrrConfig) : UrrConfig :=
  match r with
  | Some r => mkUrrConfig (uc_urr_id c) (uc_seid c) (uc_cp_seid c) (measurement_method r)
      (reporting_triggers r) (volume_threshold_total r) (measurement_period r)
      (uc_last_report c) false (uc_ur_seqn c)
  | None => c
  end.

Lemma last_or {X} (x : X) (l : list X) :
  last (x :: l) = match last l with Some y => Some y | None => Some x end.
Proof. apply last_cons. Qed.

Lemma handover_cons far fars :
  handover_to (far :: fars) =
  match handover_to fars with Some o => Some o | None => access_tunnel far end.
Proof.
  unfold handover_to. cbn [omap list_omap]. destruct (access_tunnel far) as [o|].
  - apply last_or.
  - by destruct (last _).
Qed.

Lemma entry_moved_cons far fars info :
  entry_moved (handover_to (far :: fars)) info =
  entry_moved (handover_to fars) (entry_moved (access_tunnel far) info).
Proof. rewrite handover_cons. by destruct (handover_to fars), (access_tunnel far). Qed.

Lemma record_moved_cons far fars d :
  record_moved (handover_to (far :: fars)) d =
  record_moved (handover_to fars) (record_moved (access_tunnel far) d).
Proof. rewrite handover_cons. by destruct (handover_to fars), (access_tunnel far). Qed.

Lemma reconfigured_cons u r urrs c :
  reconfigured (urr_update (r :: urrs) u) c =
  reconfigured (urr_update urrs u) (if decide (urr_id r = u) then reconfigured (Some r) c else c).
Proof.
  unfold urr_update. rewrite filter_cons. case_decide; [|done]. rewrite last_or.
  by destruct (last _).
Qed.

Lemma fmap_id_option {X} (f : X → X) (o : option X) : (∀ x, f x = x) → f <$> o = o.
Proof. intros Hf. destruct o; cbn; by rewrite ?Hf. Qed.

Lemma update_far_moves seid ue far w w' :
  update_far seid ue far w = (Ok (), w') →
  bpf_get (SESSION_MAP (w_maps w')) (to_be32 ue) =
    entry_moved (access_tunnel far) <$> bpf_get (SESSION_MAP (w_maps w)) (to_be32 ue) ∧
  sessions (w_srv w') = alter (record_moved (access_tunnel far)) seid (sessions (w_srv w)) ∧
  urr_configs (w_srv w') = urr_configs (w_srv w).
Proof.
  unfold update_far, access_tunnel.
  assert (∀ w : World, bpf_get (SESSION_MAP (w_maps w)) (to_be32 ue) =
      entry_moved None <$> bpf_get (SESSION_MAP (w_maps w)) (to_be32 ue) ∧
    sessions (w_srv w) = alter (record_moved None) seid (sessions (w_srv w))) as Hsame.
  { intros w0. split; [by rewrite fmap_id_option|]. symmetry. apply map_eq. intros k.
    destruct (decide (k = seid)) as [->|Hk]; [|by rewrite lookup_alter_ne].
    rewrite lookup_alter_eq. by apply fmap_id_option. }
  destruct (outer_header_creation far) as [ohc|].
  2:{ intros [= <-]. replace (if decide _ then None else None) with (@None OuterHeaderCreation)
        by by case_decide. destruct (Hsame w). done. }
  intros Hr. apply st_bind_ok in Hr as (fv & w1 & Hg & Hr). injection Hg as <- <-.
  apply st_bind_ok in Hr as ([] & w1 & Hg & Hr).
  assert (SESSION_MAP (w_maps w1) = SESSION_MAP (w_maps w) ∧ w_srv w1 = w_srv w) as [Em Es].
  { destruct (bpf_get (FAR_MAP _) _); [|by injection Hg as <-].
    unfold far_insert in Hg. destruct (bpf_insert _ _ _); [|done]. by injection Hg as <-. }
  destruct (bool_decide (dest_interface far = Some IFACE_ACCESS)) eqn:Ed.
  - apply bool_decide_eq_true in Ed. rewrite decide_True by exact Ed.
    apply st_bind_ok in Hr as (info & w2 & Hi & Hr). injection Hi as <- <-.
    apply st_bind_ok in Hr as ([] & w2 & Hi & Hr). injection Hr as <-. cbn [with_srv w_maps w_srv].
    rewrite Em in Hi. destruct (bpf_get (SESSION_MAP (w_maps w)) (to_be32 ue)) as [info|] eqn:Einfo.
    + unfold session_insert in Hi. destruct (bpf_insert _ _ _) as [m|] eqn:Ei; [|done].
      injection Hi as <-. cbn. rewrite (get_insert _ _ _ _ _ Ei), decide_True by done. by rewrite Es.
    + injection Hi as <-. rewrite Em, Einfo. cbn. by rewrite Es.
  - apply bool_decide_eq_false in Ed. rewrite decide_False by exact Ed.
    injection Hr as <-. rewrite Em, Es. destruct (Hsame w). done.
Qed.

Lemma update_fars_session seid ue fars w w' :
  for_each (update_far seid ue) fars w = (Ok (), w') →
  bpf_get (SESSION_MAP (w_maps w')) (to_be32 ue) =
    entry_moved (handover_to fars) <$> bpf_get (SESSION_MAP (w_maps w)) (to_be32 ue) ∧
  sessions (w_srv w') !! seid = record_moved (handover_to fars) <$> sessions (w_srv w) !! seid ∧
  urr_configs (w_srv w') = urr_configs (w_srv w).
Proof.
  revert w; induction fars as [|far fars IH]; intros w Hr.
  - injection Hr as <-. by rewrite !fmap_id_option.
  - apply st_bind_ok in Hr as ([] & w1 & Hg & Hr).
    apply update_far_moves in Hg as (E1 & E2 & E3). destruct (IH w1 Hr) as (-> & -> & ->).
    rewrite E1, E2, E3, lookup_alter_eq, <-!option_fmap_compose. split; [|split; [|done]].
    + apply option_fmap_ext. intros info. symmetry. apply entry_moved_cons.
    + apply option_fmap_ext. intros d. symmetry. apply record_moved_cons.
Qed.

Lemma update_urrs_configs seid urrs w w' :
  for_each (update_urr seid) urrs w = (Ok (), w') →
  sessions (w_srv w') = sessions (w_srv w) ∧
  ∀ u, urr_configs (w_srv w') !! (seid, u) =
    reconfigured (urr_update urrs u) <$> urr_configs (w_srv w) !! (seid, u).
Proof.
  revert w; induction urrs as [|r urrs IH]; intros w Hr.
  - injection Hr as <-. split; [done|]. intros u. by rewrite fmap_id_option.
  - apply st_bind_ok in Hr as ([] & w1 & Hg & Hr). injection Hg as <-.
    destruct (IH _ Hr) as [Es Ec]. split; [by rewrite Es|]. intros u. rewrite Ec. cbn.
    destruct (decide (urr_id r = u)) as [<-|Hu].
    + rewrite lookup_alter_eq, <-option_fmap_compose. apply option_fmap_ext. intros c. symmetry.
      rewrite reconfigured_cons. by rewrite decide_True.
    + rewrite lookup_alter_ne by congruence. apply option_fmap_ext. intros c. symmetry.
      rewrite reconfigured_cons. by rewrite decide_False.
Qed.

End modification_spec.
