(* ===== verification/Alike.v ===== *)
(** * What a heartbeat leaves unchanged

    A heartbeat of an SMF whose Recovery Time Stamp the server knows touches
    the association's times and the terminal, nothing else.  Worlds that differ
    only in these are [alike]; the handlers of session modification and deletion
    ([handle_msg.rs]) answer alike worlds the same and leave alike worlds. *)

From S2P Require Import Prelude Text Types Header Ie Builder Messages Dict Common Server.
From S2P Require Import Handlers HandlersSpec.

(** An association without its times. *)
Definition forget (a : SmfAssociation) : SmfAssociation :=
  mkAssociation (as_node_id a) (as_peer_addr a) (as_recovery_ts a) (as_state a)
    (as_sessions a) 0 HeartbeatTracker_new.

Definition timeless (s : PfcpServer) : PfcpServer := set_associations (fmap forget) s.

(** The log without what the terminal is told. *)
Definition unseen (e : Effect) : bool := match e with Tui _ => false | _ => true end.
Definition quiet_log (log : list Effect) : list Effect := List.filter unseen log.

(** The server knows the SMF behind [src] by one association, stored under
    [node], and by the time stamp [ts]. *)
Record known (node ts : Z) (src : SocketAddr) (s : PfcpServer) : Prop := {
  kn_sole : ∀ k a, associations s !! k = Some a → as_peer_addr a = src →
              k = node ∧ as_recovery_ts a = ts;
  kn_server_ts : u32 (Server.recovery_ts s);
}.

Lemma timeless_sessions s s' : timeless s = timeless s' → sessions s = sessions s'.
Proof. intros E. exact (f_equal sessions E). Qed.

Lemma timeless_lookup s s' k a :
  timeless s = timeless s' → associations s !! k = Some a →
  ∃ a', associations s' !! k = Some a' ∧ forget a = forget a'.
Proof.
  intros E Ha. pose proof (f_equal (λ s, associations s !! k) E) as Ek. cbn in Ek.
  rewrite !lookup_fmap, Ha in Ek. destruct (associations s' !! k) as [a'|]; [|done].
  exists a'. split; [done|]. by apply (inj Some).
Qed.

Lemma known_timeless node ts src s s' :
  timeless s = timeless s' → known node ts src s → known node ts src s'.
Proof.
  intros E [Hs Ht]. split.
  - intros k a Ha Hp. destruct (timeless_lookup s' s k a) as (a' & Ha' & Ef); [done..|].
    pose proof (f_equal as_peer_addr Ef) as Ep. pose proof (f_equal as_recovery_ts Ef) as Er.
    cbn in Ep, Er. rewrite Er. by apply (Hs k a'); [|congruence].
  - pose proof (f_equal Server.recovery_ts E) as Er. cbn in Er. by rewrite <-Er.
Qed.

Section alike.
Context {M P A : Type → Type}.
Context `{BpfMap M} `{PerCpuMap P} `{BpfArray A}.
Variable assoc_iter : gmap Z SmfAssociation → list (Z * SmfAssociation).
Hypothesis assoc_iter_perm : ∀ m, assoc_iter m ≡ₚ map_to_list m.

Abbreviation World := (@World M P A).
Implicit Types w : World.

Record alike w w' : Prop := {
  al_srv : timeless (w_srv w) = timeless (w_srv w');
  al_maps : w_maps w = w_maps w';
  al_log : quiet_log (w_log w) = quiet_log (w_log w');
}.

#[export] Instance alike_equivalence : Equivalence alike.
Proof.
  split.
  - by intros w.
  - by intros w w' [? ? ?].
  - intros w1 w2 w3 [? ? ?] [? ? ?]. split; by etransitivity.
Qed.

(** ** A heartbeat *)

Lemma insert_forget (m : gmap Z SmfAssociation) k a a' :
  m !! k = Some a → forget a' = forget a → forget <$> <[k:=a']> m = forget <$> m.
Proof. intros Ha E. rewrite fmap_insert, E, <-fmap_insert. by rewrite insert_id. Qed.

Lemma heartbeat_alike now h body src w req node ts :
  decode_heartbeat body = Ok req → hbr_recovery_ts req = Some ts → known node ts src (w_srv w) →
  alike (handle_heartbeat assoc_iter now h body src w).2 w.
Proof.
  intros Hd Hts Hk. rewrite (heartbeat_eq _ _ _ _ _ _ _ Hd). cbn [snd]. split; cbn [w_srv w_maps w_log]; [|done|].
  - unfold heartbeat_srv. rewrite Hts. destruct (sa_ip src); [|done].
    destruct (find_assoc assoc_iter (w_srv w) src) as [[k a]|] eqn:Ef; [|done].
    apply (find_assoc_Some assoc_iter assoc_iter_perm) in Ef as [Ha Hp].
    destruct (kn_sole _ _ _ _ Hk k a Ha Hp) as [-> Er].
    unfold timeless, set_associations. cbn. f_equal. eapply insert_forget; [done|].
    unfold heartbeat_assoc, forget. rewrite Er, Z.eqb_refl. cbn. by rewrite Er.
  - unfold quiet_log. rewrite List.filter_app. unfold tui_part.
    destruct (tx_tui (w_srv w)); cbn; by rewrite app_nil_r.
Qed.

(** ** Two alike worlds, in both of which the SMF is known *)

Section known.
Variables node ts : Z.
Variable src : SocketAddr.

Definition alike_known w w' : Prop := alike w w' ∧ known node ts src (w_srv w).

Abbreviation together := (couples (E:=HandlerError) alike_known).

Lemma known_find w w' :
  alike_known w w' →
  match find_assoc assoc_iter (w_srv w) src, find_assoc assoc_iter (w_srv w') src with
  | Some (k, a), Some (k', a') => k = k' ∧ forget a = forget a'
  | None, None => True
  | _, _ => False
  end.
Proof.
  intros [[Es _ _] Hk]. pose proof (known_timeless _ _ _ _ _ Es Hk) as Hk'.
  destruct (find_assoc assoc_iter (w_srv w) src) as [[k a]|] eqn:E,
    (find_assoc assoc_iter (w_srv w') src) as [[k' a']|] eqn:E'; [| | |done].
  - apply (find_assoc_Some assoc_iter assoc_iter_perm) in E as [Ha Hp], E' as [Ha' Hp'].
    destruct (kn_sole _ _ _ _ Hk _ _ Ha Hp) as [-> _], (kn_sole _ _ _ _ Hk' _ _ Ha' Hp') as [-> _].
    split; [done|]. destruct (timeless_lookup _ _ _ _ Es Ha) as (b & Hb & E). congruence.
  - apply (find_assoc_Some assoc_iter assoc_iter_perm) in E as [Ha Hp].
    destruct (timeless_lookup _ _ _ _ Es Ha) as (b & Hb & Eb). pose proof (f_equal as_peer_addr Eb) as Ep.
    cbn in Ep. by apply (find_assoc_None assoc_iter assoc_iter_perm _ _ _ _ E' Hb); congruence.
  - apply (find_assoc_Some assoc_iter assoc_iter_perm) in E' as [Ha Hp].
    destruct (timeless_lookup _ _ _ _ (eq_sym Es) Ha) as (b & Hb & Eb).
    pose proof (f_equal as_peer_addr Eb) as Ep.
    cbn in Ep. by apply (find_assoc_None assoc_iter assoc_iter_perm _ _ _ _ E Hb); congruence.
Qed.

(** A change of the server that neither looks at the times nor re-associates. *)
Lemma together_on_srv (f : PfcpServer → PfcpServer) :
  (∀ s, timeless (f s) = f (timeless s)) →
  (∀ s, known node ts src s → known node ts src (f s)) → together (on_srv f) (on_srv f).
Proof.
  intros Hf Hk. apply couples_modify. intros w w' [[Es Em El] Hkn]. split; [|by apply Hk].
  split; [|done|done]. cbn. by rewrite !Hf, Es.
Qed.

Lemma together_get_srv {T} (f : PfcpServer → T) :
  (∀ s s', timeless s = timeless s' → f s = f s') → together (get_srv f) (get_srv f).
Proof. intros Hf. apply couples_gets. intros w w' [[Es _ _] _]. by apply Hf. Qed.

Lemma together_maps {T} (f : Maps M P A → T) :
  together (gets (λ w, f (w_maps w))) (gets (λ w, f (w_maps w))).
Proof. apply couples_gets. intros w w' [[_ Em _] _]. by rewrite Em. Qed.

Lemma together_with_maps (f : Maps M P A → Maps M P A) :
  together (modify (with_maps f)) (modify (with_maps f)).
Proof.
  apply couples_modify. intros w w' [[Es Em El] Hk]. split; [|done]. split; cbn; by rewrite ?Em.
Qed.

Lemma together_emit e : together (emit e) (emit e).
Proof.
  apply couples_modify. intros w w' [[Es Em El] Hk]. split; [|done]. split; cbn; [done..|].
  unfold quiet_log in *. by rewrite !List.filter_app, El.
Qed.

Lemma together_tui c : together (tui c) (tui c).
Proof.
  unfold tui. apply couples_bind.
  - apply together_get_srv. intros s s' E. exact (f_equal tx_tui E).
  - intros []; [apply together_emit|apply couples_ret].
Qed.

Lemma together_inserts :
  (∀ k v, together (far_insert k v) (far_insert k v)) ∧
  (∀ k v, together (session_insert k v) (session_insert k v)).
Proof.
  split; intros k v w w' HR; pose proof HR as [[Es Em El] Hk]; unfold far_insert, session_insert;
    rewrite <-Em; (destruct (bpf_insert _ _ _); [|done]); split; [done| |done|]; (split; [|done]);
    by split; cbn; rewrite <-?Em.
Qed.

Lemma together_owning cp :
  together (owning_node assoc_iter src cp) (owning_node assoc_iter src cp).
Proof.
  intros w w' HR. rewrite !owning_node_eq. split; [|done]. cbn [fst].
  destruct (sa_ip src); [|done]. pose proof (known_find w w' HR) as Hf.
  destruct (find_assoc assoc_iter (w_srv w) src) as [[k a]|],
    (find_assoc assoc_iter (w_srv w') src) as [[k' a']|]; try done.
  destruct Hf as [_ E]. unfold forget in E. injection E as -> _ _ _ ->. done.
Qed.

(** ** The session handlers *)

Lemma together_sessions f : together (on_srv (set_sessions f)) (on_srv (set_sessions f)).
Proof. apply together_on_srv; [done|]. by intros s [? ?]. Qed.

Lemma together_urr_configs f : together (on_srv (set_urr_configs f)) (on_srv (set_urr_configs f)).
Proof. apply together_on_srv; [done|]. by intros s [? ?]. Qed.

Lemma together_owner n f :
  together (on_srv (set_associations (alter (set_as_sessions f) n)))
    (on_srv (set_associations (alter (set_as_sessions f) n))).
Proof.
  apply together_on_srv.
  - intros s. unfold timeless, set_associations. cbn. f_equal. apply map_eq. intros k.
    rewrite lookup_fmap. destruct (decide (n = k)) as [<-|Hn].
    + rewrite !lookup_alter_eq, lookup_fmap. by destruct (associations s !! n).
    + by rewrite !lookup_alter_ne, lookup_fmap by done.
  - intros s [Hs Ht]. split; [|done]. intros k a Ha Hp. cbn in Ha.
    apply lookup_alter_Some in Ha as [(-> & a0 & Ha & ->)|[_ Ha]]; by apply (Hs _ _ Ha).
Qed.

Lemma together_session_get seid :
  together (get_srv (λ s, sessions s !! seid)) (get_srv (λ s, sessions s !! seid)).
Proof. apply together_get_srv. intros s s' E. by rewrite (timeless_sessions _ _ E). Qed.

Hint Resolve together_emit together_tui together_owning together_sessions together_urr_configs
  together_owner together_session_get together_with_maps : stateful.

Lemma together_update_far seid ue far : together (update_far seid ue far) (update_far seid ue far).
Proof.
  destruct together_inserts as [Hf Hs]. unfold update_far.
  pose proof (@together_maps (option FarValue)) as Hgf. pose proof (@together_maps (option SessionInfo)) as Hgs.
  stroll_together; [apply (Hgf (λ m, bpf_get (FAR_MAP m) _))|apply (Hgs (λ m, bpf_get (SESSION_MAP m) _))].
Qed.

Lemma modification_together h body :
  together (handle_session_modification assoc_iter h body src)
    (handle_session_modification assoc_iter h body src).
Proof.
  pose proof together_update_far. unfold handle_session_modification, require, update_urr.
  cbv zeta. stroll_together.
Qed.

Lemma deletion_together h :
  together (handle_session_deletion assoc_iter h src) (handle_session_deletion assoc_iter h src).
Proof.
  unfold handle_session_deletion, delete_begin, delete_finish, require, tui_sessions.
  cbv zeta. stroll_together;
    apply together_get_srv; intros s s' E; (exact (f_equal session_store E) || exact (f_equal sessions E)).
Qed.

Lemma handle_message_together now data h body :
  decode data = Ok (h, body) → hdr_msg_type h ∈ [PFCP_SESSION_MODIFICATION_REQ; PFCP_SESSION_DELETION_REQ] →
  together (handle_message assoc_iter now data src) (handle_message assoc_iter now data src).
Proof.
  intros Hd Ht w w' HR. unfold handle_message, decode_header. rewrite !st_bind_eq, Hd. cbn [map_err lift].
  apply elem_of_cons in Ht as [->|Ht%list_elem_of_singleton]; [by apply modification_together|].
  rewrite Ht. by apply deletion_together.
Qed.

(** ** What keeps the SMF known *)

(** The addresses and time stamps of the associations stay. *)
Definition same_peers w w' : Prop :=
  Server.recovery_ts (w_srv w') = Server.recovery_ts (w_srv w) ∧
  ∀ k, ((λ a, (as_peer_addr a, as_recovery_ts a)) <$> associations (w_srv w') !! k) =
       ((λ a, (as_peer_addr a, as_recovery_ts a)) <$> associations (w_srv w) !! k).

#[export] Instance same_peers_preorder : PreOrder same_peers.
Proof.
  split; [by intros w|]. intros w1 w2 w3 [E1 F1] [E2 F2]. split; [congruence|].
  intros k. by rewrite F2.
Qed.

Lemma same_peers_known w w' : same_peers w w' → known node ts src (w_srv w) → known node ts src (w_srv w').
Proof.
  intros [Er Ea] [Hs Ht]. split; [|by rewrite Er]. intros k a Ha Hp. specialize (Ea k).
  rewrite Ha in Ea. destruct (associations (w_srv w) !! k) as [a0|] eqn:E0; [|done].
  cbn in Ea. injection Ea as Ep Et. rewrite Et. apply (Hs k a0); [done|congruence].
Qed.

Lemma steps_peers (f : PfcpServer → PfcpServer) :
  (∀ s, associations (f s) = associations s ∧ Server.recovery_ts (f s) = Server.recovery_ts s) →
  steps same_peers (on_srv (M:=M) (P:=P) (A:=A) f).
Proof. intros Hf w. destruct (Hf (w_srv w)) as [Ea Er]. split; [done|]. intros k. cbn. by rewrite Ea. Qed.

Lemma steps_peers_alter f n :
  steps same_peers (on_srv (M:=M) (P:=P) (A:=A) (set_associations (alter (set_as_sessions f) n))).
Proof.
  intros w. split; [done|]. intros k. cbn. destruct (decide (n = k)) as [<-|Hn].
  - rewrite lookup_alter_eq. by destruct (associations (w_srv w) !! n).
  - by rewrite lookup_alter_ne.
Qed.

Lemma steps_peers_world :
  (∀ e, steps same_peers (emit (M:=M) (P:=P) (A:=A) e)) ∧
  (∀ c, steps same_peers (tui (M:=M) (P:=P) (A:=A) c)) ∧
  (∀ k v, steps same_peers (session_insert (M:=M) (P:=P) (A:=A) k v)) ∧
  (∀ k v, steps same_peers (pdr_insert (M:=M) (P:=P) (A:=A) k v)) ∧
  (∀ k v, steps same_peers (far_insert (M:=M) (P:=P) (A:=A) k v)) ∧
  (∀ k, steps same_peers (urr_insert_zeros (M:=M) (P:=P) (A:=A) k)) ∧
  steps same_peers (alloc (M:=M) (P:=P) (A:=A) alloc_seid) ∧
  steps same_peers (alloc (M:=M) (P:=P) (A:=A) alloc_teid).
Proof.
  split; [by intros e w|]. split.
  { intros c w. unfold tui, get_srv. rewrite st_bind_eq. cbn [gets]. by destruct (tx_tui (w_srv w)). }
  repeat (split; [intros k v w; unfold session_insert, pdr_insert, far_insert; by destruct (bpf_insert _ _ _)|]).
  split; [intros k w; unfold urr_insert_zeros; by destruct (pc_insert_all _ _ _)|]. by split; intros w.
Qed.

Lemma steps_peers_sender : steps same_peers (sender_node (M:=M) (P:=P) (A:=A) assoc_iter src).
Proof. intros w. by rewrite sender_node_eq. Qed.

Lemma establishment_peers now h body :
  steps same_peers (handle_session_establishment (M:=M) (P:=P) (A:=A) assoc_iter now h body src).
Proof.
  destruct steps_peers_world as (? & ? & ? & ? & ? & ? & ? & ?).
  pose proof steps_peers_alter. pose proof steps_peers_sender.
  unfold handle_session_establishment, register_session, install_pdr, install_far, install_urr, get_srv,
    require, tui_sessions.
  cbv zeta. stroll; by apply steps_peers.
Qed.
End known.
End alike.
