(* ===== verification/Invariant.v ===== *)
(** * The server's invariant

    What holds of the server in every reachable state, whatever datagrams it
    received: session identifiers are handed out once, the tables are keyed
    consistently, and the identifiers it stores fit their width. *)

From S2P Require Import Prelude Types Header Ie Builder Messages Dict Common Server Handlers.
From S2P Require Import HandlersSpec.

Record server_inv (s : PfcpServer) : Prop := {
  inv_next : 0 < next_seid s < 2 ^ 64;
  inv_sessions seid d : sessions s !! seid = Some d → 0 < seid < next_seid s ∧ u64 (sd_cp_seid d);
  inv_assoc k a : associations s !! k = Some a → as_node_id a = k;
}.

(** ** Values parsed from octets fit their width *)

Lemma iter_ies_bytes buf ie : bytes_ok buf → ie ∈ iter_ies buf → bytes_ok (ie_value ie).
Proof.
  intros Hb. revert ie. pattern buf, (iter_ies buf). revert buf Hb.
  refine (λ buf Hb, iter_ies_ind
    (λ buf l, bytes_ok buf → ∀ ie, ie ∈ l → bytes_ok (ie_value ie)) _ _ buf Hb Hb).
  - intros ? _ _ ie Hie. by apply not_elem_of_nil in Hie.
  - intros ie rest _ _ IH Hw ie' Hie. apply bytes_ok_app in Hw as [Hw Hr].
    apply elem_of_cons in Hie as [->|Hie]; [by apply bytes_ok_ie_wire|by apply IH].
Qed.

Lemma find_ie_bytes ty buf raw :
  bytes_ok buf → find_ie ty (iter_ies buf) = Some raw → bytes_ok (ie_value raw).
Proof.
  intros Hb Hf. apply List.find_some in Hf as [Hin _]. apply (iter_ies_bytes buf); [done|].
  by apply list_elem_of_In.
Qed.

Lemma mapM_idx_bytes {E} buf ixs bs :
  bytes_ok buf → mapM (idx (E:=E) buf) ixs = Ok bs → length bs = length ixs ∧ bytes_ok bs.
Proof.
  intros Hb. revert bs; induction ixs as [|i ixs IH]; intros bs Hm.
  - injection Hm as <-. split; [done|constructor].
  - cbn [mapM] in Hm. destruct (idx (E:=E) buf i) as [b| |] eqn:Ei;
      [|discriminate Hm|discriminate Hm].
    rewrite bind_Ok in Hm. unfold idx in Ei. destruct (buf !! i) eqn:Eb; simplify_eq.
    destruct (mapM (idx buf) ixs) as [bs'| |]; [|discriminate Hm|discriminate Hm].
    injection Hm as <-. destruct (IH bs' eq_refl) as [Hl Hok]. split; [by simpl; rewrite Hl|].
    apply Forall_cons; split; [exact (Forall_lookup_1 u8 buf i b Hb Eb)|done].
Qed.

Lemma be_at_bound {E} n buf i x :
  bytes_ok buf → be_at (E:=E) n buf i = Ok x → 0 ≤ x < 256 ^ Z.of_nat n.
Proof.
  intros Hb Hx. unfold be_at in Hx. destruct (mapM _ _) as [bs| |] eqn:Em; [|discriminate Hx|discriminate Hx].
  injection Hx as <-. apply mapM_idx_bytes in Em as [Hl Hok]; [|done].
  rewrite length_seq in Hl. rewrite <-Hl. by apply from_be_bytes_bound.
Qed.

Lemma parse_fseid_width v seid addr :
  bytes_ok v → parse_fseid v = Ok (seid, addr) → u64 seid ∧ u32 addr.
Proof.
  intros Hb. unfold parse_fseid, ipv4_at. destruct (_ <? _)%nat; [done|].
  destruct (be_at 8 v 1) as [s| |] eqn:Es; [|discriminate..]. simpl_outcome.
  destruct (be_at 4 v 9) as [a| |] eqn:Ea; [|discriminate..]. simpl_outcome. intros [= <- <-].
  apply be_at_bound in Es, Ea; [|done..]. done.
Qed.

Lemma establishment_width body req :
  bytes_ok body → decode_session_establishment body = Ok req → u64 (ser_cp_seid req).
Proof.
  intros Hb Hd. unfold decode_session_establishment, required in Hd. cbv zeta in Hd.
  destruct (find_ie PFCP_IE_FSEID (iter_ies body)) as [raw|] eqn:Ef; [|done].
  simpl in Hd. destruct (parse_fseid (ie_value raw)) as [[seid addr]| |] eqn:Ep; [|discriminate Hd..].
  apply parse_fseid_width in Ep as [Hs _]; [|by eapply find_ie_bytes].
  simpl in Hd. repeat (inv_ok Hd). by subst.
Qed.

Lemma idx_byte {E} buf i b : bytes_ok buf → idx (E:=E) buf i = Ok b → u8 b.
Proof.
  intros Hb. unfold idx. destruct (buf !! i) eqn:Ei; [|done]. intros [= ->].
  exact (Forall_lookup_1 u8 buf i b Hb Ei).
Qed.

Lemma seq_num_width b0 b1 b2 :
  u8 b0 → u8 b1 → u8 b2 → 0 ≤ from_be_bytes [0; b0; b1; b2] < 2 ^ 24.
Proof.
  unfold u8. intros. unfold from_be_bytes. change (reverse [0; b0; b1; b2]) with [b2; b1; b0; 0].
  cbn [from_le_bytes]. change (2 ^ 24) with 16777216. lia.
Qed.

(** A decoded header has a 24-bit sequence number and a 64-bit SEID, and what
    follows it is octets of the datagram. *)
Lemma decode_widths data h body :
  bytes_ok data → decode data = Ok (h, body) →
  bytes_ok body ∧ 0 ≤ hdr_seq_num h < 2 ^ 24 ∧ ∀ seid, hdr_seid h = Some seid → u64 seid.
Proof.
  intros Hb Hd. unfold decode in Hd. destruct (_ <? 8)%nat; [done|].
  inv_ok Hd. destruct (negb _); [done|]. inv_ok Hd. inv_ok Hd. inv_ok Hd.
  match goal with p : option Z * nat |- _ => destruct p as [seid pos] end.
  inv_ok Hd. inv_ok Hd. inv_ok Hd. inv_ok Hd. inv_ok Hd. injection Hd as <- <-. split; [|split].
  - unfold slice in *. case_decide; simplify_eq. auto with bytes.
  - apply seq_num_width; by eapply idx_byte.
  - cbn. intros seid' ->.
    match goal with E : _ = Ok (Some seid', pos) |- _ => rename E into Es end.
    destruct (has_flag _ _); [|discriminate Es].
    destruct (_ <? 16)%nat; [discriminate Es|]. inv_ok Es. injection Es as <- _.
    by eapply (be_at_bound 8).
Qed.

(** ** Steps that keep the invariant *)

Section invariant.
Context {M P A : Type → Type}.
Context `{BpfMap M} `{PerCpuMap P} `{BpfArray A}.
Variable assoc_iter : gmap Z SmfAssociation → list (Z * SmfAssociation).
Variable now : Z.

Abbreviation World := (@World M P A).
Implicit Types w : World.

(** The same session, possibly with another tunnel. *)
Definition same_session (d d' : SessionData) : Prop :=
  sd_cp_seid d' = sd_cp_seid d ∧ sd_ue_ip d' = sd_ue_ip d.

(** No SEID is handed out, every recorded session was recorded before, with
    the exception of [new], and the invariant is kept. *)
Definition keeps (new : option Z) w w' : Prop :=
  next_seid (w_srv w') = next_seid (w_srv w) ∧
  (∀ seid d', sessions (w_srv w') !! seid = Some d' →
     new = Some seid ∨ ∃ d, sessions (w_srv w) !! seid = Some d ∧ same_session d d') ∧
  ((∀ seid, new = Some seid → 0 < seid < next_seid (w_srv w)) →
   server_inv (w_srv w) → server_inv (w_srv w')).

#[local] Instance keeps_preorder new : PreOrder (keeps new).
Proof.
  split.
  - intros w. split; [done|]. split; [|done]. intros seid d Hd. right. by exists d.
  - intros w1 w2 w3 (E1 & S1 & I1) (E2 & S2 & I2). split; [congruence|]. split.
    + intros seid d3 H3. destruct (S2 seid d3 H3) as [?|(d2 & H2' & [? ?])]; [by left|].
      destruct (S1 seid d2 H2') as [?|(d1 & H1' & [? ?])]; [by left|].
      right. exists d1. split; [done|]. split; congruence.
    + intros Hn Hi. apply I2; [|by apply I1]. by rewrite E1.
Qed.

Lemma keeps_same new w w' : w_srv w' = w_srv w → keeps new w w'.
Proof.
  intros E. unfold keeps. rewrite E. split; [done|]. split; [|done].
  intros seid d Hd. right. by exists d.
Qed.

Lemma steps_maps new (f : Maps M P A → Maps M P A) :
  steps (keeps new) (modify (E:=HandlerError) (with_maps f)).
Proof. intros w. by apply keeps_same. Qed.

Lemma steps_emit new e : steps (keeps new) (emit (M:=M) (P:=P) (A:=A) e).
Proof. intros w. by apply keeps_same. Qed.

Lemma steps_inserts new :
  (∀ k v, steps (keeps new) (session_insert (M:=M) (P:=P) (A:=A) k v)) ∧
  (∀ k v, steps (keeps new) (pdr_insert (M:=M) (P:=P) (A:=A) k v)) ∧
  (∀ k v, steps (keeps new) (far_insert (M:=M) (P:=P) (A:=A) k v)) ∧
  (∀ k, steps (keeps new) (urr_insert_zeros (M:=M) (P:=P) (A:=A) k)).
Proof.
  refine (conj _ (conj _ (conj _ _))); intros; intros w; apply keeps_same;
    unfold session_insert, pdr_insert, far_insert, urr_insert_zeros; by case_match.
Qed.

(** A change that leaves the session table and the counters. *)
Lemma steps_on_srv new (f : PfcpServer → PfcpServer) :
  (∀ s, next_seid (f s) = next_seid s ∧ sessions (f s) = sessions s) →
  (∀ s, server_inv s → server_inv (f s)) →
  steps (keeps new) (on_srv (M:=M) (P:=P) (A:=A) f).
Proof.
  intros Hf Hi w. unfold keeps. cbn. destruct (Hf (w_srv w)) as [-> ->].
  split; [done|]. split; [|auto]. intros seid d Hd. right. by exists d.
Qed.

Lemma steps_set_urr_configs new f :
  steps (keeps new) (on_srv (M:=M) (P:=P) (A:=A) (set_urr_configs f)).
Proof. apply steps_on_srv; [done|]. by intros s [? ? ?]. Qed.

Lemma steps_set_peer new v : steps (keeps new) (on_srv (M:=M) (P:=P) (A:=A) (set_peer_addr v)).
Proof. apply steps_on_srv; [done|]. by intros s [? ? ?]. Qed.

Lemma inv_insert_assoc k a s :
  as_node_id a = k → server_inv s → server_inv (set_associations (insert k a) s).
Proof.
  intros Ha [Hn Hs Has]. split; [done|done|].
  intros k' a'. cbn. rewrite lookup_insert_Some. intros [[<- <-]|[_ Hk]]; [done|by apply Has].
Qed.

Lemma steps_insert_assoc new k a :
  as_node_id a = k →
  steps (keeps new) (on_srv (M:=M) (P:=P) (A:=A) (set_associations (insert k a))).
Proof. intros Ha. apply steps_on_srv; [done|]. intros s. by apply inv_insert_assoc. Qed.

Lemma steps_alter_assoc new k f :
  (∀ a, as_node_id (f a) = as_node_id a) →
  steps (keeps new) (on_srv (M:=M) (P:=P) (A:=A) (set_associations (alter f k))).
Proof.
  intros Hf. apply steps_on_srv; [done|]. intros s [Hn Hs Has]. split; [done|done|].
  intros k' a'. cbn. rewrite lookup_alter_Some.
  intros [(<- & a & Ha & ->)|[_ Hk]]; [rewrite Hf|]; by apply Has.
Qed.

Lemma steps_alter_session new k f :
  (∀ d, same_session d (f d)) →
  steps (keeps new) (on_srv (M:=M) (P:=P) (A:=A) (set_sessions (alter f k))).
Proof.
  intros Hf w. split; [done|]. split.
  - intros k' d'. cbn. rewrite lookup_alter_Some.
    intros [(<- & d & Hd & ->)|[_ Hk]]; right; eexists; by split.
  - intros _ [Hn Hs Has]. split; [done| |done].
    intros k' d'. cbn. rewrite lookup_alter_Some.
    intros [(<- & d & Hd & ->)|[_ Hk]]; [destruct (Hf d) as [-> _]|]; by apply Hs.
Qed.

Lemma steps_delete_session new k :
  steps (keeps new) (on_srv (M:=M) (P:=P) (A:=A) (set_sessions (delete k))).
Proof.
  intros w. split; [done|]. split.
  - intros k' d'. cbn. rewrite lookup_delete_Some. intros [_ Hk]. right. by exists d'.
  - intros _ [Hn Hs Has]. split; [done| |done].
    intros k' d'. cbn. rewrite lookup_delete_Some. intros [_ Hk]. by apply Hs.
Qed.

(** A session recorded under the identifier just handed out. *)
Lemma steps_insert_session seid d :
  u64 (sd_cp_seid d) →
  steps (keeps (Some seid)) (on_srv (M:=M) (P:=P) (A:=A) (set_sessions (insert seid d))).
Proof.
  intros Hd w. split; [done|]. split.
  - intros k' d'. cbn. rewrite lookup_insert_Some.
    intros [[<- <-]|[_ Hk]]; [by left|right; by exists d'].
  - intros Hseid [Hn Hs Has]. split; [done| |done].
    intros k' d'. cbn. rewrite lookup_insert_Some. intros [[<- <-]|[_ Hk]]; [|by apply Hs].
    split; [by apply Hseid|done].
Qed.

Hint Resolve steps_emit steps_set_urr_configs steps_set_peer steps_delete_session
  steps_maps : stateful.

Lemma steps_owning new src cp : steps (keeps new) (owning_node (M:=M) (P:=P) (A:=A) assoc_iter src cp).
Proof. intros w. rewrite owning_node_eq. by apply keeps_same. Qed.

Lemma association_keeps h body src :
  steps (keeps None) (handle_session_association (M:=M) (P:=P) (A:=A) now h body src).
Proof.
  pose proof steps_insert_assoc. unfold handle_session_association, get_srv. cbv zeta. stroll.
Qed.

Lemma modification_keeps h body src :
  steps (keeps None) (handle_session_modification (M:=M) (P:=P) (A:=A) assoc_iter h body src).
Proof.
  destruct (steps_inserts None) as (Hs & Hp & Hf & Hu). pose proof steps_owning.
  assert (∀ g t k, steps (keeps None)
    (on_srv (M:=M) (P:=P) (A:=A) (set_sessions (alter (set_data_tunnel g t) k)))).
  { intros. by apply steps_alter_session. }
  unfold handle_session_modification, update_far, update_urr, get_srv, require.
  cbv zeta. stroll.
Qed.

Lemma delete_begin_keeps h src :
  steps (keeps None) (delete_begin (M:=M) (P:=P) (A:=A) assoc_iter h src).
Proof.
  pose proof steps_owning.
  assert (∀ cp k, steps (keeps None) (on_srv (M:=M) (P:=P) (A:=A)
    (set_associations (alter (set_as_sessions (delete cp)) k)))).
  { intros. by apply steps_alter_assoc. }
  unfold delete_begin, get_srv, require. cbv zeta. stroll.
Qed.

Lemma delete_finish_keeps h found :
  steps (keeps None) (delete_finish (M:=M) (P:=P) (A:=A) h found).
Proof. unfold delete_finish. cbv zeta. stroll. Qed.

Lemma deletion_keeps h src :
  steps (keeps None) (handle_session_deletion (M:=M) (P:=P) (A:=A) assoc_iter h src).
Proof.
  apply steps_bind; [apply _|apply delete_begin_keeps|]. intros found. apply delete_finish_keeps.
Qed.

(** The first half of a deletion that succeeds: the session it names was
    recorded and is so no more. *)
Lemma delete_begin_ok h src w found w' :
  delete_begin (M:=M) (P:=P) (A:=A) assoc_iter h src w = (Ok found, w') →
  is_Some (sessions (w_srv w) !! default 0 (hdr_seid h)) ∧
  found.1 = sessions (w_srv w) !! default 0 (hdr_seid h) ∧
  sessions (w_srv w') !! default 0 (hdr_seid h) = None.
Proof.
  unfold delete_begin. cbv zeta. intros Hr.
  apply st_bind_ok in Hr as (data & w1 & Hg & Hr). injection Hg as <- <-.
  apply st_bind_ok in Hr as (d & w1 & Hg & Hr). apply require_ok in Hg as [Hd ->].
  apply st_bind_ok in Hr as (node & w1 & Hg & Hr). rewrite owning_node_eq in Hg.
  injection Hg as _ <-.
  apply st_bind_ok in Hr as (data & w1 & Hg & Hr). injection Hg as <- <-.
  apply st_bind_ok in Hr as ([] & w1 & Hg & Hr). injection Hg as <-.
  apply st_bind_ok in Hr as ([] & w1 & Hg & Hr). injection Hg as <-.
  apply st_bind_ok in Hr as ([] & w1 & Hg & Hr). unfold tui_sessions in Hg.
  rewrite st_bind_eq in Hg. cbn [get_srv gets] in Hg. rewrite tui_eq in Hg. injection Hg as <-.
  apply st_bind_ok in Hr as ([] & w1 & Hg & Hr). rewrite tui_eq in Hg. injection Hg as <-.
  apply st_bind_ok in Hr as ([] & w1 & Hg & Hr). injection Hg as <-.
  apply st_bind_ok in Hr as (store & w1 & Hg & Hr). injection Hg as <- <-.
  injection Hr as <- <-. split; [by rewrite Hd|]. split; [done|]. cbn. apply lookup_delete_eq.
Qed.

(** Whatever the order of the [HashMap], it visits the entries, each once. *)
Hypothesis assoc_iter_perm : ∀ m, assoc_iter m ≡ₚ map_to_list m.

Lemma heartbeat_keeps h body src w :
  server_inv (w_srv w) →
  keeps None w (handle_heartbeat (M:=M) (P:=P) (A:=A) assoc_iter now h body src w).2.
Proof.
  intros Hinv. destruct (decode_heartbeat_ok body) as [req Hd].
  rewrite (heartbeat_eq assoc_iter now h body src w req Hd). cbn [snd].
  assert (∀ s', s' = heartbeat_srv assoc_iter now src req (w_srv w) → ∀ l,
    keeps None w (mkWorld s' (w_maps w) l)) as Hk; [|by apply Hk].
  intros s' -> l. unfold heartbeat_srv.
  destruct (sa_ip src) as [ip|ip]; [|by apply keeps_same].
  destruct (find_assoc assoc_iter (w_srv w) src) as [[k a]|] eqn:Ef; [|by apply keeps_same].
  destruct (hbr_recovery_ts req) as [recv|]; [|by apply keeps_same].
  apply (steps_insert_assoc None k (heartbeat_assoc now recv a)).
  apply (find_assoc_Some assoc_iter assoc_iter_perm) in Ef as [Hk _].
  apply (inv_assoc _ Hinv) in Hk. unfold heartbeat_assoc. by destruct (negb _).
Qed.

(** What one request may do to the sessions: at most one new identifier. *)
Definition evolves w w' : Prop :=
  next_seid (w_srv w) ≤ next_seid (w_srv w') ≤ next_seid (w_srv w) + 1 ∧
  (∀ seid d', sessions (w_srv w') !! seid = Some d' →
     next_seid (w_srv w) ≤ seid ∨
     ∃ d, sessions (w_srv w) !! seid = Some d ∧ same_session d d') ∧
  server_inv (w_srv w').

Lemma keeps_evolves w w' : server_inv (w_srv w) → keeps None w w' → evolves w w'.
Proof.
  intros Hinv (E & S & I). split; [lia|]. split; [|by apply I].
  intros seid d' Hd. destruct (S seid d' Hd); [done|by right].
Qed.

(** After a SEID is handed out, what was recorded under it is new. *)
Lemma allocated_evolves w w' seid f :
  server_inv (w_srv w) → next_seid (w_srv w) < 2 ^ 64 - 1 →
  seid = next_seid (w_srv w) →
  next_seid (f (w_srv w)) = next_seid (w_srv w) + 1 →
  sessions (f (w_srv w)) = sessions (w_srv w) →
  associations (f (w_srv w)) = associations (w_srv w) →
  keeps (Some seid) (with_srv f w) w' → evolves w w'.
Proof.
  intros [Hn Hs Ha] Hlt -> En Es Ea (E & S & I). cbn in E, S, I. rewrite En in E.
  split; [lia|]. split.
  - intros seid d' Hd. destruct (S seid d' Hd) as [[= <-]|Hold]; [left; lia|].
    rewrite Es in Hold. by right.
  - apply I.
    + intros ? [= <-]. rewrite En. lia.
    + split; rewrite ?En, ?Es, ?Ea; [lia| |done].
      intros seid d Hd. destruct (Hs seid d Hd). split; [lia|done].
Qed.

Lemma establishment_evolves h body src w :
  bytes_ok body → server_inv (w_srv w) → next_seid (w_srv w) < 2 ^ 64 - 1 →
  evolves w (handle_session_establishment (M:=M) (P:=P) (A:=A) assoc_iter now h body src w).2.
Proof.
  intros Hb Hinv Hlt. pose proof Hinv as [Hn _ _]. destruct (steps_inserts (Some (next_seid (w_srv w))))
    as (Hs & Hp & Hf & Hu).
  assert (∀ cp d k, steps (keeps (Some (next_seid (w_srv w)))) (on_srv (M:=M) (P:=P) (A:=A)
    (set_associations (alter (set_as_sessions (insert cp d)) k)))).
  { intros. by apply steps_alter_assoc. }
  unfold handle_session_establishment. rewrite st_bind_eq. cbn [lift].
  destruct (decode_session_establishment body) as [req|e|] eqn:Ereq; cbn [map_err];
    [|by apply keeps_evolves, keeps_same|by apply keeps_evolves, keeps_same].
  apply establishment_width in Ereq; [|done].
  rewrite st_bind_eq, sender_node_eq. destruct (sa_ip src); [|by apply keeps_evolves, keeps_same].
  destruct (find_assoc _ _ _) as [[k a]|]; [|by apply keeps_evolves, keeps_same].
  rewrite st_bind_eq. cbn [alloc]. cbv beta iota. set (seid := (alloc_seid (w_srv w)).1).
  apply (allocated_evolves w _ seid (λ _, (alloc_seid (w_srv w)).2)); try done.
  { cbn. unfold wrap. rewrite Z.mod_small; lia. }
  match goal with |- keeps _ ?w1 (?m ?w1).2 =>
    assert (steps (keeps (Some seid)) m) as Hst; [|apply Hst] end.
  assert (∀ ue teid ohc, steps (keeps (Some seid)) (on_srv (M:=M) (P:=P) (A:=A)
    (set_sessions (insert seid (mkSessionData ue teid ohc (ser_cp_seid req)))))).
  { intros. by apply steps_insert_session. }
  assert (steps (keeps (Some seid)) (alloc (M:=M) (P:=P) (A:=A) alloc_teid)).
  { apply (steps_on_srv _ (λ s, (alloc_teid s).2)); [done|]. by intros s [? ? ?]. }
  unfold register_session, install_pdr, install_far, install_urr, get_srv, require.
  cbv zeta. stroll.
Qed.

Lemma handle_message_evolves data src w :
  bytes_ok data → server_inv (w_srv w) → next_seid (w_srv w) < 2 ^ 64 - 1 →
  evolves w (handle_message (M:=M) (P:=P) (A:=A) assoc_iter now data src w).2.
Proof.
  intros Hb Hinv Hlt. unfold handle_message, decode_header. rewrite st_bind_eq. cbn [lift].
  destruct (decode data) as [[h body]|e|] eqn:Ed; cbn [map_err];
    [|by apply keeps_evolves, keeps_same|by apply keeps_evolves, keeps_same].
  apply decode_widths in Ed as (Hbody & _ & _); [|done]. cbv zeta.
  destruct (_ =? _); [by apply keeps_evolves, heartbeat_keeps|].
  destruct (_ =? _); [by apply keeps_evolves, association_keeps|].
  destruct (_ =? _); [by apply establishment_evolves|].
  destruct (_ =? _); [by apply keeps_evolves, modification_keeps|].
  destruct (_ =? _); [by apply keeps_evolves, deletion_keeps|].
  destruct (_ =? _); [by apply keeps_evolves, keeps_same|].
  destruct (_ =? _); by apply keeps_evolves, keeps_same.
Qed.

(** ** Answers *)

(** The SEID in the header of the answer to a request: the CP SEID of the SMF
    for an establishment and a modification, the local SEID, whatever the CP
    SEID is, for a deletion. *)
Inductive addressed (s : PfcpServer) (h : PfcpHeader) (body : list Z) : option Z → Prop :=
| addressed_node :
    hdr_msg_type h = PFCP_HEARTBEAT_REQ ∨ hdr_msg_type h = PFCP_ASSOCIATION_SETUP_REQ →
    addressed s h body None
| addressed_establishment req :
    hdr_msg_type h = PFCP_SESSION_ESTABLISHMENT_REQ → decode_session_establishment body = Ok req →
    addressed s h body (Some (ser_cp_seid req))
| addressed_modification seid d :
    hdr_msg_type h = PFCP_SESSION_MODIFICATION_REQ → hdr_seid h = Some seid →
    sessions s !! seid = Some d → addressed s h body (Some (sd_cp_seid d))
| addressed_deletion d :
    hdr_msg_type h = PFCP_SESSION_DELETION_REQ → sessions s !! default 0 (hdr_seid h) = Some d →
    addressed s h body (Some (default 0 (hdr_seid h))).

Lemma finish_any {E E'} buf r : finish (E:=E) buf = Ok r → finish (E:=E') buf = Ok r.
Proof. unfold finish. destruct (_ <? _)%nat; [done|]. by intros [= <-]. Qed.

Lemma accepted_built t seq seid buf rsp :
  accepted_as t seq seid (finish (E:=PfcpError) buf) →
  finish (E:=HandlerError) buf = Ok rsp → accepted_as t seq seid (Ok rsp).
Proof. intros Ha Hf. by rewrite (finish_any _ _ Hf) in Ha. Qed.

Lemma heartbeat_answer h body src w rsp w' :
  0 ≤ hdr_seq_num h < 2 ^ 24 →
  handle_heartbeat (M:=M) (P:=P) (A:=A) assoc_iter now h body src w = (Ok rsp, w') →
  accepted_as PFCP_HEARTBEAT_RSP (hdr_seq_num h) None (Ok rsp).
Proof.
  intros Hs Hr. unfold handle_heartbeat in Hr.
  apply st_bind_ok in Hr as (req & w1 & _ & Hr). apply st_bind_ok in Hr as ([] & w2 & _ & Hr).
  do 2 apply st_bind_ok in Hr as ([] & ? & _ & Hr).
  apply st_bind_ok in Hr as (ts & w3 & _ & Hr). apply lift_ok in Hr as [Hr _].
  eapply accepted_built; [by apply (heartbeat_response_accepted _ ts)|exact Hr].
Qed.

Lemma association_answer h body src w rsp w' :
  0 ≤ hdr_seq_num h < 2 ^ 24 →
  handle_session_association (M:=M) (P:=P) (A:=A) now h body src w = (Ok rsp, w') →
  accepted_as PFCP_ASSOCIATION_SETUP_RSP (hdr_seq_num h) None (Ok rsp).
Proof.
  intros Hs Hr. unfold handle_session_association in Hr. cbv zeta in Hr.
  apply st_bind_ok in Hr as (req & w1 & _ & Hr). apply st_bind_ok in Hr as (ex & w2 & _ & Hr).
  apply st_bind_ok in Hr as (n3 & w3 & _ & Hr). apply st_bind_ok in Hr as (ts & w4 & _ & Hr).
  assert (build_association_setup_response (E:=HandlerError) (hdr_seq_num h) n3 ts = Ok rsp) as Hb.
  { destruct (match ex with Some _ => _ | None => _ end); [by apply lift_ok in Hr as [Hr _]|].
    do 4 apply st_bind_ok in Hr as ([] & ? & _ & Hr).
    by apply lift_ok in Hr as [Hr _]. }
  eapply accepted_built; [by apply (association_response_accepted _ n3 ts)|exact Hb].
Qed.

Lemma modification_answer h body src w rsp w' :
  server_inv (w_srv w) → 0 ≤ hdr_seq_num h < 2 ^ 24 →
  handle_session_modification (M:=M) (P:=P) (A:=A) assoc_iter h body src w = (Ok rsp, w') →
  ∃ seid d, hdr_seid h = Some seid ∧ sessions (w_srv w) !! seid = Some d ∧
    accepted_as PFCP_SESSION_MODIFICATION_RSP (hdr_seq_num h) (Some (sd_cp_seid d)) (Ok rsp).
Proof.
  intros Hinv Hs Hr. unfold handle_session_modification in Hr. cbv zeta in Hr.
  apply st_bind_ok in Hr as (req & w1 & Hg & Hr). apply lift_ok in Hg as [_ ->].
  apply st_bind_ok in Hr as (seid & w1 & Hg & Hr). apply require_ok in Hg as [Hh ->].
  apply st_bind_ok in Hr as (data & w1 & Hg & Hr). injection Hg as <- <-.
  apply st_bind_ok in Hr as (d & w1 & Hg & Hr). apply require_ok in Hg as [Hd ->].
  apply st_bind_ok in Hr as (node & w1 & _ & Hr). apply st_bind_ok in Hr as ([] & w2 & _ & Hr).
  apply st_bind_ok in Hr as ([] & w3 & _ & Hr). apply lift_ok in Hr as [Hr _].
  exists seid, d. split; [done|]. split; [done|].
  eapply accepted_built; [|exact Hr]. apply modification_response_accepted; [done|].
  by apply (inv_sessions _ Hinv _ _ Hd).
Qed.

Lemma deletion_answer h src w rsp w' :
  u64 (default 0 (hdr_seid h)) → 0 ≤ hdr_seq_num h < 2 ^ 24 →
  handle_session_deletion (M:=M) (P:=P) (A:=A) assoc_iter h src w = (Ok rsp, w') →
  is_Some (sessions (w_srv w) !! default 0 (hdr_seid h)) ∧
  accepted_as PFCP_SESSION_DELETION_RSP (hdr_seq_num h) (Some (default 0 (hdr_seid h))) (Ok rsp).
Proof.
  intros Hseid Hs Hr. unfold handle_session_deletion, delete_finish in Hr. cbv zeta in Hr.
  apply st_bind_ok in Hr as (found & w1 & Hfound & Hr).
  split; [by apply delete_begin_ok in Hfound as (? & _)|]. apply st_bind_ok in Hr as ([] & w2 & _ & Hr).
  apply st_bind_ok in Hr as ([] & w3 & _ & Hr). apply lift_ok in Hr as [Hr _].
  eapply accepted_built; [|exact Hr]. by apply deletion_response_accepted.
Qed.
End invariant.

Section answers.
Context {M P A : Type → Type}.
Context `{BpfMapLaws M} `{PerCpuMapLaws P} `{BpfArray A}.
Variable assoc_iter : gmap Z SmfAssociation → list (Z * SmfAssociation).
Variable now : Z.

Lemma establishment_answer h body src (w w' : @World M P A) rsp :
  bytes_ok body → 0 ≤ hdr_seq_num h < 2 ^ 24 →
  handle_session_establishment assoc_iter now h body src w = (Ok rsp, w') →
  ∃ req, decode_session_establishment body = Ok req ∧
    accepted_as PFCP_SESSION_ESTABLISHMENT_RSP (hdr_seq_num h) (Some (ser_cp_seid req)) (Ok rsp).
Proof.
  intros Hb Hs Hr. apply establishment_ok in Hr
    as (req & k & a & ue & ohc & Hdec & _ & _ & _ & _ & Hrest). cbv zeta in Hrest.
  destruct Hrest as (Hr & _). exists req. split; [done|].
  eapply accepted_built; [|exact Hr]. apply establishment_response_accepted; [done|].
  by apply (establishment_width body).
Qed.

(** Whatever is sent to the server, an answer that leaves it is a
    complete message that the sender accepts: it is of the response type of
    the request, carries the request's sequence number, passes the
    dictionary, and carries the SEID that [addressed] says.  Only responses and
    messages of even type are swallowed without an answer. *)
Lemma handle_message_answers data src (w w' : @World M P A) rsp :
  bytes_ok data → server_inv (w_srv w) →
  handle_message assoc_iter now data src w = (Ok rsp, w') →
  ∃ h body, decode data = Ok (h, body) ∧
    ((rsp = [] ∧ w' = w ∧ (hdr_msg_type h = PFCP_SESSION_REPORT_RSP ∨ hdr_msg_type h mod 2 = 0)) ∨
     (hdr_msg_type h ∈ [PFCP_HEARTBEAT_REQ; PFCP_ASSOCIATION_SETUP_REQ;
        PFCP_SESSION_ESTABLISHMENT_REQ; PFCP_SESSION_MODIFICATION_REQ;
        PFCP_SESSION_DELETION_REQ] ∧
      ∃ to, addressed (w_srv w) h body to ∧
        accepted_as (hdr_msg_type h + 1) (hdr_seq_num h) to (Ok rsp))).
Proof.
  intros Hb Hinv Hr. unfold handle_message, decode_header in Hr.
  apply st_bind_ok in Hr as ([h body] & w1 & Hg & Hr). apply lift_ok in Hg as [Hd ->].
  exists h, body. split; [by destruct (decode data); simplify_eq/=|].
  assert (decode data = Ok (h, body)) as Hdec by by destruct (decode data); simplify_eq/=.
  apply decode_widths in Hdec as (Hbody & Hseq & Hseid); [|done].
  assert (u64 (default 0 (hdr_seid h))) as Hdef.
  { destruct (hdr_seid h); [by apply Hseid|by cbn; uint]. }
  cbv zeta in Hr.
  repeat match type of Hr with (if ?a =? ?b then _ else _) _ = _ =>
    destruct (Z.eqb_spec a b) as [E|?]; [try rewrite E|] end.
  - right. split; [by repeat constructor|]. exists None.
    split; [constructor; by left|by eapply heartbeat_answer].
  - right. split; [by repeat constructor|]. exists None.
    split; [constructor; by right|by eapply association_answer].
  - right. split; [by repeat constructor|].
    apply establishment_answer in Hr as (req & Hreq & Ha); [|done..].
    eexists. split; [by apply addressed_establishment|done].
  - right. split; [by repeat constructor|].
    apply modification_answer in Hr as (seid & d & Hh & Hsd & Ha); [|done..].
    eexists. split; [by eapply addressed_modification|done].
  - right. split; [by repeat constructor|].
    apply deletion_answer in Hr as ([d Hsd] & Ha); [|done..].
    eexists. split; [by eapply addressed_deletion|done].
  - injection Hr as <- <-. auto.
  - injection Hr as <- <-. auto.
  - discriminate Hr.
Qed.
End answers.
