(* ===== verification/Typing.v ===== *)
(** * Widths

    The Rust types of the program bound its integers; the model's integers are
    unbounded, so that those bounds are a theorem: every value the server
    parses out of a datagram, records in its tables or writes into the eBPF
    maps fits the type it has in the code, in every state that handling
    datagrams can reach.  [ok_with P m] says that what [m] returns, if it
    returns, satisfies [P]; the hints of the database [typing] derive it along
    the code. *)

From S2P Require Import Prelude Types Header Ie Builder Messages Dict Common Server Handlers.
From S2P Require Import HandlersSpec Invariant.

Definition ok_with {E A} (P : A → Prop) (m : outcome E A) : Prop :=
  match m with Ok a => P a | _ => True end.

Create HintDb typing.

Lemma ok_with_elim {E A} (P : A → Prop) (m : outcome E A) a : ok_with P m → m = Ok a → P a.
Proof. by intros H ->. Qed.

Lemma ok_with_impl {E A} (P Q : A → Prop) (m : outcome E A) :
  ok_with P m → (∀ a, P a → Q a) → ok_with Q m.
Proof. destruct m; simpl; auto. Qed.

Lemma ok_bind {E A B} (P : A → Prop) (Q : B → Prop) (m : outcome E A) (f : A → outcome E B) :
  ok_with P m → (∀ a, P a → ok_with Q (f a)) → ok_with Q (m ≫= f).
Proof. intros Hm Hf. destruct m; simpl in *; auto. Qed.

Lemma ok_foldM {E A B} (P : A → Prop) (f : A → B → outcome E A) acc l :
  P acc → (∀ a x, x ∈ l → P a → ok_with P (f a x)) → ok_with P (foldM f acc l).
Proof.
  revert acc; induction l as [|x l IH]; intros acc Ha Hf; [done|]. cbn [foldM].
  apply (ok_bind P); [apply Hf; [by left|done]|]. intros a Hp. apply IH; [done|].
  intros; apply Hf; [by right|done].
Qed.

Lemma ok_mapM {E A B} (P : B → Prop) (f : A → outcome E B) l :
  (∀ x, x ∈ l → ok_with P (f x)) → ok_with (Forall P) (mapM f l).
Proof.
  induction l as [|x l IH]; intros Hf; [constructor|]. cbn [mapM].
  apply (ok_bind P); [apply Hf; by left|]. intros b Hb.
  apply (ok_bind (Forall P)); [apply IH; intros; apply Hf; by right|].
  intros bs Hbs. by constructor.
Qed.

Lemma ok_map_err {E F A} (P : A → Prop) (f : E → F) (m : outcome E A) :
  ok_with P m → ok_with P (map_err f m).
Proof. by destruct m. Qed.

(** An optional value of a width. *)
Definition opt (P : Z → Prop) (o : option Z) : Prop := match o with Some v => P v | None => True end.

(** ** Reads *)

Lemma be_at_typed {E} n buf i :
  bytes_ok buf → ok_with (λ x, 0 ≤ x < 256 ^ Z.of_nat n) (be_at (E:=E) n buf i).
Proof.
  intros Hb. destruct (be_at n buf i) eqn:Ex; [|done..]. simpl. by eapply be_at_bound.
Qed.

Lemma be_at_1 {E} buf i : bytes_ok buf → ok_with u8 (be_at (E:=E) 1 buf i).
Proof. intros. by apply be_at_typed. Qed.
Lemma be_at_2 {E} buf i : bytes_ok buf → ok_with u16 (be_at (E:=E) 2 buf i).
Proof. intros. by apply be_at_typed. Qed.
Lemma be_at_4 {E} buf i : bytes_ok buf → ok_with u32 (be_at (E:=E) 4 buf i).
Proof. intros. by apply be_at_typed. Qed.
Lemma be_at_8 {E} buf i : bytes_ok buf → ok_with u64 (be_at (E:=E) 8 buf i).
Proof. intros. by apply be_at_typed. Qed.
Lemma ipv4_at_typed {E} buf i : bytes_ok buf → ok_with u32 (ipv4_at (E:=E) buf i).
Proof. apply be_at_4. Qed.
Lemma idx_typed {E} buf i : bytes_ok buf → ok_with u8 (idx (E:=E) buf i).
Proof. intros Hb. destruct (idx buf i) eqn:Ex; [|done..]. simpl. by eapply idx_byte. Qed.

#[export] Hint Resolve be_at_1 be_at_2 be_at_4 be_at_8 ipv4_at_typed idx_typed : typing.

(** Along a parser: its guards, its reads, its result. *)
Ltac typed_step :=
  first
    [ exact I
    | match goal with
      | |- ok_with _ (if ?b then _ else _) => destruct b
      | |- ok_with _ (match ?b with _ => _ end) => destruct b
      | |- ok_with _ (mret _) => cbn [ok_with mret outcome_ret]
      | |- ok_with _ (_ ≫= _) => eapply ok_bind; [solve [eauto with typing]|intros]
      | |- ok_with _ (map_err _ _) => apply ok_map_err
      end
    | solve [eauto with typing] ].

Ltac typed := repeat typed_step.

(** ** Single IEs *)

Definition sdf_typed (f : SdfFilter) : Prop :=
  u8 (proto f) ∧ u32 (src_ip f) ∧ u32 (dst_ip f) ∧ u16 (src_port f) ∧ u16 (dst_port f).
Definition ohc_typed (o : OuterHeaderCreation) : Prop :=
  u32 (ohc_teid o) ∧ u32 (ohc_peer_addr o) ∧ u16 (ohc_port o).

(** The widths of the parts. *)
Ltac widths := hnf; split_and?; first [eassumption | done | cbn; by uint].

Section single.
Context (v : list Z) (Hv : bytes_ok v).

Lemma parse_node_id_typed : ok_with u32 (parse_node_id v).
Proof using Hv. unfold parse_node_id. typed; widths. Qed.
Lemma parse_recovery_timestamp_typed : ok_with u32 (parse_recovery_timestamp v).
Proof using Hv. unfold parse_recovery_timestamp. typed; widths. Qed.
Lemma parse_fseid_typed : ok_with (λ x, u64 x.1 ∧ u32 x.2) (parse_fseid v).
Proof using Hv. unfold parse_fseid. typed; widths. Qed.
Lemma parse_fteid_typed : ok_with (λ x, u32 x.1 ∧ u32 x.2) (parse_fteid v).
Proof using Hv. unfold parse_fteid. typed; widths. Qed.
Lemma parse_ue_ip_address_typed : ok_with u32 (parse_ue_ip_address v).
Proof using Hv. unfold parse_ue_ip_address. typed; widths. Qed.
Lemma parse_outer_header_creation_typed : ok_with ohc_typed (parse_outer_header_creation v).
Proof using Hv. unfold parse_outer_header_creation. typed; widths. Qed.
Lemma parse_apply_action_typed : ok_with u8 (parse_apply_action v).
Proof using Hv. unfold parse_apply_action. typed; widths. Qed.
Lemma parse_sdf_filter_typed : ok_with sdf_typed (parse_sdf_filter v).
Proof using Hv. unfold parse_sdf_filter. typed; widths. Qed.
Lemma parse_volume_threshold_typed : ok_with (opt u64) (parse_volume_threshold v).
Proof using Hv. unfold parse_volume_threshold. typed; widths. Qed.
End single.

#[export] Hint Resolve parse_node_id_typed parse_recovery_timestamp_typed parse_fseid_typed
  parse_fteid_typed parse_ue_ip_address_typed parse_outer_header_creation_typed
  parse_apply_action_typed parse_sdf_filter_typed parse_volume_threshold_typed : typing.

(** ** Grouped IEs *)

Lemma field_if_long_typed {A} (P : A → Prop) n ie (set : Z → A → A) acc :
  bytes_ok (ie_value ie) → P acc → (∀ v, 0 ≤ v < 256 ^ Z.of_nat n → P (set v acc)) →
  ok_with P (field_if_long n ie set acc).
Proof.
  intros Hb Ha Hs. unfold field_if_long. destruct (_ <=? _)%nat; [|done].
  eapply ok_bind; [by apply be_at_typed|]. exact Hs.
Qed.

Definition pdr_typed (p : ParsedPDR) : Prop :=
  u16 (pdr_id p) ∧ u32 (precedence p) ∧ u8 (source_interface p) ∧ opt u32 (ue_ip p) ∧
  opt u32 (pdr_far_id p) ∧ opt u32 (pdr_urr_id p) ∧
  match sdf_filter p with Some f => sdf_typed f | None => True end.

Definition far_typed (f : ParsedFAR) : Prop :=
  u32 (far_id f) ∧ u8 (apply_action f) ∧ opt u8 (dest_interface f) ∧
  match outer_header_creation f with Some o => ohc_typed o | None => True end.

Definition urr_typed (u : ParsedURR) : Prop :=
  u32 (urr_id u) ∧ u8 (measurement_method u) ∧ u8 (reporting_triggers u) ∧
  opt u64 (volume_threshold_total u) ∧ opt u32 (measurement_period u).

Lemma land_15_u8 v : 0 ≤ v → u8 (Z.land v 15).
Proof.
  intros Hv. change 15 with (Z.ones 4). rewrite Z.land_ones by lia.
  pose proof (Z.mod_pos_bound v (2 ^ 4)). change (2 ^ 4) with 16 in *. unfold u8. lia.
Qed.

(** A step of a grouped parser: by the type of the IE. *)
Ltac grouped_step :=
  repeat match goal with |- ok_with _ (if ?b then _ else _) => destruct b end;
  try (apply field_if_long_typed; [done|done|]; intros ? ?;
       change (256 ^ Z.of_nat 1) with 256 in *; change (256 ^ Z.of_nat 2) with 65536 in *;
       change (256 ^ Z.of_nat 4) with 4294967296 in * );
  try (eapply ok_bind; [solve [eauto with typing]|]; intros ? ?);
  try (by widths).

Lemma parse_pdi_typed v p : bytes_ok v → pdr_typed p → ok_with pdr_typed (parse_pdi v p).
Proof.
  intros Hv Hp. apply ok_foldM; [done|]. clear Hp. intros a ie Hin Ha.
  apply iter_ies_bytes in Hin; [|done]. unfold parse_pdi_step. cbv zeta.
  pose proof Ha as (? & ? & ? & ? & ? & ? & ?). grouped_step.
  hnf; split_and!; try done; cbn; apply land_15_u8; lia.
Qed.

Lemma parse_create_pdr_typed v : bytes_ok v → ok_with pdr_typed (parse_create_pdr v).
Proof.
  intros Hv. apply ok_foldM; [widths|]. intros a ie Hin Ha.
  apply iter_ies_bytes in Hin; [|done]. unfold parse_create_pdr_step. cbv zeta.
  pose proof Ha as (? & ? & ? & ? & ? & ? & ?). grouped_step; by apply parse_pdi_typed.
Qed.

Lemma parse_forwarding_params_typed v f :
  bytes_ok v → far_typed f → ok_with far_typed (parse_forwarding_params v f).
Proof.
  intros Hv Hf. apply ok_foldM; [done|]. clear Hf. intros a ie Hin Ha.
  apply iter_ies_bytes in Hin; [|done]. unfold parse_forwarding_params_step. cbv zeta.
  pose proof Ha as (? & ? & ? & ?). grouped_step.
  hnf; split_and!; try done; cbn; apply land_15_u8; lia.
Qed.

Lemma parse_create_far_typed v : bytes_ok v → ok_with far_typed (parse_create_far v).
Proof.
  intros Hv. apply ok_foldM; [widths|]. intros a ie Hin Ha.
  apply iter_ies_bytes in Hin; [|done]. unfold parse_create_far_step. cbv zeta.
  pose proof Ha as (? & ? & ? & ?). grouped_step; by apply parse_forwarding_params_typed.
Qed.

Lemma parse_update_far_typed v : bytes_ok v → ok_with far_typed (parse_update_far v).
Proof.
  intros Hv. apply ok_foldM; [widths|]. intros a ie Hin Ha.
  apply iter_ies_bytes in Hin; [|done]. unfold parse_update_far_step. cbv zeta.
  pose proof Ha as (? & ? & ? & ?). grouped_step; by apply parse_forwarding_params_typed.
Qed.

Lemma parse_create_urr_typed v : bytes_ok v → ok_with urr_typed (parse_create_urr v).
Proof.
  intros Hv. apply ok_foldM; [widths|]. intros a ie Hin Ha.
  apply iter_ies_bytes in Hin; [|done]. unfold parse_create_urr_step. cbv zeta.
  pose proof Ha as (? & ? & ? & ? & ?). grouped_step; widths.
Qed.

(** ** Requests *)

Lemma required_typed {A} (P : A → Prop) ty what (parse : list Z → outcome PfcpError A) body :
  bytes_ok body → (∀ v, bytes_ok v → ok_with P (parse v)) →
  ok_with P (required ty what parse (iter_ies body)).
Proof.
  intros Hb Hp. unfold required. destruct (find_ie ty (iter_ies body)) as [raw|] eqn:Ef; [|done].
  simpl. apply ok_map_err, Hp. by eapply find_ie_bytes.
Qed.

Lemma optional_typed {A} (P : A → Prop) ty (parse : list Z → outcome PfcpError A) body :
  bytes_ok body → (∀ v, bytes_ok v → ok_with P (parse v)) →
  ok_with (λ o, match o with Some a => P a | None => True end) (optional ty parse (iter_ies body)).
Proof.
  intros Hb Hp. unfold optional. destruct (find_ie ty (iter_ies body)) as [raw|] eqn:Ef; [|done].
  assert (ok_with P (parse (ie_value raw))) as H by (apply Hp; by eapply find_ie_bytes).
  by destruct (parse (ie_value raw)).
Qed.

Lemma collect_typed {A} (P : A → Prop) ty (parse : list Z → outcome PfcpError A) body :
  bytes_ok body → (∀ v, bytes_ok v → ok_with P (parse v)) →
  ok_with (Forall P) (collect ty parse (iter_ies body)).
Proof.
  intros Hb Hp. apply ok_mapM. intros raw Hin. apply ok_map_err, Hp.
  apply (iter_ies_bytes body); [done|]. unfold filter_ies in Hin.
  apply list_elem_of_In, filter_In in Hin as [Hin _]. by apply list_elem_of_In.
Qed.

#[export] Hint Resolve required_typed optional_typed collect_typed parse_create_pdr_typed
  parse_create_far_typed parse_update_far_typed parse_create_urr_typed : typing.

Lemma decode_association_setup_typed body :
  bytes_ok body →
  ok_with (λ r, u32 (asr_node_id r) ∧ u32 (asr_recovery_ts r)) (decode_association_setup body).
Proof. intros Hb. unfold decode_association_setup. cbv zeta. typed; widths. Qed.

Lemma decode_heartbeat_typed body :
  bytes_ok body → ok_with (λ r, opt u32 (hbr_recovery_ts r)) (decode_heartbeat body).
Proof. intros Hb. unfold decode_heartbeat. typed. Qed.

Definition establishment_typed (r : SessionEstablishmentReq) : Prop :=
  u64 (ser_cp_seid r) ∧ Forall pdr_typed (create_pdrs r) ∧ Forall far_typed (create_fars r) ∧
  Forall urr_typed (create_urrs r).

Lemma decode_session_establishment_typed body :
  bytes_ok body → ok_with establishment_typed (decode_session_establishment body).
Proof.
  intros Hb. unfold decode_session_establishment. cbv zeta. typed.
  match goal with H : u64 _ ∧ _ |- _ => destruct H end. hnf. by split_and!.
Qed.

Lemma decode_session_modification_typed body :
  bytes_ok body →
  ok_with (λ r, Forall far_typed (update_fars r) ∧ Forall urr_typed (update_urrs r))
    (decode_session_modification body).
Proof. intros Hb. unfold decode_session_modification. cbv zeta. typed; widths. Qed.

Lemma find_map_typed {A B} (P : A → Prop) (Q : B → Prop) (f : A → option B) l b :
  Forall P l → (∀ a b, P a → f a = Some b → Q b) → find_map f l = Some b → Q b.
Proof.
  intros Hl Hf. induction Hl as [|a l Ha Hl IH]; [done|]. simpl.
  destruct (f a) eqn:E; [|done]. intros [= <-]. by eapply Hf.
Qed.

(** ** The state *)

Definition assoc_typed (a : SmfAssociation) : Prop :=
  u32 (as_node_id a) ∧ u32 (as_recovery_ts a) ∧
  ∀ cp d, as_sessions a !! cp = Some d → u64 cp ∧ wf_data d.

Definition cfg_typed (c : UrrConfig) : Prop :=
  u32 (uc_urr_id c) ∧ u64 (uc_seid c) ∧ u64 (uc_cp_seid c) ∧ u8 (uc_measurement_method c) ∧
  u8 (uc_reporting_triggers c) ∧ opt u64 (uc_volume_threshold_total c) ∧
  opt u32 (uc_measurement_period c) ∧ u32 (uc_ur_seqn c).

Record srv_typed (s : PfcpServer) : Prop := {
  ty_n4 : u32 (n4_addr s);
  ty_n3 : u32 (n3_addr s);
  ty_recovery : u32 (recovery_ts s);
  ty_seid : u64 (next_seid s);
  ty_teid : u32 (next_teid s);
  ty_report : u32 (next_report_seq s);
  ty_sessions k d : sessions s !! k = Some d → u64 k ∧ wf_data d;
  ty_assocs k a : associations s !! k = Some a → u32 k ∧ assoc_typed a;
  ty_cfgs k c : urr_configs s !! k = Some c → cfg_typed c;
}.

Definition info_typed (i : SessionInfo) : Prop :=
  u64 (si_seid i) ∧ u32 (si_teid i) ∧ u32 (si_gnb_ip i) ∧ u32 (si_upf_ip i) ∧
  length (si_pdr_ids i) = MAX_PDR_PER_SESSION ∧ Forall u32 (si_pdr_ids i) ∧
  0 ≤ si_pdr_count i ≤ Z.of_nat MAX_PDR_PER_SESSION.

Definition pv_typed (p : PdrValue) : Prop :=
  u32 (pv_precedence p) ∧ u8 (pv_source_interface p) ∧ u32 (pv_ue_ip p) ∧ u8 (pv_qfi p) ∧
  u32 (pv_far_id p) ∧ u32 (pv_qer_id p) ∧ u32 (pv_urr_id p) ∧ u8 (pv_outer_header_removal p) ∧
  u8 (pv_sdf_proto p) ∧ u32 (pv_sdf_src_ip p) ∧ u32 (pv_sdf_dst_ip p) ∧
  u16 (pv_sdf_src_port p) ∧ u16 (pv_sdf_dst_port p).

Definition fv_typed (f : FarValue) : Prop :=
  u8 (fv_apply_action f) ∧ u8 (fv_dst_interface f) ∧ u32 (fv_gnb_ip f) ∧ u32 (fv_teid f) ∧
  u32 (fv_upf_n3_ip f).

Lemma to_be32_typed x : u32 (to_be32 x).
Proof. apply (bswap_bound 4). Qed.
#[export] Hint Resolve to_be32_typed : typing.

Lemma default_typed {B} (P : Z → Prop) (f : B → Z) o :
  P 0 → (∀ b, o = Some b → P (f b)) → P (default 0 (f <$> o)).
Proof. intros H0 Hf. destruct o as [b|]; [by apply Hf|exact H0]. Qed.

Lemma default_opt (P : Z → Prop) o : P 0 → opt P o → P (default 0 o).
Proof. by destruct o. Qed.

Lemma zero_typed : u8 0 ∧ u16 0 ∧ u32 0 ∧ u64 0.
Proof. split_and!; by uint. Qed.

Lemma pdr_value_typed ue p : pdr_typed p → pv_typed (pdr_value_of ue p).
Proof.
  intros (Hid & Hp & Hi & Hu & Hf & Hr & Hs). unfold pdr_value_of, pv_typed.
  cbn [pv_precedence pv_source_interface pv_ue_ip pv_qfi pv_far_id pv_qer_id pv_urr_id
    pv_outer_header_removal pv_sdf_proto pv_sdf_src_ip pv_sdf_dst_ip pv_sdf_src_port pv_sdf_dst_port].
  destruct zero_typed as (H8 & H16 & H32 & _).
  split_and!; try done; try (by apply default_opt); try apply to_be32_typed.
  1: by destruct (outer_header_removal p); uint.
  all: apply default_typed; [done|]; intros f Ef; rewrite Ef in Hs;
    destruct Hs as (? & ? & ? & ? & ?); done || apply to_be32_typed.
Qed.

Lemma far_value_typed n3 f : far_typed f → fv_typed (far_value_of n3 f).
Proof.
  intros (Hid & Ha & Hd & Ho). unfold far_value_of, fv_typed.
  cbn [fv_apply_action fv_dst_interface fv_gnb_ip fv_teid fv_upf_n3_ip].
  destruct zero_typed as (H8 & H16 & H32 & _).
  split_and!; try done; try (by apply default_opt); try apply to_be32_typed;
    (apply default_typed; [done|]; intros; apply to_be32_typed).
Qed.

Lemma session_info_typed seid teid n3 ohc pdrs :
  u64 seid → Forall pdr_typed pdrs → info_typed (session_info_of seid teid n3 ohc pdrs).
Proof.
  intros Hs Hp. unfold session_info_of. hnf. cbn [si_seid si_teid si_gnb_ip si_upf_ip si_pdr_ids si_pdr_count].
  assert (length (pdr_id <$> take MAX_PDR_PER_SESSION pdrs) ≤ MAX_PDR_PER_SESSION)%nat as Hl
    by (rewrite length_fmap, length_take; lia).
  split_and!; auto with typing.
  - unfold pdr_id_array. rewrite length_app, length_replicate. lia.
  - unfold pdr_id_array. apply Forall_app. split.
    + apply Forall_fmap, Forall_take. eapply Forall_impl; [exact Hp|].
      intros p (Hid & _). cbn. by uint.
    + apply Forall_replicate. by uint.
  - lia.
  - lia.
Qed.

Lemma urr_config_typed now seid cp u :
  u64 seid → u64 cp → urr_typed u → cfg_typed (urr_config_of now seid cp u).
Proof. intros Hs Hc (? & ? & ? & ? & ?). hnf. cbn. split_and!; done || by uint. Qed.

(** ** Programs that keep an invariant

    [preserves I Q m]: from a state with [I], [m] ends in one with [I], also
    when it fails, and what it returns satisfies [Q]. *)
Definition preserves {S E A} (I : S → Prop) (Q : A → Prop) (m : st S E A) : Prop :=
  ∀ s, I s → I (m s).2 ∧ ok_with Q (m s).1.

Section preserves.
Context {S E : Type} (I : S → Prop).

Lemma pres_ret {A} (Q : A → Prop) a : Q a → preserves I Q (mret a : st S E A).
Proof. by intros Ha s Hs. Qed.
Lemma pres_gets {A} (Q : A → Prop) (f : S → A) :
  (∀ s, I s → Q (f s)) → preserves I Q (gets (E:=E) f).
Proof. intros Hf s Hs. split; [done|by apply Hf]. Qed.
Lemma pres_modify (f : S → S) : (∀ s, I s → I (f s)) → preserves I (λ _, True) (modify (E:=E) f).
Proof. intros Hf s Hs. split; [by apply Hf|done]. Qed.
Lemma pres_lift {A} (Q : A → Prop) (m : outcome E A) : ok_with Q m → preserves I Q (lift m : st S E A).
Proof. by intros Hm s Hs. Qed.
Lemma pres_bind {A B} (P : A → Prop) (Q : B → Prop) (m : st S E A) (f : A → st S E B) :
  preserves I P m → (∀ a, P a → preserves I Q (f a)) → preserves I Q (m ≫= f).
Proof.
  intros Hm Hf s Hs. destruct (Hm s Hs) as [Hs' HP]. rewrite st_bind_eq.
  destruct (m s) as [[a|e|] s']; [|done..]. by apply Hf.
Qed.
Lemma pres_seq {A B} (Q : B → Prop) (m : st S E A) (m' : st S E B) :
  preserves I (λ _, True) m → preserves I Q m' → preserves I Q (m;; m').
Proof. intros Hm Hm'. by apply (pres_bind (λ _, True)). Qed.
Lemma pres_for_each {A} (f : A → st S E unit) l :
  (∀ a, a ∈ l → preserves I (λ _, True) (f a)) → preserves I (λ _, True) (for_each f l).
Proof.
  induction l as [|a l IH]; intros Hf; [by apply pres_ret|].
  apply pres_seq; [apply Hf; by left|]. apply IH. intros; apply Hf. by right.
Qed.
Lemma pres_weaken {A} (Q Q' : A → Prop) (m : st S E A) :
  preserves I Q m → (∀ a, Q a → Q' a) → preserves I Q' m.
Proof. intros Hm HQ s Hs. destruct (Hm s Hs). split; [done|by eapply ok_with_impl]. Qed.
Lemma pres_any {A} (m : st S E A) : (∀ s, I s → I (m s).2) → preserves I (λ _, True) m.
Proof. intros Hm s Hs. split; [by apply Hm|]. by destruct (m s).1. Qed.
End preserves.

(** ** The handlers *)

Section typed_handlers.
Context {M P A : Type → Type}.
Context `{BpfMapLaws M} `{PerCpuMapLaws P} `{BpfArray A}.
Variable assoc_iter : gmap Z SmfAssociation → list (Z * SmfAssociation).
Hypothesis assoc_iter_perm : ∀ m, assoc_iter m ≡ₚ map_to_list m.
Variable now : Z.

Abbreviation World := (@World M P A).
Implicit Types w : World.

Record maps_typed (m : Maps M P A) : Prop := {
  ty_info k v : bpf_get (SESSION_MAP m) k = Some v → info_typed v;
  ty_pdr k v : bpf_get (PDR_MAP m) k = Some v → pv_typed v;
  ty_far k v : bpf_get (FAR_MAP m) k = Some v → fv_typed v;
}.

(** What is handed to the store and to the routing commands. *)
Definition effect_typed (e : Effect) : Prop :=
  match e with
  | StoreSave seid data => u64 seid ∧ wf_data data
  | StoreDelete seid => u64 seid
  | RouteSetup ue | RouteTeardown ue => u32 ue
  | GaugeInc | GaugeDec => True
  | Tui (CallSessionsUpdated m) => ∀ seid d, m !! seid = Some d → u64 seid ∧ wf_data d
  | Tui _ => True
  end.

Definition world_typed w : Prop :=
  srv_typed (w_srv w) ∧ maps_typed (w_maps w) ∧ Forall effect_typed (w_log w).

Abbreviation pres := (preserves (E:=HandlerError) world_typed).
Abbreviation any := (λ _, True).

Lemma pres_get_srv {T} (Q : T → Prop) (f : PfcpServer → T) :
  (∀ s, srv_typed s → Q (f s)) → pres Q (get_srv f).
Proof. intros Hf. apply pres_gets. intros w [Hs _]. by apply Hf. Qed.

Lemma pres_on_srv f : (∀ s, srv_typed s → srv_typed (f s)) → pres any (on_srv f).
Proof. intros Hf. apply pres_modify. intros w [Hs Hm]. split; [by apply Hf|done]. Qed.

Lemma pres_emit e : effect_typed e → pres any (emit e).
Proof.
  intros He. apply pres_modify. intros w (Hs & Hm & Hl). split; [done|]. split; [done|].
  apply Forall_app_2; [done|]. by apply Forall_singleton.
Qed.

Lemma pres_tui call : effect_typed (Tui call) → pres any (tui call).
Proof.
  intros Hc. eapply pres_bind; [by apply (pres_get_srv any)|]. intros [] _; [by apply pres_emit|by apply pres_ret].
Qed.

Lemma pres_tui_sessions : pres any tui_sessions.
Proof.
  apply (pres_bind _ (λ m, effect_typed (Tui (CallSessionsUpdated m)))).
  { apply pres_get_srv. intros s Hs. exact (ty_sessions _ Hs). }
  intros m Hm. by apply pres_tui.
Qed.

Lemma pres_require {T} (o : option T) e : pres (λ x, o = Some x) (require o e).
Proof. apply pres_lift. by destruct o. Qed.

Lemma pres_session_insert k v : info_typed v → pres any (session_insert k v).
Proof.
  intros Hv. apply pres_any. intros w (Hs & [Hi Hp Hf] & Hl). unfold session_insert.
  destruct (bpf_insert _ k v) as [m|] eqn:Em; [|done]. split; [done|]. split; [|done]. split; cbn; [|done|done].
  intros j x. rewrite (get_insert _ _ _ _ _ Em). case_decide; [by intros [= <-]|apply Hi].
Qed.

Lemma pres_pdr_insert k v : pv_typed v → pres any (pdr_insert k v).
Proof.
  intros Hv. apply pres_any. intros w (Hs & [Hi Hp Hf] & Hl). unfold pdr_insert.
  destruct (bpf_insert _ k v) as [m|] eqn:Em; [|done]. split; [done|]. split; [|done]. split; cbn; [done| |done].
  intros j x. rewrite (get_insert _ _ _ _ _ Em). case_decide; [by intros [= <-]|apply Hp].
Qed.

Lemma pres_far_insert k v : fv_typed v → pres any (far_insert k v).
Proof.
  intros Hv. apply pres_any. intros w (Hs & [Hi Hp Hf] & Hl). unfold far_insert.
  destruct (bpf_insert _ k v) as [m|] eqn:Em; [|done]. split; [done|]. split; [|done]. split; cbn; [done|done|].
  intros j x. rewrite (get_insert _ _ _ _ _ Em). case_decide; [by intros [= <-]|apply Hf].
Qed.

Lemma pres_urr_insert k : pres any (urr_insert_zeros k).
Proof.
  apply pres_any. intros w (Hs & [Hi Hp Hf] & Hl). unfold urr_insert_zeros. by case_match.
Qed.

Lemma pres_delete_maps seid ue : pres any (modify (with_maps (delete_maps seid ue))).
Proof.
  apply pres_modify. intros w (Hs & [Hi Hp Hf] & Hl). split; [done|]. split; [|done].
  unfold delete_maps. cbv zeta. split; cbn; intros j v.
  - unfold remove_. destruct (bpf_remove _ _) as [m|] eqn:Em; cbn; [|apply Hi].
    rewrite (get_remove _ _ _ _ Em). case_decide; [done|apply Hi].
  - rewrite get_remove_keys. case_decide; [done|apply Hp].
  - rewrite get_remove_keys. case_decide; [done|apply Hf].
Qed.

Lemma pres_same {T} (m : st World HandlerError T) : (∀ w, (m w).2 = w) → pres any m.
Proof. intros Hm. apply pres_any. intros w Hw. by rewrite Hm. Qed.

Lemma pres_owning src cp : pres any (owning_node (M:=M) (P:=P) (A:=A) assoc_iter src cp).
Proof. apply pres_same. intros w. by rewrite owning_node_eq. Qed.

(** *** The server's tables *)

Lemma srv_insert_assoc k a s :
  u32 k → assoc_typed a → srv_typed s → srv_typed (set_associations (insert k a) s).
Proof.
  intros Hk Ha [? ? ? ? ? ? ? Has ?]. split; try done. cbn. intros k' a'.
  rewrite lookup_insert_Some. intros [[<- <-]|[_ Hl]]; [done|by apply Has].
Qed.

Lemma srv_alter_assoc f k s :
  (∀ a, assoc_typed a → assoc_typed (f a)) → srv_typed s → srv_typed (set_associations (alter f k) s).
Proof.
  intros Hf [? ? ? ? ? ? ? Has ?]. split; try done. cbn. intros k' a'.
  rewrite lookup_alter_Some. intros [(<- & a & Ha & ->)|[_ Hl]]; [|by apply Has].
  destruct (Has _ _ Ha). split; [done|by apply Hf].
Qed.

Lemma srv_insert_session k d s :
  u64 k → wf_data d → srv_typed s → srv_typed (set_sessions (insert k d) s).
Proof.
  intros Hk Hd [? ? ? ? ? ? Hs ? ?]. split; try done. cbn. intros k' d'.
  rewrite lookup_insert_Some. intros [[<- <-]|[_ Hl]]; [done|by apply Hs].
Qed.

Lemma srv_alter_session f k s :
  (∀ d, wf_data d → wf_data (f d)) → srv_typed s → srv_typed (set_sessions (alter f k) s).
Proof.
  intros Hf [? ? ? ? ? ? Hs ? ?]. split; try done. cbn. intros k' d'.
  rewrite lookup_alter_Some. intros [(<- & d & Hd & ->)|[_ Hl]]; [|by apply Hs].
  destruct (Hs _ _ Hd). split; [done|by apply Hf].
Qed.

Lemma srv_delete_session k s : srv_typed s → srv_typed (set_sessions (delete k) s).
Proof.
  intros [? ? ? ? ? ? Hs ? ?]. split; try done. cbn. intros k' d'.
  rewrite lookup_delete_Some. intros [_ Hl]. by apply Hs.
Qed.

Lemma srv_insert_cfg k c s : cfg_typed c → srv_typed s → srv_typed (set_urr_configs (insert k c) s).
Proof.
  intros Hc [? ? ? ? ? ? ? ? Hcs]. split; try done. cbn. intros k' c'.
  rewrite lookup_insert_Some. intros [[<- <-]|[_ Hl]]; [done|by apply (Hcs k')].
Qed.

Lemma srv_alter_cfg f k s :
  (∀ c, cfg_typed c → cfg_typed (f c)) → srv_typed s → srv_typed (set_urr_configs (alter f k) s).
Proof.
  intros Hf [? ? ? ? ? ? ? ? Hcs]. split; try done. cbn. intros k' c'.
  rewrite lookup_alter_Some. intros [(<- & c & Hc & ->)|[_ Hl]]; [|by apply (Hcs k')].
  by apply Hf, (Hcs k).
Qed.

Lemma assoc_sessions_typed f a :
  (∀ m : gmap Z SessionData, (∀ cp d, m !! cp = Some d → u64 cp ∧ wf_data d) →
     ∀ cp d, f m !! cp = Some d → u64 cp ∧ wf_data d) →
  assoc_typed a → assoc_typed (set_as_sessions f a).
Proof. intros Hf (? & ? & Hs). split; [done|]. split; [done|]. cbn. by apply Hf. Qed.

(** *** One lemma for each handler *)

#[local] Hint Resolve pres_emit pres_urr_insert pres_delete_maps pres_owning : typing.

Lemma opt_session_typed k s :
  srv_typed s → ∀ d, sessions s !! k = Some d → u64 k ∧ wf_data d.
Proof. intros Hs d. apply Hs. Qed.

Lemma heartbeat_typed h body src :
  bytes_ok body → pres any (handle_heartbeat assoc_iter now h body src).
Proof.
  intros Hb. unfold handle_heartbeat.
  eapply pres_bind; [by apply pres_lift, ok_map_err, decode_heartbeat_typed|]. intros req Hreq.
  cbv beta in Hreq.
  apply pres_seq.
  - destruct (sa_ip src) as [ip|ip]; [|by apply pres_ret].
    apply (pres_bind _ (λ o, match o with Some (k, a) => u32 k ∧ assoc_typed a | None => True end)).
    { apply pres_get_srv. intros s Hs. destruct (find_assoc assoc_iter s src) as [[k a]|] eqn:Ef; [|done].
      apply (find_assoc_Some assoc_iter assoc_iter_perm) in Ef as [Hk _]. by apply Hs. }
    intros [[k a]|] Ha; [|by apply pres_ret].
    destruct (hbr_recovery_ts req) as [recv|]; [|by apply pres_ret].
    apply pres_on_srv. intros s. destruct Ha as [Hk (Hn & Hr & Hs)].
    apply srv_insert_assoc; [done|]. unfold heartbeat_assoc. cbv zeta.
    destruct (negb _); (split; [done|]); (split; [done|]); cbn; [|done].
    intros cp d Hl. by rewrite lookup_empty in Hl.
  - do 2 (apply pres_seq; [by apply pres_tui|]).
    eapply pres_bind; [by apply (pres_get_srv any)|]. intros ts _. apply pres_lift.
    by destruct (build_heartbeat_response _ _).
Qed.

Lemma association_typed h body src :
  bytes_ok body → pres any (handle_session_association now h body src).
Proof.
  intros Hb. unfold handle_session_association.
  eapply pres_bind; [by apply pres_lift, ok_map_err, decode_association_setup_typed|].
  intros req [Hn Ht]. do 3 (eapply pres_bind; [by apply (pres_get_srv any)|]; intros ? _).
  case_match; [apply pres_lift; by destruct (build_association_setup_response _ _ _)|].
  apply pres_seq; [|do 2 (apply pres_seq; [by apply pres_tui|]); apply pres_seq].
  - apply pres_on_srv. intros s. apply srv_insert_assoc; [done|]. split; [done|]. split; [done|].
    cbn. intros cp d Hl. by rewrite lookup_empty in Hl.
  - apply pres_on_srv. by intros s [].
  - apply pres_lift. by destruct (build_association_setup_response _ _ _).
Qed.

Lemma establishment_handler_typed h body src :
  bytes_ok body → pres any (handle_session_establishment assoc_iter now h body src).
Proof.
  intros Hb. unfold handle_session_establishment.
  eapply pres_bind; [by apply pres_lift, ok_map_err, decode_session_establishment_typed|].
  intros req (Hcp & Hpdrs & Hfars & Hurrs). cbv zeta.
  eapply (pres_bind _ any); [apply pres_same; intros w; rewrite sender_node_eq; by repeat case_match|].
  intros [k assoc] _.
  apply (pres_bind _ u64).
  { intros w [Hs Hm]. pose proof (ty_seid _ Hs) as Hseid. split; [|exact Hseid].
    split; [|done]. destruct Hs. split; try done. cbn. apply (Z.mod_pos_bound _ (2 ^ 64)). done. }
  intros seid Hseid. apply (pres_bind _ u32).
  { intros w [Hs Hm]. pose proof (ty_teid _ Hs) as Hteid. split; [|exact Hteid].
    split; [|done]. destruct Hs. split; try done. cbn. apply (Z.mod_pos_bound _ (2 ^ 32)). done. }
  intros teid Hteid. eapply pres_bind; [apply pres_require|]. intros ue Hue.
  apply (find_map_typed pdr_typed u32) in Hue; [|done|].
  2:{ intros p b (_ & _ & _ & Ho & _) E. by rewrite E in Ho. }
  eapply pres_bind; [apply pres_require|]. intros gnb Hgnb.
  apply (find_map_typed far_typed ohc_typed) in Hgnb; [|done|].
  2:{ intros f b (_ & _ & _ & Ho) E. by rewrite E in Ho. }
  eapply pres_bind; [by apply (pres_get_srv any)|]. intros n3 _.
  apply pres_seq; [by apply pres_session_insert, session_info_typed|].
  apply pres_seq.
  { apply pres_for_each. intros p Hin. apply pres_pdr_insert, pdr_value_typed.
    by apply (proj1 (Forall_forall _ _) Hpdrs). }
  apply pres_seq.
  { apply pres_for_each. intros f Hin. apply pres_far_insert, far_value_typed.
    by apply (proj1 (Forall_forall _ _) Hfars). }
  apply pres_seq.
  { apply pres_for_each. intros u Hin. apply pres_seq; [apply pres_urr_insert|].
    apply pres_on_srv. intros s. apply srv_insert_cfg, urr_config_typed; [done|done|].
    by apply (proj1 (Forall_forall _ _) Hurrs). }
  assert (wf_data (mkSessionData ue teid (ohc_peer_addr gnb) (ser_cp_seid req))) as Hd.
  { destruct Hgnb as (_ & ? & _). by split_and!. }
  apply pres_seq.
  { apply pres_seq; apply pres_on_srv; intros s; [by apply srv_insert_session|].
    apply srv_alter_assoc. intros a. apply assoc_sessions_typed. intros m Hm cp d.
    rewrite lookup_insert_Some. intros [[<- <-]|[_ Hl]]; [done|by apply Hm]. }
  eapply pres_bind; [by apply (pres_get_srv any)|]. intros store _.
  apply pres_seq; [destruct store; [by apply pres_emit|by apply pres_ret]|].
  apply pres_seq; [apply pres_tui_sessions|]. apply pres_seq; [by apply pres_tui|].
  do 2 (apply pres_seq; [by apply pres_emit|]). apply pres_lift.
  by destruct (build_session_establishment_response _ _ _ _ _).
Qed.

Lemma update_far_typed seid ue f : far_typed f → pres any (update_far seid ue f).
Proof.
  intros (_ & _ & _ & Ho). unfold update_far.
  destruct (outer_header_creation f) as [o|]; [|by apply pres_ret]. destruct Ho as (Ht & Hg & _).
  cbv zeta. apply (pres_bind _ (λ v, match v with Some v => fv_typed v | None => True end)).
  { apply pres_gets. intros w (_ & Hm & _). destruct (bpf_get _ _) eqn:E; [|done]. by eapply ty_far. }
  intros fv Hfv. apply pres_seq.
  { destruct fv as [fv|]; [|by apply pres_ret]. apply pres_far_insert.
    destruct Hfv as (? & ? & _ & _ & ?). split; [done|]. split; [done|].
    split; [apply to_be32_typed|]. split; [apply to_be32_typed|done]. }
  destruct (bool_decide _); [|by apply pres_ret].
  apply (pres_bind _ (λ v, match v with Some v => info_typed v | None => True end)).
  { apply pres_gets. intros w (_ & Hm & _). destruct (bpf_get _ _) eqn:E; [|done]. by eapply ty_info. }
  intros info Hi. apply pres_seq.
  { destruct info as [i|]; [|by apply pres_ret]. apply pres_session_insert.
    destruct Hi as (? & _ & _ & ? & ? & ? & ?). split; [done|]. split; [apply to_be32_typed|].
    split; [apply to_be32_typed|]. by do 3 (split; [done|]). }
  apply pres_on_srv. intros s. apply srv_alter_session.
  intros d (? & _ & _ & ?). by split_and!.
Qed.

Lemma modification_typed h body src :
  bytes_ok body → pres any (handle_session_modification assoc_iter h body src).
Proof.
  intros Hb. unfold handle_session_modification.
  eapply pres_bind; [by apply pres_lift, ok_map_err, decode_session_modification_typed|].
  intros req [Hfars Hurrs].
  eapply pres_bind; [apply pres_require|]. intros seid _.
  eapply pres_bind; [by apply (pres_get_srv any)|]. intros data _.
  eapply pres_bind; [apply pres_require|]. intros d _. cbv zeta.
  eapply (pres_bind _ any); [apply pres_owning|]. intros _ _.
  apply pres_seq.
  { apply pres_for_each. intros f Hin. apply update_far_typed.
    by apply (proj1 (Forall_forall _ _) Hfars). }
  apply pres_seq.
  { apply pres_for_each. intros u Hin. apply pres_on_srv. intros s. apply srv_alter_cfg.
    intros c (? & ? & ? & _ & _ & _ & _ & ?).
    destruct (proj1 (Forall_forall _ _) Hurrs u Hin) as (? & ? & ? & ? & ?). by split_and!. }
  apply pres_lift. by destruct (build_session_modification_response _ _).
Qed.

Lemma delete_begin_typed h src :
  pres (λ f, match f.1 with Some d => wf_data d | None => True end) (delete_begin assoc_iter h src).
Proof.
  unfold delete_begin. cbv zeta.
  eapply pres_bind; [by apply (pres_get_srv any)|]. intros data _.
  eapply pres_bind; [apply pres_require|]. intros d _.
  eapply (pres_bind _ any); [apply pres_owning|]. intros node _.
  eapply (pres_bind _ (λ o, match o with Some d => wf_data d | None => True end)).
  { apply pres_get_srv. intros s Hs. destruct (sessions s !! _) eqn:E; [|done].
    by apply ty_sessions in E as [_ ?]. }
  intros data' Hd. apply pres_seq; [apply pres_on_srv; intros s; by apply srv_delete_session|].
  apply pres_seq.
  { apply pres_on_srv. intros s. apply srv_alter_assoc. intros a. apply assoc_sessions_typed.
    intros m Hm cp' d'. rewrite lookup_delete_Some. intros [_ Hl]. by apply Hm. }
  apply pres_seq; [apply pres_tui_sessions|]. apply pres_seq; [by apply pres_tui|].
  apply pres_seq; [by apply pres_emit|].
  eapply pres_bind; [by apply (pres_get_srv any)|]. intros store _. by apply pres_ret.
Qed.

Lemma delete_finish_typed h found :
  (∀ seid, hdr_seid h = Some seid → u64 seid) →
  match found.1 with Some d => wf_data d | None => True end →
  pres any (delete_finish h found).
Proof.
  intros Hh Hd. assert (u64 (default 0 (hdr_seid h))) as Hseid.
  { destruct (hdr_seid h) as [seid|]; [by apply Hh|]. apply zero_typed. }
  unfold delete_finish. cbv zeta. apply pres_seq.
  { destruct found.1 as [d|]; [|by apply pres_ret].
    apply pres_seq; [apply pres_delete_maps|]. apply pres_emit. by destruct Hd. }
  apply pres_seq; [destruct found.2; [by apply pres_emit|by apply pres_ret]|].
  apply pres_lift. by destruct (build_session_deletion_response _ _).
Qed.

Lemma message_typed data src :
  bytes_ok data → pres any (handle_message assoc_iter now data src).
Proof.
  intros Hb. unfold handle_message.
  apply (pres_bind _ (λ hb, bytes_ok hb.2 ∧ ∀ seid, hdr_seid hb.1 = Some seid → u64 seid)).
  { apply pres_lift. unfold decode_header. apply ok_map_err.
    destruct (decode data) as [[h body]| |] eqn:Ed; [|done..].
    by apply decode_widths in Ed as (Hbody & _ & Hseid). }
  intros [h body] [Hbody Hseid]. cbn [fst snd] in Hbody, Hseid. cbv zeta.
  destruct (_ =? _); [by apply heartbeat_typed|].
  destruct (_ =? _); [by apply association_typed|].
  destruct (_ =? _); [by apply establishment_handler_typed|].
  destruct (_ =? _); [by apply modification_typed|].
  destruct (_ =? _).
  { eapply pres_bind; [apply delete_begin_typed|]. intros found Hf. by apply delete_finish_typed. }
  destruct (_ =? _); [by apply pres_ret|].
  destruct (_ =? _); [by apply pres_ret|]. by apply pres_lift.
Qed.
(** C14. Type preservation: whatever octets arrive and whoever sends them, the
    server's tables (sessions, associations, usage configurations, counters),
    the values in [SESSION_MAP], [PDR_MAP] and [FAR_MAP] and what is handed to
    the store stay within the widths of their Rust types, an entry of
    [SESSION_MAP] always having eight PDR slots and a count of at most eight,
    which is what bounds the loops of the XDP programs. *)
Theorem handle_message_typed data src w :
  bytes_ok data → world_typed w → world_typed (handle_message assoc_iter now data src w).2.
Proof. intros Hb Hw. by apply message_typed. Qed.
End typed_handlers.
