(* ===== verification/Mirror.v ===== *)
(** * The stored copy of the sessions ([upf-edge/src/handle_msg.rs],
      [session_store.rs] and the restoration of [pfcp_server.rs])

    The handlers hand saves and deletions to the store (the [World]'s log); the
    store keeps them as a map; a restarted server loads that map.  This file
    composes the three: what the stored copy says about the server's sessions
    while messages are handled, and what a restart brings back. *)

From S2P Require Import Prelude Text Types Header Ie Builder Messages Dict Common Server.
From S2P Require Import SessionStore Handlers HandlersSpec Invariant Typing.

(** ** The store as a map *)

Definition apply_effect (m : gmap Z SessionData) (e : Effect) : gmap Z SessionData :=
  match e with
  | StoreSave seid data => <[seid := data]> m
  | StoreDelete seid => delete seid m
  | _ => m
  end.

Definition replay (m : gmap Z SessionData) (log : list Effect) : gmap Z SessionData :=
  foldl apply_effect m log.

(** The session an effect is about, for the store. *)
Definition store_key (e : Effect) : option Z :=
  match e with StoreSave seid _ | StoreDelete seid => Some seid | _ => None end.

Definition about (seid : Z) (log : list Effect) : list Effect :=
  List.filter (λ e, bool_decide (store_key e = Some seid)) log.

(** What a session keeps for its life: its UE address and its CP SEID. *)
Definition statics (m : gmap Z SessionData) : gmap Z (Z * Z) :=
  (λ d, (sd_ue_ip d, sd_cp_seid d)) <$> m.

(** The writes of a log carried out one after the other by the store's tasks. *)
Definition write_effect {R E} `{!Redis R E} (e : Effect) : st R E unit :=
  match e with
  | StoreSave seid data => save seid data
  | StoreDelete seid => delete_session seid
  | _ => mret ()
  end.

Definition write_log {R E} `{!Redis R E} (log : list Effect) : st R E unit :=
  for_each write_effect log.

(** The sessions the terminal was last sent. *)
Definition show_effect (m : gmap Z SessionData) (e : Effect) : gmap Z SessionData :=
  match e with Tui (CallSessionsUpdated m') => m' | _ => m end.

Definition shown (m : gmap Z SessionData) (log : list Effect) : gmap Z SessionData :=
  foldl show_effect m log.

(** A list of sessions reaches the terminal through [tui_sessions_updated] only. *)
Definition plain (e : Effect) : Prop :=
  match e with Tui (CallSend (SessionsUpdated _)) => False | _ => True end.

(** The two copies of the server's sessions, the store's and the terminal's,
    agree with them, for a server that has them, where they started as [m0] and
    [t0]. *)
Record mirrored {M P A : Type → Type} (store tx : bool) (m0 t0 : gmap Z SessionData)
    (w : @World M P A) : Prop := {
  mi_store : session_store (w_srv w) = store;
  mi_tx : tx_tui (w_srv w) = tx;
  mi_stored : store = true → statics (sessions (w_srv w)) = statics (replay m0 (w_log w));
  mi_shown : tx = true → statics (sessions (w_srv w)) = statics (shown t0 (w_log w));
  mi_plain : Forall plain (w_log w);
}.

(** ** Replaying *)

Lemma replay_app m l l' : replay m (l ++ l') = replay (replay m l) l'.
Proof. apply foldl_app. Qed.

Lemma shown_app m l l' : shown m (l ++ l') = shown (shown m l) l'.
Proof. apply foldl_app. Qed.

Lemma about_app seid l l' : about seid (l ++ l') = about seid l ++ about seid l'.
Proof. apply List.filter_app. Qed.

Lemma apply_other m e seid : store_key e ≠ Some seid → apply_effect m e !! seid = m !! seid.
Proof.
  destruct e as [k d|k| | | | |]; simpl; intros Hk; try done.
  - apply lookup_insert_ne. congruence.
  - apply lookup_delete_ne. congruence.
Qed.

Lemma apply_cong m m' e seid :
  m !! seid = m' !! seid → apply_effect m e !! seid = apply_effect m' e !! seid.
Proof.
  intros Hm. destruct e as [k d|k| | | | |]; simpl; try done.
  - destruct (decide (k = seid)) as [->|]; [by rewrite !lookup_insert_eq|by rewrite !lookup_insert_ne].
  - destruct (decide (k = seid)) as [->|]; [by rewrite !lookup_delete_eq|by rewrite !lookup_delete_ne].
Qed.

(** A session's entry depends only on the effects about it. *)
Lemma replay_about log m m' seid :
  m !! seid = m' !! seid → replay m log !! seid = replay m' (about seid log) !! seid.
Proof.
  revert m m'; induction log as [|e log IH]; intros m m' Hm; [done|].
  unfold about. cbn [List.filter replay foldl]. case_bool_decide as Hk.
  - apply IH. by apply apply_cong.
  - apply IH. by rewrite apply_other.
Qed.

Lemma statics_insert m seid d :
  statics (<[seid := d]> m) = <[seid := (sd_ue_ip d, sd_cp_seid d)]> (statics m).
Proof. unfold statics. by rewrite fmap_insert. Qed.

Lemma statics_delete m seid : statics (delete seid m) = delete seid (statics m).
Proof. unfold statics. by rewrite fmap_delete. Qed.

(** ** The handlers keep the stored copy in step *)

Section mirror.
Context {M P A : Type → Type}.
Context `{BpfMap M} `{PerCpuMap P} `{BpfArray A}.
Variable assoc_iter : gmap Z SmfAssociation → list (Z * SmfAssociation).
Variable now : Z.
Variables (store tx : bool) (m0 t0 : gmap Z SessionData).

Abbreviation World := (@World M P A).
Implicit Types w : World.

(** Steps that concern neither the sessions nor their copies. *)
Definition silent w w' : Prop :=
  session_store (w_srv w') = session_store (w_srv w) ∧ tx_tui (w_srv w') = tx_tui (w_srv w) ∧
  statics (sessions (w_srv w')) = statics (sessions (w_srv w)) ∧
  (∀ m, replay m (w_log w') = replay m (w_log w) ∧ shown m (w_log w') = shown m (w_log w)) ∧
  (Forall plain (w_log w) → Forall plain (w_log w')).

#[local] Instance silent_preorder : PreOrder silent.
Proof.
  split; [by intros w|]. intros w1 w2 w3 (A1 & B1 & C1 & D1 & E1) (A2 & B2 & C2 & D2 & E2).
  do 3 (split; [congruence|]). split; [|auto]. intros m. destruct (D1 m), (D2 m). split; congruence.
Qed.

Lemma silent_maps (f : Maps M P A → Maps M P A) :
  steps silent (modify (E:=HandlerError) (with_maps f)).
Proof. by intros w. Qed.

Lemma silent_emit e :
  (∀ m, apply_effect m e = m) → (∀ m, show_effect m e = m) → plain e →
  steps silent (emit (M:=M) (P:=P) (A:=A) e).
Proof.
  intros Ha Hs Hp w. do 3 (split; [done|]). split; cbn.
  - intros m. rewrite replay_app, shown_app. split; [apply Ha|apply Hs].
  - intros Hw. apply Forall_app_2; [done|by constructor].
Qed.

Lemma silent_tui call :
  (∀ m, show_effect m (Tui call) = m) → plain (Tui call) → steps silent (tui (M:=M) (P:=P) (A:=A) call).
Proof.
  intros Hs Hp w. rewrite tui_eq. do 3 (split; [done|]). unfold tui_part. cbn [snd w_srv w_log].
  destruct (tx_tui _); [|by rewrite app_nil_r]. split.
  - intros m. rewrite replay_app, shown_app. split; [done|apply Hs].
  - intros Hw. apply Forall_app_2; [done|by constructor].
Qed.

Lemma silent_srv f :
  (∀ s, session_store (f s) = session_store s ∧ tx_tui (f s) = tx_tui s ∧
        statics (sessions (f s)) = statics (sessions s)) →
  steps silent (on_srv (M:=M) (P:=P) (A:=A) f).
Proof. intros Hf w. destruct (Hf (w_srv w)) as (? & ? & ?). by split_and!. Qed.

Lemma silent_alloc {T} (f : PfcpServer → T * PfcpServer) :
  (∀ s, session_store (f s).2 = session_store s ∧ tx_tui (f s).2 = tx_tui s ∧
        sessions (f s).2 = sessions s) →
  steps silent (alloc (M:=M) (P:=P) (A:=A) f).
Proof.
  intros Hf w. destruct (Hf (w_srv w)) as (? & ? & E). do 2 (split; [done|]).
  split; [cbn; by rewrite E|done].
Qed.

Lemma silent_inserts :
  (∀ k v, steps silent (session_insert (M:=M) (P:=P) (A:=A) k v)) ∧
  (∀ k v, steps silent (pdr_insert (M:=M) (P:=P) (A:=A) k v)) ∧
  (∀ k v, steps silent (far_insert (M:=M) (P:=P) (A:=A) k v)) ∧
  (∀ k, steps silent (urr_insert_zeros (M:=M) (P:=P) (A:=A) k)).
Proof.
  unfold session_insert, pdr_insert, far_insert, urr_insert_zeros.
  split_and!; intros; intros w; by case_match.
Qed.

Lemma silent_set_data seid f :
  (∀ d, sd_ue_ip (f d) = sd_ue_ip d ∧ sd_cp_seid (f d) = sd_cp_seid d) →
  steps silent (on_srv (M:=M) (P:=P) (A:=A) (set_sessions (alter f seid))).
Proof.
  intros Hf. apply silent_srv. intros s. do 2 (split; [done|]). cbn. unfold statics.
  apply map_eq. intros k. rewrite !lookup_fmap.
  destruct (decide (seid = k)) as [->|]; [rewrite lookup_alter_eq|by rewrite lookup_alter_ne].
  destruct (sessions s !! k) as [d|]; [|done]. cbn. by destruct (Hf d) as [-> ->].
Qed.

Abbreviation pres := (preserves (E:=HandlerError) (mirrored store tx m0 t0)).
Abbreviation any := (λ _, True).

Lemma pres_silent {T} (m : st World HandlerError T) : steps silent m → pres any m.
Proof.
  intros Hm. apply pres_any. intros w []. destruct (Hm w) as (E1 & E2 & E3 & E4 & E5').
  destruct (E4 m0) as [E5 _], (E4 t0) as [_ E6]. split; rewrite ?E1, ?E2, ?E3, ?E5, ?E6; auto.
Qed.

Lemma silent_owning src cp : steps silent (owning_node (M:=M) (P:=P) (A:=A) assoc_iter src cp).
Proof. intros w. by rewrite owning_node_eq. Qed.

(** A session is registered, saved and shown together. *)
Lemma pres_register {T} node seid data (k : st World HandlerError T) :
  pres any k →
  pres any (register_session node seid data;;
            store ← get_srv session_store;
            (if store : bool then emit (StoreSave seid data) else mret ());; tui_sessions;; k).
Proof.
  intros Hk w [Hs Htx Hst Hsh Hp]. set (sv := set_associations
    (alter (set_as_sessions (insert (sd_cp_seid data) data)) node)
    (set_sessions (insert seid data) (w_srv w))).
  set (w' := mkWorld sv (w_maps w) ((w_log w ++ if store then [StoreSave seid data] else [])
    ++ tui_part sv [CallSessionsUpdated (sessions sv)])).
  match goal with |- mirrored _ _ m0 t0 (?p w).2 ∧ _ => assert (p w = k w') as -> end.
  { destruct w as [s mp lg]. cbn in Hs. unfold register_session, tui_sessions, get_srv.
    rewrite !st_bind_eq. cbn [on_srv modify]. rewrite !st_bind_eq. cbn [gets w_srv with_srv session_store
      set_associations set_sessions]. rewrite st_bind_eq. rewrite Hs.
    destruct store; cbn [emit modify mret st_ret]; rewrite !st_bind_eq; cbn [gets]; rewrite tui_eq;
      cbv beta iota; unfold w'; rewrite ?app_nil_r; reflexivity. }
  apply Hk. split; [done..| | |]; cbn [w_srv w_log w']; rewrite ?replay_app, ?shown_app.
  - intros E. specialize (Hst E). rewrite E. unfold tui_part.
    transitivity (statics (<[seid := data]> (replay m0 (w_log w)))); [|by destruct (tx_tui sv)].
    change (sessions sv) with (<[seid := data]> (sessions (w_srv w))). by rewrite !statics_insert, Hst.
  - intros E. assert (tx_tui sv = true) as E' by (by rewrite <-E, <-Htx).
    unfold tui_part. by rewrite E'.
  - repeat apply Forall_app_2; [done|by destruct store; repeat constructor|].
    unfold tui_part. by destruct (tx_tui sv); repeat constructor.
Qed.
End mirror.

Section mirror_handlers.
Context {M P A : Type → Type}.
Context `{BpfMapLaws M} `{PerCpuMapLaws P} `{BpfArray A}.
Variable assoc_iter : gmap Z SmfAssociation → list (Z * SmfAssociation).
Variable now : Z.
Variables (store tx : bool) (m0 t0 : gmap Z SessionData).

Abbreviation World := (@World M P A).
Implicit Types w : World.
Abbreviation pres := (preserves (E:=HandlerError) (mirrored (M:=M) (P:=P) (A:=A) store tx m0 t0)).
Abbreviation any := (λ _, True).

#[local] Existing Instance silent_preorder.
#[local] Hint Resolve silent_maps silent_owning : stateful.

Ltac silent_step :=
  first
    [ apply silent_inserts
    | apply silent_owning
    | apply silent_tui; done
    | apply silent_emit; done
    | apply silent_alloc; by intros []
    | apply silent_set_data; by intros []
    | apply silent_srv; by intros [] ].
Ltac silent := stroll; silent_step.

(** A program that does something for the sessions only if it succeeds. *)
Definition unless_ok {T} (m : st World HandlerError T) : Prop :=
  ∀ w, (∃ a, (m w).1 = Ok a) ∨ silent w (m w).2.

Lemma unless_bind {T U} (m : st World HandlerError T) (k : T → st World HandlerError U) :
  steps silent m → (∀ a, unless_ok (k a)) → unless_ok (m ≫= k).
Proof.
  intros Hm Hk w. rewrite st_bind_eq. pose proof (Hm w) as Hw.
  destruct (m w) as [[a|e|] w1]; cbn [fst snd] in *; [|by right..].
  destruct (Hk a w1) as [?|Hs]; [by left|right]. by transitivity w1.
Qed.

(** From the registration of the session on, an establishment cannot fail. *)
Lemma unless_registered node seid data ue header cp n3 created :
  unless_ok
    (register_session (M:=M) (P:=P) (A:=A) node seid data;;
     store ← get_srv session_store;
     (if store : bool then emit (StoreSave seid data) else mret ());; tui_sessions;;
     tui (CallLog (session_added_line ue seid));; emit GaugeInc;; emit (RouteSetup ue);;
     lift (build_session_establishment_response (hdr_seq_num header) cp seid n3 created)).
Proof.
  intros w. left.
  destruct (build_session_establishment_response (E:=HandlerError) (hdr_seq_num header) cp seid n3
    created) as [rsp|e|] eqn:Eb.
  2,3: exfalso; revert Eb; unfold build_session_establishment_response, add_fseid, add_cause,
    add_node_id_v4; cbv zeta; by rewrite msg_new_body, !add_ie_body, foldl_created_pdr, finish_encode.
  exists rsp. unfold register_session, tui_sessions, get_srv.
  repeat first [ rewrite tui_eq | rewrite st_bind_eq
    | match goal with |- context [if ?b then emit _ else _] => destruct b end
    | progress cbn [on_srv modify gets w_srv with_srv emit mret st_ret lift fst snd] ];
    done.
Qed.

Lemma establishment_unless_ok h body src :
  unless_ok (handle_session_establishment assoc_iter now h body src).
Proof.
  unfold handle_session_establishment. cbv zeta.
  apply unless_bind; [silent|]. intros req.
  apply unless_bind; [unfold sender_node; silent|]. intros [k assoc].
  apply unless_bind; [silent|]. intros seid.
  apply unless_bind; [silent|]. intros teid.
  do 3 (apply unless_bind; [unfold require; silent|]; intros ?).
  apply unless_bind; [silent|]. intros _.
  apply unless_bind; [unfold install_pdr; silent|]. intros _.
  apply unless_bind; [unfold install_far; silent|]. intros _.
  apply unless_bind; [unfold install_urr; silent|]. intros _.
  apply unless_registered.
Qed.

Lemma heartbeat_mirrored h body src : pres any (handle_heartbeat assoc_iter now h body src).
Proof. apply pres_silent. unfold handle_heartbeat. silent. Qed.

Lemma association_mirrored h body src : pres any (handle_session_association now h body src).
Proof. apply pres_silent. unfold handle_session_association. silent. Qed.

Lemma modification_mirrored h body src :
  pres any (handle_session_modification assoc_iter h body src).
Proof.
  apply pres_silent. unfold handle_session_modification, update_far, update_urr. silent.
Qed.

Lemma establishment_mirrored h body src :
  pres any (handle_session_establishment assoc_iter now h body src).
Proof.
  unfold handle_session_establishment. cbv zeta.
  eapply (pres_bind _ any); [apply pres_silent; silent|]. intros req _.
  eapply (pres_bind _ any); [apply pres_silent; unfold sender_node; silent|]. intros [k assoc] _.
  eapply (pres_bind _ any); [apply pres_silent; silent|]. intros seid _.
  eapply (pres_bind _ any); [apply pres_silent; silent|]. intros teid _.
  do 3 (eapply (pres_bind _ any); [apply pres_silent; unfold require; silent|]; intros ? _).
  apply pres_seq; [apply pres_silent; silent|].
  apply pres_seq; [apply pres_silent; unfold install_pdr; silent|].
  apply pres_seq; [apply pres_silent; unfold install_far; silent|].
  apply pres_seq; [apply pres_silent; unfold install_urr; silent|].
  apply pres_register. apply pres_silent. silent.
Qed.

Lemma deletion_mirrored h src : pres any (handle_session_deletion assoc_iter h src).
Proof.
  apply pres_any. intros w Hw. rewrite deletion_eq. cbv zeta.
  destruct (authorise _ _ _ _) as [[node d]|e|]; cbn [snd]; [|done..].
  destruct Hw as [Hs Ht Hm Hv Hp]. split; cbn [w_srv w_log deleted_srv session_store tx_tui sessions
    set_associations set_sessions]; [done..| | |]; [intros E|intros E|]; unfold deleted_log, tui_part.
  - rewrite Hs, E, !replay_app, statics_delete, Hm by done. destruct (tx_tui _); cbn; by rewrite statics_delete.
  - rewrite Ht, E, !shown_app. by destruct (session_store _).
  - apply Forall_app_2; [done|]. destruct (tx_tui _), (session_store _); by repeat constructor.
Qed.

Lemma message_mirrored data src : pres any (handle_message assoc_iter now data src).
Proof.
  unfold handle_message. eapply (pres_bind _ any); [by apply pres_silent; silent|].
  intros [h body] _. cbv zeta.
  destruct (_ =? _); [apply heartbeat_mirrored|].
  destruct (_ =? _); [apply association_mirrored|].
  destruct (_ =? _); [apply establishment_mirrored|].
  destruct (_ =? _); [apply modification_mirrored|].
  destruct (_ =? _); [apply deletion_mirrored|].
  destruct (_ =? _); [by apply pres_ret|].
  destruct (_ =? _); [by apply pres_ret|]. by apply pres_silent; silent.
Qed.

(** What a datagram does to the record of the sessions as they were
    established: an establishment that is answered adds the session it made,
    as the server has it then; a deletion that is answered takes its session
    out; nothing else counts. *)
Definition establish_step (data : list Z) w (r : outcome HandlerError (list Z) * World)
    (m : gmap Z SessionData) : gmap Z SessionData :=
  match decode data, r.1 with
  | Ok (h, _), Ok _ =>
      if hdr_msg_type h =? PFCP_SESSION_ESTABLISHMENT_REQ then
        partial_alter (λ _, sessions (w_srv r.2) !! next_seid (w_srv w)) (next_seid (w_srv w)) m
      else if hdr_msg_type h =? PFCP_SESSION_DELETION_REQ then delete (default 0 (hdr_seid h)) m
      else m
  | _, _ => m
  end.

Lemma replay_tui m s calls : replay m (tui_part s calls) = m.
Proof. unfold tui_part. destruct (tx_tui s); [|done]. by induction calls. Qed.

Lemma message_replay data src w m :
  session_store (w_srv w) = true →
  replay m (w_log (handle_message assoc_iter now data src w).2) =
  establish_step data w (handle_message assoc_iter now data src w) (replay m (w_log w)).
Proof.
  intros Hst. unfold handle_message, establish_step, decode_header. rewrite st_bind_eq.
  destruct (decode data) as [[h body]|e|]; [|done..]. cbn [map_err lift]. cbv zeta.
  assert (∀ k : st World HandlerError (list Z), steps silent k → replay m (w_log (k w).2) = replay m (w_log w)) as Hsil
    by (intros k Hk; apply (Hk w)).
  destruct (Z.eqb_spec (hdr_msg_type h) PFCP_HEARTBEAT_REQ) as [->|_].
  { rewrite Hsil by (unfold handle_heartbeat; silent). by destruct (handle_heartbeat _ _ _ _ _ _) as [[]]. }
  destruct (Z.eqb_spec (hdr_msg_type h) PFCP_ASSOCIATION_SETUP_REQ) as [->|_].
  { rewrite Hsil by (unfold handle_session_association; silent).
    by destruct (handle_session_association _ _ _ _ _) as [[]]. }
  destruct (Z.eqb_spec (hdr_msg_type h) PFCP_SESSION_ESTABLISHMENT_REQ) as [_|Hne].
  { pose proof (establishment_unless_ok h body src w) as Hu.
    destruct (handle_session_establishment _ _ _ _ _ w) as [[rsp|e|] w'] eqn:Er; cbn [fst snd] in *.
    - apply establishment_ok in Er as (req & k & a & ue & ohc & _ & _ & _ & _ & _ & Hr).
      cbv zeta in Hr. destruct Hr as (_ & -> & -> & _). unfold established_log.
      rewrite Hst, !replay_app, replay_tui. cbn. by rewrite lookup_insert_eq.
    - destruct Hu as [[? ?]|Hu]; [done|]. apply (Hu : silent _ _).
    - destruct Hu as [[? ?]|Hu]; [done|]. apply (Hu : silent _ _). }
  destruct (Z.eqb_spec (hdr_msg_type h) PFCP_SESSION_MODIFICATION_REQ) as [->|_].
  { rewrite Hsil by (unfold handle_session_modification, update_far, update_urr; silent).
    by destruct (handle_session_modification _ _ _ _ _) as [[]]. }
  destruct (Z.eqb_spec (hdr_msg_type h) PFCP_SESSION_DELETION_REQ) as [_|Hnd].
  { rewrite deletion_eq. cbv zeta. destruct (authorise _ _ _ _) as [[node d]|e|]; [|done..].
    unfold build_session_deletion_response, add_cause. cbv zeta.
    rewrite msg_new_body, add_ie_body, finish_encode. cbn [fst snd w_log].
    unfold deleted_log. by rewrite Hst, !replay_app, replay_tui. }
  destruct (_ =? _); [done|]. by destruct (_ =? _).
Qed.
End mirror_handlers.

(** ** The store's tasks *)

Section writes.
Context {R E : Type} `{RedisLaws R E}.

Lemma write_log_represents log m r r' :
  represents (contents r) m → Forall effect_typed log →
  write_log log r = (Ok (), r') → represents (contents r') (replay m log).
Proof.
  intros Hr Hl. revert m r Hr; induction Hl as [|e log He Hl IH]; intros m r Hr Hw.
  { by injection Hw as <-. }
  apply st_bind_ok in Hw as ([] & r1 & H1 & Hw). apply (IH _ r1); [|exact Hw].
  destruct e as [seid d|seid|ue|ue| | |]; cbn [apply_effect];
    [|by eapply delete_represents|by injection H1 as <-..].
  destruct He. by eapply save_represents.
Qed.
End writes.

(** ** Restoration *)

Lemma restore_fields l s :
  associations (restore_sessions l s) = associations s ∧
  next_seid (restore_sessions l s) = next_seid s ∧
  session_store (restore_sessions l s) = session_store s.
Proof.
  revert s; induction l as [|[k d] l IH]; intros s; [done|].
  by destruct (IH (set_sessions (insert k d) s)) as (? & ? & ?).
Qed.

Lemma restore_lookup l s k :
  k ∉ l.*1 → sessions (restore_sessions l s) !! k = sessions s !! k.
Proof.
  revert s; induction l as [|[j d] l IH]; intros s Hk; [done|].
  cbn in Hk. apply not_elem_of_cons in Hk as [Hj Hk].
  unfold restore_sessions in *. cbn [foldl]. rewrite IH by done. cbn. by rewrite lookup_insert_ne.
Qed.

Lemma restore_elem l s k d :
  NoDup l.*1 → (k, d) ∈ l → sessions (restore_sessions l s) !! k = Some d.
Proof.
  revert s; induction l as [|[j x] l IH]; intros s Hn Hin; [by apply not_elem_of_nil in Hin|].
  cbn in Hn. apply NoDup_cons in Hn as [Hj Hn].
  apply elem_of_cons in Hin as [[= -> ->]|Hin].
  - unfold restore_sessions. cbn [foldl]. fold (restore_sessions l (set_sessions (insert j x) s)).
    rewrite restore_lookup by done. cbn. apply lookup_insert_eq.
  - unfold restore_sessions. cbn [foldl]. by apply IH.
Qed.

(** A server that starts from what the store loaded has the stored sessions. *)
Lemma restored_sessions l m s :
  sessions s = ∅ → l ≡ₚ map_to_list m → sessions (restore_sessions l s) = m.
Proof.
  intros Hs Hl. assert (NoDup l.*1) as Hn.
  { rewrite Hl. apply NoDup_fst_map_to_list. }
  apply map_eq. intros k. destruct (m !! k) as [d|] eqn:Ek.
  - apply restore_elem; [done|]. rewrite Hl. by apply elem_of_map_to_list.
  - rewrite restore_lookup, Hs; [apply lookup_empty|]. rewrite Hl.
    intros ([k' d] & -> & Hin)%list_elem_of_fmap. apply elem_of_map_to_list in Hin.
    cbn in Ek. by rewrite Ek in Hin.
Qed.

(** ** Runs of the server *)

(** Datagrams handled one after the other, each at its own time. *)
Definition Datagram : Type := Z * list Z * SocketAddr.

Section runs.
Context {M P A : Type → Type}.
Context `{BpfMapLaws M} `{PerCpuMapLaws P} `{BpfArray A}.
Variable assoc_iter : gmap Z SmfAssociation → list (Z * SmfAssociation).
Hypothesis assoc_iter_perm : ∀ m, assoc_iter m ≡ₚ map_to_list m.

Abbreviation World := (@World M P A).
Implicit Types w : World.

Fixpoint handle_all (ds : list Datagram) w : World :=
  match ds with
  | [] => w
  | (now, data, src) :: ds => handle_all ds (handle_message assoc_iter now data src w).2
  end.

(** The sessions as they were established, over a run. *)
Fixpoint as_established (ds : list Datagram) w (m : gmap Z SessionData) : gmap Z SessionData :=
  match ds with
  | [] => m
  | (now, data, src) :: ds =>
      let r := handle_message assoc_iter now data src w in
      as_established ds r.2 (establish_step data w r m)
  end.

Lemma run_replay tx m0 t0 ds w m :
  mirrored true tx m0 t0 w →
  replay m (w_log (handle_all ds w)) = as_established ds w (replay m (w_log w)).
Proof.
  revert w. induction ds as [|[[now data] src] ds IH]; intros w Hw; [done|].
  cbn [handle_all as_established].
  rewrite IH, message_replay by (try apply message_mirrored; by try apply Hw). done.
Qed.

Lemma handle_all_keeps (I : World → Prop) (ok : Datagram → Prop) ds w :
  (∀ now data src w, ok (now, data, src) → I w → I (handle_message assoc_iter now data src w).2) →
  Forall ok ds → I w → I (handle_all ds w).
Proof.
  intros Hk Hd. revert w; induction Hd as [|[[now data] src] ds Hok _ IH]; intros w Hw; [done|].
  by apply IH, Hk.
Qed.

(** The server as [main] and [run] set it up: a store is configured and the
    sessions are those it loaded. *)
Definition started (m0 : gmap Z SessionData) w : Prop :=
  session_store (w_srv w) = true ∧ w_log w = [] ∧ sessions (w_srv w) = m0.

Context {R E : Type} `{RedisLaws R E}.

(** C19. A restart recovers the sessions: let a server start from the store's
    sessions and handle any datagrams, let the store carry out every write
    the server handed to it, in that order, and let a new server load the
    store.  Then the new server has exactly the sessions the old one had, under
    the same SEIDs, with the same UE addresses and CP SEIDs; and each of them
    is, field for field, TEID and gNB included, what the old server had
    recorded when it answered the session's establishment ([as_established]:
    or what it had started from), because a modification is never saved; and
    the store again holds the new server's sessions. *)
Theorem restart_recovers m0 w ds r0 r1 r2 l unix now n4 n3 :
  represents (contents r0) m0 → started m0 w → world_typed w →
  Forall (λ d : Datagram, bytes_ok d.1.2) ds →
  let w' := handle_all ds w in
  write_log (w_log w') r0 = (Ok (), r1) → load_all r1 = (Ok l, r2) →
  let s := restore_sessions l (set_session_store (PfcpServer_new unix now n4 n3)) in
  sessions s = as_established ds w m0 ∧
  statics (sessions s) = statics (sessions (w_srv w')) ∧
  represents (contents r2) (sessions s) ∧ session_store s = true.
Proof.
  intros Hr (Hst & Hlog & Hs) Ht Hd w' Hw Hl s.
  assert (mirrored true (tx_tui (w_srv w)) m0 m0 w) as Hm0
    by (by split; try (intros _); rewrite ?Hlog, ?Hs).
  assert (mirrored true (tx_tui (w_srv w)) m0 m0 w') as [_ _ Hm _ _].
  { apply (handle_all_keeps _ (λ _, True)); [|by apply Forall_true|done].
    intros. by apply message_mirrored. }
  specialize (Hm eq_refl).
  assert (world_typed w') as (_ & _ & Hlt).
  { apply (handle_all_keeps _ (λ d, bytes_ok d.1.2)); [|done|done].
    intros. by apply message_typed. }
  apply (write_log_represents _ m0) in Hw; [|done|done].
  apply (load_represents _ _ _ _ Hw) in Hl as [Hc Hl].
  assert (sessions s = replay m0 (w_log w')) as Es by by apply restored_sessions.
  rewrite Es. split; [unfold w'; by rewrite (run_replay _ _ _ _ _ _ Hm0), Hlog|].
  split; [done|]. split; [by rewrite Hc|]. apply (restore_fields l).
Qed.
End runs.

(** ** Restored sessions have no owner *)

Definition is_establishment (data : list Z) : bool :=
  match decode data with
  | Ok (h, _) => hdr_msg_type h =? PFCP_SESSION_ESTABLISHMENT_REQ
  | _ => false
  end.

Section unowned.
Context {M P A : Type → Type}.
Context `{BpfMapLaws M} `{PerCpuMapLaws P} `{BpfArray A}.
Variable assoc_iter : gmap Z SmfAssociation → list (Z * SmfAssociation).
Hypothesis assoc_iter_perm : ∀ m, assoc_iter m ≡ₚ map_to_list m.

Abbreviation World := (@World M P A).
Implicit Types w : World.

(** No association owns a session; the sessions, the next SEID and the maps are
    those given. *)
Definition unowned (m : gmap Z SessionData) (seid : Z) (mp : Maps M P A) w : Prop :=
  (∀ k a, associations (w_srv w) !! k = Some a → as_sessions a = ∅) ∧
  sessions (w_srv w) = m ∧ next_seid (w_srv w) = seid ∧ w_maps w = mp.

Context (m : gmap Z SessionData) (seid : Z) (mp : Maps M P A).
Abbreviation pres := (preserves (E:=HandlerError) (unowned m seid mp)).
Abbreviation any := (λ _, True).

Lemma unowned_find w src k a :
  unowned m seid mp w → find_assoc assoc_iter (w_srv w) src = Some (k, a) → as_sessions a = ∅.
Proof using assoc_iter_perm.
  intros (Ha & _) Hf. apply (find_assoc_Some assoc_iter assoc_iter_perm) in Hf as [Hk _]. by apply (Ha k).
Qed.

Lemma unowned_insert k a :
  as_sessions a = ∅ → pres any (on_srv (set_associations (insert k a))).
Proof.
  intros He. apply pres_modify. intros w (Ha & Hs & Hn & Hm). split; [|done]. cbn.
  intros k' a'. rewrite lookup_insert_Some. intros [[<- <-]|[_ Hl]]; [done|by apply (Ha k')].
Qed.

(** The owner check fails for every sender and session. *)
Lemma unowned_refused src cp : pres (λ _, False) (owning_node assoc_iter src cp).
Proof using assoc_iter_perm.
  intros w Hw. rewrite owning_node_eq. cbn [fst snd]. split; [done|].
  destruct (sa_ip src); [|done]. destruct (find_assoc _ _ _) as [[k a]|] eqn:Ef; [|done].
  apply (unowned_find w) in Ef as ->; [|done]. done.
Qed.

Lemma unowned_get {T} (f : PfcpServer → T) : pres any (get_srv f).
Proof. by apply pres_gets. Qed.

Lemma unowned_tui call : pres any (tui call).
Proof. apply pres_any. intros w Hw. by rewrite tui_eq. Qed.

Lemma heartbeat_unowned now h body src : pres any (handle_heartbeat assoc_iter now h body src).
Proof using assoc_iter_perm.
  unfold handle_heartbeat. eapply (pres_bind _ any); [apply pres_lift; by destruct (map_err _ _)|].
  intros req _. apply pres_seq.
  - destruct (sa_ip src); [|by apply pres_ret].
    apply (pres_bind _ (λ o, match o with Some (k, a) => as_sessions a = ∅ | None => True end)).
    { apply pres_gets. intros w Hw. destruct (find_assoc _ _ _) as [[k a]|] eqn:Ef; [|done].
      by apply (unowned_find w src k). }
    intros [[k a]|] Ha; [|by apply pres_ret]. destruct (hbr_recovery_ts req); [|by apply pres_ret].
    apply unowned_insert. unfold heartbeat_assoc. cbv zeta. by destruct (negb _).
  - do 2 (apply pres_seq; [apply unowned_tui|]).
    eapply (pres_bind _ any); [apply unowned_get|]. intros ts _. apply pres_lift.
    by destruct (build_heartbeat_response _ _).
Qed.

Lemma association_unowned now h body src : pres any (handle_session_association now h body src).
Proof.
  unfold handle_session_association.
  eapply (pres_bind _ any); [apply pres_lift; by destruct (map_err _ _)|]. intros req _. cbv zeta.
  do 3 (eapply (pres_bind _ any); [apply unowned_get|]; intros ? _).
  case_match; [apply pres_lift; by destruct (build_association_setup_response _ _ _)|].
  apply pres_seq; [by apply unowned_insert|]. do 2 (apply pres_seq; [apply unowned_tui|]).
  apply pres_seq; [by apply pres_modify; intros w [? ?]|]. apply pres_lift.
  by destruct (build_association_setup_response _ _ _).
Qed.

Lemma modification_unowned h body src :
  pres any (handle_session_modification assoc_iter h body src).
Proof using assoc_iter_perm.
  unfold handle_session_modification.
  eapply (pres_bind _ any); [apply pres_lift; by destruct (map_err _ _)|]. intros req _.
  eapply (pres_bind _ any); [apply pres_lift; by destruct (ok_or _ _)|]. intros k _.
  eapply (pres_bind _ any); [apply unowned_get|]. intros data _.
  eapply (pres_bind _ any); [apply pres_lift; by destruct (ok_or _ _)|]. intros d _. cbv zeta.
  eapply pres_bind; [apply unowned_refused|]. by intros ? [].
Qed.

Lemma deletion_unowned h src : pres any (handle_session_deletion assoc_iter h src).
Proof using assoc_iter_perm.
  unfold handle_session_deletion. eapply (pres_bind _ (λ _, False)); [|by intros ? []].
  unfold delete_begin. cbv zeta.
  eapply (pres_bind _ any); [apply unowned_get|]. intros data _.
  eapply (pres_bind _ any); [apply pres_lift; by destruct (ok_or _ _)|]. intros d _.
  eapply pres_bind; [apply unowned_refused|]. by intros ? [].
Qed.

Lemma message_unowned now data src :
  is_establishment data = false → pres any (handle_message assoc_iter now data src).
Proof using assoc_iter_perm.
  intros He. unfold handle_message.
  apply (pres_bind _ (λ hb, (hdr_msg_type hb.1 =? PFCP_SESSION_ESTABLISHMENT_REQ) = false)).
  { apply pres_lift. unfold decode_header, is_establishment in *. by destruct (decode data) as [[h b]| |]. }
  intros [h body] Hh. cbn [fst] in Hh. cbv zeta.
  rewrite Hh. clear Hh. destruct (_ =? _); [apply heartbeat_unowned|].
  destruct (_ =? _); [apply association_unowned|].
  destruct (_ =? _); [apply modification_unowned|].
  destruct (_ =? _); [apply deletion_unowned|].
  destruct (_ =? _); [by apply pres_ret|].
  destruct (_ =? _); [by apply pres_ret|]. by apply pres_lift.
Qed.
End unowned.

Section restarted.
Context {M P A : Type → Type}.
Context `{BpfMapLaws M} `{PerCpuMapLaws P} `{BpfArray A}.
Variable assoc_iter : gmap Z SmfAssociation → list (Z * SmfAssociation).
Hypothesis assoc_iter_perm : ∀ m, assoc_iter m ≡ₚ map_to_list m.
Implicit Types w : @World M P A.

(** A restarted server cannot be told to change or delete what it
    restored: whatever datagrams other than Session Establishment Requests
    arrive, including association set-ups and heartbeats of the SMFs the
    sessions came from, every restored session is still recorded unchanged,
    the eBPF maps are untouched (so it is not forwarded either), and no sender
    is authorised for any session; and the next SEID to be given out is 1, the
    number of the first session that was restored. *)
Theorem restored_sessions_unowned l unix now n4 n3 w ds :
  w_srv w = restore_sessions l (set_session_store (PfcpServer_new unix now n4 n3)) →
  Forall (λ d : Datagram, is_establishment d.1.2 = false) ds →
  let w' := handle_all assoc_iter ds w in
  sessions (w_srv w') = sessions (w_srv w) ∧ w_maps w' = w_maps w ∧
  (∀ src seid, ∃ e, authorise assoc_iter (w_srv w') src seid = Err e) ∧
  (alloc_seid (w_srv w')).1 = 1.
Proof.
  intros Hw Hd w'.
  assert (unowned (sessions (w_srv w)) 1 (w_maps w) w') as Hu.
  { apply (handle_all_keeps _ _ (λ d, is_establishment d.1.2 = false)); [|done|].
    - intros now' data src w1 He Hi. by apply message_unowned.
    - destruct (restore_fields l (set_session_store (PfcpServer_new unix now n4 n3))) as (Ha & Hn & _).
      split; [|split; [done|split; [by rewrite Hw, Hn|done]]].
      intros k a. rewrite Hw, Ha. cbn. by rewrite lookup_empty. }
  pose proof Hu as (_ & -> & Hn & ->). split; [done|]. split; [done|]. split; [|done].
  intros src seid. unfold authorise. destruct (sessions _ !! _) as [d|]; [|by eexists].
  destruct (sa_ip src); [|by eexists].
  destruct (find_assoc _ _ _) as [[k a]|] eqn:Ef; [|by eexists].
  apply (unowned_find assoc_iter assoc_iter_perm _ _ _ _ _ _ _ Hu) in Ef as ->.
  assert (has_key (∅ : gmap Z SessionData) (sd_cp_seid d) = false) as ->; [|by eexists].
  apply bool_decide_eq_false_2. rewrite lookup_empty. by intros [].
Qed.
End restarted.

(** The order of the spawned writes matters only within a session: when the
    store's tasks carry a log out in any order that keeps, for each SEID, the
    order of its saves and deletions, the store ends up as if they had run in
    the server's order.  Without that, which the code does not ensure, it does
    not: a deletion that overtakes the save of its session leaves the session
    stored. *)
Theorem store_order {R E} `{RedisLaws R E} m log log' r r' :
  represents (contents r) m → Forall effect_typed log' →
  (∀ seid, about seid log' = about seid log) →
  write_log log' r = (Ok (), r') →
  represents (contents r') (replay m log) ∧
  ∀ seid data, replay m [StoreSave seid data; StoreDelete seid] !! seid = None ∧
    replay m [StoreDelete seid; StoreSave seid data] !! seid = Some data.
Proof.
  intros Hr Ht Ho Hw. split.
  - apply (write_log_represents _ m) in Hw; [|done|done].
    replace (replay m log) with (replay m log'); [done|].
    apply map_eq. intros seid.
    rewrite (replay_about log' m m seid eq_refl), (replay_about log m m seid eq_refl). by rewrite Ho.
  - intros seid data. cbn. by rewrite lookup_delete_eq, lookup_insert_eq.
Qed.

Lemma store_order_witness :
  represents (write_log (E:=unit) [StoreSave 2 sample_data; StoreSave 1 sample_data; StoreDelete 1]
    (∅ : gmap str (gmap str str))).2 {[ 2 := sample_data ]}.
Proof.
  assert (u64 1 ∧ u64 2 ∧ wf_data sample_data) as (H1 & H2 & Hd).
  { split_and!; by vm_compute. }
  refine (proj1 (store_order (R:=gmap str (gmap str str)) (E:=unit) ∅
    [StoreSave 1 sample_data; StoreDelete 1; StoreSave 2 sample_data]
    [StoreSave 2 sample_data; StoreSave 1 sample_data; StoreDelete 1] ∅ _ represents_empty _ _ _)).
  - by repeat constructor.
  - intros seid. unfold about. cbn [List.filter store_key].
    destruct (decide (seid = 1)) as [->|]; [reflexivity|].
    destruct (decide (seid = 2)) as [->|]; [reflexivity|].
    by rewrite !bool_decide_eq_false_2 by congruence.
  - vm_compute. reflexivity.
Defined.
