(* ===== verification/Feed.v ===== *)
(** * The server feeding its terminal ([upf-edge/src/main.rs] with [--tui],
      [pfcp_server.rs], [tui/runner.rs])

    The channel of 100 events between the server's tasks and the terminal's
    loop: the handlers' calls ([Handlers.tui]) and the lines of the logger go in
    at the back unless it is full, [run_loop] takes them from the front between
    its sleeps and the operator's keys.  What the screen lists is compared with
    what the server has recorded. *)

From S2P Require Import Prelude Text Commands LogBuffer Types Header Ie Builder Messages Dict Common.
From S2P Require Import Server UpfTui SessionStore Handlers HandlersSpec Invariant Typing Mirror.

(** ** The channel *)

(** [tokio::sync::mpsc::channel(100)]. *)
Definition channel_capacity : nat := 100.

(** The channel's events in order, the terminal's screen, and whether its loop
    is still running: when it is not, the receiver has been dropped. *)
Record Feed (F32 : Type) := mkFeed {
  queue : list AppEvent;
  screen : App F32;
  running : bool;
}.
Arguments mkFeed {F32}.
Arguments queue {F32}.
Arguments screen {F32}.
Arguments running {F32}.

(** [TuiLogger::log]: a line of the logger, from its level and its arguments. *)
Definition TuiLogger_log (room : bool) (level args : str) : list AppEvent :=
  tui_log true room (lit "[" ++ level ++ lit "] " ++ args).

Section feed.
Context {F32 : Type}.
Implicit Types f : Feed F32.

Definition has_room f : bool := running f && (length (queue f) <? channel_capacity)%nat.

Definition enqueue (evs : list AppEvent) f : Feed F32 :=
  mkFeed (queue f ++ evs) (screen f) (running f).

(** A turn of the loop. *)
Definition turn (clock : nat → str) (ev : LoopEvent F32) f : Feed F32 :=
  if running f then
    let '(a, ended) := loop_turn clock ev (screen f) in mkFeed (queue f) a (negb ended)
  else f.

(** The loop takes the event at the front of the channel. *)
Definition receive (clock : nat → str) f : Feed F32 :=
  match queue f with
  | [] => f
  | ev :: rest => turn clock (ChannelEvent (Some ev)) (mkFeed rest (screen f) (running f))
  end.

(** What happens to the two: an effect of a handler, a line of the logger, the
    loop's taking of an event, its sleep or a key.  [iter] is the order in which
    the [HashMap] yields the sessions at that moment. *)
Inductive FeedStep :=
| Effected (iter : gmap Z SessionData → list (Z * SessionData)) (now : Z) (e : Effect)
| Logged (level args : str)
| Received (clock : nat → str)
| Interacted (clock : nat → str) (ev : LoopEvent F32).

Definition feed_step (f : Feed F32) (step : FeedStep) : Feed F32 :=
  match step with
  | Effected iter now (Tui call) => enqueue (tui_call iter now true (has_room f) call) f
  | Effected _ _ _ => f
  | Logged level args => enqueue (TuiLogger_log (has_room f) level args) f
  | Received clock => receive clock f
  | Interacted clock ev => turn clock ev f
  end.

Definition feed (steps : list FeedStep) f : Feed F32 := foldl feed_step f steps.

(** The loop takes everything that waits. *)
Definition drain (clock : nat → str) f : Feed F32 := Nat.iter (length (queue f)) (receive clock) f.

(** The handlers' effects among the steps. *)
Definition effects (steps : list FeedStep) : list Effect :=
  omap (λ s, match s with Effected _ _ e => Some e | _ => None end) steps.

(** The step delivers a list of sessions that the channel has no room for. *)
Definition loses (f : Feed F32) (step : FeedStep) : bool :=
  match step with Effected _ _ (Tui (CallSessionsUpdated _)) => negb (has_room f) | _ => false end.

(** No list of sessions is lost, the [HashMap]'s iterations yield its entries,
    and the loop's own events are not those of the channel. *)
Fixpoint faithful (f : Feed F32) (steps : list FeedStep) : Prop :=
  match steps with
  | [] => True
  | step :: steps =>
      loses f step = false ∧
      match step with
      | Effected iter _ _ => ∀ m, iter m ≡ₚ map_to_list m
      | Interacted _ ev => match ev with ChannelEvent _ => False | _ => True end
      | _ => True
      end ∧ faithful (feed_step f step) steps
  end.
End feed.
Arguments FeedStep : clear implicits.

(** ** The start of the server's [run]

    [loaded] is the outcome of [load_all], when a store is configured. *)
Definition restore_at_start {M P A : Type → Type} {E}
    (loaded : option (outcome E (list (Z * SessionData)))) : st (@World M P A) HandlerError unit :=
  match loaded with
  | Some (Ok (_ :: _ as l)) => on_srv (restore_sessions l);; tui_sessions
  | _ => mret ()
  end.

(** ** The list the loop will have taken *)

Section spec.
Context {F32 : Type}.
Implicit Types (f : Feed F32) (a : App F32).

Definition take_event (l : list SessionEntry) (ev : AppEvent) : list SessionEntry :=
  match ev with SessionsUpdated l' => l' | _ => l end.

Definition upcoming f : list SessionEntry := foldl take_event (app_sessions (screen f)) (queue f).

Lemma log_lines_sessions clock i ls a : app_sessions (log_lines clock i ls a) = app_sessions a.
Proof. revert i a; induction ls as [|l ls IH]; intros i a; [done|]. simpl. by rewrite IH. Qed.

Lemma execute_command_sessions clock input a :
  app_sessions (execute_command clock input a) = app_sessions a.
Proof.
  unfold execute_command. by repeat case_match; rewrite ?log_lines_sessions.
Qed.

(** A turn changes the list only by an update, and an event of the channel
    never ends the loop. *)
Lemma loop_turn_sessions clock (ev : LoopEvent F32) a :
  app_sessions (loop_turn clock ev a).1 =
  match ev with ChannelEvent (Some ev) => take_event (app_sessions a) ev | _ => app_sessions a end.
Proof.
  unfold loop_turn. destruct ev as [[[cpu mem]|]|[[]|]| |l|]; try done.
  cbn [handle_event]. destruct (trim l) as [|c s]; [done|]. apply execute_command_sessions.
Qed.

Lemma loop_turn_received clock ev a :
  should_quit a = false → (loop_turn clock (ChannelEvent (Some ev)) a).2 = false.
Proof. by destruct ev. Qed.

(** While the loop runs it has not been told to quit. *)
Definition awake f : Prop := running f = true → should_quit (screen f) = false.

Lemma turn_awake clock ev f : awake f → awake (turn clock ev f).
Proof.
  unfold awake, turn. intros Ha. destruct (running f) eqn:E; [|by rewrite E].
  unfold loop_turn. destruct (handle_event _ _ _) as [a|]; [|done]. cbn. by intros ?%negb_true_iff.
Qed.

Lemma feed_awake steps f : awake f → awake (feed steps f).
Proof.
  revert f. induction steps as [|s steps IH]; intros f Ha; [done|]. apply IH.
  destruct s as [iter now e|level args|clock|clock ev]; cbn [feed_step].
  - by destruct e.
  - done.
  - unfold receive. destruct (queue f); [done|by apply turn_awake].
  - by apply turn_awake.
Qed.

Lemma running_back step f : running (feed_step f step) = true → running f = true.
Proof.
  destruct step as [iter now e|level args|clock|clock ev]; cbn [feed_step]; [by destruct e|done|..].
  - unfold receive, turn. destruct (queue f); [done|]. cbn. by destruct (running f).
  - unfold turn. by destruct (running f) eqn:E; [|rewrite E].
Qed.

Lemma feed_running steps f : running (feed steps f) = true → running f = true.
Proof.
  revert f; induction steps as [|s steps IH]; intros f Hr; [done|]. by apply IH, running_back in Hr.
Qed.

Lemma receive_upcoming clock f : running f = true → upcoming (receive clock f) = upcoming f.
Proof.
  intros Hr. unfold receive, upcoming. destruct (queue f) as [|ev q] eqn:E; [by rewrite E|].
  unfold turn. cbn [running screen queue]. rewrite Hr.
  pose proof (loop_turn_sessions clock (ChannelEvent (Some ev)) (screen f)) as Hs.
  destruct (loop_turn _ _ _) as [a ended]. cbn in *. by rewrite Hs.
Qed.

(** ** The terminal lists what it was last sent *)

(** The entries of a table, in some order and at some time. *)
Definition lists (m : gmap Z SessionData) (l : list SessionEntry) : Prop :=
  ∃ iter now, (∀ m, iter m ≡ₚ map_to_list m) ∧
    l = (λ '(seid, data), session_entry now seid data) <$> iter m.

Lemma step_lists f step m :
  running (feed_step f step) = true → faithful f [step] → Forall plain (effects [step]) →
  lists m (upcoming f) →
  lists (shown m (effects [step])) (upcoming (feed_step f step)).
Proof.
  intros Hr (Hl & Hok & _) Hp Hm. pose proof (running_back _ _ Hr) as Hr'.
  destruct step as [iter now e|level args|clock|clock ev]; cbn in *.
  - apply Forall_inv in Hp.
    destruct e as [| | | | | |[msg|ev|m']]; cbn in *; try done; unfold upcoming, enqueue in *;
      cbn [queue screen]; rewrite foldl_app; unfold tui_log, tui_send; cbn [andb].
    + by destruct (has_room f).
    + destruct (has_room f); [|done]. destruct ev; done.
    + apply negb_false_iff in Hl. rewrite Hl. by exists iter, now.
  - unfold upcoming, enqueue. cbn [queue screen]. rewrite foldl_app. unfold TuiLogger_log, tui_log, tui_send.
    by destruct (has_room f).
  - by rewrite receive_upcoming.
  - unfold upcoming, turn in *. rewrite Hr' in *.
    pose proof (loop_turn_sessions clock ev (screen f)) as Hs.
    destruct (loop_turn _ _ _) as [a ended]. cbn in *. rewrite Hs. by destruct ev.
Qed.

Lemma feed_lists steps f m :
  running (feed steps f) = true → faithful f steps → Forall plain (effects steps) →
  lists m (upcoming f) → lists (shown m (effects steps)) (upcoming (feed steps f)).
Proof.
  revert f m. induction steps as [|step steps IH]; intros f m Hr Hf Hp Hm; [done|].
  destruct Hf as (Hl & Hok & Hf).
  assert (effects (step :: steps) = effects [step] ++ effects steps) as E.
  { unfold effects. by destruct step. }
  rewrite E in *. apply Forall_app in Hp as [Hp1 Hp]. rewrite shown_app.
  apply IH; [done..|]. apply step_lists; [|by repeat split|done..].
  by apply (feed_running steps).
Qed.

Lemma drain_upcoming clock f :
  running f = true → awake f →
  queue (drain clock f) = [] ∧ app_sessions (screen (drain clock f)) = upcoming f.
Proof.
  intros Hr Ha. unfold drain.
  assert (∀ n f, running f = true → awake f → length (queue f) = n →
    queue (Nat.iter n (receive clock) f) = [] ∧
    upcoming (Nat.iter n (receive clock) f) = upcoming f) as Hn.
  { clear. intros n. induction n as [|n IH]; intros f Hr Ha Hq.
    { split; [by apply nil_length_inv|done]. }
    rewrite Nat.iter_succ_r.
    assert (running (receive clock f) = true ∧ length (queue (receive clock f)) = n) as [Hr' Hq'].
    { unfold receive, turn in *. destruct (queue f) as [|ev q]; [done|]. cbn [running screen queue].
      rewrite Hr. pose proof (loop_turn_received clock ev (screen f) (Ha Hr)) as Hend.
      destruct (loop_turn _ _ _) as [a ended]. cbn in *. subst. split; [done|]. lia. }
    destruct (IH (receive clock f)) as [E1 E2]; [done|by apply (feed_awake [Received clock])|done|].
    split; [done|]. by rewrite E2, receive_upcoming. }
  destruct (Hn _ f Hr Ha eq_refl) as [E1 E2]. split; [done|]. rewrite <-E2. unfold upcoming. by rewrite E1.
Qed.
End spec.

(** ** The server's sessions on the screen *)

Section terminal.
Context {F32 : Type}.
Context {M P A : Type → Type}.
Context `{BpfMapLaws M} `{PerCpuMapLaws P} `{BpfArray A}.
Variable assoc_iter : gmap Z SmfAssociation → list (Z * SmfAssociation).
Implicit Types w : @World M P A.

Lemma restore_tx l s : tx_tui (restore_sessions l s) = tx_tui s.
Proof. revert s. induction l as [|[k d] l IH]; intros s; [done|]. exact (IH (set_sessions (insert k d) s)). Qed.

Lemma restored_mirrored {E} (loaded : option (outcome E (list (Z * SessionData)))) w :
  sessions (w_srv w) = ∅ → tx_tui (w_srv w) = true → w_log w = [] →
  let w1 := (restore_at_start loaded w).2 in
  mirrored (session_store (w_srv w1)) true (sessions (w_srv w1)) ∅ w1.
Proof.
  intros Hs Ht Hl. unfold restore_at_start, tui_sessions, get_srv.
  destruct loaded as [[[|sd l]|e|]|]; cbn [mret st_ret snd].
  1,3,4,5: by split; try (intros _); rewrite ?Hl, ?Hs, ?Ht.
  rewrite !st_bind_eq. cbn [on_srv modify]. rewrite st_bind_eq. cbn [gets]. rewrite tui_eq.
  cbn [snd with_srv w_srv w_log]. unfold tui_part. rewrite restore_tx, Ht, Hl. cbv zeta.
  split; cbn [w_srv w_log]; [done|by rewrite restore_tx|done|done|]. by repeat constructor.
Qed.

Lemma lists_read m l :
  lists m l →
  (∀ seid, se_ue_ip <$> List.find (λ s, se_seid s =? seid) l = sd_ue_ip <$> m !! seid) ∧
  length l = size m.
Proof.
  intros (iter & now & Hi & ->). split.
  - intros seid. destruct (m !! seid) as [d|] eqn:E.
    + by rewrite (find_entry iter now m seid d).
    + by rewrite (find_missing iter now m seid).
  - by rewrite length_fmap, Hi, length_map_to_list.
Qed.

(** C18. The screen lists the server's sessions: let a server with a terminal
    start, restore whatever its store holds and handle any datagrams, and let
    its calls to the terminal be interleaved in any way with lines of the
    logger, the loop's turns, its sleeps and the operator's keys and commands.
    If the channel of 100 events had room for every list of sessions and the
    operator has not left, then once the loop has taken what waits in the
    channel its list has as many lines as the server has sessions, and the line
    looked up under a SEID is there exactly if the server has that session and
    shows the address of its UE. *)
Theorem terminal_lists_sessions {E} zero clock start
    (loaded : option (outcome E (list (Z * SessionData)))) w ds (steps : list (FeedStep F32)) :
  sessions (w_srv w) = ∅ → tx_tui (w_srv w) = true → w_log w = [] →
  let w' := handle_all assoc_iter ds (restore_at_start loaded w).2 in
  let f := feed steps (mkFeed [] (start_screen zero start) true) in
  effects steps = w_log w' → faithful (mkFeed [] (start_screen zero start) true) steps →
  running f = true →
  let a := screen (drain clock f) in
  session_count a = size (sessions (w_srv w')) ∧
  ∀ seid, se_ue_ip <$> List.find (λ s, se_seid s =? seid) (app_sessions a) =
          sd_ue_ip <$> sessions (w_srv w') !! seid.
Proof.
  intros Hs Ht Hl w' f He Hf Hr a. set (w1 := (restore_at_start loaded w).2) in *.
  assert (mirrored (session_store (w_srv w1)) true (sessions (w_srv w1)) ∅ w') as [_ _ _ Hm Hp].
  { apply (handle_all_keeps _ _ (λ _, True)); [|by apply Forall_true|by apply restored_mirrored].
    intros. by apply message_mirrored. }
  assert (awake f) as Haw by by apply feed_awake.
  assert (lists (shown ∅ (w_log w')) (app_sessions a)) as [Hfind Hlen]%lists_read.
  { unfold a. rewrite (proj2 (drain_upcoming clock f Hr Haw)). rewrite <-He.
    apply feed_lists; [done|done|by rewrite He|]. by exists map_to_list, 0. }
  specialize (Hm eq_refl). split.
  - unfold session_count. rewrite Hlen. apply (f_equal size) in Hm. unfold statics in Hm.
    by rewrite !map_size_fmap in Hm.
  - intros seid. rewrite Hfind. apply (f_equal (λ m, fst <$> m !! seid)) in Hm. unfold statics in Hm.
    rewrite !lookup_fmap in Hm. destruct (sessions _ !! seid), (shown _ _ !! seid); cbn in *; congruence.
Qed.
End terminal.
