(* ===== verification/Forwarding.v ===== *)
(** * What a session does to packets

    Signalling and forwarding meet in the eBPF maps.  A session is described
    here as its request describes it, with the parsed rules in the order of the
    message and numbers in host order; [policy_down] and [policy_up] say what
    becomes of a packet of its UE.  [carries m f] says that the maps [m] hold
    the session [f].  The file proves that the XDP programs implement the
    policy on maps that carry the session; Signalling.v follows what the maps
    carry while requests are handled. *)

From S2P Require Import Prelude Types Header Ie Builder Messages Common Gtpu Xdp Server Handlers.
From S2P Require Import HandlersSpec Invariant Mirror.

(** ** The policy *)

Record Forwarding := mkForwarding {
  f_seid : Z;
  f_ue : Z;
  f_n3 : Z;                       (* the address of the UPF on N3 *)
  f_gnb : Z; f_teid : Z;          (* the tunnel of the session as a whole *)
  f_pdrs : list ParsedPDR;
  f_fars : list ParsedFAR;
}.

(** The fields of an IP packet a filter looks at.  Ports are as the program
    reads them: the two octets in the order of the machine. *)
Record PacketFields := mkFields {
  pf_proto : Z; pf_src : Z; pf_dst : Z; pf_src_port : Z; pf_dst_port : Z;
}.

(** A filter field of zero matches everything. *)
Definition any_or (filter field : Z) : bool := (filter =? 0) || (filter =? field).

Definition pdr_matches (iface : Z) (k : PacketFields) (p : ParsedPDR) : bool :=
  (source_interface p =? iface) &&
  match sdf_filter p with
  | Some f =>
      any_or (proto f) (pf_proto k) && any_or (src_ip f) (pf_src k) &&
      any_or (dst_ip f) (pf_dst k) && any_or (src_port f) (pf_src_port k) &&
      any_or (dst_port f) (pf_dst_port k)
  | None => true
  end.

Definition far_of (f : Forwarding) (p : ParsedPDR) : option ParsedFAR :=
  id ← pdr_far_id p; List.find (λ r, far_id r =? id) (f_fars f).

(** The rules that apply, in the order of the message: the precedence of the
    PDR, its FAR and its URR (0 for none). *)
Definition applicable (f : Forwarding) (iface : Z) (k : PacketFields)
    : list (Z * (ParsedFAR * Z)) :=
  omap (λ p, if pdr_matches iface k p
             then (λ r, (precedence p, (r, default 0 (pdr_urr_id p)))) <$> far_of f p
             else None)
    (take MAX_PDR_PER_SESSION (f_pdrs f)).

(** The rule of the lowest precedence value, the first of equals. *)
Definition prefer {T} (best : Z * option T) (c : Z * T) : Z * option T :=
  if best.1 <=? c.1 then best else (c.1, Some c.2).

Definition chosen (f : Forwarding) (iface : Z) (k : PacketFields) : option (ParsedFAR * Z) :=
  (foldl prefer (4294967295, None) (applicable f iface k)).2.

Definition drops (r : ParsedFAR) : bool := has_flag (apply_action r) ACTION_DROP.
Definition chosen_drops (f : Forwarding) (iface : Z) (k : PacketFields) : bool :=
  match chosen f iface k with Some (r, _) => drops r | None => false end.

(** The tunnel of a FAR: zero where it has none. *)
Definition tunnel_of (r : ParsedFAR) : Z * Z :=
  match outer_header_creation r with
  | Some o => (ohc_peer_addr o, ohc_teid o)
  | None => (0, 0)
  end.

(** The end of the downlink tunnel: that of the first downlink PDR's FAR,
    whatever its filter. *)
Definition downlink_far (f : Forwarding) : option ParsedFAR :=
  head (omap (λ p, if source_interface p =? IFACE_CORE then far_of f p else None)
    (take MAX_PDR_PER_SESSION (f_pdrs f))).

Definition tunnel_end (f : Forwarding) : option (Z * Z) :=
  match downlink_far f with
  | Some r =>
      if drops r then None
      else if has_flag (apply_action r) ACTION_FORW then Some (tunnel_of r)
      else Some (f_gnb f, f_teid f)
  | None => Some (f_gnb f, f_teid f)
  end.

Inductive Verdict := Dropped | Tunnelled (gnb teid : Z) | Untunnelled.

Definition policy_down (f : Forwarding) (k : PacketFields) : Verdict :=
  if chosen_drops f IFACE_CORE k then Dropped else
  match tunnel_end f with Some (gnb, teid) => Tunnelled gnb teid | None => Dropped end.

Definition policy_up (f : Forwarding) (k : PacketFields) : Verdict :=
  if chosen_drops f IFACE_ACCESS k then Dropped else Untunnelled.

(** ** Maps that hold a session *)

(** The identifiers of a session: distinct, sixteen bits wide, every PDR
    naming a FAR of the session, addresses and tunnel identifiers of 32 bits. *)
Record wf_forwarding (f : Forwarding) : Prop := {
  wf_seid : 0 ≤ f_seid f < 2 ^ 48;
  wf_ue : u32 (f_ue f);
  wf_n3 : u32 (f_n3 f);
  wf_tunnel : u32 (f_gnb f) ∧ u32 (f_teid f);
  wf_pdr_ids : Forall (λ p, u16 (pdr_id p)) (f_pdrs f) ∧ NoDup (pdr_id <$> f_pdrs f);
  wf_far_ids : Forall (λ r, u16 (far_id r)) (f_fars f) ∧ NoDup (far_id <$> f_fars f);
  wf_far_tunnels r : r ∈ f_fars f → u32 (tunnel_of r).1 ∧ u32 (tunnel_of r).2;
  wf_far_of p : p ∈ f_pdrs f → ∃ r, r ∈ f_fars f ∧ pdr_far_id p = Some (far_id r);
  wf_filters p s : p ∈ f_pdrs f → sdf_filter p = Some s → u32 (src_ip s) ∧ u32 (dst_ip s);
}.

Definition f_info (f : Forwarding) : SessionInfo :=
  mkSessionInfo (f_seid f) (to_be32 (f_teid f)) (to_be32 (f_gnb f)) (to_be32 (f_n3 f))
    (pdr_id_array (f_pdrs f)) (Z.of_nat (length (f_pdrs f) `min` MAX_PDR_PER_SESSION)).

Record carries {M P A} `{BpfMap M} (m : Maps M P A) (f : Forwarding) : Prop := {
  carries_session : bpf_get (SESSION_MAP m) (to_be32 (f_ue f)) = Some (f_info f);
  carries_pdr p : p ∈ f_pdrs f →
    bpf_get (PDR_MAP m) (PdrKey_new (f_seid f) (pdr_id p)) = Some (pdr_value_of (f_ue f) p);
  carries_far r : r ∈ f_fars f →
    bpf_get (FAR_MAP m) (FarKey_new (f_seid f) (far_id r)) = Some (far_value_of (f_n3 f) r);
}.

(** ** The programs select what the policy chooses *)

Lemma sdf_matches_eq pdr pr src dst sp dp :
  sdf_matches pdr pr src dst sp dp =
  any_or (pv_sdf_proto pdr) pr && any_or (pv_sdf_src_ip pdr) src && any_or (pv_sdf_dst_ip pdr) dst &&
  any_or (pv_sdf_src_port pdr) sp && any_or (pv_sdf_dst_port pdr) dp.
Proof.
  unfold sdf_matches, any_or.
  by destruct (pv_sdf_proto pdr =? 0), (pv_sdf_proto pdr =? pr), (pv_sdf_src_ip pdr =? 0),
    (pv_sdf_src_ip pdr =? src), (pv_sdf_dst_ip pdr =? 0), (pv_sdf_dst_ip pdr =? dst),
    (pv_sdf_src_port pdr =? 0), (pv_sdf_src_port pdr =? sp), (pv_sdf_dst_port pdr =? 0),
    (pv_sdf_dst_port pdr =? dp).
Qed.

Lemma to_be32_eqb x y : u32 x → u32 y → (to_be32 x =? to_be32 y) = (x =? y).
Proof.
  intros Hx Hy. destruct (Z.eqb_spec x y) as [->|Hn]; [by rewrite Z.eqb_refl|].
  apply Z.eqb_neq. intros E. by apply Hn, (bswap_inj 4).
Qed.

Lemma any_or_be32 x y : u32 x → u32 y → any_or (to_be32 x) (to_be32 y) = any_or x y.
Proof.
  intros Hx Hy. unfold any_or. rewrite to_be32_eqb by done. f_equal.
  change 0 with (to_be32 0) at 1. by rewrite to_be32_eqb.
Qed.

Lemma pdr_value_matches ue iface k p :
  (∀ s, sdf_filter p = Some s → u32 (src_ip s) ∧ u32 (dst_ip s)) → u32 (pf_src k) → u32 (pf_dst k) →
  (pv_source_interface (pdr_value_of ue p) =? iface) &&
    sdf_matches (pdr_value_of ue p) (pf_proto k) (to_be32 (pf_src k)) (to_be32 (pf_dst k))
      (pf_src_port k) (pf_dst_port k) = pdr_matches iface k p.
Proof.
  intros Hs Hsrc Hdst. rewrite sdf_matches_eq. unfold pdr_value_of, pdr_matches.
  cbn [pv_source_interface pv_sdf_proto pv_sdf_src_ip pv_sdf_dst_ip pv_sdf_src_port pv_sdf_dst_port].
  destruct (sdf_filter p) as [s|]; cbn [default from_option fmap option_fmap option_map id]; [|done].
  destruct (Hs s eq_refl) as [H1 H2]. by rewrite !any_or_be32.
Qed.

Lemma lookups_take (l : list Z) n :
  (n ≤ length l)%nat → (λ i, l !!! i) <$> seq 0 n = take n l.
Proof.
  intros Hn. apply list_eq. intros i. rewrite list_lookup_fmap. destruct (decide (i < n)%nat).
  - rewrite lookup_seq_lt, lookup_take_lt by done. cbn. by rewrite list_lookup_lookup_total_lt by lia.
  - by rewrite lookup_seq_ge, lookup_take_ge by lia.
Qed.

Lemma info_pdrs f : session_pdrs (f_info f) = pdr_id <$> take MAX_PDR_PER_SESSION (f_pdrs f).
Proof.
  unfold session_pdrs, f_info. cbn [si_pdr_ids si_pdr_count]. rewrite Nat2Z.id, lookups_take.
  - rewrite <-take_pdr_ids. f_equal. lia.
  - unfold pdr_id_array. rewrite length_app, length_replicate, length_fmap, length_take. lia.
Qed.

(** The FAR a PDR names, and no other. *)
Lemma find_far (rs : list ParsedFAR) r :
  NoDup (far_id <$> rs) → r ∈ rs → List.find (λ r', far_id r' =? far_id r) rs = Some r.
Proof.
  induction rs as [|r' rs IH]; intros Hnd Hin; [by apply not_elem_of_nil in Hin|].
  cbn [fmap list_fmap] in Hnd. apply NoDup_cons in Hnd as [Hn Hnd]. cbn [List.find].
  destruct (Z.eqb_spec (far_id r') (far_id r)) as [E|E].
  - apply elem_of_cons in Hin as [->|Hin]; [done|]. destruct Hn. rewrite E. by apply list_elem_of_fmap_2.
  - apply elem_of_cons in Hin as [->|Hin]; [done|]. by apply IH.
Qed.

Section policy.
Context {M P A : Type → Type}.
Context `{BpfMapLaws M} `{PerCpuMapLaws P} `{BpfArray A} `{XdpHelperLaws}.
Implicit Types m : Maps M P A.

Definition rule_value (f : Forwarding) (c : ParsedFAR * Z) : FarValue * Z :=
  (far_value_of (f_n3 f) c.1, c.2).

Lemma far_of_wf f p :
  wf_forwarding f → p ∈ f_pdrs f →
  ∃ r, far_of f p = Some r ∧ r ∈ f_fars f ∧ pdr_far_id p = Some (far_id r).
Proof.
  intros Hw Hp. destruct (wf_far_of f Hw p Hp) as (r & Hr & Hid). exists r. split; [|done].
  unfold far_of. rewrite Hid. cbn [mbind option_bind]. apply find_far; [apply Hw|done].
Qed.

Lemma far_lookup m f p r :
  carries m f → far_of f p = Some r → pdr_far_id p = Some (far_id r) → r ∈ f_fars f →
  bpf_get (FAR_MAP m) (FarKey_new (f_seid f) (default 0 (pdr_far_id p))) =
    Some (far_value_of (f_n3 f) r).
Proof. intros Hc _ -> Hr. by apply carries_far. Qed.

Lemma candidates_applicable m f iface k :
  carries m f → wf_forwarding f → u32 (pf_src k) → u32 (pf_dst k) →
  candidates m (f_info f) iface (pf_proto k) (to_be32 (pf_src k)) (to_be32 (pf_dst k))
    (pf_src_port k) (pf_dst_port k) =
  (λ c, (c.1, rule_value f c.2)) <$> applicable f iface k.
Proof.
  intros Hc Hw Hs Hd. unfold candidates, applicable. rewrite info_pdrs.
  assert (Forall (λ p, p ∈ f_pdrs f) (take MAX_PDR_PER_SESSION (f_pdrs f))) as Hall.
  { apply Forall_forall. intros p. intros Hp. apply elem_of_take in Hp as (i & Hp & _). by eapply list_elem_of_lookup_2. }
  induction Hall as [|p ps Hp _ IH]; [done|]. cbn [fmap list_fmap]. rewrite !omap_list_cons, IH.
  unfold candidate at 1. cbn [f_info si_seid]. rewrite (carries_pdr _ _ Hc _ Hp).
  cbn [mbind option_bind].
  rewrite pdr_value_matches by (done || intros s; by apply (wf_filters f Hw p s)).
  destruct (pdr_matches iface k p); [|done].
  destruct (far_of_wf f p Hw Hp) as (r & Hr & Hin & Hid).
  cbn [pdr_value_of pv_far_id pv_precedence pv_urr_id]. rewrite (far_lookup m f p r), Hr by done. done.
Qed.

Lemma foldl_prefer f cs best p :
  foldl better (p, rule_value f <$> best) ((λ c, (c.1, rule_value f c.2)) <$> cs) =
  let b := foldl prefer (p, best) cs in (b.1, rule_value f <$> b.2).
Proof.
  revert best p; induction cs as [|c cs IH]; intros best p; [done|]. cbn [fmap list_fmap foldl].
  assert (better (p, rule_value f <$> best) (c.1, rule_value f c.2) =
    ((prefer (p, best) c).1, rule_value f <$> (prefer (p, best) c).2)) as ->.
  { unfold better, prefer. cbn [fst snd]. by destruct (p <=? c.1). }
  destruct (prefer (p, best) c) as [p' best']. apply IH.
Qed.

Lemma select_chosen m f iface k :
  carries m f → wf_forwarding f → u32 (pf_src k) → u32 (pf_dst k) →
  select_far m (f_info f) iface (pf_proto k) (to_be32 (pf_src k)) (to_be32 (pf_dst k))
    (pf_src_port k) (pf_dst_port k) = rule_value f <$> chosen f iface k.
Proof.
  intros Hc Hw Hs Hd. rewrite select_far_eq, candidates_applicable by done.
  rewrite (foldl_prefer f _ None). done.
Qed.

(** ** The downlink tunnel *)

Lemma downlink_get_far_eq m f :
  carries m f → wf_forwarding f →
  downlink_get_far m (f_info f) = far_value_of (f_n3 f) <$> downlink_far f.
Proof.
  intros Hc Hw. unfold downlink_get_far, downlink_far. rewrite downlink_get_far_loop_eq, Nat.sub_0_r.
  change (_ <$> seq 0 _) with (session_pdrs (f_info f)). rewrite info_pdrs.
  assert (Forall (λ p, p ∈ f_pdrs f) (take MAX_PDR_PER_SESSION (f_pdrs f))) as Hall.
  { apply Forall_forall. intros p Hp. apply elem_of_take in Hp as (i & Hp & _).
    by eapply list_elem_of_lookup_2. }
  induction Hall as [|p ps Hp _ IH]; [done|]. cbn [fmap list_fmap]. rewrite !omap_list_cons.
  unfold far_candidate at 1. cbn [f_info si_seid]. rewrite (carries_pdr _ _ Hc _ Hp).
  cbn [mbind option_bind pdr_value_of pv_source_interface pv_far_id].
  destruct (source_interface p =? IFACE_CORE); [|exact IH].
  destruct (far_of_wf f p Hw Hp) as (r & Hr & Hin & Hid).
  by rewrite (far_lookup m f p r), Hr.
Qed.

Definition on_wire (t : Z * Z) : Z * Z := (to_be32 t.1, to_be32 t.2).

Lemma downlink_target_eq m f :
  carries m f → wf_forwarding f →
  downlink_target m (f_info f) = on_wire <$> tunnel_end f.
Proof.
  intros Hc Hw. unfold downlink_target, tunnel_end. rewrite downlink_get_far_eq by done.
  destruct (0 <? si_pdr_count (f_info f)) eqn:En; cbn [f_info si_pdr_count] in En.
  - destruct (downlink_far f) as [r|]; [|done]. cbn [fmap option_fmap option_map].
    unfold drops. cbn [far_value_of fv_apply_action fv_gnb_ip fv_teid].
    destruct (has_flag _ ACTION_DROP); [done|]. destruct (has_flag _ ACTION_FORW); [|done].
    unfold tunnel_of, on_wire. by destruct (outer_header_creation r).
  - unfold downlink_far. apply Z.ltb_ge in En. destruct (f_pdrs f) as [|p ps]; [done|].
    cbn [length] in En. unfold MAX_PDR_PER_SESSION in En. lia.
Qed.

(** ** The policy is implemented *)

Definition be32_at (pkt : list Z) (i : nat) : Z := from_be_bytes (take 4 (drop i pkt)).

(** The fields of the IP packet behind an Ethernet header, and of the packet
    inside a tunnel. *)
Definition downlink_fields (pkt : list Z) : PacketFields :=
  mkFields (pkt !!! 23%nat) (be32_at pkt 26) (be32_at pkt 30) (u16_at pkt 34) (u16_at pkt 36).
Definition uplink_fields (inner : list Z) : PacketFields :=
  mkFields (inner !!! 9%nat) (be32_at inner 12) (be32_at inner 16)
    (inner_ports inner).1 (inner_ports inner).2.

Lemma u32_at_be pkt i :
  bytes_ok pkt → (i + 4 ≤ length pkt)%nat →
  u32_at pkt i = to_be32 (be32_at pkt i) ∧ u32 (be32_at pkt i).
Proof.
  intros Hb Hl. unfold u32_at, be32_at. set (l := take 4 (drop i pkt)).
  assert (length l = 4%nat) as Hl4 by (unfold l; rewrite length_take, length_drop; lia).
  assert (bytes_ok l) as Hbl by (unfold l; auto with bytes).
  assert (u32 (from_be_bytes l)) as Hu.
  { pose proof (from_be_bytes_bound l Hbl) as Hu. by rewrite Hl4 in Hu. }
  split; [|done]. unfold to_be32. rewrite <-(bswap_involutive 4 (from_le_bytes l)).
  - f_equal. unfold bswap. rewrite <-Hl4, to_from_le_bytes by done. done.
  - pose proof (from_le_bytes_bound l Hbl) as Hx. by rewrite Hl4 in Hx.
Qed.

Lemma selected_drops_eq m f iface k :
  carries m f → wf_forwarding f → u32 (pf_src k) → u32 (pf_dst k) →
  selected_drops (if 0 <? si_pdr_count (f_info f) then
    select_far m (f_info f) iface (pf_proto k) (to_be32 (pf_src k)) (to_be32 (pf_dst k))
      (pf_src_port k) (pf_dst_port k) else None) = chosen_drops f iface k.
Proof.
  intros Hc Hw Hs Hd. rewrite select_chosen by done. unfold chosen_drops.
  destruct (0 <? si_pdr_count (f_info f)) eqn:En; cbn [f_info si_pdr_count] in En.
  - by destruct (chosen f iface k) as [[r u]|].
  - unfold chosen, applicable. apply Z.ltb_ge in En. destruct (f_pdrs f) as [|p ps]; [done|].
    cbn [length] in En. unfold MAX_PDR_PER_SESSION in En. lia.
Qed.

(** The tunnels the policy names are those of the session. *)
Lemma downlink_far_in f r : wf_forwarding f → downlink_far f = Some r → r ∈ f_fars f.
Proof.
  intros Hw Hr. unfold downlink_far in Hr. apply head_Some_elem_of in Hr.
  apply list_elem_of_omap in Hr as (p & Hp & Hr).
  destruct (source_interface p =? IFACE_CORE); [|done].
  apply elem_of_take in Hp as (i & Hp & _). apply list_elem_of_lookup_2 in Hp.
  destruct (far_of_wf f p Hw Hp) as (r' & Hr' & Hin & _). by rewrite Hr' in Hr; simplify_eq.
Qed.

Lemma tunnel_end_width f gnb teid :
  wf_forwarding f → tunnel_end f = Some (gnb, teid) → u32 gnb ∧ u32 teid.
Proof.
  intros Hw. unfold tunnel_end. destruct (downlink_far f) as [r|] eqn:Er.
  - destruct (drops r); [done|]. destruct (has_flag _ _); [|intros [= <- <-]; apply Hw].
    intros [= E]. apply downlink_far_in in Er; [|done].
    pose proof (wf_far_tunnels f Hw r Er) as Ht. by rewrite E in Ht.
  - intros [= <- <-]. apply Hw.
Qed.

(** What a program does with a packet for each verdict: [ip] is the packet of
    the UE, [port] the interface it leaves through. *)
Definition leaves (port : Z) (r : XdpResult (M:=M) (P:=P) (A:=A)) : Prop :=
  xr_action r = wrap 32 (bpf_redirect port 0) ∧ xr_redirect r = Some port.

(** A frame from [n3] to [gnb] that carries [ip] in the tunnel [teid]. *)
Definition tunnelled (n3 gnb teid : Z) (ip out : list Z) : Prop :=
  gpdu out ∧ inner_packet out = ip ∧
  be32_at out 26 = n3 ∧ be32_at out 30 = gnb ∧ be32_at out 46 = teid.

Definition obeys (f : Forwarding) (v : Verdict) (ip : list Z) (port : Z)
    (r : XdpResult (M:=M) (P:=P) (A:=A)) : Prop :=
  match v with
  | Dropped => xr_action r = XDP_DROP ∧ xr_redirect r = None
  | Tunnelled gnb teid => leaves port r ∧ tunnelled (f_n3 f) gnb teid ip (packet (xr_ctx r))
  | Untunnelled =>
      leaves port r ∧ be16 (packet (xr_ctx r)) 12 = 2048 ∧ drop 14 (packet (xr_ctx r)) = ip
  end.

(** The interfaces and the gateway addresses are configured. *)
Record wired m (n3 n6 : Z) : Prop := {
  wired_n3 : arr_get (IF_INDEX m) 0 = Some n3;
  wired_n6 : arr_get (IF_INDEX m) 1 = Some n6;
  wired_macs i : i = 0 ∨ i = 1 → ∃ mac, arr_get (GW_MAC m) i = Some mac ∧ length mac = 6%nat;
}.

Lemma downlink_obeys cpu m ctx f n3 n6 :
  carries m f → wf_forwarding f → wired m n3 n6 →
  bytes_ok (packet ctx) → ip_frame (packet ctx) → (44 ≤ headroom ctx)%nat →
  be32_at (packet ctx) 30 = f_ue f →
  obeys f (policy_down f (downlink_fields (packet ctx))) (drop 14 (packet ctx)) n3
    (try_n6_downlink cpu m ctx).
Proof.
  intros Hc Hw [Hif3 _ Hmac] Hb Hf Hh Hue. pose proof (proj1 Hf) as Hl.
  rewrite try_n6_downlink_eq, decide_True by done. unfold downlink_session.
  destruct (u32_at_be (packet ctx) 26 Hb ltac:(lia)) as [E26 U26].
  destruct (u32_at_be (packet ctx) 30 Hb ltac:(lia)) as [E30 U30].
  rewrite E30, Hue, (carries_session _ _ Hc).
  assert (selected_drops (downlink_selected m (f_info f) (packet ctx)) =
    chosen_drops f IFACE_CORE (downlink_fields (packet ctx))) as ->.
  { unfold downlink_selected. rewrite E26, E30. by apply (selected_drops_eq m f IFACE_CORE
      (downlink_fields (packet ctx))). }
  unfold policy_down. destruct (chosen_drops _ _ _); [done|]. cbv zeta.
  rewrite downlink_target_eq by done. destruct (tunnel_end f) as [[gnb teid]|] eqn:Et; [|done].
  apply tunnel_end_width in Et as [Hg Ht]; [|done]. cbn [fmap option_fmap option_map on_wire fst snd].
  destruct (Hmac 1 ltac:(by right)) as (mac & Hm & Hml).
  rewrite (downlink_tail_ok _ _ _ _ ctx mac n3) by done. cbn [obeys]. split; [done|].
  cbn [xr_ctx packet f_info si_upf_ip].
  assert (length (take 6 (packet ctx)) = 6%nat) as Hl6 by (rewrite length_take; lia).
  destruct (encap_gpdu mac (take 6 (packet ctx)) (to_be32 (f_n3 f)) (to_be32 gnb) (to_be32 teid)
    (be16 (packet ctx) 16) (drop 14 (packet ctx)) Hml Hl6 ltac:(rewrite length_drop; lia)) as [Hgp Hi].
  destruct (encap_addresses mac (take 6 (packet ctx)) (to_be32 (f_n3 f)) (to_be32 gnb) (to_be32 teid)
    (be16 (packet ctx) 16) (drop 14 (packet ctx)) Hml Hl6) as (W1 & W2 & W3).
  unfold tunnelled, be32_at. rewrite W1, W2, W3. split; [done|]. split; [done|].
  change (from_be_bytes (to_le_bytes 4 ?x)) with (bswap 4 x). unfold to_be32.
  rewrite !bswap_involutive by first [done | apply Hw]. done.
Qed.

Lemma uplink_obeys cpu m ctx f n3 n6 :
  carries m f → wf_forwarding f → wired m n3 n6 →
  bytes_ok (packet ctx) → gpdu (packet ctx) → be32_at (inner_packet (packet ctx)) 12 = f_ue f →
  obeys f (policy_up f (uplink_fields (inner_packet (packet ctx)))) (inner_packet (packet ctx)) n6
    (try_n3_uplink cpu m ctx).
Proof.
  intros Hc Hw [_ Hif6 Hmac] Hb Hg Hue. set (inner := inner_packet (packet ctx)) in *.
  assert (20 ≤ length inner)%nat as Hl by apply Hg.
  assert (bytes_ok inner) as Hbi by (unfold inner, inner_packet; auto with bytes).
  rewrite try_n3_uplink_eq, decide_True by done. unfold uplink_session. fold inner.
  destruct (u32_at_be inner 12 Hbi ltac:(lia)) as [E12 U12].
  destruct (u32_at_be inner 16 Hbi ltac:(lia)) as [E16 U16].
  rewrite E12, Hue, (carries_session _ _ Hc).
  assert (selected_drops (uplink_selected m (f_info f) inner) =
    chosen_drops f IFACE_ACCESS (uplink_fields inner)) as ->.
  { unfold uplink_selected. rewrite E12, E16. by apply (selected_drops_eq m f IFACE_ACCESS
      (uplink_fields inner)). }
  unfold policy_up. destruct (chosen_drops _ _ _); [done|].
  destruct (Hmac 0 ltac:(by left)) as (mac & Hm & Hml).
  assert (GW_MAC (uplink_counted cpu m (f_info f) ctx) = GW_MAC m ∧
    IF_INDEX (uplink_counted cpu m (f_info f) ctx) = IF_INDEX m) as [Eg Ei].
  { unfold uplink_counted, urr_count. destruct (_ =? 0); [done|].
    by destruct (pc_get (URR_MAP _) _ _). }
  rewrite (uplink_tail_ok _ ctx mac n6) by (rewrite ?Eg, ?Ei; done). fold inner.
  cbn [obeys xr_ctx packet]. split; [done|].
  do 6 (destruct mac as [|? mac]; [done|]). destruct mac; [|done].
  assert (length (take 6 (drop 6 (packet ctx))) = 6%nat) as Hs.
  { destruct Hg as [? _]. rewrite length_take, length_drop. lia. }
  destruct (take 6 (drop 6 (packet ctx))) as [|? src]; [done|].
  do 5 (destruct src as [|? src]; [done|]). by destruct src.
Qed.
End policy.

(** C4. The XDP programs implement the policy: over maps that carry a session,
    a packet for its UE on N6 and a packet of its UE in a tunnel on N3 are
    dropped, sent into the tunnel or decapsulated as the rules of the session
    say, written as the request gave them: the rule of lowest precedence value
    whose interface and filter match decides whether to drop, and the first
    downlink rule decides the tunnel. *)
Theorem programs_implement_policy {M P A : Type → Type} `{BpfMapLaws M} `{PerCpuMapLaws P}
    `{BpfArray A} `{XdpHelperLaws} cpu (m : Maps M P A) ctx f n3 n6 :
  carries m f → wf_forwarding f → wired m n3 n6 → bytes_ok (packet ctx) →
  let inner := inner_packet (packet ctx) in
  (ip_frame (packet ctx) → (44 ≤ headroom ctx)%nat → be32_at (packet ctx) 30 = f_ue f →
   obeys f (policy_down f (downlink_fields (packet ctx))) (drop 14 (packet ctx)) n3
     (try_n6_downlink cpu m ctx)) ∧
  (gpdu (packet ctx) → be32_at inner 12 = f_ue f →
   obeys f (policy_up f (uplink_fields inner)) inner n6 (try_n3_uplink cpu m ctx)).
Proof.
  intros Hc Hw Hp Hb inner. split.
  - intros Hf Hh Hu. by apply (downlink_obeys cpu m ctx f n3 n6).
  - intros Hg Hu. by apply (uplink_obeys cpu m ctx f n3 n6).
Qed.
