(* ===== verification/Signalling.v ===== *)
(** * Forwarding follows signalling

    What the maps carry while the server handles requests and the XDP programs
    handle packets.  [Fate] is what is known of a UE: no session, served by a
    session ([Forwarding]), or nothing.  [signalled] is what a request does to
    that knowledge, read off the request, the server's tables and whether the
    handler succeeded; [sound] ties it to the maps.  Every event keeps it, so
    that at any time a packet of a UE is treated as the last accepted requests
    for that UE say. *)

From S2P Require Import Prelude Types Header Ie Builder Messages Common Gtpu Xdp Server Handlers.
From S2P Require Import HandlersSpec Invariant Typing Mirror Forwarding.

(** ** What a request says *)

(** The session an establishment asks for, under the identifiers it is given.
    The tunnel of the session as a whole pairs the gNB's address with the
    TEID the UPF gave to itself. *)
Definition session_of (s : PfcpServer) (req : SessionEstablishmentReq) : option Forwarding :=
  ue ← find_map ue_ip (create_pdrs req);
  ohc ← find_map outer_header_creation (create_fars req);
  Some (mkForwarding (next_seid s) ue (n3_addr s) (ohc_peer_addr ohc) (next_teid s)
    (create_pdrs req) (create_fars req)).

(** A request whose rules can all be told apart and found. *)
Definition coherent (req : SessionEstablishmentReq) : Prop :=
  NoDup (pdr_id <$> create_pdrs req) ∧ NoDup (far_id <$> create_fars req) ∧
  Forall (λ r, far_id r < 65536) (create_fars req) ∧
  Forall (λ p, Exists (λ r, pdr_far_id p = Some (far_id r)) (create_fars req)) (create_pdrs req).

#[export] Instance coherent_dec req : Decision (coherent req).
Proof. unfold coherent. apply _. Defined.

Definition set_ohc (o : OuterHeaderCreation) (r : ParsedFAR) : ParsedFAR :=
  mkParsedFAR (far_id r) (apply_action r) (dest_interface r) (Some o).

(** An Update FAR of the session [seid] of the UE served by [f].  The keys of
    the FAR map hold sixteen bits of a FAR's identifier. *)
Definition retarget1 (seid : Z) (f : Forwarding) (u : ParsedFAR) : Forwarding :=
  match outer_header_creation u with
  | None => f
  | Some o =>
      let access := bool_decide (dest_interface u = Some IFACE_ACCESS) in
      mkForwarding (f_seid f) (f_ue f) (f_n3 f)
        (if access then ohc_peer_addr o else f_gnb f) (if access then ohc_teid o else f_teid f)
        (f_pdrs f)
        (if f_seid f =? seid
         then (λ r, if far_id r =? far_id u mod 65536 then set_ohc o r else r) <$> f_fars f
         else f_fars f)
  end.

Definition retarget (seid : Z) (f : Forwarding) (us : list ParsedFAR) : Forwarding :=
  foldl (retarget1 seid) f us.

(** ** What is known of a UE *)

Inductive Fate := Unknown | NoSession | Served (f : Forwarding).

Definition Knowledge : Type := Z → Fate.

Definition learn (ue : Z) (x : Fate) (σ : Knowledge) : Knowledge :=
  λ k, if k =? ue then x else σ k.

Definition sender_known (assoc_iter : gmap Z SmfAssociation → list (Z * SmfAssociation))
    (s : PfcpServer) (src : SocketAddr) : bool :=
  match sa_ip src with V4 _ => bool_decide (is_Some (find_assoc assoc_iter s src)) | V6 _ => false end.

Definition succeeded {E T} (out : outcome E T) : bool := match out with Ok _ => true | _ => false end.

Definition modified (seid : Z) (us : list ParsedFAR) (x : Fate) : Fate :=
  match x with Served f => Served (retarget seid f us) | _ => x end.

(** What the request [data] from [src], handled by a server in state [s] with
    the outcome [out], tells.  A request that fails after it was accepted leaves
    its UE's rules in an unknown state. *)
Definition signalled (assoc_iter : gmap Z SmfAssociation → list (Z * SmfAssociation))
    (s : PfcpServer) (data : list Z) (src : SocketAddr) (out : outcome HandlerError (list Z))
    (σ : Knowledge) : Knowledge :=
  match decode data with
  | Ok (h, body) =>
      let t := hdr_msg_type h in
      if t =? PFCP_SESSION_ESTABLISHMENT_REQ then
        match decode_session_establishment body with
        | Ok req =>
            match session_of s req with
            | Some f =>
                if sender_known assoc_iter s src then
                  learn (f_ue f) (if succeeded out && bool_decide (coherent req)
                                  then Served f else Unknown) σ
                else σ
            | None => σ
            end
        | _ => σ
        end
      else if t =? PFCP_SESSION_MODIFICATION_REQ then
        match hdr_seid h, decode_session_modification body with
        | Some seid, Ok req =>
            match authorise assoc_iter s src seid with
            | Ok (_, d) =>
                learn (sd_ue_ip d) (if succeeded out
                  then modified seid (update_fars req) (σ (sd_ue_ip d)) else Unknown) σ
            | _ => σ
            end
        | _, _ => σ
        end
      else if t =? PFCP_SESSION_DELETION_REQ then
        match authorise assoc_iter s src (default 0 (hdr_seid h)) with
        | Ok (_, d) => learn (sd_ue_ip d) NoSession σ
        | _ => σ
        end
      else σ
  | _ => σ
  end.

(** ** What a request can touch *)

Section footprint.
Context {M P A : Type → Type}.
Context `{BpfMapLaws M} `{PerCpuMapLaws P} `{BpfArray A}.
Variable assoc_iter : gmap Z SmfAssociation → list (Z * SmfAssociation).
Variable now : Z.

Abbreviation World := (@World M P A).
Implicit Types (w : World) (m : Maps M P A).

(** Only rules of the session [seid], and only the entry of [ue]. *)
Record footprint (seid ue : Z) m m' : Prop := {
  fp_pdr j : (∀ i, j ≠ PdrKey_new seid i) → bpf_get (PDR_MAP m') j = bpf_get (PDR_MAP m) j;
  fp_far j : (∀ i, j ≠ FarKey_new seid i) → bpf_get (FAR_MAP m') j = bpf_get (FAR_MAP m) j;
  fp_session k : k ≠ to_be32 ue → bpf_get (SESSION_MAP m') k = bpf_get (SESSION_MAP m) k;
  fp_wired : IF_INDEX m' = IF_INDEX m ∧ GW_MAC m' = GW_MAC m;
}.

#[local] Instance footprint_preorder seid ue : PreOrder (footprint seid ue).
Proof.
  split; [by split|]. intros m1 m2 m3 [A1 A2 A3 [A4 A5]] [B1 B2 B3 [B4 B5]].
  split; intros; rewrite ?B1, ?B2, ?B3, ?B4, ?B5 by done; auto.
Qed.

Definition within (seid ue : Z) w w' : Prop := footprint seid ue (w_maps w) (w_maps w').

#[local] Instance within_preorder seid ue : PreOrder (within seid ue).
Proof. unfold within. split; [intros w|intros w1 w2 w3]; [done|apply footprint_preorder]. Qed.

Lemma within_srv seid ue f : steps (within seid ue) (on_srv (M:=M) (P:=P) (A:=A) f).
Proof. intros w. by unfold within. Qed.
Lemma within_emit seid ue e : steps (within seid ue) (emit (M:=M) (P:=P) (A:=A) e).
Proof. intros w. by unfold within. Qed.
Lemma within_tui seid ue call : steps (within seid ue) (tui (M:=M) (P:=P) (A:=A) call).
Proof. intros w. by rewrite tui_eq. Qed.
Lemma within_tui_sessions seid ue : steps (within seid ue) (tui_sessions (M:=M) (P:=P) (A:=A)).
Proof. intros w. exact (within_tui seid ue _ w). Qed.
Lemma within_alloc {T} seid ue (f : PfcpServer → T * PfcpServer) :
  steps (within seid ue) (alloc (M:=M) (P:=P) (A:=A) f).
Proof. intros w. unfold within, alloc. by destruct (f (w_srv w)). Qed.

Lemma within_session seid ue v :
  steps (within seid ue) (session_insert (M:=M) (P:=P) (A:=A) (to_be32 ue) v).
Proof.
  intros w. unfold within, session_insert. destruct (bpf_insert _ _ _) as [m|] eqn:E; [|done].
  split; try done. intros k Hk. simpl. rewrite (get_insert _ _ _ _ k E). by rewrite decide_False.
Qed.
Lemma within_pdr seid ue i v :
  steps (within seid ue) (pdr_insert (M:=M) (P:=P) (A:=A) (PdrKey_new seid i) v).
Proof.
  intros w. unfold within, pdr_insert. destruct (bpf_insert _ _ _) as [m|] eqn:E; [|done].
  split; try done. intros j Hj. simpl. rewrite (get_insert _ _ _ _ j E).
  rewrite decide_False; [done|]. intros E'. by apply (Hj i).
Qed.
Lemma within_far seid ue i v :
  steps (within seid ue) (far_insert (M:=M) (P:=P) (A:=A) (FarKey_new seid i) v).
Proof.
  intros w. unfold within, far_insert. destruct (bpf_insert _ _ _) as [m|] eqn:E; [|done].
  split; try done. intros j Hj. simpl. rewrite (get_insert _ _ _ _ j E).
  rewrite decide_False; [done|]. intros E'. by apply (Hj i).
Qed.
Lemma within_urr seid ue k : steps (within seid ue) (urr_insert_zeros (M:=M) (P:=P) (A:=A) k).
Proof. intros w. unfold within, urr_insert_zeros. by case_match. Qed.

#[local] Hint Resolve within_srv within_emit within_tui within_tui_sessions within_alloc
  within_session within_pdr within_far
  within_urr : stateful.

Lemma establishment_touches h body src w :
  let w' := (handle_session_establishment (M:=M) (P:=P) (A:=A) assoc_iter now h body src w).2 in
  w_maps w' = w_maps w ∨
  ∃ req f, decode_session_establishment body = Ok req ∧ session_of (w_srv w) req = Some f ∧
    sender_known assoc_iter (w_srv w) src = true ∧
    footprint (f_seid f) (f_ue f) (w_maps w) (w_maps w').
Proof.
  unfold handle_session_establishment. rewrite st_bind_eq. cbn [lift].
  destruct (decode_session_establishment body) as [req|e|]; cbn [map_err]; [|by left..].
  rewrite st_bind_eq, sender_node_eq. unfold sender_known.
  destruct (sa_ip src); [|by left]. destruct (find_assoc _ _ _) as [[k a]|] eqn:Ef; [|by left].
  rewrite st_bind_eq. cbn [alloc]. cbv beta iota. cbn [alloc_seid].
  rewrite st_bind_eq. cbn [alloc]. cbv beta iota. cbn [alloc_teid].
  unfold require. rewrite st_bind_eq. cbn [lift].
  destruct (find_map ue_ip (create_pdrs req)) as [ue|] eqn:Eu; cbn [ok_or]; [|by left].
  rewrite st_bind_eq. cbn [lift].
  destruct (find_map outer_header_creation (create_fars req)) as [o|] eqn:Eo; cbn [ok_or]; [|by left].
  right. exists req. unfold session_of. rewrite Eu, Eo. eexists. split; [done|]. split; [done|].
  split; [by apply bool_decide_eq_true_2|]. cbn [f_seid f_ue].
  match goal with |- footprint _ _ _ (w_maps (?m ?w1).2) =>
    assert (steps (within (next_seid (w_srv w)) ue) m) as Hst; [|exact (Hst w1)] end.
  unfold install_pdr, install_far, install_urr, register_session, get_srv. cbv zeta. stroll.
Qed.

Lemma modification_touches h body src w :
  let w' := (handle_session_modification (M:=M) (P:=P) (A:=A) assoc_iter h body src w).2 in
  w_maps w' = w_maps w ∨
  ∃ seid req node d, hdr_seid h = Some seid ∧ decode_session_modification body = Ok req ∧
    authorise assoc_iter (w_srv w) src seid = Ok (node, d) ∧
    footprint seid (sd_ue_ip d) (w_maps w) (w_maps w').
Proof.
  unfold handle_session_modification, require, get_srv. rewrite st_bind_eq. cbn [lift].
  destruct (decode_session_modification body) as [req|e|]; cbn [map_err]; [|by left..].
  rewrite st_bind_eq. cbn [lift]. destruct (hdr_seid h) as [seid|]; cbn [ok_or]; [|by left].
  rewrite st_bind_eq. cbn [gets]. rewrite st_bind_eq. cbn [lift].
  destruct (sessions (w_srv w) !! seid) as [d|] eqn:Ed; cbn [ok_or]; [|by left].
  rewrite st_bind_eq, owning_node_eq. unfold authorise.
  destruct (sa_ip src) as [ip|] eqn:Eip; [|by left].
  destruct (find_assoc _ _ _) as [[k a]|] eqn:Ef; [|by left].
  destruct (has_key _ _) eqn:Ek; [|by left].
  right. exists seid, req, (as_node_id a), d. rewrite Ed, Ek. split_and!; [done..|].
  match goal with |- footprint _ _ _ (w_maps (?m ?w1).2) =>
    assert (steps (within seid (sd_ue_ip d)) m) as Hst; [|exact (Hst w1)] end.
  unfold update_far, update_urr. cbv zeta. stroll.
Qed.

Lemma delete_maps_within seid ue m : footprint seid ue m (delete_maps seid ue m).
Proof.
  split; [intros j Hj|intros j Hj|intros k Hk|done].
  - rewrite delete_maps_pdr, decide_False; [done|]. intros (i & -> & _)%list_elem_of_fmap. by apply (Hj i).
  - rewrite delete_maps_far, decide_False; [done|]. intros (i & -> & _)%list_elem_of_fmap. by apply (Hj i).
  - by rewrite delete_maps_session, decide_False.
Qed.

(** The other requests leave the maps alone. *)
Definition same_maps w w' : Prop := w_maps w' = w_maps w.
#[local] Instance same_maps_preorder : PreOrder same_maps.
Proof. unfold same_maps. split; [done|]. intros w1 w2 w3 -> ->. done. Qed.

Lemma same_maps_srv f : steps same_maps (on_srv (M:=M) (P:=P) (A:=A) f).
Proof. by intros w. Qed.
Lemma same_maps_tui call : steps same_maps (tui (M:=M) (P:=P) (A:=A) call).
Proof. intros w. by rewrite tui_eq. Qed.
#[local] Hint Resolve same_maps_srv same_maps_tui : stateful.

Lemma heartbeat_same_maps h body src :
  steps same_maps (handle_heartbeat (M:=M) (P:=P) (A:=A) assoc_iter now h body src).
Proof. unfold handle_heartbeat, get_srv. cbv zeta. stroll. Qed.

Lemma association_same_maps h body src :
  steps same_maps (handle_session_association (M:=M) (P:=P) (A:=A) now h body src).
Proof. unfold handle_session_association, get_srv. cbv zeta. stroll. Qed.

(** ** What the footprint leaves *)

Lemma carries_outside seid ue m m' f :
  footprint seid ue m m' → 0 ≤ seid < 2 ^ 48 → u32 ue → wf_forwarding f →
  f_seid f ≠ seid → f_ue f ≠ ue → carries m f → carries m' f.
Proof.
  intros [Fp Ff Fs _] Hs Hue Hw Hne Hu [Cs Cp Cf]. split.
  - rewrite Fs; [done|]. intros E. apply Hu, (bswap_inj 4); [apply Hw|done..].
  - intros p Hp. rewrite Fp; [by apply Cp|]. intros i. apply session_keys_differ; [apply Hw|done..].
  - intros r Hr. rewrite Ff; [by apply Cf|]. intros i. apply session_keys_differ; [apply Hw|done..].
Qed.
End footprint.

(** ** Establishment makes the maps carry the session *)

Lemma session_wf s req f :
  establishment_typed req → coherent req → srv_typed s → 0 ≤ next_seid s < 2 ^ 48 →
  session_of s req = Some f → wf_forwarding f.
Proof.
  intros (_ & Hp & Hf & _) (Np & Nf & Hi & Hpf) Ts Hs. unfold session_of.
  destruct (find_map ue_ip (create_pdrs req)) as [ue|] eqn:Eu; [|done].
  destruct (find_map outer_header_creation (create_fars req)) as [o|] eqn:Eo; [|done].
  cbn [mbind option_bind]. intros [= <-].
  assert (u32 ue) as Hue.
  { apply (find_map_typed pdr_typed u32 ue_ip (create_pdrs req)); [done| |done].
    intros p x (_ & _ & _ & Hx & _) E. by rewrite E in Hx. }
  assert (ohc_typed o) as (Ho1 & Ho2 & _).
  { apply (find_map_typed far_typed ohc_typed outer_header_creation (create_fars req)); [done| |done].
    intros r x (_ & _ & _ & Hx) E. by rewrite E in Hx. }
  split; cbn [f_seid f_ue f_n3 f_gnb f_teid f_pdrs f_fars].
  - done.
  - done.
  - apply Ts.
  - split; [done|apply Ts].
  - split; [|done]. apply (Forall_impl _ _ _ Hp). by intros p (Hx & _).
  - split; [|done]. rewrite Forall_forall in Hi, Hf. apply Forall_forall. intros r Hr.
    specialize (Hi r Hr). destruct (Hf r Hr) as ([? _] & _). split; lia.
  - intros r Hr. rewrite Forall_forall in Hf. destruct (Hf r Hr) as (_ & _ & _ & Hx).
    unfold tunnel_of. by destruct (outer_header_creation r) as [x|]; [destruct Hx as (? & ? & _)|].
  - intros p Hin. rewrite Forall_forall in Hpf. specialize (Hpf p Hin).
    apply Exists_exists in Hpf as (r & Hr & E). by exists r.
  - intros p x Hin E. rewrite Forall_forall in Hp. destruct (Hp p Hin) as (_ & _ & _ & _ & _ & _ & Hx).
    rewrite E in Hx. destruct Hx as (_ & ? & ? & _). done.
Qed.

Section events.
Context {M P A : Type → Type}.
Context `{BpfMapLaws M} `{PerCpuMapLaws P} `{BpfArray A} `{XdpHelperLaws}.
Variable assoc_iter : gmap Z SmfAssociation → list (Z * SmfAssociation).
Hypothesis assoc_iter_perm : ∀ m, assoc_iter m ≡ₚ map_to_list m.

Abbreviation World := (@World M P A).
Implicit Types (w : World) (m : Maps M P A) (σ : Knowledge).

Lemma established_carries s req ue ohc f m m' :
  session_of s req = Some f → find_map ue_ip (create_pdrs req) = Some ue →
  find_map outer_header_creation (create_fars req) = Some ohc → wf_forwarding f →
  established req ue (next_seid s) (next_teid s) (n3_addr s) ohc m m' → carries m' f.
Proof.
  intros Hf Hue Hohc Hw [Es Ep Ef _ _]. unfold session_of in Hf. rewrite Hue, Hohc in Hf.
  cbn [mbind option_bind] in Hf. injection Hf as <-.
  destruct Hw as [Hs _ _ _ [Pu Pn] [Fu Fn] _ _ _]. cbn [f_seid f_pdrs f_fars] in *. split.
  - cbn [f_ue]. by rewrite Es, decide_True.
  - intros p Hp. cbn [f_seid f_ue f_pdrs] in *. rewrite Ep.
    apply (installed_in (λ p, PdrKey_new (next_seid s) (pdr_id p))); [by apply NoDup_keys|done].
  - intros r Hr. cbn [f_seid f_n3 f_fars] in *. rewrite Ef.
    apply (installed_in (λ r, FarKey_new (next_seid s) (far_id r))); [by apply NoDup_keys|done].
Qed.

(** ** Modification moves the tunnel *)

(** The entry of the UE after an Update FAR. *)
Lemma update_far_session seid ue u w w' :
  update_far seid ue u w = (Ok (), w') →
  PDR_MAP (w_maps w') = PDR_MAP (w_maps w) ∧
  bpf_get (SESSION_MAP (w_maps w')) (to_be32 ue) =
  match outer_header_creation u with
  | Some o => if bool_decide (dest_interface u = Some IFACE_ACCESS)
              then set_session_tunnel (ohc_peer_addr o) (ohc_teid o) <$>
                     bpf_get (SESSION_MAP (w_maps w)) (to_be32 ue)
              else bpf_get (SESSION_MAP (w_maps w)) (to_be32 ue)
  | None => bpf_get (SESSION_MAP (w_maps w)) (to_be32 ue)
  end.
Proof.
  unfold update_far. destruct (outer_header_creation u) as [o|]; [|by intros [= <-]].
  intros Hr. apply st_bind_ok in Hr as (fv & w1 & Hg & Hr). injection Hg as <- <-.
  apply st_bind_ok in Hr as ([] & w1 & Hg & Hr).
  assert (PDR_MAP (w_maps w1) = PDR_MAP (w_maps w) ∧ SESSION_MAP (w_maps w1) = SESSION_MAP (w_maps w))
    as [<- <-].
  { destruct (bpf_get (FAR_MAP _) _); [|by injection Hg as <-].
    unfold far_insert in Hg. destruct (bpf_insert _ _ _); [|done]. by injection Hg as <-. }
  clear Hg. destruct (bool_decide _); [|by injection Hr as <-].
  apply st_bind_ok in Hr as (info & w2 & Hi & Hr). injection Hi as <- <-.
  apply st_bind_ok in Hr as ([] & w2 & Hi & Hr). injection Hr as <-.
  destruct (bpf_get (SESSION_MAP (w_maps w1)) _) as [info|] eqn:Es.
  - unfold session_insert in Hi. destruct (bpf_insert _ _ _) as [m|] eqn:Ei; [|done].
    injection Hi as <-. split; [done|]. simpl. by rewrite (get_insert _ _ _ _ _ Ei), decide_True.
  - injection Hi as <-. split; [done|]. exact Es.
Qed.

Lemma retarget1_fields seid f u :
  f_seid (retarget1 seid f u) = f_seid f ∧ f_ue (retarget1 seid f u) = f_ue f ∧
  f_n3 (retarget1 seid f u) = f_n3 f ∧ f_pdrs (retarget1 seid f u) = f_pdrs f.
Proof. unfold retarget1. by destruct (outer_header_creation u). Qed.

(** The FARs keep their identifiers and get, at most, another tunnel. *)
Lemma retarget1_far seid f u r :
  r ∈ f_fars (retarget1 seid f u) →
  ∃ r0, r0 ∈ f_fars f ∧ far_id r = far_id r0 ∧
    (r = r0 ∨ ∃ o, outer_header_creation u = Some o ∧ r = set_ohc o r0).
Proof.
  unfold retarget1. destruct (outer_header_creation u) as [o|]; [|by exists r; auto].
  cbn [f_fars]. destruct (f_seid f =? seid); [|by exists r; auto].
  intros (r0 & -> & Hr)%list_elem_of_fmap. exists r0. split; [done|].
  destruct (far_id r0 =? _); [|by auto]. split; [done|]. right. by exists o.
Qed.

Lemma retarget1_ids seid f u : far_id <$> f_fars (retarget1 seid f u) = far_id <$> f_fars f.
Proof.
  unfold retarget1. destruct (outer_header_creation u) as [o|]; [|done]. cbn [f_fars].
  destruct (f_seid f =? seid); [|done]. rewrite <-list_fmap_compose. apply list_fmap_ext.
  intros i r _. cbn. by destruct (far_id r =? _).
Qed.

Lemma retarget1_wf seid f u : far_typed u → wf_forwarding f → wf_forwarding (retarget1 seid f u).
Proof.
  intros (_ & _ & _ & Hu) Hw. destruct (retarget1_fields seid f u) as (E1 & E2 & E3 & E4).
  pose proof (retarget1_ids seid f u) as Eids.
  destruct Hw as [W1 W2 W3 W4 W5 [W6 W7] W8 W9 W10]. split; rewrite ?E1, ?E2, ?E3, ?E4; try done.
  - unfold retarget1. destruct (outer_header_creation u) as [o|]; [|done]. cbn.
    destruct Hu as (? & ? & _). by destruct (bool_decide _).
  - rewrite Eids. split; [|done]. apply Forall_forall. intros r (r0 & Hr & -> & _)%retarget1_far.
    by eapply Forall_forall in W6.
  - intros r (r0 & Hr & _ & [->|(o & Eo & ->)])%retarget1_far; [by apply W8|].
    rewrite Eo in Hu. destruct Hu as (? & ? & _). done.
  - intros p Hp. destruct (W9 p Hp) as (r & Hr & Er).
    apply (list_elem_of_fmap_2 far_id) in Hr. rewrite <-Eids in Hr.
    apply list_elem_of_fmap in Hr as (r' & E & Hr'). exists r'. split; [done|]. by rewrite <-E.
Qed.

Lemma update_far_carries seid u f w w' :
  update_far seid (f_ue f) u w = (Ok (), w') → 0 ≤ seid < 2 ^ 48 → wf_forwarding f →
  carries (w_maps w) f → carries (w_maps w') (retarget1 seid f u).
Proof.
  intros Hr Hs Hw [Cs Cp Cf]. pose proof (update_far_ok _ _ _ _ _ Hr) as Hfar.
  apply update_far_session in Hr as [Epdr Esess].
  destruct (retarget1_fields seid f u) as (E1 & E2 & E3 & E4).
  split; rewrite ?E1, ?E2, ?E3, ?E4, ?Epdr; [|done|].
  - rewrite Esess, Cs. unfold retarget1. destruct (outer_header_creation u) as [o|]; [|done].
    by destruct (bool_decide _).
  - assert (∀ r, r ∈ f_fars f → FarKey_new seid (far_id u) = FarKey_new (f_seid f) (far_id r) ↔
      f_seid f = seid ∧ far_id r = far_id u mod 65536) as Hkey.
    { intros r Hr. destruct Hw as [W1 _ _ _ _ [W6 _] _ _ _]. rewrite Forall_forall in W6.
      specialize (W6 r Hr). unfold u16 in W6. unfold FarKey_new. rewrite !compose_key_eq by done.
      rewrite (Z.mod_small (far_id r)) by lia. pose proof (Z.mod_pos_bound (far_id u) 65536). lia. }
    intros r Hr. rewrite Hfar. unfold retarget1 in Hr. unfold retunnelled.
    destruct (outer_header_creation u) as [o|]; [|by apply Cf]. cbn [f_fars] in Hr.
    destruct (Z.eqb_spec (f_seid f) seid) as [Eseid|Eseid].
    + apply list_elem_of_fmap in Hr as (r0 & -> & Hr). specialize (Hkey r0 Hr).
      destruct (Z.eqb_spec (far_id r0) (far_id u mod 65536)) as [Eid|Eid].
      * cbn [set_ohc far_id]. rewrite decide_True by by apply Hkey. by rewrite (Cf r0 Hr).
      * rewrite decide_False by (rewrite Hkey; by intros [_ ?]). by apply Cf.
    + specialize (Hkey r Hr). rewrite decide_False by (rewrite Hkey; by intros [? _]). by apply Cf.
Qed.

Lemma update_fars_carries seid us f w w' :
  for_each (update_far seid (f_ue f)) us w = (Ok (), w') → 0 ≤ seid < 2 ^ 48 →
  Forall far_typed us → wf_forwarding f → carries (w_maps w) f →
  wf_forwarding (retarget seid f us) ∧ carries (w_maps w') (retarget seid f us) ∧
  f_ue (retarget seid f us) = f_ue f ∧ f_seid (retarget seid f us) = f_seid f.
Proof.
  intros Hr Hs Hus. revert f w Hr. induction Hus as [|u us Hu _ IH]; intros f w Hr Hw Hc.
  - by injection Hr as <-.
  - apply st_bind_ok in Hr as ([] & w1 & Hu1 & Hr).
    destruct (retarget1_fields seid f u) as (E1 & E2 & _ & _).
    apply update_far_carries in Hu1; [|done..]. rewrite <-E2 in Hr.
    apply IH in Hr as (Hw' & Hc' & E2' & E1'); [|by apply retarget1_wf|done].
    cbn [retarget foldl]. rewrite <-E1, <-E2. by split_and!.
Qed.

Lemma update_fars_none seid ue us w w' :
  for_each (update_far seid ue) us w = (Ok (), w') →
  bpf_get (SESSION_MAP (w_maps w)) (to_be32 ue) = None →
  bpf_get (SESSION_MAP (w_maps w')) (to_be32 ue) = None.
Proof.
  revert w; induction us as [|u us IH]; intros w Hr Hn; [by injection Hr as <-|].
  apply st_bind_ok in Hr as ([] & w1 & Hu1 & Hr). apply (IH w1); [done|].
  apply update_far_session in Hu1 as [_ ->]. rewrite Hn.
  destruct (outer_header_creation u); [|done]. by destruct (bool_decide _).
Qed.

(** ** What is known stays true *)

Record sound σ w : Prop := {
  snd_inv : server_inv (w_srv w);
  snd_typed : world_typed w;
  snd_served ue f : u32 ue → σ ue = Served f →
    f_ue f = ue ∧ wf_forwarding f ∧ carries (w_maps w) f ∧ f_seid f < next_seid (w_srv w) ∧
    ∀ d, sessions (w_srv w) !! f_seid f = Some d → sd_ue_ip d = ue;
  snd_none ue : u32 ue → σ ue = NoSession →
    bpf_get (SESSION_MAP (w_maps w)) (to_be32 ue) = None;
}.

(** An event that tells about [ue] at most: for the others the footprint is
    enough, and what it tells about [ue] is left to show. *)
Lemma learn_sound σ w w' seid ue x :
  sound σ w → evolves w w' → world_typed w' →
  footprint seid ue (w_maps w) (w_maps w') → 0 ≤ seid < 2 ^ 48 → u32 ue →
  (∀ k f, u32 k → k ≠ ue → σ k = Served f → f_seid f ≠ seid) →
  match x with
  | Unknown => True
  | NoSession => bpf_get (SESSION_MAP (w_maps w')) (to_be32 ue) = None
  | Served f => f_ue f = ue ∧ wf_forwarding f ∧ carries (w_maps w') f ∧
      f_seid f < next_seid (w_srv w') ∧
      ∀ d, sessions (w_srv w') !! f_seid f = Some d → sd_ue_ip d = ue
  end → sound (learn ue x σ) w'.
Proof.
  intros [Hi Ht Hsv Hn] (Hnx & Hold & Hi') Ht' Hfp Hs Hue Hother Hx.
  split; [done|done| |]; intros k; intros; unfold learn in *; destruct (Z.eqb_spec k ue) as [->|Hk].
  - subst x. done.
  - destruct (Hsv k f) as (E & Hw & Hc & Hlt & Hd); [done..|]. split; [done|]. split; [done|].
    split; [apply (carries_outside seid ue (w_maps w)); try done; [by eapply Hother|congruence]|].
    split; [lia|]. intros d' Hd'. destruct (Hold _ _ Hd') as [?|(d & Hd0 & _ & ->)]; [lia|by apply Hd].
  - by subst x.
  - rewrite (fp_session _ _ _ _ Hfp); [by apply Hn|]. intros E. by apply Hk, (bswap_inj 4).
Qed.

Lemma same_sound σ w w' :
  sound σ w → evolves w w' → world_typed w' → w_maps w' = w_maps w → sound σ w'.
Proof.
  intros [Hi Ht Hsv Hn] (Hnx & Hold & Hi') Ht' E. split; [done|done| |].
  - intros ue f Hue Hf. destruct (Hsv ue f) as (Ef & Hw & Hc & Hlt & Hd); [done..|].
    rewrite E. split_and!; [done..|lia|]. intros d' Hd'.
    destruct (Hold _ _ Hd') as [?|(d & Hd0 & _ & ->)]; [lia|by apply Hd].
  - rewrite E. exact Hn.
Qed.

(** Forgetting is always sound. *)
Lemma forget_sound σ ue w : sound σ w → sound (learn ue Unknown σ) w.
Proof.
  intros [Hi Ht Hsv Hn]. split; [done|done| |]; intros k; intros; unfold learn in *;
    destruct (k =? ue); first [done|by apply Hsv|by apply Hn].
Qed.

Lemma establishment_sound now h body src σ w :
  let r := handle_session_establishment assoc_iter now h body src w in
  bytes_ok body → sound σ w → next_seid (w_srv w) < 2 ^ 48 - 1 →
  evolves w r.2 → world_typed r.2 →
  sound (match decode_session_establishment body with
         | Ok req =>
             match session_of (w_srv w) req with
             | Some f =>
                 if sender_known assoc_iter (w_srv w) src then
                   learn (f_ue f) (if succeeded r.1 && bool_decide (coherent req)
                                   then Served f else Unknown) σ
                 else σ
             | None => σ
             end
         | _ => σ
         end) r.2.
Proof.
  intros r Hb Hsnd Hlt Hev Hty. pose proof Hsnd as [[Hnx _ _] [Hts _] Hsv _].
  pose proof (establishment_touches assoc_iter now h body src w) as Ht. cbv zeta in Ht. fold r in Ht.
  destruct (decode_session_establishment body) as [req| |] eqn:Ed;
    [|destruct Ht as [E|(? & ? & ? & _)]; [by eapply same_sound|done]..].
  destruct (session_of (w_srv w) req) as [f|] eqn:Ef; last first.
  { destruct Ht as [E|(? & ? & [= <-] & E & _)]; [by eapply same_sound|congruence]. }
  destruct (sender_known assoc_iter (w_srv w) src) eqn:Ek; last first.
  { destruct Ht as [E|(? & ? & _ & _ & E & _)]; [by eapply same_sound|done]. }
  pose proof (ok_with_elim _ _ _ (decode_session_establishment_typed body Hb) Ed) as Htyped.
  assert (f_seid f = next_seid (w_srv w) ∧ u32 (f_ue f)) as [Eseid Hue].
  { unfold session_of in Ef. destruct (find_map ue_ip _) as [ue|] eqn:Eu; [|done].
    destruct (find_map outer_header_creation _); [|done]. injection Ef as <-. split; [done|].
    apply (find_map_typed pdr_typed u32 ue_ip (create_pdrs req)); [apply Htyped| |done].
    intros p x (_ & _ & _ & Hx & _) E. by rewrite E in Hx. }
  apply (learn_sound σ w r.2 (next_seid (w_srv w)) (f_ue f)); try done.
  - rewrite <-Eseid. destruct Ht as [->|(? & f' & [= <-] & Ef' & _ & Hfp)]; [by split|].
    rewrite Ef in Ef'. by injection Ef' as <-.
  - lia.
  - intros k g Hk _ Hg E. destruct (Hsv k g Hk Hg) as (_ & _ & _ & Hl & _). lia.
  - destruct (succeeded r.1 && _) eqn:Es; [|done]. apply andb_true_iff in Es as [Es Hco].
    apply bool_decide_eq_true_1 in Hco. destruct r as [[rsp| |] w'] eqn:Er; [|done..].
    apply establishment_ok in Er as (req' & k & a & ue & ohc & Hdec & _ & _ & Hu & Ho & Hrest).
    cbv zeta in Hrest. destruct Hrest as (_ & Esrv & _ & Hest). rewrite Ed in Hdec.
    injection Hdec as <-. cbn [snd] in *.
    assert (wf_forwarding f) as Hw by (eapply session_wf; try done; lia).
    assert (f_ue f = ue) as Eue.
    { unfold session_of in Ef. rewrite Hu, Ho in Ef. by injection Ef as <-. }
    split; [done|]. split; [done|]. split; [by eapply established_carries|].
    rewrite Esrv. cbn. rewrite Eseid. split; [unfold wrap; rewrite Z.mod_small; lia|].
    rewrite lookup_insert_eq. by intros d [= <-].
Qed.

Lemma authorised s src seid node d :
  authorise assoc_iter s src seid = Ok (node, d) → sessions s !! seid = Some d.
Proof.
  unfold authorise. destruct (sessions s !! seid) as [d'|]; [|done]. destruct (sa_ip src); [|done].
  destruct (find_assoc _ _ _) as [[k a]|]; [|done]. destruct (has_key _ _); [|done].
  by intros [= _ <-].
Qed.

(** A session that is recorded is identified by its own number. *)
Lemma recorded_range σ w seid d :
  sound σ w → next_seid (w_srv w) ≤ 2 ^ 48 → sessions (w_srv w) !! seid = Some d →
  0 ≤ seid < 2 ^ 48 ∧ u32 (sd_ue_ip d) ∧
  ∀ k f, u32 k → k ≠ sd_ue_ip d → σ k = Served f → f_seid f ≠ seid.
Proof.
  intros [[_ Hs _] [Hts _] Hsv _] Hlt Hd. destruct (Hs _ _ Hd) as [Hr _].
  destruct (ty_sessions _ Hts _ _ Hd) as [_ [Hu _]]. split; [lia|]. split; [done|].
  intros k f Hk Hne Hf E. destruct (Hsv k f Hk Hf) as (_ & _ & _ & _ & Hue).
  rewrite E in Hue. by rewrite (Hue d Hd) in Hne.
Qed.

Lemma modification_ok h body src w rsp w' :
  handle_session_modification assoc_iter h body src w = (Ok rsp, w') →
  ∃ req seid node d w1, decode_session_modification body = Ok req ∧ hdr_seid h = Some seid ∧
    authorise assoc_iter (w_srv w) src seid = Ok (node, d) ∧
    for_each (update_far seid (sd_ue_ip d)) (update_fars req) w = (Ok (), w1) ∧
    w_maps w' = w_maps w1.
Proof.
  unfold handle_session_modification. intros Hr.
  apply st_bind_ok in Hr as (req & w1 & Hg & Hr). apply lift_ok in Hg as [Hreq ->].
  apply st_bind_ok in Hr as (seid & w1 & Hg & Hr). apply require_ok in Hg as [Hs ->].
  apply st_bind_ok in Hr as (data & w1 & Hg & Hr). injection Hg as <- <-.
  apply st_bind_ok in Hr as (d & w1 & Hg & Hr). apply require_ok in Hg as [Hd ->].
  apply st_bind_ok in Hr as (node & w1 & Hg & Hr). rewrite owning_node_eq in Hg.
  injection Hg as Ha <-.
  apply st_bind_ok in Hr as ([] & w1 & Hf & Hr).
  apply st_bind_ok in Hr as ([] & w2 & Hu & Hr). apply lift_ok in Hr as [_ ->].
  apply update_urrs_maps in Hu. exists req, seid, node, d, w1.
  split; [by destruct (decode_session_modification body); simplify_eq/=|]. split; [done|].
  split; [|done]. unfold authorise. rewrite Hd. destruct (sa_ip src); [|done].
  destruct (find_assoc _ _ _) as [[k a]|]; [|done]. destruct (has_key _ _); [|done]. by injection Ha as ->.
Qed.

Lemma modification_sound h body src σ w :
  let r := handle_session_modification assoc_iter h body src w in
  bytes_ok body → sound σ w → next_seid (w_srv w) ≤ 2 ^ 48 →
  evolves w r.2 → world_typed r.2 →
  sound (match hdr_seid h, decode_session_modification body with
         | Some seid, Ok req =>
             match authorise assoc_iter (w_srv w) src seid with
             | Ok (_, d) =>
                 learn (sd_ue_ip d) (if succeeded r.1
                   then modified seid (update_fars req) (σ (sd_ue_ip d)) else Unknown) σ
             | _ => σ
             end
         | _, _ => σ
         end) r.2.
Proof.
  intros r Hb Hsnd Hlt Hev Hty.
  pose proof (modification_touches assoc_iter h body src w) as Ht. cbv zeta in Ht. fold r in Ht.
  destruct (hdr_seid h) as [seid|] eqn:Eh;
    [|destruct Ht as [E|(? & ? & ? & ? & ? & _)]; [by eapply same_sound|done]].
  destruct (decode_session_modification body) as [req| |] eqn:Ed;
    [|destruct Ht as [E|(? & ? & ? & ? & _ & ? & _)]; [by eapply same_sound|done]..].
  destruct (authorise assoc_iter (w_srv w) src seid) as [[node d]| |] eqn:Ea;
    [|destruct Ht as [E|(? & ? & ? & ? & [= <-] & _ & ? & _)]; [by eapply same_sound|congruence]..].
  assert (footprint seid (sd_ue_ip d) (w_maps w) (w_maps r.2)) as Hfp.
  { destruct Ht as [->|(? & ? & ? & ? & [= <-] & _ & Ea' & ?)]; [by split|].
    rewrite Ea in Ea'. by injection Ea' as <- <-. }
  destruct (recorded_range σ w seid d Hsnd Hlt (authorised _ _ _ _ _ Ea)) as (Hs & Hue & Hother).
  apply (learn_sound σ w r.2 seid (sd_ue_ip d)); try done.
  destruct r as [[rsp| |] w'] eqn:Er; [|done..]. cbn [succeeded fst snd] in *.
  apply modification_ok in Er as (req' & seid' & node' & d' & w1 & Hd' & Hh' & Ha' & Hf & Em).
  rewrite Ed in Hd'. injection Hd' as <-. rewrite Eh in Hh'. injection Hh' as <-.
  rewrite Ea in Ha'. injection Ha' as <- <-. rewrite Em.
  pose proof (proj1 (ok_with_elim _ _ _ (decode_session_modification_typed body Hb) Ed)) as Hus.
  destruct Hsnd as [Hi Ht' Hsv Hn]. destruct (σ (sd_ue_ip d)) as [| |f] eqn:Ef; cbn [modified]; [done| |].
  - eapply update_fars_none; [done|]. by apply Hn.
  - destruct (Hsv _ _ Hue Ef) as (Eue & Hw & Hc & Hl & Hd). rewrite <-Eue in Hf.
    destruct (update_fars_carries _ _ _ _ _ Hf Hs Hus Hw Hc) as (Hw' & Hc' & -> & ->).
    split; [done|]. split; [done|]. split; [done|]. destruct Hev as (Hnx & Hold & _).
    split; [lia|]. intros d' Hd'. destruct (Hold _ _ Hd') as [?|(d0 & Hd0 & _ & ->)]; [lia|by apply Hd].
Qed.

Lemma deletion_sound h src σ w :
  let r := handle_session_deletion assoc_iter h src w in
  sound σ w → next_seid (w_srv w) ≤ 2 ^ 48 → evolves w r.2 → world_typed r.2 →
  sound (match authorise assoc_iter (w_srv w) src (default 0 (hdr_seid h)) with
         | Ok (_, d) => learn (sd_ue_ip d) NoSession σ
         | _ => σ
         end) r.2.
Proof.
  intros r Hsnd Hlt Hev Hty. unfold r in *. rewrite deletion_eq in *.
  destruct (authorise assoc_iter (w_srv w) src _) as [[node d]| |] eqn:Ea; [|done..].
  destruct (recorded_range σ w _ d Hsnd Hlt (authorised _ _ _ _ _ Ea)) as (Hs & Hue & Hother).
  apply (learn_sound σ w _ (default 0 (hdr_seid h)) (sd_ue_ip d)); try done.
  - apply delete_maps_within.
  - cbn [snd w_maps]. by rewrite delete_maps_session, decide_True.
Qed.

(** The interfaces and the gateway addresses stay. *)
Definition same_ports w w' : Prop :=
  IF_INDEX (w_maps w') = IF_INDEX (w_maps w) ∧ GW_MAC (w_maps w') = GW_MAC (w_maps w).

Lemma same_maps_ports w w' : w_maps w' = w_maps w → same_ports w w'.
Proof. by intros E; unfold same_ports; rewrite E. Qed.

Lemma message_sound now data src σ w :
  bytes_ok data → sound σ w → next_seid (w_srv w) < 2 ^ 48 - 1 →
  let r := handle_message assoc_iter now data src w in
  sound (signalled assoc_iter (w_srv w) data src r.1 σ) r.2 ∧ same_ports w r.2.
Proof.
  intros Hb Hsnd Hlt r. pose proof Hsnd as [Hi Ht _ _].
  pose proof (handle_message_evolves assoc_iter now assoc_iter_perm data src w Hb Hi ltac:(lia)) as Hev.
  pose proof (proj1 (message_typed assoc_iter assoc_iter_perm now data src Hb w Ht)) as Hty.
  fold r in Hev, Hty. unfold signalled. revert Hev Hty. unfold r, handle_message, decode_header.
  rewrite st_bind_eq. cbn [lift].
  destruct (decode data) as [[h body]|e|] eqn:Ed; cbn [map_err]; intros Hev Hty; [|by split..].
  apply decode_widths in Ed as (Hbody & _ & _); [|done]. cbv zeta in *.
  destruct (Z.eqb_spec (hdr_msg_type h) PFCP_HEARTBEAT_REQ) as [->|_].
  { pose proof (heartbeat_same_maps assoc_iter now h body src w) as E.
    split; [by eapply same_sound|by apply same_maps_ports]. }
  destruct (Z.eqb_spec (hdr_msg_type h) PFCP_ASSOCIATION_SETUP_REQ) as [->|_].
  { pose proof (association_same_maps now h body src w) as E.
    split; [by eapply same_sound|by apply same_maps_ports]. }
  destruct (hdr_msg_type h =? PFCP_SESSION_ESTABLISHMENT_REQ).
  { split; [by apply establishment_sound|].
    destruct (establishment_touches assoc_iter now h body src w) as [E|(? & ? & _ & _ & _ & [_ _ _ Hp])];
      [by apply same_maps_ports|done]. }
  destruct (hdr_msg_type h =? PFCP_SESSION_MODIFICATION_REQ).
  { split; [apply modification_sound; try done; lia|].
    destruct (modification_touches assoc_iter h body src w)
      as [E|(? & ? & ? & ? & _ & _ & _ & [_ _ _ Hp])]; [by apply same_maps_ports|done]. }
  destruct (hdr_msg_type h =? PFCP_SESSION_DELETION_REQ).
  { split; [apply deletion_sound; try done; lia|]. rewrite deletion_eq.
    by destruct (authorise _ _ _ _) as [[node d]| |]. }
  destruct (_ =? _); [by split|]. destruct (_ =? _); by split.
Qed.

(** ** Packets change no rule *)

Definition same_rules m m' : Prop :=
  SESSION_MAP m' = SESSION_MAP m ∧ PDR_MAP m' = PDR_MAP m ∧ FAR_MAP m' = FAR_MAP m ∧
  IF_INDEX m' = IF_INDEX m ∧ GW_MAC m' = GW_MAC m.

Lemma uplink_same_rules cpu m ctx :
  bytes_ok (packet ctx) → same_rules m (xr_maps (try_n3_uplink cpu m ctx)).
Proof.
  intros Hb. rewrite try_n3_uplink_eq by done. destruct (decide _); [|done].
  unfold uplink_session. destruct (bpf_get _ _) as [s|]; [|done].
  destruct (selected_drops _); [done|].
  assert (same_rules m (uplink_counted cpu m s ctx)) as Hc.
  { unfold uplink_counted, urr_count. destruct (_ =? 0); [done|].
    by destruct (pc_get (URR_MAP _) _ _). }
  unfold uplink_tail. repeat case_match; exact Hc.
Qed.

Lemma downlink_same_rules cpu m ctx :
  bytes_ok (packet ctx) → same_rules m (xr_maps (try_n6_downlink cpu m ctx)).
Proof.
  intros Hb. rewrite try_n6_downlink_eq by done. destruct (decide _); [|done].
  unfold downlink_session. destruct (bpf_get _ _) as [s|]; [|done].
  destruct (selected_drops _); [done|]. cbv zeta.
  destruct (downlink_target _ _) as [[g t]|]; [|done].
  unfold downlink_tail. repeat case_match; done.
Qed.

(** ** Histories *)

(** A request to the server, or a packet at one of the two programs on some CPU. *)
Inductive Event :=
  | Request (d : Datagram)
  | Uplink (cpu : nat) (ctx : XdpContext)
  | Downlink (cpu : nat) (ctx : XdpContext).

Definition event_ok (e : Event) : Prop :=
  match e with
  | Request (_, data, _) => bytes_ok data
  | Uplink _ ctx | Downlink _ ctx => bytes_ok (packet ctx)
  end.

#[export] Instance event_ok_dec e : Decision (event_ok e).
Proof. destruct e as [[[now data] src]|cpu ctx|cpu ctx]; apply _. Defined.

Definition occur (e : Event) (x : World * Knowledge) : World * Knowledge :=
  let '(w, σ) := x in
  match e with
  | Request (now, data, src) =>
      let r := handle_message assoc_iter now data src w in
      (r.2, signalled assoc_iter (w_srv w) data src r.1 σ)
  | Uplink cpu ctx => (with_maps (λ m, xr_maps (try_n3_uplink cpu m ctx)) w, σ)
  | Downlink cpu ctx => (with_maps (λ m, xr_maps (try_n6_downlink cpu m ctx)) w, σ)
  end.

Definition history (es : list Event) (x : World * Knowledge) : World * Knowledge :=
  foldl (λ x e, occur e x) x es.

Lemma rules_sound σ w f :
  (∀ m, same_rules m (f m)) →
  sound σ w → sound σ (with_maps f w) ∧ same_ports w (with_maps f w).
Proof.
  intros Hf [Hi [Ht1 [[T1 T2 T3] Ht3]] Hsv Hn].
  destruct (Hf (w_maps w)) as (E1 & E2 & E3 & E4 & E5).
  split; [|by split]. split; cbn [w_srv w_maps with_maps].
  - done.
  - split; [done|]. split; [|done]. cbn [w_maps with_maps]. split; rewrite ?E1, ?E2, ?E3; done.
  - intros ue g Hue Hg. destruct (Hsv ue g Hue Hg) as (Eu & Hw & [C1 C2 C3] & Hl & Hd).
    split; [done|]. split; [done|]. split; [|done]. split; by rewrite ?E1, ?E2, ?E3.
  - by rewrite E1.
Qed.

Lemma history_sound es w σ n3 n6 :
  Forall event_ok es → sound σ w → wired (w_maps w) n3 n6 →
  next_seid (w_srv w) + Z.of_nat (length es) < 2 ^ 48 - 1 →
  let x := history es (w, σ) in sound x.2 x.1 ∧ wired (w_maps x.1) n3 n6.
Proof.
  intros Hes. revert w σ; induction Hes as [|e es He _ IH]; intros w σ Hs Hw Hlt; [done|].
  cbn [history foldl length] in *.
  assert (let x := occur e (w, σ) in sound x.2 x.1 ∧ same_ports w x.1 ∧
    next_seid (w_srv x.1) ≤ next_seid (w_srv w) + 1) as (Hs' & [E1 E2] & Hnx).
  { destruct e as [[[now data] src]|cpu ctx|cpu ctx]; cbn [occur fst snd].
    - pose proof (handle_message_evolves assoc_iter now assoc_iter_perm data src w He (snd_inv _ _ Hs)
        ltac:(lia)) as ([_ ?] & _).
      destruct (message_sound now data src σ w He Hs ltac:(lia)) as [? ?]. by split_and!.
    - destruct (rules_sound σ w (λ m, xr_maps (try_n3_uplink cpu m ctx))
        (λ m, uplink_same_rules cpu m ctx He) Hs) as [? ?].
      split_and!; [done..|cbn; lia].
    - destruct (rules_sound σ w (λ m, xr_maps (try_n6_downlink cpu m ctx))
        (λ m, downlink_same_rules cpu m ctx He) Hs) as [? ?].
      split_and!; [done..|cbn; lia]. }
  destruct (occur e (w, σ)) as [w' σ']. cbn [fst snd] in *. apply IH; [done| |lia].
  destruct Hw as [W1 W2 W3]. split; rewrite ?E1, ?E2; done.
Qed.

(** What the two programs must do with a packet of a UE of which [x] is known. *)
Definition treats_downlink (x : Fate) cpu m ctx (n3 : Z) : Prop :=
  match x with
  | Served f => obeys f (policy_down f (downlink_fields (packet ctx))) (drop 14 (packet ctx)) n3
                  (try_n6_downlink cpu m ctx)
  | NoSession => try_n6_downlink cpu m ctx = mkXdp XDP_PASS ctx m None
  | Unknown => True
  end.

Definition treats_uplink (x : Fate) cpu m ctx (n6 : Z) : Prop :=
  let inner := inner_packet (packet ctx) in
  match x with
  | Served f => obeys f (policy_up f (uplink_fields inner)) inner n6 (try_n3_uplink cpu m ctx)
  | NoSession => try_n3_uplink cpu m ctx = mkXdp XDP_PASS ctx m None
  | Unknown => True
  end.

(** C3. Forwarding follows signalling: after any history of requests (from
    anyone, valid or not) and packets, a packet of a UE is treated as the
    requests accepted for that UE say: without a session it is passed to the
    kernel, and with one it is dropped, decapsulated or sent through the
    tunnel that the rules of its establishment choose, with the tunnel end
    points of its last modification; whatever requests for other sessions and
    other UEs came in between. *)
Theorem forwarding_follows_signalling es w σ n3 n6 cpu ctx :
  Forall event_ok es → sound σ w → wired (w_maps w) n3 n6 →
  next_seid (w_srv w) + Z.of_nat (length es) < 2 ^ 48 - 1 →
  bytes_ok (packet ctx) →
  let '(w', σ') := history es (w, σ) in
  (ip_frame (packet ctx) → (44 ≤ headroom ctx)%nat →
   treats_downlink (σ' (be32_at (packet ctx) 30)) cpu (w_maps w') ctx n3) ∧
  (gpdu (packet ctx) →
   treats_uplink (σ' (be32_at (inner_packet (packet ctx)) 12)) cpu (w_maps w') ctx n6).
Proof.
  intros Hes Hs Hw Hlt Hb. destruct (history_sound es w σ n3 n6 Hes Hs Hw Hlt) as [Hs' Hw'].
  destruct (history es (w, σ)) as [w' σ']. cbn [fst snd] in *. destruct Hs' as [_ _ Hsv Hn]. split.
  - intros Hf Hh. destruct (u32_at_be (packet ctx) 30 Hb ltac:(destruct Hf; lia)) as [E Hu].
    unfold treats_downlink. destruct (σ' _) as [| |f] eqn:Ef; [done| |].
    + rewrite try_n6_downlink_eq, decide_True by done. unfold downlink_session. by rewrite E, Hn.
    + destruct (Hsv _ _ Hu Ef) as (Eu & Hwf & Hc & _). by eapply downlink_obeys.
  - intros Hg. set (inner := inner_packet (packet ctx)).
    assert (bytes_ok inner) as Hbi by (unfold inner, inner_packet; auto with bytes).
    assert (20 ≤ length inner)%nat as Hl by apply Hg.
    destruct (u32_at_be inner 12 Hbi ltac:(lia)) as [E Hu].
    unfold treats_uplink. fold inner. destruct (σ' _) as [| |f] eqn:Ef; [done| |].
    + rewrite try_n3_uplink_eq, decide_True by done. unfold uplink_session. fold inner. by rewrite E, Hn.
    + destruct (Hsv _ _ Hu Ef) as (Eu & Hwf & Hc & _). by eapply uplink_obeys.
Qed.

(** A server without sessions over empty maps. *)
Lemma fresh_sound w :
  server_inv (w_srv w) → world_typed w → (∀ k, bpf_get (SESSION_MAP (w_maps w)) k = None) →
  sound (λ _, NoSession) w.
Proof. intros Hi Ht Hn. by split; [..|done|auto]. Qed.
End events.
