(* ===== verification/Reporter.v ===== *)
(** * Usage reporting ([upf-edge/src/urr_reporter.rs])

    Once a second the reporter sums the per-CPU counters of every URR, decides
    which usage is due, and sends a Session Report Request for each.  One tick
    is a function of the entries [URR_MAP] iterates over, the server and the
    time; the two passes of the code (sums under the map's lock, decisions
    under the server's) are its two stages. *)

From S2P Require Import Prelude Types Header Ie Builder Common Server.

(** The sum over the CPUs, in 64 bits. *)
Definition add_stats (sum v : UrrStats) : UrrStats :=
  mkUrrStats (wrap 64 (ul_bytes sum + ul_bytes v)) (wrap 64 (ul_packets sum + ul_packets v))
    (wrap 64 (dl_bytes sum + dl_bytes v)) (wrap 64 (dl_packets sum + dl_packets v)).

Definition sum_cpus (per_cpu : list UrrStats) : UrrStats :=
  foldl add_stats (mkUrrStats 0 0 0 0) per_cpu.

Definition set_threshold_reported (b : bool) (c : UrrConfig) : UrrConfig :=
  mkUrrConfig (uc_urr_id c) (uc_seid c) (uc_cp_seid c) (uc_measurement_method c)
    (uc_reporting_triggers c) (uc_volume_threshold_total c) (uc_measurement_period c)
    (uc_last_report c) b (uc_ur_seqn c).
Definition set_last_report (t : Z) (c : UrrConfig) : UrrConfig :=
  mkUrrConfig (uc_urr_id c) (uc_seid c) (uc_cp_seid c) (uc_measurement_method c)
    (uc_reporting_triggers c) (uc_volume_threshold_total c) (uc_measurement_period c)
    t (uc_threshold_reported c) (uc_ur_seqn c).
Definition set_ur_seqn (n : Z) (c : UrrConfig) : UrrConfig :=
  mkUrrConfig (uc_urr_id c) (uc_seid c) (uc_cp_seid c) (uc_measurement_method c)
    (uc_reporting_triggers c) (uc_volume_threshold_total c) (uc_measurement_period c)
    (uc_last_report c) (uc_threshold_reported c) n.

(** [Duration::from_secs], in nanoseconds. *)
Definition from_secs (s : Z) : Z := s * 1000000000.

(** The triggers that fire for a total volume, and the configuration with the
    flags they set.  The first test multiplies where the second one masks. *)
Definition check_triggers (now total_vol : Z) (cfg : UrrConfig) : Z * UrrConfig :=
  let '(trigger, cfg) :=
    if negb (wrap 8 (uc_reporting_triggers cfg * REPORTING_TRIGGER_VOLTH) =? 0) then
      match uc_volume_threshold_total cfg with
      | Some th =>
          if (th <=? total_vol) && negb (uc_threshold_reported cfg)
          then (Z.lor 0 USAGE_REPORT_TRIGGER_VOLTH, set_threshold_reported true cfg)
          else (0, cfg)
      | None => (0, cfg)
      end
    else (0, cfg) in
  if has_flag (uc_reporting_triggers cfg) REPORTING_TRIGGER_PERIO then
    match uc_measurement_period cfg with
    | Some period =>
        if from_secs period <=? elapsed now (uc_last_report cfg)
        then (Z.lor trigger USAGE_REPORT_TRIGGER_PERIO, set_last_report now cfg)
        else (trigger, cfg)
    | None => (trigger, cfg)
    end
  else (trigger, cfg).

(** The session and URR a composed key stands for. *)
Definition split_key (key : Z) : Z * Z := (Z.shiftr key 16, wrap 32 (Z.land key 65535)).

Definition total_volume (sum : UrrStats) : Z := wrap 64 (ul_bytes sum + dl_bytes sum).

(** One entry: the server and the datagrams collected in [to_send]. *)
Definition report_entry {E} (now : Z) (peer : SocketAddr)
    (acc : PfcpServer * list (SocketAddr * list Z)) (entry : Z * UrrStats)
    : outcome E (PfcpServer * list (SocketAddr * list Z)) :=
  let '(srv, to_send) := acc in
  let '(composed_key, sum) := entry in
  let key := split_key composed_key in
  match urr_configs srv !! key with
  | None => mret (srv, to_send)
  | Some cfg =>
      let '(trigger, cfg) := check_triggers now (total_volume sum) cfg in
      if trigger =? 0 then mret (srv, to_send) else
      let ur_seqn := uc_ur_seqn cfg in
      let cfg := set_ur_seqn (wrap 32 (ur_seqn + 1)) cfg in
      let srv := set_urr_configs (insert key cfg) srv in
      let '(seq, srv) := alloc_report_seq srv in
      req ← build_session_report_request seq (uc_cp_seid cfg) key.2 ur_seqn trigger
              (total_volume sum) (ul_bytes sum) (dl_bytes sum);
      mret (srv, to_send ++ [(peer, req)])
  end.

Definition report_tick {E} (now : Z) (entries : list (Z * list UrrStats)) (srv : PfcpServer)
    : outcome E (PfcpServer * list (SocketAddr * list Z)) :=
  let totals := (λ e, (e.1, sum_cpus e.2)) <$> entries in
  match peer_addr srv with
  | None => mret (srv, [])
  | Some peer => foldM (report_entry now peer) (srv, []) totals
  end.

(** ** Specification

    What is due is a function of the configuration alone. *)

Definition volth_enabled (cfg : UrrConfig) : bool :=
  negb (wrap 8 (uc_reporting_triggers cfg * 2) =? 0).

Definition volth_due (total : Z) (cfg : UrrConfig) : bool :=
  volth_enabled cfg && negb (uc_threshold_reported cfg) &&
  match uc_volume_threshold_total cfg with Some th => th <=? total | None => false end.

Definition perio_due (now : Z) (cfg : UrrConfig) : bool :=
  has_flag (uc_reporting_triggers cfg) 1 &&
  match uc_measurement_period cfg with
  | Some p => p * 1000000000 <=? elapsed now (uc_last_report cfg) | None => false end.

Definition trigger_of (now total : Z) (cfg : UrrConfig) : Z :=
  (if volth_due total cfg then 2 else 0) + (if perio_due now cfg then 1 else 0).

(** The configuration after a tick that saw this total. *)
Definition reported (now total : Z) (cfg : UrrConfig) : UrrConfig :=
  if trigger_of now total cfg =? 0 then cfg else
  mkUrrConfig (uc_urr_id cfg) (uc_seid cfg) (uc_cp_seid cfg) (uc_measurement_method cfg)
    (uc_reporting_triggers cfg) (uc_volume_threshold_total cfg) (uc_measurement_period cfg)
    (if perio_due now cfg then now else uc_last_report cfg)
    (uc_threshold_reported cfg || volth_due total cfg)
    (wrap 32 (uc_ur_seqn cfg + 1)).

Lemma check_triggers_spec now total cfg :
  check_triggers now total cfg =
  (trigger_of now total cfg,
   mkUrrConfig (uc_urr_id cfg) (uc_seid cfg) (uc_cp_seid cfg) (uc_measurement_method cfg)
     (uc_reporting_triggers cfg) (uc_volume_threshold_total cfg) (uc_measurement_period cfg)
     (if perio_due now cfg then now else uc_last_report cfg)
     (uc_threshold_reported cfg || volth_due total cfg) (uc_ur_seqn cfg)).
Proof.
  destruct cfg as [u s cp mm rt th mp lr tr sn].
  unfold check_triggers, trigger_of, volth_due, perio_due, volth_enabled, from_secs,
    REPORTING_TRIGGER_VOLTH, REPORTING_TRIGGER_PERIO. cbn.
  destruct (wrap 8 (rt * 2) =? 0); cbn; [|destruct th as [th|]; cbn;
    [destruct (th <=? total), tr; cbn|]];
    destruct (has_flag rt 1); cbn; try destruct mp as [p|]; cbn;
    try destruct (p * 1000000000 <=? elapsed now lr); cbn; rewrite ?orb_false_r, ?orb_true_r;
    try reflexivity; try (destruct tr; reflexivity).
Qed.

(** A usage report before it is given its sequence number. *)
Record Usage := mkUsage {
  us_cp_seid : Z; us_urr_id : Z; us_ur_seqn : Z; us_trigger : Z;
  us_total : Z; us_ul : Z; us_dl : Z;
}.

(** The report due for an entry, judged by the configurations [cfgs]. *)
Definition usage_due (now : Z) (cfgs : gmap (Z * Z) UrrConfig) (entry : Z * UrrStats)
    : option Usage :=
  cfg ← cfgs !! split_key entry.1;
  let total := total_volume entry.2 in
  if trigger_of now total cfg =? 0 then None else
  Some (mkUsage (uc_cp_seid cfg) (split_key entry.1).2 (uc_ur_seqn cfg)
          (trigger_of now total cfg) total (ul_bytes entry.2) (dl_bytes entry.2)).

Definition usage_request {E} (seq : Z) (u : Usage) : outcome E (list Z) :=
  build_session_report_request seq (us_cp_seid u) (us_urr_id u) (us_ur_seqn u) (us_trigger u)
    (us_total u) (us_ul u) (us_dl u).

(** The requests for a list of usages, numbered from [seq]. *)
Fixpoint numbered {E} (seq : Z) (us : list Usage) : outcome E (list (list Z)) :=
  match us with
  | [] => mret []
  | u :: us => req ← usage_request seq u; reqs ← numbered (wrap 32 (seq + 1)) us; mret (req :: reqs)
  end.

(** The configurations after the entries were judged. *)
Definition after_tick (now : Z) (totals : list (Z * UrrStats)) (cfgs : gmap (Z * Z) UrrConfig)
    : gmap (Z * Z) UrrConfig :=
  foldl (λ c e, alter (reported now (total_volume e.2)) (split_key e.1) c) cfgs totals.

Lemma split_key_inj k1 k2 : split_key k1 = split_key k2 → k1 = k2.
Proof.
  unfold split_key, wrap. intros [= Hs Hl]. change 65535 with (Z.ones 16) in Hl.
  rewrite !Z.land_ones, !Z.shiftr_div_pow2 in * by lia.
  change (2 ^ 16) with 65536 in *. change (2 ^ 32) with 4294967296 in Hl.
  pose proof (Z.mod_pos_bound k1 65536). pose proof (Z.mod_pos_bound k2 65536).
  rewrite !(Z.mod_small (_ mod 65536)) in Hl by lia.
  pose proof (Z.div_mod k1 65536). pose proof (Z.div_mod k2 65536). lia.
Qed.

Lemma usage_due_alter now cfgs f k e :
  split_key e.1 ≠ k → usage_due now (alter f k cfgs) e = usage_due now cfgs e.
Proof. intros Hk. unfold usage_due. by rewrite lookup_alter_ne. Qed.

Lemma omap_usage_due_alter now cfgs f k (l : list (Z * UrrStats)) :
  k ∉ (λ e : Z * UrrStats, split_key e.1) <$> l →
  omap (usage_due now (alter f k cfgs)) l = omap (usage_due now cfgs) l.
Proof.
  induction l as [|e l IH]; intros Hk; [done|]. rewrite fmap_cons in Hk.
  apply not_elem_of_cons in Hk as [He Hk]. rewrite !omap_list_cons, usage_due_alter by auto.
  by rewrite IH.
Qed.

(** One entry judged: nothing, or one request and the counters it moves. *)
Lemma report_entry_spec {E} now peer s out e :
  report_entry (E:=E) now peer (s, out) e =
  match usage_due now (urr_configs s) e with
  | None => Ok (set_urr_configs (alter (reported now (total_volume e.2)) (split_key e.1)) s, out)
  | Some u =>
      req ← usage_request (next_report_seq s) u;
      Ok (set_counters (next_seid s) (next_teid s) (wrap 32 (next_report_seq s + 1))
            (set_urr_configs (alter (reported now (total_volume e.2)) (split_key e.1)) s),
          out ++ [(peer, req)])
  end.
Proof.
  destruct e as [k sum]. unfold report_entry, usage_due. cbn [fst snd].
  destruct (urr_configs s !! split_key k) as [cfg|] eqn:Ec; cbn [mbind option_bind].
  - rewrite check_triggers_spec. cbv beta iota.
    destruct (trigger_of now (total_volume sum) cfg =? 0) eqn:Et.
    + assert (alter (reported now (total_volume sum)) (split_key k) (urr_configs s) = urr_configs s)
        as Ha.
      { apply alter_id. intros c Hc. rewrite Ec in Hc. injection Hc as <-. unfold reported. by rewrite Et. }
      unfold mret, outcome_ret, set_urr_configs. rewrite Ha. by destruct s.
    + cbn -[build_session_report_request]. unfold usage_request.
      cbn -[build_session_report_request].
      destruct (build_session_report_request _ _ _ _ _ _ _ _) as [req| |];
        [|reflexivity|reflexivity].
      rewrite !bind_Ok. unfold mret, outcome_ret, set_urr_configs, set_counters. cbn.
      do 3 f_equal.
      apply map_eq. intros j. destruct (decide (split_key k = j)) as [<-|Hj].
      * rewrite lookup_insert_eq, lookup_alter_eq, Ec. cbn. unfold reported. by rewrite Et.
      * by rewrite lookup_insert_ne, lookup_alter_ne.
  - unfold mret, outcome_ret, set_urr_configs.
    rewrite alter_id by (intros c Hc; by rewrite Ec in Hc). by destruct s.
Qed.

Lemma usage_request_ok {E} seq u : ∃ req, usage_request (E:=E) seq u = Ok req.
Proof.
  unfold usage_request, build_session_report_request. cbv zeta.
  rewrite msg_new_body, !add_ie_body, finish_encode. by eexists.
Qed.

Lemma numbered_ok {E} seq us :
  ∃ reqs, numbered (E:=E) seq us = Ok reqs ∧ length reqs = length us.
Proof.
  revert seq; induction us as [|u us IH]; intros seq; [by exists []|]. cbn [numbered].
  destruct (usage_request_ok (E:=E) seq u) as [req ->].
  destruct (IH (wrap 32 (seq + 1))) as (reqs & -> & Hl). simpl_outcome.
  exists (req :: reqs). split; [done|]. simpl. by rewrite Hl.
Qed.

(** The server after a tick. *)
Definition reported_srv (now : Z) (totals : list (Z * UrrStats)) (sent : nat) (s : PfcpServer)
    : PfcpServer :=
  set_counters (next_seid s) (next_teid s) (wrap 32 (next_report_seq s + Z.of_nat sent))
    (set_urr_configs (after_tick now totals) s).

Lemma report_loop {E} now peer totals s out :
  NoDup (fst <$> totals) → u32 (next_report_seq s) →
  let us := omap (usage_due now (urr_configs s)) totals in
  foldM (report_entry (E:=E) now peer) (s, out) totals =
  (reqs ← numbered (next_report_seq s) us;
   Ok (reported_srv now totals (length us) s, out ++ (pair peer <$> reqs))).
Proof.
  revert s out; induction totals as [|e totals IH]; intros s out Hnd Hseq; cbv zeta.
  - cbn. unfold reported_srv. rewrite Z.add_0_r, app_nil_r. unfold wrap.
    rewrite Z.mod_small by exact Hseq. by destruct s.
  - rewrite fmap_cons in Hnd. apply NoDup_cons in Hnd as [He Hnd].
    assert (split_key e.1 ∉ (λ e : Z * UrrStats, split_key e.1) <$> totals) as Hk.
    { intros (e' & Ee & He')%list_elem_of_fmap. apply split_key_inj in Ee. apply He.
      rewrite Ee. by apply list_elem_of_fmap_2. }
    cbn [foldM]. rewrite report_entry_spec, omap_list_cons.
    pose proof (omap_usage_due_alter now (urr_configs s) (reported now (total_volume e.2)) _ totals Hk)
      as Hom.
    destruct (usage_due now (urr_configs s) e) as [u|] eqn:Eu.
    + cbn [numbered]. destruct (usage_request_ok (E:=E) (next_report_seq s) u) as [req ->].
      simpl_outcome. rewrite IH; [|done|]; cbn [urr_configs set_counters set_urr_configs next_report_seq].
      2: { unfold wrap. apply Z.mod_pos_bound. lia. }
      rewrite Hom. destruct (numbered _ _) as [reqs| |]; simpl_outcome; try done.
      rewrite <-(assoc_L (++)). unfold reported_srv, set_counters, set_urr_configs.
      cbn. do 3 f_equal. unfold wrap. rewrite Zplus_mod_idemp_l. f_equal. lia.
    + rewrite bind_Ok, IH by done. cbn [urr_configs set_urr_configs next_report_seq].
      rewrite Hom. by destruct (numbered _ _).
Qed.

(** C26. The reporter implements its specification: on a tick the server sends
    to its peer, in the order of the map, one Session Report Request for each
    URR whose usage is due and no other, numbered consecutively from the
    server's report counter (in 32 bits); every configuration is updated as
    the report says, and nothing else of the server changes.  Without a peer
    nothing happens. *)
Theorem report_tick_exact {E} now entries s :
  NoDup (fst <$> entries) → u32 (next_report_seq s) →
  let totals := (λ e, (e.1, sum_cpus e.2)) <$> entries in
  let us := omap (usage_due now (urr_configs s)) totals in
  match peer_addr s with
  | None => report_tick (E:=E) now entries s = Ok (s, [])
  | Some peer => ∃ reqs, numbered (E:=E) (next_report_seq s) us = Ok reqs ∧
      length reqs = length us ∧
      report_tick (E:=E) now entries s =
        Ok (reported_srv now totals (length us) s, pair peer <$> reqs)
  end.
Proof.
  intros Hnd Hseq totals us. unfold report_tick. fold totals.
  destruct (peer_addr s) as [peer|]; [|done].
  destruct (numbered_ok (E:=E) (next_report_seq s) us) as (reqs & Hr & Hl).
  exists reqs. split; [done|]. split; [done|].
  rewrite report_loop; [|unfold totals; by rewrite <-list_fmap_compose|done].
  fold us. by rewrite Hr.
Qed.

(** ** The volume threshold *)

(** The reporter's loop over any number of ticks, with the requests still
    tagged by the key of the entry they were sent for. *)
Fixpoint reporter_run {E} (peer : SocketAddr) (srv : PfcpServer)
    (calls : list (Z * (Z * UrrStats))) : outcome E (PfcpServer * list (Z * list Z)) :=
  match calls with
  | [] => mret (srv, [])
  | (now, e) :: calls =>
      '(srv, sent) ← report_entry now peer (srv, []) e;
      '(srv, trace) ← reporter_run peer srv calls;
      mret (srv, ((λ d : SocketAddr * list Z, (e.1, d.2)) <$> sent) ++ trace)
  end.

(** Tick after tick, each with its time and the entries of [URR_MAP]. *)
Fixpoint report_ticks {E} (ticks : list (Z * list (Z * list UrrStats))) (srv : PfcpServer)
    : outcome E (PfcpServer * list (SocketAddr * list Z)) :=
  match ticks with
  | [] => mret (srv, [])
  | (now, entries) :: ticks =>
      '(srv, sent) ← report_tick now entries srv;
      '(srv, sent') ← report_ticks ticks srv;
      mret (srv, sent ++ sent')
  end.

Definition tick_calls (t : Z * list (Z * list UrrStats)) : list (Z * (Z * UrrStats)) :=
  (λ e : Z * list UrrStats, (t.1, (e.1, sum_cpus e.2))) <$> t.2.

(** The first octet of the Usage Report Trigger of a Session Report Request:
    sixteen octets of header, five of Report Type, four that open the Usage
    Report, eight of URR ID, eight of UR-SEQN, four that open the trigger. *)
Definition report_octet (req : list Z) : Z := req !!! 45%nat.

(** The reports sent for [key] with the volume bit on the wire. *)
Definition volume_reports (key : Z) (trace : list (Z * list Z)) : nat :=
  length (List.filter (λ x, (x.1 =? key) && Z.testbit (report_octet x.2) 1) trace).

(** All the octets the CPUs counted for a URR, in both directions, in 64 bits. *)
Definition volume (per_cpu : list UrrStats) : Z :=
  foldr (λ v sum, ul_bytes v + dl_bytes v + sum) 0 per_cpu mod 2 ^ 64.

Lemma total_volume_sum per_cpu : total_volume (sum_cpus per_cpu) = volume per_cpu.
Proof.
  unfold sum_cpus, volume.
  assert (∀ t, total_volume (foldl add_stats t per_cpu) =
    (ul_bytes t + dl_bytes t + foldr (λ v sum, ul_bytes v + dl_bytes v + sum) 0 per_cpu) mod 2 ^ 64)
    as Hacc.
  { induction per_cpu as [|v l IH]; intros t; cbn [foldl foldr].
    - unfold total_volume, wrap. by rewrite Z.add_0_r.
    - rewrite IH. unfold add_stats, wrap. cbn [ul_bytes dl_bytes].
      generalize (foldr (λ v sum, ul_bytes v + dl_bytes v + sum) 0 l). intros r.
      rewrite <-Z.add_mod_idemp_l, <-Z.add_mod, Z.add_mod_idemp_l by lia. f_equal. lia. }
  rewrite Hacc. done.
Qed.

Lemma trigger_bit now total cfg :
  Z.testbit (trigger_of now total cfg) 1 = volth_due total cfg.
Proof. unfold trigger_of. by destruct (volth_due _ _), (perio_due _ _). Qed.

(** The multiplication lets every octet but two through. *)
Lemma volth_enabled_octet cfg :
  u8 (uc_reporting_triggers cfg) →
  volth_enabled cfg =
  negb (uc_reporting_triggers cfg =? 0) && negb (uc_reporting_triggers cfg =? 128).
Proof.
  unfold u8, volth_enabled, wrap. change (2 ^ 8) with 256. intros Hb.
  destruct (Z.eqb_spec (uc_reporting_triggers cfg) 0) as [->|];
    [done|destruct (Z.eqb_spec (uc_reporting_triggers cfg) 128) as [->|]; [done|]].
  cbn [negb andb]. apply negb_true_iff, Z.eqb_neq. Z.div_mod_to_equations. lia.
Qed.

Lemma reported_fields now total cfg :
  volth_enabled (reported now total cfg) = volth_enabled cfg ∧
  uc_volume_threshold_total (reported now total cfg) = uc_volume_threshold_total cfg ∧
  uc_threshold_reported (reported now total cfg) =
    (uc_threshold_reported cfg || volth_due total cfg)%bool.
Proof.
  unfold reported, volth_enabled. destruct (trigger_of now total cfg =? 0) eqn:Et; [|done].
  split; [done|]. split; [done|]. unfold trigger_of in Et.
  destruct (volth_due total cfg), (perio_due now cfg); try done. by rewrite orb_false_r.
Qed.

Lemma request_octet {E} seq u req :
  usage_request (E:=E) seq u = Ok req → report_octet req = us_trigger u.
Proof.
  unfold usage_request, build_session_report_request. cbv zeta.
  rewrite msg_new_body, !add_ie_body, finish_encode. intros [= <-]. reflexivity.
Qed.

Lemma reporter_run_volume {E} peer key srv cfg calls :
  urr_configs srv !! split_key key = Some cfg →
  ∃ srv' trace, reporter_run (E:=E) peer srv calls = Ok (srv', trace) ∧
    volume_reports key trace =
    if volth_enabled cfg && negb (uc_threshold_reported cfg) &&
       match uc_volume_threshold_total cfg with
       | Some th => existsb (λ c, (c.2.1 =? key) && (th <=? total_volume c.2.2)) calls
       | None => false end
    then 1%nat else 0%nat.
Proof.
  revert srv cfg; induction calls as [|[now e] calls IH]; intros srv cfg Hcfg.
  { exists srv, []. split; [done|].
    by destruct (volth_enabled cfg), (uc_threshold_reported cfg), (uc_volume_threshold_total cfg). }
  cbn [reporter_run existsb snd]. rewrite report_entry_spec.
  set (f := reported now (total_volume e.2)).
  assert (∀ srv1, urr_configs srv1 = alter f (split_key e.1) (urr_configs srv) →
    urr_configs srv1 !! split_key key = Some (if e.1 =? key then f cfg else cfg)) as Hnext.
  { intros srv1 ->. destruct (Z.eqb_spec e.1 key) as [->|Hk].
    - by rewrite lookup_alter_eq, Hcfg.
    - rewrite lookup_alter_ne; [done|]. by intros ?%split_key_inj. }
  destruct (usage_due now (urr_configs srv) e) as [u|] eqn:Eu.
  - destruct (usage_request_ok (E:=E) (next_report_seq srv) u) as [req Hreq]. rewrite Hreq, bind_Ok.
    edestruct (IH _ _ (Hnext (set_counters (next_seid srv) (next_teid srv)
      (wrap 32 (next_report_seq srv + 1)) (set_urr_configs (alter f (split_key e.1)) srv)) eq_refl))
      as (srv' & trace & Hrun & Hv).
    exists srv', ((e.1, req) :: trace). rewrite bind_Ok, Hrun. split; [reflexivity|].
    unfold volume_reports in *. cbn [List.filter fst snd].
    rewrite (request_octet _ _ _ Hreq). destruct (e.1 =? key) eqn:Ek; cbn [andb orb]; [|exact Hv].
    apply Z.eqb_eq in Ek. unfold usage_due in Eu. rewrite Ek, Hcfg in Eu.
    cbn [mbind option_bind] in Eu. destruct (_ =? 0); [discriminate|]. injection Eu as <-.
    cbn [us_trigger]. rewrite trigger_bit. unfold f in Hv.
    destruct (reported_fields now (total_volume e.2) cfg) as (E1 & E2 & E3).
    rewrite E1, E2, E3 in Hv. unfold volth_due in *.
    destruct (volth_enabled cfg), (uc_threshold_reported cfg), (uc_volume_threshold_total cfg)
      as [th|]; simpl in *; try exact Hv.
    destruct (th <=? total_volume e.2); simpl in *; [by rewrite Hv|exact Hv].
  - edestruct (IH _ _ (Hnext (set_urr_configs (alter f (split_key e.1)) srv) eq_refl))
      as (srv' & trace & Hrun & Hv).
    exists srv', trace. rewrite bind_Ok, Hrun. split; [reflexivity|]. rewrite Hv.
    destruct (e.1 =? key) eqn:Ek; cbn [andb orb]; [|done].
    apply Z.eqb_eq in Ek. unfold usage_due in Eu. rewrite Ek, Hcfg in Eu.
    cbn [mbind option_bind] in Eu. destruct (_ =? 0) eqn:Et; [|discriminate].
    unfold f, reported. rewrite Et. unfold trigger_of, volth_due in Et.
    destruct (volth_enabled cfg), (uc_threshold_reported cfg), (uc_volume_threshold_total cfg)
      as [th|]; simpl in *; try done.
    destruct (th <=? total_volume e.2); simpl in *; [|done].
    by destruct (perio_due now cfg).
Qed.

Lemma report_tick_run {E} now peer entries srv out :
  foldM (report_entry (E:=E) now peer) (srv, out) ((λ e, (e.1, sum_cpus e.2)) <$> entries) =
  ('(srv', trace) ← reporter_run peer srv (tick_calls (now, entries));
   mret (srv', out ++ ((λ x : Z * list Z, (peer, x.2)) <$> trace))).
Proof.
  revert srv out; induction entries as [|e entries IH]; intros srv out.
  - cbn. by rewrite app_nil_r.
  - cbn [fmap list_fmap foldM tick_calls reporter_run fst snd].
    rewrite !report_entry_spec. cbn [fst snd].
    destruct (usage_due now (urr_configs srv) _) as [u|].
    + destruct (usage_request_ok (E:=E) (next_report_seq srv) u) as [req ->]. rewrite !bind_Ok, IH.
      unfold tick_calls. cbn [fst snd]. destruct (reporter_run _ _ _) as [[s' tr]| |]; simpl_outcome;
        [|reflexivity|reflexivity]. cbn. by rewrite <-(assoc_L (++)).
    + rewrite !bind_Ok, IH. unfold tick_calls. cbn [fst snd].
      by destruct (reporter_run _ _ _) as [[s' tr]| |].
Qed.

Lemma reporter_run_app {E} peer srv calls1 calls2 :
  reporter_run (E:=E) peer srv (calls1 ++ calls2) =
  ('(srv, t1) ← reporter_run peer srv calls1;
   '(srv, t2) ← reporter_run peer srv calls2; mret (srv, t1 ++ t2)).
Proof.
  revert srv; induction calls1 as [|[now e] calls1 IH]; intros srv.
  - cbn. by destruct (reporter_run peer srv calls2) as [[? ?]| |].
  - cbn [app reporter_run]. destruct (report_entry _ _ _ _) as [[s1 sent]| |]; simpl_outcome;
      try reflexivity. rewrite IH.
    destruct (reporter_run peer s1 calls1) as [[s2 t1]| |]; simpl_outcome; try reflexivity.
    destruct (reporter_run peer s2 calls2) as [[s3 t2]| |]; simpl_outcome; try reflexivity.
    by rewrite (assoc_L (++)).
Qed.

Lemma reporter_run_peer {E} peer srv calls srv' trace :
  reporter_run (E:=E) peer srv calls = Ok (srv', trace) → peer_addr srv' = peer_addr srv.
Proof.
  revert srv trace; induction calls as [|[now e] calls IH]; intros srv trace.
  - by intros [= <- _].
  - cbn [reporter_run]. rewrite report_entry_spec.
    destruct (usage_due now (urr_configs srv) e) as [u|].
    + destruct (usage_request_ok (E:=E) (next_report_seq srv) u) as [req ->]. rewrite !bind_Ok.
      destruct (reporter_run _ _ _) as [[s' tr]| |] eqn:Er; simpl_outcome; try discriminate.
      intros [= <- _]. by apply IH in Er.
    + rewrite !bind_Ok.
      destruct (reporter_run _ _ _) as [[s' tr]| |] eqn:Er; simpl_outcome; try discriminate.
      intros [= <- _]. by apply IH in Er.
Qed.

Lemma report_ticks_run {E} peer ticks srv srv' trace :
  peer_addr srv = Some peer →
  reporter_run (E:=E) peer srv (ticks ≫= tick_calls) = Ok (srv', trace) →
  report_ticks (E:=E) ticks srv = Ok (srv', (λ x : Z * list Z, (peer, x.2)) <$> trace).
Proof.
  revert srv trace; induction ticks as [|[now entries] ticks IH]; intros srv trace Hp.
  - by intros [= <- <-].
  - rewrite bind_cons, reporter_run_app.
    destruct (reporter_run peer srv (tick_calls (now, entries))) as [[s1 t1]| |] eqn:E1;
      simpl_outcome; try discriminate.
    destruct (reporter_run peer s1 _) as [[s2 t2]| |] eqn:E2; simpl_outcome; try discriminate.
    intros [= <- <-]. cbn [report_ticks]. unfold report_tick. cbv zeta.
    rewrite Hp, report_tick_run, E1. simpl_outcome.
    rewrite (IH s1 t2); [|by rewrite (reporter_run_peer _ _ _ _ _ E1)|done].
    simpl_outcome. by rewrite fmap_app.
Qed.

(** C27. Between two updates of a URR the volume threshold is reported once:
    in any sequence of ticks of the server, whatever their times, the other
    URRs and the totals, the Session Report Requests sent for the URR with the
    VOLTH bit on the wire are one when the URR was not reported before, a
    threshold is set and in some tick the octets counted over all CPUs reached
    it, and none otherwise.  The test of the trigger octet lets every octet
    but 0 and 128 through, so that a URR which asks for periodic reports only
    is reported for its volume as well. *)
Theorem threshold_reported_once {E} peer key ticks srv cfg :
  peer_addr srv = Some peer → urr_configs srv !! split_key key = Some cfg →
  u8 (uc_reporting_triggers cfg) →
  ∃ srv' trace,
    reporter_run (E:=E) peer srv (ticks ≫= tick_calls) = Ok (srv', trace) ∧
    report_ticks (E:=E) ticks srv = Ok (srv', (λ x : Z * list Z, (peer, x.2)) <$> trace) ∧
    volume_reports key trace =
    if negb (uc_reporting_triggers cfg =? 0) && negb (uc_reporting_triggers cfg =? 128) &&
       negb (uc_threshold_reported cfg) &&
       match uc_volume_threshold_total cfg with
       | Some th => existsb (λ t : Z * list (Z * list UrrStats),
           existsb (λ e, (e.1 =? key) && (th <=? volume e.2)) t.2) ticks
       | None => false end
    then 1%nat else 0%nat.
Proof.
  intros Hp Hcfg Hb.
  destruct (reporter_run_volume (E:=E) peer key srv cfg (ticks ≫= tick_calls) Hcfg)
    as (srv' & trace & Hrun & Hv).
  exists srv', trace. split; [done|]. split; [by apply report_ticks_run|]. rewrite Hv.
  replace (volth_enabled cfg) with
    (negb (uc_reporting_triggers cfg =? 0) && negb (uc_reporting_triggers cfg =? 128))
    by (by rewrite volth_enabled_octet).
  destruct (uc_volume_threshold_total cfg) as [th|]; [|done].
  replace (existsb _ (ticks ≫= tick_calls)) with (existsb (λ t : Z * list (Z * list UrrStats),
    existsb (λ e, (e.1 =? key) && (th <=? volume e.2)) t.2) ticks); [done|].
  clear. induction ticks as [|[now es] ticks IH]; [done|].
  rewrite bind_cons, existsb_app. cbn [existsb]. rewrite IH. f_equal.
  unfold tick_calls. clear. cbn [fst snd]. induction es as [|e es IH]; [done|].
  cbn. by rewrite IH, total_volume_sum.
Qed.

(** ** Witnesses *)

(** A URR that asks for periodic reports only, with a threshold of 1000 octets. *)
Definition perio_only : UrrConfig := mkUrrConfig 1 5 3 2 1 (Some 1000) (Some 30) 0 false 0.

Definition reporting_server : PfcpServer :=
  set_peer_addr (Some (mkSocketAddr (V4 167772161) 8805))
    (set_urr_configs (insert (5, 1) perio_only) (PfcpServer_new 0 0 0 0)).

(** Two CPUs counted 600 and 500 octets. *)
Definition counted_entries : list (Z * list UrrStats) :=
  [(327681, [mkUrrStats 600 6 0 0; mkUrrStats 0 0 500 5])].

Lemma report_tick_exact_witness :
  ∃ s' req, report_tick (E:=unit) 1 counted_entries reporting_server =
    Ok (s', [(mkSocketAddr (V4 167772161) 8805, req)]) ∧ next_report_seq s' = 1001.
Proof.
  pose proof (report_tick_exact (E:=unit) 1 counted_entries reporting_server) as H.
  destruct H as (reqs & Hn & Hl & Hr).
  - apply (bool_decide_unpack _). vm_compute. exact I.
  - split; [discriminate|reflexivity].
  - destruct reqs as [|req [|? ?]]; [discriminate Hl| |discriminate Hl].
    eexists _, req. split; [exact Hr|]. reflexivity.
Defined.

(** Three ticks that see 900, 1100 and 1200 octets: one report, at the second. *)
Definition growing_ticks : list (Z * list (Z * list UrrStats)) :=
  [(1, [(327681, [mkUrrStats 500 5 0 0; mkUrrStats 0 0 400 4])]);
   (2, [(327681, [mkUrrStats 600 6 0 0; mkUrrStats 0 0 500 5])]);
   (3, [(327681, [mkUrrStats 600 6 0 0; mkUrrStats 0 0 600 6])])].

Lemma threshold_reported_once_witness :
  ∃ srv' req, report_ticks (E:=unit) growing_ticks reporting_server =
    Ok (srv', [(mkSocketAddr (V4 167772161) 8805, req)]) ∧ report_octet req = 2.
Proof.
  destruct (threshold_reported_once (E:=unit) (mkSocketAddr (V4 167772161) 8805) 327681
    growing_ticks reporting_server perio_only eq_refl eq_refl)
    as (srv' & trace & Hrun & Hticks & Hv); [split; [discriminate|reflexivity]|].
  rewrite Hticks. change (volume_reports 327681 trace = 1%nat) in Hv.
  vm_compute in Hrun. injection Hrun as Hs Ht. subst trace. eexists _, _. split; reflexivity.
Defined.
