(* ===== verification/SmfSim.v ===== *)
(** * The SMF simulator ([smf-sim/src])

    The client side of the protocol: the allocators ([state.rs]), the checks of
    a response ([validator.rs]), the retransmission loop ([transport.rs]) on
    what the network yields to each attempt, the requests of the single-message
    commands and the handling of Session Reports ([main.rs]), and scenario 1
    ([scenario/basic_lifecycle.rs]).  The loop in time is in [Transport.v], the
    keepalive in [SimKeepalive.v]. *)

From S2P Require Import Prelude Text Types Header Ie Builder Messages Dict Server.

Inductive SimError :=
| SimDecode (e : PfcpError)
| TypeMismatch (expected got : Z)
| SeqMismatch (expected got : Z)
| MandatoryMissing (names : list string)
| NotAccepted (cause : Z)
| NoFseid | NoCreatedPdr | NoFteid
| ZeroSeid | ZeroTeid
| PoolExhausted
| Timeout | RecvError | SendError
| ScenarioError (what : string).

(** ** State ([state.rs]) *)

Record SimSession := mkSimSession {
  ss_cp_seid : Z; ss_upf_seid : Z; ss_upf_teid : Z; ss_upf_n3_addr : Z;
  ss_ue_ip : Z; ss_gnb_teid : Z; ss_created_at : Z;
}.

Record SimState := mkSimState {
  next_ue_ip : Z;
  ue_ip_end : Z;
  next_gnb_teid : Z;
  next_cp_seid : Z;
  next_seq : Z;
  sim_sessions : gmap Z SimSession;
  upf_recovery_ts : option Z;
  my_recovery_ts : Z;
}.

Definition SimState_new (unix pool_start pool_end gnb_teid_start : Z) : SimState :=
  mkSimState pool_start pool_end gnb_teid_start 1 1 ∅ None (ntp_of_unix unix).

Definition set_next_ue_ip v s := mkSimState v (ue_ip_end s) (next_gnb_teid s) (next_cp_seid s)
  (next_seq s) (sim_sessions s) (upf_recovery_ts s) (my_recovery_ts s).
Definition set_next_gnb_teid v s := mkSimState (next_ue_ip s) (ue_ip_end s) v (next_cp_seid s)
  (next_seq s) (sim_sessions s) (upf_recovery_ts s) (my_recovery_ts s).
Definition set_next_cp_seid v s := mkSimState (next_ue_ip s) (ue_ip_end s) (next_gnb_teid s) v
  (next_seq s) (sim_sessions s) (upf_recovery_ts s) (my_recovery_ts s).
Definition set_next_seq v s := mkSimState (next_ue_ip s) (ue_ip_end s) (next_gnb_teid s)
  (next_cp_seid s) v (sim_sessions s) (upf_recovery_ts s) (my_recovery_ts s).
Definition set_sim_sessions f s := mkSimState (next_ue_ip s) (ue_ip_end s) (next_gnb_teid s)
  (next_cp_seid s) (next_seq s) (f (sim_sessions s)) (upf_recovery_ts s) (my_recovery_ts s).

Definition alloc_ue_ip : st SimState SimError Z := λ s,
  if next_ue_ip s <=? ue_ip_end s
  then (Ok (next_ue_ip s), set_next_ue_ip (wrap 32 (next_ue_ip s + 1)) s)
  else (Err PoolExhausted, s).
Definition alloc_gnb_teid : st SimState SimError Z := λ s,
  (Ok (next_gnb_teid s), set_next_gnb_teid (wrap 32 (next_gnb_teid s + 1)) s).
Definition alloc_cp_seid : st SimState SimError Z := λ s,
  (Ok (next_cp_seid s), set_next_cp_seid (wrap 64 (next_cp_seid s + 1)) s).
Definition next_seq_num : st SimState SimError Z := λ s,
  (Ok (next_seq s), set_next_seq (wrap 32 (next_seq s + 1)) s).

(** ** Checks of a response ([validator.rs]) *)

Definition ensure (b : bool) (e : SimError) : outcome SimError unit :=
  if b then Ok () else Err e.

Definition validate_response (req_type req_seq : Z) (rsp : list Z) : outcome SimError unit :=
  '(rsp_hdr, body) ← map_err SimDecode (decode rsp);
  let expected_type := wrap 8 (req_type + 1) in
  ensure (hdr_msg_type rsp_hdr =? expected_type)
    (TypeMismatch expected_type (hdr_msg_type rsp_hdr));;
  ensure (hdr_seq_num rsp_hdr =? req_seq) (SeqMismatch req_seq (hdr_seq_num rsp_hdr));;
  let result := validate (hdr_msg_type rsp_hdr) body in
  ensure (validation_is_ok result) (MandatoryMissing (missing result));;
  match find_ie PFCP_IE_CAUSE (iter_ies body) with
  | None => mret ()
  | Some cause =>
      ensure (bool_decide (head (ie_value cause) = Some CAUSE_REQUEST_ACCEPTED))
        (NotAccepted (default 0 (head (ie_value cause))))
  end.

Definition extract_session_info (rsp : list Z) : outcome SimError (Z * Z * Z) :=
  '(_, body) ← map_err SimDecode (decode rsp);
  let ies := iter_ies body in
  fseid ← ok_or (find_ie PFCP_IE_FSEID ies) NoFseid;
  '(upf_seid, _) ← map_err SimDecode (parse_fseid (ie_value fseid));
  ensure (negb (upf_seid =? 0)) ZeroSeid;;
  created_pdr ← ok_or (find_ie PFCP_IE_CREATED_PDR ies) NoCreatedPdr;
  let inner := iter_ies (ie_value created_pdr) in
  fteid ← ok_or (find_ie PFCP_IE_FTEID inner) NoFteid;
  '(upf_teid, upf_n3_addr) ← map_err SimDecode (parse_fteid (ie_value fteid));
  ensure (negb (upf_teid =? 0)) ZeroTeid;;
  mret (upf_seid, upf_teid, upf_n3_addr).

(** The [Option] result of [.ok()?] and [.and_then(..ok())]; [None] also stands
    for a message without the IE. *)
Definition extract_recovery_ts (rsp : list Z) : option Z :=
  match decode rsp with
  | Ok (_, body) =>
      ie ← find_ie PFCP_IE_RECOVERY_TIME_STAMP (iter_ies body);
      match parse_recovery_timestamp (ie_value ie) with Ok ts => Some ts | _ => None end
  | _ => None
  end.

(** ** The transport ([transport.rs]) *)

Definition handle_unsolicited (unix : Z) (data : list Z) : outcome SimError (option (list Z)) :=
  match decode data with
  | Ok (hdr, _) =>
      if hdr_msg_type hdr =? PFCP_HEARTBEAT_REQ then
        rsp ← build_heartbeat_response (hdr_seq_num hdr) (ntp_of_unix unix); mret (Some rsp)
      else mret None
  | Err _ => mret None
  | Panic => Panic
  end.

(** What one [recv_from] yields; running out of events is the deadline. *)
Inductive RecvEvent :=
| Received (buf : list Z) (src : SocketAddr)
| RecvFailed.

(** How one attempt ends: with the response, or with [last_err]. *)
Fixpoint await_response (unix expected : Z) (events : list RecvEvent)
    : outcome SimError (list Z + SimError) * list (list Z * SocketAddr) :=
  match events with
  | [] => (Ok (inr Timeout), [])
  | RecvFailed :: _ => (Ok (inr RecvError), [])
  | Received buf src :: events =>
      match decode buf with
      | Ok (hdr, _) =>
          if hdr_msg_type hdr =? expected then (Ok (inl buf), []) else
          match handle_unsolicited unix buf with
          | Ok (Some rsp) =>
              let '(r, sent) := await_response unix expected events in (r, (rsp, src) :: sent)
          | Ok None => await_response unix expected events
          | Err e => (Err e, [])
          | Panic => (Panic, [])
          end
      | Err _ => await_response unix expected events
      | Panic => (Panic, [])
      end
  end.

(** The attempts still to be made; [send_ok] and [events] are what the network
    does on each. *)
Fixpoint attempts (unix expected : Z) (peer : SocketAddr) (msg : list Z)
    (net : list (bool * list RecvEvent)) (last_err : option SimError)
    : outcome SimError (list Z) * list (list Z * SocketAddr) :=
  match net with
  | [] => (match last_err with Some e => Err e | None => Panic end, [])
  | (send_ok, events) :: net =>
      if negb send_ok then (Err SendError, []) else
      match await_response unix expected events with
      | (Ok (inl rsp), sent) => (Ok rsp, (msg, peer) :: sent)
      | (Ok (inr e), sent) =>
          let '(r, sent') := attempts unix expected peer msg net (Some e) in
          (r, (msg, peer) :: sent ++ sent')
      | (Err e, sent) => (Err e, (msg, peer) :: sent)
      | (Panic, sent) => (Panic, (msg, peer) :: sent)
      end
  end.

(** [for attempt in 0..=max_retries]; [net i] is what happens on attempt [i]. *)
Definition send_and_recv (unix : Z) (peer : SocketAddr) (max_retries : nat)
    (net : nat → bool * list RecvEvent) (msg : list Z)
    : outcome SimError (list Z) * list (list Z * SocketAddr) :=
  match decode msg with
  | Ok (hdr, _) =>
      attempts unix (wrap 8 (hdr_msg_type hdr + 1)) peer msg (net <$> seq 0 (S max_retries)) None
  | Err e => (Err (SimDecode e), [])
  | Panic => (Panic, [])
  end.

(** *** The interface of the bind address

    [find_interface_for_addr]: [output] is what [ip -o -4 addr show] printed, if
    it ran; [parse_ip] stands for the parser of [IpAddr]. *)
Fixpoint find_in_lines {E} (parse_ip : str → option IpAddr) (ip : IpAddr) (ls : list str)
    : outcome E (option str) :=
  match ls with
  | [] => Ok None
  | line :: ls =>
      let parts := split_whitespace line in
      if (length parts <? 4)%nat then
        match parts !! 1%nat, parts !! 3%nat with
        | Some iface, Some addr_with_prefix =>
            match head (split (λ c, c =? 47) addr_with_prefix) ≫= parse_ip with
            | Some addr =>
                if bool_decide (addr = ip) then Ok (Some iface) else find_in_lines parse_ip ip ls
            | None => find_in_lines parse_ip ip ls
            end
        | _, _ => Panic
        end
      else find_in_lines parse_ip ip ls
  end.

Definition find_interface_for_addr {E} (parse_ip : str → option IpAddr) (ip : IpAddr)
    (output : option str) : outcome E (option str) :=
  match output with
  | None => Ok None
  | Some output_str => find_in_lines parse_ip ip (lines output_str)
  end.

(** ** Requests of the single-message commands ([main.rs]) *)

Record SimConfig := mkSimConfig {
  smf_n4_addr : Z;
  gnb_addr : Z;
  gnb_teid_start : Z;
  heartbeat_interval_sec : Z;
}.

Definition heartbeat_request {E} (seq recovery_ts : Z) : outcome E (list Z) :=
  finish (add_recovery_timestamp (msg_new (new_node_msg PFCP_HEARTBEAT_REQ seq)) recovery_ts).

Definition association_request {E} (seq smf_addr recovery_ts : Z) : outcome E (list Z) :=
  let msg := msg_new (new_node_msg PFCP_ASSOCIATION_SETUP_REQ seq) in
  let msg := add_node_id_v4 msg smf_addr in
  finish (add_recovery_timestamp msg recovery_ts).

Definition deletion_request {E} (seq seid : Z) : outcome E (list Z) :=
  finish (msg_new (new_session_msg PFCP_SESSION_DELETION_REQ seid seq)).

Definition command_pdrs (ue_ip : Z) : list PdrParams :=
  [ {| pp_pdr_id := 1; pp_precedence := 100; pp_source_interface := INTERFACE_ACCESS;
       pp_fteid_choose := false; pp_ue_ip := Some ue_ip; pp_far_id := 1; pp_urr_id := Some 1;
       pp_outer_header_removal := false; pp_sdf_filter := Some (mkSdfFilter 6 0 0 0 0) |};
    {| pp_pdr_id := 2; pp_precedence := 200; pp_source_interface := INTERFACE_ACCESS;
       pp_fteid_choose := false; pp_ue_ip := Some ue_ip; pp_far_id := 3; pp_urr_id := None;
       pp_outer_header_removal := false; pp_sdf_filter := None |};
    {| pp_pdr_id := 3; pp_precedence := 100; pp_source_interface := INTERFACE_CORE;
       pp_fteid_choose := false; pp_ue_ip := Some ue_ip; pp_far_id := 2; pp_urr_id := Some 1;
       pp_outer_header_removal := false; pp_sdf_filter := None |} ].

Definition command_fars (gnb_teid gnb : Z) : list FarParams :=
  [ {| fp_far_id := 1; fp_apply_action := Types.ACTION_FORW; fp_dest_interface := INTERFACE_CORE;
       fp_outer_header_creation := None |};
    {| fp_far_id := 2; fp_apply_action := Types.ACTION_FORW;
       fp_dest_interface := INTERFACE_ACCESS;
       fp_outer_header_creation := Some (mkOHC gnb_teid gnb 2152) |};
    {| fp_far_id := 3; fp_apply_action := Types.ACTION_DROP; fp_dest_interface := INTERFACE_CORE;
       fp_outer_header_creation := None |} ].

Definition command_urrs (volth period : option Z) : list UrrParams :=
  [ {| up_urr_id := 1; up_measurement_method := MEASUREMENT_METHOD_VOLUM;
       up_reporting_triggers := Z.lor REPORTING_TRIGGER_VOLTH REPORTING_TRIGGER_PERIO;
       up_volume_threshold_total := volth; up_measurement_period := period |} ].

Definition command_establishment {E} (config : SimConfig) (ue_ip : Z) : outcome E (list Z) :=
  finish (session_establishment_msg 2 (smf_n4_addr config) 1 (command_pdrs ue_ip)
    (command_fars (gnb_teid_start config) (gnb_addr config))
    (command_urrs (Some 10000) (Some 30))).

Definition command_modification {E} (seid : Z) (volth period : option Z) : outcome E (list Z) :=
  finish (session_modification_msg 3 seid [] (command_urrs volth period)).

(** ** Session Report Requests ([wait_and_handle_reports]) *)

Record UsageSeen := mkUsageSeen {
  seen_urr_id : Z; seen_trigger : Z; seen_total : Z; seen_ul : Z; seen_dl : Z;
}.

Definition usage_step (acc : UsageSeen) (ie : RawIE) : outcome SimError UsageSeen :=
  let v := ie_value ie in
  if (ie_type ie =? PFCP_IE_URR_ID) && (4 <=? length v)%nat then
    urr ← be_at 4 v 0;
    mret (mkUsageSeen urr (seen_trigger acc) (seen_total acc) (seen_ul acc) (seen_dl acc))
  else if (ie_type ie =? PFCP_IE_USAGE_REPORT_TRIGGER) && (2 <=? length v)%nat then
    trigger ← idx v 0;
    mret (mkUsageSeen (seen_urr_id acc) trigger (seen_total acc) (seen_ul acc) (seen_dl acc))
  else if (ie_type ie =? PFCP_IE_VOLUME_MEASUREMENT) && (25 <=? length v)%nat then
    total ← be_at 8 v 1; ul ← be_at 8 v 9; dl ← be_at 8 v 17;
    mret (mkUsageSeen (seen_urr_id acc) (seen_trigger acc) total ul dl)
  else mret acc.

Definition usage_of (outer : RawIE) : outcome SimError UsageSeen :=
  foldM usage_step (mkUsageSeen 0 0 0 0 0) (iter_ies (ie_value outer)).

(** What the loop does with one datagram: the usages it logs under the SEID and
    the response it sends back; [None] when it only logs. *)
Definition handle_report (data : list Z)
    : outcome SimError (option (Z * list UsageSeen * list Z)) :=
  match decode data with
  | Ok (hdr, body) =>
      if hdr_msg_type hdr =? PFCP_SESSION_REPORT_REQ then
        let seid := default 0 (hdr_seid hdr) in
        usages ← mapM usage_of (filter_ies PFCP_IE_USAGE_REPORT_IN_SESS_RPT_REQ (iter_ies body));
        rsp ← build_session_report_response (hdr_seq_num hdr) seid;
        mret (Some (seid, usages, rsp))
      else mret None
  | Err _ => mret None
  | Panic => Panic
  end.

(** ** Exchanges

    The client's programs are written against the transport: a request in, the
    response or the transport's error out, on whatever state [N] the network
    has. *)
Section client.
Context {N : Type}.
Variable exchange : list Z → st N SimError (list Z).
(** What happens on the network while the task sleeps, for a number of seconds. *)
Variable elapse : Z → st N SimError unit.

(** [recovery_ts()], fixed at its first call. *)
Variable recovery_ts : Z.

Definition send_heartbeat : st N SimError unit :=
  req ← lift (heartbeat_request 1 recovery_ts);
  rsp ← exchange req;
  lift (validate_response PFCP_HEARTBEAT_REQ 1 rsp).

Definition send_association_setup (smf_addr : Z) : st N SimError unit :=
  req ← lift (association_request 1 smf_addr recovery_ts);
  rsp ← exchange req;
  lift (validate_response PFCP_ASSOCIATION_SETUP_REQ 1 rsp).

Definition send_session_establishment (config : SimConfig) (ue_ip : Z)
    : st N SimError (Z * Z * Z) :=
  req ← lift (command_establishment config ue_ip);
  rsp ← exchange req;
  lift (validate_response PFCP_SESSION_ESTABLISHMENT_REQ 2 rsp);;
  lift (extract_session_info rsp).

Definition send_session_modification (seid : Z) (volth period : option Z) : st N SimError unit :=
  req ← lift (command_modification seid volth period);
  rsp ← exchange req;
  '(hdr, _) ← lift (map_err SimDecode (decode rsp));
  lift (ensure (hdr_msg_type hdr =? PFCP_SESSION_MODIFICATION_RSP)
    (TypeMismatch PFCP_SESSION_MODIFICATION_RSP (hdr_msg_type hdr))).

Definition send_session_deletion (upf_seid : Z) : st N SimError unit :=
  req ← lift (deletion_request 99 upf_seid);
  rsp ← exchange req;
  lift (validate_response PFCP_SESSION_DELETION_REQ 99 rsp).

(** ** Scenario 1 ([scenario/basic_lifecycle.rs]) *)

Record Run := mkRun {
  run_net : N;
  run_sim : SimState;
  run_sleeps : list Z;    (* the waits, in seconds *)
}.

Definition on_sim {T} (m : st SimState SimError T) : st Run SimError T := λ r,
  let '(o, s) := m (run_sim r) in (o, mkRun (run_net r) s (run_sleeps r)).
Definition run_exchange (req : list Z) : st Run SimError (list Z) := λ r,
  let '(o, n) := exchange req (run_net r) in (o, mkRun n (run_sim r) (run_sleeps r)).
Definition sleep (secs : Z) : st Run SimError unit := λ r,
  let '(o, n) := elapse secs (run_net r) in (o, mkRun n (run_sim r) (run_sleeps r ++ [secs])).

(** [min(3u64 * 2u64.pow(cnt_tries - 1), 30)], in 64 bits. *)
Definition wait_secs (cnt_tries : Z) : Z :=
  Z.min (wrap 64 (3 * wrap 64 (2 ^ wrap 32 (cnt_tries - 1)))) 30.

(** One try: the accepted response, or a wait. *)
Definition try_association (seq cnt_tries : Z) (req : list Z)
    : st Run SimError (option (list Z)) := λ r,
  match run_exchange req r with
  | (Ok rsp, r) =>
      match validate_response PFCP_ASSOCIATION_SETUP_REQ seq rsp with
      | Ok _ => (Ok (Some rsp), r)
      | Err _ => (sleep (wait_secs cnt_tries);; mret None) r
      | Panic => (Panic, r)
      end
  | (Err _, r) => (sleep (wait_secs cnt_tries);; mret None) r
  | (Panic, r) => (Panic, r)
  end.

(** The association loop, for at most [fuel] tries. *)
Fixpoint associate (fuel : nat) (config : SimConfig) (cnt_tries : Z)
    : st Run SimError (list Z * Z) :=
  match fuel with
  | O => fail (ScenarioError "association still tried")
  | S fuel =>
      seq ← on_sim next_seq_num;
      req ← lift (association_request seq (smf_n4_addr config) recovery_ts);
      let cnt_tries := wrap 32 (cnt_tries + 1) in
      rsp ← try_association seq cnt_tries req;
      match rsp with
      | Some rsp => mret (rsp, cnt_tries)
      | None => associate fuel config cnt_tries
      end
  end.

Definition scenario_sdf (ue_ip gnb : Z) : SdfFilter := mkSdfFilter 6 ue_ip gnb 1234 5678.

Definition scenario_pdrs (ue_ip gnb : Z) : list PdrParams :=
  [ {| pp_pdr_id := 1; pp_precedence := 100; pp_source_interface := INTERFACE_ACCESS;
       pp_fteid_choose := true; pp_ue_ip := Some ue_ip; pp_far_id := 1; pp_urr_id := None;
       pp_outer_header_removal := true; pp_sdf_filter := Some (scenario_sdf ue_ip gnb) |};
    {| pp_pdr_id := 2; pp_precedence := 100; pp_source_interface := INTERFACE_CORE;
       pp_fteid_choose := false; pp_ue_ip := Some ue_ip; pp_far_id := 2; pp_urr_id := None;
       pp_outer_header_removal := false; pp_sdf_filter := Some (scenario_sdf ue_ip gnb) |} ].

Definition scenario_fars (gnb_teid gnb : Z) : list FarParams :=
  [ {| fp_far_id := 1; fp_apply_action := Types.ACTION_FORW; fp_dest_interface := INTERFACE_CORE;
       fp_outer_header_creation := None |};
    {| fp_far_id := 2; fp_apply_action := Types.ACTION_FORW;
       fp_dest_interface := INTERFACE_ACCESS;
       fp_outer_header_creation := Some (mkOHC gnb_teid gnb 2152) |} ].

Definition handover_far (gnb : Z) : FarParams :=
  {| fp_far_id := 2; fp_apply_action := Types.ACTION_FORW; fp_dest_interface := INTERFACE_ACCESS;
     fp_outer_header_creation := Some (mkOHC 3735928559 gnb 2152) |}.

(** [run]: the whole life of one session. *)
Definition basic_lifecycle (fuel : nat) (now : Z) (config : SimConfig) : st Run SimError unit :=
  '(_, cnt_tries) ← associate fuel config 0;
  ue_ip ← on_sim alloc_ue_ip;
  gnb_teid ← on_sim alloc_gnb_teid;
  cp_seid ← on_sim alloc_cp_seid;
  seq ← on_sim next_seq_num;
  req ← lift (finish (session_establishment_msg seq (smf_n4_addr config) cp_seid
    (scenario_pdrs ue_ip (gnb_addr config)) (scenario_fars gnb_teid (gnb_addr config)) []));
  rsp ← run_exchange req;
  lift (validate_response PFCP_SESSION_ESTABLISHMENT_REQ seq rsp);;
  '(upf_seid, upf_teid, upf_n3_addr) ← lift (extract_session_info rsp);
  on_sim (modify (set_sim_sessions (insert cp_seid
    (mkSimSession cp_seid upf_seid upf_teid upf_n3_addr ue_ip gnb_teid now))));;
  sleep (wrap 64 (wrap 64 (heartbeat_interval_sec config * 3) + 5));;
  seq ← on_sim next_seq_num;
  req ← lift (finish (session_modification_msg seq upf_seid
    [handover_far (gnb_addr config)] []));
  rsp ← run_exchange req;
  lift (validate_response PFCP_SESSION_MODIFICATION_REQ seq rsp);;
  seq ← on_sim next_seq_num;
  req ← lift (deletion_request seq upf_seid);
  rsp ← run_exchange req;
  lift (validate_response PFCP_SESSION_DELETION_REQ seq rsp);;
  on_sim (modify (set_sim_sessions (delete cp_seid))).
End client.

(** ** A usage report arrives as it was sent *)

Definition usage_value (urr_id ur_seqn trigger total ul dl : Z) : list Z :=
  let ur := append_ie [] PFCP_IE_URR_ID (to_be_bytes 4 urr_id) in
  let ur := append_ie ur PFCP_IE_UR_SEQN (to_be_bytes 4 ur_seqn) in
  let ur := append_ie ur PFCP_IE_USAGE_REPORT_TRIGGER [trigger; 0] in
  append_ie ur PFCP_IE_VOLUME_MEASUREMENT
    ([7] ++ to_be_bytes 8 total ++ to_be_bytes 8 ul ++ to_be_bytes 8 dl).

Lemma length_usage_value u q t tot ul dl : length (usage_value u q t tot ul dl) = 51%nat.
Proof. unfold usage_value. len. Qed.

Lemma usage_of_built u q t tot ul dl :
  u32 u → u64 tot → u64 ul → u64 dl →
  usage_of (parsed_ie PFCP_IE_USAGE_REPORT_IN_SESS_RPT_REQ (usage_value u q t tot ul dl)) =
  Ok (mkUsageSeen u t tot ul dl).
Proof.
  intros Hu Ht Hul Hdl. unfold usage_of. cbn [ie_value parsed_ie]. unfold usage_value.
  repeat peel. change (iter_ies []) with (@nil RawIE). cbn [foldM]. simpl_outcome.
  unfold usage_step. cbn [parsed_ie ie_type ie_value]. eval_eqb. cbn [andb]. eval_len.
  read_field 4%nat 0%nat (@nil Z) (@nil Z) u. simpl_outcome.
  rewrite (idx_Ok _ 0 t) by done. simpl_outcome.
  read_field 8%nat 1%nat [7] (to_be_bytes 8 ul ++ to_be_bytes 8 dl) tot. simpl_outcome.
  read_field 8%nat 9%nat ([7] ++ to_be_bytes 8 tot) (to_be_bytes 8 dl) ul. simpl_outcome.
  read_field 8%nat 17%nat ([7] ++ to_be_bytes 8 tot ++ to_be_bytes 8 ul) (@nil Z) dl.
  reflexivity.
Qed.

(** A Session Report Request the server builds is read by the simulator
    with exactly the values that were put in (URR, trigger and the three
    volumes at their full 64 bits), under the CP SEID, and is answered with a
    Session Report Response of the same sequence number. *)
Theorem report_received seq cp_seid urr_id ur_seqn trigger total ul dl :
  0 ≤ seq < 2 ^ 24 → u64 cp_seid → u32 urr_id → u64 total → u64 ul → u64 dl →
  ∃ data rsp, build_session_report_request (E:=SimError) seq cp_seid urr_id ur_seqn trigger
      total ul dl = Ok data ∧
    build_session_report_response (E:=SimError) seq cp_seid = Ok rsp ∧
    handle_report data = Ok (Some (cp_seid, [mkUsageSeen urr_id trigger total ul dl], rsp)).
Proof.
  intros Hseq Hcp Hurr Ht Hul Hdl.
  set (h := new_session_msg PFCP_SESSION_REPORT_REQ cp_seid seq).
  set (ies := [(PFCP_IE_REPORT_TYPE, [REPORT_TYPE_USAR]);
    (PFCP_IE_USAGE_REPORT_IN_SESS_RPT_REQ, usage_value urr_id ur_seqn trigger total ul dl)]).
  destruct (decode_finish (E:=SimError) h (ies_bytes ies)) as (data & Hd & _ & Hdec).
  { by apply wf_session_msg. }
  assert (∃ rsp, build_session_report_response (E:=SimError) seq cp_seid = Ok rsp) as [rsp Hrsp].
  { unfold build_session_report_response, add_cause. rewrite msg_new_body, add_ie_body, finish_encode.
    by eexists. }
  exists data, rsp. split; [|split; [done|]].
  - unfold build_session_report_request. cbv zeta. rewrite msg_new_body, !add_ie_body. exact Hd.
  - unfold handle_report. rewrite Hdec. cbv iota beta.
    change (hdr_msg_type (with_length _ h) =? PFCP_SESSION_REPORT_REQ) with true. cbv iota zeta.
    rewrite iter_ies_ies_bytes.
    2: { unfold ies. by fits. }
    rewrite filter_ies_parsed. unfold ies. cbn [List.filter fst]. eval_eqb.
    cbn [fmap list_fmap mapM]. rewrite usage_of_built by done. simpl_outcome.
    change (default 0 (hdr_seid _)) with cp_seid. change (hdr_seq_num _) with seq.
    rewrite Hrsp. reflexivity.
Qed.

Lemma report_received_witness :
  ∃ data rsp, handle_report data = Ok (Some (3, [mkUsageSeen 1 2 1100 600 500], rsp)).
Proof.
  destruct (report_received 1000 3 1 0 2 1100 600 500
    (conj (Zle_bool_imp_le 0 1000 eq_refl) eq_refl) ltac:(by uint) ltac:(by uint) ltac:(by uint)
    ltac:(by uint) ltac:(by uint)) as (data & rsp & _ & _ & H).
  exists data, rsp. exact H.
Defined.

(** ** Retransmission *)

(** The datagrams an attempt can see: those before a receive error. *)
Fixpoint datagrams (events : list RecvEvent) : list (list Z * SocketAddr) :=
  match events with
  | Received buf src :: events => (buf, src) :: datagrams events
  | _ => []
  end.

Definition attempt_error (events : list RecvEvent) : SimError :=
  if existsb (λ e, match e with RecvFailed => true | Received _ _ => false end) events
  then RecvError else Timeout.

Definition of_type (t : Z) (d : list Z * SocketAddr) : bool :=
  match decode d.1 with Ok (h, _) => hdr_msg_type h =? t | _ => false end.

(** The answer of an attempt: its first datagram of the expected type. *)
Definition answer (expected : Z) (events : list RecvEvent) : option (list Z) :=
  fst <$> List.find (of_type expected) (datagrams events).

Fixpoint before {A} (f : A → bool) (l : list A) : list A :=
  match l with
  | [] => []
  | x :: l => if f x then [] else x :: before f l
  end.

Definition heartbeat_reply (unix : Z) (d : list Z * SocketAddr) : option (list Z * SocketAddr) :=
  match decode d.1 with
  | Ok (h, _) =>
      if hdr_msg_type h =? PFCP_HEARTBEAT_REQ then
        match build_heartbeat_response (E:=SimError) (hdr_seq_num h) (ntp_of_unix unix) with
        | Ok rsp => Some (rsp, d.2) | _ => None end
      else None
  | _ => None
  end.

(** What an attempt sends: the request, and a response to each heartbeat that
    arrives before the answer. *)
Definition transmissions (unix expected : Z) (peer : SocketAddr) (msg : list Z)
    (events : list RecvEvent) : list (list Z * SocketAddr) :=
  (msg, peer) :: omap (heartbeat_reply unix) (before (of_type expected) (datagrams events)).

Lemma await_response_spec unix expected events :
  await_response unix expected events =
  (Ok (match answer expected events with
       | Some rsp => inl rsp | None => inr (attempt_error events) end),
   omap (heartbeat_reply unix) (before (of_type expected) (datagrams events))).
Proof.
  induction events as [|[buf src|] events IH]; [done| |done].
  assert (answer expected (Received buf src :: events) =
    if of_type expected (buf, src) then Some buf else answer expected events) as ->.
  { unfold answer. cbn [datagrams List.find]. by destruct (of_type _ _). }
  cbn [await_response datagrams before]. unfold handle_unsolicited.
  assert (attempt_error (Received buf src :: events) = attempt_error events) as -> by done.
  assert (of_type expected (buf, src) =
    match decode buf with Ok (h, _) => hdr_msg_type h =? expected | _ => false end) as -> by done.
  assert (heartbeat_reply unix (buf, src) = match decode buf with
    | Ok (h, _) => if hdr_msg_type h =? PFCP_HEARTBEAT_REQ then
        match build_heartbeat_response (E:=SimError) (hdr_seq_num h) (ntp_of_unix unix) with
        | Ok rsp => Some (rsp, src) | _ => None end else None
    | _ => None end) as Hr by done.
  pose proof (decode_not_panic buf) as Hp.
  destruct (decode buf) as [[h body]|e|]; [|rewrite IH|done].
  - destruct (hdr_msg_type h =? expected); [done|]. rewrite omap_list_cons, Hr.
    destruct (hdr_msg_type h =? PFCP_HEARTBEAT_REQ); [|by rewrite IH].
    unfold build_heartbeat_response, add_recovery_timestamp. cbv zeta.
    rewrite msg_new_body, add_ie_body, finish_encode. simpl_outcome. by rewrite IH.
  - by rewrite omap_list_cons, Hr.
Qed.

(** How a sequence of attempts ends. *)
Definition attempts_end (unix expected : Z) (peer : SocketAddr) (msg : list Z)
    (net : list (list RecvEvent)) (r : outcome SimError (list Z))
    (sent : list (list Z * SocketAddr)) : Prop :=
  match r with
  | Ok rsp => ∃ pre events post, net = pre ++ events :: post ∧
      Forall (λ ev, answer expected ev = None) pre ∧ answer expected events = Some rsp ∧
      sent = concat (transmissions unix expected peer msg <$> (pre ++ [events]))
  | Err e => Forall (λ ev, answer expected ev = None) net ∧
      sent = concat (transmissions unix expected peer msg <$> net) ∧
      (e = Timeout ∨ e = RecvError)
  | Panic => False
  end.

Lemma attempts_spec unix expected peer msg net last :
  Forall (λ a, a.1 = true) net → (last = Some Timeout ∨ last = Some RecvError ∨ net ≠ []) →
  attempts_end unix expected peer msg (snd <$> net)
    (attempts unix expected peer msg net last).1 (attempts unix expected peer msg net last).2.
Proof.
  intros Hok. revert last; induction Hok as [|[ok ev] net Hev _ IH]; intros last Hlast.
  - destruct Hlast as [->|[->|?]]; [| |done]; cbn; auto.
  - cbn [attempts]. cbn in Hev. subst ok. cbn [negb]. rewrite await_response_spec.
    destruct (answer expected ev) as [rsp|] eqn:Ea.
    + exists [], ev, (snd <$> net). cbn [fst snd app]. repeat split; [constructor|done|].
      cbn. by rewrite app_nil_r.
    + specialize (IH (Some (attempt_error ev))).
      assert (attempt_error ev = Timeout ∨ attempt_error ev = RecvError) as He.
      { unfold attempt_error. destruct (existsb _ _); auto. }
      destruct (attempts unix expected peer msg net _) as [r sent]. cbn [fst snd] in IH |- *.
      specialize (IH ltac:(destruct He as [-> | ->]; auto)).
      destruct r as [rsp|e|]; cbn in IH |- *.
      * destruct IH as (pre & events & post & -> & Hpre & Ha & ->).
        exists (ev :: pre), events, post. repeat split; [by constructor|done].
      * destruct IH as (Hn & -> & Herr). repeat split; [by constructor|done].
      * done.
Qed.

(** The transport is a correct retransmission loop: with [max_retries]
    retries on a network that accepts what is sent, it returns the first
    datagram of the expected type, after having sent the request once per
    attempt begun, and no more often; only when none of the [1 + max_retries]
    attempts sees one it fails, with a timeout or a receive error.  Whatever
    else arrives is skipped, except that heartbeats of the UPF are answered. *)
Theorem send_and_recv_spec unix peer max_retries net msg h body :
  decode msg = Ok (h, body) → (∀ i, (net i).1 = true) →
  attempts_end unix (wrap 8 (hdr_msg_type h + 1)) peer msg
    ((λ i, (net i).2) <$> seq 0 (S max_retries))
    (send_and_recv unix peer max_retries net msg).1 (send_and_recv unix peer max_retries net msg).2.
Proof.
  intros Hd Hok. unfold send_and_recv. rewrite Hd.
  rewrite (list_fmap_compose net snd). apply attempts_spec; [|by right; right].
  apply Forall_fmap, Forall_true. exact Hok.
Qed.

Definition built (m : outcome SimError (list Z)) : list Z :=
  match m with Ok b => b | _ => [] end.

(** The first attempt times out, on the second a heartbeat and the response
    arrive. *)
Definition lossy (i : nat) : bool * list RecvEvent :=
  let upf := mkSocketAddr (V4 1) 8805 in
  (true, match i with
         | O => []
         | S _ => [Received (built (heartbeat_request 9 5)) upf;
                   Received (built (build_association_setup_response 1 7 5)) upf]
         end).

Lemma send_and_recv_spec_witness :
  (send_and_recv 0 (mkSocketAddr (V4 1) 8805) 3 lossy (built (association_request 1 2 3))).1 =
    Ok (built (build_association_setup_response 1 7 5)) ∧
  length (send_and_recv 0 (mkSocketAddr (V4 1) 8805) 3 lossy
    (built (association_request 1 2 3))).2 = 3%nat.
Proof.
  destruct (decode (built (association_request 1 2 3))) as [[h body]|e|] eqn:Ed;
    [|exfalso; vm_compute in Ed; discriminate Ed|exfalso; vm_compute in Ed; discriminate Ed].
  pose proof (send_and_recv_spec 0 (mkSocketAddr (V4 1) 8805) 3 lossy
    (built (association_request 1 2 3)) h body Ed (λ i, eq_refl)) as Hs.
  split; [vm_compute; reflexivity|].
  assert ((send_and_recv 0 (mkSocketAddr (V4 1) 8805) 3 lossy (built (association_request 1 2 3))).1
    = Ok (built (build_association_setup_response 1 7 5))) as Er by (vm_compute; reflexivity).
  rewrite Er in Hs. destruct Hs as (pre & ev & post & _ & _ & _ & _).
  vm_compute. reflexivity.
Defined.

(** ** The association loop's waits

    The wait doubles up to 30 seconds; from the 65th try on the power has
    overflowed and the loop no longer waits at all. *)
Lemma wait_secs_schedule :
  wait_secs <$> [1; 2; 3; 4; 5; 64] = [3; 6; 12; 24; 30; 30] ∧
  ∀ n, 65 ≤ n < 2 ^ 32 → wait_secs n = 0.
Proof.
  split; [vm_compute; reflexivity|]. intros n Hn. unfold wait_secs, wrap.
  rewrite (Z.mod_small (n - 1)) by lia.
  replace (n - 1) with ((n - 65) + 64) by lia. rewrite Z.pow_add_r, Z.mod_mul by lia. done.
Qed.

(** ** What the simulator learns from an establishment *)

Lemma fteid_of_created p teid a :
  u32 teid → u32 a →
  ∃ ie, find_ie PFCP_IE_FTEID (iter_ies (created_pdr_value p teid a)) = Some ie ∧
    parse_fteid (ie_value ie) = Ok (teid, a).
Proof.
  intros Ht Ha. unfold created_pdr_value. cbv zeta.
  rewrite !iter_ies_append_ie by ie_side. change (iter_ies []) with (@nil RawIE).
  unfold find_ie. cbn [app List.find parsed_ie ie_type]. eval_eqb.
  eexists. split; [reflexivity|]. cbn [ie_value]. by apply parse_fteid_built.
Qed.

Lemma extract_session_info_built seq cp_seid seid addr p teid a created rsp :
  0 ≤ seq < 2 ^ 24 → u64 cp_seid → u64 seid → seid ≠ 0 → u32 addr →
  u32 teid → teid ≠ 0 → u32 a →
  build_session_establishment_response (E:=SimError) seq cp_seid seid addr
    ((p, teid, a) :: created) = Ok rsp →
  extract_session_info rsp = Ok (seid, teid, a).
Proof.
  intros Hseq Hcp Hs Hs0 Haddr Ht Ht0 Ha Hb.
  unfold build_session_establishment_response, add_node_id_v4, add_cause, add_fseid in Hb.
  cbv zeta in Hb. rewrite msg_new_body, !add_ie_body, foldl_created_pdr in Hb.
  match type of Hb with finish (encode ?h ++ ies_bytes ?l) = _ =>
    destruct (decode_finish (E:=SimError) h (ies_bytes l)) as (msg & Hm & _ & Hdec);
      [by apply wf_session_msg|]; rewrite Hm in Hb; injection Hb as ->;
      assert (Forall ie_fits l) as Hl end.
  { fits. apply fits_seg; [u16_const|]. intros x. rewrite length_created_pdr_value. lia. }
  unfold extract_session_info. rewrite Hdec. cbn [map_err]. simpl_outcome.
  rewrite iter_ies_ies_bytes by exact Hl. unfold find_ie.
  cbn [app List.find fmap list_fmap parsed_ie ie_type]. eval_eqb. cbn [ok_or]. simpl_outcome.
  cbn [ie_value parsed_ie]. change (2 :: to_be_bytes 8 seid ++ octets addr) with
    ([2] ++ to_be_bytes 8 seid ++ octets addr). rewrite parse_fseid_built by done. cbn [map_err]. simpl_outcome.
  apply Z.eqb_neq in Hs0. rewrite Hs0. cbn [ensure negb]. simpl_outcome.
  destruct (fteid_of_created p teid a Ht Ha) as (ie & Hie & Hp). unfold find_ie in Hie.
  cbn [fst snd ie_value parsed_ie]. rewrite Hie. cbn [ok_or]. simpl_outcome. rewrite Hp. cbn [map_err]. simpl_outcome.
  apply Z.eqb_neq in Ht0. rewrite Ht0. done.
Qed.

(** An acceptable response passes the simulator's checks. *)
Lemma accepted_validates t seq seid rsp :
  0 ≤ t < 255 → accepted_as (t + 1) seq seid (Ok rsp) → validate_response t seq rsp = Ok ().
Proof.
  intros Ht (msg & h & body & [= <-] & Hd & Hty & Hs & _ & Hv & Hc).
  unfold validate_response. rewrite Hd. cbn [map_err]. simpl_outcome.
  unfold wrap. rewrite Z.mod_small by (change (2 ^ 8) with 256; lia).
  rewrite Hty, Hs, !Z.eqb_refl. cbn [ensure]. simpl_outcome. rewrite Hv. cbn [ensure]. simpl_outcome.
  destruct (find_ie PFCP_IE_CAUSE (iter_ies body)) as [ie|] eqn:Ef; [|done].
  rewrite (Hc ie eq_refl). done.
Qed.

(** ** The interface is never found *)

Lemma find_in_lines_spec {E} parse_ip ip ls :
  find_in_lines (E:=E) parse_ip ip ls =
  if existsb (λ l, (length (split_whitespace l) <? 4)%nat) ls then Panic else Ok None.
Proof.
  induction ls as [|l ls IH]; [done|]. cbn [find_in_lines existsb]. cbv zeta.
  destruct (Nat.ltb_spec (length (split_whitespace l)) 4) as [Hl|_]; [|exact IH].
  rewrite (lookup_ge_None_2 (split_whitespace l) 3) by lia. by destruct (_ !! 1%nat).
Qed.

(** The transport never binds to an interface: whatever [ip -o -4 addr show]
    prints, [find_interface_for_addr] finds no interface, because it looks only
    at lines with fewer than four words, where the guard should have required
    at least four; and on such a line, a blank one included, it panics on its
    indices. *)
Theorem interface_never_found {E} parse_ip ip output :
  match find_interface_for_addr (E:=E) parse_ip ip output with
  | Ok (Some _) | Err _ => False
  | Ok None => ∀ text, output = Some text →
      Forall (λ l, (4 ≤ length (split_whitespace l))%nat) (lines text)
  | Panic => ∃ text l, output = Some text ∧ l ∈ lines text ∧ (length (split_whitespace l) < 4)%nat
  end.
Proof.
  unfold find_interface_for_addr. destruct output as [text|]; [|done]. rewrite find_in_lines_spec.
  destruct (existsb _ _) eqn:Ee.
  - apply List.existsb_exists in Ee as (l & Hin & Hl). exists text, l. split; [done|].
    split; [by apply list_elem_of_In|]. by apply Nat.ltb_lt.
  - intros t [= <-]. apply Forall_forall. intros l Hin.
    destruct (Nat.ltb_spec (length (split_whitespace l)) 4) as [Hl|]; [|done].
    assert (existsb (λ l, (length (split_whitespace l) <? 4)%nat) (lines text) = true); [|congruence].
    apply List.existsb_exists. exists l. split; [by apply list_elem_of_In|by apply Nat.ltb_lt].
Qed.

(** A line the command prints for an interface. *)
Example interface_line :
  find_interface_for_addr (E:=unit) (λ s, V4 <$> parse_ipv4 s) (V4 (from_be_bytes [172; 22; 0; 51]))
    (Some (lit "6: br0    inet 172.22.0.51/24 brd 172.22.0.255 scope global br0")) = Ok None.
Proof. vm_compute. reflexivity. Qed.
