(* ===== verification/Transport.v ===== *)
(** * The simulator's transport in time ([smf-sim/src/transport.rs])

    The socket that [PfcpTransport::new] makes; [send_and_recv] with the clock,
    its deadlines and the datagrams as they arrive, which [SmfSim.send_and_recv]
    abstracts to what each attempt yields; and the two tasks of the simulator
    that share one socket. *)

From S2P Require Import Prelude Text Types Header Ie Builder Messages Dict Server SmfSim.

(** ** Creation

    The operations of the socket ([socket2], [tokio]) and of the system. *)
Class SocketHost (H S E : Type) := {
  socket_new : st H E S;
  set_nonblocking : S → bool → st H E unit;
  set_reuse_address : S → bool → st H E unit;
  set_reuse_port : S → bool → st H E unit;
  ip_addr_show : st H E (option str);
  bind_device : S → str → st H E unit;
  bind : S → SocketAddr → st H E unit;
  from_std : S → st H E S;
  local_addr : S → st H E SocketAddr;
  instant_now : st H E Z;
}.

Record PfcpTransport (S : Type) := mkTransport {
  tr_socket : S;
  tr_peer_addr : SocketAddr;
  response_timeout : Z;
  max_retries : Z;
  tr_last_activity : Z;
}.
Arguments mkTransport {S}.

Section creation.
Context {H S E : Type} `{!SocketHost H S E}.
Variable parse_ip : str → option IpAddr.

Definition PfcpTransport_new (bind_addr peer : SocketAddr) (timeout_ms retries : Z)
    : st H E (PfcpTransport S) :=
  sock ← socket_new;
  set_nonblocking sock true;;
  set_reuse_address sock true;;
  set_reuse_port sock true;;
  output ← ip_addr_show;
  iface ← lift (find_interface_for_addr parse_ip (sa_ip bind_addr) output);
  match iface with Some iface => bind_device sock iface | None => mret () end;;
  bind sock bind_addr;;
  sock ← from_std sock;
  _ ← local_addr sock;
  now ← instant_now;
  mret (mkTransport sock peer (timeout_ms * 1000000) retries now).

(** The same without the binding to an interface. *)
Definition unbound_new (bind_addr peer : SocketAddr) (timeout_ms retries : Z)
    : st H E (PfcpTransport S) :=
  sock ← socket_new;
  set_nonblocking sock true;;
  set_reuse_address sock true;;
  set_reuse_port sock true;;
  output ← ip_addr_show;
  match output with
  | Some text =>
      if existsb (λ l, (length (split_whitespace l) <? 4)%nat) (lines text) then lift Panic else mret ()
  | None => mret ()
  end;;
  bind sock bind_addr;;
  sock ← from_std sock;
  _ ← local_addr sock;
  now ← instant_now;
  mret (mkTransport sock peer (timeout_ms * 1000000) retries now).

(** The socket is never bound to an interface: creating the transport does what
    it would do without [bind_device], except that it panics when the listing
    has a line of fewer than four words. *)
Theorem transport_never_bound_to_device bind_addr peer timeout_ms retries h :
  PfcpTransport_new bind_addr peer timeout_ms retries h =
  unbound_new bind_addr peer timeout_ms retries h.
Proof.
  assert (∀ T U (m : st H E T) (f g : T → st H E U) h,
    (∀ a h, f a h = g a h) → (m ≫= f) h = (m ≫= g) h) as Hcong.
  { intros T U m f g h0 Hfg. rewrite !st_bind_eq. destruct (m h0) as [[a|e|] h1]; auto. }
  unfold PfcpTransport_new, unbound_new, find_interface_for_addr.
  do 5 (apply Hcong; clear h; intros ? h). rewrite !st_bind_eq. cbn [lift].
  match goal with |- context [match ?o with Some _ => find_in_lines _ _ _ | None => _ end] =>
    destruct o as [text|] end; [|by rewrite st_bind_eq].
  rewrite find_in_lines_spec. destruct (existsb _ _); [done|]. by rewrite st_bind_eq.
Qed.
End creation.

(** ** Exchanges in time

    The state of the network for one task: the clock, the transport's last
    activity, what [recv_from] will yield and when, whether the next sends
    succeed, and what has been sent.  Times are in nanoseconds. *)
Record Wire := mkWire {
  wi_clock : Z;
  wi_activity : Z;
  wi_arrivals : list (Z * RecvEvent);
  wi_sends : list bool;
  wi_sent : list (list Z * SocketAddr);
}.

Section timed.
Variables (unix : Z) (peer : SocketAddr) (retries : nat) (timeout : Z).

Abbreviation Waited := (Z * list (Z * RecvEvent))%type.

(** The inner loop of an attempt, from [now]: how it ends, what it sends, the
    clock at its end and what is still to be received. *)
Fixpoint await_until (expected deadline now : Z) (arrivals : list (Z * RecvEvent))
    : outcome SimError (list Z + SimError) * list (list Z * SocketAddr) * Waited :=
  let remaining := Z.max 0 (deadline - now) in
  if remaining =? 0 then (Ok (inr Timeout), [], (now, arrivals)) else
  match arrivals with
  | [] => (Ok (inr Timeout), [], (deadline, []))
  | (t, ev) :: rest =>
      if deadline <=? t then (Ok (inr Timeout), [], (deadline, arrivals)) else
      let now := Z.max now t in
      match ev with
      | RecvFailed => (Ok (inr RecvError), [], (now, rest))
      | Received buf src =>
          match decode buf with
          | Ok (hdr, _) =>
              if hdr_msg_type hdr =? expected then (Ok (inl buf), [], (now, rest)) else
              match handle_unsolicited unix buf with
              | Ok (Some rsp) =>
                  let '(r, sent, wt) := await_until expected deadline now rest in
                  (r, (rsp, src) :: sent, wt)
              | Ok None => await_until expected deadline now rest
              | Err e => (Err e, [], (now, rest))
              | Panic => (Panic, [], (now, rest))
              end
          | Err _ => await_until expected deadline now rest
          | Panic => (Panic, [], (now, rest))
          end
      end
  end.

(** The attempts still to be made. *)
Fixpoint timed_attempts (n : nat) (expected : Z) (msg : list Z) (last_err : option SimError)
    : st Wire SimError (list Z) := λ w,
  match n with
  | O => (match last_err with Some e => Err e | None => Panic end, w)
  | S n =>
      if negb (default true (head (wi_sends w))) then
        (Err SendError, mkWire (wi_clock w) (wi_activity w) (wi_arrivals w) (tail (wi_sends w)) (wi_sent w))
      else
        let '(r, sent, (now, arrivals)) :=
          await_until expected (wi_clock w + timeout) (wi_clock w) (wi_arrivals w) in
        let w' := mkWire now (match r with Ok (inl _) => now | _ => wi_activity w end)
                    arrivals (tail (wi_sends w)) (wi_sent w ++ (msg, peer) :: sent) in
        match r with
        | Ok (inl rsp) => (Ok rsp, w')
        | Ok (inr e) => timed_attempts n expected msg (Some e) w'
        | Err e => (Err e, w')
        | Panic => (Panic, w')
        end
  end.

Definition timed_send_and_recv (msg : list Z) : st Wire SimError (list Z) := λ w,
  match decode msg with
  | Ok (hdr, _) => timed_attempts (S retries) (wrap 8 (hdr_msg_type hdr + 1)) msg None w
  | Err e => (Err (SimDecode e), w)
  | Panic => (Panic, w)
  end.

(** ** The refinement *)

Hypothesis timeout_nonneg : 0 ≤ timeout.

(** One attempt: it is [await_response] on what arrives before its end, in the
    order of arrival, and it ends by its deadline. *)
Lemma await_until_spec expected deadline now arrivals :
  now ≤ deadline →
  let '(r, sent, (now', rest)) := await_until expected deadline now arrivals in
  ∃ taken, arrivals = taken ++ rest ∧ await_response unix expected (snd <$> taken) = (r, sent) ∧
    now ≤ now' ≤ deadline ∧ Forall (λ a, a.1 < deadline) taken.
Proof.
  revert now. induction arrivals as [|[t ev] arrivals IH]; intros now Hn; cbn [await_until]; cbv zeta.
  - destruct (_ =? _); exists []; (split; [done|]; split; [done|]; split; [lia|done]).
  - destruct (Z.eqb_spec (Z.max 0 (deadline - now)) 0); [by exists []; split_and!; try done; lia|].
    destruct (Z.leb_spec deadline t) as [Ht|Ht]; [exists []; split_and!; try done; lia|].
    specialize (IH (Z.max now t) ltac:(lia)).
    destruct ev as [buf from|]; [|exists [(t, RecvFailed)]; split_and!; try done; [lia..|by repeat constructor]].
    assert (Forall (λ a, a.1 < deadline) [(t, Received buf from)]) as Hone by by repeat constructor.
    destruct (decode buf) as [[hdr body]|e|] eqn:Ed.
    + destruct (hdr_msg_type hdr =? expected) eqn:Et.
      { exists [(t, Received buf from)]. cbn. rewrite Ed, Et. split_and!; try done; lia. }
      destruct (handle_unsolicited unix buf) as [[rsp|]|e|] eqn:Eu.
      * destruct (await_until _ _ _ arrivals) as [[r sent] [now' rest]].
        destruct IH as (taken & -> & Ha & Hb & Hf). exists ((t, Received buf from) :: taken).
        cbn. rewrite Ed, Et, Eu, Ha. split_and!; try done; [lia..|by constructor].
      * destruct (await_until _ _ _ arrivals) as [[r sent] [now' rest]].
        destruct IH as (taken & -> & Ha & Hb & Hf). exists ((t, Received buf from) :: taken).
        cbn. rewrite Ed, Et, Eu, Ha. split_and!; try done; [lia..|by constructor].
      * exists [(t, Received buf from)]. cbn. rewrite Ed, Et, Eu. split_and!; try done; lia.
      * exists [(t, Received buf from)]. cbn. rewrite Ed, Et, Eu. split_and!; try done; lia.
    + destruct (await_until _ _ _ arrivals) as [[r sent] [now' rest]].
      destruct IH as (taken & -> & Ha & Hb & Hf). exists ((t, Received buf from) :: taken).
      cbn. rewrite Ed, Ha. split_and!; try done; [lia..|by constructor].
    + exists [(t, Received buf from)]. cbn. rewrite Ed. split_and!; try done; lia.
Qed.

(** What a run of attempts did, in terms of a network for [SmfSim.attempts]. *)
Record attempts_done (n : nat) (expected : Z) (msg : list Z) (last_err : option SimError)
    (w : Wire) (r : outcome SimError (list Z)) (w' : Wire) : Prop := {
  ad_net : ∃ net sent, length net = n ∧
    attempts unix expected peer msg net last_err = (r, sent) ∧ wi_sent w' = wi_sent w ++ sent ∧
    ∃ taken, wi_arrivals w = taken ++ wi_arrivals w' ∧ concat (snd <$> net) = snd <$> taken;
  ad_clock : wi_clock w ≤ wi_clock w' ≤ wi_clock w + Z.of_nat n * timeout;
  ad_activity : wi_activity w' =
    match r with Ok _ => wi_clock w' | _ => wi_activity w end;
}.

Lemma timed_attempts_spec n expected msg last_err w :
  attempts_done n expected msg last_err w
    (timed_attempts n expected msg last_err w).1 (timed_attempts n expected msg last_err w).2.
Proof.
  revert last_err w. induction n as [|n IH]; intros last_err w; cbn [timed_attempts].
  { split; [|cbn; lia|by destruct last_err].
    exists [], []. split; [done|]. split; [done|]. cbn. rewrite app_nil_r. split; [done|].
    by exists []. }
  destruct (default true (head (wi_sends w))) eqn:Es; cbn [negb].
  2:{ split; cbn; [|lia|done]. exists (replicate (S n) (false, [])), [].
      split; [by rewrite length_replicate|]. split; [done|]. rewrite app_nil_r. split; [done|].
      exists []. split; [done|]. cbn. clear. induction n as [|n IH]; [done|]. exact IH. }
  pose proof (await_until_spec expected (wi_clock w + timeout) (wi_clock w) (wi_arrivals w) ltac:(lia)) as Ha.
  destruct (await_until _ _ _ _) as [[r sent] [now rest]].
  destruct Ha as (taken & Earr & Ha & Hc & _).
  assert (∀ k, concat (snd <$> replicate k (true, [] : list RecvEvent)) = []) as Hrep.
  { intros k. induction k as [|k IHk]; [done|]. exact IHk. }
  assert (∀ r', (∃ rsp, r = Ok (inl rsp) ∧ r' = Ok rsp) ∨ (∃ e, r = Err e ∧ r' = Err e) ∨
      (r = Panic ∧ r' = Panic) →
    attempts unix expected peer msg ((true, snd <$> taken) :: replicate n (true, [])) last_err =
      (r', (msg, peer) :: sent)) as Hstop.
  { intros r' Hr. cbn [attempts negb]. rewrite Ha. by destruct Hr as [(x & -> & ->)|[(e & -> & ->)|[-> ->]]]. }
  assert (∀ r' act, attempts unix expected peer msg ((true, snd <$> taken) :: replicate n (true, [])) last_err =
      (r', (msg, peer) :: sent) →
    (match r' with Ok _ => act = now | _ => act = wi_activity w end) →
    attempts_done (S n) expected msg last_err w r'
      (mkWire now act rest (tail (wi_sends w)) (wi_sent w ++ (msg, peer) :: sent))) as Hdone.
  { intros r' act Hat Hact. split; cbn [wi_sent wi_clock wi_arrivals wi_activity]; [|lia|by destruct r'].
    eexists _, _. split; [|split; [exact Hat|]]; [cbn; by rewrite length_replicate|].
    split; [done|]. exists taken. split; [done|]. cbn. by rewrite Hrep, app_nil_r. }
  destruct r as [[rsp|e]|e|]; cbn [fst snd].
  - apply Hdone; [|done]. apply Hstop. left. by exists rsp.
  - destruct (IH (Some e) (mkWire now (wi_activity w) rest (tail (wi_sends w))
      (wi_sent w ++ (msg, peer) :: sent))) as [(net & sent' & Hlen & Hat & Hsent & taken' & Et & Ec) Hcl Hact].
    cbn [wi_sent wi_clock wi_arrivals wi_activity] in *.
    split; [|lia|done].
    exists ((true, snd <$> taken) :: net), ((msg, peer) :: sent ++ sent'). cbn [length attempts negb].
    split; [by rewrite Hlen|]. rewrite Ha, Hat. split; [done|].
    split; [by rewrite Hsent, <-(assoc_L (++))|].
    exists (taken ++ taken'). rewrite <-(assoc_L (++)), <-Et. split; [done|].
    cbn. by rewrite Ec, fmap_app.
  - apply Hdone; [|done]. apply Hstop. right. left. by exists e.
  - apply Hdone; [|done]. apply Hstop. by right; right.
Qed.

Lemma attempts_no_panic expected msg net last_err :
  (net = [] → last_err ≠ None) → (attempts unix expected peer msg net last_err).1 ≠ Panic.
Proof.
  revert last_err. induction net as [|[ok events] net IH]; intros last_err Hl.
  - cbn. destruct last_err; [done|]. by specialize (Hl eq_refl).
  - cbn [attempts]. destruct ok; cbn [negb]; [|done]. rewrite await_response_spec.
    destruct (answer expected events); [done|].
    match goal with |- context [attempts _ _ _ _ net (Some ?e)] =>
      specialize (IH (Some e) (λ _, ltac:(discriminate))) end.
    by destruct (attempts _ _ _ _ net _).
Qed.

(** The result, the clock and the activity of an exchange. *)
Lemma timed_exchange_clock msg w :
  (timed_send_and_recv msg w).1 ≠ Panic ∧
  wi_clock w ≤ wi_clock (timed_send_and_recv msg w).2 ≤ wi_clock w + Z.of_nat (S retries) * timeout ∧
  wi_activity (timed_send_and_recv msg w).2 =
    match (timed_send_and_recv msg w).1 with
    | Ok _ => wi_clock (timed_send_and_recv msg w).2 | _ => wi_activity w end.
Proof.
  unfold timed_send_and_recv. pose proof (decode_not_panic msg) as Hp.
  destruct (decode msg) as [[h body]|e|]; [|split; [done|split; [cbn [snd]; nia|done]]|done].
  destruct (timed_attempts_spec (S retries) (wrap 8 (hdr_msg_type h + 1)) msg None w)
    as [(net & sent & Hlen & Hat & _) Hcl Hact].
  split; [|done]. intros E. rewrite E in Hat.
  apply (attempts_no_panic (wrap 8 (hdr_msg_type h + 1)) msg net None); [by intros ->|by rewrite Hat].
Qed.

Lemma lookup_seq_net (l : list (bool * list RecvEvent)) :
  (λ i, default (true, []) (l !! i)) <$> seq 0 (length l) = l.
Proof.
  apply list_eq. intros i. rewrite list_lookup_fmap.
  destruct (decide (i < length l)%nat) as [Hi|Hi].
  - rewrite lookup_seq_lt by done. cbn. by destruct (lookup_lt_is_Some_2 l i Hi) as [x ->].
  - rewrite lookup_seq_ge, lookup_ge_None_2 by lia. done.
Qed.

(** C35. The exchange in time refines the retransmission loop: whenever the
    datagrams arrive and whichever sends fail, [send_and_recv] returns and
    sends exactly what the loop does on some network, namely the one whose
    attempts see, in the order of arrival, what the exchange took off the
    socket; nothing that it did not look at is taken off; it never panics; it
    is over after at most [1 + max_retries] times the response timeout; and the
    time it notes as the link's last activity is the time of the answer, or,
    when there is none, still the earlier one. *)
Theorem timed_exchange_refines msg w :
  let '(r, w') := timed_send_and_recv msg w in
  ∃ net sent taken,
    send_and_recv unix peer retries net msg = (r, sent) ∧
    wi_sent w' = wi_sent w ++ sent ∧
    wi_arrivals w = taken ++ wi_arrivals w' ∧
    (concat ((λ i, (net i).2) <$> seq 0 (S retries)) = snd <$> taken) ∧
    r ≠ Panic ∧
    wi_clock w ≤ wi_clock w' ≤ wi_clock w + Z.of_nat (S retries) * timeout ∧
    wi_activity w' = match r with Ok _ => wi_clock w' | _ => wi_activity w end.
Proof.
  pose proof (timed_exchange_clock msg w) as Hclock. unfold timed_send_and_recv, send_and_recv in *.
  pose proof (decode_not_panic msg) as Hp. destruct (decode msg) as [[h body]|e|]; [|clear Hp|done].
  - destruct (timed_attempts_spec (S retries) (wrap 8 (hdr_msg_type h + 1)) msg None w)
      as [(net & sent & Hlen & Hat & Hsent & taken & Et & Ec) _ _].
    destruct (timed_attempts _ _ _ _ w) as [r w']. cbn [fst snd] in *.
    exists (λ i, default (true, []) (net !! i)), sent, taken. rewrite <-Hlen at 1.
    rewrite lookup_seq_net. do 3 (split; [done|]). split; [|exact Hclock].
    rewrite <-Ec, <-Hlen. f_equal. rewrite <-(lookup_seq_net net) at 2. by rewrite <-list_fmap_compose.
  - exists (λ _, (true, [])), [], []. split; [done|]. rewrite app_nil_r. do 2 (split; [done|]).
    split; [|exact Hclock].
    clear. generalize (S retries) as n, 0%nat as i. intros n. induction n as [|n IH]; intros i; [done|].
    exact (IH (S i)).
Qed.
End timed.

(** ** Two tasks on one socket

    The keepalive and the commands (or the scenario) share one transport, so
    one socket: the runtime hands each datagram to one of the tasks that wait
    in [recv_from].  [picks] says to which: [true] for the first. *)
Fixpoint handed (who : bool) (picks : list bool) (events : list RecvEvent) : list RecvEvent :=
  match picks, events with
  | p :: picks, ev :: events =>
      if Bool.eqb p who then ev :: handed who picks events else handed who picks events
  | _, _ => []
  end.

(** How the current attempts of the two tasks end, and what they send. *)
Definition shared_attempts (unix expected1 expected2 : Z) (picks : list bool) (events : list RecvEvent) :=
  (await_response unix expected1 (handed true picks events),
   await_response unix expected2 (handed false picks events)).

(** The answers to both requests arrive, and nothing else does: each task gets
    its answer exactly if the datagram was handed to it.  A task that is handed
    the other's answer drops it. *)
Theorem shared_socket unix t1 t2 d1 d2 src h1 b1 h2 b2 p1 p2 :
  decode d1 = Ok (h1, b1) → decode d2 = Ok (h2, b2) →
  hdr_msg_type h1 = t1 → hdr_msg_type h2 = t2 → t1 ≠ t2 →
  t1 ≠ PFCP_HEARTBEAT_REQ → t2 ≠ PFCP_HEARTBEAT_REQ →
  shared_attempts unix t1 t2 [p1; p2] [Received d1 src; Received d2 src] =
  ((Ok (if p1 : bool then inl d1 else inr Timeout), []),
   (Ok (if p2 : bool then inr Timeout else inl d2), [])).
Proof.
  intros Hd1 Hd2 <- <- Hne Hn1 Hn2. unfold shared_attempts.
  assert (∀ expected, of_type expected (d1, src) = (hdr_msg_type h1 =? expected)) as T1.
  { intros. unfold of_type. cbn. by rewrite Hd1. }
  assert (∀ expected, of_type expected (d2, src) = (hdr_msg_type h2 =? expected)) as T2.
  { intros. unfold of_type. cbn. by rewrite Hd2. }
  assert (heartbeat_reply unix (d1, src) = None ∧ heartbeat_reply unix (d2, src) = None) as [R1 R2].
  { unfold heartbeat_reply. cbn. rewrite Hd1, Hd2.
    split; by rewrite (proj2 (Z.eqb_neq _ _)). }
  assert ((hdr_msg_type h1 =? hdr_msg_type h2) = false ∧ (hdr_msg_type h2 =? hdr_msg_type h1) = false)
    as [E1 E2] by (split; apply Z.eqb_neq; congruence).
  rewrite !await_response_spec.
  destruct p1, p2; unfold answer; cbn [handed Bool.eqb datagrams List.find before];
    repeat (rewrite ?T1, ?T2, ?Z.eqb_refl, ?E1, ?E2; cbn [List.find before fmap option_fmap option_map fst]);
    rewrite ?omap_list_cons, ?R1, ?R2; reflexivity.
Qed.

Example stolen_answers :
  let upf := mkSocketAddr (V4 1) 8805 in
  let heartbeat := Received (built (build_heartbeat_response 7 5)) upf in
  let deletion := Received (built (build_session_deletion_response 8 1)) upf in
  shared_attempts 0 PFCP_HEARTBEAT_RSP PFCP_SESSION_DELETION_RSP [false; true] [heartbeat; deletion] =
  ((Ok (inr Timeout), []), (Ok (inr Timeout), [])).
Proof. vm_compute. reflexivity. Qed.

(** ** An exchange whose first datagram is late *)
Lemma timed_exchange_refines_witness :
  let upf := mkSocketAddr (V4 1) 8805 in
  let w := mkWire 0 0 [(6, Received (built (heartbeat_request 9 5)) upf);
    (7, Received (built (build_association_setup_response 1 7 5)) upf)] [] [] in
  let '(r, w') := timed_send_and_recv 0 upf 3 5 (built (association_request 1 2 3)) w in
  r = Ok (built (build_association_setup_response 1 7 5)) ∧ wi_activity w' = 7 ∧
  length (wi_sent w') = 3%nat.
Proof.
  pose proof (timed_exchange_refines 0 (mkSocketAddr (V4 1) 8805) 3 5 ltac:(lia)
    (built (association_request 1 2 3))
    (mkWire 0 0 [(6, Received (built (heartbeat_request 9 5)) (mkSocketAddr (V4 1) 8805));
       (7, Received (built (build_association_setup_response 1 7 5)) (mkSocketAddr (V4 1) 8805))] [] []))
    as H.
  destruct (timed_send_and_recv _ _ _ _ _ _) as [r w'] eqn:E.
  destruct H as (net & sent & taken & _ & _ & _ & _ & _ & _ & Hact).
  assert ((r, w') = (r, w')) as _ by reflexivity. cbv zeta. rewrite E.
  vm_compute in E. injection E as <- <-. by split_and!.
Defined.
