(* ===== verification/SimTui.v ===== *)
(** * The simulator's terminal ([smf-sim/src/tui/app.rs], [smf-sim/src/tui/runner.rs])

    The screen and its commands, the tasks that carry out the commands which
    talk to the UPF ([handle_async_command]), the association task that
    [run_loop] spawns, and the turns of [run_loop].  Drawing is in [Ui.v]; the
    raw mode of the terminal and the editing of the input line are not modelled.

    A task works on a [Task]: the network, the simulator's state behind its
    lock, and the events sent to the screen so far (the channel is drained by
    the screen, so [send] always succeeds).  [SimTasks.v] has the tasks side by
    side, with the channel and the lock as they are. *)

From S2P Require Import Prelude Text Commands LogBuffer Types Header Ie Builder Messages Dict.
From S2P Require Import Server SmfSim.

Inductive AppEvent :=
| Log (msg : str)
| AssociationChanged (v : bool)
| HeartbeatUpdated
| SessionsUpdated (s : list SimSession).

(** ** The screen *)

Record App := mkApp {
  logs : list LogEntry;
  app_sessions : list SimSession;
  associated : bool;
  last_hb_secs : Z;
  should_quit : bool;
  last_result : option str;
}.

Definition App_new : App := mkApp [] [] false 0 false None.

Definition set_logs l a := mkApp l (app_sessions a) (associated a) (last_hb_secs a)
  (should_quit a) (last_result a).
Definition set_app_sessions s a := mkApp (logs a) s (associated a) (last_hb_secs a)
  (should_quit a) (last_result a).
Definition set_associated v a := mkApp (logs a) (app_sessions a) v (last_hb_secs a)
  (should_quit a) (last_result a).
Definition set_last_hb_secs v a := mkApp (logs a) (app_sessions a) (associated a) v
  (should_quit a) (last_result a).
Definition set_should_quit v a := mkApp (logs a) (app_sessions a) (associated a)
  (last_hb_secs a) v (last_result a).

Definition App_log (time msg : str) (a : App) : App :=
  set_logs (log_push (logs a) (mkLogEntry time msg)) a.

Definition clear_logs (a : App) : App := set_logs [] a.

Definition session_count (a : App) : nat := length (app_sessions a).

(** ** Commands; [clock i] is the time the [i]-th call of [log] reads *)

Fixpoint log_lines (clock : nat → str) (i : nat) (lines : list str) (a : App) : App :=
  match lines with
  | [] => a
  | line :: lines => log_lines clock (S i) lines (App_log (clock i) line a)
  end.

Definition session_line (s : SimSession) : str :=
  lit "  SEID=" ++ show_hex (ss_upf_seid s) ++ lit "  UE=" ++ show_ipv4 (ss_ue_ip s) ++
  lit "  TEID=" ++ show_hex (ss_upf_teid s) ++ lit "  gNB=" ++ show_ipv4 (ss_upf_n3_addr s).

(** The screen, and the command to be carried out by a task. *)
Definition execute_command (clock : nat → str) (input : str) (a : App) : App * option Command :=
  let a := App_log (clock 0%nat) (lit "> " ++ input) a in
  match Command_from_input input with
  | Ok ShowSessions =>
      match app_sessions a with
      | [] => (App_log (clock 1%nat) (lit "no session") a, None)
      | sessions =>
          let a := App_log (clock 1%nat) (lit " Total " ++
            show_dec (Z.of_nat (length sessions)) ++ lit " sessions(s)") a in
          (log_lines clock 2 (session_line <$> sessions) a, None)
      end
  | Ok (ShowSession seid) =>
      match List.find (λ s, ss_upf_seid s =? seid) (app_sessions a) with
      | Some s =>
          let a := App_log (clock 1%nat) (lit "  SEID    : " ++ show_hex (ss_upf_seid s)) a in
          let a := App_log (clock 2%nat) (lit "  UE IP   : " ++ show_ipv4 (ss_ue_ip s)) a in
          let a := App_log (clock 3%nat) (lit "  TEID    : " ++ show_hex (ss_cp_seid s)) a in
          (App_log (clock 4%nat) (lit "  gNB IP  : " ++ show_ipv4 (ss_upf_n3_addr s)) a, None)
      | None =>
          (App_log (clock 1%nat) (lit "  SEID    : " ++ show_hex seid ++ lit " 없음") a, None)
      end
  | Ok (AddSession count) => (a, Some (AddSession count))
  | Ok (DelSession seid) => (a, Some (DelSession seid))
  | Ok Heartbeat => (a, Some Heartbeat)
  | Ok Clear => (set_logs [] a, None)
  | Ok Help => (log_lines clock 1 (lines help_text) a, None)
  | Ok Quit => (set_should_quit true a, None)
  | Err e => (App_log (clock 1%nat) (lit "  명령어 파싱 실패: " ++ e) a, None)
  | Panic => (a, None)
  end.

(** ** The loop of the screen *)

(** [while let Ok(event) = rx.try_recv()] *)
Definition handle_background (clock : nat → str) (i : nat) (ev : AppEvent) (a : App) : App :=
  match ev with
  | Log msg => App_log (clock i) msg a
  | AssociationChanged v => set_associated v a
  | HeartbeatUpdated => set_last_hb_secs 0 a
  | SessionsUpdated sessions => set_app_sessions sessions a
  end.

Fixpoint drain (clock : nat → str) (i : nat) (evs : list AppEvent) (a : App) : App :=
  match evs with
  | [] => a
  | ev :: evs => drain clock (S i) evs (handle_background clock i ev a)
  end.

Inductive LoopEvent :=
| SleepElapsed
| KeyQuit                      (* [q], or Ctrl-C *)
| KeyEnter (first_line : str)
| KeyOther.

(** One turn on the events that wait in the channel and one branch of
    [select!]: the screen, the command that is spawned, whether the loop ends. *)
Definition loop_turn (clock : nat → str) (waiting : list AppEvent) (ev : LoopEvent) (a : App)
    : App * option Command * bool :=
  let n := length waiting in
  let a := drain clock 0 waiting a in
  let '(a, cmd) :=
    match ev with
    | SleepElapsed | KeyOther => (a, None)
    | KeyQuit => (set_should_quit true a, None)
    | KeyEnter first_line =>
        let input := trim first_line in
        match input with
        | [] => (a, None)
        | _ => execute_command (λ i, clock (n + i)%nat) input a
        end
    end in
  (a, cmd, should_quit a).

(** ** Tasks *)

(** [match m.await]: the error as a value. *)
Definition attempt {S E A} (m : st S E A) : st S E (A + E) := λ s,
  match m s with
  | (Ok a, s') => (Ok (inl a), s')
  | (Err e, s') => (Ok (inr e), s')
  | (Panic, s') => (Panic, s')
  end.

Section tasks.
Context {N : Type}.
Variable exchange : list Z → st N SimError (list Z).

(** The [Display] of an [anyhow] error, and the order of [sessions.values()]. *)
Variable show_error : SimError → str.
Variable values : gmap Z SimSession → list SimSession.

Record Task := mkTask {
  task_net : N;
  task_sim : SimState;
  task_sent : list AppEvent;
}.

Definition in_sim {T} (m : st SimState SimError T) : st Task SimError T := λ t,
  let '(r, s) := m (task_sim t) in (r, mkTask (task_net t) s (task_sent t)).
Definition task_exchange (req : list Z) : st Task SimError (list Z) := λ t,
  let '(r, n) := exchange req (task_net t) in (r, mkTask n (task_sim t) (task_sent t)).
Definition send (ev : AppEvent) : st Task SimError unit :=
  modify (λ t, mkTask (task_net t) (task_sim t) (task_sent t ++ [ev])).
Definition send_log (msg : str) : st Task SimError unit := send (Log msg).

Definition send_sessions : st Task SimError unit :=
  s ← in_sim (gets sim_sessions); send (SessionsUpdated (values s)).

(** [smf_addr], [gnb_addr] of the configuration; the clocks. *)
Variables smf_addr gnb_addr : Z.
Variables now unix_now : Z.

(** One turn of the [for] loop of [AddSession]; [false] when it returns. *)
Definition add_session_turn : st Task SimError bool :=
  seq ← in_sim next_seq_num;
  ip ← attempt (in_sim alloc_ue_ip);
  match ip with
  | inr e => send_log (lit "UE IP 할당 실패: " ++ show_error e);; mret false
  | inl ue_ip =>
      gnb_teid ← in_sim alloc_gnb_teid;
      cp_seid ← in_sim alloc_cp_seid;
      send_log (lit "UE IP  " ++ show_ipv4 ue_ip);;
      req ← lift (build_session_establishment_request seq smf_addr cp_seid ue_ip gnb_addr gnb_teid);
      rsp ← attempt (task_exchange req);
      (match rsp with
       | inl rsp =>
           info ← attempt (lift (extract_session_info rsp));
           match info with
           | inl (upf_seid, upf_teid, upf_n3_addr) =>
               in_sim (modify (set_sim_sessions (insert cp_seid
                 (mkSimSession cp_seid upf_seid upf_teid upf_n3_addr ue_ip gnb_teid now))));;
               send_log (lit "Session Added: UE=" ++ show_ipv4 ue_ip ++ lit ", SEID=" ++
                 show_hex upf_seid)
           | inr e => send_log (lit "세션 정보 추출 실패: " ++ show_error e)
           end
       | inr e => send_log (lit "세션 생성 실패: " ++ show_error e)
       end);;
      send_sessions;;
      mret true
  end.

Fixpoint add_sessions (count : nat) : st Task SimError unit :=
  match count with
  | O => mret ()
  | S count => continue ← add_session_turn;
               if continue : bool then add_sessions count else mret ()
  end.

Definition del_session (seid : Z) : st Task SimError unit :=
  session ← in_sim (gets (λ s, sim_sessions s !! seid));
  match ss_upf_seid <$> session with
  | Some upf_seid =>
      seq ← in_sim next_seq_num;
      msg ← lift (deletion_request seq upf_seid);
      rsp ← attempt (task_exchange msg);
      match rsp with
      | inl rsp =>
          attempt (lift (validate_response PFCP_SESSION_DELETION_REQ seq rsp));;
          in_sim (modify (set_sim_sessions (delete seid)));;
          send_sessions;;
          send_log (lit "Session Deleted: SEID=" ++ show_hex seid)
      | inr e => send_log (lit "Failed to delete session: " ++ show_error e)
      end
  | None => send_log (lit "No Exist Session " ++ show_hex seid)
  end.

Definition manual_heartbeat : st Task SimError unit :=
  seq ← in_sim next_seq_num;
  req ← lift (heartbeat_request seq (wrapping_add32 (wrap 32 unix_now) 2208988800));
  rsp ← attempt (task_exchange req);
  match rsp with
  | inl _ => send_log (lit "← Heartbeat Response OK");; send HeartbeatUpdated
  | inr e => send_log (lit "HB 실패: " ++ show_error e)
  end.

Definition handle_async_command (cmd : Command) : st Task SimError unit :=
  match cmd with
  | AddSession count => add_sessions (Z.to_nat count)
  | DelSession seid => del_session seid
  | Heartbeat => manual_heartbeat
  | _ => mret ()
  end.

(** ** The association task *)

(** [recovery_ts()] of [main.rs]. *)
Variable recovery_ts : Z.

Definition do_association : st Task SimError (option Z) :=
  let seq := 1 in
  req ← lift (association_request seq smf_addr recovery_ts);
  rsp ← task_exchange req;
  lift (validate_response PFCP_ASSOCIATION_SETUP_REQ seq rsp);;
  mret (extract_recovery_ts rsp).

Definition set_upf_recovery_ts (ts : Z) (s : SimState) : SimState :=
  mkSimState (next_ue_ip s) (ue_ip_end s) (next_gnb_teid s) (next_cp_seid s) (next_seq s)
    (sim_sessions s) (Some ts) (my_recovery_ts s).

(** The task's loop for at most [fuel] tries: whether it broke out of it. *)
Fixpoint association_tries (fuel : nat) : st Task SimError bool :=
  match fuel with
  | O => mret false
  | S fuel =>
      r ← attempt do_association;
      match r with
      | inl upf_ts =>
          (match upf_ts with
           | Some ts => in_sim (modify (set_upf_recovery_ts ts))
           | None => mret ()
           end);;
          send (AssociationChanged true);;
          send_log (lit "Connected to upf-edge");;
          mret true
      | inr e =>
          send_log (lit "Failed to connect to upf-edge, Retry after 10 secs, " ++ show_error e);;
          association_tries fuel
      end
  end.

Definition association_task (fuel : nat) : st Task SimError bool :=
  send_log (lit "upf-edge Connecting....");; association_tries fuel.
End tasks.
Arguments Task : clear implicits.
Arguments mkTask {N}.

(** ** What a task does to the simulator's state *)

Section tasks_spec.
Context {N : Type}.
Variable exchange : list Z → st N SimError (list Z).
Variable show_error : SimError → str.
Variable values : gmap Z SimSession → list SimSession.
Variables smf_addr gnb_addr now unix_now : Z.
Implicit Types t : Task N.

Abbreviation turn := (add_session_turn exchange show_error values smf_addr gnb_addr now).
Abbreviation command := (handle_async_command exchange show_error values smf_addr gnb_addr now unix_now).

(** The counters after a turn that reached the network. *)
Definition advanced (s : SimState) : SimState :=
  mkSimState (wrap 32 (next_ue_ip s + 1)) (ue_ip_end s) (wrap 32 (next_gnb_teid s + 1))
    (wrap 64 (next_cp_seid s + 1)) (wrap 32 (next_seq s + 1)) (sim_sessions s)
    (upf_recovery_ts s) (my_recovery_ts s).

Definition seq_used (s : SimState) : SimState := set_next_seq (wrap 32 (next_seq s + 1)) s.

(** The session a turn records, from what the response says. *)
Definition new_session (s : SimState) (info : Z * Z * Z) : SimSession :=
  mkSimSession (next_cp_seid s) info.1.1 info.1.2 info.2 (next_ue_ip s) (next_gnb_teid s) now.

Definition recorded (s : SimState) (info : Z * Z * Z) : SimState :=
  set_sim_sessions (insert (next_cp_seid s) (new_session s info)) (advanced s).

Definition one_session_pdrs (ue_ip : Z) : list PdrParams :=
  [ {| pp_pdr_id := 1; pp_precedence := 100; pp_source_interface := INTERFACE_ACCESS;
       pp_fteid_choose := true; pp_ue_ip := Some ue_ip; pp_far_id := 1; pp_urr_id := None;
       pp_outer_header_removal := true; pp_sdf_filter := None |};
    {| pp_pdr_id := 2; pp_precedence := 100; pp_source_interface := INTERFACE_CORE;
       pp_fteid_choose := false; pp_ue_ip := Some ue_ip; pp_far_id := 2; pp_urr_id := None;
       pp_outer_header_removal := false; pp_sdf_filter := None |} ].

(** The request of a turn is the general establishment message. *)
Lemma establishment_request_msg {E} seq a cp ue g teid :
  build_session_establishment_request (E:=E) seq a cp ue g teid =
  finish (session_establishment_msg seq a cp (one_session_pdrs ue) (scenario_fars teid g) []).
Proof. done. Qed.

Lemma establishment_request_ok {E} seq a cp ue g teid :
  ∃ m, build_session_establishment_request (E:=E) seq a cp ue g teid = Ok m.
Proof.
  rewrite establishment_request_msg, session_establishment_msg_body, finish_encode. by eexists.
Qed.

Lemma deletion_request_ok {E} seq seid : ∃ m, deletion_request (E:=E) seq seid = Ok m.
Proof.
  unfold deletion_request. rewrite msg_new_body, finish_encode. by eexists.
Qed.

Lemma association_request_ok {E} seq a ts : ∃ m, association_request (E:=E) seq a ts = Ok m.
Proof.
  unfold association_request, add_node_id_v4, add_recovery_timestamp. cbv zeta.
  rewrite msg_new_body, !add_ie_body, finish_encode. by eexists.
Qed.

Lemma heartbeat_request_ok {E} seq ts : ∃ m, heartbeat_request (E:=E) seq ts = Ok m.
Proof.
  unfold heartbeat_request, add_recovery_timestamp.
  rewrite msg_new_body, add_ie_body, finish_encode. by eexists.
Qed.

Lemma extract_session_info_not_panic rsp : extract_session_info rsp ≠ Panic.
Proof.
  unfold extract_session_info. pose proof (decode_not_panic rsp).
  destruct (decode rsp) as [[h body]| |]; [|done..]. cbn [map_err]. simpl_outcome.
  destruct (find_ie PFCP_IE_FSEID (iter_ies body)) as [ie|]; [|done]. cbn [ok_or]. simpl_outcome.
  pose proof (parse_fseid_not_panic (ie_value ie)).
  destruct (parse_fseid (ie_value ie)) as [[seid a]| |]; [|done..]. cbn [map_err]. simpl_outcome.
  destruct (seid =? 0); [done|]. cbn [ensure negb]. simpl_outcome.
  destruct (find_ie PFCP_IE_CREATED_PDR (iter_ies body)) as [pdr|]; [|done]. cbn [ok_or]. simpl_outcome.
  destruct (find_ie PFCP_IE_FTEID (iter_ies (ie_value pdr))) as [ft|]; [|done]. cbn [ok_or].
  simpl_outcome. pose proof (parse_fteid_not_panic (ie_value ft)).
  destruct (parse_fteid (ie_value ft)) as [[teid n3]| |]; [|done..]. cbn [map_err]. simpl_outcome.
  by destruct (teid =? 0).
Qed.

Lemma validate_response_not_panic ty seq rsp : validate_response ty seq rsp ≠ Panic.
Proof.
  unfold validate_response. pose proof (decode_not_panic rsp).
  destruct (decode rsp) as [[h body]| |]; [|done..]. cbn [map_err]. simpl_outcome. unfold ensure.
  repeat (case_match; simpl_outcome; try done).
Qed.

Context (exchange_total : ∀ req n, (exchange req n).1 ≠ Panic).

Lemma in_sim_then {T U} (m : st SimState SimError T) (f : T → st (Task N) SimError U) t x s' :
  m (task_sim t) = (Ok x, s') →
  (in_sim m ≫= f) t = f x (mkTask (task_net t) s' (task_sent t)).
Proof. intros Hm. rewrite st_bind_eq. unfold in_sim. by rewrite Hm. Qed.

Lemma attempt_then {T U} (m : st (Task N) SimError T) (f : T + SimError → st (Task N) SimError U) t :
  (m t).1 ≠ Panic →
  (attempt m ≫= f) t =
  f (match (m t).1 with Ok x => inl x | Err e => inr e | Panic => inr Timeout end) (m t).2.
Proof. intros Hm. rewrite st_bind_eq. unfold attempt. by destruct (m t) as [[x|e|] t']. Qed.

Lemma attempt_in_sim {T U} (m : st SimState SimError T) (f : T + SimError → st (Task N) SimError U) t r s' :
  m (task_sim t) = (match r with inl x => Ok x | inr e => Err e end, s') →
  (attempt (in_sim m) ≫= f) t = f r (mkTask (task_net t) s' (task_sent t)).
Proof.
  intros Hm. rewrite st_bind_eq. unfold attempt, in_sim. rewrite Hm. by destruct r.
Qed.

Lemma alloc_ue_ip_eq s :
  alloc_ue_ip s =
  if next_ue_ip s <=? ue_ip_end s
  then (Ok (next_ue_ip s), set_next_ue_ip (wrap 32 (next_ue_ip s + 1)) s)
  else (Err PoolExhausted, s).
Proof. done. Qed.

Lemma send_then {U} msg (f : () → st (Task N) SimError U) t :
  (send_log msg ≫= f) t = f () (mkTask (task_net t) (task_sim t) (task_sent t ++ [Log msg])).
Proof. done. Qed.

Lemma then_then {T U V} (m : st (Task N) SimError T) (f : T → st (Task N) SimError U)
    (g : U → st (Task N) SimError V) t :
  ((m ≫= f) ≫= g) t = (m ≫= λ x, f x ≫= g) t.
Proof. rewrite !st_bind_eq. by destruct (m t) as [[x|e|] t']. Qed.

Lemma send_sessions_then {U} (f : () → st (Task N) SimError U) t :
  (send_sessions values ≫= f) t = f () (mkTask (task_net t) (task_sim t)
    (task_sent t ++ [SessionsUpdated (values (sim_sessions (task_sim t)))])).
Proof. done. Qed.

Lemma lift_then {T U} (m : outcome SimError T) (f : T → st (Task N) SimError U) t x :
  m = Ok x → (lift m ≫= f) t = f x t.
Proof. by intros ->. Qed.

Lemma exchange_total_task req t : (task_exchange exchange req t).1 ≠ Panic.
Proof.
  unfold task_exchange. pose proof (exchange_total req (task_net t)).
  by destruct (exchange req (task_net t)).
Qed.

Lemma task_exchange_eq req t :
  task_exchange exchange req t =
  ((exchange req (task_net t)).1, mkTask (exchange req (task_net t)).2 (task_sim t) (task_sent t)).
Proof. unfold task_exchange. by destruct (exchange req (task_net t)). Qed.

(** A turn, completely: what is sent, the state and the answer it leaves. *)
Lemma turn_spec t :
  let s := task_sim t in
  ∃ evs,
  if next_ue_ip s <=? ue_ip_end s then
    ∃ req, build_session_establishment_request (E:=SimError) (next_seq s) smf_addr
        (next_cp_seid s) (next_ue_ip s) gnb_addr (next_gnb_teid s) = Ok req ∧
      turn t = (Ok true, mkTask (exchange req (task_net t)).2
        (match (exchange req (task_net t)).1 ≫= extract_session_info with
         | Ok info => recorded s info
         | _ => advanced s
         end) (task_sent t ++ evs))
  else turn t = (Ok false, mkTask (task_net t) (seq_used s) (task_sent t ++ evs)).
Proof.
  destruct t as [n s sent]. cbn [task_sim task_net task_sent]. cbv zeta.
  unfold add_session_turn. erewrite in_sim_then by reflexivity. cbn [task_sim task_net task_sent].
  pose proof (alloc_ue_ip_eq (set_next_seq (wrap 32 (next_seq s + 1)) s)) as Ha.
  cbn [next_ue_ip ue_ip_end set_next_seq] in Ha.
  destruct (next_ue_ip s <=? ue_ip_end s).
  2:{ erewrite (attempt_in_sim _ _ _ (inr PoolExhausted)) by exact Ha. eexists. reflexivity. }
  erewrite (attempt_in_sim _ _ _ (inl (next_ue_ip s))) by exact Ha. cbv iota.
  do 2 (erewrite in_sim_then by reflexivity). cbn [task_sim task_net task_sent].
  rewrite send_then. cbn [task_sim task_net task_sent].
  cbn [next_seq next_cp_seid next_gnb_teid next_ue_ip set_next_seq set_next_ue_ip set_next_gnb_teid
    set_next_cp_seid].
  destruct (establishment_request_ok (E:=SimError) (next_seq s) smf_addr (next_cp_seid s)
    (next_ue_ip s) gnb_addr (next_gnb_teid s)) as [req Hreq].
  erewrite lift_then by exact Hreq. rewrite attempt_then by apply exchange_total_task.
  rewrite task_exchange_eq. cbn [fst snd task_sim task_net task_sent].
  pose proof (exchange_total req n) as Hx.
  destruct (exchange req n) as [[rsp|e|] n'] eqn:Ex; [| |done]; cbn [fst snd].
  - pose proof (extract_session_info_not_panic rsp) as Hi.
    rewrite then_then, attempt_then by exact Hi. unfold lift.
    destruct (extract_session_info rsp) as [[[seid teid] n3]|e|] eqn:Ei; [| |done];
      cbn [fst snd]; eexists; exists req; (split; [done|]); rewrite Ex; cbn [fst snd];
      rewrite bind_Ok, Ei.
    + rewrite then_then. erewrite in_sim_then by reflexivity.
      rewrite send_then, send_sessions_then. cbn [task_net task_sim task_sent].
      rewrite <-!(assoc_L (++)). reflexivity.
    + rewrite send_then, send_sessions_then. cbn [task_net task_sim task_sent].
      rewrite <-!(assoc_L (++)). reflexivity.
  - eexists. exists req. split; [done|]. rewrite Ex. cbn [fst snd]. rewrite bind_Err.
    rewrite send_then, send_sessions_then. cbn [task_net task_sim task_sent].
    rewrite <-!(assoc_L (++)). reflexivity.
Qed.

Lemma del_session_spec seid t :
  ∃ evs,
  match sim_sessions (task_sim t) !! seid with
  | None => command (DelSession seid) t =
      (Ok (), mkTask (task_net t) (task_sim t) (task_sent t ++ evs))
  | Some ss =>
      ∃ req, deletion_request (E:=SimError) (next_seq (task_sim t)) (ss_upf_seid ss) = Ok req ∧
      command (DelSession seid) t =
        (Ok (), mkTask (exchange req (task_net t)).2
          (match (exchange req (task_net t)).1 with
           | Ok _ => set_sim_sessions (delete seid) (seq_used (task_sim t))
           | _ => seq_used (task_sim t)
           end) (task_sent t ++ evs))
  end.
Proof.
  cbn [handle_async_command]. unfold del_session. erewrite in_sim_then by reflexivity.
  destruct t as [n s sent]. cbn [task_sim task_net task_sent].
  destruct (sim_sessions s !! seid) as [ss|]; [|by eexists]. cbn [fmap option_fmap option_map].
  erewrite in_sim_then by reflexivity. cbn [task_sim task_net task_sent].
  destruct (deletion_request_ok (E:=SimError) (next_seq s) (ss_upf_seid ss)) as [req Hreq].
  erewrite lift_then by exact Hreq. rewrite attempt_then by apply exchange_total_task.
  rewrite task_exchange_eq. cbn [fst snd task_net task_sim task_sent].
  pose proof (exchange_total req n) as Hx.
  destruct (exchange req n) as [[rsp|e|] n'] eqn:Ex; [| |done]; cbn [fst snd].
  - eexists. exists req. split; [done|]. rewrite Ex. cbn [fst snd].
    rewrite attempt_then by apply validate_response_not_panic. unfold lift. cbn [fst snd].
    erewrite in_sim_then by reflexivity. rewrite send_sessions_then.
    unfold send_log, send, modify. cbn [task_net task_sim task_sent].
    rewrite <-!(assoc_L (++)). reflexivity.
  - eexists. exists req. split; [done|]. rewrite Ex. reflexivity.
Qed.

Lemma manual_heartbeat_spec t :
  ∃ req evs,
    heartbeat_request (E:=SimError) (next_seq (task_sim t))
      (wrapping_add32 (wrap 32 unix_now) 2208988800) = Ok req ∧
    command Heartbeat t =
      (Ok (), mkTask (exchange req (task_net t)).2 (seq_used (task_sim t)) (task_sent t ++ evs)).
Proof.
  cbn [handle_async_command]. unfold manual_heartbeat. erewrite in_sim_then by reflexivity.
  destruct t as [n s sent]. cbn [task_sim task_net task_sent].
  destruct (heartbeat_request_ok (E:=SimError) (next_seq s)
    (wrapping_add32 (wrap 32 unix_now) 2208988800)) as [req Hreq].
  erewrite lift_then by exact Hreq. rewrite attempt_then by apply exchange_total_task.
  rewrite task_exchange_eq. cbn [fst snd task_net task_sim task_sent].
  pose proof (exchange_total req n) as Hx. exists req.
  destruct (exchange req n) as [[rsp|e|] n'] eqn:Ex; [| |done]; cbn [fst snd];
    eexists; (split; [done|]).
  - rewrite send_then. unfold send, modify. cbn [task_net task_sim task_sent].
    rewrite <-(assoc_L (++)). reflexivity.
  - reflexivity.
Qed.

(** What each step of a command preserves, the whole command preserves; and the
    command always completes. *)
Lemma command_keeps (I : Task N → Prop) cmd t :
  (∀ t, I t → I (turn t).2) →
  (∀ seid t, I t → I (command (DelSession seid) t).2) →
  (∀ t, I t → I (command Heartbeat t).2) →
  I t → (command cmd t).1 = Ok () ∧ I (command cmd t).2.
Proof.
  intros Hturn Hdel Hhb Ht. destruct cmd as [|seid|count|seid| | | |]; try done.
  - cbn [handle_async_command]. generalize (Z.to_nat count) as n. intros n. revert t Ht.
    induction n as [|n IH]; intros t Ht; [done|]. cbn [add_sessions].
    specialize (Hturn t Ht). rewrite st_bind_eq. destruct (turn_spec t) as [evs He].
    destruct (_ <=? _).
    + destruct He as (req & _ & Heq). rewrite Heq in Hturn |- *. by apply IH.
    + rewrite He in Hturn |- *. by split.
  - split; [|by apply Hdel]. destruct (del_session_spec seid t) as [evs He].
    destruct (sim_sessions (task_sim t) !! seid); [destruct He as (req & _ & He)|]; by rewrite He.
  - split; [|by apply Hhb]. destruct (manual_heartbeat_spec t) as (req & evs & _ & He). by rewrite He.
Qed.

(** ** The identifiers of the sessions advance in lockstep *)

(** After [k] allocations: the [i]-th session has the [i]-th CP SEID, UE
    address and gNB TEID. *)
Definition lockstep (start teid0 k : Z) (s : SimState) : Prop :=
  0 ≤ k ∧ next_ue_ip s = start + k ∧ start + k ≤ ue_ip_end s + 1 ∧ next_cp_seid s = 1 + k ∧
  next_gnb_teid s = wrap 32 (teid0 + k) ∧
  ∀ cp ss, sim_sessions s !! cp = Some ss →
    ∃ i, 0 ≤ i < k ∧ cp = 1 + i ∧ ss_cp_seid ss = cp ∧ ss_ue_ip ss = start + i ∧
      ss_gnb_teid ss = wrap 32 (teid0 + i).

Lemma lockstep_seq_used start teid0 k s : lockstep start teid0 k s → lockstep start teid0 k (seq_used s).
Proof. done. Qed.

Lemma lockstep_delete start teid0 k s seid :
  lockstep start teid0 k s → lockstep start teid0 k (set_sim_sessions (delete seid) s).
Proof.
  intros (Hk & Hu & Hr & Hc & Hg & Hs). repeat (split; [done|]). cbn. intros cp ss Hl.
  apply lookup_delete_Some in Hl as [_ Hl]. by apply Hs.
Qed.

Lemma lockstep_advanced start teid0 k s :
  0 ≤ start → ue_ip_end s < 2 ^ 32 - 1 → next_ue_ip s ≤ ue_ip_end s →
  lockstep start teid0 k s → lockstep start teid0 (k + 1) (advanced s).
Proof.
  intros H0 He Hle (Hk & Hu & Hr & Hc & Hg & Hs). unfold advanced, lockstep. cbn.
  change (2 ^ 32) with 4294967296 in He.
  split; [lia|]. rewrite Hu, Hc, Hg. unfold wrap. change (2 ^ 32) with 4294967296.
  change (2 ^ 64) with 18446744073709551616.
  split; [rewrite Z.mod_small; lia|]. split; [lia|]. split; [rewrite Z.mod_small; lia|].
  split; [rewrite Zplus_mod_idemp_l; f_equal; lia|].
  intros cp ss Hl. destruct (Hs cp ss Hl) as (i & Hi & Hrest). exists i. split; [lia|exact Hrest].
Qed.

Lemma lockstep_recorded start teid0 k s info :
  0 ≤ start → ue_ip_end s < 2 ^ 32 - 1 → next_ue_ip s ≤ ue_ip_end s →
  lockstep start teid0 k s → lockstep start teid0 (k + 1) (recorded s info).
Proof.
  intros H0 He Hle Hl. pose proof (lockstep_advanced _ _ _ _ H0 He Hle Hl)
    as (Hk & Hu & Hr & Hc & Hg & Hs).
  unfold recorded, lockstep. cbn in *. repeat (split; [done|]).
  intros cp ss Hc'. apply lookup_insert_Some in Hc' as [[<- <-]|[_ Hc']]; [|by apply Hs].
  destruct Hl as (Hk0 & Hu0 & Hr0 & Hc0 & Hg0 & _).
  exists k. unfold new_session. cbn. split; [lia|]. split; [lia|]. by split.
Qed.

(** Sessions in lockstep have identifiers of their own. *)
Lemma lockstep_distinct start teid0 k s cp1 ss1 cp2 ss2 :
  0 ≤ start → ue_ip_end s < 2 ^ 32 - 1 → u32 teid0 → lockstep start teid0 k s →
  sim_sessions s !! cp1 = Some ss1 → sim_sessions s !! cp2 = Some ss2 → cp1 ≠ cp2 →
  ss_cp_seid ss1 = cp1 ∧ start ≤ ss_ue_ip ss1 ≤ ue_ip_end s ∧
  ss_ue_ip ss1 ≠ ss_ue_ip ss2 ∧ ss_gnb_teid ss1 ≠ ss_gnb_teid ss2.
Proof.
  intros H0 He Hg (Hk & _ & Hr & _ & _ & Hs) H1 H2 Hne. change (2 ^ 32) with 4294967296 in He.
  destruct (Hs _ _ H1) as (i1 & Hi1 & -> & -> & -> & ->).
  destruct (Hs _ _ H2) as (i2 & Hi2 & -> & _ & -> & ->).
  split; [done|]. split; [lia|]. split; [lia|]. unfold wrap. change (2 ^ 32) with 4294967296.
  intros E. unfold u32 in Hg. Z.div_mod_to_equations. lia.
Qed.

Lemma lockstep_new unix pool_start pool_end teid0 :
  pool_start ≤ pool_end + 1 → u32 teid0 →
  lockstep pool_start teid0 0 (SimState_new unix pool_start pool_end teid0).
Proof.
  intros Hp Hg. unfold lockstep, u32 in *. cbn.
  split; [lia|]. split; [lia|]. split; [lia|]. split; [lia|]. split.
  - unfold wrap. rewrite Z.mod_small; [lia|]. change (2 ^ 32) with 4294967296. lia.
  - intros cp ss Hl. by rewrite lookup_empty in Hl.
Qed.

Definition run_commands (cmds : list Command) (t : Task N) : Task N :=
  foldl (λ t cmd, (command cmd t).2) t cmds.

Definition lockstep_task (start teid0 pool_end : Z) (t : Task N) : Prop :=
  ue_ip_end (task_sim t) = pool_end ∧ ∃ k, lockstep start teid0 k (task_sim t).

Lemma command_lockstep start teid0 pool_end cmd t :
  0 ≤ start → pool_end < 2 ^ 32 - 1 → lockstep_task start teid0 pool_end t →
  (command cmd t).1 = Ok () ∧ lockstep_task start teid0 pool_end (command cmd t).2.
Proof.
  intros H0 He. apply command_keeps.
  - intros u [<- [k Hk]]. destruct (turn_spec u) as [evs Hu].
    destruct (Z.leb_spec (next_ue_ip (task_sim u)) (ue_ip_end (task_sim u))).
    + destruct Hu as (req & _ & ->). cbn [snd task_sim].
      destruct (_ ≫= extract_session_info) as [info| |]; (split; [done|]); exists (k + 1);
        [by apply lockstep_recorded|by apply lockstep_advanced..].
    + rewrite Hu. split; [done|]. by exists k.
  - intros seid u [<- [k Hk]]. destruct (del_session_spec seid u) as [evs Hu].
    destruct (sim_sessions (task_sim u) !! seid).
    + destruct Hu as (req & _ & ->). destruct (exchange req (task_net u)).1; (split; [done|]);
        exists k; [by apply lockstep_delete|done..].
    + rewrite Hu. split; [done|]. by exists k.
  - intros u [<- [k Hk]]. destruct (manual_heartbeat_spec u) as (req & evs & _ & ->).
    split; [done|]. by exists k.
Qed.

Lemma run_lockstep start teid0 pool_end cmds t :
  0 ≤ start → pool_end < 2 ^ 32 - 1 → lockstep_task start teid0 pool_end t →
  lockstep_task start teid0 pool_end (run_commands cmds t).
Proof.
  intros H0 He. revert t; induction cmds as [|cmd cmds IH]; intros t Ht; [done|].
  apply IH. by apply command_lockstep.
Qed.

(** The terminal's commands one after the other, whatever the network does to their requests:
    every command runs to its end without an error escaping, after any sequence
    of commands; and any two sessions the simulator then has recorded differ in
    their CP SEID, their UE address and their gNB TEID, the addresses lying in
    the configured pool. *)
Theorem commands_allocate unix pool_start pool_end teid0 net cmds t :
  0 ≤ pool_start → pool_start ≤ pool_end + 1 → pool_end < 2 ^ 32 - 1 → u32 teid0 →
  t = run_commands cmds (mkTask net (SimState_new unix pool_start pool_end teid0) []) →
  (∀ cmd, (command cmd t).1 = Ok ()) ∧
  ∀ cp1 ss1 cp2 ss2, sim_sessions (task_sim t) !! cp1 = Some ss1 →
    sim_sessions (task_sim t) !! cp2 = Some ss2 → cp1 ≠ cp2 →
    ss_cp_seid ss1 = cp1 ∧ pool_start ≤ ss_ue_ip ss1 ≤ pool_end ∧
    ss_ue_ip ss1 ≠ ss_ue_ip ss2 ∧ ss_gnb_teid ss1 ≠ ss_gnb_teid ss2.
Proof.
  intros H0 Hp He Hg Et.
  assert (lockstep_task pool_start teid0 pool_end t) as Ht.
  { subst t. apply run_lockstep; [done|done|]. split; [done|]. exists 0. by apply lockstep_new. }
  split; [intros cmd; by apply (command_lockstep pool_start teid0 pool_end cmd t)|].
  destruct Ht as [Hend [k Hk]]. rewrite <-Hend. rewrite <-Hend in He.
  intros; by eapply lockstep_distinct.
Qed.
End tasks_spec.

(** A network that answers every request with a new SEID and TEID. *)
Definition generous (req : list Z) : st Z SimError (list Z) := λ n,
  (build_session_establishment_response 1 1 n 5 [(1, 1000 + n, 5)], n + 1).

Lemma generous_total req n : (generous req n).1 ≠ Panic.
Proof.
  cbn [generous fst]. unfold build_session_establishment_response, add_node_id_v4, add_cause, add_fseid.
  cbv zeta. by rewrite msg_new_body, !add_ie_body, foldl_created_pdr, finish_encode.
Qed.

Definition in_order (m : gmap Z SimSession) : list SimSession := snd <$> map_to_list m.

Definition three_commands : list Command := [AddSession 2; DelSession 1; AddSession 5].

Definition after_three : Task Z :=
  run_commands generous (λ _, []) in_order 1 2 0 0 three_commands
    (mkTask 1 (SimState_new 0 10 13 2147483649) []).

Lemma after_three_eq :
  after_three = run_commands generous (λ _, []) in_order 1 2 0 0 three_commands
    (mkTask 1 (SimState_new 0 10 13 2147483649) []).
Proof. unfold after_three. reflexivity. Qed.

Lemma commands_allocate_witness :
  (handle_async_command generous (λ _, []) in_order 1 2 0 0 Heartbeat after_three).1 = Ok () ∧
  (ss_ue_ip <$> in_order (sim_sessions (task_sim after_three))) = [12; 13; 11] ∧
  (ss_gnb_teid <$> sim_sessions (task_sim after_three) !! 3) ≠
  (ss_gnb_teid <$> sim_sessions (task_sim after_three) !! 4).
Proof.
  destruct (commands_allocate generous (λ _, []) in_order 1 2 0 0 generous_total 0 10 13 2147483649
    1 three_commands after_three ltac:(lia) ltac:(lia) ltac:(vm_compute; reflexivity) ltac:(by uint)
    after_three_eq) as [Hok Hdiff].
  split; [exact (Hok Heartbeat)|]. split; [vm_compute; reflexivity|].
  destruct (sim_sessions (task_sim after_three) !! 3) as [s3|] eqn:E3;
    [|exfalso; vm_compute in E3; discriminate E3].
  destruct (sim_sessions (task_sim after_three) !! 4) as [s4|] eqn:E4;
    [|exfalso; vm_compute in E4; discriminate E4].
  destruct (Hdiff 3 s3 4 s4 E3 E4 ltac:(lia)) as (_ & _ & _ & Hne).
  intros E. injection E as E. exact (Hne E).
Defined.
