(* ===== verification/SimTasks.v ===== *)
(** * The tasks of the simulator's terminal side by side ([smf-sim/src/tui/runner.rs])

    [run_loop] spawns a task for every command that talks to the UPF
    ([spawn_local]: all of them, and the loop itself, take turns on one thread)
    and one for the association.  [SimTui.v] runs a command from its start to
    its end; here a command is a [job], the tree of its critical sections, its
    sends to the screen and its requests, and a [Desk] steps any number of jobs
    in any order, between any turns of the screen, with whatever the transport
    hands to each of them.

    A task gives the thread away where it waits: for an answer, and for room in
    the channel of 100 events.  A lock that such a task still holds stays held,
    and a task that then asks for it blocks the thread, the screen included. *)

From S2P Require Import Prelude Text Commands LogBuffer Types Header Ie Builder Messages Dict.
From S2P Require Import Server SmfSim SimTui.

(** ** Jobs *)

(** [WithLock f k] locks the state, reads it, leaves it as [f] says and goes on
    with what it read; [Send guarded] is [tx.send(ev).await], with the guard of
    the lock alive if [guarded]; [Await] is [send_and_recv(&req).await]. *)
Inductive job (A : Type) :=
| Finish (a : A)
| Crash
| WithLock (f : SimState → SimState) (k : SimState → job A)
| Send (guarded : bool) (ev : AppEvent) (k : job A)
| Await (req : list Z) (k : list Z + SimError → job A).
Arguments Finish {A}. Arguments Crash {A}. Arguments WithLock {A}.
Arguments Send {A}. Arguments Await {A}.

#[export] Instance job_ret : MRet job := @Finish.
#[export] Instance job_bind : MBind job := λ A B g, fix bind (j : job A) : job B :=
  match j with
  | Finish a => g a
  | Crash => Crash
  | WithLock f k => WithLock f (λ s, bind (k s))
  | Send guarded ev k => Send guarded ev (bind k)
  | Await req k => Await req (λ r, bind (k r))
  end.

(** A block under the lock, its failure as a value. *)
Definition locked {T} (m : st SimState SimError T) : job (T + SimError) :=
  WithLock (λ s, (m s).2) (λ s,
    match (m s).1 with Ok a => Finish (inl a) | Err e => Finish (inr e) | Panic => Crash end).

Definition computed {T} (m : outcome SimError T) (k : T + SimError → job unit) : job unit :=
  match m with Ok a => k (inl a) | Err e => k (inr e) | Panic => Crash end.

Definition send_event (ev : AppEvent) : job unit := Send false ev (Finish ()).
Definition request (req : list Z) : job (list Z + SimError) := Await req Finish.

Section jobs.
Variable show_error : SimError → str.
Variable values : gmap Z SimSession → list SimSession.
Variables smf_addr gnb_addr now unix_now recovery_ts : Z.

Definition say (msg : str) : job unit := send_event (Log msg).

(** [state.lock().sessions.values().cloned().collect()] and its event. *)
Definition send_sessions_then (k : job unit) : job unit :=
  WithLock (λ s, s) (λ s, Send false (SessionsUpdated (values (sim_sessions s))) k).

(** What one session needs, taken under one lock. *)
Definition allocate : st SimState SimError (Z * Z * Z * Z) :=
  seq ← next_seq_num;
  ue_ip ← alloc_ue_ip;
  gnb_teid ← alloc_gnb_teid;
  cp_seid ← alloc_cp_seid;
  mret (seq, ue_ip, gnb_teid, cp_seid).

(** What a turn does with the answer to its request. *)
Definition establish_job (cp_seid ue_ip gnb_teid : Z) (rsp : list Z + SimError) : job unit :=
  match rsp with
  | inl rsp =>
      computed (extract_session_info rsp) (λ info,
        match info with
        | inl (upf_seid, upf_teid, upf_n3_addr) =>
            WithLock (set_sim_sessions (insert cp_seid
              (mkSimSession cp_seid upf_seid upf_teid upf_n3_addr ue_ip gnb_teid now)))
              (λ _, say (lit "Session Added: UE=" ++ show_ipv4 ue_ip ++ lit ", SEID=" ++
                         show_hex upf_seid))
        | inr e => say (lit "세션 정보 추출 실패: " ++ show_error e)
        end)
  | inr e => say (lit "세션 생성 실패: " ++ show_error e)
  end.

(** One turn of the [for] loop, then [next].  The pool's exhaustion is reported
    from inside the block that holds the lock. *)
Definition add_session_job (next : job unit) : job unit :=
  WithLock (λ s, (allocate s).2) (λ s,
    match (allocate s).1 with
    | Ok (seq, ue_ip, gnb_teid, cp_seid) =>
        say (lit "UE IP  " ++ show_ipv4 ue_ip);;
        computed (build_session_establishment_request seq smf_addr cp_seid ue_ip gnb_addr gnb_teid)
          (λ req, match req with
           | inl req => rsp ← request req;
                        establish_job cp_seid ue_ip gnb_teid rsp;;
                        send_sessions_then next
           | inr _ => Crash
           end)
    | Err e => Send true (Log (lit "UE IP 할당 실패: " ++ show_error e)) (Finish ())
    | Panic => Crash
    end).

Fixpoint add_sessions_job (count : nat) : job unit :=
  match count with
  | O => Finish ()
  | S count => add_session_job (add_sessions_job count)
  end.

Definition del_session_job (seid : Z) : job unit :=
  session ← locked (gets (λ s, sim_sessions s !! seid));
  match session with
  | inl (Some session) =>
      seq ← locked next_seq_num;
      match seq with
      | inl seq =>
          computed (deletion_request seq (ss_upf_seid session)) (λ msg, match msg with
          | inl msg =>
              rsp ← request msg;
              match rsp with
              | inl rsp =>
                  computed (validate_response PFCP_SESSION_DELETION_REQ seq rsp) (λ _,
                    WithLock (set_sim_sessions (delete seid)) (λ _,
                    send_sessions_then (say (lit "Session Deleted: SEID=" ++ show_hex seid))))
              | inr e => say (lit "Failed to delete session: " ++ show_error e)
              end
          | inr _ => Crash
          end)
      | inr _ => Crash
      end
  | _ => say (lit "No Exist Session " ++ show_hex seid)
  end.

Definition heartbeat_job : job unit :=
  seq ← locked next_seq_num;
  match seq with
  | inl seq =>
      computed (heartbeat_request seq (wrapping_add32 (wrap 32 unix_now) 2208988800)) (λ req,
        match req with
        | inl req =>
            rsp ← request req;
            match rsp with
            | inl _ => say (lit "← Heartbeat Response OK");; send_event HeartbeatUpdated
            | inr e => say (lit "HB 실패: " ++ show_error e)
            end
        | inr _ => Crash
        end)
  | inr _ => Crash
  end.

(** The task of a command. *)
Definition command_job (cmd : Command) : job unit :=
  match cmd with
  | AddSession count => add_sessions_job (Z.to_nat count)
  | DelSession seid => del_session_job seid
  | Heartbeat => heartbeat_job
  | _ => Finish ()
  end.

(** The association task, for at most [fuel] tries. *)
Fixpoint association_loop_job (fuel : nat) : job unit :=
  match fuel with
  | O => Finish ()
  | S fuel =>
      computed (association_request 1 smf_addr recovery_ts) (λ req, match req with
      | inl req =>
          rsp ← request req;
          let retry e :=
            say (lit "Failed to connect to upf-edge, Retry after 10 secs, " ++ show_error e);;
            association_loop_job fuel in
          match rsp with
          | inl rsp =>
              computed (validate_response PFCP_ASSOCIATION_SETUP_REQ 1 rsp) (λ ok, match ok with
              | inl _ =>
                  let connected := send_event (AssociationChanged true);;
                                   say (lit "Connected to upf-edge") in
                  match extract_recovery_ts rsp with
                  | Some ts => WithLock (set_upf_recovery_ts ts) (λ _, connected)
                  | None => connected
                  end
              | inr e => retry e
              end)
          | inr e => retry e
          end
      | inr _ => Crash
      end)
  end.

Definition association_job (fuel : nat) : job unit :=
  say (lit "upf-edge Connecting....");; association_loop_job fuel.

(** ** The desk: the screen, the tasks and what they share *)

Inductive Status :=
| Running
| Left                       (* the loop has ended; its tasks are dropped *)
| Frozen.                    (* the thread waits for a lock that a sleeping task holds *)

Record Desk := mkDesk {
  desk_status : Status;
  desk_sim : SimState;
  desk_queue : list AppEvent;
  desk_app : App;
  desk_jobs : list (job unit);       (* of the commands, in the order they were spawned *)
  desk_assoc : job unit;             (* of the association, on a thread of its own *)
}.

(** [mpsc::channel::<AppEvent>(100)] *)
Definition events_capacity : nat := 100.
Definition room_left (q : list AppEvent) : bool := (length q <? events_capacity)%nat.

(** A task that sleeps with the lock. *)
Definition holds (j : job unit) : bool := match j with Send true _ _ => true | _ => false end.

(** Run a task until it waits: [None] when it asks for a lock that is held. *)
Fixpoint resume (held : bool) (j : job unit) (s : SimState) (q : list AppEvent)
    : option (SimState * list AppEvent * job unit) :=
  match j with
  | Finish _ | Crash | Await _ _ => Some (s, q, j)
  | WithLock f k => if held then None else resume held (k s) (f s) q
  | Send guarded ev k =>
      if room_left q then resume held k s (q ++ [ev]) else Some (s, q, j)
  end.

(** What a task goes on with when it is woken: by an answer, or by room in the
    channel (a task that was just spawned, at once). *)
Definition wake (q : list AppEvent) (r : list Z + SimError) (j : job unit) : option (job unit) :=
  match j with
  | Finish _ | Crash => None
  | WithLock _ _ => Some j
  | Send _ _ _ => if room_left q then Some j else None
  | Await _ k => Some (k r)
  end.

Definition held_by_other (i : nat) (jobs : list (job unit)) : bool :=
  existsb holds (take i jobs ++ drop (S i) jobs).

(** The command at [i] goes on, with the answer [r] if it waits for one. *)
Definition job_turn (i : nat) (r : list Z + SimError) (d : Desk) : option Desk :=
  match desk_status d, desk_jobs d !! i ≫= wake (desk_queue d) r with
  | Running, Some j =>
      Some match resume (held_by_other i (desk_jobs d)) j (desk_sim d) (desk_queue d) with
      | Some (s, q, j) =>
          mkDesk Running s q (desk_app d) (<[i := j]> (desk_jobs d)) (desk_assoc d)
      | None =>
          mkDesk Frozen (desk_sim d) (desk_queue d) (desk_app d) (desk_jobs d) (desk_assoc d)
      end
  | _, _ => None
  end.

(** The association task goes on; when the lock is held only its own thread
    waits. *)
Definition assoc_turn (r : list Z + SimError) (d : Desk) : option Desk :=
  match wake (desk_queue d) r (desk_assoc d) with
  | Some j =>
      match resume (existsb holds (desk_jobs d)) j (desk_sim d) (desk_queue d) with
      | Some (s, q, j) => Some (mkDesk (desk_status d) s q (desk_app d) (desk_jobs d) j)
      | None => None
      end
  | None => None
  end.

(** A turn of [run_loop]: it takes what the channel holds, and spawns the
    command the operator has entered. *)
Definition screen_turn (clock : nat → str) (ev : LoopEvent) (d : Desk) : option Desk :=
  match desk_status d with
  | Running =>
      let '(a, cmd, ended) := loop_turn clock (desk_queue d) ev (desk_app d) in
      let jobs := desk_jobs d ++ match cmd with Some cmd => [command_job cmd] | None => [] end in
      Some (mkDesk (if ended : bool then Left else Running) (desk_sim d) [] a jobs (desk_assoc d))
  | _ => None
  end.

(** Whose turn it is, and what the world hands to it. *)
Inductive DeskTurn :=
| JobTurn (i : nat) (r : list Z + SimError)
| AssocTurn (r : list Z + SimError)
| ScreenTurn (clock : nat → str) (ev : LoopEvent).

Definition take_turn (t : DeskTurn) (d : Desk) : option Desk :=
  match t with
  | JobTurn i r => job_turn i r d
  | AssocTurn r => assoc_turn r d
  | ScreenTurn clock ev => screen_turn clock ev d
  end.

Fixpoint take_turns (ts : list DeskTurn) (d : Desk) : option Desk :=
  match ts with
  | [] => Some d
  | t :: ts => take_turn t d ≫= take_turns ts
  end.

(** [run_loop] before its first turn. *)
Definition desk_start (time : str) (s : SimState) (fuel : nat) : Desk :=
  mkDesk Running s [] (App_log time (lit " smf-sim TUI Start! Check the'help' command.") App_new)
    [] (association_job fuel).
End jobs.

(** The lock's block of a turn: what it hands out, and the state it leaves. *)
Lemma allocate_eq s :
  allocate s =
  if next_ue_ip s <=? ue_ip_end s
  then (Ok (next_seq s, next_ue_ip s, next_gnb_teid s, next_cp_seid s), advanced s)
  else (Err PoolExhausted, seq_used s).
Proof.
  unfold allocate. rewrite !st_bind_eq. cbn [next_seq_num]. rewrite st_bind_eq, alloc_ue_ip_eq.
  cbn [next_ue_ip ue_ip_end set_next_seq]. by destruct (next_ue_ip s <=? ue_ip_end s).
Qed.

Lemma take_turns_keep show_error values smf_addr gnb_addr now unix_now (P : Desk → Prop) ts d d' :
  (∀ t d1 d2, take_turn show_error values smf_addr gnb_addr now unix_now t d1 = Some d2 → P d1 → P d2) →
  take_turns show_error values smf_addr gnb_addr now unix_now ts d = Some d' → P d → P d'.
Proof.
  intros Hstep. revert d. induction ts as [|t ts IH]; intros d; [by intros [= <-]|]. cbn [take_turns].
  destruct (take_turn _ _ _ _ _ _ t d) as [d1|] eqn:E; [|done]. cbn. intros Hrun Hd.
  apply (IH d1 Hrun). by eapply Hstep.
Qed.

(** ** A task that runs alone is the command of [SimTui.v] *)

Section alone.
Context {N : Type}.
Variable exchange : list Z → st N SimError (list Z).

(** No other task, a channel that always has room. *)
Fixpoint alone {A} (j : job A) : st (Task N) SimError A :=
  match j with
  | Finish a => mret a
  | Crash => lift Panic
  | WithLock f k => λ t, alone (k (task_sim t)) (mkTask (task_net t) (f (task_sim t)) (task_sent t))
  | SimTasks.Send _ ev k => SimTui.send ev;; alone k
  | Await req k => r ← attempt (task_exchange exchange req); alone (k r)
  end.

Lemma alone_bind {A B} (j : job A) (g : A → job B) t :
  alone (j ≫= g) t = (alone j ≫= λ a, alone (g a)) t.
Proof.
  revert t. induction j as [a| |f k IH|guarded ev k IH|req k IH]; intros t; try done.
  - apply IH.
  - etransitivity; [|symmetry; apply then_then]. rewrite !st_bind_eq. cbn. apply IH.
  - etransitivity; [|symmetry; apply then_then].
    change (Await req k ≫= g) with (Await req (λ r, k r ≫= g)). cbn [alone].
    rewrite !st_bind_eq. destruct (attempt _ t) as [[r|e|] t']; [apply IH|done|done].
Qed.

Lemma alone_locked_then {T} (m : st SimState SimError T) (k : T + SimError → job unit) t x s' :
  m (task_sim t) = (Ok x, s') →
  alone (locked m ≫= k) t = alone (k (inl x)) (mkTask (task_net t) s' (task_sent t)).
Proof. intros Hm. rewrite alone_bind, st_bind_eq. unfold locked. cbn [alone]. by rewrite Hm. Qed.

Lemma alone_computed_ok {T} (m : outcome SimError T) k t x :
  m = Ok x → alone (computed m k) t = alone (k (inl x)) t.
Proof. by intros ->. Qed.

Lemma alone_computed {T} (m : outcome SimError T) k t :
  alone (computed m k) t = (attempt (lift m) ≫= λ r, alone (k r)) t.
Proof. rewrite st_bind_eq. by destruct m. Qed.

Variable show_error : SimError → str.
Variable values : gmap Z SimSession → list SimSession.
Variables smf_addr gnb_addr now unix_now recovery_ts : Z.

Lemma st_bind_proper {S E A B} (m m' : st S E A) (f f' : A → st S E B) s :
  (∀ s, m s = m' s) → (∀ a s, f a s = f' a s) → (m ≫= f) s = (m' ≫= f') s.
Proof.
  intros Hm Hf. rewrite !st_bind_eq, Hm. destruct (m' s) as [[a|e|] s']; [apply Hf|done|done].
Qed.

Lemma alone_request req t : alone (request req) t = attempt (task_exchange exchange req) t.
Proof.
  unfold request. cbn [alone]. rewrite st_bind_eq. by destruct (attempt _ t) as [[r|e|] t'].
Qed.

Lemma alone_add_turn next t :
  alone (add_session_job show_error values smf_addr gnb_addr now next) t =
  (add_session_turn exchange show_error values smf_addr gnb_addr now ≫=
    λ continue, if continue : bool then alone next else mret ()) t.
Proof.
  destruct t as [n s sent]. unfold add_session_job, add_session_turn. cbn [alone task_sim task_net task_sent].
  rewrite then_then. erewrite in_sim_then by reflexivity. cbn [task_sim task_net task_sent].
  pose proof (alloc_ue_ip_eq (set_next_seq (wrap 32 (next_seq s + 1)) s)) as Ha.
  cbn [next_ue_ip ue_ip_end set_next_seq] in Ha.
  rewrite allocate_eq. destruct (next_ue_ip s <=? ue_ip_end s).
  2:{ rewrite then_then. erewrite (attempt_in_sim _ _ _ (inr PoolExhausted)) by exact Ha. reflexivity. }
  rewrite then_then. erewrite (attempt_in_sim _ _ _ (inl (next_ue_ip s))) by exact Ha. cbv iota.
  rewrite then_then. erewrite in_sim_then by reflexivity.
  rewrite then_then. erewrite in_sim_then by reflexivity. cbn [task_sim task_net task_sent fst snd].
  rewrite alone_bind, then_then. apply st_bind_proper; [done|]. intros _ u.
  destruct (establishment_request_ok (E:=SimError) (next_seq s) smf_addr (next_cp_seid s)
    (next_ue_ip s) gnb_addr (next_gnb_teid s)) as [req Hreq].
  rewrite alone_computed, then_then. erewrite (lift_then _ _ _ req) by exact Hreq.
  rewrite Hreq, st_bind_eq. cbn [attempt lift].
  rewrite alone_bind, then_then. apply st_bind_proper; [by apply alone_request|]. intros rsp v.
  rewrite alone_bind, then_then. apply st_bind_proper.
  - destruct rsp as [rsp|e]; [|done]. intros x. cbn [establish_job]. rewrite alone_computed.
    apply st_bind_proper; [done|]. by intros [[[seid teid] n3]|e] y.
  - intros _ x. by rewrite then_then.
Qed.

(** Run alone, with an answer to each request as the network gives it and
    room in the channel, the task of a command does exactly what the command
    does: the same requests, the same final state of the simulator, the same
    events in the same order, for every command and every network. *)
Theorem command_job_alone cmd t :
  alone (command_job show_error values smf_addr gnb_addr now unix_now cmd) t =
  handle_async_command exchange show_error values smf_addr gnb_addr now unix_now cmd t.
Proof.
  destruct cmd as [|seid|count|seid| | | |]; try done; cbn [command_job handle_async_command].
  - generalize (Z.to_nat count) as n. intros n. revert t. induction n as [|n IH]; intros t; [done|].
    cbn [add_sessions_job add_sessions]. rewrite alone_add_turn. apply st_bind_proper; [done|].
    by intros [] u.
  - unfold del_session_job, del_session.
    erewrite alone_locked_then by reflexivity. erewrite in_sim_then by reflexivity.
    cbn [task_sim task_net task_sent].
    destruct (sim_sessions (task_sim t) !! seid) as [ss|]; cbn [fmap option_fmap option_map]; [|done].
    erewrite alone_locked_then by reflexivity. erewrite in_sim_then by reflexivity.
    cbn [task_sim task_net task_sent].
    destruct (deletion_request_ok (E:=SimError) (next_seq (task_sim t)) (ss_upf_seid ss)) as [req Hreq].
    erewrite alone_computed_ok by exact Hreq. erewrite lift_then by exact Hreq. rewrite alone_bind.
    apply st_bind_proper; [by apply alone_request|]. intros [rsp|e] u; [|done].
    rewrite alone_computed. by apply st_bind_proper.
  - unfold heartbeat_job, manual_heartbeat.
    erewrite alone_locked_then by reflexivity. erewrite in_sim_then by reflexivity.
    cbn [task_sim task_net task_sent].
    destruct (heartbeat_request_ok (E:=SimError) (next_seq (task_sim t))
      (wrapping_add32 (wrap 32 unix_now) 2208988800)) as [req Hreq].
    erewrite alone_computed_ok by exact Hreq. erewrite lift_then by exact Hreq. rewrite alone_bind.
    apply st_bind_proper; [by apply alone_request|]. by intros [rsp|e] u.
Qed.
End alone.

(** ** Invariants of the shared state

    [safe I k j]: from any state in a world [k] or later of the invariant [I],
    every critical section of [j] ends in a world that is no earlier. *)

Section safety.
Variable I : Z → SimState → Prop.

Fixpoint safe (k : Z) (j : job unit) : Prop :=
  match j with
  | Finish _ => True
  | Crash => False
  | WithLock f g => ∀ k1 s, k ≤ k1 → I k1 s → ∃ k2, k1 ≤ k2 ∧ I k2 (f s) ∧ safe k2 (g s)
  | SimTasks.Send _ _ j => safe k j
  | Await _ g => ∀ r, safe k (g r)
  end.

Lemma safe_later k k' j : k ≤ k' → safe k j → safe k' j.
Proof.
  intros Hk. induction j as [a| |f g IH|guarded ev j IH|req g IH]; cbn; intros Hj; auto.
  intros k1 s H1 Hs. apply Hj; [lia|done].
Qed.

(** A section that keeps the world, whatever it reads. *)
Lemma safe_lock k f g :
  (∀ k1 s, k ≤ k1 → I k1 s → I k1 (f s)) → (∀ k1 s, k ≤ k1 → safe k1 (g s)) →
  safe k (WithLock f g).
Proof. intros Hf Hg k1 s Hk Hs. exists k1. split; [lia|]. split; [by apply Hf|by apply Hg]. Qed.

Lemma safe_computed {T} (m : outcome SimError T) k g :
  m ≠ Panic → (∀ r, safe k (g r)) → safe k (computed m g).
Proof. by destruct m; cbn; auto. Qed.

Lemma safe_wake q r k j j' : wake q r j = Some j' → safe k j → safe k j'.
Proof.
  destruct j as [a| |f g|guarded ev j|req g]; cbn [wake safe]; [done|done|by intros [= <-]| |by intros [= <-]].
  destruct (room_left q); [by intros [= <-]|done].
Qed.

Lemma resume_safe held j k s q s' q' j' :
  safe k j → I k s → resume held j s q = Some (s', q', j') →
  ∃ k', k ≤ k' ∧ I k' s' ∧ safe k' j'.
Proof.
  revert k s q. induction j as [a| |f g IH|guarded ev j IH|req g IH]; cbn [resume safe];
    intros k s q Hj Hs.
  - intros [= <- <- <-]. by exists k.
  - done.
  - destruct held; [done|]. intros Hr. destruct (Hj k s ltac:(lia) Hs) as (k2 & Hk & Hs2 & Hg).
    destruct (IH s k2 (f s) q Hg Hs2 Hr) as (k3 & ? & ? & ?). exists k3. split; [lia|done].
  - destruct (room_left q); [by apply IH|]. intros [= <- <- <-]. by exists k.
  - intros [= <- <- <-]. by exists k.
Qed.

Definition safe_desk (d : Desk) : Prop :=
  ∃ k, I k (desk_sim d) ∧ Forall (safe k) (desk_jobs d) ∧ safe k (desk_assoc d).

(** A predicate of the tasks that waking and resuming keeps is kept by any step,
    if the commands have it from the start. *)
Lemma safe_desk_step show_error values smf_addr gnb_addr now unix_now t d d' :
  (∀ cmd k, safe k (command_job show_error values smf_addr gnb_addr now unix_now cmd)) →
  take_turn show_error values smf_addr gnb_addr now unix_now t d = Some d' →
  safe_desk d → safe_desk d'.
Proof.
  intros Hcmd Ht (k & Hs & Hjobs & Ha). destruct t as [i r|r|clock ev]; cbn [take_turn] in Ht.
  - unfold job_turn in Ht. destruct (desk_status d); [|done..].
    destruct (desk_jobs d !! i) as [j|] eqn:Ej; [|done]. cbn in Ht.
    destruct (wake _ r j) as [j1|] eqn:Ew; [|done].
    pose proof (Forall_lookup_1 _ _ _ _ Hjobs Ej) as Hj. apply (safe_wake _ _ _ _ _ Ew) in Hj.
    destruct (resume _ _ _ _) as [[[s q] j2]|] eqn:Er; injection Ht as <-; [|by exists k].
    destruct (resume_safe _ _ _ _ _ _ _ _ Hj Hs Er) as (k' & Hk & Hs' & Hj').
    exists k'. split; [done|]. cbn. split; [|by eapply safe_later].
    apply Forall_insert; [|done]. eapply Forall_impl; [exact Hjobs|]. intros; by eapply safe_later.
  - unfold assoc_turn in Ht. destruct (wake _ r _) as [j1|] eqn:Ew; [|done].
    apply (safe_wake _ _ _ _ _ Ew) in Ha.
    destruct (resume _ _ _ _) as [[[s q] j2]|] eqn:Er; [|done]. injection Ht as <-.
    destruct (resume_safe _ _ _ _ _ _ _ _ Ha Hs Er) as (k' & Hk & Hs' & Hj').
    exists k'. split; [done|]. cbn. split; [|done].
    eapply Forall_impl; [exact Hjobs|]. intros; by eapply safe_later.
  - unfold screen_turn in Ht. destruct (desk_status d); [|done..].
    destruct (loop_turn _ _ _ _) as [[a cmd] ended]. injection Ht as <-.
    exists k. cbn. split; [done|]. split; [|done]. apply Forall_app. split; [done|].
    destruct cmd as [cmd|]; [|done]. apply Forall_singleton. by apply Hcmd.
Qed.
End safety.

(** ** The identifiers, whatever the order of the tasks *)

Section allocation.
Variable show_error : SimError → str.
Variable values : gmap Z SimSession → list SimSession.
Variables smf_addr gnb_addr now unix_now recovery_ts : Z.
Variables pool_start pool_end teid0 : Z.
Hypothesis start_nonneg : 0 ≤ pool_start.
Hypothesis pool_fits : pool_end < 2 ^ 32 - 1.

Definition allocated (k : Z) (s : SimState) : Prop :=
  lockstep pool_start teid0 k s ∧ ue_ip_end s = pool_end.

(** Recording the [i]-th session, whenever its answer comes. *)
Lemma allocated_insert k s i ss :
  allocated k s → 0 ≤ i < k → ss_cp_seid ss = 1 + i → ss_ue_ip ss = pool_start + i →
  ss_gnb_teid ss = wrap 32 (teid0 + i) →
  allocated k (set_sim_sessions (insert (1 + i) ss) s).
Proof.
  intros [(Hk & Hu & Hr & Hc & Hg & Hs) He] Hi H1 H2 H3. split; [|done].
  repeat (split; [done|]). cbn. intros cp ss' Hl.
  apply lookup_insert_Some in Hl as [[<- <-]|[_ Hl]]; [|by apply Hs]. by exists i.
Qed.

Lemma safe_locked_then {T} (m : st SimState SimError T) (g : T + SimError → job unit) k :
  (∀ k1 s, k ≤ k1 → allocated k1 s → ∃ a s', m s = (Ok a, s') ∧ allocated k1 s') →
  (∀ k1 a, k ≤ k1 → safe allocated k1 (g (inl a))) →
  safe allocated k (locked m ≫= g).
Proof.
  intros Hm Hg k1 s Hk Hs. destruct (Hm k1 s Hk Hs) as (a & s' & E & Hs'). exists k1.
  split; [lia|]. rewrite E. cbn [fst snd]. split; [done|]. by apply Hg.
Qed.

Lemma safe_next_seq (g : Z + SimError → job unit) k :
  (∀ k1 a, k ≤ k1 → safe allocated k1 (g (inl a))) → safe allocated k (locked next_seq_num ≫= g).
Proof.
  apply safe_locked_then. intros k1 s _ [Hl He]. eexists _, _. split; [reflexivity|].
  split; [exact Hl|exact He].
Qed.

Lemma safe_say k msg : safe allocated k (say msg).
Proof. done. Qed.

Lemma safe_say_then k msg next : safe allocated k next → safe allocated k (say msg;; next).
Proof. done. Qed.

Lemma safe_send_sessions k next :
  safe allocated k next → safe allocated k (send_sessions_then values next).
Proof. intros Hn. apply safe_lock; [done|]. intros k1 s Hk. exact (safe_later _ _ _ _ Hk Hn). Qed.

Lemma establish_safe k i rsp next :
  0 ≤ i < k → safe allocated k next →
  safe allocated k (establish_job show_error now (1 + i) (pool_start + i) (wrap 32 (teid0 + i)) rsp;;
    send_sessions_then values next).
Proof.
  intros Hi Hn. pose proof (safe_send_sessions k next Hn) as Hn'.
  destruct rsp as [rsp|e]; [|done]. cbn [establish_job].
  pose proof (extract_session_info_not_panic rsp) as Hp.
  destruct (extract_session_info rsp) as [[[seid teid] n3]|e|]; [|done..].
  apply safe_lock.
  - intros k1 s Hk Hs. apply allocated_insert; [done|lia|done..].
  - intros k1 s Hk. exact (safe_later _ _ _ _ Hk Hn').
Qed.

Lemma add_session_safe k next :
  (∀ k', safe allocated k' next) →
  safe allocated k (add_session_job show_error values smf_addr gnb_addr now next).
Proof.
  intros Hn k1 s Hk Hs. pose proof Hs as [Hl He]. rewrite allocate_eq.
  destruct (Z.leb_spec (next_ue_ip s) (ue_ip_end s)) as [Hle|_]; [|by exists k1].
  exists (k1 + 1). split; [lia|]. split.
  { split; [|done]. apply lockstep_advanced; [done|by rewrite He|done|done]. }
  destruct Hl as (Hk0 & Hu & _ & Hc & Hg & _). cbn [fst]. apply safe_say_then.
  destruct (establishment_request_ok (E:=SimError) (next_seq s) smf_addr (next_cp_seid s)
    (next_ue_ip s) gnb_addr (next_gnb_teid s)) as [req Hreq]. rewrite Hreq.
  intros rsp. rewrite Hc, Hu, Hg. apply establish_safe; [lia|done].
Qed.

Lemma command_safe cmd k :
  safe allocated k (command_job show_error values smf_addr gnb_addr now unix_now cmd).
Proof.
  destruct cmd as [|seid|count|seid| | | |]; try done; cbn [command_job].
  - revert k. induction (Z.to_nat count) as [|n IH]; intros k; [done|]. by apply add_session_safe.
  - apply safe_locked_then; [intros k1 s _ Hs; by eexists _, s|].
    intros k1 [ss|] _; [|done]. apply safe_next_seq. intros k2 seq _.
    destruct (deletion_request_ok (E:=SimError) seq (ss_upf_seid ss)) as [req Hreq].
    rewrite Hreq. intros [rsp|e]; [|done]. apply safe_computed; [apply validate_response_not_panic|].
    intros _. apply safe_lock.
    + intros k3 s3 _ [Hl He]. split; [by apply lockstep_delete|done].
    + intros k3 s3 _. by apply safe_send_sessions.
  - apply safe_next_seq. intros k1 seq _.
    destruct (heartbeat_request_ok (E:=SimError) seq
      (wrapping_add32 (wrap 32 unix_now) 2208988800)) as [req Hreq].
    rewrite Hreq. by intros [rsp|e].
Qed.

Lemma association_safe fuel k :
  safe allocated k (association_job show_error smf_addr recovery_ts fuel).
Proof.
  apply safe_say_then. revert k. induction fuel as [|fuel IH]; intros k; [done|].
  cbn [association_loop_job].
  destruct (association_request_ok (E:=SimError) 1 smf_addr recovery_ts) as [req Hreq]. rewrite Hreq.
  intros [rsp|e]; [|apply IH]. apply safe_computed; [apply validate_response_not_panic|].
  intros [_|e]; [|apply IH]. destruct (extract_recovery_ts rsp); [|done].
  by apply safe_lock.
Qed.

Definition desk_turns : list DeskTurn → Desk → option Desk :=
  take_turns show_error values smf_addr gnb_addr now unix_now.

Definition first_desk (time : str) (unix : Z) (fuel : nat) : Desk :=
  desk_start show_error smf_addr recovery_ts time (SimState_new unix pool_start pool_end teid0) fuel.

Lemma desk_allocated time unix fuel ts d :
  pool_start ≤ pool_end + 1 → u32 teid0 →
  desk_turns ts (first_desk time unix fuel) = Some d → safe_desk allocated d.
Proof.
  intros Hp Hg Hrun.
  assert (safe_desk allocated (first_desk time unix fuel)) as H0.
  { exists 0. split; [split; [by apply lockstep_new|done]|]. split; [by constructor|].
    apply association_safe. }
  revert Hrun H0. apply take_turns_keep. intros t d1 d2. apply safe_desk_step.
  intros cmd k. apply command_safe.
Qed.
End allocation.

(** ** When the thread blocks *)

Definition frozen_by_guard (d : Desk) : Prop :=
  desk_status d = Frozen → Exists (λ j, holds j = true) (desk_jobs d).

Lemma existsb_holds l : existsb holds l = true → Exists (λ j, holds j = true) l.
Proof. intros (j & Hin & Hj)%existsb_exists. apply Exists_exists. exists j. by rewrite list_elem_of_In. Qed.

Lemma held_by_other_holds i l : held_by_other i l = true → Exists (λ j, holds j = true) l.
Proof.
  intros [Er|Er]%existsb_holds%Exists_app; apply Exists_exists in Er as (j & Hin & Hj);
    apply Exists_exists; exists j; split; try done.
  - by eapply subseteq_take.
  - by eapply subseteq_drop.
Qed.

Lemma resume_blocked held j s q : resume held j s q = None → held = true.
Proof.
  revert s q. induction j as [a| |f g IH|guarded ev j IH|req g IH]; cbn [resume]; intros s q; try done.
  - destruct held; [done|]. apply IH.
  - destruct (room_left q); [apply IH|done].
Qed.

Lemma frozen_step show_error values smf_addr gnb_addr now unix_now t d d' :
  take_turn show_error values smf_addr gnb_addr now unix_now t d = Some d' →
  frozen_by_guard d → frozen_by_guard d'.
Proof.
  intros Ht Hd. unfold frozen_by_guard in *. destruct t as [i r|r|clock ev]; cbn [take_turn] in Ht.
  - unfold job_turn in Ht. destruct (desk_status d); [|done..].
    destruct (_ ≫= _) as [j|]; [|done].
    destruct (resume _ _ _ _) as [[[s q] j2]|] eqn:Er; injection Ht as <-; [done|]. cbn. intros _.
    by apply resume_blocked, held_by_other_holds in Er.
  - unfold assoc_turn in Ht. destruct (wake _ _ _); [|done].
    destruct (resume _ _ _ _) as [[[s q] j2]|]; [|done]. by injection Ht as <-.
  - unfold screen_turn in Ht. destruct (desk_status d); [|done..].
    destruct (loop_turn _ _ _ _) as [[a cmd] ended]. injection Ht as <-. by destruct ended.
Qed.

(** ** Tasks come to an end *)

(** What one turn makes of a task. *)
Definition turned (j' j : job unit) : Prop :=
  ∃ q r j1 held s s' q', wake q r j = Some j1 ∧ resume held j1 s q = Some (s', q', j').

Lemma turned_resumed j :
  Acc turned j ∧ ∀ held s q s' q' j', resume held j s q = Some (s', q', j') → Acc turned j'.
Proof.
  induction j as [a| |f g IH|guarded ev j [IH1 IH2]|req g IH]; cbn [resume].
  - assert (Acc turned (Finish a)) as Ha by (constructor; intros j' (q & r & j1 & ? & ? & ? & ? & [=] & _)).
    split; [done|]. by intros ?????? [= _ _ <-].
  - assert (Acc turned Crash) as Ha by (constructor; intros j' (q & r & j1 & ? & ? & ? & ? & [=] & _)).
    split; [done|]. by intros ?????? [= _ _ <-].
  - assert (∀ held s q s' q' j', (if held : bool then None else resume held (g s) (f s) q) =
      Some (s', q', j') → Acc turned j') as Hr.
    { intros [] s q s' q' j' Hr; [done|]. by eapply (proj2 (IH s)). }
    split; [|done]. constructor. intros j' (q & r & j1 & held & s & s' & q' & [= <-] & Hj). by eapply Hr.
  - assert (Acc turned (SimTasks.Send guarded ev j)) as Ha.
    { constructor. intros j' (q & r & j1 & held & s & s' & q' & Hw & Hj). cbn [wake] in Hw.
      destruct (room_left q) eqn:E; [|done]. injection Hw as <-. cbn [resume] in Hj. rewrite E in Hj.
      by eapply IH2. }
    split; [done|]. intros held s q s' q' j'. destruct (room_left q); [by apply IH2|]. by intros [= _ _ <-].
  - assert (Acc turned (Await req g)) as Ha.
    { constructor. intros j' (q & r & j1 & held & s & s' & q' & [= <-] & Hj). by eapply (proj2 (IH r)). }
    split; [done|]. by intros ?????? [= _ _ <-].
Qed.

(** One of several tasks takes its turn. *)
Definition one_turned (l' l : list (job unit)) : Prop :=
  ∃ i j j', l !! i = Some j ∧ l' = <[i := j']> l ∧ turned j' j.

Lemma one_turned_acc l : Acc one_turned l.
Proof.
  induction l as [|j l IH].
  { constructor. intros l' (i & j & j' & [=] & _). }
  pose proof (proj1 (turned_resumed j)) as Hj. revert l IH.
  induction Hj as [j _ IHj]. intros l Hl. induction Hl as [l Hl IHl].
  constructor. intros l' (i & j0 & j' & Hi & -> & Ht). destruct i as [|i]; cbn in Hi |- *.
  - injection Hi as <-. apply IHj; [done|]. by constructor.
  - apply IHl. by exists i, j0, j'.
Qed.

Definition job_turned (d' d : Desk) : Prop := ∃ i r, job_turn i r d = Some d'.

Lemma job_turned_acc d : Acc job_turned d.
Proof.
  remember (desk_jobs d) as l eqn:El. revert d El.
  induction (one_turned_acc l) as [l _ IH]. intros d ->. constructor. intros d' (i & r & Ht).
  unfold job_turn in Ht. destruct (desk_status d); [|done..].
  destruct (desk_jobs d !! i) as [j|] eqn:Ej; [|done]. cbn in Ht.
  destruct (wake _ r j) as [j1|] eqn:Ew; [|done].
  destruct (resume _ _ _ _) as [[[s q] j2]|] eqn:Er; injection Ht as <-.
  - eapply IH; [|reflexivity]. exists i, j, j2. split; [done|]. split; [done|].
    by eexists _, _, _, _, _, _, _.
  - constructor. intros d' (i' & r' & Ht'). by cbn in Ht'.
Qed.

(** A task that is not done goes on whenever it gets an answer, and room, unless
    a sleeping task holds the lock. *)
Lemma job_goes_on d i j r :
  desk_status d = Running → desk_jobs d !! i = Some j → room_left (desk_queue d) = true →
  ¬ Exists (λ j, holds j = true) (desk_jobs d) → j ≠ Crash →
  j = Finish () ∨ ∃ d', job_turn i r d = Some d' ∧ desk_status d' = Running.
Proof.
  intros Hs Hj Hroom Hheld Hc. unfold job_turn. rewrite Hs, Hj. cbn [mbind option_bind].
  assert (j = Finish () ∨ ∃ j1, wake (desk_queue d) r j = Some j1) as [?|[j1 ->]]; [|by left|right].
  { destruct j as [[]| |f g|guarded ev j|req g]; cbn [wake]; rewrite ?Hroom; try done; eauto. }
  destruct (resume _ _ _ _) as [[[s q] j2]|] eqn:Er; [by eexists|].
  by apply resume_blocked, held_by_other_holds in Er.
Qed.

Section interleaved.
Variable show_error : SimError → str.
Variable values : gmap Z SimSession → list SimSession.
Variables smf_addr gnb_addr now unix_now recovery_ts : Z.

(** C29. The terminal's commands side by side: spawn any commands at any time and
    let them, the association task and the screen take turns in any order, with
    any answer, in any order of arrival, or error handed to any waiting task.
    Whatever is reached, any two sessions the simulator has recorded differ in
    their CP SEID, their UE address and their gNB TEID, the addresses lying in
    the configured pool; no task has panicked; the thread blocks only on a lock
    that a sleeping task holds; while no task sleeps with the lock and the
    channel has room, every task that is not done goes on at the next answer;
    and without new commands the tasks come to an end: there is no infinite
    sequence of their turns. *)
Theorem commands_interleaved pool_start pool_end teid0 time unix fuel ts d :
  0 ≤ pool_start → pool_start ≤ pool_end + 1 → pool_end < 2 ^ 32 - 1 → u32 teid0 →
  desk_turns show_error values smf_addr gnb_addr now unix_now ts
    (first_desk show_error smf_addr recovery_ts pool_start pool_end teid0 time unix fuel) = Some d →
  (∀ cp1 ss1 cp2 ss2, sim_sessions (desk_sim d) !! cp1 = Some ss1 →
    sim_sessions (desk_sim d) !! cp2 = Some ss2 → cp1 ≠ cp2 →
    ss_cp_seid ss1 = cp1 ∧ pool_start ≤ ss_ue_ip ss1 ≤ pool_end ∧
    ss_ue_ip ss1 ≠ ss_ue_ip ss2 ∧ ss_gnb_teid ss1 ≠ ss_gnb_teid ss2) ∧
  (desk_status d = Frozen → Exists (λ j, holds j = true) (desk_jobs d)) ∧
  (∀ i j r, desk_status d = Running → desk_jobs d !! i = Some j →
    j ≠ Crash ∧
    (room_left (desk_queue d) = true → ¬ Exists (λ j, holds j = true) (desk_jobs d) →
     j = Finish () ∨ ∃ d', job_turn i r d = Some d' ∧ desk_status d' = Running)) ∧
  Acc job_turned d.
Proof.
  intros H0 Hp He Hg Hrun.
  destruct (desk_allocated show_error values smf_addr gnb_addr now unix_now recovery_ts pool_start
    pool_end teid0 H0 He time unix fuel ts d Hp Hg Hrun) as (k & [Hl <-] & Hjobs & _).
  split; [intros; by eapply lockstep_distinct|]. split; [|split; [|apply job_turned_acc]].
  - refine (take_turns_keep _ _ _ _ _ _ frozen_by_guard _ _ _ _ Hrun _); [|done].
    intros t d1 d2. apply frozen_step.
  - intros i j r Hr Hj. pose proof (Forall_lookup_1 _ _ _ _ Hjobs Hj) as Hsafe.
    assert (j ≠ Crash) as Hc by (by intros ->). split; [done|]. intros. by eapply job_goes_on.
Qed.
End interleaved.

(** ** Two commands at once *)

(** The answer of the UPF that gives the SEID and the TEID numbered [n]. *)
Definition upf_answer (n : Z) : list Z + SimError :=
  match build_session_establishment_response (E:=SimError) 1 1 n 5 [(1, 1000 + n, 5)] with
  | Ok rsp => inl rsp
  | _ => inr Timeout
  end.

Definition typed (command : String.string) : DeskTurn := ScreenTurn (λ _, []) (KeyEnter (lit command)).
Definition tick_turn : DeskTurn := ScreenTurn (λ _, []) SleepElapsed.
Definition no_answer : list Z + SimError := inr Timeout.

(** A pool of [n] addresses, a UPF that is not reached yet. *)
Definition small_desk (n : Z) : Desk := first_desk (λ _, []) 1 0 10 (9 + n) 2147483649 [] 0 0.
Definition small_turns : list DeskTurn → Desk → option Desk := desk_turns (λ _, []) in_order 1 2 0 0.

Definition two_adds : list DeskTurn :=
  [typed "add session"; typed "add session"; JobTurn 0 no_answer; JobTurn 1 no_answer].

(** The two answers arrive in the order of the requests, or in the other. *)
Definition answers_in_order : option Desk :=
  small_turns (two_adds ++ [JobTurn 0 (upf_answer 1); JobTurn 1 (upf_answer 2); tick_turn]) (small_desk 9).
Definition answers_crossed : option Desk :=
  small_turns (two_adds ++ [JobTurn 0 (upf_answer 2); JobTurn 1 (upf_answer 1); tick_turn]) (small_desk 9).

Definition seid_pairs (d : Desk) : list (Z * Z) :=
  (λ s, (ss_cp_seid s, ss_upf_seid s)) <$> in_order (sim_sessions (desk_sim d)).

(** Nothing ties an answer to its request: with two establishments under way
    the sessions end up with each other's SEID at the UPF. *)
Example answers_can_cross :
  seid_pairs <$> answers_in_order = Some [(2, 2); (1, 1)] ∧
  seid_pairs <$> answers_crossed = Some [(2, 1); (1, 2)].
Proof. split; vm_compute; reflexivity. Qed.

(** Two commands, a pool of 34 addresses, and no turn of the screen while the
    answers come in: the first command finds the pool exhausted when the
    channel is full, and sleeps with the lock.  The answer to the second then
    blocks the thread, and with it the screen that would empty the channel. *)
Definition one_too_many : list DeskTurn :=
  [typed "add session 40"; typed "add session"; JobTurn 1 no_answer; JobTurn 0 no_answer] ++
  ((λ n, JobTurn 0 (upf_answer (Z.of_nat n))) <$> seq 1 33) ++ [JobTurn 1 (upf_answer 34)].

Example lock_held_across_send :
  (λ d, (desk_status d, length (desk_queue d), holds <$> desk_jobs d)) <$>
    small_turns one_too_many (small_desk 34) = Some (Frozen, 100%nat, [true; false]).
Proof. vm_compute. reflexivity. Qed.

(** ** The list on the screen

    A task that has changed the sessions owes the screen a list, until it sends
    one it has just read. *)

Definition sends (j : job unit) : bool := match j with SimTasks.Send _ _ _ => true | _ => false end.

(** The sessions the screen has once it has taken the events. *)
Definition then_listed (q : list AppEvent) (l : list SimSession) : list SimSession :=
  foldl (λ l ev, match ev with SessionsUpdated s => s | _ => l end) l q.

Definition is_list (ev : AppEvent) : bool := match ev with SessionsUpdated _ => true | _ => false end.

Section listing.
Variable show_error : SimError → str.
Variable values : gmap Z SimSession → list SimSession.
Variables smf_addr gnb_addr now unix_now recovery_ts : Z.

Inductive pays : bool → job unit → Prop :=
| pays_finish a : pays false (Finish a)
| pays_read debt f k :
    (∀ s, sim_sessions (f s) = sim_sessions s) → (∀ s, pays debt (k s)) → pays debt (WithLock f k)
| pays_change debt f k : (∀ s, pays true (k s)) → pays debt (WithLock f k)
| pays_list debt k : pays false k → pays debt (send_sessions_then values k)
| pays_send debt guarded ev k :
    is_list ev = false → pays debt k → pays debt (SimTasks.Send guarded ev k)
| pays_await debt req k : (∀ r, pays debt (k r)) → pays debt (Await req k).

Lemma pays_say debt msg k : pays debt k → pays debt (say msg;; k).
Proof. by constructor. Qed.

Lemma pays_computed {T} debt (m : outcome SimError T) k :
  m ≠ Panic → (∀ r, pays debt (k r)) → pays debt (computed m k).
Proof. by destruct m; cbn; auto. Qed.

Lemma pays_next_seq debt (g : Z + SimError → job unit) :
  (∀ a, pays debt (g (inl a))) → pays debt (locked next_seq_num ≫= g).
Proof. intros Hg. apply pays_read; [done|]. intros s. apply Hg. Qed.

Lemma pays_add_session next :
  pays false next → pays false (add_session_job show_error values smf_addr gnb_addr now next).
Proof.
  intros Hn. apply pays_read.
  { intros s. rewrite allocate_eq. by destruct (_ <=? _). }
  intros s. rewrite allocate_eq. destruct (_ <=? _); [|by repeat constructor].
  cbn [fst]. apply pays_say.
  destruct (establishment_request_ok (E:=SimError) (next_seq s) smf_addr (next_cp_seid s)
    (next_ue_ip s) gnb_addr (next_gnb_teid s)) as [req Hreq]. rewrite Hreq.
  apply pays_await. intros [rsp|e]; cbn [establish_job]; [|by apply pays_say, pays_list].
  pose proof (extract_session_info_not_panic rsp) as Hp.
  destruct (extract_session_info rsp) as [[[seid teid] n3]|e|]; [|by apply pays_say, pays_list|done].
  apply pays_change. intros _. by apply pays_say, pays_list.
Qed.

Lemma command_pays cmd :
  pays false (command_job show_error values smf_addr gnb_addr now unix_now cmd).
Proof.
  destruct cmd as [|seid|count|seid| | | |]; try (by constructor); cbn [command_job].
  - induction (Z.to_nat count) as [|n IH]; [by constructor|]. by apply pays_add_session.
  - apply pays_read; [done|]. intros s. cbn [gets fst].
    destruct (sim_sessions s !! seid) as [ss|]; [|by repeat constructor]. apply pays_next_seq. intros seq.
    destruct (deletion_request_ok (E:=SimError) seq (ss_upf_seid ss)) as [req Hreq].
    rewrite Hreq. apply pays_await. intros [rsp|e]; [|by repeat constructor].
    apply pays_computed; [apply validate_response_not_panic|]. intros _.
    apply pays_change. intros _. apply pays_list. by repeat constructor.
  - apply pays_next_seq. intros seq.
    destruct (heartbeat_request_ok (E:=SimError) seq
      (wrapping_add32 (wrap 32 unix_now) 2208988800)) as [req Hreq].
    rewrite Hreq. apply pays_await. intros [rsp|e]; by repeat constructor.
Qed.

(** A task that never touches the sessions: the association's. *)
Fixpoint aside (j : job unit) : Prop :=
  match j with
  | Finish _ | Crash => True
  | WithLock f k => ∀ s, sim_sessions (f s) = sim_sessions s ∧ aside (k s)
  | SimTasks.Send _ ev k => is_list ev = false ∧ aside k
  | Await _ k => ∀ r, aside (k r)
  end.

Lemma aside_computed {T} (m : outcome SimError T) k : (∀ r, aside (k r)) → aside (computed m k).
Proof. by destruct m; cbn; auto. Qed.

Lemma association_aside fuel : aside (association_job show_error smf_addr recovery_ts fuel).
Proof.
  split; [done|]. change (aside (association_loop_job show_error smf_addr recovery_ts fuel)).
  induction fuel as [|fuel IH]; [done|]. cbn [association_loop_job].
  apply aside_computed. intros [req|e]; [|done]. intros [rsp|e]; [|by split].
  apply aside_computed. intros [_|e]; [|by split].
  destruct (extract_recovery_ts rsp); repeat split.
Qed.

Lemma then_listed_app q q' l : then_listed (q ++ q') l = then_listed q' (then_listed q l).
Proof. apply foldl_app. Qed.

Lemma then_listed_skip q ev l : is_list ev = false → then_listed (q ++ [ev]) l = then_listed q l.
Proof. intros He. rewrite then_listed_app. by destruct ev. Qed.

Lemma wake_pays q r debt j j' : wake q r j = Some j' → pays debt j → pays debt j'.
Proof.
  destruct 2 as [a|debt f k|debt f k|debt k|debt guarded ev k He Hk|debt req k]; cbn [wake] in *; simplify_eq.
  - by apply pays_read.
  - by apply pays_change.
  - injection H as <-. by apply pays_list.
  - destruct (room_left q); [|done]. simplify_eq. by apply pays_send.
  - auto.
Qed.

(** A task that does not stop for room either leaves the screen up to date, or
    owes it a list, or has not made a difference. *)
Lemma resume_pays held debt j s q s' q' j' l :
  pays debt j → resume held j s q = Some (s', q', j') → sends j' = false →
  ∃ debt', pays debt' j' ∧
    (then_listed q' l = values (sim_sessions s') ∨ debt' = true ∨
     debt = false ∧ sim_sessions s' = sim_sessions s ∧ then_listed q' l = then_listed q l).
Proof.
  intros Hp. revert s q. induction Hp as [a|debt f k Hf Hk IH|debt f k Hk IH|debt k Hk IH
    |debt guarded ev k He Hk IH|debt req k Hk IH]; intros s q Hr Hs; cbn [resume] in Hr.
  - injection Hr as <- <- <-. exists false. split; [by constructor|]. by right; right.
  - destruct held; [done|]. destruct (IH s _ _ Hr Hs) as (d & Hd & [?|[?|(? & E & ?)]]);
      exists d; split; auto. right; right. rewrite E. auto.
  - destruct held; [done|]. destruct (IH s _ _ Hr Hs) as (d & Hd & [?|[?|(? & ? & ?)]]);
      exists d; split; auto. done.
  - unfold send_sessions_then in Hr. cbn [resume] in Hr. destruct held; [done|].
    destruct (room_left q); [|injection Hr as <- <- <-; done].
    destruct (IH s _ Hr Hs) as (d & Hd & [?|[?|(_ & E & El)]]); exists d; split; auto.
    left. by rewrite El, E, then_listed_app.
  - destruct (room_left q); [|injection Hr as <- <- <-; done].
    destruct (IH s _ Hr Hs) as (d & Hd & [?|[?|(? & ? & El)]]); exists d; split; auto.
    right; right. by rewrite El, then_listed_skip.
  - injection Hr as <- <- <-. exists debt. split; [by constructor|]. destruct debt; auto.
Qed.

Lemma resume_aside held j s q s' q' j' l :
  aside j → resume held j s q = Some (s', q', j') →
  aside j' ∧ sim_sessions s' = sim_sessions s ∧ then_listed q' l = then_listed q l.
Proof.
  revert s q. induction j as [a| |f k IH|guarded ev k IH|req k IH]; cbn [resume aside]; intros s q Hj Hr.
  - by injection Hr as <- <- <-.
  - by injection Hr as <- <- <-.
  - destruct held; [done|]. destruct (Hj s) as [<- Hk]. by eapply IH.
  - destruct Hj as [He Hk]. destruct (room_left q).
    + rewrite <-(then_listed_skip q ev l He). by eapply IH.
    + by injection Hr as <- <- <-.
  - by injection Hr as <- <- <-.
Qed.

Lemma wake_aside q r j j' : wake q r j = Some j' → aside j → aside j'.
Proof.
  destruct j as [a| |f k|guarded ev k|req k]; cbn [wake]; intros Hw Hj; simplify_eq; auto.
  destruct (room_left q); by simplify_eq.
Qed.

(** The screen itself changes its list only by the events it takes. *)
Lemma log_lines_keep_list clock i ls a : app_sessions (log_lines clock i ls a) = app_sessions a.
Proof. revert i a. induction ls as [|line ls IH]; intros i a; [done|]. exact (IH (S i) (App_log _ _ a)). Qed.

Lemma command_keeps_list clock input a :
  app_sessions (execute_command clock input a).1 = app_sessions a.
Proof.
  unfold execute_command. destruct (Command_from_input input) as [[]|e|]; try done; cbn [app_sessions App_log set_logs].
  - destruct (app_sessions a) eqn:E; [exact E|]. cbn [fst]. by rewrite log_lines_keep_list.
  - by destruct (List.find _ _).
Qed.

Lemma drain_sessions clock i q a :
  app_sessions (drain clock i q a) = then_listed q (app_sessions a).
Proof.
  revert i a. induction q as [|ev q IH]; intros i a; [done|]. cbn [drain]. rewrite IH. by destruct ev.
Qed.

Lemma loop_turn_lists clock q ev a :
  app_sessions (loop_turn clock q ev a).1.1 = then_listed q (app_sessions a).
Proof.
  unfold loop_turn. rewrite <-(drain_sessions clock 0). destruct ev as [| |line|]; try done.
  destruct (trim line) as [|c cs]; [done|].
  pose proof (command_keeps_list (λ i, clock (length q + i)%nat) (c :: cs) (drain clock 0 q a)) as He.
  by destruct (execute_command _ _ _).
Qed.

(** Every difference between the simulator's sessions and the list the screen
    is about to have is owed by a task. *)
Definition accounted (d : Desk) : Prop :=
  aside (desk_assoc d) ∧
  ∃ debts, Forall2 pays debts (desk_jobs d) ∧
    (then_listed (desk_queue d) (app_sessions (desk_app d)) = values (sim_sessions (desk_sim d)) ∨
     ∃ i, debts !! i = Some true).

Abbreviation turn := (take_turn show_error values smf_addr gnb_addr now unix_now).

Lemma job_accounted i r d d' :
  job_turn i r d = Some d' → existsb sends (desk_jobs d') = false → accounted d → accounted d'.
Proof.
  intros Ht Hs (Ha & debts & Hd & Hacc). unfold job_turn in Ht. destruct (desk_status d); [|done..].
  destruct (desk_jobs d !! i) as [j|] eqn:Ej; [|done]. cbn in Ht.
  destruct (wake _ r j) as [j1|] eqn:Ew; [|done].
  destruct (Forall2_lookup_r _ _ _ _ _ Hd Ej) as (debt & Edebt & Hj).
  apply (wake_pays _ _ _ _ _ Ew) in Hj.
  destruct (resume _ _ _ _) as [[[s q] j2]|] eqn:Er; injection Ht as <-; [|by split; [|exists debts]].
  cbn in Hs. assert (sends j2 = false) as H2.
  { apply not_true_iff_false. intros H2. apply not_true_iff_false in Hs. apply Hs, existsb_exists.
    exists j2. split; [|done]. apply list_elem_of_In, (list_elem_of_lookup_2 _ i).
    apply list_lookup_insert_eq. by eapply lookup_lt_Some. }
  destruct (resume_pays _ _ _ _ _ _ _ _ (app_sessions (desk_app d)) Hj Er H2) as (debt' & Hj2 & Hcase).
  split; [done|]. exists (<[i := debt']> debts). cbn [desk_queue desk_app desk_sim desk_jobs desk_assoc].
  split; [by apply Forall2_insert|].
  pose proof (lookup_lt_Some _ _ _ Edebt) as Hlt.
  destruct Hcase as [?|[->|(-> & -> & ->)]]; [by left|right; exists i; by apply list_lookup_insert_eq|].
  destruct Hacc as [?|[i0 Hi0]]; [by left|right]. exists i0. rewrite list_lookup_insert_ne; [done|].
  intros <-. congruence.
Qed.

Lemma turn_accounted t d d' :
  turn t d = Some d' → existsb sends (desk_jobs d') = false → accounted d → accounted d'.
Proof.
  destruct t as [i r|r|clock ev]; cbn [take_turn]; [apply job_accounted|..];
    intros Ht _ (Ha & debts & Hd & Hacc).
  - unfold assoc_turn in Ht. destruct (wake _ r _) as [j1|] eqn:Ew; [|done].
    destruct (resume _ _ _ _) as [[[s q] j2]|] eqn:Er; [|done]. injection Ht as <-.
    destruct (resume_aside _ _ _ _ _ _ _ (app_sessions (desk_app d)) (wake_aside _ _ _ _ Ew Ha) Er)
      as (Ha' & Es & El).
    split; [done|]. exists debts. cbn [desk_queue desk_app desk_sim desk_jobs desk_assoc].
    rewrite Es, El. by split.
  - unfold screen_turn in Ht. destruct (desk_status d); [|done..].
    pose proof (loop_turn_lists clock (desk_queue d) ev (desk_app d)) as Hl.
    destruct (loop_turn _ _ _ _) as [[a cmd] ended]. injection Ht as <-. cbn [fst] in Hl.
    split; [done|]. cbn [desk_queue desk_app desk_sim desk_jobs desk_assoc].
    rewrite Hl. destruct cmd as [cmd|].
    + exists (debts ++ [false]). split; [apply Forall2_app; [done|by repeat constructor; apply command_pays]|].
      destruct Hacc as [?|[i Hi]]; [by left|right]. exists i. by apply lookup_app_l_Some.
    + exists debts. by rewrite app_nil_r.
Qed.

(** No command ever has to wait for room in the channel. *)
Fixpoint unhindered (ts : list DeskTurn) (d : Desk) : bool :=
  match ts with
  | [] => true
  | t :: ts => match turn t d with
               | Some d' => negb (existsb sends (desk_jobs d')) && unhindered ts d'
               | None => true
               end
  end.

Lemma turns_accounted ts d d' :
  take_turns show_error values smf_addr gnb_addr now unix_now ts d = Some d' →
  unhindered ts d = true → accounted d → accounted d'.
Proof.
  revert d. induction ts as [|t ts IH]; intros d; cbn [take_turns unhindered]; [by intros [= <-]|].
  destruct (turn t d) as [d1|] eqn:E; [|done]. cbn. intros Hrun [Hs Hu]%andb_true_iff Hd.
  apply (IH d1 Hrun Hu). apply negb_true_iff in Hs. by eapply turn_accounted.
Qed.

(** C30. The terminal shows the simulator's sessions: spawn any commands at any
    time and let them, the association task and the screen take turns in any
    order, with any answer or error.  If no command ever had to wait for room in
    the channel, then whenever all the commands given so far are done the next
    turn of the screen leaves it with exactly the sessions the simulator has,
    and as many of them, whatever the operator does in that turn. *)
Theorem screen_lists_sessions pool_start pool_end teid0 time unix fuel ts clock ev d d' :
  values ∅ = [] →
  let d0 := first_desk show_error smf_addr recovery_ts pool_start pool_end teid0 time unix fuel in
  desk_turns show_error values smf_addr gnb_addr now unix_now ts d0 = Some d →
  unhindered ts d0 = true →
  Forall (λ j, j = Finish ()) (desk_jobs d) → turn (ScreenTurn clock ev) d = Some d' →
  app_sessions (desk_app d') = values (sim_sessions (desk_sim d')) ∧ desk_queue d' = [].
Proof.
  intros Hv d0 Hrun Hu Hdone Ht.
  assert (accounted d) as (_ & debts & Hd & Hacc).
  { apply (turns_accounted ts d0 d Hrun Hu). split; [apply association_aside|]. exists []. by split; [|left]. }
  cbn [take_turn] in Ht. unfold screen_turn in Ht. destruct (desk_status d); [|done..].
  pose proof (loop_turn_lists clock (desk_queue d) ev (desk_app d)) as Hl.
  destruct (loop_turn _ _ _ _) as [[a cmd] ended]. injection Ht as <-. cbn [fst] in Hl.
  cbn [desk_queue desk_app desk_sim desk_jobs desk_assoc]. rewrite Hl.
  split; [|done]. destruct Hacc as [?|[i Hi]]; [done|].
  destruct (Forall2_lookup_l _ _ _ _ _ Hd Hi) as (j & Hj & Hp).
  rewrite (Forall_lookup_1 _ _ _ _ Hdone Hj) in Hp. inversion Hp.
Qed.
End listing.

(** ** The theorems at a concrete run *)

(** Two establishments answered in the other order, a deletion beside a third. *)
Definition busy_minute : list DeskTurn :=
  AssocTurn no_answer :: two_adds ++ [JobTurn 1 (upf_answer 1); JobTurn 0 (upf_answer 2)] ++
  [typed "del session 1"; typed "add session"; tick_turn; JobTurn 2 no_answer; JobTurn 3 no_answer;
   JobTurn 3 (upf_answer 7); tick_turn; JobTurn 2 (upf_answer 0)].

Definition busy_desk : Desk := default (small_desk 9) (small_turns busy_minute (small_desk 9)).

Lemma busy_desk_eq :
  desk_turns (λ _, []) in_order 1 2 0 0 busy_minute
    (first_desk (λ _, []) 1 0 10 18 2147483649 [] 0 0) = Some busy_desk.
Proof. vm_compute. reflexivity. Qed.

Lemma commands_interleaved_witness :
  seid_pairs busy_desk = [(3, 7); (2, 1)] ∧
  (ss_ue_ip <$> sim_sessions (desk_sim busy_desk) !! 2) ≠
  (ss_ue_ip <$> sim_sessions (desk_sim busy_desk) !! 3) ∧
  Acc job_turned busy_desk.
Proof.
  destruct (commands_interleaved (λ _, []) in_order 1 2 0 0 0 10 18 2147483649 [] 0 0 busy_minute busy_desk
    ltac:(lia) ltac:(lia) ltac:(vm_compute; reflexivity) ltac:(by uint) busy_desk_eq)
    as (Hdiff & _ & _ & Hacc).
  split; [vm_compute; reflexivity|]. split; [|exact Hacc].
  destruct (sim_sessions (desk_sim busy_desk) !! 2) as [s2|] eqn:E2;
    [|exfalso; vm_compute in E2; discriminate E2].
  destruct (sim_sessions (desk_sim busy_desk) !! 3) as [s3|] eqn:E3;
    [|exfalso; vm_compute in E3; discriminate E3].
  destruct (Hdiff 2 s2 3 s3 E2 E3 ltac:(lia)) as (_ & _ & Hne & _).
  intros E. injection E as E. exact (Hne E).
Defined.

Definition shown_desk : Desk :=
  default busy_desk (take_turn (λ _, []) in_order 1 2 0 0 tick_turn busy_desk).

Lemma screen_lists_sessions_witness :
  app_sessions (desk_app shown_desk) = in_order (sim_sessions (desk_sim shown_desk)) ∧
  length (app_sessions (desk_app shown_desk)) = 2%nat.
Proof.
  destruct (screen_lists_sessions (λ _, []) in_order 1 2 0 0 0 10 18 2147483649 [] 0 0 busy_minute
    (λ _, []) SleepElapsed busy_desk shown_desk) as [Hl _].
  - vm_compute. reflexivity.
  - exact busy_desk_eq.
  - vm_compute. reflexivity.
  - assert (desk_jobs busy_desk = replicate 4 (Finish ())) as E by (vm_compute; reflexivity).
    rewrite E. by repeat constructor.
  - vm_compute. reflexivity.
  - split; [exact Hl|vm_compute; reflexivity].
Defined.
