(* ===== verification/Ui.v ===== *)
(** * Drawing the two terminals ([upf-edge/src/tui/ui.rs], [smf-sim/src/tui/tui.rs])

    What [render] hands to ratatui: the widgets of a frame, each with the area
    it is drawn in, as functions of the screen's state.  How ratatui divides an
    area and turns a widget into cells is its own; of that, only that a [List]
    without a state shows its items from the first one on is used, as a
    hypothesis. *)

From S2P Require Import Prelude Text LogBuffer UpfTui SimTui.

(** ** Widgets *)

Inductive Color := Red | Yellow | Green | Cyan | Blue | DarkGray.

Record Span := mkSpan { sp_text : str; sp_fg : option Color }.
Definition raw (text : str) : Span := mkSpan text None.
Definition styled (text : str) (fg : Color) : Span := mkSpan text (Some fg).

(** A block with all its borders. *)
Record Block := mkBlock { bl_title : str; bl_border_fg : option Color }.

Inductive Constraint := Length (n : nat) | Min (n : nat).

(** The frame's area, a part of an area divided vertically, the inside of a
    block's borders. *)
Inductive Area :=
| Screen
| Part (area : Area) (constraints : list Constraint) (i : nat)
| Inner (area : Area).

(** The operations on [f32] the drawing uses; [ratio]s are [f64]. *)
Class Float32 (F D : Type) := {
  f_of_Z : Z → F;
  f_ge : F → F → bool;
  f_div : F → F → F;
  f_mul : F → F → F;
  f_min : F → F → F;
  f_clamp : F → F → F → F;
  f_to_f64 : F → D;
  f_show : F → str;          (* [{:5.1}] *)
}.

Section widgets.
Context {F D T : Type} `{!Float32 F D}.   (* [T]: the text area *)

Inductive Widget :=
| DrawBlock (block : Block)
| DrawParagraph (text : list (list Span)) (block : Block) (trim : bool)
| DrawGauge (label : str) (ratio : D) (fg : Color)
| DrawList (items : list (list Span)) (block : Block)
| DrawTextArea (textarea : T) (block : Block).

Definition Frame : Type := list (Widget * Area).

(** ** What the two have in common *)

Definition log_item (entry : LogEntry) : list Span :=
  [styled (lit "[" ++ le_time entry ++ lit "] ") DarkGray; raw (le_message entry)].

Definition render_logs (logs : list LogEntry) (area : Area) : Frame :=
  [(DrawList (log_item <$> logs) (mkBlock (lit " Shell ") None), area)].

Definition render_input (textarea : T) (area : Area) : Frame :=
  [(DrawTextArea textarea
      (mkBlock (lit " Input Command (Enter: Runs | Esc: Reset) ") (Some Yellow)), area)].

Definition render_help (text : list str) (area : Area) : Frame :=
  [(DrawParagraph ((λ l, [raw l]) <$> text) (mkBlock (lit " Commands ") None) true, area)].

Definition associated_span (associated : bool) : Span :=
  if associated then styled (lit "✅ Associated") Green else styled (lit "❌ Not Associated") Red.

(** ** The UPF's screen ([ui.rs]) *)

Definition gauge_color (pct : F) : Color :=
  if f_ge pct (f_of_Z 80) then Red else if f_ge pct (f_of_Z 60) then Yellow else Green.

Definition usage_gauge (label : str) (pct : F) (fg : Color) (area : Area) : Widget * Area :=
  (DrawGauge label (f_to_f64 (f_clamp (f_div pct (f_of_Z 100)) (f_of_Z 0) (f_of_Z 1))) fg, area).

Definition upf_layout : list Constraint := [Length 3; Length 7; Min 5; Length 3; Length 3].
Definition status_rows : list Constraint := [Length 1; Length 1; Length 1; Length 1; Length 1].

Definition upf_render_status (a : UpfTui.App F) (area : Area) : Frame :=
  let sessions := raw (lit "  │  " ++ show_dec (Z.of_nat (UpfTui.session_count a)) ++ lit " Session") in
  [(DrawParagraph [[associated_span (UpfTui.associated a); sessions]]
      (mkBlock (lit " UPF-EDGE ") (Some Cyan)) false, area)].

Definition session_pct (a : UpfTui.App F) : F :=
  f_min (f_mul (f_div (f_of_Z (Z.of_nat (UpfTui.session_count a))) (f_of_Z 100)) (f_of_Z 100)) (f_of_Z 100).

Definition render_server_status (a : UpfTui.App F) (area : Area) : Frame :=
  let row := Part (Inner area) status_rows in
  [(DrawBlock (mkBlock (lit " Server Status ") None), area);
   usage_gauge (lit "CPU     " ++ f_show (cpu_pct a) ++ lit "%") (cpu_pct a)
     (gauge_color (cpu_pct a)) (row 1%nat);
   usage_gauge (lit "Memory     " ++ f_show (mem_pct a) ++ lit "%") (mem_pct a)
     (gauge_color (mem_pct a)) (row 2%nat);
   usage_gauge (lit "Session " ++ f_show (session_pct a) ++ lit "% (" ++
       show_dec (Z.of_nat (UpfTui.session_count a)) ++ lit ")") (session_pct a) Blue (row 3%nat)].

Definition upf_help_lines : list str := [lit "  show sessions   │  show session <seid>   │  quit / q"].

Definition upf_render (a : UpfTui.App F) (textarea : T) : Frame :=
  let chunk := Part Screen upf_layout in
  upf_render_status a (chunk 0%nat) ++ render_server_status a (chunk 1%nat) ++
  render_logs (UpfTui.logs a) (chunk 2%nat) ++ render_input textarea (chunk 3%nat) ++
  render_help upf_help_lines (chunk 4%nat).

(** ** The simulator's screen ([tui.rs]) *)

Definition sim_layout : list Constraint := [Length 3; Min 3; Length 3; Length 6].

Definition sim_render_status (a : SimTui.App) (area : Area) : Frame :=
  let sessions := raw (lit "  │ " ++ show_dec (Z.of_nat (SimTui.session_count a)) ++ lit " Sessions") in
  [(DrawParagraph [[associated_span (SimTui.associated a); sessions]]
      (mkBlock (lit " smf-sim ") (Some Cyan)) false, area)].

Definition sim_help_lines : list str :=
  [lit "  show sessions   │  add session [N]   │  del session <seid>";
   lit "  heartbeat / hb  │  clear             │  quit / q"].

Definition sim_render (a : SimTui.App) (textarea : T) : Frame :=
  let chunk := Part Screen sim_layout in
  sim_render_status a (chunk 0%nat) ++ render_logs (SimTui.logs a) (chunk 1%nat) ++
  render_input textarea (chunk 2%nat) ++ render_help sim_help_lines (chunk 3%nat).

(** ** What is on the screen *)

(** [visible rows items]: the items ratatui shows of a [List] in [rows] rows. *)
Variable visible : nat → list (list Span) → list (list Span).

(** The lines a frame shows in its lists, [rows] rows inside their borders. *)
Definition shell_pane (rows : nat) (frame : Frame) : list (list Span) :=
  concat ((λ wa, match wa.1 with DrawList items _ => visible rows items | _ => [] end) <$> frame).

Lemma upf_pane rows a t : shell_pane rows (upf_render a t) = visible rows (log_item <$> UpfTui.logs a).
Proof. unfold shell_pane. cbn. by rewrite app_nil_r. Qed.

Lemma sim_pane rows a t : shell_pane rows (sim_render a t) = visible rows (log_item <$> SimTui.logs a).
Proof. unfold shell_pane. cbn. by rewrite app_nil_r. Qed.

(** A [List] that is drawn without a [ListState] shows its first items. *)
Hypothesis visible_first : ∀ rows items, visible rows items = take rows items.

(** A log that has filled the pane and has not reached its 200 lines. *)
Lemma pane_full rows (l new : list LogEntry) :
  (rows ≤ length l)%nat → (length l + length new ≤ 200)%nat →
  visible rows (log_item <$> last_n 200 (l ++ new)) = visible rows (log_item <$> l).
Proof.
  intros Hr Hl. rewrite last_n_all by (rewrite length_app; lia). rewrite !visible_first, fmap_app.
  by rewrite take_app_le by (rewrite length_fmap; lia).
Qed.
End widgets.
Arguments Widget : clear implicits.
Arguments Frame : clear implicits.

(** ** The output of a command *)

Section output.
Context {F : Type}.

Lemma App_log_window time msg (a : UpfTui.App F) l :
  UpfTui.logs a = last_n 200 l → UpfTui.logs (UpfTui.App_log time msg a) = last_n 200 (l ++ [mkLogEntry time msg]).
Proof. intros E. unfold UpfTui.App_log. cbn. by rewrite E, log_push_window. Qed.

Lemma log_lines_window clock i ls (a : UpfTui.App F) l :
  UpfTui.logs a = last_n 200 l →
  ∃ new, length new = length ls ∧ UpfTui.logs (UpfTui.log_lines clock i ls a) = last_n 200 (l ++ new).
Proof.
  revert i a l. induction ls as [|x ls IH]; intros i a l E.
  - exists []. by rewrite app_nil_r.
  - destruct (IH (S i) _ _ (App_log_window (clock i) x a l E)) as (new & Hn & Hl).
    exists (mkLogEntry (clock i) x :: new). split; [cbn; by rewrite Hn|].
    cbn [UpfTui.log_lines]. by rewrite Hl, <-(assoc_L (++)).
Qed.

(** Every command but [clear] appends to the log. *)
Lemma command_appends clock input (a : UpfTui.App F) :
  (length (UpfTui.logs a) ≤ 200)%nat → Commands.UpfCommand_from_input input ≠ Ok Commands.UpfClear →
  ∃ new, UpfTui.logs (UpfTui.execute_command clock input a) = last_n 200 (UpfTui.logs a ++ new) ∧ new ≠ [].
Proof.
  intros Hl Hc. unfold UpfTui.execute_command. cbv zeta.
  set (a0 := UpfTui.App_log _ _ a). set (l0 := UpfTui.logs a ++ [mkLogEntry (clock 0%nat) (lit "> " ++ input)]).
  assert (UpfTui.logs a0 = last_n 200 l0) as E0.
  { apply App_log_window. symmetry. by apply last_n_all. }
  assert (∀ (b : UpfTui.App F) new, UpfTui.logs b = last_n 200 (l0 ++ new) →
    ∃ new, UpfTui.logs b = last_n 200 (UpfTui.logs a ++ new) ∧ new ≠ []) as Hdone.
  { intros b new ->. eexists. unfold l0. by rewrite <-(assoc_L (++)). }
  assert (∀ time msg (b : UpfTui.App F) new, UpfTui.logs b = last_n 200 (l0 ++ new) →
    UpfTui.logs (UpfTui.App_log time msg b) = last_n 200 (l0 ++ (new ++ [mkLogEntry time msg]))) as Hone.
  { intros time msg b new E. rewrite (assoc_L (++)). by apply App_log_window. }
  assert (UpfTui.logs a0 = last_n 200 (l0 ++ [])) as E0' by by rewrite app_nil_r.
  destruct (Commands.UpfCommand_from_input input) as [[]|e|]; try done.
  - destruct (UpfTui.app_sessions a0) as [|x xs]; [eapply Hdone, Hone, E0'|].
    destruct (log_lines_window clock 2 (UpfTui.session_line <$> x :: xs) _ _ (Hone (clock 1%nat)
      (lit " Total " ++ show_dec (Z.of_nat (length (x :: xs))) ++ lit " sessions(s)") _ _ E0')) as (new & _ & E).
    eapply Hdone. rewrite E. by rewrite <-!(assoc_L (++)).
  - destruct (List.find _ _); eapply Hdone; [do 4 eapply Hone|eapply Hone]; exact E0'.
  - destruct (log_lines_window clock 1 (lines Commands.upf_help_text) _ _ E0') as (new & _ & E).
    eapply Hdone. rewrite E. by rewrite <-!(assoc_L (++)).
  - by eapply Hdone, E0'.
  - eapply Hdone, Hone, E0'.
  - by eapply Hdone, E0'.
Qed.
End output.

(** The terminal stops showing anything new: once its log has filled the rows of
    the shell pane, a line that is logged, and the whole output of a command
    other than [clear], leaves the pane as it was, until the log reaches its 200
    lines; the drawing's comment says the latest entry is always at the bottom. *)
Theorem pane_stuck {F D T} `{!Float32 F D} visible clock input (a : UpfTui.App F) (t t' : T) rows :
  (∀ rows items, visible rows items = take rows items) →
  (rows ≤ length (UpfTui.logs a))%nat → (length (UpfTui.logs a) ≤ 200)%nat →
  Commands.UpfCommand_from_input input ≠ Ok Commands.UpfClear →
  let a' := UpfTui.execute_command clock input a in
  (length (UpfTui.logs a') < 200)%nat →
  (length (UpfTui.logs a) < length (UpfTui.logs a'))%nat ∧
  shell_pane (D:=D) visible rows (upf_render a' t') = shell_pane (D:=D) visible rows (upf_render a t).
Proof.
  intros Hv Hr Hl Hc a' Ha'. rewrite !upf_pane.
  destruct (command_appends clock input a Hl Hc) as (new & E & Hne). fold a' in E.
  rewrite E in Ha' |- *. unfold last_n in Ha'. rewrite length_drop, length_app in Ha'.
  assert (length (UpfTui.logs a) + length new < 200)%nat as Hlen by lia.
  split.
  - rewrite last_n_all by (rewrite length_app; lia). rewrite length_app. destruct new; [done|cbn; lia].
  - apply pane_full; [done..|lia].
Qed.

(** In a terminal of 24 lines the pane has six rows. *)
#[local] Instance z_float : Float32 Z Z := {
  f_of_Z x := x; f_ge x y := y <=? x; f_div := Z.div; f_mul := Z.mul; f_min := Z.min;
  f_clamp x lo hi := Z.max lo (Z.min x hi); f_to_f64 x := x; f_show := show_dec;
}.

Definition busy_screen : UpfTui.App Z :=
  UpfTui.log_lines (λ _, []) 0 (replicate 6 (lit "handled")) (UpfTui.App_new 0).

Lemma pane_stuck_witness :
  let a' := UpfTui.execute_command (λ _, []) (lit "show sessions") busy_screen in
  shell_pane (D:=Z) take 6 (upf_render a' tt) = shell_pane (D:=Z) take 6 (upf_render busy_screen tt) ∧
  le_message <$> List.last (Some <$> UpfTui.logs a') None = Some (lit "no session").
Proof.
  cbv zeta. split; [|vm_compute; reflexivity].
  refine (proj2 (pane_stuck (D:=Z) take (λ _, []) (lit "show sessions") busy_screen tt tt 6 _ _ _ _ _)).
  - done.
  - apply Nat.leb_le. vm_compute. reflexivity.
  - apply Nat.leb_le. vm_compute. reflexivity.
  - vm_compute. discriminate.
  - apply Nat.ltb_lt. vm_compute. reflexivity.
Defined.
