(* ===== verification/Scenario.v ===== *)
(** * Runs of the server on concrete datagrams

    The handlers are executed on the octets of requests, over the reference
    maps of [Common.v]: the witnesses of the handlers' theorems, and complete
    runs that show where the program departs from its documentation. *)

From S2P Require Import Prelude Types Header Ie Builder Messages Dict Common Server Handlers.
From S2P Require Import SessionStore HandlersSpec Invariant Typing UpfTui Mirror Feed Gtpu Xdp Forwarding Signalling.

Abbreviation W := (@World bounded_map percpu_map array_map).

Definition ip (a b c d : Z) : Z := from_be_bytes [a; b; c; d].

Definition smf_a : Z := ip 10 0 0 1.
Definition smf_b : Z := ip 10 0 0 2.
Definition src_a : SocketAddr := mkSocketAddr (V4 smf_a) 8805.
Definition src_b : SocketAddr := mkSocketAddr (V4 smf_b) 8805.
Definition ue_1 : Z := ip 10 45 0 2.
Definition ue_2 : Z := ip 10 45 0 3.

Definition initial : W :=
  mkWorld (PfcpServer_new 1700000000 0 (ip 10 0 0 100) (ip 192 168 0 100))
    (mkMaps (mkBounded 1024 ∅) (mkBounded 4096 ∅) (mkBounded 4096 ∅)
       (mkArray [3; 4]) (mkArray [[2;0;0;0;0;1]; [2;0;0;0;0;2]])
       (mkPerCpu 1024 ∅) (mkPerCpu 4096 ∅)) [].

(** The octets of a finished message. *)
Definition datagram (m : outcome unit (list Z)) : list Z :=
  match m with Ok b => b | _ => [] end.

Definition setup_req (node ts : Z) : list Z :=
  datagram (finish (add_recovery_timestamp (add_node_id_v4
    (msg_new (new_node_msg PFCP_ASSOCIATION_SETUP_REQ 1)) node) ts)).

Definition heartbeat_req (ts : Z) : list Z :=
  datagram (finish (add_recovery_timestamp (msg_new (new_node_msg PFCP_HEARTBEAT_REQ 7)) ts)).

Definition pdr (id iface far : Z) (urr : option Z) (ue : Z) : PdrParams :=
  {| pp_pdr_id := id; pp_precedence := 100; pp_source_interface := iface;
     pp_fteid_choose := bool_decide (iface = INTERFACE_ACCESS); pp_ue_ip := Some ue;
     pp_far_id := far; pp_urr_id := urr; pp_outer_header_removal := false;
     pp_sdf_filter := None |}.

Definition pdrs (ue : Z) : list PdrParams :=
  [pdr 1 INTERFACE_ACCESS 1 (Some 1) ue; pdr 2 INTERFACE_CORE 2 (Some 1) ue].

Definition fars (gnb_teid : Z) : list FarParams :=
  [{| fp_far_id := 1; fp_apply_action := Types.ACTION_FORW; fp_dest_interface := INTERFACE_CORE;
      fp_outer_header_creation := None |};
   {| fp_far_id := 2; fp_apply_action := Types.ACTION_FORW;
      fp_dest_interface := INTERFACE_ACCESS;
      fp_outer_header_creation := Some (mkOHC gnb_teid (ip 192 168 0 23) 2152) |}].

Definition urrs : list UrrParams :=
  [{| up_urr_id := 1; up_measurement_method := MEASUREMENT_METHOD_VOLUM;
      up_reporting_triggers := REPORTING_TRIGGER_PERIO; up_volume_threshold_total := Some 100;
      up_measurement_period := Some 3600 |}].

Definition establish_req (smf cp_seid ue teid : Z) : list Z :=
  datagram (finish (session_establishment_msg 2 smf cp_seid (pdrs ue) (fars teid) urrs)).

Definition delete_req (seid : Z) : list Z :=
  datagram (finish (msg_new (new_session_msg PFCP_SESSION_DELETION_REQ seid 99))).

Definition modify_req (seid : Z) (fs : list FarParams) : list Z :=
  datagram (finish (session_modification_msg 3 seid fs [])).

(** Deliver datagrams one after the other, at time 0. *)
Definition handle (d : list Z * SocketAddr) : st W HandlerError (list Z) :=
  handle_message map_to_list 0 d.1 d.2.

Fixpoint deliver (ds : list (list Z * SocketAddr)) (w : W) : W :=
  match ds with
  | [] => w
  | d :: ds => deliver ds (handle d w).2
  end.

Definition is_ok {E A} (m : outcome E A) : bool := match m with Ok _ => true | _ => false end.

(** Two SMFs with an association and a session each; both number their
    sessions from 1, as the simulator does. *)
Definition two_smfs : W :=
  deliver [(setup_req smf_a 100, src_a); (setup_req smf_b 100, src_b);
           (establish_req smf_a 1 ue_1 7, src_a); (establish_req smf_b 1 ue_2 8, src_b)] initial.

Definition one_session : W :=
  deliver [(setup_req smf_a 100, src_a); (establish_req smf_a 1 ue_1 7, src_a)] initial.

Definition session_ue (w : W) (seid : Z) : option Z := sd_ue_ip <$> sessions (w_srv w) !! seid.

(** Ownership is not exclusive: when two SMFs use the same CP SEID, the
    second may delete the first one's session by its local SEID.  The request
    is answered as accepted, the victim's session and forwarding entry are
    gone, and the attacker's own session has lost its association entry, so
    that afterwards the attacker can no longer delete its own session. *)
Theorem foreign_session_deleted :
  let w := two_smfs in
  let w' := (handle (delete_req 1, src_b) w).2 in
  session_ue w 1 = Some ue_1 ∧ session_ue w 2 = Some ue_2 ∧
  has_key (default ∅ (as_sessions <$> associations (w_srv w) !! smf_a)) 1 = true ∧
  is_ok (handle (delete_req 1, src_b) w).1 = true ∧
  session_ue w' 1 = None ∧
  bpf_get (SESSION_MAP (w_maps w)) (to_be32 ue_1) ≠ None ∧
  bpf_get (SESSION_MAP (w_maps w')) (to_be32 ue_1) = None ∧
  (handle (delete_req 2, src_b) w').1 = Err (ENotOwner 1 src_b).
Proof.
  refine (conj _ (conj _ (conj _ (conj _ (conj _ (conj _ (conj _ _))))))).
  6: { apply not_eq_None_Some. apply (bool_decide_unpack _). vm_compute. exact I. }
  all: vm_compute; reflexivity.
Qed.

(** Addresses are shared: when a UE address is taken over by a newer
    session, deleting the older one removes the newer session's forwarding
    entry, while the newer session stays recorded. *)
Theorem ue_address_reuse :
  let w := deliver [(establish_req smf_a 2 ue_1 9, src_a)] one_session in
  let w' := deliver [(delete_req 1, src_a)] w in
  (si_seid <$> bpf_get (SESSION_MAP (w_maps w)) (to_be32 ue_1)) = Some 2 ∧
  session_ue w' 1 = None ∧ session_ue w' 2 = Some ue_1 ∧
  bpf_get (SESSION_MAP (w_maps w')) (to_be32 ue_1) = None.
Proof. cbv zeta. refine (conj _ (conj _ (conj _ _))); vm_compute; reflexivity. Qed.

(** Deletion leaves the usage configuration behind: after the session is
    gone its URR configuration is still in the server's table, for ever, since
    no handler ever removes one. *)
Theorem urr_config_leaks :
  let w := deliver [(delete_req 1, src_a)] one_session in
  session_ue w 1 = None ∧
  (uc_cp_seid <$> urr_configs (w_srv w) !! (1, 1)) = Some 1 ∧
  pc_values (URR_MAP (w_maps one_session)) (UrrKey_new 1 1) = Some (zero_slots (P:=percpu_map)) ∧
  pc_values (URR_MAP (w_maps w)) (UrrKey_new 1 1) = None.
Proof. cbv zeta. refine (conj _ (conj _ (conj _ _))); vm_compute; reflexivity. Qed.

(** ** Witnesses *)

Definition associated : W := deliver [(setup_req smf_a 100, src_a)] initial.

Definition header_of (data : list Z) : PfcpHeader :=
  match decode data with Ok (h, _) => h | _ => new_node_msg 0 0 end.
Definition body_of (data : list Z) : list Z :=
  match decode data with Ok (_, b) => b | _ => [] end.

Definition unok {E} (m : outcome E (list Z)) : list Z := match m with Ok r => r | _ => [] end.

Lemma run_ok {S E} (m : st S E (list Z)) s :
  is_ok (m s).1 = true → m s = (Ok (unok (m s).1), (m s).2).
Proof. intros Hm. rewrite (surjective_pairing (m s)) at 1. by destruct (m s).1. Qed.

Definition est_data : list Z := establish_req smf_a 1 ue_1 7.
Definition est_run : st W HandlerError (list Z) :=
  handle_session_establishment map_to_list 0 (header_of est_data) (body_of est_data) src_a.
Definition est_req : SessionEstablishmentReq :=
  match decode_session_establishment (body_of est_data) with
  | Ok r => r
  | _ => {| ser_node_id := None; ser_cp_seid := 0; ser_smf_addr := 0; create_pdrs := [];
            create_fars := []; create_urrs := [] |}
  end.

Ltac crunch := vm_compute; reflexivity.
Ltac decide_closed := apply (bool_decide_unpack _); vm_compute; exact I.

Lemma forall_exists_bool {X Y} (xs : list X) (ys : list Y) (f : X → Y → bool) (R : X → Y → Prop) :
  (∀ x y, f x y = true ↔ R x y) →
  forallb (λ x, existsb (f x) ys) xs = true → ∀ x, x ∈ xs → ∃ y, y ∈ ys ∧ R x y.
Proof.
  intros HR Hb x Hx. rewrite List.forallb_forall in Hb. apply list_elem_of_In in Hx.
  apply Hb, List.existsb_exists in Hx as (y & Hy & Hf). exists y.
  by rewrite list_elem_of_In, <-HR.
Qed.

Lemma map_iter_perm : ∀ m : gmap Z SmfAssociation, map_to_list m ≡ₚ map_to_list m.
Proof. done. Qed.

(** Of the two sessions the first is deleted: its rules go, those of the second
    and the usage configurations stay. *)
Definition deletion_run : st W HandlerError (list Z) :=
  handle_session_deletion map_to_list (header_of (delete_req 1)) src_a.

Lemma listed_1 id i :
  (si_pdr_ids <$> bpf_get (SESSION_MAP (w_maps two_smfs)) (to_be32 ue_1)) ≫= (.!! i) = Some id →
  (i < 2)%nat → listed (w_maps two_smfs) ue_1 id.
Proof.
  intros Hid Hi. destruct (bpf_get (SESSION_MAP (w_maps two_smfs)) (to_be32 ue_1)) as [info|] eqn:E;
    [|discriminate Hid].
  exists info, i. split; [exact E|]. split; [lia|]. split; [|exact Hid].
  assert (si_pdr_count info = 2) as ->; [|lia].
  assert (si_pdr_count <$> bpf_get (SESSION_MAP (w_maps two_smfs)) (to_be32 ue_1) = Some 2) as Hc
    by crunch.
  rewrite E in Hc. injection Hc as Hc. exact Hc.
Qed.


(** The PDR, the FAR with the tunnel, and the URR of the request are installed,
    and the URR's configuration is in the reporter's table. *)
Lemma establishment_installs_witness :
  let w' := (est_run associated).2 in
  next_seid (w_srv w') = 2 ∧
  pv_far_id <$> bpf_get (PDR_MAP (w_maps w')) (PdrKey_new 1 2) = Some 2 ∧
  fv_teid <$> bpf_get (FAR_MAP (w_maps w')) (FarKey_new 1 2) = Some (to_be32 7) ∧
  pc_values (URR_MAP (w_maps w')) (UrrKey_new 1 1) =
    Some (replicate ncpus (mkUrrStats 0 0 0 0)) ∧
  uc_volume_threshold_total <$> urr_configs (w_srv w') !! (1, 1) = Some (Some 100).
Proof.
  assert (est_run associated = (Ok (unok (est_run associated).1), (est_run associated).2)) as E.
  { apply run_ok. crunch. }
  destruct (establishment_installs map_to_list 0 _ _ _ _ _ _ E) as (req & ue & ohc & k & a & H).
  { split; [discriminate|reflexivity]. }
  replace (next_seid (w_srv associated)) with 1 in H by crunch.
  destruct H as (Hdec & _ & _ & _ & _ & Hp & Hf & Hu & Hc & _ & Hn & _). cbv zeta.
  assert (req = est_req) as ->.
  { assert (decode_session_establishment (body_of est_data) = Ok est_req) as Hreq by crunch.
    rewrite Hreq in Hdec. injection Hdec as <-. reflexivity. }
  split; [exact Hn|].
  assert (∃ p f u, create_pdrs est_req !! 1%nat = Some p ∧ create_fars est_req !! 1%nat = Some f ∧
    create_urrs est_req !! 0%nat = Some u ∧ pdr_id p = 2 ∧ pdr_far_id p = Some 2 ∧ far_id f = 2 ∧
    ohc_teid <$> outer_header_creation f = Some 7 ∧ urr_id u = 1 ∧ volume_threshold_total u = Some 100)
    as (p & f & u & Ep & Ef & Eu & Epid & Epf & Efid & Eft & Euid & Eut).
  { eexists _, _, _. split; [crunch|]. split; [crunch|]. split; [crunch|]. repeat split. }
  apply list_elem_of_lookup_2 in Ep, Ef, Eu.
  destruct (Hp ltac:(unfold u16; decide_closed) ltac:(decide_closed) p Ep) as (pv & Hpv & Hpc).
  destruct (Hf ltac:(unfold u16; decide_closed) ltac:(decide_closed) f Ef) as (fv & Hfv & Hfc).
  destruct (Hc ltac:(decide_closed) u Eu) as (c & Hcfg & Hcc). specialize (Hu u Eu).
  rewrite Epid in Hpv. rewrite Efid in Hfv. rewrite Euid in Hu, Hcfg.
  rewrite Hpv, Hfv, Hcfg. destruct Hpc as (_ & _ & _ & Hpc & _). destruct Hfc as (_ & _ & _ & Hfc).
  destruct Hcc as (_ & _ & _ & _ & _ & Hcc & _).
  split; [cbn; rewrite Hpc, Epf; reflexivity|]. split; [|split; [exact Hu|cbn; rewrite Hcc, Eut; reflexivity]].
  destruct (outer_header_creation f) as [o|]; [|discriminate Eft]. injection Eft as Eft.
  cbn. rewrite (proj2 Hfc), Eft. reflexivity.
Defined.

Lemma est_req_deletable : deletable est_req.
Proof.
  split.
  - apply Nat.leb_le. crunch.
  - unfold u16. decide_closed.
  - decide_closed.
  - apply (forall_exists_bool _ _ (λ f p, bool_decide (pdr_far_id p = Some (far_id f)))).
    { intros f p. apply bool_decide_eq_true. }
    crunch.
  - intros u Hu. split.
    + assert (Forall (λ u, urr_id u ≠ 0) (create_urrs est_req)) as Hall by decide_closed.
      rewrite Forall_forall in Hall. exact (Hall u Hu).
    + revert u Hu.
      apply (forall_exists_bool _ _ (λ u p, bool_decide (pdr_urr_id p = Some (urr_id u)))).
      { intros u p. apply bool_decide_eq_true. }
      crunch.
Qed.

(** Every rule map is as before, the usage configuration is left. *)
Lemma establish_delete_clean_witness :
  let w' := (deletion_run (est_run associated).2).2 in
  rules_restored (w_maps associated) (w_maps w') ∧
  sessions (w_srv w') = sessions (w_srv associated) ∧
  bpf_get (PDR_MAP (w_maps (est_run associated).2)) (PdrKey_new 1 1) ≠ None ∧
  bpf_get (PDR_MAP (w_maps w')) (PdrKey_new 1 1) = None ∧
  is_Some (urr_configs (w_srv w') !! (1, 1)).
Proof.
  assert (est_run associated = (Ok (unok (est_run associated).1), (est_run associated).2)) as E.
  { apply run_ok. crunch. }
  assert (deletion_run (est_run associated).2 = (Ok (unok (deletion_run (est_run associated).2).1),
    (deletion_run (est_run associated).2).2)) as E'.
  { apply run_ok. crunch. }
  cbv zeta.
  destruct (establish_delete_clean map_to_list 0 _ _ _ _ _ _ est_req _ _ _ _ E E')
    as (Hrules & Hsess & _ & Hcfg).
  - crunch.
  - exact est_req_deletable.
  - crunch.
  - split; [discriminate|reflexivity].
  - intros i. assert (w_maps associated = w_maps initial) as -> by crunch.
    split; [exact (lookup_empty _)|split]; [exact (lookup_empty _)|reflexivity].
  - crunch.
  - split; [exact Hrules|]. split; [exact Hsess|].
    split; [intros Hn; vm_compute in Hn; discriminate Hn|].
    split; [rewrite (proj1 Hrules); crunch|]. rewrite Hcfg. apply (bool_decide_unpack _). vm_compute. exact I.
Defined.

Lemma association_setup_witness :
  as_sessions <$> associations (w_srv one_session) !! smf_a ≠ Some ∅ ∧
  as_sessions <$> associations (w_srv (handle_session_association 0 (header_of (setup_req smf_a 50))
    (body_of (setup_req smf_a 50)) src_a one_session).2) !! smf_a = Some ∅.
Proof.
  split; [intros E; vm_compute in E; discriminate E|].
  rewrite (association_setup 0 (header_of (setup_req smf_a 50)) (body_of (setup_req smf_a 50)) src_a
    one_session {| asr_node_id := smf_a; asr_recovery_ts := 50 |}
    ltac:(crunch)). crunch.
Defined.

Lemma heartbeat_restart_orphans_witness :
  authorise map_to_list (w_srv (handle_heartbeat map_to_list 0 (header_of (heartbeat_req 200))
    (body_of (heartbeat_req 200)) src_a one_session).2) src_a 1 = Err (ENotOwner 1 src_a).
Proof.
  destruct (find_assoc map_to_list (w_srv one_session) src_a) as [[k a]|] eqn:Ef;
    [|exfalso; vm_compute in Ef; discriminate Ef].
  destruct (sessions (w_srv one_session) !! 1) as [d|] eqn:Ed;
    [|exfalso; vm_compute in Ed; discriminate Ed].
  assert (sd_cp_seid d = 1) as Ecp.
  { vm_compute in Ed. injection Ed as <-. reflexivity. }
  replace (ENotOwner 1 src_a) with (ENotOwner (sd_cp_seid d) src_a) by (rewrite Ecp; reflexivity).
  refine (proj2 (proj2 (heartbeat_restart_orphans map_to_list 0 map_iter_perm
    (header_of (heartbeat_req 200)) _ src_a one_session smf_a k a {| hbr_recovery_ts := Some 200 |}
    200 eq_refl Ef _ _ eq_refl _)) 1 d Ed).
  - vm_compute in Ef. injection Ef as <- <-. intros k' a' Hk _. vm_compute in Hk.
    assert (map_Forall (λ k'' _, k'' = smf_a) (associations (w_srv one_session))) as Hall
      by decide_closed.
    exact (Hall k' a' Hk).
  - crunch.
  - vm_compute in Ef. injection Ef as <- <-. discriminate.
Defined.

Definition handover : list FarParams :=
  [{| fp_far_id := 2; fp_apply_action := Types.ACTION_DROP; fp_dest_interface := INTERFACE_ACCESS;
      fp_outer_header_creation := Some (mkOHC 77 (ip 192 168 0 24) 2152) |}].
Definition handover_run : st W HandlerError (list Z) :=
  handle_session_modification map_to_list (header_of (modify_req 1 handover))
    (body_of (modify_req 1 handover)) src_a.



Lemma modification_refused_witness :
  handle_session_modification map_to_list (header_of (modify_req 9 handover))
    (body_of (modify_req 9 handover)) src_a one_session = (Err (EUnknownSeid 9), one_session).
Proof.
  destruct (decode_session_modification (body_of (modify_req 9 handover))) as [req|e|] eqn:Ed;
    [|exfalso; vm_compute in Ed; discriminate Ed|exfalso; vm_compute in Ed; discriminate Ed].
  apply (proj2 (modification_refused map_to_list (header_of (modify_req 9 handover))
    (body_of (modify_req 9 handover)) src_a one_session req Ed) 9); crunch.
Defined.

(** A heartbeat with the time stamp of the association keeps the session. *)
Lemma heartbeat_spec_witness :
  session_ue (handle_heartbeat map_to_list 0 (header_of (heartbeat_req 100))
    (body_of (heartbeat_req 100)) src_a one_session).2 1 = Some ue_1.
Proof.
  destruct (heartbeat_spec map_to_list 0 map_iter_perm (header_of (heartbeat_req 100))
    (body_of (heartbeat_req 100)) src_a one_session) as (req & w' & _ & E & _ & _ & Hs & _).
  rewrite E. unfold session_ue. cbn [snd]. rewrite Hs. crunch.
Defined.

Lemma initial_typed : world_typed initial.
Proof.
  split; [split|split; [split|constructor]].
  1-6: unfold u32, u64; decide_closed.
  all: intros k v Hv; cbn in Hv; rewrite lookup_empty in Hv; discriminate Hv.
Qed.

Lemma handle_message_typed_witness :
  bytes_ok (establish_req smf_a 1 ue_1 7) ∧ world_typed one_session.
Proof.
  split; [decide_closed|].
  apply (handle_message_typed map_to_list map_iter_perm 0 (establish_req smf_a 1 ue_1 7) src_a).
  { decide_closed. }
  apply (handle_message_typed map_to_list map_iter_perm 0 (setup_req smf_a 100) src_a).
  { decide_closed. }
  exact initial_typed.
Defined.

(** A server with a store, and what its store holds after one session was
    established and handed over. *)
Definition with_store : W := mkWorld (set_session_store (w_srv initial)) (w_maps initial) [].
Definition stored_run : list Datagram :=
  [(0, setup_req smf_a 100, src_a); (0, establish_req smf_a 1 ue_1 7, src_a);
   (0, modify_req 1 handover, src_a)].
Definition memory : Type := gmap Text.str (gmap Text.str Text.str).
Definition stored : memory :=
  (write_log (E:=unit) (w_log (handle_all map_to_list stored_run with_store)) (∅ : memory)).2.
Definition recovered : list (Z * SessionData) :=
  match (load_all (E:=unit) stored).1 with Ok l => l | _ => [] end.
Definition restarted : PfcpServer :=
  restore_sessions recovered
    (set_session_store (PfcpServer_new 1700000000 0 (ip 10 0 0 100) (ip 192 168 0 100))).

(** The session is back, with the TEID and the gNB it was established with, not
    those of the handover. *)
Lemma restart_recovers_witness :
  statics (sessions restarted) =
    statics (sessions (w_srv (handle_all map_to_list stored_run with_store))) ∧
  sessions restarted !! 1 = Some (mkSessionData ue_1 1000 (ip 192 168 0 23) 1) ∧
  (sd_teid <$> sessions (w_srv (handle_all map_to_list stored_run with_store)) !! 1) = Some 77.
Proof.
  destruct (restart_recovers (R:=memory) (E:=unit) map_to_list map_iter_perm ∅ with_store
    stored_run ∅ stored (load_all (E:=unit) stored).2 recovered 1700000000 0
    (ip 10 0 0 100) (ip 192 168 0 100)) as (Hest & Hst & _).
  - exact represents_empty.
  - done.
  - destruct initial_typed as (Hs & Hm & Hl). split; [by destruct Hs|done].
  - decide_closed.
  - vm_compute. reflexivity.
  - vm_compute. reflexivity.
  - split; [exact Hst|]. split; [|vm_compute; reflexivity].
    refine (eq_trans (f_equal (λ m, m !! 1) Hest) _). vm_compute. reflexivity.
Defined.

Lemma restored_sessions_unowned_witness :
  authorise map_to_list (w_srv (handle_all map_to_list
      [(0, setup_req smf_a 100, src_a); (0, delete_req 1, src_a)]
      (mkWorld restarted (w_maps initial) []))) src_a 1 = Err (ENotOwner 1 src_a).
Proof.
  destruct (restored_sessions_unowned map_to_list map_iter_perm recovered 1700000000 0
    (ip 10 0 0 100) (ip 192 168 0 100) (mkWorld restarted (w_maps initial) [])
    [(0, setup_req smf_a 100, src_a); (0, delete_req 1, src_a)] eq_refl ltac:(decide_closed))
    as (_ & _ & Ha & _).
  destruct (Ha src_a 1) as [e He]. rewrite He. vm_compute in He. by injection He as <-.
Defined.

(** ** The terminal *)

(** The same run on a server with a terminal; after every effect the logger
    prints a line and the terminal's loop takes an event. *)
Definition with_tui : W := mkWorld (set_tui_sender (w_srv initial)) (w_maps initial) [].
Definition tui_server : W :=
  handle_all map_to_list stored_run (restore_at_start (E:=unit) None with_tui).2.
Definition no_clock : nat → Text.str := λ _, [].
Definition tui_steps : list (FeedStep Z) :=
  List.flat_map (λ e, [Effected map_to_list 0 e; Logged (Text.lit "INFO") (Text.lit "handled");
    Received no_clock; Interacted no_clock (SleepElapsed None)]) (w_log tui_server).
Definition tui_start : Feed Z := mkFeed [] (start_screen 0 []) true.

Lemma tui_steps_faithful : faithful tui_start tui_steps.
Proof.
  unfold tui_steps. let log := eval vm_compute in (w_log tui_server) in
    replace (w_log tui_server) with log by (vm_compute; reflexivity).
  cbn [List.flat_map app].
  repeat (split; [vm_compute; reflexivity|split; [first [intros m; reflexivity|exact I]|]]). exact I.
Qed.

(** The session is listed, with the TEID it was established with: the handover
    of the run is not shown. *)
Lemma terminal_lists_sessions_witness :
  let a := screen (drain no_clock (feed tui_steps tui_start)) in
  session_count a = 1%nat ∧
  se_teid <$> List.find (λ s, se_seid s =? 1) (app_sessions a) = Some 1000 ∧
  sd_teid <$> sessions (w_srv tui_server) !! 1 = Some 77.
Proof.
  cbv zeta. split; [|split; vm_compute; reflexivity].
  etransitivity; [refine (proj1 (terminal_lists_sessions (E:=unit) map_to_list 0 no_clock [] None
    with_tui stored_run tui_steps _ _ _ _ tui_steps_faithful _)); vm_compute; reflexivity|].
  vm_compute. reflexivity.
Defined.

(** A hundred lines of the logger that the loop has not taken yet, and the
    session's line never appears. *)
Lemma full_channel_loses_session :
  let busy := replicate 100 (Logged (Text.lit "INFO") (Text.lit "busy")) ++ (Effected map_to_list 0 <$> w_log tui_server) in
  let a := screen (drain no_clock (feed busy tui_start)) in
  effects busy = w_log tui_server ∧ session_count a = 0%nat ∧ size (sessions (w_srv tui_server)) = 1%nat.
Proof. vm_compute. by split_and!. Qed.

(** ** Forwarding *)

#[local] Existing Instances Xdp.Example.helpers Xdp.Example.helper_laws.

(** An answer of a name server to UE 1, and the same UE's question in the
    tunnel of its gNB. *)
Definition to_ue_1 : XdpContext :=
  mkCtx 256 ([2;0;0;0;0;10] ++ [2;0;0;0;0;11] ++ [8;0] ++
    [69;0;0;28;0;0;0;0;64;17;0;0;8;8;8;8;10;45;0;2;0;53;3;232;0;8;0;0]).
Definition from_ue_1 : XdpContext :=
  mkCtx 256 ([2;0;0;0;0;10] ++ [2;0;0;0;0;11] ++ [8;0;69;0;0;64;0;0;0;0;64;17;0;0;
    192;168;0;23;192;168;0;100; 8;104;8;104;0;44;0;0; 48;255;0;28;0;0;0;1] ++
    [69;0;0;28;0;0;0;0;64;17;0;0;10;45;0;2;8;8;8;8;3;232;0;53;0;8;0;0]).

(** UE 1 gets a session, sends, is handed over; another SMF sets up UE 2. *)
Definition morning : list Event :=
  [Request (0, setup_req smf_a 100, src_a); Request (0, establish_req smf_a 1 ue_1 7, src_a);
   Uplink 0 from_ue_1; Request (0, setup_req smf_b 100, src_b);
   Request (0, establish_req smf_b 1 ue_2 8, src_b); Request (0, modify_req 1 handover, src_a);
   Downlink 1 to_ue_1].
Definition evening : list Event := morning ++ [Request (0, delete_req 1, src_a)].

Definition after (es : list Event) : W * Knowledge :=
  history map_to_list es (initial, λ _, NoSession).

Lemma initial_sound : sound (λ _, NoSession) initial.
Proof.
  apply fresh_sound.
  - split; [by split; vm_compute| |]; intros k d Hd; cbn in Hd; rewrite lookup_empty in Hd;
      discriminate Hd.
  - exact initial_typed.
  - intros k. cbn. apply lookup_empty.
Qed.

Lemma initial_wired : wired (w_maps initial) 3 4.
Proof. split; [done|done|]. intros i [->| ->]; by eexists. Qed.

Lemma forwarding_follows_signalling_witness :
  tunnelled (ip 192 168 0 100) (ip 192 168 0 24) 77 (drop 14 (packet to_ue_1))
    (packet (xr_ctx (try_n6_downlink 0 (w_maps (after morning).1) to_ue_1))) ∧
  try_n6_downlink 0 (w_maps (after evening).1) to_ue_1 =
    mkXdp XDP_PASS to_ue_1 (w_maps (after evening).1) None.
Proof.
  pose proof (forwarding_follows_signalling map_to_list map_iter_perm morning initial _ 3 4 0 to_ue_1
    ltac:(decide_closed) initial_sound initial_wired ltac:(vm_compute; reflexivity)
    ltac:(decide_closed)) as Hm.
  pose proof (forwarding_follows_signalling map_to_list map_iter_perm evening initial _ 3 4 0 to_ue_1
    ltac:(decide_closed) initial_sound initial_wired ltac:(vm_compute; reflexivity)
    ltac:(decide_closed)) as He.
  destruct Hm as [Hm _]. destruct He as [He _].
  specialize (Hm ltac:(decide_closed) ltac:(apply Nat.leb_le; crunch)).
  specialize (He ltac:(decide_closed) ltac:(apply Nat.leb_le; crunch)).
  split.
  - match type of Hm with treats_downlink ?x _ _ _ _ => destruct x as [| |f] eqn:Ef end; [vm_compute in Ef; discriminate Ef..|].
    cbn [treats_downlink] in Hm.
    assert (policy_down f (downlink_fields (packet to_ue_1)) = Tunnelled (ip 192 168 0 24) 77 ∧
      f_n3 f = ip 192 168 0 100) as [Ep En].
    { vm_compute in Ef. injection Ef as <-. split; crunch. }
    rewrite Ep in Hm. destruct Hm as [_ Hm]. rewrite En in Hm. exact Hm.
  - match type of He with treats_downlink ?x _ _ _ _ => destruct x as [| |f] eqn:Ef end; [vm_compute in Ef; discriminate Ef| |].
    + exact He.
    + vm_compute in Ef. discriminate Ef.
Defined.

Lemma programs_implement_policy_witness :
  leaves (M:=bounded_map) (P:=percpu_map) (A:=array_map) 4
    (try_n3_uplink 0 (w_maps (after morning).1) from_ue_1) ∧
  drop 14 (packet (xr_ctx (try_n3_uplink 0 (w_maps (after morning).1) from_ue_1))) =
    inner_packet (packet from_ue_1).
Proof.
  destruct (history_sound map_to_list map_iter_perm morning initial (λ _, NoSession) 3 4
    ltac:(decide_closed) initial_sound initial_wired ltac:(vm_compute; reflexivity)) as [Hs Hw].
  change (history map_to_list morning (initial, _)) with (after morning) in *.
  destruct ((after morning).2 ue_1) as [| |f] eqn:Ef; [vm_compute in Ef; discriminate Ef..|].
  destruct (snd_served _ _ Hs ue_1 f ltac:(unfold u32; decide_closed) Ef) as (Eu & Hwf & Hc & _).
  pose proof (programs_implement_policy 0 (w_maps (after morning).1) from_ue_1 f 3 4 Hc Hwf Hw
    ltac:(decide_closed)) as [_ Hp].
  specialize (Hp ltac:(decide_closed) ltac:(rewrite Eu; crunch)).
  assert (policy_up f (uplink_fields (inner_packet (packet from_ue_1))) = Untunnelled) as Ep.
  { vm_compute in Ef. injection Ef as <-. crunch. }
  rewrite Ep in Hp. destruct Hp as (Hl & _ & Hi). split; [exact Hl|exact Hi].
Defined.
