(* ===== verification/System.v ===== *)
(** * The whole system

    The server's tasks ([pfcp_server.rs], [run]) and the XDP programs run
    concurrently: every datagram is handled by a task of its own, next to the
    keepalive, the usage reporter and the packets the kernel hands to the XDP
    programs.  A handler holds the server's lock from its first access to its
    end, with one exception: a deletion releases it half way.  A step below is
    therefore one critical section, and a deletion is two steps between which
    anything may happen.

    The invariant of the server and the uniqueness of its session identifiers
    are proved for every interleaving; the answers of the server are proved to
    be accepted by the simulator. *)

From S2P Require Import Prelude Types Header Ie Builder Messages Dict Common Xdp Server.
From S2P Require Import Handlers HandlersSpec Invariant Reporter SmfSim Scenario.

(** A tick of the reporter leaves sessions, associations and the counters of
    identifiers alone. *)
Definition same_tables (s s' : PfcpServer) : Prop :=
  next_seid s' = next_seid s ∧ sessions s' = sessions s ∧ associations s' = associations s.

Lemma report_tick_tables {E} now entries s s' msgs :
  report_tick (E:=E) now entries s = Ok (s', msgs) → same_tables s s'.
Proof.
  unfold report_tick. destruct (peer_addr s) as [peer|]; [|by intros [= <- <-]].
  generalize (@nil (SocketAddr * list Z)) as out.
  generalize ((λ e : Z * list UrrStats, (e.1, sum_cpus e.2)) <$> entries) as totals.
  intros totals. revert s. induction totals as [|e totals IH]; intros s out Hr.
  - by injection Hr as <- <-.
  - cbn [foldM] in Hr. rewrite report_entry_spec in Hr.
    destruct (usage_due now (urr_configs s) e) as [u|].
    + destruct (usage_request_ok (E:=E) (next_report_seq s) u) as [req Hq]. rewrite Hq in Hr.
      rewrite !bind_Ok in Hr. apply IH in Hr as (? & ? & ?). by split.
    + rewrite bind_Ok in Hr. apply IH in Hr as (? & ? & ?). by split.
Qed.

Lemma keepalive_tables now unix ok s kseq r s' kseq' :
  keepalive_turn now unix ok s kseq = (r, s', kseq') → same_tables s s'.
Proof.
  unfold keepalive_turn. destruct (check_keepalive _ _ _ _ _) as [[[d|]|e|] q];
    intros [= <- <- <-]; try done. by destruct ok.
Qed.

Section system.
Context {M P A : Type → Type}.
Context `{BpfMapLaws M} `{PerCpuMapLaws P} `{BpfArray A} `{XdpHelpers}.

Abbreviation World := (@World M P A).
Implicit Types w : World.

(** A deletion that has released the lock and not finished. *)
Definition Pending : Type := PfcpHeader * SocketAddr * (option SessionData * bool).

Record System := mkSystem {
  sys_world : World;
  sys_pending : list Pending;
  sys_keepalive_seq : Z;
  sys_sent : list (list Z * SocketAddr);
}.

(** [Ok(response)] is sent unless it is empty; an error is logged. *)
Definition reply (r : outcome HandlerError (list Z)) (src : SocketAddr)
    : list (list Z * SocketAddr) :=
  match r with Ok (b :: rsp) => [(b :: rsp, src)] | _ => [] end.

Definition is_deletion (data : list Z) : bool :=
  match decode data with
  | Ok (h, _) => hdr_msg_type h =? PFCP_SESSION_DELETION_REQ
  | _ => false
  end.

(** [touch_activity] before a datagram is handled. *)
Definition touched (now : Z) w : World := with_srv (touch_activity now) w.

Inductive sys_step : System → System → Prop :=
| step_message iter now data src w w' r pending kseq sent :
    (∀ m, iter m ≡ₚ map_to_list m) → bytes_ok data → is_deletion data = false →
    handle_message iter now data src (touched now w) = (r, w') →
    sys_step (mkSystem w pending kseq sent)
      (mkSystem w' pending kseq (sent ++ reply r src))
| step_delete_begin iter now data src h body w w' found pending kseq sent :
    bytes_ok data → decode data = Ok (h, body) → is_deletion data = true →
    delete_begin iter h src (touched now w) = (Ok found, w') →
    sys_step (mkSystem w pending kseq sent)
      (mkSystem w' (pending ++ [(h, src, found)]) kseq sent)
| step_delete_refused iter now data src h body w w' e pending kseq sent :
    bytes_ok data → decode data = Ok (h, body) → is_deletion data = true →
    delete_begin iter h src (touched now w) = (Err e, w') →
    sys_step (mkSystem w pending kseq sent) (mkSystem w' pending kseq sent)
| step_delete_finish h src found w w' r before after kseq sent :
    delete_finish h found w = (r, w') →
    sys_step (mkSystem w (before ++ (h, src, found) :: after) kseq sent)
      (mkSystem w' (before ++ after) kseq (sent ++ reply r src))
| step_keepalive now unix_now send_ok w s' r kseq kseq' pending sent :
    keepalive_turn now unix_now send_ok (w_srv w) kseq = (r, s', kseq') →
    sys_step (mkSystem w pending kseq sent)
      (mkSystem (with_srv (λ _, s') w) pending kseq'
         (sent ++ match r with Ok (Some d) => if send_ok then [d] else [] | _ => [] end))
| step_report now entries w s' msgs pending kseq sent :
    report_tick (E:=HandlerError) now entries (w_srv w) = Ok (s', msgs) →
    sys_step (mkSystem w pending kseq sent)
      (mkSystem (with_srv (λ _, s') w) pending kseq (sent ++ ((λ m, (m.2, m.1)) <$> msgs)))
| step_uplink cpu ctx w pending kseq sent :
    sys_step (mkSystem w pending kseq sent)
      (mkSystem (with_maps (λ m, xr_maps (upf_edge_n3 cpu m ctx)) w) pending kseq sent)
| step_downlink cpu ctx w pending kseq sent :
    sys_step (mkSystem w pending kseq sent)
      (mkSystem (with_maps (λ m, xr_maps (upf_edge_n6 cpu m ctx)) w) pending kseq sent).

Inductive sys_run : nat → System → System → Prop :=
| run_nil s : sys_run 0 s s
| run_step n s1 s2 s3 : sys_run n s1 s2 → sys_step s2 s3 → sys_run (S n) s1 s3.

(** The server as [new] makes it, nothing under way. *)
Definition sys_initial (s : System) : Prop :=
  ∃ unix now n4 n3, w_srv (sys_world s) = PfcpServer_new unix now n4 n3 ∧ sys_pending s = [].

Definition sys_srv (s : System) : PfcpServer := w_srv (sys_world s).

(** A pending deletion names an identifier that was handed out and is no
    longer recorded. *)
Definition pending_ok (s : System) : Prop :=
  ∀ p, p ∈ sys_pending s →
    let seid := default 0 (hdr_seid p.1.1) in
    sessions (sys_srv s) !! seid = None ∧ seid < next_seid (sys_srv s).

Definition sys_evolves (s s' : System) : Prop :=
  evolves (sys_world s) (sys_world s') ∧ (pending_ok s → pending_ok s').

Lemma keeps_refl_srv w w' : w_srv w' = w_srv w → server_inv (w_srv w) → evolves w w'.
Proof. intros E Hi. apply keeps_evolves; [done|]. by apply keeps_same. Qed.

(** A change of the server outside its sessions and session counter. *)
Lemma evolves_other w s' :
  next_seid s' = next_seid (w_srv w) → sessions s' = sessions (w_srv w) →
  associations s' = associations (w_srv w) → server_inv (w_srv w) →
  evolves w (with_srv (λ _, s') w).
Proof.
  intros E1 E2 E3 [Hn Hs Ha]. unfold evolves. cbn. rewrite E1, E2. split; [lia|]. split.
  - intros seid d Hd. right. exists d. split; [done|]. by split.
  - split; by rewrite ?E1, ?E2, ?E3.
Qed.

Lemma touched_inv now w : server_inv (w_srv w) → server_inv (w_srv (touched now w)).
Proof. by intros [? ? ?]. Qed.

Lemma evolves_pending w w' pending kseq sent kseq' sent' :
  evolves w w' →
  pending_ok (mkSystem w pending kseq sent) → pending_ok (mkSystem w' pending kseq' sent').
Proof.
  intros (Hn & Hs & _) Hp p Hin. destruct (Hp p Hin) as [Hnone Hlt]. unfold sys_srv in *.
  cbn in *. split; [|lia]. destruct (sessions (w_srv w') !! _) as [d|] eqn:E; [|done].
  apply Hs in E as [?|(d' & Hd' & _)]; [lia|congruence].
Qed.

Lemma sys_step_evolves s s' :
  sys_step s s' → server_inv (sys_srv s) → next_seid (sys_srv s) < 2 ^ 64 - 1 → sys_evolves s s'.
Proof.
  intros Hstep Hinv Hlt. unfold sys_srv in *.
  destruct Hstep as [iter now data src w w' r pending kseq sent Hiter Hb _ Hr
    |iter now data src h body w w' found pending kseq sent Hb Hd _ Hr
    |iter now data src h body w w' e pending kseq sent Hb Hd _ Hr
    |h src found w w' r before after kseq sent Hr
    |now unix_now ok w s' r kseq kseq' pending sent Hr
    |now entries w s' msgs pending kseq sent Hr
    |cpu ctx w pending kseq sent|cpu ctx w pending kseq sent]; cbn in Hinv, Hlt.
  - pose proof (handle_message_evolves iter now Hiter data src (touched now w) Hb
      (touched_inv now w Hinv) Hlt) as He. rewrite Hr in He. split; [exact He|].
    intros Hp. exact (evolves_pending (touched now w) w' pending kseq sent _ _ He Hp).
  - assert (evolves (touched now w) w') as He.
    { apply keeps_evolves; [by apply touched_inv|].
      pose proof (delete_begin_keeps iter h src (touched now w)) as Hk. by rewrite Hr in Hk. }
    split; [exact He|]. intros Hp p Hin. cbn in Hin. apply elem_of_app in Hin as [Hin|Hin].
    + by apply (evolves_pending (touched now w) w' pending kseq sent kseq sent He Hp).
    + apply list_elem_of_singleton in Hin as ->. cbn.
      apply delete_begin_ok in Hr as ([d Hs] & _ & Hnone). split; [done|].
      destruct (inv_sessions _ Hinv _ _ Hs) as [Hseid _]. destruct He as (Hn & _). cbn in Hn.
      unfold sys_srv. cbn. lia.
  - assert (evolves (touched now w) w') as He.
    { apply keeps_evolves; [by apply touched_inv|].
      pose proof (delete_begin_keeps iter h src (touched now w)) as Hk. by rewrite Hr in Hk. }
    split; [exact He|]. intros Hp. exact (evolves_pending (touched now w) w' pending kseq sent _ _ He Hp).
  - assert (evolves w w') as He.
    { apply keeps_evolves; [done|].
      pose proof (delete_finish_keeps h found w) as Hk. by rewrite Hr in Hk. }
    split; [exact He|]. intros Hp. apply (evolves_pending w w' _ kseq sent _ _ He).
    intros p Hin. apply Hp. cbn in *. set_solver.
  - apply keepalive_tables in Hr as (? & ? & ?).
    assert (evolves w (with_srv (λ _, s') w)) as He by by apply evolves_other.
    split; [exact He|]. intros Hp. exact (evolves_pending w _ pending kseq sent _ _ He Hp).
  - apply report_tick_tables in Hr as (? & ? & ?).
    assert (evolves w (with_srv (λ _, s') w)) as He by by apply evolves_other.
    split; [exact He|]. intros Hp. exact (evolves_pending w _ pending kseq sent _ _ He Hp).
  - split; [by apply keeps_refl_srv|]. done.
  - split; [by apply keeps_refl_srv|]. done.
Qed.

Lemma sys_run_evolves n s s' :
  sys_run n s s' → server_inv (sys_srv s) → pending_ok s →
  next_seid (sys_srv s) + Z.of_nat n < 2 ^ 64 →
  server_inv (sys_srv s') ∧ pending_ok s' ∧
  next_seid (sys_srv s) ≤ next_seid (sys_srv s') ≤ next_seid (sys_srv s) + Z.of_nat n ∧
  ∀ seid d', sessions (sys_srv s') !! seid = Some d' →
    next_seid (sys_srv s) ≤ seid ∨
    ∃ d, sessions (sys_srv s) !! seid = Some d ∧ same_session d d'.
Proof.
  intros Hrun Hinv Hp. induction Hrun as [s|n s1 s2 s3 Hrun IH Hstep]; intros Hlt.
  - split; [done|]. split; [done|]. split; [lia|]. intros seid d Hd. right. by exists d.
  - destruct IH as (Hi2 & Hp2 & Hn2 & Hs2); [done|done|lia|].
    destruct (sys_step_evolves _ _ Hstep Hi2 ltac:(lia)) as ((Hn3 & Hs3 & Hi3) & Hp3).
    split; [done|]. split; [by apply Hp3|]. unfold sys_srv in *. split; [lia|].
    intros seid d3 H3'. destruct (Hs3 seid d3 H3') as [?|(d2 & Hd2 & Hsame)]; [left; lia|].
    destruct (Hs2 seid d2 Hd2) as [?|(d1 & Hd1 & Hsame1)]; [by left|right].
    exists d1. split; [done|]. destruct Hsame, Hsame1. split; congruence.
Qed.

Lemma initial_inv s :
  sys_initial s → server_inv (sys_srv s) ∧ pending_ok s ∧ next_seid (sys_srv s) = 1.
Proof.
  intros (unix & now & n4 & n3 & E & Ep). unfold pending_ok, sys_srv. rewrite E, Ep.
  split; [|split; [|done]].
  - split; [done| |]; intros k v Hv; cbn in Hv; by rewrite lookup_empty in Hv.
  - intros p Hp. by apply not_elem_of_nil in Hp.
Qed.

(** C1. Session identifiers are handed out once, in every interleaving of
    datagrams, half-finished deletions, keepalives, usage reports and packets:
    from a fresh server, for up to 2^64 - 2 steps, every recorded session has
    an identifier below the counter and a 64-bit CP SEID, every association
    is stored under its node id, a deletion that is still pending names a
    session that is gone; and whatever is recorded later under an identifier
    that was already handed out is the same session of the same UE, so that a
    deleted identifier never comes back. *)
Theorem seids_never_reused n1 n2 s0 s1 s2 :
  sys_initial s0 → sys_run n1 s0 s1 → sys_run n2 s1 s2 →
  Z.of_nat n1 + Z.of_nat n2 < 2 ^ 64 - 1 →
  server_inv (sys_srv s1) ∧ pending_ok s1 ∧ server_inv (sys_srv s2) ∧
  ∀ seid d2, seid < next_seid (sys_srv s1) → sessions (sys_srv s2) !! seid = Some d2 →
    ∃ d1, sessions (sys_srv s1) !! seid = Some d1 ∧
      sd_cp_seid d2 = sd_cp_seid d1 ∧ sd_ue_ip d2 = sd_ue_ip d1.
Proof.
  intros Hinit Hr1 Hr2 Hlt. destruct (initial_inv s0 Hinit) as (Hi0 & Hp0 & Hn0).
  destruct (sys_run_evolves _ _ _ Hr1 Hi0 Hp0 ltac:(lia)) as (Hi1 & Hp1 & Hn1 & _).
  destruct (sys_run_evolves _ _ _ Hr2 Hi1 Hp1 ltac:(lia)) as (Hi2 & _ & _ & Hs).
  split; [done|]. split; [done|]. split; [done|]. intros seid d2 Hlt' Hd2.
  destruct (Hs seid d2 Hd2) as [?|(d1 & Hd1 & Hsame)]; [lia|]. by exists d1.
Qed.
End system.

(** ** The server and the simulator together *)

Section exchange.
Context {M P A : Type → Type}.
Context `{BpfMapLaws M} `{PerCpuMapLaws P} `{BpfArray A}.
Variable assoc_iter : gmap Z SmfAssociation → list (Z * SmfAssociation).
Variable now : Z.

(** The transport when the network loses nothing: an error or an empty answer
    is a timeout for the client. *)
Definition server_exchange (src : SocketAddr) (req : list Z)
    : st (@World M P A) SimError (list Z) := λ w,
  match handle_message assoc_iter now req src w with
  | (Ok [], w') => (Err Timeout, w')
  | (Ok rsp, w') => (Ok rsp, w')
  | (Err _, w') => (Err Timeout, w')
  | (Panic, w') => (Panic, w')
  end.

(** C2. Whatever is sent to the server, an answer that leaves it is accepted
    by the simulator as the response to that request (type, sequence number,
    mandatory IEs and cause).  An answer to a heartbeat or an association set-up
    carries no SEID; the answer to an establishment is addressed to the CP SEID
    of the request, to a modification to the CP SEID of the session the request
    names, which exists; but to a deletion to the local SEID the request names,
    not to the session's CP SEID. *)
Theorem answers_accepted data src (w w' : @World M P A) rsp :
  bytes_ok data → server_inv (w_srv w) →
  handle_message assoc_iter now data src w = (Ok rsp, w') → rsp ≠ [] →
  ∃ h body hr br, decode data = Ok (h, body) ∧
    validate_response (hdr_msg_type h) (hdr_seq_num h) rsp = Ok () ∧
    decode rsp = Ok (hr, br) ∧ addressed (w_srv w) h body (hdr_seid hr).
Proof.
  intros Hb Hinv Hr Hne.
  destruct (handle_message_answers assoc_iter now data src w w' rsp Hb Hinv Hr)
    as (h & body & Hd & [(-> & _)|(Ht & to & Hto & Ha)]); [done|].
  pose proof Ha as (msg & hr & br & [= <-] & Hdr & _ & _ & Hs & _).
  exists h, body, hr, br. split; [done|]. split; [|split; [done|by rewrite Hs]].
  eapply accepted_validates; [|exact Ha].
  repeat (apply elem_of_cons in Ht as [->|Ht]; [done|]). by apply not_elem_of_nil in Ht.
Qed.

Definition wf_config (config : SimConfig) : Prop :=
  u32 (smf_n4_addr config) ∧ u32 (gnb_addr config) ∧ u32 (gnb_teid_start config).

Lemma command_wf config ue_ip :
  wf_config config → u32 ue_ip →
  Forall wf_pdr (command_pdrs ue_ip) ∧
  Forall wf_far (command_fars (gnb_teid_start config) (gnb_addr config)) ∧
  Forall wf_urr (command_urrs (Some 10000) (Some 30)).
Proof.
  intros (Ha & Hg & Hgt) Hue.
  assert (∀ l, Forall (λ f, fp_outer_header_creation f = None ∨
      fp_outer_header_creation f = Some (mkOHC (gnb_teid_start config) (gnb_addr config) 2152)) l →
    Forall (λ f, u32 (fp_far_id f) ∧ u8 (fp_apply_action f) ∧ 0 ≤ fp_dest_interface f < 16) l →
    Forall wf_far l) as Hfars.
  { intros l H1' H2'. rewrite Forall_forall in *. intros f Hf. destruct (H2' f Hf) as (? & ? & ?).
    destruct (H1' f Hf) as [E|E]; (split; [done|]; split; [done|]; split; [done|]);
      rewrite E; [done|]. exact (conj Hgt (conj Hg eq_refl)). }
  split; [|split].
  - repeat (apply Forall_cons; split); [..|apply Forall_nil; exact I];
      (split; [split; by vm_compute|]; split; [split; by vm_compute|]; split; [split; by vm_compute|];
       split; [exact Hue|]; split; [split; by vm_compute|]; split; [first [exact I|split; by vm_compute]|]);
      first [exact I|repeat split; by vm_compute].
  - apply Hfars; repeat (apply Forall_cons; split); try (apply Forall_nil; exact I); auto;
      repeat split; by vm_compute.
  - repeat (apply Forall_cons; split); [|apply Forall_nil; exact I]. repeat split; by vm_compute.
Qed.

(** The data the simulator's command leads to. *)
Definition command_data (config : SimConfig) (ue_ip teid : Z) : SessionData :=
  mkSessionData ue_ip teid (gnb_addr config) 1.

(** What one handling of the command's datagram answers and leaves behind. *)
Lemma command_handled config ue_ip data src (w w' : @World M P A) rsp :
  wf_config config → u32 ue_ip → u32 (n3_addr (w_srv w)) →
  0 < next_seid (w_srv w) < 2 ^ 48 → 0 < next_teid (w_srv w) < 2 ^ 32 →
  command_establishment (E:=SimError) config ue_ip = Ok data →
  handle_message assoc_iter now data src w = (Ok rsp, w') →
  let seid := next_seid (w_srv w) in
  let teid := next_teid (w_srv w) in
  validate_response PFCP_SESSION_ESTABLISHMENT_REQ 2 rsp = Ok () ∧
  extract_session_info rsp = Ok (seid, teid, n3_addr (w_srv w)) ∧
  (∃ k a urrs, find_assoc assoc_iter (w_srv w) src = Some (k, a) ∧
    w_srv w' = established_srv now (as_node_id a) 1 (command_data config ue_ip teid) urrs (w_srv w)) ∧
  (si_seid <$> bpf_get (SESSION_MAP (w_maps w')) (to_be32 ue_ip)) = Some seid ∧
  session_pdr_ids (w_maps w') (to_be32 ue_ip) = [1; 2; 3].
Proof.
  intros Hcfg Hue Hn3 Hs Ht Hd Hr seid teid.
  destruct (command_wf config ue_ip Hcfg Hue) as (Hp & Hf & Hu). destruct Hcfg as (Ha & Hg & Hgt).
  pose proof Hd as Hd'. unfold command_establishment in Hd'.
  rewrite session_establishment_msg_body in Hd'.
  destruct (decode_finish (E:=SimError) (new_session_msg PFCP_SESSION_ESTABLISHMENT_REQ 0 2)
    (ies_bytes (establishment_ies (smf_n4_addr config) 1 (command_pdrs ue_ip)
      (command_fars (gnb_teid_start config) (gnb_addr config))
      (command_urrs (Some 10000) (Some 30))))) as (msg & Hm & _ & Hdec).
  { apply wf_session_msg; [by vm_compute|by uint|done]. }
  rewrite Hm in Hd'. injection Hd' as ->.
  match type of Hdec with decode _ = Ok (?h, ?b) =>
    assert (handle_session_establishment assoc_iter now h b src w = (Ok rsp, w')) as Hr' end.
  { unfold handle_message, decode_header in Hr. rewrite Hdec in Hr. exact Hr. }
  apply establishment_ok in Hr' as (req & k & a & ue & ohc & Hreq & _ & Hfind & Hue' & Hohc & Hrest).
  rewrite decode_session_establishment_built in Hreq by (done || by uint).
  injection Hreq as <-. cbv zeta in Hrest. cbn in Hue', Hohc. injection Hue' as <-.
  injection Hohc as <-.
  destruct Hrest as (Hb & Esrv & _ & [Esess _ _ _ _]).
  assert (0 ≤ 2 < 2 ^ 24) as Hseq by lia.
  split; [|split; [|split; [|split]]].
  - eapply accepted_validates; [by vm_compute|]. eapply accepted_built; [|exact Hb].
    apply establishment_response_accepted; [exact Hseq|by vm_compute].
  - eapply (extract_session_info_built 2 1 seid (n3_addr (w_srv w)) 1 teid (n3_addr (w_srv w))
      [(2, teid, n3_addr (w_srv w))]); [exact Hseq|by vm_compute|..|exact (finish_any _ _ Hb)];
      unfold seid, teid, u64, u32 in *; lia.
  - exists k, a. eexists. split; [exact Hfind|exact Esrv].
  - rewrite Esess, decide_True by done. reflexivity.
  - unfold session_pdr_ids. rewrite Esess, decide_True by done. reflexivity.
Qed.

(** The simulator's establishment command against the server: for any
    configuration and UE address, if the server answers at all (its maps had
    room and the simulator's address has an association), the command
    succeeds and returns the SEID, TEID and N3 address that the server
    handed out; under that SEID the server has recorded the UE, the TEID and
    the gNB of the configuration, and the UE's entry of [SESSION_MAP] lists
    the three PDRs of the request. *)
Theorem command_establishes config ue_ip data src (w w' : @World M P A) rsp :
  wf_config config → u32 ue_ip → u32 (n3_addr (w_srv w)) →
  0 < next_seid (w_srv w) < 2 ^ 48 → 0 < next_teid (w_srv w) < 2 ^ 32 →
  command_establishment (E:=SimError) config ue_ip = Ok data →
  handle_message assoc_iter now data src w = (Ok rsp, w') →
  let seid := next_seid (w_srv w) in
  let teid := next_teid (w_srv w) in
  send_session_establishment (server_exchange src) config ue_ip w =
    (Ok (seid, teid, n3_addr (w_srv w)), w') ∧
  sessions (w_srv w') !! seid = Some (command_data config ue_ip teid) ∧
  (si_seid <$> bpf_get (SESSION_MAP (w_maps w')) (to_be32 ue_ip)) = Some seid ∧
  session_pdr_ids (w_maps w') (to_be32 ue_ip) = [1; 2; 3].
Proof.
  intros Hcfg Hue Hn3 Hs Ht Hd Hr seid teid.
  destruct (command_handled config ue_ip data src w w' rsp Hcfg Hue Hn3 Hs Ht Hd Hr)
    as (Hv & Hx & (k & a & urrs & _ & Esrv) & Hsess & Hids).
  split; [|split; [|split; [exact Hsess|exact Hids]]].
  - unfold send_session_establishment. rewrite Hd. rewrite st_bind_eq. cbn [lift].
    rewrite st_bind_eq. unfold server_exchange. rewrite Hr.
    destruct rsp as [|b rsp]; [discriminate Hx|]. rewrite st_bind_eq. cbn [lift].
    rewrite Hv. unfold lift. by rewrite Hx.
  - rewrite Esrv. cbn. apply lookup_insert_eq.
Qed.
End exchange.

(** ** Scenario 1 against the server *)

Definition sim_config : SimConfig := mkSimConfig smf_a (ip 192 168 0 23) 2147483649 15.

Definition scenario_start : @Run W :=
  mkRun initial (SimState_new 1700000000 ue_1 (ip 10 45 0 10) (gnb_teid_start sim_config)) [].

Definition lifecycle (fuel : nat) : st (@Run W) SimError unit :=
  basic_lifecycle (server_exchange map_to_list 0 src_a) (λ _, mret ()) (ntp_of_unix 1700000000) fuel 0 sim_config.

(** The simulator's scenario (association, establishment, wait,
    modification, deletion) passes against the server on a network that loses
    nothing, at the first association try; afterwards neither side has a
    session, no rule is left in the maps, the session gauge is back and the
    route of the UE is gone; the only wait was for the three heartbeats. *)
Theorem lifecycle_passes :
  let r := (lifecycle 1 scenario_start).2 in
  (lifecycle 1 scenario_start).1 = Ok () ∧
  map_to_list (sessions (w_srv (run_net r))) = [] ∧ map_to_list (sim_sessions (run_sim r)) = [] ∧
  map_to_list (bm_map (SESSION_MAP (w_maps (run_net r)))) = [] ∧
  map_to_list (bm_map (PDR_MAP (w_maps (run_net r)))) = [] ∧
  map_to_list (bm_map (FAR_MAP (w_maps (run_net r)))) = [] ∧
  w_log (run_net r) = [GaugeInc; RouteSetup ue_1; GaugeDec; RouteTeardown ue_1] ∧
  run_sleeps r = [50].
Proof. cbv zeta. split_and!; vm_compute; reflexivity. Qed.

(** ** A race *)

Abbreviation Sys := (@System bounded_map percpu_map array_map).

(** Runs of the concrete system, driven by datagrams. *)
#[local] Instance no_helpers : XdpHelpers :=
  {| bpf_xdp_adjust_head _ _ := None; bpf_redirect _ _ := 0 |}.

Lemma drive data src (w : W) pending kseq sent :
  bytes_ok data → is_deletion data = false →
  sys_step (mkSystem w pending kseq sent)
    (mkSystem (handle_message map_to_list 0 data src (touched 0 w)).2 pending kseq
       (sent ++ reply (handle_message map_to_list 0 data src (touched 0 w)).1 src)).
Proof.
  intros Hb Hd. apply (step_message map_to_list 0 data); [done|done|done|].
  apply surjective_pairing.
Qed.

Definition half_deleted : W := (delete_begin map_to_list (header_of (delete_req 1)) src_a
  (touched 0 one_session)).2.
Definition half_found : option SessionData * bool :=
  match (delete_begin map_to_list (header_of (delete_req 1)) src_a (touched 0 one_session)).1 with
  | Ok f => f | _ => (None, false) end.
Lemma half_deleted_eq :
  delete_begin map_to_list (header_of (delete_req 1)) src_a (touched 0 one_session) =
  (Ok half_found, half_deleted).
Proof.
  assert ((delete_begin map_to_list (header_of (delete_req 1)) src_a (touched 0 one_session)).1 =
    Ok half_found) as E by (vm_compute; reflexivity).
  unfold half_deleted. rewrite <-E. apply surjective_pairing.
Qed.

Definition reattached : W :=
  (handle_message map_to_list 0 (establish_req smf_a 2 ue_1 9) src_a (touched 0 half_deleted)).2.

(** The lock that a deletion gives up is needed: when the UE attaches
    again between the two halves of the deletion of its old session, the
    second half removes the forwarding entry of the new session, which stays
    recorded and was answered as accepted. *)
Theorem deletion_race :
  ∃ sent w', @sys_run bounded_map percpu_map array_map _ _ _ _ 3
      (mkSystem one_session [] 200 []) (mkSystem w' [] 200 sent) ∧
    session_ue w' 1 = None ∧ session_ue w' 2 = Some ue_1 ∧
    (si_seid <$> bpf_get (SESSION_MAP (w_maps reattached)) (to_be32 ue_1)) = Some 2 ∧
    bpf_get (SESSION_MAP (w_maps w')) (to_be32 ue_1) = None ∧ length sent = 2%nat.
Proof.
  set (r := delete_finish (header_of (delete_req 1)) half_found reattached).
  exists ((([] : list (list Z * SocketAddr)) ++ reply (handle_message map_to_list 0 (establish_req smf_a 2 ue_1 9) src_a
    (touched 0 half_deleted)).1 src_a) ++ reply r.1 src_a), r.2.
  split; [|split_and!; vm_compute; reflexivity].
  eapply run_step; [eapply run_step; [eapply run_step; [apply run_nil|]|]|].
  - apply (step_delete_begin map_to_list 0 (delete_req 1) src_a (header_of (delete_req 1))
      (body_of (delete_req 1)) one_session half_deleted half_found [] 200 []).
    + check_bytes.
    + vm_compute. reflexivity.
    + vm_compute. reflexivity.
    + exact half_deleted_eq.
  - apply (drive (establish_req smf_a 2 ue_1 9) src_a half_deleted); [check_bytes|vm_compute; reflexivity].
  - apply (step_delete_finish (header_of (delete_req 1)) src_a half_found reattached r.2 r.1 [] []).
    apply surjective_pairing.
Qed.

(** ** Witnesses *)

Definition deliver_one (d : list Z * SocketAddr) (s : Sys) : Sys :=
  let m := handle_message map_to_list 0 d.1 d.2 (touched 0 (sys_world s)) in
  mkSystem m.2 (sys_pending s) (sys_keepalive_seq s) (sys_sent s ++ reply m.1 d.2).

Lemma driven ds (s : Sys) :
  Forall (λ d, bytes_ok d.1 ∧ is_deletion d.1 = false) ds →
  sys_run (length ds) s (foldl (flip deliver_one) s ds).
Proof.
  induction ds as [|d ds IH] using rev_ind; intros Hds; [apply run_nil|].
  apply Forall_app in Hds as [Hds [[Hb Hd] _]%Forall_cons]. rewrite length_app, foldl_app, Nat.add_1_r.
  eapply run_step; [by apply IH|]. cbn [foldl flip]. destruct (foldl _ s ds) as [w p k o].
  destruct d as [data src]. by apply drive.
Qed.

Definition fresh : Sys := mkSystem initial [] 200 [].
Definition first_two : list (list Z * SocketAddr) :=
  [(setup_req smf_a 100, src_a); (establish_req smf_a 1 ue_1 7, src_a)].
Definition next_two : list (list Z * SocketAddr) :=
  [(establish_req smf_a 2 ue_2 8, src_a); (modify_req 1 handover, src_a)].

Lemma fresh_initial : sys_initial fresh.
Proof. by exists 1700000000, 0, (ip 10 0 0 100), (ip 192 168 0 100). Qed.

Lemma initial_server_inv : server_inv (w_srv initial).
Proof. exact (proj1 (initial_inv fresh fresh_initial)). Qed.

Ltac check_datagrams :=
  repeat (apply Forall_cons; split; [split; [check_bytes|vm_compute; reflexivity]|]);
  apply Forall_nil; exact I.

Lemma seids_never_reused_witness :
  let s1 := foldl (flip deliver_one) fresh first_two in
  let s2 := foldl (flip deliver_one) s1 next_two in
  (sd_ue_ip <$> sessions (sys_srv s2) !! 1) = Some ue_1 ∧
  (sd_ue_ip <$> sessions (sys_srv s1) !! 1) = Some ue_1.
Proof.
  intros s1 s2.
  assert ((sd_ue_ip <$> sessions (sys_srv s2) !! 1) = Some ue_1) as E by (vm_compute; reflexivity).
  split; [exact E|]. destruct (sessions (sys_srv s2) !! 1) as [d2|] eqn:Ed; [|discriminate E].
  destruct (seids_never_reused 2 2 fresh s1 s2) as (_ & _ & _ & Hs).
  - exact fresh_initial.
  - apply (driven first_two). check_datagrams.
  - apply (driven next_two). check_datagrams.
  - reflexivity.
  - destruct (Hs 1 d2) as (d1 & Hd1 & _ & Hue); [vm_compute; reflexivity|exact Ed|].
    rewrite Hd1. cbn. rewrite <-Hue. exact E.
Defined.

Lemma deliver_inv ds w :
  Forall (λ d, bytes_ok d.1) ds → server_inv (w_srv w) →
  next_seid (w_srv w) + Z.of_nat (length ds) < 2 ^ 64 - 1 → server_inv (w_srv (deliver ds w)).
Proof.
  revert w. induction ds as [|d ds IH]; intros w Hds Hinv Hlt; [done|].
  apply Forall_cons in Hds as [Hd Hds]. cbn [deliver length] in *.
  pose proof (handle_message_evolves map_to_list 0 map_iter_perm d.1 d.2 w Hd Hinv ltac:(lia))
    as (Hn & _ & Hi). apply IH; [done|done|]. unfold handle. lia.
Qed.

Lemma two_smfs_inv : server_inv (w_srv two_smfs).
Proof.
  unfold two_smfs. apply deliver_inv; [|exact initial_server_inv|vm_compute; reflexivity].
  repeat (apply Forall_cons; split; [check_bytes|]). by apply Forall_nil.
Qed.

(** Two sessions; the second has local SEID 2 and CP SEID 1. *)
Definition answer_to (data : list Z) : list Z := unok (handle (data, src_b) two_smfs).1.

Definition answer_facts (data : list Z) : Prop :=
  validate_response (hdr_msg_type (header_of data)) (hdr_seq_num (header_of data)) (answer_to data)
    = Ok () ∧
  addressed (w_srv two_smfs) (header_of data) (body_of data) (hdr_seid (header_of (answer_to data))).

(** A modification is answered to the CP SEID 1, a deletion to the local SEID 2. *)
Lemma answers_accepted_witness :
  answer_facts (modify_req 2 handover) ∧ hdr_seid (header_of (answer_to (modify_req 2 handover))) = Some 1 ∧
  answer_facts (delete_req 2) ∧ hdr_seid (header_of (answer_to (delete_req 2))) = Some 2 ∧
  sd_cp_seid <$> sessions (w_srv two_smfs) !! 2 = Some 1.
Proof.
  assert (∀ data, bytes_ok data → is_ok (handle (data, src_b) two_smfs).1 = true →
    answer_to data ≠ [] → answer_facts data) as Hall.
  { intros data Hb Hok Hne.
    destruct (answers_accepted map_to_list 0 data src_b two_smfs (handle (data, src_b) two_smfs).2
      (answer_to data) Hb two_smfs_inv (run_ok _ _ Hok) Hne) as (h & body & hr & br & Hd & Hv & Hr & Ha).
    unfold answer_facts, header_of, body_of. rewrite Hd, Hr. split; [exact Hv|exact Ha]. }
  split; [|split; [vm_compute; reflexivity|split; [|split; vm_compute; reflexivity]]].
  - apply Hall; [check_bytes|vm_compute; reflexivity|].
    intros E. apply (f_equal length) in E. vm_compute in E. discriminate E.
  - apply Hall; [check_bytes|vm_compute; reflexivity|].
    intros E. apply (f_equal length) in E. vm_compute in E. discriminate E.
Defined.

Definition command_datagram : list Z :=
  match command_establishment (E:=SimError) sim_config ue_1 with Ok d => d | _ => [] end.

Lemma command_establishes_witness :
  (send_session_establishment (server_exchange map_to_list 0 src_a) sim_config ue_1 associated).1 =
  Ok (1, 1000, ip 192 168 0 100).
Proof.
  rewrite (proj1 (command_establishes map_to_list 0 sim_config ue_1 command_datagram src_a associated
    (handle (command_datagram, src_a) associated).2
    (unok (handle (command_datagram, src_a) associated).1)
    ltac:(repeat split; by vm_compute) ltac:(split; by vm_compute) ltac:(split; by vm_compute)
    ltac:(split; by vm_compute) ltac:(split; by vm_compute) ltac:(vm_compute; reflexivity)
    (run_ok (handle (command_datagram, src_a)) associated ltac:(vm_compute; reflexivity)))).
  vm_compute. reflexivity.
Defined.
