(* ===== verification/Lossy.v ===== *)
(** * The simulator and the server over a network that loses datagrams

    UDP loses, delays, reorders and duplicates; the transport
    ([smf-sim/src/transport.rs]) answers by sending the request again, and the server handles every copy it
    receives as a new request.  Here the two are composed over such a network:
    a schedule says, for each attempt, which copies reach the server, once or
    more often, and which of its answers reach the client, and when.  Requests that are repeated
    without harm are told from those that are not. *)

From S2P Require Import Prelude Types Header Ie Builder Messages Dict Common Server Handlers.
From S2P Require Import HandlersSpec Invariant Mirror SmfSim Scenario System.

Section lossy.
Context {M P A : Type → Type}.
Context `{BpfMapLaws M} `{PerCpuMapLaws P} `{BpfArray A}.
Variable assoc_iter : gmap Z SmfAssociation → list (Z * SmfAssociation).
Hypothesis assoc_iter_perm : ∀ m, assoc_iter m ≡ₚ map_to_list m.
Variables now unix : Z.
Variables src peer : SocketAddr.    (* the client's address, the server's *)

Abbreviation World := (@World M P A).
Implicit Types w : World.

(** ** The network *)

(** The copies of requests that were sent and those that have reached the
    server, how often one reached it again, and every answer the server has
    sent: an answer can arrive late, or twice. *)
Record Net := mkNet {
  net_world : World;
  net_sent : nat;
  net_arrived : nat;
  net_repeated : nat;
  net_answers : list (list Z);
}.

Definition net_handled (n : Net) : nat := net_arrived n + net_repeated n.

(** What happens while the client waits: a copy that was sent reaches the
    server, the network delivers a copy of the request once more, the [i]-th
    answer reaches the client, or something else does. *)
Inductive NetAction :=
| Deliver | Duplicate | Return (i : nat) | Other (buf : list Z) (from : SocketAddr).

Definition answer_of (r : outcome HandlerError (list Z)) : list (list Z) := fst <$> reply r src.

Definition net_action (req : list Z) (a : NetAction) (n : Net) : Net * list RecvEvent :=
  match a with
  | Deliver =>
      if (net_arrived n <? net_sent n)%nat then
        let '(r, w) := handle_message assoc_iter now req src (net_world n) in
        (mkNet w (net_sent n) (S (net_arrived n)) (net_repeated n) (net_answers n ++ answer_of r), [])
      else (n, [])
  | Duplicate =>
      let '(r, w) := handle_message assoc_iter now req src (net_world n) in
      (mkNet w (net_sent n) (net_arrived n) (S (net_repeated n)) (net_answers n ++ answer_of r), [])
  | Return i => (n, match net_answers n !! i with Some rsp => [Received rsp peer] | None => [] end)
  | Other buf from => (n, [Received buf from])
  end.

Fixpoint net_actions (req : list Z) (acts : list NetAction) (n : Net) : Net * list RecvEvent :=
  match acts with
  | [] => (n, [])
  | a :: acts =>
      let '(n, ev) := net_action req a n in
      let '(n, ev') := net_actions req acts n in (n, ev ++ ev')
  end.

(** One attempt: a copy is sent, then the schedule runs until the deadline. *)
Definition net_attempt (req : list Z) (acts : list NetAction) (n : Net) : Net * list RecvEvent :=
  net_actions req acts (mkNet (net_world n) (S (net_sent n)) (net_arrived n) (net_repeated n) (net_answers n)).

(** [send_and_recv], the network taking part. *)
Fixpoint lossy_attempts (req : list Z) (expected : Z) (sched : list (list NetAction))
    (last_err : option SimError) (n : Net) : outcome SimError (list Z) * Net :=
  match sched with
  | [] => (match last_err with Some e => Err e | None => Panic end, n)
  | acts :: sched =>
      let '(n, events) := net_attempt req acts n in
      match (await_response unix expected events).1 with
      | Ok (inl rsp) => (Ok rsp, n)
      | Ok (inr e) => lossy_attempts req expected sched (Some e) n
      | Err e => (Err e, n)
      | Panic => (Panic, n)
      end
  end.

Definition lossy_exchange (max_retries : nat) (sched : nat → list NetAction) (req : list Z)
    : st Net SimError (list Z) := λ n,
  match decode req with
  | Ok (hdr, _) =>
      lossy_attempts req (wrap 8 (hdr_msg_type hdr + 1)) (sched <$> seq 0 (S max_retries)) None n
  | Err e => (Err (SimDecode e), n)
  | Panic => (Panic, n)
  end.

(** ** The client's side is the transport *)

Fixpoint net_after (req : list Z) (sched : list (list NetAction)) (n : Net) : list (list RecvEvent) :=
  match sched with
  | [] => []
  | acts :: sched =>
      let '(n, ev) := net_attempt req acts n in ev :: net_after req sched n
  end.

Lemma lossy_attempts_eq req expected sched last n :
  (lossy_attempts req expected sched last n).1 =
  (attempts unix expected peer req (pair true <$> net_after req sched n) last).1.
Proof.
  revert last n; induction sched as [|acts sched IH]; intros last n; [done|].
  cbn [lossy_attempts net_after]. destruct (net_attempt req acts n) as [n' ev].
  cbn [fmap list_fmap attempts negb].
  destruct (await_response unix expected ev) as [[[rsp|e]|e|] sent]; cbn [fst]; [done| |done|done].
  rewrite IH. by destruct (attempts _ _ _ _ _ (Some e)).
Qed.

(** ** The server's side is a repetition *)

(** [k] copies of a request, one after the other, and what they answer. *)
Fixpoint handlings (req : list Z) (k : nat) w : list (list Z) * World :=
  match k with
  | O => ([], w)
  | S k =>
      let '(rs, w) := handlings req k w in
      let '(r, w) := handle_message assoc_iter now req src w in
      (rs ++ answer_of r, w)
  end.

(** The network [n'] is [n] after [k] further copies were handled. *)
Definition progressed (req : list Z) (n n' : Net) : Prop :=
  ∃ k, net_handled n' = (net_handled n + k)%nat ∧
    net_world n' = (handlings req k (net_world n)).2 ∧
    net_answers n' = net_answers n ++ (handlings req k (net_world n)).1 ∧
    (net_sent n ≤ net_sent n')%nat ∧
    ((net_arrived n ≤ net_sent n)%nat → (net_arrived n' ≤ net_sent n')%nat).

Lemma handlings_plus req k1 k2 w :
  handlings req (k2 + k1) w =
  let '(rs1, w1) := handlings req k1 w in
  let '(rs2, w2) := handlings req k2 w1 in (rs1 ++ rs2, w2).
Proof.
  induction k2 as [|k2 IH]; cbn [Nat.add handlings].
  - destruct (handlings req k1 w) as [rs1 w1]. by rewrite app_nil_r.
  - rewrite IH. destruct (handlings req k1 w) as [rs1 w1]. destruct (handlings req k2 w1) as [rs2 w2].
    destruct (handle_message assoc_iter now req src w2) as [r w3]. by rewrite (assoc_L (++)).
Qed.

#[local] Instance progressed_preorder req : PreOrder (progressed req).
Proof.
  split.
  - intros n. exists 0%nat. cbn. by rewrite app_nil_r, Nat.add_0_r.
  - intros n1 n2 n3 (k & A1 & A2 & A3 & A4 & A5) (l & B1 & B2 & B3 & B4 & B5). exists (l + k)%nat.
    pose proof (handlings_plus req k l (net_world n1)) as E.
    rewrite A2 in B2, B3. destruct (handlings req k (net_world n1)) as [rs1 w1]. cbn [fst snd] in *.
    destruct (handlings req l w1) as [rs2 w2]. cbn [fst snd] in *. rewrite E. cbn [fst snd].
    split_and!; [lia|done| |lia|auto]. by rewrite B3, A3, (assoc_L (++)).
Qed.

Lemma net_action_progress req a n : progressed req n (net_action req a n).1.
Proof.
  unfold net_action.
  destruct (handle_message assoc_iter now req src (net_world n)) as [r w] eqn:E.
  destruct a as [| |i|buf from]; [|exists 1%nat|reflexivity..].
  - destruct (Nat.ltb_spec (net_arrived n) (net_sent n)); [|reflexivity]. exists 1%nat.
    unfold net_handled. cbn [handlings fst snd net_arrived net_repeated net_world net_answers net_sent].
    rewrite E. split_and!; try done; lia.
  - unfold net_handled. cbn [handlings fst snd net_arrived net_repeated net_world net_answers net_sent].
    rewrite E. split_and!; try done; lia.
Qed.

Lemma net_actions_progress req acts n : progressed req n (net_actions req acts n).1.
Proof.
  revert n; induction acts as [|a acts IH]; intros n; [reflexivity|]. cbn [net_actions].
  pose proof (net_action_progress req a n) as Ha. destruct (net_action req a n) as [n1 ev].
  specialize (IH n1). destruct (net_actions req acts n1) as [n2 ev']. etransitivity; [exact Ha|exact IH].
Qed.

Lemma net_attempt_progress req acts n : progressed req n (net_attempt req acts n).1.
Proof.
  etransitivity; [|apply net_actions_progress]. exists 0%nat. unfold net_handled. cbn.
  rewrite app_nil_r. split_and!; try done; lia.
Qed.

(** The repetitions a schedule asks for. *)
Definition duplicates (acts : list NetAction) : nat :=
  length (List.filter (λ a, match a with Duplicate => true | _ => false end) acts).

Lemma net_action_counts req a n :
  net_sent (net_action req a n).1 = net_sent n ∧
  net_repeated (net_action req a n).1 = (net_repeated n + duplicates [a])%nat.
Proof.
  unfold net_action. destruct (handle_message assoc_iter now req src (net_world n)) as [r w].
  destruct a; [destruct (_ <? _)%nat| |..]; cbn; split; done || lia.
Qed.

Lemma net_actions_counts req acts n :
  net_sent (net_actions req acts n).1 = net_sent n ∧
  net_repeated (net_actions req acts n).1 = (net_repeated n + duplicates acts)%nat.
Proof.
  revert n; induction acts as [|a acts IH]; intros n; [by cbn|]. cbn [net_actions].
  pose proof (net_action_counts req a n) as [Ha1 Ha2].
  assert (duplicates (a :: acts) = duplicates [a] + duplicates acts)%nat as ->.
  { unfold duplicates. by rewrite (List.filter_app _ [a] acts), length_app. }
  destruct (net_action req a n) as [n1 ev]. specialize (IH n1) as [Hb1 Hb2].
  destruct (net_actions req acts n1) as [n2 ev']. cbn [fst] in *. split; [congruence|lia].
Qed.

Lemma lossy_attempts_progress req expected sched last n :
  let n' := (lossy_attempts req expected sched last n).2 in
  progressed req n n' ∧ (net_sent n' ≤ net_sent n + length sched)%nat ∧
  (net_repeated n' ≤ net_repeated n + duplicates (concat sched))%nat.
Proof.
  revert last n; induction sched as [|acts sched IH]; intros last n; cbn [lossy_attempts length snd]; cbv zeta;
    [split; [reflexivity|cbn; lia]|].
  pose proof (net_attempt_progress req acts n) as Hp.
  pose proof (net_actions_counts req acts
    (mkNet (net_world n) (S (net_sent n)) (net_arrived n) (net_repeated n) (net_answers n))) as [Hs Hc].
  fold (net_attempt req acts n) in Hs, Hc. cbn [net_sent net_repeated] in Hs, Hc.
  assert (duplicates (concat (acts :: sched)) = duplicates acts + duplicates (concat sched))%nat as ->.
  { unfold duplicates. cbn [concat]. by rewrite List.filter_app, length_app. }
  destruct (net_attempt req acts n) as [n1 ev]. cbn [fst] in Hp, Hs, Hc.
  destruct (await_response unix expected ev) as [[[rsp|e]|e|] sent]; cbn [fst snd];
    [split; [done|lia]| |split; [done|lia]..].
  destruct (IH (Some e) n1) as (IHp & IHs & IHc). split; [by etransitivity|lia].
Qed.

(** Whatever the client receives, the server has sent, or somebody else. *)
Lemma progressed_answers req n n' rsp :
  progressed req n n' → rsp ∈ net_answers n → rsp ∈ net_answers n'.
Proof. intros (k & _ & _ & -> & _) Hr. apply elem_of_app. by left. Qed.

Lemma net_actions_origin req acts n buf from :
  Received buf from ∈ (net_actions req acts n).2 →
  buf ∈ net_answers (net_actions req acts n).1 ∨ Other buf from ∈ acts.
Proof.
  revert n; induction acts as [|a acts IH]; intros n Hin; [by apply not_elem_of_nil in Hin|].
  cbn [net_actions] in *. pose proof (net_actions_progress req acts (net_action req a n).1) as Hp.
  specialize (IH (net_action req a n).1).
  assert (Received buf from ∈ (net_action req a n).2 →
    buf ∈ net_answers (net_action req a n).1 ∨ Other buf from ∈ a :: acts) as Ha.
  { destruct a as [| |i|buf' from']; cbn [net_action].
    - destruct (_ <? _)%nat; [|intros Hx; by apply not_elem_of_nil in Hx].
      destruct (handle_message _ _ _ _ _). intros Hx; by apply not_elem_of_nil in Hx.
    - destruct (handle_message _ _ _ _ _). intros Hx; by apply not_elem_of_nil in Hx.
    - cbn [fst snd]. destruct (net_answers n !! i) eqn:Ei; [|intros Hx; by apply not_elem_of_nil in Hx].
      intros [= -> _]%list_elem_of_singleton. left. by eapply list_elem_of_lookup_2.
    - intros [= -> ->]%list_elem_of_singleton. right. by left. }
  destruct (net_action req a n) as [n1 ev]. cbn [fst snd] in *.
  destruct (net_actions req acts n1) as [n2 ev']. cbn [fst snd] in *.
  apply elem_of_app in Hin as [Hin|Hin].
  - destruct (Ha Hin) as [Hx|Hx]; [left|by right]. by eapply progressed_answers.
  - destruct (IH Hin) as [Hx|Hx]; [by left|right; by right].
Qed.

Lemma answer_origin expected events rsp :
  answer expected events = Some rsp →
  ∃ from, Received rsp from ∈ events ∧ of_type expected (rsp, from) = true.
Proof.
  unfold answer. intros Ha. apply fmap_Some in Ha as ([buf from] & Hf & ->).
  apply List.find_some in Hf as [Hin Ht]. exists from. split; [|done]. cbn [fst].
  apply list_elem_of_In in Hin. clear Ht. induction events as [|[b f|] events IH]; cbn [datagrams] in Hin;
    [by apply not_elem_of_nil in Hin| |by apply not_elem_of_nil in Hin].
  apply elem_of_cons in Hin as [[= -> ->]|Hin]; [by left|]. right. by apply IH.
Qed.

Lemma lossy_attempts_result req expected sched last n :
  sched ≠ [] ∨ (∃ e, last = Some e) →
  match (lossy_attempts req expected sched last n).1 with
  | Ok rsp =>
      (rsp ∈ net_answers (lossy_attempts req expected sched last n).2 ∨
       ∃ acts from, acts ∈ sched ∧ Other rsp from ∈ acts) ∧
      ∃ from, of_type expected (rsp, from) = true
  | Err _ => True
  | Panic => False
  end.
Proof.
  revert last n; induction sched as [|acts sched IH]; intros last n Hl; cbn [lossy_attempts].
  { destruct Hl as [?|[e ->]]; done. }
  pose proof (net_actions_origin req acts
    (mkNet (net_world n) (S (net_sent n)) (net_arrived n) (net_repeated n) (net_answers n))) as Ho.
  fold (net_attempt req acts n) in Ho. destruct (net_attempt req acts n) as [n1 ev].
  rewrite await_response_spec. cbn [fst snd] in *.
  destruct (answer expected ev) as [rsp|] eqn:Ea; cbn [fst snd].
  - apply answer_origin in Ea as (from & Hin & Ht). split; [|by exists from].
    destruct (Ho rsp from Hin) as [Hx|Hx]; [by left|]. right. exists acts, from. split; [left|done].
  - specialize (IH (Some (attempt_error ev)) n1 ltac:(right; by eexists)).
    destruct (lossy_attempts _ _ _ _ n1) as [[rsp|e|] n2]; cbn [fst snd] in *; [|done..].
    destruct IH as [[Hx|(acts' & from & Hx & Hy)] Ht]; (split; [|done]); [by left|].
    right. exists acts', from. split; [by right|done].
Qed.

(** C36. The transport over a network that loses, delays, reorders and
    duplicates datagrams: the client's result is that of the retransmission
    loop on what the network brings it; the server has handled the request some
    [k] times in a row, at most [1 + max_retries] times and once more for each
    duplicate the network makes, whatever the client's result; and a response
    that is returned is one the server sent, now or for an earlier request, or
    a datagram that somebody else sent in an attempt, as the client does not
    look at where it comes from. *)
Theorem lossy_exchange_spec max_retries sched req h body n :
  decode req = Ok (h, body) → net_arrived n = net_sent n →
  let '(r, n') := lossy_exchange max_retries sched req n in
  r = (send_and_recv unix peer max_retries
        (λ i, (true, default [] (net_after req (sched <$> seq 0 (S max_retries)) n !! i))) req).1 ∧
  (∃ k, (k ≤ S max_retries + duplicates (concat (sched <$> seq 0 (S max_retries))))%nat ∧
     net_world n' = (handlings req k (net_world n)).2 ∧
     net_answers n' = net_answers n ++ (handlings req k (net_world n)).1) ∧
  match r with
  | Ok rsp => rsp ∈ net_answers n' ∨ ∃ i from, (i ≤ max_retries)%nat ∧ Other rsp from ∈ sched i
  | Err _ => True
  | Panic => False
  end.
Proof.
  intros Hd Hs. unfold lossy_exchange, send_and_recv. rewrite Hd.
  set (expected := wrap 8 (hdr_msg_type h + 1)). set (sl := sched <$> seq 0 (S max_retries)).
  pose proof (lossy_attempts_eq req expected sl None n) as Hc.
  pose proof (lossy_attempts_progress req expected sl None n)
    as ((k & Hk & Hw & Ha & _ & Hle) & Hsent & Hdup).
  pose proof (lossy_attempts_result req expected sl None n ltac:(by left)) as Hr.
  destruct (lossy_attempts req expected sl None n) as [r n']. cbn [fst snd] in *. split; [|split].
  - rewrite Hc. f_equal. f_equal.
    assert (length (net_after req sl n) = S max_retries) as Hl.
    { assert (length sl = S max_retries) as <- by (unfold sl; by rewrite length_fmap, length_seq).
      clear. revert n; induction sl as [|acts sl IH]; intros n; [done|]. cbn [net_after].
      destruct (net_attempt req acts n) as [n1 ev]. cbn [length]. by rewrite IH. }
    apply list_eq. intros i. rewrite !list_lookup_fmap. destruct (decide (i < S max_retries)%nat).
    + rewrite lookup_seq_lt by done. destruct (lookup_lt_is_Some_2 (net_after req sl n) i) as [x Hx]; [lia|].
      cbn [fmap option_fmap option_map]. rewrite Nat.add_0_l. by rewrite Hx.
    + rewrite lookup_seq_ge, lookup_ge_None_2 by lia. done.
  - exists k. split; [|done]. unfold sl in Hsent. rewrite length_fmap, length_seq in Hsent.
    unfold net_handled in Hk. fold sl. lia.
  - destruct r as [rsp|e|]; [|done..]. destruct Hr as [[Hx|(acts & from & Hx & Hy)] _]; [by left|].
    right. apply list_elem_of_fmap in Hx as (i & -> & Hi). exists i, from. split; [|done].
    apply elem_of_seq in Hi. lia.
Qed.

(** ** A repeated establishment *)

(** The association of the sender after a change of its sessions. *)
Lemma find_assoc_alter s s' k a f :
  server_inv s → sole_peer s k src → find_assoc assoc_iter s src = Some (k, a) →
  associations s' = alter f (as_node_id a) (associations s) →
  (∀ a, as_peer_addr (f a) = as_peer_addr a) →
  find_assoc assoc_iter s' src = Some (k, f a) ∧ sole_peer s' k src ∧ as_node_id a = k.
Proof.
  intros [_ _ Hna] Hsole Hf Es Hp.
  destruct (find_assoc_Some _ assoc_iter_perm _ _ _ _ Hf) as [Hk Hsrc].
  assert (as_node_id a = k) as Ek by by apply Hna. rewrite Ek in Es.
  assert (sole_peer s' k src) as Hsole'.
  { intros k' a' Ha'. rewrite Es in Ha'. destruct (decide (k = k')) as [<-|Hne]; [done|].
    rewrite lookup_alter_ne in Ha' by done. intros Hx. by apply (Hsole k' a'). }
  split; [|done]. destruct (find_assoc assoc_iter s' src) as [[k' a']|] eqn:Ef.
  - apply (find_assoc_Some _ assoc_iter_perm) in Ef as [Ha' Hx]. specialize (Hsole' k' a' Ha' Hx) as ->.
    rewrite Es, lookup_alter_eq, Hk in Ha'. by injection Ha' as <-.
  - exfalso. eapply (find_assoc_None _ assoc_iter_perm s' src k (f a)); [done| |by rewrite Hp].
    by rewrite Es, lookup_alter_eq, Hk.
Qed.

(** Deleting one of two sessions of the same CP SEID takes the other's owner away. *)
Lemma deletion_orphans w h k seid1 seid2 node d1 d2 :
  server_inv (w_srv w) → sole_peer (w_srv w) k src →
  authorise assoc_iter (w_srv w) src seid1 = Ok (node, d1) → hdr_seid h = Some seid1 →
  sessions (w_srv w) !! seid2 = Some d2 → seid2 ≠ seid1 → sd_cp_seid d2 = sd_cp_seid d1 →
  let w' := (handle_session_deletion assoc_iter h src w).2 in
  sessions (w_srv w') !! seid2 = Some d2 ∧
  authorise assoc_iter (w_srv w') src seid2 = Err (ENotOwner (sd_cp_seid d2) src).
Proof.
  intros Hi Hsole Ha Hh Hd2 Hne Ecp w'. unfold w'. rewrite deletion_eq, Hh. cbv zeta. change (default 0 (Some seid1)) with seid1.
  rewrite Ha. cbn [snd w_srv].
  assert (sessions (deleted_srv seid1 node (sd_cp_seid d1) (w_srv w)) !! seid2 = Some d2) as Hs.
  { cbn. by rewrite lookup_delete_ne. }
  split; [exact Hs|]. unfold authorise in *. rewrite Hs.
  destruct (sessions (w_srv w) !! seid1) as [d|]; [|done]. destruct (sa_ip src) as [ip|]; [|done].
  destruct (find_assoc assoc_iter (w_srv w) src) as [[k' a]|] eqn:Ef; [|done].
  destruct (has_key _ _); [|done]. injection Ha as <- ->.
  assert (k' = k) as ->.
  { destruct (find_assoc_Some _ assoc_iter_perm _ _ _ _ Ef) as [Hk Hsrc]. by apply (Hsole k' a). }
  destruct (find_assoc_alter (w_srv w) (deleted_srv seid1 (as_node_id a) (sd_cp_seid d1) (w_srv w)) k a
    (set_as_sessions (delete (sd_cp_seid d1))) Hi Hsole Ef) as (-> & _ & _); [done..|].
  unfold has_key. cbn. rewrite Ecp, bool_decide_eq_false_2; [done|]. rewrite lookup_delete_eq.
  by intros [? ?].
Qed.

Section establishment.
Variables (config : SimConfig) (ue_ip : Z) (data : list Z).
Hypothesis config_ok : wf_config config.
Hypothesis ue_ok : u32 ue_ip.
Hypothesis built : command_establishment (E:=SimError) config ue_ip = Ok data.
Hypothesis data_ok : bytes_ok data.

(** What [k] copies of the command's datagram leave behind. *)
Record established_times (s : PfcpServer) (node : Z) (k : nat) (answers : list (list Z)) w' : Prop := {
  et_inv : server_inv (w_srv w');
  et_sole : sole_peer (w_srv w') node src;
  et_assoc : ∃ a, find_assoc assoc_iter (w_srv w') src = Some (node, a) ∧
    ((0 < k)%nat → has_key (as_sessions a) 1 = true);
  et_next : next_seid (w_srv w') = next_seid s + Z.of_nat k;
  et_teid : next_teid (w_srv w') = next_teid s + Z.of_nat k;
  et_n3 : n3_addr (w_srv w') = n3_addr s;
  et_sessions i : (i < k)%nat → sessions (w_srv w') !! (next_seid s + Z.of_nat i) =
    Some (command_data config ue_ip (next_teid s + Z.of_nat i));
  et_answers i rsp : answers !! i = Some rsp →
    validate_response PFCP_SESSION_ESTABLISHMENT_REQ 2 rsp = Ok () ∧
    extract_session_info rsp =
      Ok (next_seid s + Z.of_nat i, next_teid s + Z.of_nat i, n3_addr s);
  et_map : (0 < k)%nat → (si_seid <$> bpf_get (SESSION_MAP (w_maps w')) (to_be32 ue_ip)) =
    Some (next_seid s + Z.of_nat k - 1);
}.

Lemma length_answers req k w : (length (handlings req k w).1 ≤ k)%nat.
Proof.
  induction k as [|k IH]; [done|]. cbn [handlings]. destruct (handlings req k w) as [rs w1].
  destruct (handle_message _ _ _ _ w1) as [r w2]. cbn [fst] in *. rewrite length_app.
  destruct r as [[|b rsp]| |]; cbn; lia.
Qed.

Lemma handlings_establish k w node a :
  server_inv (w_srv w) → sole_peer (w_srv w) node src →
  find_assoc assoc_iter (w_srv w) src = Some (node, a) → u32 (n3_addr (w_srv w)) →
  next_seid (w_srv w) + Z.of_nat k < 2 ^ 48 → 0 < next_teid (w_srv w) →
  next_teid (w_srv w) + Z.of_nat k < 2 ^ 32 →
  length (handlings data k w).1 = k →
  established_times (w_srv w) node k (handlings data k w).1 (handlings data k w).2.
Proof.
  intros Hi Hsole Hf Hn3 Hns Ht0 Hnt. induction k as [|k IH]; intros Hl.
  { cbn [handlings fst snd]. split; try done; [|lia|lia|lia|lia]. exists a. split; [done|lia]. }
  cbn [handlings] in *. pose proof (length_answers data k w) as Hlk.
  destruct (handlings data k w) as [rs w1].
  destruct (handle_message assoc_iter now data src w1) as [r w2] eqn:Er. cbn [fst snd] in *.
  rewrite length_app in Hl.
  assert (∃ rsp, r = Ok rsp ∧ answer_of r = [rsp] ∧ length rs = k) as (rsp & -> & Ers & Hk).
  { destruct r as [[|b rsp]| |]; cbn in Hl; try lia. eexists. split; [done|]. split; [done|lia]. }
  destruct (IH ltac:(lia) ltac:(lia) Hk) as [I1 I2 (a1 & I3 & _) I4 I5 I6 I7 I8 I9].
  destruct (command_handled assoc_iter now config ue_ip data src w1 w2 rsp) as
    (Hv & Hx & (k' & a' & urrs & Hf' & Es) & Hm & _); try done.
  { by rewrite I6. } { destruct Hi. rewrite I4. lia. } { rewrite I5. lia. }
  rewrite I3 in Hf'. injection Hf' as <- <-. rewrite I4, I5, I6 in *.
  assert (server_inv (w_srv w2)) as Hi2.
  { pose proof (handle_message_evolves assoc_iter now assoc_iter_perm data src w1 data_ok I1
      ltac:(lia)) as (_ & _ & He). by rewrite Er in He. }
  set (d := command_data config ue_ip (next_teid (w_srv w) + Z.of_nat k)) in *.
  destruct (find_assoc_alter (w_srv w1) (w_srv w2) node a1 (set_as_sessions (insert 1 d)) I1 I2 I3)
    as (Ef2 & Hsole2 & _); [by rewrite Es|done|].
  assert (next_seid (w_srv w2) = next_seid (w_srv w) + Z.of_nat (S k) ∧
    next_teid (w_srv w2) = next_teid (w_srv w) + Z.of_nat (S k)) as [En Et].
  { rewrite Es. cbn [established_srv next_seid next_teid set_associations set_sessions set_urr_configs
      set_counters]. rewrite I4, I5. destruct Hi. unfold wrap. rewrite !Z.mod_small by lia. lia. }
  split.
  - done.
  - done.
  - eexists. split; [done|]. intros _. unfold has_key. cbn. rewrite lookup_insert_eq.
    by apply bool_decide_eq_true_2.
  - done.
  - done.
  - by rewrite Es.
  - intros i Hik. rewrite Es. cbn. rewrite I4. destruct (decide (i = k)) as [->|Hne].
    + by rewrite lookup_insert_eq.
    + rewrite lookup_insert_ne by lia. apply I7. lia.
  - intros i rsp'. rewrite Ers, lookup_app_Some. intros [Hir|[Hge Hir]]; [by apply I8|].
    apply list_lookup_singleton_Some in Hir as [Ei <-]. replace i with k by lia. done.
  - intros _. rewrite Hm. f_equal. lia.
Qed.

Lemma command_decodes :
  ∃ h body, decode data = Ok (h, body) ∧ hdr_msg_type h = PFCP_SESSION_ESTABLISHMENT_REQ.
Proof.
  pose proof built as Hd. unfold command_establishment in Hd.
  rewrite session_establishment_msg_body in Hd.
  destruct (decode_finish (E:=SimError) (new_session_msg PFCP_SESSION_ESTABLISHMENT_REQ 0 2)
    (ies_bytes (establishment_ies (smf_n4_addr config) 1 (command_pdrs ue_ip)
      (command_fars (gnb_teid_start config) (gnb_addr config))
      (command_urrs (Some 10000) (Some 30))))) as (msg & Hm & _ & Hdec).
  { apply wf_session_msg; [by vm_compute|by uint|done]. }
  rewrite Hm in Hd. injection Hd as <-. by eexists _, _.
Qed.

(** [k] copies of the establishment: as many sessions as copies, the client's
    result, and what becomes of the copies when one of them is deleted. *)
Record copies (s : PfcpServer) (k : nat) (r : outcome SimError (Z * Z * Z)) w' : Prop := {
  cp_result : match r with
    | Ok info => ∃ i, (i < k)%nat ∧
        info = (next_seid s + Z.of_nat i, next_teid s + Z.of_nat i, n3_addr s)
    | Err _ => True
    | Panic => False
    end;
  cp_sessions i : (i < k)%nat → sessions (w_srv w') !! (next_seid s + Z.of_nat i) =
    Some (command_data config ue_ip (next_teid s + Z.of_nat i));
  cp_served : (0 < k)%nat → (si_seid <$> bpf_get (SESSION_MAP (w_maps w')) (to_be32 ue_ip)) =
    Some (next_seid s + Z.of_nat k - 1);
  cp_orphans i j h : (i < k)%nat → (j < k)%nat → i ≠ j →
    hdr_seid h = Some (next_seid s + Z.of_nat i) →
    let w'' := (handle_session_deletion assoc_iter h src w').2 in
    is_Some (sessions (w_srv w'') !! (next_seid s + Z.of_nat j)) ∧
    authorise assoc_iter (w_srv w'') src (next_seid s + Z.of_nat j) = Err (ENotOwner 1 src);
}.

Lemma established_copies s node k answers r w' ip :
  established_times s node k answers w' → sa_ip src = V4 ip →
  match r with
  | Ok info => ∃ i, (i < k)%nat ∧
      info = (next_seid s + Z.of_nat i, next_teid s + Z.of_nat i, n3_addr s)
  | Err _ => True
  | Panic => False
  end → copies s k r w'.
Proof.
  intros [E1 E2 (a & E3 & E3k) E4 E5 E6 E7 E8 E9] Hip Hr. split; [exact Hr|exact E7|exact E9|].
  intros i j h Hik Hjk Hij Hh.
  destruct (deletion_orphans w' h node (next_seid s + Z.of_nat i) (next_seid s + Z.of_nat j)
    (as_node_id a) (command_data config ue_ip (next_teid s + Z.of_nat i))
    (command_data config ue_ip (next_teid s + Z.of_nat j)) E1 E2) as [Ho1 Ho2].
  - unfold authorise. rewrite (E7 i Hik), Hip, E3.
    cbn [sd_cp_seid command_data]. rewrite E3k by lia. reflexivity.
  - done.
  - exact (E7 j Hjk).
  - lia.
  - done.
  - split; [by rewrite Ho1|exact Ho2].
Qed.

(** What the client makes of an answer to one of the copies. *)
Lemma copies_result s node k answers w' ip rsp i :
  established_times s node k answers w' → sa_ip src = V4 ip → answers !! i = Some rsp → (i < k)%nat →
  ∃ info, validate_response PFCP_SESSION_ESTABLISHMENT_REQ 2 rsp = Ok () ∧
    extract_session_info rsp = Ok info ∧ copies s k (Ok info) w'.
Proof.
  intros He Hip Hi Hik. destruct (et_answers _ _ _ _ _ He i rsp Hi) as [Hv Hx].
  eexists. split; [exact Hv|]. split; [exact Hx|]. eapply established_copies; [done..|]. by exists i.
Qed.

(** C5. A retransmitted establishment: over a network that loses, delays,
    reorders and duplicates datagrams (other parties sending nothing that looks
    like a response), the request is handled [k] times, at most [1 +
    max_retries] and once more for each duplicate; and if every copy that
    arrived was answered, the simulator's command ends with an error or with
    the SEID, TEID and N3 address of a session that exists.  But every copy has
    made a session of its own: the [k] copies leave [k] sessions of the same UE
    and the same CP SEID, the UE is served by the last of them whichever the
    client was told of, and in the state right after the client's deletion of
    one of them the server keeps all the others, and refuses the client's
    deletion of any of them with [ENotOwner]. *)
Theorem establishment_over_lossy_network max_retries sched n node a ip :
  server_inv (w_srv (net_world n)) → sole_peer (w_srv (net_world n)) node src →
  find_assoc assoc_iter (w_srv (net_world n)) src = Some (node, a) → sa_ip src = V4 ip →
  u32 (n3_addr (w_srv (net_world n))) →
  let most := (S max_retries + duplicates (concat (sched <$> seq 0 (S max_retries))))%nat in
  next_seid (w_srv (net_world n)) + Z.of_nat most < 2 ^ 48 →
  0 < next_teid (w_srv (net_world n)) →
  next_teid (w_srv (net_world n)) + Z.of_nat most < 2 ^ 32 →
  net_answers n = [] → net_arrived n = net_sent n →
  (∀ i buf from, Other buf from ∈ sched i →
     of_type PFCP_SESSION_ESTABLISHMENT_RSP (buf, from) = false) →
  let '(r, n') := send_session_establishment (lossy_exchange max_retries sched) config ue_ip n in
  let k := (net_handled n' - net_handled n)%nat in
  (k ≤ most)%nat ∧
  (length (net_answers n') = k → copies (w_srv (net_world n)) k r (net_world n')).
Proof.
  intros Hi Hsole Hf Hip Hn3 most Hns Ht0 Hnt Hna Hhs Hnoise. set (s := w_srv (net_world n)).
  unfold send_session_establishment. rewrite built, st_bind_eq. cbn [lift]. rewrite st_bind_eq.
  destruct command_decodes as (h & body & Hdec & Hty). unfold lossy_exchange. rewrite Hdec, Hty.
  change (wrap 8 (PFCP_SESSION_ESTABLISHMENT_REQ + 1)) with PFCP_SESSION_ESTABLISHMENT_RSP.
  set (sl := sched <$> seq 0 (S max_retries)).
  pose proof (lossy_attempts_progress data PFCP_SESSION_ESTABLISHMENT_RSP sl None n)
    as ((k & Hk & Hw & Ha & _ & Hle) & Hsent & Hdup).
  pose proof (lossy_attempts_result data PFCP_SESSION_ESTABLISHMENT_RSP sl None n ltac:(by left)) as Hr.
  destruct (lossy_attempts data PFCP_SESSION_ESTABLISHMENT_RSP sl None n) as [r n']. cbn [fst snd] in *.
  assert (k ≤ most)%nat as Hkm.
  { unfold sl in Hsent. rewrite length_fmap, length_seq in Hsent. fold sl in Hsent.
    unfold net_handled in Hk. unfold most. fold sl. lia. }
  assert (length (net_answers n') = k →
    established_times s node k (net_answers n') (net_world n')) as Het.
  { rewrite Hna in Ha. cbn [app] in Ha. rewrite Ha, Hw. intros Hl.
    apply (handlings_establish k (net_world n) node a); try done; lia. }
  assert ((net_handled n' - net_handled n)%nat = k) as Ek by lia.
  destruct r as [rsp|e|]; [| |done].
  - assert (∃ i, net_answers n' !! i = Some rsp) as [i Hi'].
    { apply list_elem_of_lookup. destruct Hr as [[Hin|(acts & from & Hacts & Hoth)] [from' Ht]]; [done|].
      apply list_elem_of_fmap in Hacts as (i & -> & _). apply Hnoise in Hoth.
      unfold of_type in *. cbn [fst] in *. by rewrite Hoth in Ht. }
    rewrite st_bind_eq. cbn [lift].
    assert (length (net_answers n') = k → ∃ info,
      validate_response PFCP_SESSION_ESTABLISHMENT_REQ 2 rsp = Ok () ∧
      extract_session_info rsp = Ok info ∧ copies s k (Ok info) (net_world n')) as Hres.
    { intros Hl. eapply copies_result; [by apply Het|done|exact Hi'|].
      apply lookup_lt_Some in Hi'. lia. }
    destruct (validate_response PFCP_SESSION_ESTABLISHMENT_REQ 2 rsp) as [[]|e|];
      cbn [lift]; unfold lift; cbv beta iota zeta; rewrite Ek; (split; [done|]); intros Hl;
      destruct (Hres Hl) as (info & Hv & Hx & Hc); [|discriminate Hv..].
    rewrite Hx. exact Hc.
  - cbv zeta. rewrite Ek. split; [done|]. intros Hl. by eapply established_copies; [apply Het| |].
Qed.
End establishment.

(** ** A repeated deletion

    Harmless for the server, whatever the first copy met; but the copies after
    the first are not answered, so that a client which misses the first answer
    takes the deletion for failed. *)
Lemma deletion_idempotent h w :
  let w' := (handle_session_deletion assoc_iter h src w).2 in
  (handle_session_deletion assoc_iter h src w').2 = w' ∧
  ¬ (∃ rsp, (handle_session_deletion assoc_iter h src w').1 = Ok rsp).
Proof.
  intros w'. unfold w'. rewrite (deletion_eq assoc_iter h src w). cbv zeta.
  destruct (authorise assoc_iter (w_srv w) src _) as [[node d]|e|] eqn:Ea; cbn [snd].
  - rewrite deletion_eq. cbv zeta. cbn [w_srv].
    assert (authorise assoc_iter (deleted_srv (default 0 (hdr_seid h)) node (sd_cp_seid d) (w_srv w)) src
      (default 0 (hdr_seid h)) = Err (EUnknownSeid (default 0 (hdr_seid h)))) as ->.
    { unfold authorise. cbn. by rewrite lookup_delete_eq. }
    split; [done|]. by intros [rsp ?].
  - rewrite deletion_eq. cbv zeta. rewrite Ea. split; [done|]. by intros [rsp ?].
  - rewrite deletion_eq. cbv zeta. rewrite Ea. split; [done|]. by intros [rsp ?].
Qed.

Theorem deletion_repeated req h body k w :
  decode req = Ok (h, body) → hdr_msg_type h = PFCP_SESSION_DELETION_REQ →
  (handlings req (S k) w).2 = (handlings req 1 w).2 ∧
  (handlings req (S k) w).1 = (handlings req 1 w).1.
Proof.
  intros Hd Ht.
  assert (∀ w, handle_message assoc_iter now req src w = handle_session_deletion assoc_iter h src w) as Hm.
  { intros w1. unfold handle_message, decode_header. rewrite Hd, st_bind_eq. cbn [map_err lift]. cbv zeta.
    by rewrite Ht. }
  induction k as [|k [IH1 IH2]]; [done|]. change (handlings req (S (S k)) w) with
    (let '(rs, w) := handlings req (S k) w in
     let '(r, w) := handle_message assoc_iter now req src w in (rs ++ answer_of r, w)).
  rewrite (surjective_pairing (handlings req (S k) w)), IH1, IH2, Hm.
  cbn [handlings fst snd]. rewrite Hm. destruct (deletion_idempotent h w) as [E1 E2].
  destruct (handle_session_deletion assoc_iter h src w) as [r1 w1]. cbn [fst snd] in *.
  destruct (handle_session_deletion assoc_iter h src w1) as [r2 w2]. cbn [fst snd] in *.
  split; [done|]. destruct r2 as [rsp|e|]; [by destruct E2; exists rsp| |]; cbn; by rewrite app_nil_r.
Qed.
End lossy.

(** ** Witnesses *)

(** The first answer is lost; the network delivers the second copy twice, and
    the answer to its first arrival reaches the client. *)
Definition one_lost (i : nat) : list NetAction :=
  match i with O => [Deliver] | _ => [Deliver; Duplicate; Return 1] end.

Definition quiet : @Net bounded_map percpu_map array_map := mkNet associated 0 0 0 [].
Definition server_addr : SocketAddr := mkSocketAddr (V4 (ip 10 0 0 100)) 8805.

Definition lossy_command : outcome SimError (Z * Z * Z) * @Net bounded_map percpu_map array_map :=
  send_session_establishment (lossy_exchange map_to_list 0 0 src_a server_addr 1 one_lost)
    sim_config ue_1 quiet.

Lemma lossy_exchange_spec_witness :
  ∃ k, (k ≤ 3)%nat ∧ net_world (lossy_exchange map_to_list 0 0 src_a server_addr 1 one_lost
      command_datagram quiet).2 = (handlings map_to_list 0 src_a command_datagram k associated).2.
Proof.
  destruct (decode command_datagram) as [[h body]|e|] eqn:Ed;
    [|exfalso; vm_compute in Ed; discriminate Ed|exfalso; vm_compute in Ed; discriminate Ed].
  pose proof (lossy_exchange_spec map_to_list 0 0 src_a server_addr 1 one_lost command_datagram h body
    quiet Ed eq_refl) as Hs.
  destruct (lossy_exchange _ _ _ _ _ _ _ _ _) as [r n']. destruct Hs as (_ & (k & Hk & Hw & _) & _).
  exists k. split; [exact Hk|exact Hw].
Defined.

(** The client is told of the second of three sessions; after its deletion the
    first one is left over, as is the third, which serves the UE. *)
Lemma establishment_over_lossy_network_witness :
  lossy_command.1 = Ok (2, 1001, ip 192 168 0 100) ∧
  (si_seid <$> bpf_get (SESSION_MAP (w_maps (net_world lossy_command.2))) (to_be32 ue_1)) = Some 3 ∧
  sessions (w_srv (net_world lossy_command.2)) !! 1 = Some (command_data sim_config ue_1 1000) ∧
  authorise map_to_list (w_srv (handle_session_deletion map_to_list
    (new_session_msg PFCP_SESSION_DELETION_REQ 2 9) src_a (net_world lossy_command.2)).2) src_a 1 =
    Err (ENotOwner 1 src_a).
Proof.
  destruct (find_assoc map_to_list (w_srv associated) src_a) as [[node a]|] eqn:Ef;
    [|exfalso; vm_compute in Ef; discriminate Ef].
  assert (server_inv (w_srv associated)) as Hi.
  { pose proof (handle_message_evolves map_to_list 0 map_iter_perm (setup_req smf_a 100) src_a initial
      ltac:(check_bytes) initial_server_inv ltac:(vm_compute; reflexivity)) as (_ & _ & He). exact He. }
  assert (sole_peer (w_srv associated) node src_a) as Hsole.
  { vm_compute in Ef. injection Ef as <- <-. intros k' a' Hk _.
    assert (map_Forall (λ k'' _, k'' = smf_a) (associations (w_srv associated))) as Hall by decide_closed.
    exact (Hall k' a' Hk). }
  assert (command_establishment (E:=SimError) sim_config ue_1 = Ok command_datagram) as Hb by crunch.
  pose proof (establishment_over_lossy_network map_to_list map_iter_perm 0 0 src_a server_addr sim_config
    ue_1 command_datagram ltac:(repeat split; by vm_compute) ltac:(split; by vm_compute) Hb
    ltac:(check_bytes) 1 one_lost quiet node a smf_a Hi Hsole Ef eq_refl ltac:(split; by vm_compute)
    ltac:(vm_compute; reflexivity) ltac:(vm_compute; reflexivity) ltac:(vm_compute; reflexivity)
    eq_refl eq_refl) as Ht.
  change (send_session_establishment _ sim_config ue_1 quiet) with lossy_command in Ht.
  rewrite (surjective_pairing lossy_command) in Ht.
  destruct Ht as [_ Hc].
  { intros i buf from Hin. apply list_elem_of_In in Hin. exfalso.
    destruct i as [|i]; cbn [one_lost In] in Hin; intuition discriminate. }
  assert ((net_handled lossy_command.2 - net_handled quiet)%nat = 3%nat) as Ek by crunch.
  rewrite Ek in Hc. destruct (Hc ltac:(crunch)) as [_ Hs Hm Ho].
  split; [crunch|]. split; [|split].
  - exact (Hm ltac:(apply Nat.ltb_lt; reflexivity)).
  - exact (Hs 0%nat ltac:(apply Nat.ltb_lt; reflexivity)).
  - exact (proj2 (Ho 1%nat 0%nat (new_session_msg PFCP_SESSION_DELETION_REQ 2 9)
      ltac:(apply Nat.ltb_lt; reflexivity) ltac:(apply Nat.ltb_lt; reflexivity) ltac:(discriminate)
      ltac:(vm_compute; reflexivity))).
Defined.
