(* ===== verification/SimMain.v ===== *)
(** * The simulator's command line ([smf-sim/src/main.rs], [config.rs])

    The configuration file with its defaults, the command line, [main] up to
    the terminal's own loop ([SimTui.v]), and the wait for Session Report
    Requests after an establishment.  Parsing of the arguments (clap) and of
    TOML, the file system and the sockets are parameters. *)

From S2P Require Import Prelude Text Types Header Ie Builder Messages Dict Common Server Handlers SmfSim Scenario System.

(** ** Configuration ([config.rs]) *)

Record NetworkConfig := mkNetwork {
  nc_smf_n4_addr : Z; nc_smf_n4_port : Z;
  nc_upf_n4_addr : Z; nc_upf_n4_port : Z;
  nc_gnb_addr : Z; nc_gnb_gtpu_port : Z;
}.

Record SessionConfig := mkSession {
  sc_ue_ip_pool_start : Z; sc_ue_ip_pool_end : Z;
  sc_gnb_teid_start : Z; sc_max_sessions : Z;
}.

Record TimingConfig := mkTiming {
  tc_heartbeat_interval_sec : Z; tc_response_timeout_ms : Z; tc_max_retries : Z;
}.

Record FileConfig := mkFileConfig {
  network : NetworkConfig; session : SessionConfig; timing : TimingConfig;
}.

Definition default_pfcp_port : Z := 8805.
Definition default_gtpu_port : Z := 2152.
Definition default_gnb_teid_start : Z := 2147483649.
Definition default_max_sessions : Z := 100.
Definition default_heartbeat_interval : Z := 15.
Definition default_response_timeout : Z := 5000.
Definition default_max_retries : Z := 3.

(** What the file says: a key without a default is always there, or reading
    the file fails; the others may be missing. *)
Record SimDoc := mkSimDoc {
  sd_smf_n4_addr : Z; sd_smf_n4_port : Z; sd_upf_n4_addr : Z; sd_upf_n4_port : option Z;
  sd_gnb_addr : Z; sd_gnb_gtpu_port : option Z;
  sd_ue_ip_pool_start : Z; sd_ue_ip_pool_end : Z;
  sd_gnb_teid_start : option Z; sd_max_sessions : option Z;
  sd_heartbeat_interval_sec : option Z; sd_response_timeout_ms : option Z;
  sd_max_retries : option Z;
}.

Definition config_of_doc (d : SimDoc) : FileConfig := {|
  network := {|
    nc_smf_n4_addr := sd_smf_n4_addr d; nc_smf_n4_port := sd_smf_n4_port d;
    nc_upf_n4_addr := sd_upf_n4_addr d;
    nc_upf_n4_port := default default_pfcp_port (sd_upf_n4_port d);
    nc_gnb_addr := sd_gnb_addr d;
    nc_gnb_gtpu_port := default default_gtpu_port (sd_gnb_gtpu_port d) |};
  session := {|
    sc_ue_ip_pool_start := sd_ue_ip_pool_start d; sc_ue_ip_pool_end := sd_ue_ip_pool_end d;
    sc_gnb_teid_start := default default_gnb_teid_start (sd_gnb_teid_start d);
    sc_max_sessions := default default_max_sessions (sd_max_sessions d) |};
  timing := {|
    tc_heartbeat_interval_sec := default default_heartbeat_interval (sd_heartbeat_interval_sec d);
    tc_response_timeout_ms := default default_response_timeout (sd_response_timeout_ms d);
    tc_max_retries := default default_max_retries (sd_max_retries d) |};
|}.

(** The fields the commands read, as [SmfSim.v] has them. *)
Definition sim_view (c : FileConfig) : SimConfig :=
  mkSimConfig (nc_smf_n4_addr (network c)) (nc_gnb_addr (network c))
    (sc_gnb_teid_start (session c)) (tc_heartbeat_interval_sec (timing c)).

(** ** The wait for Session Report Requests ([wait_and_handle_reports])

    What the socket yields: when, how long handling it takes, and whether the
    response could be sent. *)
Record Arrival := mkArrival {
  arr_at : Z; arr_event : RecvEvent; arr_takes : Z; arr_sent : bool;
}.

Definition Reports : Type := list (Z * list UsageSeen) * list (list Z * SocketAddr).

(** The loop from the clock [now]: its result, what it logs and sends, and the
    clock at its end.  The socket's buffer has 2048 octets. *)
Fixpoint wait_loop (deadline now : Z) (arrivals : list Arrival)
    : outcome SimError unit * Reports * Z :=
  let remaining := Z.max 0 (deadline - now) in
  if remaining =? 0 then (Ok (), ([], []), now) else
  match arrivals with
  | [] => (Ok (), ([], []), deadline)
  | a :: arrivals =>
      if deadline <=? arr_at a then (Ok (), ([], []), deadline) else
      let now := Z.max now (arr_at a) + arr_takes a in
      match arr_event a with
      | RecvFailed => (Err RecvError, ([], []), now)
      | Received buf src =>
          match handle_report (take 2048 buf) with
          | Ok (Some (seid, usages, rsp)) =>
              if arr_sent a then
                let '(r, (seen, sent), t) := wait_loop deadline now arrivals in
                (r, ((seid, usages) :: seen, (rsp, src) :: sent), t)
              else (Err SendError, ([(seid, usages)], []), now)
          | Ok None => wait_loop deadline now arrivals
          | Err e => (Err e, ([], []), now)
          | Panic => (Panic, ([], []), now)
          end
      end
  end.

(** An [Instant] is in nanoseconds; adding a duration that takes its seconds
    out of an [i64] panics. *)
Definition wait_and_handle_reports (start seconds : Z) (arrivals : list Arrival)
    : outcome SimError unit * Reports * Z :=
  if start / 1000000000 + seconds <? 2 ^ 63
  then wait_loop (start + seconds * 1000000000) start arrivals
  else (Panic, ([], []), start).

(** ** The Recovery Time Stamp ([recovery_ts])

    The static [OnceLock] and what a call returns: the first call fixes it. *)
Definition recovery_ts_once (unix : Z) (cell : option Z) : Z * option Z :=
  match cell with
  | Some ts => (ts, cell)
  | None => let ts := wrapping_add32 (wrap 32 unix) 2208988800 in (ts, Some ts)
  end.

(** Every later call, at any time, returns what the first one did. *)
Lemma recovery_ts_fixed unix unix' cell :
  recovery_ts_once unix' (recovery_ts_once unix cell).2 = recovery_ts_once unix cell.
Proof. by destruct cell. Qed.

(** ** The command line *)

Inductive SingleMessage :=
| HeartBeat
| AssociationSetup
| SessionEstablish (ue_ip wait : Z)
| SessionDelete (seid : Z)
| SessionModify (seid : Z) (volth period : option Z).

Inductive Commands :=
| Run (scenario num_ues : Z)
| Send (message : SingleMessage)
| Interactive.

Record Cli := mkCli { cli_config : str; cli_log_level : str; cli_command : Commands }.

(** How [main] ends when no error leaves it: at its end, or in the loop of the
    terminal, entered with this state. *)
Inductive Finish := Finished | InTerminal (config : FileConfig) (state : SimState).

Section main.
Context {N : Type}.
(** [tokio::fs::read_to_string], [toml::from_str] of a [SimConfig],
    [PfcpTransport::new] and [send_and_recv] on the transport it made. *)
Variable read_to_string : str → option str.
Variable from_str : str → option SimDoc.
Variable transport_new : SocketAddr → SocketAddr → Z → Z → st N SimError unit.
Variable exchange : list Z → st N SimError (list Z).
(** What happens while the scenario sleeps, and [tokio::spawn] of
    [keepalive::run] ([Concurrent.v]). *)
Variable elapse : Z → st N SimError unit.
Variable spawn_keepalive : FileConfig → st N SimError unit.
(** What the socket will yield to the wait for reports, from now on. *)
Variable listen : N → list Arrival * N.
(** The clocks: what [recovery_ts()] returns ([recovery_ts_once]), the UNIX time of [SimState::new], an
    [Instant]. *)
Variables recovery_ts unix now : Z.

(** The wait after an establishment: its error is dropped. *)
Definition after_establishment (wait : Z) : st N SimError unit := λ n,
  if 0 <? wait then
    let '(arrivals, n) := listen n in
    match (wait_and_handle_reports now wait arrivals).1.1 with
    | Panic => (Panic, n)
    | _ => (Ok (), n)
    end
  else (Ok (), n).

Definition send_command (config : FileConfig) (message : SingleMessage) : st N SimError unit :=
  match message with
  | HeartBeat => send_heartbeat exchange recovery_ts
  | AssociationSetup =>
      send_association_setup exchange recovery_ts (nc_smf_n4_addr (network config))
  | SessionEstablish ue_ip wait =>
      send_session_establishment exchange (sim_view config) ue_ip;;
      after_establishment wait
  | SessionModify seid volth period => send_session_modification exchange seid volth period
  | SessionDelete seid => send_session_deletion exchange seid
  end.

Definition initial_state (config : FileConfig) : SimState :=
  SimState_new unix (sc_ue_ip_pool_start (session config)) (sc_ue_ip_pool_end (session config))
    (sc_gnb_teid_start (session config)).

(** The scenario, on a state of its own; [fuel] bounds the association tries. *)
Definition run_scenario (fuel : nat) (config : FileConfig) (scenario : Z) : st N SimError unit := λ n,
  if scenario =? 1 then
    let '(r, run) := basic_lifecycle exchange elapse recovery_ts fuel now (sim_view config)
      (mkRun n (initial_state config) []) in (r, run_net run)
  else (Err (ScenarioError "not implemented yet"), n).

Definition read_config (path : str) : outcome SimError FileConfig :=
  content ← ok_or (read_to_string path) (ScenarioError "read");
  config_of_doc <$> ok_or (from_str content) (ScenarioError "toml").

Definition main (fuel : nat) (cli : Cli) : st N SimError Finish :=
  config ← lift (read_config (cli_config cli));
  transport_new
    (mkSocketAddr (V4 (nc_smf_n4_addr (network config))) (nc_smf_n4_port (network config)))
    (mkSocketAddr (V4 (nc_upf_n4_addr (network config))) (nc_upf_n4_port (network config)))
    (tc_response_timeout_ms (timing config)) (tc_max_retries (timing config));;
  match cli_command cli with
  | Send message => send_command config message;; mret Finished
  | Run scenario _ =>
      spawn_keepalive config;; run_scenario fuel config scenario;; mret Finished
  | Interactive => spawn_keepalive config;; mret (InTerminal config (initial_state config))
  end.
End main.

(** ** Reading a report cannot go wrong *)

Lemma usage_step_total acc ie : ∃ acc', usage_step acc ie = Ok acc'.
Proof.
  unfold usage_step. set (v := ie_value ie).
  destruct ((ie_type ie =? PFCP_IE_URR_ID) && (4 <=? length v)%nat) eqn:E1.
  { apply andb_prop in E1 as [_ Hl%Nat.leb_le].
    rewrite be_at_Ok by lia. simpl_outcome. by eexists. }
  destruct ((ie_type ie =? PFCP_IE_USAGE_REPORT_TRIGGER) && (2 <=? length v)%nat) eqn:E2.
  { apply andb_prop in E2 as [_ Hl%Nat.leb_le].
    rewrite idx_total by lia. simpl_outcome. by eexists. }
  destruct ((ie_type ie =? PFCP_IE_VOLUME_MEASUREMENT) && (25 <=? length v)%nat) eqn:E3; [|by eexists].
  apply andb_prop in E3 as [_ Hl%Nat.leb_le].
  rewrite !be_at_Ok by lia. simpl_outcome. by eexists.
Qed.

Lemma usage_of_total ie : ∃ u, usage_of ie = Ok u.
Proof.
  unfold usage_of. generalize (mkUsageSeen 0 0 0 0 0), (iter_ies (ie_value ie)). intros acc ies.
  revert acc; induction ies as [|i ies IH]; intros acc; [by eexists|]. cbn [foldM].
  destruct (usage_step_total acc i) as [acc' ->]. rewrite bind_Ok. apply IH.
Qed.

Lemma usages_total ies : ∃ us, mapM usage_of ies = Ok us.
Proof.
  induction ies as [|ie ies [us IH]]; [by eexists|]. cbn [mapM].
  destruct (usage_of_total ie) as [u ->]. rewrite IH. simpl_outcome. by eexists.
Qed.

Lemma handle_report_total data : ∃ o, handle_report data = Ok o.
Proof.
  unfold handle_report. pose proof (decode_not_panic data) as Hp.
  destruct (decode data) as [[h body]|e|]; [|by eexists|done].
  destruct (hdr_msg_type h =? PFCP_SESSION_REPORT_REQ); [|by eexists].
  destruct (usages_total (filter_ies PFCP_IE_USAGE_REPORT_IN_SESS_RPT_REQ (iter_ies body))) as [us ->].
  unfold build_session_report_response, add_cause. cbv zeta.
  rewrite msg_new_body, add_ie_body, finish_encode. simpl_outcome. by eexists.
Qed.

(** ** The wait *)

(** What one arrival makes the loop log and send. *)
Definition report_of (a : Arrival) : option ((Z * list UsageSeen) * (list Z * SocketAddr)) :=
  match arr_event a with
  | Received buf src =>
      match handle_report (take 2048 buf) with
      | Ok (Some (seid, usages, rsp)) => Some ((seid, usages), (rsp, src))
      | _ => None
      end
  | RecvFailed => None
  end.

(** The clock after an arrival has been handled. *)
Definition clock_after (now : Z) (a : Arrival) : Z := Z.max now (arr_at a) + arr_takes a.

(** The arrivals the loop takes up before its deadline. *)
Fixpoint in_time (deadline now : Z) (arrivals : list Arrival) : list Arrival :=
  match arrivals with
  | a :: arrivals =>
      if (now <? deadline) && (arr_at a <? deadline)
      then a :: in_time deadline (clock_after now a) arrivals else []
  | [] => []
  end.

(** An arrival that ends the loop with an error. *)
Definition failure_of (a : Arrival) : option SimError :=
  match arr_event a with
  | RecvFailed => Some RecvError
  | Received _ _ => if decide (is_Some (report_of a)) then if arr_sent a then None else Some SendError
                    else None
  end.

(** How the loop ends: at its deadline with everything it took up handled, or
    at the first failure. *)
Definition wait_ends (deadline now : Z) (taken : list Arrival)
    (r : outcome SimError unit) (reports : Reports) (t : Z) : Prop :=
  (r = Ok () ∧ Forall (λ a, failure_of a = None) taken ∧
     reports = (omap (λ a, fst <$> report_of a) taken, omap (λ a, snd <$> report_of a) taken) ∧
     t = Z.max deadline (foldl clock_after now taken)) ∨
  (∃ before a after e, taken = before ++ a :: after ∧ Forall (λ a, failure_of a = None) before ∧
     failure_of a = Some e ∧ r = Err e ∧
     reports = (omap (λ a, fst <$> report_of a) (before ++ [a]),
                omap (λ a, snd <$> report_of a) before)).

Definition add_report (a : Arrival) (reports : Reports) : Reports :=
  match report_of a with
  | Some (usage, rsp) => (usage :: reports.1, rsp :: reports.2)
  | None => reports
  end.

Lemma wait_ends_cons deadline now a taken r reports t :
  failure_of a = None → wait_ends deadline (clock_after now a) taken r reports t →
  wait_ends deadline now (a :: taken) r (add_report a reports) t.
Proof.
  intros Hf [(-> & Hok & -> & ->)|(before & b & after & e & -> & Hok & Hb & -> & ->)].
  - left. split; [done|]. split; [by constructor|]. split; [|done].
    unfold add_report. rewrite !omap_list_cons. by destruct (report_of a) as [[? ?]|].
  - right. exists (a :: before), b, after, e. split; [done|]. split; [by constructor|].
    split; [done|]. split; [done|]. cbn [app]. rewrite !omap_list_cons. unfold add_report.
    by destruct (report_of a) as [[? ?]|].
Qed.

Lemma wait_loop_spec deadline now arrivals :
  wait_ends deadline now (in_time deadline now arrivals) (wait_loop deadline now arrivals).1.1
    (wait_loop deadline now arrivals).1.2 (wait_loop deadline now arrivals).2.
Proof.
  revert now; induction arrivals as [|a arrivals IH]; intros now; cbn [wait_loop in_time]; cbv zeta.
  { destruct (Z.eqb_spec (Z.max 0 (deadline - now)) 0); left; cbn; repeat (split; [done|]); lia. }
  destruct (Z.eqb_spec (Z.max 0 (deadline - now)) 0) as [Hd|Hd].
  { replace (now <? deadline) with false by lia. left. cbn. repeat (split; [done|]). lia. }
  replace (now <? deadline) with true by lia. cbn [andb].
  destruct (Z.leb_spec deadline (arr_at a)) as [Hlt|Hlt].
  { replace (arr_at a <? deadline) with false by lia. left. cbn. repeat (split; [done|]). lia. }
  replace (arr_at a <? deadline) with true by lia. specialize (IH (clock_after now a)).
  change (Z.max now (arr_at a) + arr_takes a) with (clock_after now a).
  destruct (wait_loop deadline (clock_after now a) arrivals) as [[r [seen sent]] t]. cbn [fst snd] in IH.
  destruct (arr_event a) as [buf src|] eqn:Ee.
  2:{ right. exists [], a, (in_time deadline (clock_after now a) arrivals), RecvError.
      unfold failure_of, report_of. rewrite Ee. cbn. unfold report_of. rewrite Ee. done. }
  destruct (handle_report_total (take 2048 buf)) as [o Ho]. rewrite Ho.
  destruct o as [[[seid usages] rsp]|].
  - assert (report_of a = Some ((seid, usages), (rsp, src))) as Hr by (unfold report_of; by rewrite Ee, Ho).
    destruct (arr_sent a) eqn:Es.
    + cbn [fst snd].
      assert (add_report a (seen, sent) = ((seid, usages) :: seen, (rsp, src) :: sent)) as <-
        by (unfold add_report; by rewrite Hr).
      apply wait_ends_cons; [|done]. unfold failure_of. by rewrite Ee, Hr, Es.
    + right. exists [], a, (in_time deadline (clock_after now a) arrivals), SendError.
      split; [done|]. split; [done|]. split; [unfold failure_of; by rewrite Ee, Hr, Es|].
      split; [done|]. cbn. by rewrite Hr.
  - assert (report_of a = None) as Hr by (unfold report_of; by rewrite Ee, Ho).
    cbn [fst snd]. assert (add_report a (seen, sent) = (seen, sent)) as <-
      by (unfold add_report; by rewrite Hr).
    apply wait_ends_cons; [|done]. unfold failure_of. by rewrite Ee, Hr.
Qed.

(** A report the server built, as the loop sees it. *)
Lemma report_of_built seq cp_seid urr_id ur_seqn trigger total ul dl buf src at_ takes ok :
  0 ≤ seq < 2 ^ 24 → u64 cp_seid → u32 urr_id → u64 total → u64 ul → u64 dl →
  build_session_report_request (E:=SimError) seq cp_seid urr_id ur_seqn trigger total ul dl = Ok buf →
  ∃ rsp, build_session_report_response (E:=SimError) seq cp_seid = Ok rsp ∧
    report_of (mkArrival at_ (Received buf src) takes ok) =
      Some ((cp_seid, [mkUsageSeen urr_id trigger total ul dl]), (rsp, src)).
Proof.
  intros Hseq Hcp Hurr Ht Hul Hdl Hb.
  destruct (report_received seq cp_seid urr_id ur_seqn trigger total ul dl)
    as (data & rsp & Hd & Hrsp & Hh); [done..|].
  rewrite Hb in Hd. injection Hd as <-. exists rsp. split; [done|].
  unfold report_of. cbn [arr_event]. rewrite take_ge; [by rewrite Hh|].
  unfold build_session_report_request in Hb. cbv zeta in Hb. rewrite msg_new_body, !add_ie_body in Hb.
  apply finish_is in Hb. subst buf.
  rewrite length_app, length_encode.
  match goal with |- (_ + length (ies_bytes (_ ++ [(_, ?v)])) ≤ _)%nat =>
    assert (length v = 51%nat) as Hl by exact (length_usage_value urr_id ur_seqn trigger total ul dl);
    generalize dependent v end.
  intros v _ Hl. unfold ies_bytes. cbn. len.
Qed.

(** C28. The wait for Session Report Requests ends, and misses none: whatever
    arrives, at whatever time and however long its handling takes, the loop
    takes up exactly the arrivals that find it before the deadline, logs and
    answers every Session Report Request among them in the order of arrival,
    skips the rest, and ends at the deadline (or as soon as the handling that
    was under way then is over), unless receiving or answering fails, when it
    ends with that error; it never panics.  A report as the server builds it
    is logged with the values it was built from and answered with its
    sequence number. *)
Theorem reports_collected start seconds arrivals :
  start / 1000000000 + seconds < 2 ^ 63 →
  let deadline := start + seconds * 1000000000 in
  let '(r, reports, t) := wait_and_handle_reports start seconds arrivals in
  let taken := in_time deadline start arrivals in
  wait_ends deadline start taken r reports t ∧
  (r = Ok () → ∀ seq cp_seid urr_id ur_seqn trigger total ul dl buf a src,
     0 ≤ seq < 2 ^ 24 → u64 cp_seid → u32 urr_id → u64 total → u64 ul → u64 dl →
     build_session_report_request (E:=SimError) seq cp_seid urr_id ur_seqn trigger total ul dl = Ok buf →
     a ∈ taken → arr_event a = Received buf src →
     (cp_seid, [mkUsageSeen urr_id trigger total ul dl]) ∈ reports.1 ∧
     ∃ rsp, build_session_report_response (E:=SimError) seq cp_seid = Ok rsp ∧ (rsp, src) ∈ reports.2).
Proof.
  intros Hs. cbv zeta. unfold wait_and_handle_reports.
  replace (start / 1000000000 + seconds <? 2 ^ 63) with true by lia.
  pose proof (wait_loop_spec (start + seconds * 1000000000) start arrivals) as Hw.
  destruct (wait_loop _ start arrivals) as [[r reports] t]. cbn [fst snd] in Hw. split; [done|].
  intros -> seq cp urr q tr tot ul dl buf [at_ ev takes ok] src ? ? ? ? ? ? Hb Hin He.
  cbn in He. subst ev. destruct Hw as [(_ & _ & -> & _)|(? & ? & ? & ? & _ & _ & _ & [=] & _)].
  destruct (report_of_built seq cp urr q tr tot ul dl buf src at_ takes ok) as (rsp & Hr & Ho); [done..|].
  cbn [fst snd]. split; [|exists rsp; split; [done|]]; apply list_elem_of_omap;
    eexists; (split; [exact Hin|]); by rewrite Ho.
Qed.

(** Two reports and a heartbeat arrive in time, a third report too late. *)
Definition three_reports : list Arrival :=
  let upf := mkSocketAddr (V4 1) 8805 in
  let report seq := built (build_session_report_request seq 7 1 seq 2 1100 600 500) in
  [mkArrival 1000 (Received (report 1000) upf) 5 true;
   mkArrival 2000 (Received (built (heartbeat_request 9 5)) upf) 5 true;
   mkArrival 2001 (Received (report 1001) upf) 5 true;
   mkArrival 30000000000 (Received (report 1002) upf) 5 true].

Lemma reports_collected_witness :
  let '(r, reports, t) := wait_and_handle_reports 0 30 three_reports in
  r = Ok () ∧ length reports.1 = 2%nat ∧ t = 30000000000 ∧
  (7, [mkUsageSeen 1 2 1100 600 500]) ∈ reports.1.
Proof.
  pose proof (reports_collected 0 30 three_reports eq_refl) as H. cbv zeta in H.
  assert (wait_and_handle_reports 0 30 three_reports =
    (Ok (), (wait_and_handle_reports 0 30 three_reports).1.2, 30000000000)) as E
    by (vm_compute; reflexivity).
  assert (length (wait_and_handle_reports 0 30 three_reports).1.2.1 = 2%nat) as El
    by (vm_compute; reflexivity).
  rewrite E in H |- *. destruct H as [_ Hall]. split; [done|]. split; [exact El|]. split; [done|].
  refine (proj1 (Hall eq_refl 1001 7 1 1001 2 1100 600 500
    (built (build_session_report_request 1001 7 1 1001 2 1100 600 500))
    (mkArrival 2001 (Received (built (build_session_report_request 1001 7 1 1001 2 1100 600 500))
      (mkSocketAddr (V4 1) 8805)) 5 true) (mkSocketAddr (V4 1) 8805) _ _ _ _ _ _ _ _ _));
    [vm_compute; split; [discriminate|reflexivity]..|vm_compute; reflexivity| |reflexivity].
  right. right. left.
Defined.

(** ** Runs of the program against the server *)

Definition sample_sim_toml (s : str) : option SimDoc :=
  Some (mkSimDoc smf_a 8805 (ip 127 0 0 1) None (ip 192 168 0 23) None ue_1 (ip 10 45 0 10)
    None None None None None).

(** One run is one process: the command line, with the time it starts at. *)
Definition cli_run (unix : Z) (command : Commands) : st W SimError Finish :=
  main (λ _, Some []) sample_sim_toml (λ _ _ _ _, mret ()) (server_exchange map_to_list 0 src_a)
    (λ _, mret ()) (λ _, mret ()) (λ w, ([], w)) (ntp_of_unix unix) unix 0 1 (mkCli (lit "sim.toml") (lit "info") command).

Definition cli_runs (commands : list (Z * Commands)) (w : W) : list (outcome SimError Finish) * W :=
  foldl (λ acc c, let '(r, w) := cli_run c.1 c.2 acc.2 in (acc.1 ++ [r], w)) ([], w) commands.

(** Every run of [session-establish] names its session with CP SEID 1: two
    sessions can be established, but when the first has been deleted the
    server finds CP SEID 1 in no association any more, and the second one can
    not be deleted. *)
Example cli_sessions_share_cp_seid :
  let runs := cli_runs [(1700000000, Send AssociationSetup);
    (1700000010, Send (SessionEstablish ue_1 0)); (1700000020, Send (SessionEstablish ue_2 0));
    (1700000030, Send (SessionDelete 1)); (1700000040, Send (SessionDelete 2))] initial in
  runs.1 = [Ok Finished; Ok Finished; Ok Finished; Ok Finished; Err Timeout] ∧
  session_ue runs.2 1 = None ∧ session_ue runs.2 2 = Some ue_2.
Proof. vm_compute. split; [|split]; reflexivity. Qed.

(** A scenario other than 1 is refused after the configuration was read. *)
Example cli_scenario_2 :
  (cli_run 0 (Run 2 1) initial).1 = Err (ScenarioError "not implemented yet") ∧
  (cli_run 0 (Run 1 1) initial).1 = Ok Finished.
Proof. split; vm_compute; reflexivity. Qed.
