(* ===== verification/TuiSystem.v ===== *)
(** * The simulator's terminal against the server

    The commands of [SimTui.v] carried out over [System.v]'s lossless network:
    what the simulator lists and what the server has recorded agree, whatever
    commands are given and whatever the server answers. *)

From S2P Require Import Prelude Text Commands Types Header Ie Builder Messages Dict Common Server.
From S2P Require Import Handlers HandlersSpec Invariant SmfSim SimTui Scenario System.

(** ** Building an answer never fails *)

Lemma establishment_response_ok {E} seq cp seid addr created :
  ∃ rsp, build_session_establishment_response (E:=E) seq cp seid addr created = Ok rsp.
Proof.
  unfold build_session_establishment_response, add_fseid, add_cause, add_node_id_v4. cbv zeta.
  rewrite msg_new_body, !add_ie_body, foldl_created_pdr, finish_encode. by eexists.
Qed.

Lemma deletion_response_ok {E} seq seid :
  ∃ b rsp, build_session_deletion_response (E:=E) seq seid = Ok (b :: rsp).
Proof.
  unfold build_session_deletion_response, add_cause. cbv zeta.
  rewrite msg_new_body, !add_ie_body, finish_encode. by eexists _, _.
Qed.

(** ** The sessions after a request, whatever its outcome *)

Section outcomes.
Context {M P A : Type → Type}.
Context `{BpfMapLaws M} `{PerCpuMapLaws P} `{BpfArray A}.
Variable assoc_iter : gmap Z SmfAssociation → list (Z * SmfAssociation).
Hypothesis assoc_iter_perm : ∀ m, assoc_iter m ≡ₚ map_to_list m.
Variable now : Z.

Abbreviation World := (@World M P A).
Implicit Types w : World.

(** Steps that leave the sessions, the counters and the addresses alone. *)
Definition idle w w' : Prop :=
  sessions (w_srv w') = sessions (w_srv w) ∧ next_seid (w_srv w') = next_seid (w_srv w) ∧
  next_teid (w_srv w') = next_teid (w_srv w) ∧ n3_addr (w_srv w') = n3_addr (w_srv w).

#[local] Instance idle_preorder : PreOrder idle.
Proof.
  split; [by intros w|]. intros w1 w2 w3 (A1 & B1 & C1 & D1) (A2 & B2 & C2 & D2).
  split_and!; congruence.
Qed.

Lemma idle_srv f :
  (∀ s, sessions (f s) = sessions s ∧ next_seid (f s) = next_seid s ∧ next_teid (f s) = next_teid s ∧
        n3_addr (f s) = n3_addr s) →
  steps idle (on_srv (M:=M) (P:=P) (A:=A) f).
Proof. intros Hf w. apply Hf. Qed.

Lemma idle_emit e : steps idle (emit (M:=M) (P:=P) (A:=A) e).
Proof. by intros w. Qed.

Lemma idle_tui call : steps idle (tui (M:=M) (P:=P) (A:=A) call).
Proof. intros w. by rewrite tui_eq. Qed.

Lemma idle_inserts :
  (∀ k v, steps idle (session_insert (M:=M) (P:=P) (A:=A) k v)) ∧
  (∀ k v, steps idle (pdr_insert (M:=M) (P:=P) (A:=A) k v)) ∧
  (∀ k v, steps idle (far_insert (M:=M) (P:=P) (A:=A) k v)) ∧
  (∀ k, steps idle (urr_insert_zeros (M:=M) (P:=P) (A:=A) k)).
Proof.
  unfold session_insert, pdr_insert, far_insert, urr_insert_zeros.
  split_and!; intros; intros w; by case_match.
Qed.

#[local] Hint Resolve idle_tui : stateful.

Lemma heartbeat_idle h body src w : idle w (handle_heartbeat assoc_iter now h body src w).2.
Proof.
  revert w. change (steps idle (handle_heartbeat (M:=M) (P:=P) (A:=A) assoc_iter now h body src)).
  unfold handle_heartbeat. stroll. apply idle_srv. by intros [].
Qed.

(** A program that leaves the sessions alone unless it succeeds. *)
Definition clean {T} (m : st World HandlerError T) : Prop :=
  ∀ w, match (m w).1 with Ok _ => True | _ => idle w (m w).2 end.

Lemma clean_bind {T U} (m : st World HandlerError T) (f : T → st World HandlerError U) :
  steps idle m → (∀ a, clean (f a)) → clean (m ≫= f).
Proof.
  intros Hm Hf w. rewrite st_bind_eq. specialize (Hm w).
  destruct (m w) as [[a|e|] w1]; cbn in *; [|done..]. specialize (Hf a w1).
  destruct (f a w1).1; [done|by transitivity w1..].
Qed.

(** A program that always succeeds. *)
Definition total {T} (m : st World HandlerError T) : Prop := ∀ w, ∃ a, (m w).1 = Ok a.

Lemma total_bind {T U} (m : st World HandlerError T) (f : T → st World HandlerError U) :
  total m → (∀ a, total (f a)) → total (m ≫= f).
Proof.
  intros Hm Hf w. rewrite st_bind_eq. destruct (Hm w) as [a Ha].
  destruct (m w) as [r w1]. cbn in Ha. subst. apply Hf.
Qed.

Lemma total_basic :
  (∀ f, total (on_srv f)) ∧ (∀ T (f : PfcpServer → T), total (get_srv f)) ∧
  (∀ call, total (tui call)) ∧ (∀ e, total (emit e)) ∧ total (mret ()).
Proof. split_and!; intros; intros w; rewrite ?tui_eq; by eexists. Qed.

Ltac total :=
  destruct total_basic as (? & ? & ? & ? & ?);
  solve [auto | match goal with |- total (if ?b then _ else _) => destruct b; auto end].

Lemma clean_ok {T} (m : st World HandlerError T) : total m → clean m.
Proof. intros Hm w. by destruct (Hm w) as [a ->]. Qed.

(** An establishment that fails has recorded nothing, though it may have used
    up a SEID and a TEID. *)
Lemma establishment_failed h body src w :
  match (handle_session_establishment assoc_iter now h body src w).1 with
  | Ok _ => True
  | _ => ∃ w1, idle w1 (handle_session_establishment assoc_iter now h body src w).2 ∧
      (w1 = w ∨ w1 = with_srv (λ s, (alloc_teid (alloc_seid s).2).2) w)
  end.
Proof.
  unfold handle_session_establishment. rewrite st_bind_eq. cbn [lift].
  destruct (decode_session_establishment body) as [req|e|]; cbn [map_err fst snd];
    [|exists w; split; [done|by left]..].
  rewrite st_bind_eq, sender_node_eq. destruct (sa_ip src); cbn [fst snd];
    [|exists w; split; [done|by left]].
  destruct (find_assoc _ _ _) as [[k a]|]; cbn [fst snd]; [|exists w; split; [done|by left]].
  rewrite st_bind_eq. cbn [alloc]. rewrite st_bind_eq. cbn [alloc]. cbv beta iota.
  match goal with |- context [alloc_teid (w_srv ?w0)] => set (wa := w0) end.
  match goal with |- match (?m ?w1).1 with _ => _ end =>
    assert (clean m) as Hc; [|specialize (Hc w1); destruct (m w1).1; [exact Hc|..];
      (exists w1; split; [exact Hc|by right; destruct w])] end.
  destruct idle_inserts as (Hs & Hp & Hf & Hu). unfold require, get_srv.
  do 3 (apply clean_bind; [apply steps_lift, _ || apply steps_gets, _|]; intros ?).
  apply clean_bind; [apply Hs|]. intros _.
  apply clean_bind; [unfold install_pdr; stroll|]. intros _.
  apply clean_bind; [unfold install_far; stroll|]. intros _.
  apply clean_bind.
  { unfold install_urr. stroll. apply idle_srv. by intros []. }
  intros _. apply clean_ok. unfold register_session, tui_sessions.
  repeat (apply total_bind; [|intros ?]); try total.
  { intros w2. by eexists. }
  match goal with |- context [build_session_establishment_response ?a ?b ?c ?d ?e] =>
    destruct (establishment_response_ok (E:=HandlerError) a b c d e) as [rsp Hr] end.
  intros w2. by exists rsp.
Qed.
End outcomes.

(** ** Two tables that say the same *)

(** What the server records for a session of the simulator. *)
Definition entry (gnb_addr cp : Z) (ss : SimSession) : SessionData :=
  mkSessionData (ss_ue_ip ss) (ss_upf_teid ss) gnb_addr cp.

Definition matched (gnb_addr : Z) (sess : gmap Z SessionData) (sims : gmap Z SimSession) : Prop :=
  (∀ cp ss, sims !! cp = Some ss → sess !! ss_upf_seid ss = Some (entry gnb_addr cp ss)) ∧
  (∀ seid, is_Some (sess !! seid) → ∃ cp ss, sims !! cp = Some ss ∧ ss_upf_seid ss = seid).

Lemma matched_empty g : matched g ∅ ∅.
Proof.
  split; [intros cp ss Hl; by rewrite lookup_empty in Hl|].
  intros seid [d Hl]. by rewrite lookup_empty in Hl.
Qed.

Lemma matched_insert g sess sims cp ss :
  matched g sess sims → sess !! ss_upf_seid ss = None → sims !! cp = None →
  matched g (<[ss_upf_seid ss := entry g cp ss]> sess) (<[cp := ss]> sims).
Proof.
  intros [Hf Hb] Hs Hc. split.
  - intros cp' ss' [[<- <-]|[_ Hl]]%lookup_insert_Some; [apply lookup_insert_eq|].
    rewrite lookup_insert_ne; [by apply Hf|]. intros E. apply Hf in Hl. by rewrite <-E, Hs in Hl.
  - intros seid. rewrite lookup_insert_is_Some. intros [<-|[Hne Hl]].
    + exists cp, ss. split; [apply lookup_insert_eq|done].
    + destruct (Hb seid Hl) as (cp' & ss' & Hl' & E). exists cp', ss'. split; [|done].
      rewrite lookup_insert_ne; [done|]. intros ->. by rewrite Hc in Hl'.
Qed.

Lemma matched_delete g sess sims cp ss :
  matched g sess sims → sims !! cp = Some ss →
  matched g (delete (ss_upf_seid ss) sess) (delete cp sims).
Proof.
  intros [Hf Hb] Hc. split.
  - intros cp' ss' [Hne Hl]%lookup_delete_Some. rewrite lookup_delete_ne; [by apply Hf|].
    intros E. apply Hf in Hl as H1. apply Hf in Hc as H2. rewrite <-E, H2 in H1.
    by injection H1 as _ _ ->.
  - intros seid. rewrite lookup_delete_is_Some. intros [Hne Hl].
    destruct (Hb seid Hl) as (cp' & ss' & Hl' & E). exists cp', ss'. split; [|done].
    rewrite lookup_delete_ne; [done|]. intros ->. rewrite Hl' in Hc. injection Hc as ->. done.
Qed.

(** ** The requests are octets *)

Lemma bytes_ok_ie ty v : bytes_ok v → bytes_ok (ie_bytes ty v).
Proof. intros Hv. unfold ie_bytes. rewrite !bytes_ok_app. auto with bytes. Qed.

Lemma bytes_ok_append_ie buf ty v : bytes_ok buf → bytes_ok v → bytes_ok (append_ie buf ty v).
Proof. intros Hb Hv. apply bytes_ok_app. split; [done|by apply bytes_ok_ie]. Qed.

Lemma bytes_ok_append_opt {T} (o : option T) ty value buf :
  bytes_ok buf → (∀ a, o = Some a → bytes_ok (value a)) → bytes_ok (append_opt o ty value buf).
Proof. intros Hb Hv. destruct o as [a|]; [|done]. by apply bytes_ok_append_ie; [|apply Hv]. Qed.

Lemma bytes_ok_ies l : Forall (λ tv, bytes_ok tv.2) l → bytes_ok (ies_bytes l).
Proof.
  induction 1 as [|[ty v] l Hv _ IH]; [constructor|]. rewrite ies_bytes_cons. apply bytes_ok_app.
  split; [by apply bytes_ok_ie|done].
Qed.

Lemma bytes_ok_cons x l : u8 x → bytes_ok l → bytes_ok (x :: l).
Proof. by constructor. Qed.

Lemma octets_u8 x : bytes_ok (octets x).
Proof. apply bytes_ok_to_be_bytes. Qed.

Lemma bytes_ok_header n t seid seq :
  u8 t → bytes_ok (encode (with_length n (new_session_msg t seid seq))).
Proof.
  intros Ht. unfold encode. rewrite !bytes_ok_app.
  assert (∀ x, u8 (wrap 8 x)) as Hw by (intros x; apply (Z.mod_pos_bound x (2 ^ 8)); lia).
  split; [|split; [|split; [|split]]].
  all: cbn [with_length new_session_msg hdr_s_flag hdr_mp_flag hdr_length hdr_seid hdr_msg_type];
    try apply bytes_ok_to_be_bytes.
  - apply bytes_ok_cons; [by vm_compute|]. by apply bytes_ok_cons; [|constructor].
  - repeat (apply bytes_ok_cons; [apply Hw|]). constructor.
  - by apply bytes_ok_cons; [vm_compute|constructor].
Qed.

Lemma bytes_ok_node_header n t seq :
  u8 t → bytes_ok (encode (with_length n (new_node_msg t seq))).
Proof.
  intros Ht. unfold encode. rewrite !bytes_ok_app.
  assert (∀ x, u8 (wrap 8 x)) as Hw by (intros x; apply (Z.mod_pos_bound x (2 ^ 8)); lia).
  split; [|split; [|split; [|split]]].
  all: cbn [with_length new_node_msg hdr_s_flag hdr_mp_flag hdr_length hdr_seid hdr_msg_type];
    try apply bytes_ok_to_be_bytes.
  - apply bytes_ok_cons; [by vm_compute|]. by apply bytes_ok_cons; [|constructor].
  - constructor.
  - repeat (apply bytes_ok_cons; [apply Hw|]). constructor.
  - by apply bytes_ok_cons; [vm_compute|constructor].
Qed.

Ltac octets_ok :=
  repeat match goal with
  | |- bytes_ok (append_ie _ _ _) => apply bytes_ok_append_ie
  | |- bytes_ok (append_opt _ _ _ _) => apply bytes_ok_append_opt; [|intros ? [= <-]]
  | |- bytes_ok (to_be_bytes _ _) => apply bytes_ok_to_be_bytes
  | |- bytes_ok (octets _) => apply octets_u8
  | |- bytes_ok (_ :: _) => apply bytes_ok_cons; [by vm_compute|]
  | |- bytes_ok (_ ++ _) => apply bytes_ok_app; split
  | |- bytes_ok [] => constructor
  end.

Lemma session_request_octets a cp ue teid g :
  bytes_ok (ies_bytes (establishment_ies a cp (one_session_pdrs ue) (scenario_fars teid g) [])).
Proof.
  apply bytes_ok_ies. unfold establishment_ies, one_session_pdrs, scenario_fars.
  cbn [fmap list_fmap app]. 
  repeat match goal with
  | |- Forall _ (_ :: _) => apply Forall_cons_2; [cbn [snd]|]
  | |- Forall _ [] => constructor
  end.
  1-2: octets_ok.
  1-2: unfold create_pdr_value, pdi_value; cbn [pp_pdr_id pp_precedence pp_source_interface
    pp_fteid_choose pp_ue_ip pp_far_id pp_urr_id pp_outer_header_removal pp_sdf_filter]; octets_ok.
  1-2: unfold create_far_value, fwd_value, ohc_value; cbn [fp_far_id fp_apply_action fp_dest_interface
    fp_outer_header_creation]; octets_ok.
Qed.

Lemma establishment_request_octets seq a cp ue g teid req :
  build_session_establishment_request (E:=SimError) seq a cp ue g teid = Ok req → bytes_ok req.
Proof.
  rewrite establishment_request_msg, session_establishment_msg_body. intros ->%finish_is.
  apply bytes_ok_app. split; [by apply bytes_ok_header; vm_compute|apply session_request_octets].
Qed.

(** ** The exchanges of the commands *)

Section exchanges.
Context {M P A : Type → Type}.
Context `{BpfMapLaws M} `{PerCpuMapLaws P} `{BpfArray A}.
Variable assoc_iter : gmap Z SmfAssociation → list (Z * SmfAssociation).
Hypothesis assoc_iter_perm : ∀ m, assoc_iter m ≡ₚ map_to_list m.
Variables (now : Z) (src : SocketAddr).

Abbreviation World := (@World M P A).
Implicit Types w : World.
Abbreviation exchange := (server_exchange (M:=M) (P:=P) (A:=A) assoc_iter now src).

Lemma server_exchange_total req w : (exchange req w).1 ≠ Panic.
Proof.
  unfold server_exchange. pose proof (message_no_panic assoc_iter now req src w) as Hp.
  by destruct (handle_message _ _ _ _ _) as [[[|b r]|e|] w'].
Qed.

(** The server after a request that may have used up a SEID and a TEID. *)
Definition counted_on w w' : Prop :=
  next_seid (w_srv w) ≤ next_seid (w_srv w') ≤ next_seid (w_srv w) + 1 ∧
  next_teid (w_srv w) ≤ next_teid (w_srv w') ≤ next_teid (w_srv w) + 1 ∧
  n3_addr (w_srv w') = n3_addr (w_srv w) ∧ server_inv (w_srv w').

Lemma exchange_run (m : st World HandlerError (list Z)) req w :
  handle_message assoc_iter now req src w = m w →
  (exchange req w).2 = (m w).2 ∧
  (exchange req w).1 =
    match (m w).1 with Ok [] => Err Timeout | Ok rsp => Ok rsp | Err _ => Err Timeout | Panic => Panic end.
Proof.
  intros Hm. unfold server_exchange. rewrite Hm. by destruct (m w) as [[[|b r]|e|] w'].
Qed.

Lemma one_session_wf ue g teid :
  u32 ue → u32 g → u32 teid →
  Forall wf_pdr (one_session_pdrs ue) ∧ Forall wf_far (scenario_fars teid g).
Proof.
  intros Hue Hg Ht. split.
  - repeat (apply Forall_cons; split); [..|apply Forall_nil; exact I];
      (split; [split; by vm_compute|]; split; [split; by vm_compute|]; split; [split; by vm_compute|];
       split; [exact Hue|]; split; [split; by vm_compute|]; split; exact I).
  - repeat (apply Forall_cons; split); [..|apply Forall_nil; exact I];
      (split; [split; by vm_compute|]; split; [split; by vm_compute|]; split; [split; by vm_compute|]);
      [exact I|]. exact (conj Ht (conj Hg eq_refl)).
Qed.

Lemma establishment_exchange seq a cp ue g teid req w :
  0 ≤ seq < 2 ^ 24 → u32 a → u64 cp → u32 ue → u32 g → u32 teid → u32 (n3_addr (w_srv w)) →
  server_inv (w_srv w) → next_seid (w_srv w) < 2 ^ 64 - 1 →
  0 < next_teid (w_srv w) < 2 ^ 32 - 1 →
  build_session_establishment_request (E:=SimError) seq a cp ue g teid = Ok req →
  let s := w_srv w in let s' := w_srv (exchange req w).2 in
  counted_on w (exchange req w).2 ∧
  (((exchange req w).1 ≫= extract_session_info = Ok (next_seid s, next_teid s, n3_addr s) ∧
    sessions s' = <[next_seid s := mkSessionData ue (next_teid s) g cp]> (sessions s)) ∨
   ((∃ e, (exchange req w).1 = Err e) ∧ sessions s' = sessions s)).
Proof.
  intros Hseq Ha Hcp Hue Hg Ht Hn3 Hinv Hs Hte Hreq. cbv zeta.
  pose proof (establishment_request_octets _ _ _ _ _ _ _ Hreq) as Hb.
  destruct (one_session_wf ue g teid Hue Hg Ht) as [Hp Hf].
  rewrite establishment_request_msg, session_establishment_msg_body in Hreq.
  destruct (decode_finish (E:=SimError) (new_session_msg PFCP_SESSION_ESTABLISHMENT_REQ 0 seq)
    (ies_bytes (establishment_ies a cp (one_session_pdrs ue) (scenario_fars teid g) [])))
    as (msg & Hm & _ & Hdec).
  { apply wf_session_msg; [by vm_compute|by uint|done]. }
  rewrite Hm in Hreq. injection Hreq as ->.
  match type of Hdec with decode _ = Ok (?h, ?b) => pose (h0 := h); pose (b0 := b) end.
  assert (handle_message assoc_iter now req src w =
    handle_session_establishment assoc_iter now h0 b0 src w) as Hrun.
  { unfold handle_message, decode_header. rewrite Hdec. reflexivity. }
  destruct (exchange_run (handle_session_establishment assoc_iter now h0 b0 src) req w Hrun)
    as [E2 E1]. rewrite E1, E2.
  pose proof (handle_message_evolves assoc_iter now assoc_iter_perm req src w Hb Hinv Hs)
    as (Hev & _ & Hinv'). rewrite Hrun in Hev, Hinv'.
  pose proof (establishment_failed assoc_iter now h0 b0 src w) as Hfail.
  destruct (handle_session_establishment assoc_iter now h0 b0 src w) as [[rsp|e|] w'] eqn:Er;
    cbn [fst snd] in *.
  - apply establishment_ok in Er as (r & k & as_ & ue' & ohc & Hr & _ & _ & Hue' & Hohc & Hrest).
    unfold b0 in Hr. rewrite decode_session_establishment_built in Hr by done.
    injection Hr as <-. cbv zeta in Hrest. cbn in Hue', Hohc. injection Hue' as <-.
    injection Hohc as <-. destruct Hrest as (Hbuilt & Esrv & _ & _).
    assert (extract_session_info rsp = Ok (next_seid (w_srv w), next_teid (w_srv w), n3_addr (w_srv w)))
      as Hx.
    { eapply (extract_session_info_built seq cp _ (n3_addr (w_srv w)) 1 _ (n3_addr (w_srv w)) []);
        [exact Hseq|exact Hcp|..|exact (finish_any _ _ Hbuilt)];
        destruct Hinv as [Hn _ _]; unfold u64, u32 in *; lia. }
    destruct rsp as [|b rsp]; [discriminate Hx|]. split; [|left; split].
    + split; [exact Hev|]. split; [|split; [by rewrite Esrv|exact Hinv']].
      rewrite Esrv. cbn. unfold wrap. rewrite Z.mod_small; lia.
    + rewrite bind_Ok. exact Hx.
    + by rewrite Esrv.
  - destruct Hfail as (w1 & (I1 & I2 & I3 & I4) & Hw1). split; [|right; split; [by eexists|]].
    + split; [exact Hev|]. rewrite I3, I4. destruct Hw1 as [->| ->]; cbn.
      * split; [lia|]. by split.
      * split; [|by split]. unfold wrap. rewrite Z.mod_small; lia.
    + rewrite I1. by destruct Hw1 as [->| ->].
  - exfalso. apply (message_no_panic assoc_iter now req src w). by rewrite Hrun.
Qed.

(** The counters after a request that hands nothing out. *)
Lemma idle_counted w w' :
  idle w w' → server_inv (w_srv w') → counted_on w w'.
Proof.
  intros (_ & I2 & I3 & I4) Hinv. unfold counted_on. rewrite I2, I3, I4.
  split; [lia|]. split; [lia|]. by split.
Qed.

(** A deletion that is answered has deleted; one that is not has changed
    nothing. *)
Lemma deletion_exchange seq seid req w :
  0 ≤ seq < 2 ^ 24 → u64 seid → server_inv (w_srv w) → next_seid (w_srv w) < 2 ^ 64 - 1 →
  deletion_request (E:=SimError) seq seid = Ok req →
  let s := w_srv w in let s' := w_srv (exchange req w).2 in
  counted_on w (exchange req w).2 ∧
  (((∃ rsp, (exchange req w).1 = Ok rsp) ∧ sessions s' = delete seid (sessions s)) ∨
   ((∃ e, (exchange req w).1 = Err e) ∧ sessions s' = sessions s)).
Proof.
  intros Hseq Hseid Hinv Hn Hreq. cbv zeta. unfold deletion_request in Hreq.
  rewrite msg_new_body in Hreq.
  destruct (decode_finish (E:=SimError) (new_session_msg PFCP_SESSION_DELETION_REQ seid seq) [])
    as (msg & Hm & _ & Hdec); [by apply wf_session_msg; [vm_compute|..]|].
  assert (bytes_ok req) as Hb.
  { apply finish_is in Hreq as ->.
    apply bytes_ok_app. split; [by apply bytes_ok_header; vm_compute|constructor]. }
  change (ies_bytes []) with (@nil Z) in Hreq. rewrite Hm in Hreq. injection Hreq as ->.
  match type of Hdec with decode _ = Ok (?h, _) => pose (h0 := h) end.
  assert (handle_message assoc_iter now req src w = handle_session_deletion assoc_iter h0 src w) as Hrun.
  { unfold handle_message, decode_header. rewrite Hdec. reflexivity. }
  destruct (exchange_run (handle_session_deletion assoc_iter h0 src) req w Hrun) as [E2 E1].
  rewrite E1, E2. clear E1 E2.
  pose proof (handle_message_evolves assoc_iter now assoc_iter_perm req src w Hb Hinv Hn)
    as (_ & _ & Hinv'). rewrite Hrun in Hinv'. revert Hinv'. rewrite deletion_eq. cbv zeta.
  change (default 0 (hdr_seid h0)) with seid.
  destruct (authorise assoc_iter (w_srv w) src seid) as [[node d]|e|] eqn:Ea; cbn [fst snd w_srv];
    intros Hinv'.
  - destruct (deletion_response_ok (E:=HandlerError) (hdr_seq_num h0) seid) as (b & rsp & ->).
    split; [split; [cbn; lia|]; split; [cbn; lia|]; by split|]. left. split; [by eexists|done].
  - split; [by apply idle_counted|]. right. split; [by eexists|done].
  - exfalso. unfold authorise in Ea. by repeat case_match.
Qed.

Lemma heartbeat_exchange seq ts req w :
  0 ≤ seq < 2 ^ 24 → server_inv (w_srv w) → next_seid (w_srv w) < 2 ^ 64 - 1 →
  heartbeat_request (E:=SimError) seq ts = Ok req →
  counted_on w (exchange req w).2 ∧
  sessions (w_srv (exchange req w).2) = sessions (w_srv w).
Proof.
  intros Hseq Hinv Hn Hreq. unfold heartbeat_request, add_recovery_timestamp in Hreq.
  rewrite msg_new_body, add_ie_body in Hreq. cbn [app] in Hreq.
  destruct (decode_finish (E:=SimError) (new_node_msg PFCP_HEARTBEAT_REQ seq)
    (ies_bytes [(PFCP_IE_RECOVERY_TIME_STAMP, to_be_bytes 4 ts)]))
    as (msg & Hm & _ & Hdec); [by apply wf_node_msg; [vm_compute|]|].
  assert (bytes_ok req) as Hb.
  { apply finish_is in Hreq as ->.
    apply bytes_ok_app. split; [by apply bytes_ok_node_header; vm_compute|].
    apply bytes_ok_ies, Forall_singleton, bytes_ok_to_be_bytes. }
  rewrite Hm in Hreq. injection Hreq as ->.
  match type of Hdec with decode _ = Ok (?h, ?b) => pose (h0 := h); pose (b0 := b) end.
  assert (handle_message assoc_iter now req src w = handle_heartbeat assoc_iter now h0 b0 src w) as Hrun.
  { unfold handle_message, decode_header. rewrite Hdec. reflexivity. }
  destruct (exchange_run (handle_heartbeat assoc_iter now h0 b0 src) req w Hrun) as [E2 _].
  rewrite E2.
  pose proof (handle_message_evolves assoc_iter now assoc_iter_perm req src w Hb Hinv Hn)
    as (_ & _ & Hinv'). rewrite Hrun in Hinv'.
  pose proof (heartbeat_idle assoc_iter now h0 b0 src w) as Hi.
  split; [by apply idle_counted|]. by destruct Hi as (-> & _).
Qed.
End exchanges.

(** ** The two sides agree *)

Section agreement.
Context {M P A : Type → Type}.
Context `{BpfMapLaws M} `{PerCpuMapLaws P} `{BpfArray A}.
Variable assoc_iter : gmap Z SmfAssociation → list (Z * SmfAssociation).
Hypothesis assoc_iter_perm : ∀ m, assoc_iter m ≡ₚ map_to_list m.
Variables (now : Z) (src : SocketAddr).
Variable show_error : SimError → Text.str.
Variable values : gmap Z SimSession → list SimSession.
Variables smf_addr gnb_addr unix_now : Z.
Hypothesis smf_addr_ok : u32 smf_addr.
Hypothesis gnb_addr_ok : u32 gnb_addr.

Abbreviation World := (@World M P A).
Abbreviation exchange := (server_exchange (M:=M) (P:=P) (A:=A) assoc_iter now src).
Abbreviation turn := (add_session_turn exchange show_error values smf_addr gnb_addr now).
Abbreviation command :=
  (handle_async_command exchange show_error values smf_addr gnb_addr now unix_now).
Implicit Types t : Task World.

(** The tables match, and [n] more requests cannot exhaust a counter. *)
Record agree (n : nat) t : Prop := {
  ag_inv : server_inv (w_srv (task_net t));
  ag_seid : next_seid (w_srv (task_net t)) + Z.of_nat n < 2 ^ 64;
  ag_teid : 0 < next_teid (w_srv (task_net t)) ∧ next_teid (w_srv (task_net t)) + Z.of_nat n < 2 ^ 32;
  ag_n3 : u32 (n3_addr (w_srv (task_net t)));
  ag_seq : 0 ≤ next_seq (task_sim t) ∧ next_seq (task_sim t) + Z.of_nat n < 2 ^ 24;
  ag_cp : 0 ≤ next_cp_seid (task_sim t) ∧ next_cp_seid (task_sim t) + Z.of_nat n < 2 ^ 64;
  ag_ue : 0 ≤ next_ue_ip (task_sim t) ∧ ue_ip_end (task_sim t) < 2 ^ 32 - 1;
  ag_gnb : u32 (next_gnb_teid (task_sim t));
  ag_fresh cp : is_Some (sim_sessions (task_sim t) !! cp) → cp < next_cp_seid (task_sim t);
  ag_matched : matched gnb_addr (sessions (w_srv (task_net t))) (sim_sessions (task_sim t));
}.

(** A request that concerned [counted_on] and used a sequence number. *)
Lemma agree_exchanged n t w' s' sent :
  agree (S n) t → counted_on (task_net t) w' →
  next_ue_ip s' = next_ue_ip (task_sim t) ∨ next_ue_ip s' = wrap 32 (next_ue_ip (task_sim t) + 1) →
  ue_ip_end s' = ue_ip_end (task_sim t) → u32 (next_gnb_teid s') →
  next_seq s' = wrap 32 (next_seq (task_sim t) + 1) →
  (next_cp_seid s' = next_cp_seid (task_sim t) ∨
   next_cp_seid s' = wrap 64 (next_cp_seid (task_sim t) + 1)) →
  (∀ cp, is_Some (sim_sessions s' !! cp) → cp < next_cp_seid s') →
  matched gnb_addr (sessions (w_srv w')) (sim_sessions s') →
  agree n (mkTask w' s' sent).
Proof.
  intros [Hi Hs Ht Hn3 Hq Hc Hu Hg Hf Hm] (Cs & Ct & Cn & Ci) Eu Ee Eg Eq Ec Hf' Hm'.
  rewrite Nat2Z.inj_succ in *.
  change (2 ^ 24) with 16777216 in *. change (2 ^ 32) with 4294967296 in *.
  assert (next_seq s' = next_seq (task_sim t) + 1) as Eq'.
  { rewrite Eq. unfold wrap. rewrite Z.mod_small; [done|]. change (2 ^ 32) with 4294967296. lia. }
  split; cbn [task_net task_sim]; try done; try lia.
  - by rewrite Cn.
  - destruct Ec as [-> | ->]; [lia|]. unfold wrap. rewrite Z.mod_small; lia.
  - rewrite Ee. split; [|lia]. destruct Eu as [-> | ->]; [lia|]. unfold wrap. apply Z.mod_pos_bound. lia.
Qed.

Lemma agree_less n t : agree (S n) t → agree n t.
Proof. intros [Hi Hs Ht Hn3 Hq Hc Hu Hg Hf Hm]. rewrite Nat2Z.inj_succ in *. split; try done; lia. Qed.

Lemma wrap32_u32 x : u32 (wrap 32 x).
Proof. apply (Z.mod_pos_bound x (2 ^ 32)). lia. Qed.

Lemma turn_agree n t : agree (S n) t → agree n (turn t).2.
Proof.
  intros Ha. pose proof Ha as [Hi Hs Ht Hn3 Hq Hc Hu Hg Hf Hm]. rewrite Nat2Z.inj_succ in *.
  destruct (turn_spec exchange show_error values smf_addr gnb_addr now
    (server_exchange_total assoc_iter now src) t) as [evs He].
  destruct (Z.leb_spec (next_ue_ip (task_sim t)) (ue_ip_end (task_sim t))) as [Hle|Hgt].
  2:{ rewrite He. cbn [snd]. apply (agree_exchanged n t); try done; [|by left|by left].
      split; [lia|]. split; [lia|]. by split. }
  destruct He as (req & Hreq & ->). cbn [snd].
  assert (u32 (next_ue_ip (task_sim t))) as Hue by (unfold u32; lia).
  destruct (establishment_exchange assoc_iter assoc_iter_perm now src (next_seq (task_sim t)) smf_addr
    (next_cp_seid (task_sim t)) (next_ue_ip (task_sim t)) gnb_addr (next_gnb_teid (task_sim t)) req
    (task_net t)) as (Hcnt & Hout); try done; try (unfold u64; lia).
  assert (∀ cp, is_Some (sim_sessions (task_sim t) !! cp) →
    cp < wrap 64 (next_cp_seid (task_sim t) + 1)) as Hfresh.
  { intros cp Hcp. apply Hf in Hcp. unfold wrap. rewrite Z.mod_small; lia. }
  destruct Hout as [[Hx Hsess]|[[e Hx] Hsess]]; rewrite Hx, ?bind_Err; cbv iota.
  - apply (agree_exchanged n t); [done|done|by right|done|apply wrap32_u32|done|by right| |].
    + cbn. intros cp. rewrite lookup_insert_is_Some. intros [<-|[_ Hl]]; [|by apply Hfresh].
      unfold wrap. rewrite Z.mod_small; lia.
    + rewrite Hsess. unfold recorded. cbn [sim_sessions set_sim_sessions advanced].
      pose (ss := new_session now (task_sim t) (next_seid (w_srv (task_net t)),
        next_teid (w_srv (task_net t)), n3_addr (w_srv (task_net t)))).
      apply (matched_insert gnb_addr _ _ (next_cp_seid (task_sim t)) ss Hm).
      * destruct (sessions (w_srv (task_net t)) !! ss_upf_seid ss) as [d|] eqn:E; [|done].
        apply (inv_sessions _ Hi) in E as [E _]. cbn in E. lia.
      * destruct (sim_sessions (task_sim t) !! next_cp_seid (task_sim t)) as [x|] eqn:E; [|done].
        specialize (Hf (next_cp_seid (task_sim t)) ltac:(by eexists)). lia.
  - apply (agree_exchanged n t); [done|done|by right|done|apply wrap32_u32|done|by right|done|].
    cbn [sim_sessions advanced]. by rewrite Hsess.
Qed.

Lemma delete_agree n seid t : agree (S n) t → agree n (command (DelSession seid) t).2.
Proof.
  intros Ha. pose proof Ha as [Hi Hs Ht Hn3 Hq Hc Hu Hg Hf Hm]. rewrite Nat2Z.inj_succ in *.
  destruct (del_session_spec exchange show_error values smf_addr gnb_addr now unix_now
    (server_exchange_total assoc_iter now src) seid t) as [evs He].
  destruct (sim_sessions (task_sim t) !! seid) as [ss|] eqn:Ess.
  2:{ rewrite He. cbn [snd]. apply agree_less in Ha. by destruct Ha. }
  destruct He as (req & Hreq & ->). cbn [snd].
  assert (u64 (ss_upf_seid ss)) as Hseid.
  { destruct Hm as [Hfw _]. apply Hfw, (inv_sessions _ Hi) in Ess as [Ess _]. unfold u64. lia. }
  destruct (deletion_exchange assoc_iter assoc_iter_perm now src (next_seq (task_sim t))
    (ss_upf_seid ss) req (task_net t)) as (Hcnt & Hout); try done; try lia.
  destruct Hout as [[[rsp Hx] Hsess]|[[e Hx] Hsess]]; rewrite Hx.
  - apply (agree_exchanged n t); [done|done|by left|done|done|done|by left| |].
    + cbn. intros cp. rewrite lookup_delete_is_Some. intros [_ Hl]. by apply Hf.
    + rewrite Hsess. by apply matched_delete.
  - apply (agree_exchanged n t); [done|done|by left|done|done|done|by left|done|].
    cbn. by rewrite Hsess.
Qed.

Lemma heartbeat_agree n t : agree (S n) t → agree n (command Heartbeat t).2.
Proof.
  intros Ha. pose proof Ha as [Hi Hs Ht Hn3 Hq Hc Hu Hg Hf Hm]. rewrite Nat2Z.inj_succ in *.
  destruct (manual_heartbeat_spec exchange show_error values smf_addr gnb_addr now unix_now
    (server_exchange_total assoc_iter now src) t) as (req & evs & Hreq & ->). cbn [snd].
  destruct (heartbeat_exchange assoc_iter assoc_iter_perm now src (next_seq (task_sim t))
    (wrapping_add32 (wrap 32 unix_now) 2208988800) req (task_net t)) as (Hcnt & Hsess);
    [lia|done|lia|exact Hreq|].
  apply (agree_exchanged n t); [done|done|by left|done|done|done|by left|done|].
  cbn. by rewrite Hsess.
Qed.

(** The requests a command may send. *)
Definition cost (cmd : Command) : nat :=
  match cmd with AddSession count => Z.to_nat count | DelSession _ | Heartbeat => 1 | _ => 0 end.

Lemma agree_le n k t : agree (n + k) t → agree n t.
Proof. induction k as [|k IH]; [by rewrite Nat.add_0_r|]. rewrite Nat.add_succ_r. intros Ha. by apply IH, agree_less. Qed.

Lemma add_sessions_agree k n t :
  agree (k + n) t →
  agree n (add_sessions exchange show_error values smf_addr gnb_addr now k t).2.
Proof.
  revert t; induction k as [|k IH]; intros t Ha; [done|]. cbn [add_sessions].
  rewrite st_bind_eq. pose proof (turn_agree (k + n) t Ha) as Ht.
  destruct (turn t) as [[[]|e|] t1]; cbn [snd] in *.
  - by apply IH.
  - apply (agree_le n k). by rewrite Nat.add_comm.
  - apply (agree_le n k). by rewrite Nat.add_comm.
  - apply (agree_le n k). by rewrite Nat.add_comm.
Qed.

Lemma command_agree n cmd t : agree (cost cmd + n) t → agree n (command cmd t).2.
Proof.
  destruct cmd; cbn [cost handle_async_command]; intros Ha; try done.
  - by apply add_sessions_agree.
  - by apply delete_agree.
  - by apply heartbeat_agree.
Qed.

Lemma run_agree n cmds t :
  agree (sum_list_with cost cmds + n) t →
  agree n (run_commands exchange show_error values smf_addr gnb_addr now unix_now cmds t).
Proof.
  revert t; induction cmds as [|cmd cmds IH]; intros t Ha; [done|].
  apply IH, command_agree. cbn [sum_list_with] in Ha. by rewrite (assoc_L Nat.add).
Qed.

End agreement.

(** ** Runs *)

Definition sim_start : SimState := SimState_new 0 ue_1 (ip 10 45 0 10) 2147483649.

(** The simulator's address has its association, made with the time stamp 100. *)
Definition tui_run (unix_now : Z) (cmds : list Command) : Task W :=
  run_commands (server_exchange map_to_list 0 src_a) (λ _, []) in_order smf_a (ip 192 168 0 23) 0
    unix_now cmds (mkTask associated sim_start []).

Definition listed (t : Task W) : list Z := ss_cp_seid <$> in_order (sim_sessions (task_sim t)).

(** A heartbeat locks the sessions in: the terminal's [heartbeat] command
    sends the current time as Recovery Time Stamp, where the association was
    made with the time stamp of the start; the server takes this for a restart
    and forgets which sessions the association owns.  A session can be deleted
    before; after the command it can not: the deletion is refused without an
    answer, and both sides keep it. *)
Theorem heartbeat_command_orphans :
  let t := tui_run 1700000000 [AddSession 2; DelSession 1] in
  let t' := tui_run 1700000000 [AddSession 2; DelSession 1; Heartbeat; DelSession 2] in
  listed t = [2] ∧ session_ue (task_net t) 1 = None ∧
  listed t' = [2] ∧ session_ue (task_net t') 2 = Some (ip 10 45 0 3) ∧
  authorise map_to_list (w_srv (task_net t')) src_a 2 = Err (ENotOwner 2 src_a) ∧
  bpf_get (SESSION_MAP (w_maps (task_net t'))) (to_be32 (ip 10 45 0 3)) ≠ None.
Proof.
  cbv zeta. refine (conj _ (conj _ (conj _ (conj _ (conj _ _))))).
  6: { apply not_eq_None_Some. apply (bool_decide_unpack _). vm_compute. exact I. }
  all: vm_compute; reflexivity.
Qed.

Lemma associated_inv : server_inv (w_srv associated).
Proof.
  assert (sessions (w_srv associated) = ∅ ∧ next_seid (w_srv associated) = 1 ∧
    associations (w_srv associated) = {[ smf_a := SmfAssociation_new 0 smf_a src_a 100 ]})
    as (Es & En & Ea) by (split; [|split]; vm_compute; reflexivity).
  split; rewrite ?Es, ?En, ?Ea; [lia| |].
  - intros seid d Hl. by rewrite lookup_empty in Hl.
  - intros k a Hl. apply lookup_singleton_Some in Hl as [<- <-]. reflexivity.
Qed.

