(* ===== verification/SimKeepalive.v ===== *)
(** * The simulator's keepalive ([smf-sim/src/keepalive.rs])

    The task that probes the UPF when the link has been idle: its turns with
    the clock, the last activity of the transport and the sleeps, a heartbeat
    round, the detection of a restart and the re-association; when heartbeats
    are sent, and what a round against the handlers of the server achieves. *)

From S2P Require Import Prelude Types Header Ie Builder Messages Dict Common Server.
From S2P Require Import Handlers HandlersSpec Invariant SmfSim Transport SimTui Scenario System TuiSystem.

(** ** The link and its clock

    What the task needs of the state [N] it shares with the network and the
    other tasks: the clock, the time of the transport's [last_activity] and a
    sleep.  Times are in nanoseconds. *)
Class Timed (N : Type) := {
  clock : N → Z;
  link_activity : N → Z;
  pause : Z → N → N;
}.

(** Activity is never in the future. *)
Definition timed_ok {N} `{!Timed N} (n : N) : Prop := link_activity n ≤ clock n.

(** Time and activity only move forward; an exchange that succeeds is an
    activity; a sleep takes its time. *)
Class TimedLaws (N : Type) `{!Timed N} (exchange : list Z → st N SimError (list Z)) : Prop := {
  exchange_total req n : (exchange req n).1 ≠ Panic;
  exchange_ok req n : timed_ok n → timed_ok (exchange req n).2;
  exchange_clock req n : clock n ≤ clock (exchange req n).2;
  exchange_activity req n : timed_ok n → link_activity n ≤ link_activity (exchange req n).2;
  exchange_heard req n rsp :
    (exchange req n).1 = Ok rsp → clock n ≤ link_activity (exchange req n).2;
  pause_ok d n : 0 ≤ d → timed_ok n → timed_ok (pause d n);
  pause_clock d n : 0 ≤ d → clock (pause d n) = clock n + d;
  pause_activity d n : 0 ≤ d → link_activity n ≤ link_activity (pause d n);
}.

(** The transport is such a link. *)
#[export] Instance wire_timed : Timed Wire := {
  clock := wi_clock;
  link_activity := wi_activity;
  pause d w := mkWire (wi_clock w + d) (wi_activity w) (wi_arrivals w) (wi_sends w) (wi_sent w);
}.

Lemma wire_laws unix peer retries timeout :
  0 ≤ timeout → TimedLaws Wire (timed_send_and_recv unix peer retries timeout).
Proof.
  intros Ht. split; unfold timed_ok; cbn [clock link_activity pause wire_timed]; [..|cbn; lia|done|cbn; lia].
  all: intros req w; pose proof (timed_exchange_clock unix peer retries timeout Ht req w) as (Hp & Hc & Ha);
    destruct (timed_send_and_recv _ _ _ _ _ _) as [[] w']; cbn [fst snd] in *; try done; lia.
Qed.

(** ** The task *)

Definition retry_pause : Z := 5000000000.

Section keepalive.
Context {N : Type} `{!Timed N}.
Variable exchange : list Z → st N SimError (list Z).
Variables recovery_ts smf_addr : Z.

Record Keepalive := mkKeepalive {
  ka_net : N;
  ka_seq : Z;
  ka_upf_ts : Z;
  ka_restarts : list Z;   (* the [UpfRestarted] events [try_send] was given, oldest first *)
}.

Definition ka_exchange (req : list Z) : st Keepalive SimError (list Z) := λ k,
  let '(r, n) := exchange req (ka_net k) in
  (r, mkKeepalive n (ka_seq k) (ka_upf_ts k) (ka_restarts k)).
Definition ka_next_seq : st Keepalive SimError Z := λ k,
  (Ok (ka_seq k), mkKeepalive (ka_net k) (wrap 32 (ka_seq k + 1)) (ka_upf_ts k) (ka_restarts k)).
Definition ka_store (ts : Z) : st Keepalive SimError unit :=
  modify (λ k, mkKeepalive (ka_net k) (ka_seq k) ts (ka_restarts k)).
Definition ka_event (ts : Z) : st Keepalive SimError unit :=
  modify (λ k, mkKeepalive (ka_net k) (ka_seq k) (ka_upf_ts k) (ka_restarts k ++ [ts])).
Definition ka_pause (d : Z) : st Keepalive SimError unit :=
  modify (λ k, mkKeepalive (pause d (ka_net k)) (ka_seq k) (ka_upf_ts k) (ka_restarts k)).

Definition do_association (seq : Z) : st Keepalive SimError (option Z) :=
  req ← lift (association_request seq smf_addr recovery_ts);
  rsp ← ka_exchange req;
  lift (validate_response PFCP_ASSOCIATION_SETUP_REQ seq rsp);;
  mret (extract_recovery_ts rsp).

(** [match do_association(..).await]: an error is only logged. *)
Definition reassociate : st Keepalive SimError unit := λ k,
  match ka_next_seq k with
  | (Ok seq, k) =>
      match do_association seq k with
      | (Ok (Some ts), k) => ka_store ts k
      | (Ok None, k) => (Ok (), k)
      | (Err _, k) => (Ok (), k)
      | (Panic, k) => (Panic, k)
      end
  | (Err e, k) => (Err e, k)
  | (Panic, k) => (Panic, k)
  end.

(** The response to a keepalive heartbeat. *)
Definition on_heartbeat_response (rsp : list Z) : st Keepalive SimError unit :=
  match decode rsp with
  | Ok _ =>
      match extract_recovery_ts rsp with
      | Some recv =>
          stored ← gets (λ k, wrap 32 (ka_upf_ts k));
          if stored =? 0 then ka_store recv
          else if negb (stored =? recv) then
            ka_store recv;; ka_event recv;; reassociate
          else mret ()
      | None => mret ()
      end
  | Err _ => mret ()
  | Panic => lift Panic
  end.

(** [match transport.send_and_recv(&req).await] *)
Definition heartbeat_round (req : list Z) : st Keepalive SimError unit := λ k,
  match ka_exchange req k with
  | (Ok rsp, k) => on_heartbeat_response rsp k
  | (Err _, k) => (ka_pause retry_pause;; reassociate) k
  | (Panic, k) => (Panic, k)
  end.

(** The branch of [run] for a link that has been idle long enough, up to its sleep. *)
Definition keepalive_exchange : st Keepalive SimError unit :=
  seq ← ka_next_seq;
  req ← lift (heartbeat_request seq recovery_ts);
  heartbeat_round req.

(** What a turn of the loop did: the time it looked at the link, the activity it
    found, whether it sent a heartbeat, and the time it slept from. *)
Record Turn := mkTurn {
  tn_start : Z;
  tn_activity : Z;
  tn_beat : bool;
  tn_settled : Z;
}.

Variable interval : Z.

(** [last.elapsed()] is zero for a time in the future. *)
Definition keepalive_loop_turn : st Keepalive SimError Turn :=
  start ← gets (λ k, clock (ka_net k));
  activity ← gets (λ k, link_activity (ka_net k));
  let idle := Z.max 0 (start - activity) in
  if interval <=? idle then
    keepalive_exchange;;
    settled ← gets (λ k, clock (ka_net k));
    ka_pause interval;;
    mret (mkTurn start activity true settled)
  else
    ka_pause (interval - idle);;
    mret (mkTurn start activity false (start - idle)).

(** The first turns of [run]. *)
Fixpoint keepalive_run (turns : nat) : st Keepalive SimError (list Turn) :=
  match turns with
  | O => mret []
  | S turns => t ← keepalive_loop_turn; ts ← keepalive_run turns; mret (t :: ts)
  end.
End keepalive.
Arguments Keepalive : clear implicits.

(** ** When heartbeats are sent *)

Section schedule.
Context {N : Type} `{!Timed N}.
Variable exchange : list Z → st N SimError (list Z).
Context `{!TimedLaws N exchange}.
Variables recovery_ts smf_addr interval : Z.
Hypothesis interval_pos : 0 < interval.
Implicit Types k : Keepalive N.

Abbreviation loop_turn := (keepalive_loop_turn exchange recovery_ts smf_addr interval).
Abbreviation loop_run := (keepalive_run exchange recovery_ts smf_addr interval).

(** Time and activity have moved forward. *)
Definition forward k k' : Prop :=
  timed_ok (ka_net k) →
  timed_ok (ka_net k') ∧ clock (ka_net k) ≤ clock (ka_net k') ∧
  link_activity (ka_net k) ≤ link_activity (ka_net k').

#[local] Instance forward_preorder : PreOrder forward.
Proof.
  split; [by intros k Hk|]. intros k1 k2 k3 H12 H23 H1. destruct (H12 H1) as (H2 & ? & ?).
  destruct (H23 H2) as (? & ? & ?). split; [done|]. lia.
Qed.

(** A program of the task that always returns, time moving forward. *)
Definition returns {T} (m : st (Keepalive N) SimError T) : Prop :=
  ∀ k, (∃ a, (m k).1 = Ok a) ∧ forward k (m k).2.

Lemma returns_ret {T} (a : T) : returns (mret a).
Proof. intros k. split; [by eexists|done]. Qed.

Lemma returns_gets {T} (f : Keepalive N → T) : returns (gets f).
Proof. intros k. split; [by eexists|done]. Qed.

Lemma returns_bind {T U} (m : st (Keepalive N) SimError T) (f : T → st (Keepalive N) SimError U) :
  returns m → (∀ a, returns (f a)) → returns (m ≫= f).
Proof.
  intros Hm Hf k. rewrite st_bind_eq. destruct (Hm k) as [[a Ha] Hk].
  destruct (m k) as [r k1]. cbn in *. subst. destruct (Hf a k1) as [Hr Hk1].
  split; [done|]. by transitivity k1.
Qed.

Lemma returns_modify (f : Keepalive N → Keepalive N) :
  (∀ k, ka_net (f k) = ka_net k) → returns (modify f).
Proof.
  intros Hf k. split; [by eexists|]. unfold forward. cbn. rewrite Hf. auto with lia.
Qed.

Lemma returns_pause d : 0 ≤ d → returns (ka_pause d).
Proof.
  intros Hd k. split; [by eexists|]. intros Hk. cbn. split; [by apply pause_ok|].
  rewrite pause_clock by done. split; [lia|]. by apply pause_activity.
Qed.

Lemma exchange_forward req k : forward k (ka_exchange exchange req k).2.
Proof.
  intros Hk. unfold ka_exchange.
  pose proof (exchange_ok req (ka_net k)). pose proof (exchange_clock req (ka_net k)).
  pose proof (exchange_activity req (ka_net k)). destruct (exchange req (ka_net k)). cbn in *. auto.
Qed.

Lemma reassociate_returns : returns (reassociate exchange recovery_ts smf_addr).
Proof.
  intros k. unfold reassociate. cbn [ka_next_seq].
  set (k1 := mkKeepalive _ _ _ _). assert (forward k k1) as H1 by by intros ?.
  unfold do_association. rewrite st_bind_eq. cbn [lift].
  destruct (association_request_ok (E:=SimError) (ka_seq k) smf_addr recovery_ts) as [req ->].
  rewrite st_bind_eq. pose proof (exchange_forward req k1) as H2.
  pose proof (exchange_total req (ka_net k1)) as Hp. unfold ka_exchange in *.
  destruct (exchange req (ka_net k1)) as [[rsp|e|] n]; cbn [fst snd] in *; [|split; [by eexists|by transitivity k1]|done].
  rewrite st_bind_eq. cbn [lift]. pose proof (validate_response_not_panic
    PFCP_ASSOCIATION_SETUP_REQ (ka_seq k) rsp) as Hv.
  destruct (validate_response _ _ _) as [[]|e|]; [|split; [by eexists|by transitivity k1]|done].
  cbn [mret st_ret]. destruct (extract_recovery_ts rsp) as [ts|]; (split; [by eexists|]).
  - by transitivity k1.
  - by transitivity k1.
Qed.

Lemma heartbeat_response_returns rsp :
  returns (on_heartbeat_response exchange recovery_ts smf_addr rsp).
Proof.
  unfold on_heartbeat_response. pose proof (decode_not_panic rsp) as Hd.
  destruct (decode rsp) as [x|e|]; [|apply returns_ret|done].
  destruct (extract_recovery_ts rsp) as [recv|]; [|apply returns_ret].
  apply returns_bind; [apply returns_gets|]. intros stored.
  destruct (_ =? _); [by apply returns_modify|]. destruct (negb _); [|apply returns_ret].
  repeat (apply returns_bind; [by apply returns_modify|intros _]). apply reassociate_returns.
Qed.

Lemma keepalive_exchange_returns : returns (keepalive_exchange exchange recovery_ts smf_addr).
Proof.
  unfold keepalive_exchange. apply returns_bind; [by intros k; split; [eexists|intros ?]|].
  intros seq. destruct (heartbeat_request_ok (E:=SimError) seq recovery_ts) as [req Hreq].
  apply returns_bind; [intros k; rewrite Hreq; split; [by eexists|done]|]. clear req Hreq.
  intros req k. unfold heartbeat_round. pose proof (exchange_forward req k) as H1.
  pose proof (exchange_total req (ka_net k)) as Hp. unfold ka_exchange in *.
  destruct (exchange req (ka_net k)) as [[rsp|e|] n]; cbn [fst snd] in *; [..|done].
  - destruct (heartbeat_response_returns rsp (mkKeepalive n (ka_seq k) (ka_upf_ts k) (ka_restarts k)))
      as [Hr H2]. split; [done|]. by etransitivity.
  - match goal with |- context [(?m ?k1).1] =>
      assert (returns m) as Hm by (apply returns_bind; [by apply returns_pause|intros _; apply reassociate_returns]);
      destruct (Hm k1) as [Hr H2] end.
    split; [done|]. by etransitivity.
Qed.

(** One turn, from a state whose activity is not in the future. *)
Lemma loop_turn_spec k :
  timed_ok (ka_net k) →
  ∃ t k', loop_turn k = (Ok t, k') ∧ timed_ok (ka_net k') ∧
    tn_start t = clock (ka_net k) ∧ tn_activity t = link_activity (ka_net k) ∧
    tn_beat t = bool_decide (tn_activity t + interval ≤ tn_start t) ∧
    clock (ka_net k') = tn_settled t + interval ∧ tn_start t < clock (ka_net k') ∧
    (tn_beat t = false → tn_settled t = tn_activity t) ∧
    (tn_beat t = true → tn_start t ≤ tn_settled t) ∧ tn_activity t ≤ link_activity (ka_net k').
Proof.
  intros Hk. pose proof Hk as Hle. unfold timed_ok in Hle. unfold keepalive_loop_turn.
  do 2 (rewrite st_bind_eq; cbn [gets]). cbv zeta. rewrite Z.max_r by lia.
  destruct (Z.leb_spec interval (clock (ka_net k) - link_activity (ka_net k))) as [Hi|Hi].
  - rewrite st_bind_eq. destruct (keepalive_exchange_returns k) as [[[] Hr] Hf].
    destruct (keepalive_exchange _ _ _ k) as [r k1]. cbn [fst snd] in *. subst r.
    destruct (Hf Hk) as (Hk1 & Hc & Ha).
    do 2 (rewrite st_bind_eq; cbn [gets ka_pause modify]). eexists _, _. split; [reflexivity|].
    cbn [ka_net tn_start tn_activity tn_beat tn_settled].
    rewrite pause_clock by lia. split; [by apply pause_ok; [lia|]|].
    pose proof (pause_activity interval (ka_net k1) ltac:(lia)).
    rewrite bool_decide_eq_true_2 by lia. repeat (split; [done || lia|]). lia.
  - rewrite st_bind_eq. cbn [ka_pause modify]. eexists _, _. split; [reflexivity|].
    cbn [ka_net tn_start tn_activity tn_beat tn_settled].
    rewrite pause_clock by lia. split; [by apply pause_ok; [lia|]|].
    match goal with |- context [pause ?d ?n] => pose proof (pause_activity d n ltac:(lia)) end.
    rewrite bool_decide_eq_false_2 by lia. repeat (split; [done || lia|]). lia.
Qed.

(** Consecutive turns. *)
Definition follows (t t' : Turn) : Prop :=
  tn_start t < tn_start t' ∧ tn_start t' = tn_settled t + interval ∧
  tn_beat t' = bool_decide (tn_activity t' ≤ tn_settled t) ∧
  (tn_beat t = false → tn_beat t' = true → tn_start t' = tn_activity t' + interval).

(** The turns of the loop and their times. *)
Lemma run_schedule n k :
  timed_ok (ka_net k) →
  ∃ turns k', loop_run n k = (Ok turns, k') ∧ length turns = n ∧
    (∀ t, t ∈ turns →
       tn_beat t = bool_decide (tn_activity t + interval ≤ tn_start t) ∧
       (if tn_beat t then tn_start t ≤ tn_settled t else tn_settled t = tn_activity t)) ∧
    ∀ i t t', turns !! i = Some t → turns !! S i = Some t' → follows t t'.
Proof.
  intros Hk.
  assert (∃ turns k', loop_run n k = (Ok turns, k') ∧ length turns = n ∧
    (∀ t, head turns = Some t → tn_start t = clock (ka_net k) ∧ tn_activity t = link_activity (ka_net k)) ∧
    (∀ t, t ∈ turns →
       tn_beat t = bool_decide (tn_activity t + interval ≤ tn_start t) ∧
       (if tn_beat t then tn_start t ≤ tn_settled t else tn_settled t = tn_activity t)) ∧
    ∀ i t t', turns !! i = Some t → turns !! S i = Some t' → follows t t')
    as (turns & k' & ? & ? & _ & ? & ?); [|by exists turns, k'].
  revert k Hk. induction n as [|n IH]; intros k Hk.
  { exists [], k. split; [done|]. split; [done|]. split; [done|]. split; [intros t []%not_elem_of_nil|done]. }
  destruct (loop_turn_spec k Hk) as (t & k1 & Et & Hk1 & Hs & Ha & Hb & Hc & Hlt & Hw & Hbt & Hact).
  destruct (IH k1 Hk1) as (turns & k' & Er & Hl & Hh & Hall & Hf).
  exists (t :: turns), k'. split; [|split; [|split; [|split]]].
  - cbn [keepalive_run]. rewrite st_bind_eq, Et, st_bind_eq, Er. done.
  - cbn. by rewrite Hl.
  - intros t0 [= <-]. done.
  - intros t0 [->|Hin]%elem_of_cons; [|by apply Hall]. split; [done|]. by destruct (tn_beat t); auto.
  - intros [|i] t1 t2 H1 H2; [|by apply (Hf i)]. cbn in H1. injection H1 as <-.
    destruct turns as [|t3 turns]; [done|]. cbn in H2. injection H2 as <-.
    destruct (Hh t3 eq_refl) as [Hs3 Ha3]. destruct (Hall t3) as [Hb3 _]; [by left|].
    unfold follows. rewrite Hs3, Hc. split; [lia|]. split; [done|].
    assert (tn_beat t3 = bool_decide (tn_activity t3 ≤ tn_settled t)) as E.
    { rewrite Hb3. apply bool_decide_ext. rewrite Hs3, Hc. lia. }
    split; [done|]. intros Hw1 Hw2. rewrite E in Hw2. apply bool_decide_eq_true in Hw2.
    rewrite (Hw Hw1) in Hw2 |- *. rewrite Ha3 in Hw2 |- *. lia.
Qed.
End schedule.

(** ** What goes out on the link

    The same task over a link that notes every request it is given, with the
    clock and the last activity at that moment. *)
Section sent.
Context {N : Type} `{!Timed N}.
Variable exchange : list Z → st N SimError (list Z).
Context `{!TimedLaws N exchange}.
Variables recovery_ts smf_addr interval : Z.
Hypothesis interval_pos : 0 < interval.

Definition SentRequest : Type := (Z * Z) * list Z.

Definition noted (req : list Z) : st (N * list SentRequest) SimError (list Z) := λ n,
  let '(r, n') := exchange req n.1 in
  (r, (n', n.2 ++ [((clock n.1, link_activity n.1), req)])).

#[local] Instance noted_timed : Timed (N * list SentRequest) := {
  clock n := clock n.1;
  link_activity n := link_activity n.1;
  pause d n := (pause d n.1, n.2);
}.

#[local] Instance noted_laws : TimedLaws (N * list SentRequest) noted.
Proof.
  split; unfold timed_ok, noted; cbn [clock link_activity pause noted_timed fst snd].
  - intros req n. pose proof (exchange_total req n.1). by destruct (exchange req n.1).
  - intros req n. pose proof (exchange_ok req n.1). by destruct (exchange req n.1).
  - intros req n. pose proof (exchange_clock req n.1). by destruct (exchange req n.1).
  - intros req n. pose proof (exchange_activity req n.1). by destruct (exchange req n.1).
  - intros req n rsp. pose proof (exchange_heard req n.1 rsp). by destruct (exchange req n.1).
  - intros d n. apply pause_ok.
  - intros d n. apply pause_clock.
  - intros d n. apply pause_activity.
Qed.

(** The heartbeats among the requests: the second octet is the message type. *)
Definition heartbeats (log : list SentRequest) : list (Z * Z) :=
  (filter (λ x : SentRequest, x.2 !!! 1%nat = PFCP_HEARTBEAT_REQ) log).*1.

Abbreviation State := (Keepalive (N * list SentRequest)).
Implicit Types k : State.
Definition on_link k : list SentRequest := (ka_net k).2.

(** A program that sends no heartbeat. *)
Definition quiet {T} (m : st State SimError T) : Prop :=
  ∀ k, heartbeats (on_link (m k).2) = heartbeats (on_link k).

Lemma quiet_net {T} (m : st State SimError T) :
  (∀ k, on_link (m k).2 = on_link k) → quiet m.
Proof. intros Hm k. by rewrite Hm. Qed.

Lemma quiet_bind {T U} (m : st State SimError T) (f : T → st State SimError U) :
  quiet m → (∀ a, quiet (f a)) → quiet (m ≫= f).
Proof.
  intros Hm Hf k. rewrite st_bind_eq. specialize (Hm k). destruct (m k) as [[a|e|] k1]; cbn in *;
    [|done|done]. by rewrite Hf.
Qed.

Lemma noted_sent req k :
  on_link (ka_exchange noted req k).2 =
  on_link k ++ [((clock (ka_net k).1, link_activity (ka_net k).1), req)].
Proof. unfold ka_exchange, noted, on_link. by destruct (exchange req (ka_net k).1). Qed.

Lemma heartbeats_app l1 l2 : heartbeats (l1 ++ l2) = heartbeats l1 ++ heartbeats l2.
Proof. unfold heartbeats. by rewrite filter_app, fmap_app. Qed.

Lemma heartbeat_type {E} seq ts req :
  heartbeat_request (E:=E) seq ts = Ok req → req !!! 1%nat = PFCP_HEARTBEAT_REQ.
Proof.
  unfold heartbeat_request, add_recovery_timestamp.
  rewrite msg_new_body, add_ie_body, finish_encode. by intros [= <-].
Qed.

Lemma association_type {E} seq a ts req :
  association_request (E:=E) seq a ts = Ok req → req !!! 1%nat = PFCP_ASSOCIATION_SETUP_REQ.
Proof.
  unfold association_request, add_node_id_v4, add_recovery_timestamp. cbv zeta.
  rewrite msg_new_body, !add_ie_body, finish_encode. by intros [= <-].
Qed.

Lemma association_quiet seq : quiet (do_association noted recovery_ts smf_addr seq).
Proof.
  intros k. unfold do_association. rewrite st_bind_eq. cbn [lift].
  destruct (association_request_ok (E:=SimError) seq smf_addr recovery_ts) as [req Hreq]. rewrite Hreq.
  apply (quiet_bind (ka_exchange noted req)).
  - intros k1. rewrite noted_sent, heartbeats_app. unfold heartbeats at 2.
    rewrite filter_cons_False; [by rewrite filter_nil, app_nil_r|].
    cbn [snd]. rewrite (association_type _ _ _ _ Hreq). by vm_compute.
  - intros rsp. apply quiet_bind; [by apply quiet_net|]. intros _. by apply quiet_net.
Qed.

Lemma reassociate_quiet : quiet (reassociate noted recovery_ts smf_addr).
Proof.
  intros k. unfold reassociate. cbn [ka_next_seq].
  set (k1 := mkKeepalive _ _ _ _). pose proof (association_quiet (ka_seq k) k1) as Hq.
  destruct (do_association _ _ _ _ k1) as [[[ts|]|e|] k2]; exact Hq.
Qed.

Lemma on_heartbeat_quiet rsp : quiet (on_heartbeat_response noted recovery_ts smf_addr rsp).
Proof.
  unfold on_heartbeat_response. destruct (decode rsp) as [x|e|]; [|by apply quiet_net..].
  destruct (extract_recovery_ts rsp) as [recv|]; [|by apply quiet_net].
  apply quiet_bind; [by apply quiet_net|]. intros stored.
  destruct (_ =? 0); [by apply quiet_net|]. destruct (negb _); [|by apply quiet_net].
  repeat (apply quiet_bind; [by apply quiet_net|intros _]). apply reassociate_quiet.
Qed.

Lemma exchange_one_heartbeat k :
  heartbeats (on_link (keepalive_exchange noted recovery_ts smf_addr k).2) =
  heartbeats (on_link k) ++ [(clock (ka_net k), link_activity (ka_net k))].
Proof.
  unfold keepalive_exchange. rewrite st_bind_eq. cbn [ka_next_seq]. rewrite st_bind_eq. cbn [lift].
  destruct (heartbeat_request_ok (E:=SimError) (ka_seq k) recovery_ts) as [req Hreq]. rewrite Hreq.
  set (k1 := mkKeepalive _ _ _ _).
  assert (heartbeats (on_link (ka_exchange noted req k1).2) =
    heartbeats (on_link k) ++ [(clock (ka_net k), link_activity (ka_net k))]) as Hone.
  { rewrite noted_sent, heartbeats_app. unfold heartbeats at 2.
    by rewrite filter_cons_True by (by apply heartbeat_type in Hreq). }
  unfold heartbeat_round. destruct (ka_exchange noted req k1) as [[rsp|e|] k2]; cbn [snd] in Hone.
  - by rewrite on_heartbeat_quiet.
  - rewrite <-Hone. apply (quiet_bind (ka_pause retry_pause)); [by apply quiet_net|].
    intros _. apply reassociate_quiet.
  - done.
Qed.

Lemma loop_turn_heartbeats k t k' :
  keepalive_loop_turn noted recovery_ts smf_addr interval k = (Ok t, k') →
  heartbeats (on_link k') =
  heartbeats (on_link k) ++ (if tn_beat t then [(tn_start t, tn_activity t)] else []).
Proof.
  unfold keepalive_loop_turn. do 2 (rewrite st_bind_eq; cbn [gets]). cbv zeta.
  destruct (_ <=? _).
  - rewrite st_bind_eq. pose proof (exchange_one_heartbeat k) as Hone.
    destruct (keepalive_exchange _ _ _ k) as [[[]|e|] k1]; [|done|done].
    do 2 (rewrite st_bind_eq; cbn [gets ka_pause modify]). intros [= <- <-]. exact Hone.
  - rewrite st_bind_eq. cbn [ka_pause modify]. intros [= <- <-]. by rewrite app_nil_r.
Qed.

Lemma run_heartbeats n k turns k' :
  timed_ok (ka_net k) →
  keepalive_run noted recovery_ts smf_addr interval n k = (Ok turns, k') →
  heartbeats (on_link k') = heartbeats (on_link k) ++
    ((λ t, (tn_start t, tn_activity t)) <$>
     filter (λ t, tn_activity t + interval ≤ tn_start t) turns).
Proof.
  revert k turns. induction n as [|n IH]; intros k turns Hk.
  { intros [= <- <-]. by rewrite app_nil_r. }
  cbn [keepalive_run]. rewrite st_bind_eq.
  destruct (loop_turn_spec noted recovery_ts smf_addr interval interval_pos k Hk)
    as (t & k1 & Et & Hk1 & _ & _ & Hb & _).
  rewrite Et, st_bind_eq. destruct (keepalive_run _ _ _ _ n k1) as [[ts|e|] k2] eqn:Er; [|done|done].
  intros [= <- <-]. rewrite (IH k1 ts Hk1 Er), (loop_turn_heartbeats _ _ _ Et), <-(assoc_L (++)).
  f_equal. rewrite Hb. case_bool_decide as Ht.
  - by rewrite filter_cons_True.
  - by rewrite filter_cons_False.
Qed.

(** C32. When the simulator probes the UPF: the keepalive task never fails and
    never stops, whatever the UPF answers.  The heartbeats that go out on the
    link are one in each turn that finds the link idle for the interval, at
    the time the turn begins, and no others; the task looks again exactly one
    interval after the last activity it found, or after the end of its own
    exchange; so a heartbeat goes out exactly one interval after the last
    thing heard, or, after a heartbeat, one interval after its exchange ended
    provided nothing was heard since.  Time moves forward every turn. *)
Theorem keepalive_schedule n k :
  timed_ok (ka_net k) →
  ∃ turns k', keepalive_run noted recovery_ts smf_addr interval n k = (Ok turns, k') ∧
    length turns = n ∧
    heartbeats (on_link k') = heartbeats (on_link k) ++
      ((λ t, (tn_start t, tn_activity t)) <$>
       filter (λ t, tn_activity t + interval ≤ tn_start t) turns) ∧
    (∀ t, t ∈ turns →
       tn_beat t = bool_decide (tn_activity t + interval ≤ tn_start t) ∧
       (if tn_beat t then tn_start t ≤ tn_settled t else tn_settled t = tn_activity t)) ∧
    ∀ i t t', turns !! i = Some t → turns !! S i = Some t' → follows interval t t'.
Proof.
  intros Hk. destruct (run_schedule noted recovery_ts smf_addr interval interval_pos n k Hk)
    as (turns & k' & Er & Hl & Hall & Hf).
  exists turns, k'. split; [done|]. split; [done|]. split; [|done].
  by apply (run_heartbeats n).
Qed.
End sent.

(** ** The messages of a round *)

Lemma extract_recovery_built h l rsp ts :
  wf_header h → Forall ie_fits l → u32 ts →
  finish (E:=HandlerError) (encode h ++ ies_bytes l) = Ok rsp →
  find_ie PFCP_IE_RECOVERY_TIME_STAMP ((λ '(ty, v), parsed_ie ty v) <$> l) =
    Some (parsed_ie PFCP_IE_RECOVERY_TIME_STAMP (to_be_bytes 4 ts)) →
  extract_recovery_ts rsp = Some ts ∧ rsp ≠ [] ∧ is_Some (match decode rsp with Ok x => Some x | _ => None end).
Proof.
  intros Hh Hl Ht Hr Hf.
  destruct (decode_finish (E:=HandlerError) h (ies_bytes l) Hh) as (msg & Hm & Hlen & Hd).
  rewrite Hm in Hr. injection Hr as ->. unfold extract_recovery_ts. rewrite Hd.
  rewrite iter_ies_ies_bytes, Hf by done. cbn [mbind option_bind ie_value parsed_ie].
  rewrite parse_recovery_timestamp_built by done. split; [done|]. split; [|by eexists].
  intros ->. cbn in Hlen. unfold header_len in Hlen. destruct (hdr_s_flag h); cbn in Hlen; lia.
Qed.

Lemma heartbeat_answer_ts seq ts rsp :
  0 ≤ seq < 2 ^ 24 → u32 ts → build_heartbeat_response (E:=HandlerError) seq ts = Ok rsp →
  extract_recovery_ts rsp = Some ts ∧ rsp ≠ [] ∧ is_Some (match decode rsp with Ok x => Some x | _ => None end).
Proof.
  intros Hs Ht. unfold build_heartbeat_response, add_recovery_timestamp. cbv zeta.
  rewrite msg_new_body, add_ie_body. intros Hr.
  eapply extract_recovery_built; [..|exact Hr|reflexivity]; [by apply wf_node_msg; [vm_compute|]| |done].
  cbn [app]. fits.
Qed.

Lemma association_answer_ts seq addr ts rsp :
  0 ≤ seq < 2 ^ 24 → u32 ts → build_association_setup_response (E:=HandlerError) seq addr ts = Ok rsp →
  extract_recovery_ts rsp = Some ts ∧ rsp ≠ [] ∧ is_Some (match decode rsp with Ok x => Some x | _ => None end).
Proof.
  intros Hs Ht. unfold build_association_setup_response, add_recovery_timestamp, add_node_id_v4,
    add_cause, add_up_function_features. cbv zeta.
  rewrite msg_new_body, !add_ie_body. intros Hr.
  eapply extract_recovery_built; [..|exact Hr|reflexivity]; [by apply wf_node_msg; [vm_compute|]| |done].
  cbn [app]. fits.
Qed.

(** ** Against the server

    A link over the handlers of the server: what it takes for an answer to
    arrive, the transport's total wait when none does, and which of the next
    requests are lost. *)
Section server.
Context {M P A : Type → Type}.
Context `{BpfMapLaws M} `{PerCpuMapLaws P} `{BpfArray A}.
Variable assoc_iter : gmap Z SmfAssociation → list (Z * SmfAssociation).
Hypothesis assoc_iter_perm : ∀ m, assoc_iter m ≡ₚ map_to_list m.
Variable src : SocketAddr.
Variables latency patience : Z.
Hypothesis latency_nonneg : 0 ≤ latency.
Hypothesis patience_nonneg : 0 ≤ patience.

Abbreviation World := (@World M P A).

Record Link := mkLink {
  lk_world : World;
  lk_clock : Z;
  lk_activity : Z;
  lk_lost : list bool;
}.

#[local] Instance link_timed : Timed Link := {
  clock := lk_clock;
  link_activity := lk_activity;
  pause d l := mkLink (lk_world l) (lk_clock l + d) (lk_activity l) (lk_lost l);
}.

Definition link_exchange (req : list Z) : st Link SimError (list Z) := λ l,
  let late := lk_clock l + patience in
  if default false (head (lk_lost l)) : bool then
    (Err Timeout, mkLink (lk_world l) late (lk_activity l) (tail (lk_lost l)))
  else
    match server_exchange assoc_iter (lk_clock l) src req (lk_world l) with
    | (Ok rsp, w) =>
        let heard := Z.max (lk_clock l + latency) (lk_activity l) in
        (Ok rsp, mkLink w heard heard (tail (lk_lost l)))
    | (r, w) => (r, mkLink w late (lk_activity l) (tail (lk_lost l)))
    end.

#[local] Instance link_laws : TimedLaws Link link_exchange.
Proof.
  split; unfold timed_ok, link_exchange; cbn [clock link_activity pause link_timed].
  - intros req l. destruct (default _ _); [done|].
    pose proof (server_exchange_total assoc_iter (lk_clock l) src req (lk_world l)).
    by destruct (server_exchange _ _ _ _ _) as [[] w].
  - intros req l Hl. destruct (default _ _); [cbn; lia|].
    destruct (server_exchange _ _ _ _ _) as [[] w]; cbn; lia.
  - intros req l. destruct (default _ _); [cbn; lia|].
    destruct (server_exchange _ _ _ _ _) as [[] w]; cbn; lia.
  - intros req l. destruct (default _ _); [cbn; lia|].
    destruct (server_exchange _ _ _ _ _) as [[] w]; cbn; lia.
  - intros req l rsp. destruct (default _ _); [done|].
    destruct (server_exchange _ _ _ _ _) as [[] w]; [|done..]. intros _. cbn. lia.
  - intros d l Hd Hl. cbn. lia.
  - done.
  - intros d l Hd. cbn. lia.
Qed.

(** The server reads the two requests as they are meant. *)
Lemma heartbeat_handled now seq ts req (w : World) :
  0 ≤ seq < 2 ^ 24 → u32 ts → heartbeat_request (E:=SimError) seq ts = Ok req →
  ∃ h body r, handle_message assoc_iter now req src w = handle_heartbeat assoc_iter now h body src w ∧
    hdr_seq_num h = seq ∧ decode_heartbeat body = Ok r ∧ hbr_recovery_ts r = Some ts.
Proof.
  intros Hseq Ht Hreq. unfold heartbeat_request, add_recovery_timestamp in Hreq.
  rewrite msg_new_body, add_ie_body in Hreq. cbn [app] in Hreq.
  destruct (decode_finish (E:=SimError) (new_node_msg PFCP_HEARTBEAT_REQ seq)
    (ies_bytes [(PFCP_IE_RECOVERY_TIME_STAMP, to_be_bytes 4 ts)]))
    as (msg & Hm & _ & Hdec); [by apply wf_node_msg; [vm_compute|]|].
  rewrite Hm in Hreq. injection Hreq as ->.
  eexists _, _, _. split; [unfold handle_message, decode_header; rewrite Hdec; reflexivity|].
  split; [done|]. unfold decode_heartbeat, optional. rewrite iter_ies_ies_bytes by fits.
  cbn -[to_be_bytes parse_recovery_timestamp].
  rewrite parse_recovery_timestamp_built by done. split; reflexivity.
Qed.

Lemma association_handled now seq a ts req (w : World) :
  0 ≤ seq < 2 ^ 24 → u32 a → u32 ts → association_request (E:=SimError) seq a ts = Ok req →
  ∃ h body, handle_message assoc_iter now req src w = handle_session_association now h body src w ∧
    hdr_seq_num h = seq ∧
    decode_association_setup body = Ok {| asr_node_id := a; asr_recovery_ts := ts |}.
Proof.
  intros Hseq Ha Ht Hreq. unfold association_request, add_node_id_v4, add_recovery_timestamp in Hreq.
  cbv zeta in Hreq. rewrite msg_new_body, !add_ie_body in Hreq. cbn [app] in Hreq.
  destruct (decode_finish (E:=SimError) (new_node_msg PFCP_ASSOCIATION_SETUP_REQ seq)
    (ies_bytes [(PFCP_IE_NODE_ID, [0] ++ octets a); (PFCP_IE_RECOVERY_TIME_STAMP, to_be_bytes 4 ts)]))
    as (msg & Hm & _ & Hdec); [by apply wf_node_msg; [vm_compute|]|].
  cbn [app] in Hdec, Hm. rewrite Hm in Hreq. injection Hreq as ->.
  eexists _, _. split; [unfold handle_message, decode_header; rewrite Hdec; reflexivity|].
  split; [done|]. unfold decode_association_setup, required. rewrite iter_ies_ies_bytes by fits.
  pose proof (parse_node_id_built a Ha) as Hn. cbn [app] in Hn.
  cbn -[to_be_bytes octets parse_recovery_timestamp parse_node_id]. rewrite Hn.
  cbn -[to_be_bytes octets parse_recovery_timestamp parse_node_id].
  rewrite parse_recovery_timestamp_built by done. reflexivity.
Qed.

Abbreviation srv l := (w_srv (lk_world l)).

(** What no message of the keepalive changes. *)
Definition undisturbed (l l' : Link) : Prop :=
  sessions (srv l') = sessions (srv l) ∧ w_maps (lk_world l') = w_maps (lk_world l) ∧
  Server.recovery_ts (srv l') = Server.recovery_ts (srv l).

(** The server knows the SMF [a] by its time stamp [ts]: as before if it did
    already, and as a fresh association with this sender if it had none. *)
Definition associated_as (a ts : Z) (l l' : Link) : Prop :=
  ∃ assoc, associations (srv l') !! a = Some assoc ∧ as_recovery_ts assoc = ts ∧
    (as_recovery_ts <$> associations (srv l) !! a = Some ts → lk_world l' = lk_world l) ∧
    (associations (srv l) !! a = None → assoc = SmfAssociation_new (lk_clock l) a src ts).

Lemma link_heartbeat l seq ts req :
  0 ≤ seq < 2 ^ 24 → u32 ts → u32 (Server.recovery_ts (srv l)) →
  heartbeat_request (E:=SimError) seq ts = Ok req → default false (head (lk_lost l)) = false →
  ∃ rsp l', link_exchange req l = (Ok rsp, l') ∧
    extract_recovery_ts rsp = Some (Server.recovery_ts (srv l)) ∧ (∃ x, decode rsp = Ok x) ∧
    lk_lost l' = tail (lk_lost l) ∧ undisturbed l l' ∧
    ∀ a, associations (srv l) !! a = None → associations (srv l') !! a = None.
Proof.
  intros Hseq Ht Hr Hreq Hlost.
  destruct (heartbeat_handled (lk_clock l) seq ts req (lk_world l) Hseq Ht Hreq)
    as (h & body & r & Hrun & Hs & Hd & Hts).
  unfold link_exchange. rewrite Hlost. unfold server_exchange. rewrite Hrun.
  rewrite (heartbeat_eq _ _ _ _ _ _ _ Hd), Hs.
  destruct (build_heartbeat_response seq (Server.recovery_ts (srv l))) as [rsp|e|] eqn:Eb.
  - destruct (heartbeat_answer_ts _ _ _ Hseq Hr Eb) as (Hx & Hne & [x Hdec]).
    destruct rsp as [|b rsp]; [done|]. eexists _, _. split; [reflexivity|]. split; [done|].
    split; [exists x; by destruct (decode _); [congruence|..]|]. cbn [lk_lost lk_world w_srv w_maps].
    split; [done|]. unfold undisturbed. cbn [lk_world w_srv w_maps].
    unfold heartbeat_srv. split; [by repeat case_match|]. intros a Ha.
    destruct (sa_ip src); [|done]. destruct (find_assoc _ _ _) as [[k a']|] eqn:Ef; [|done].
    destruct (hbr_recovery_ts r); [|done]. cbn. rewrite lookup_insert_ne; [done|].
    apply (find_assoc_Some assoc_iter assoc_iter_perm) in Ef as [Hk _]. congruence.
  - exfalso. revert Eb. unfold build_heartbeat_response, add_recovery_timestamp. cbv zeta.
    by rewrite msg_new_body, add_ie_body, finish_encode.
  - exfalso. revert Eb. unfold build_heartbeat_response, add_recovery_timestamp. cbv zeta.
    by rewrite msg_new_body, add_ie_body, finish_encode.
Qed.

Lemma link_association l seq a ts req :
  0 ≤ seq < 2 ^ 24 → u32 a → u32 ts → u32 (Server.recovery_ts (srv l)) →
  association_request (E:=SimError) seq a ts = Ok req → default false (head (lk_lost l)) = false →
  ∃ rsp l', link_exchange req l = (Ok rsp, l') ∧
    validate_response PFCP_ASSOCIATION_SETUP_REQ seq rsp = Ok () ∧
    extract_recovery_ts rsp = Some (Server.recovery_ts (srv l)) ∧
    undisturbed l l' ∧ associated_as a ts l l'.
Proof.
  intros Hseq Ha Ht Hr Hreq Hlost.
  destruct (association_handled (lk_clock l) seq a ts req (lk_world l) Hseq Ha Ht Hreq)
    as (h & body & Hrun & Hs & Hd).
  pose proof (association_setup (lk_clock l) h body src (lk_world l) _ Hd) as Heq.
  cbv zeta in Heq. cbn [asr_node_id asr_recovery_ts] in Heq. rewrite Hs in Heq.
  unfold link_exchange. rewrite Hlost. unfold server_exchange. rewrite Hrun.
  destruct (build_association_setup_response (E:=HandlerError) seq (n3_addr (srv l))
    (Server.recovery_ts (srv l))) as [rsp|e|] eqn:Eb.
  2,3: exfalso; revert Eb; unfold build_association_setup_response, add_recovery_timestamp,
    add_node_id_v4, add_cause, add_up_function_features; cbv zeta;
    by rewrite msg_new_body, !add_ie_body, finish_encode.
  destruct (association_answer_ts _ _ _ _ Hseq Hr Eb) as (Hx & Hne & _).
  assert (validate_response PFCP_ASSOCIATION_SETUP_REQ seq rsp = Ok ()) as Hv.
  { apply (accepted_validates PFCP_ASSOCIATION_SETUP_REQ seq None); [done|]. rewrite <-Hs.
    case_decide; by eapply association_answer; [rewrite Hs|exact Heq]. }
  destruct rsp as [|b rsp]; [done|].
  case_decide as Hdup; rewrite Heq; (eexists _, _; split; [reflexivity|]); do 2 (split; [done|]);
    (split; [by repeat split|]); unfold associated_as; cbn [lk_world lk_clock w_srv].
  - destruct (associations (srv l) !! a) as [assoc|]; [|done]. cbn in Hdup. injection Hdup as <-.
    exists assoc. by repeat split.
  - eexists. split; [cbn; apply lookup_insert_eq|]. split; [done|]. split; [done|]. done.
Qed.

Abbreviation round ts a := (keepalive_exchange (N:=Link) link_exchange ts a).
Abbreviation again ts a := (reassociate (N:=Link) link_exchange ts a).
Implicit Types k : Keepalive Link.

Lemma undisturbed_trans l1 l2 l3 : undisturbed l1 l2 → undisturbed l2 l3 → undisturbed l1 l3.
Proof. intros (A1 & B1 & C1) (A2 & B2 & C2). unfold undisturbed. by rewrite A2, B2, C2. Qed.

Lemma not_lost (q : list bool) : Forall (λ b, b = false) q → default false (head q) = false.
Proof. by intros [|b q' Hb _]. Qed.

Lemma reassociate_spec ts a k :
  0 ≤ ka_seq k < 2 ^ 24 → u32 a → u32 ts → u32 (Server.recovery_ts (srv (ka_net k))) →
  default false (head (lk_lost (ka_net k))) = false →
  ∃ k', again ts a k = (Ok (), k') ∧ ka_upf_ts k' = Server.recovery_ts (srv (ka_net k)) ∧
    ka_restarts k' = ka_restarts k ∧ undisturbed (ka_net k) (ka_net k') ∧
    associated_as a ts (ka_net k) (ka_net k').
Proof.
  intros Hseq Ha Ht Hr Hlost. unfold reassociate, ka_next_seq, do_association.
  rewrite st_bind_eq. cbn [lift].
  destruct (association_request (E:=SimError) (ka_seq k) a ts) as [req|e|] eqn:Eq;
    [|by destruct (association_request_ok (E:=SimError) (ka_seq k) a ts); congruence..].
  destruct (link_association (ka_net k) (ka_seq k) a ts req Hseq Ha Ht Hr Eq Hlost)
    as (rsp & l' & El & Hv & Hx & Hu & Has).
  rewrite st_bind_eq. unfold ka_exchange. cbn [ka_net]. rewrite El, st_bind_eq. cbn [lift].
  rewrite Hv. cbn [mret st_ret]. rewrite Hx. eexists. split; [reflexivity|]. do 2 (split; [done|]). by split.
Qed.

End server.

(** ** A restart *)

#[local] Existing Instances link_timed noted_timed.

(** A server that has just started, and a keepalive that knows another time
    stamp; an answer takes a millisecond, a request without one 4 seconds. *)
Definition after_restart : Keepalive Link :=
  mkKeepalive (mkLink initial 20000000000 0 []) 100 7 [].

Definition sim_link : list Z → st (Link (M:=bounded_map) (P:=percpu_map) (A:=array_map)) SimError (list Z) :=
  link_exchange map_to_list src_a 1000000 4000000000.


(** The same, eight seconds after something was heard. *)
Definition heard_before : Keepalive (Link * list SentRequest) :=
  mkKeepalive (mkLink initial 20000000000 12000000000 [], []) 100 7 [].

(** Three turns with an interval of 15 seconds: nothing at first, a heartbeat
    15 seconds after the last thing heard, with the association that follows,
    and one 15 seconds after that exchange ended. *)
Lemma keepalive_schedule_witness :
  ∃ turns k', keepalive_run (noted sim_link) 3908988800 smf_a 15000000000 3 heard_before =
      (Ok turns, k') ∧
    heartbeats (on_link k') = [(27000000000, 12000000000); (42002000000, 27002000000)] ∧
    ((λ x : SentRequest, x.2 !!! 1%nat) <$> on_link k') =
      [PFCP_HEARTBEAT_REQ; PFCP_ASSOCIATION_SETUP_REQ; PFCP_HEARTBEAT_REQ] ∧
    ∀ i t t', turns !! i = Some t → turns !! S i = Some t' → follows 15000000000 t t'.
Proof.
  destruct (keepalive_schedule (N:=Link) sim_link
    (TimedLaws0:=link_laws map_to_list src_a 1000000 4000000000 ltac:(lia) ltac:(lia))
    3908988800 smf_a 15000000000 ltac:(lia) 3 heard_before ltac:(vm_compute; discriminate))
    as (turns & k' & E & _ & Hh & _ & Hf).
  exists turns, k'. split; [exact E|].
  assert (turns = default [] (match (keepalive_run (noted sim_link) 3908988800 smf_a 15000000000 3
    heard_before).1 with Ok ts => Some ts | _ => None end)) as Ht by (by rewrite E).
  assert (on_link k' = on_link (keepalive_run (noted sim_link) 3908988800 smf_a 15000000000 3
    heard_before).2) as Hk by (by rewrite E).
  split; [rewrite Hh, Ht; vm_compute; reflexivity|]. split; [rewrite Hk; vm_compute; reflexivity|].
  exact Hf.
Defined.
