(* ===== verification/Concurrent.v ===== *)
(** * The simulator's tasks side by side ([smf-sim/src/main.rs])

    [main] with the keepalive task it spawns before a scenario or the terminal:
    one transport, two tasks.  A turn of the keepalive is a turn of
    [SimKeepalive.v]; while it sleeps, and only then, [main] goes on, and the
    other way round.  The time every turn was due and the time it ran at, and
    the begin and end of each exchange of [main], are recorded, so that what
    runs late or at the same time can be seen. *)

From S2P Require Import Prelude Text Types Header Ie Builder Messages Dict Common Server.
From S2P Require Import Handlers HandlersSpec Alike Invariant SmfSim Transport Scenario System SimMain SimTui SimKeepalive.

(** ** Simulation

    Whatever the second program achieves without an error, the first one does
    too. *)
Section simulation.
Context {S1 S2 E : Type}.

Definition sim {T} (R R' : S1 → S2 → Prop) (m1 : st S1 E T) (m2 : st S2 E T) : Prop :=
  ∀ s1 s2 a s2', R s1 s2 → m2 s2 = (Ok a, s2') → ∃ s1', m1 s1 = (Ok a, s1') ∧ R' s1' s2'.

Lemma sim_ret {T} R (a : T) : sim R R (mret a) (mret a).
Proof. intros s1 s2 b s2' HR [= <- <-]. by exists s1. Qed.

Lemma sim_bind {T U} R R' R'' (m1 : st S1 E T) m2 (f1 : T → st S1 E U) f2 :
  sim R R' m1 m2 → (∀ a, sim R' R'' (f1 a) (f2 a)) → sim R R'' (m1 ≫= f1) (m2 ≫= f2).
Proof.
  intros Hm Hf s1 s2 a s2' HR (b & s & E1 & E2)%st_bind_ok. destruct (Hm _ _ _ _ HR E1) as (t & Et & HR').
  rewrite st_bind_eq, Et. by apply (Hf b t s).
Qed.

Lemma sim_bind_lift {T U} R R' (o : outcome E T) (f1 : T → st S1 E U) (f2 : T → st S2 E U) :
  (∀ a, o = Ok a → sim R R' (f1 a) (f2 a)) → sim R R' (lift o ≫= f1) (lift o ≫= f2).
Proof.
  intros Hf s1 s2 a s2' HR (b & s & [Eb ->]%lift_ok & E2)%st_bind_ok.
  rewrite st_bind_eq. cbn [lift]. rewrite Eb. by apply (Hf b Eb s1 s2).
Qed.

(** Runs of a client over two networks. *)
Definition on_run (R : S1 → S2 → Prop) (r1 : @SmfSim.Run S1) (r2 : @SmfSim.Run S2) : Prop :=
  R (run_net r1) (run_net r2) ∧ run_sim r1 = run_sim r2 ∧ run_sleeps r1 = run_sleeps r2.
End simulation.

Section client.
Context {S1 S2 : Type}.
Variables (e1 : list Z → st S1 SimError (list Z)) (e2 : list Z → st S2 SimError (list Z)).
Variables (p1 : Z → st S1 SimError unit) (p2 : Z → st S2 SimError unit).

Lemma sim_exchange R R' req :
  sim R R' (e1 req) (e2 req) → sim (on_run R) (on_run R') (run_exchange e1 req) (run_exchange e2 req).
Proof.
  intros He r1 r2 a r2' (HR & Es & El). unfold run_exchange.
  destruct (e2 req (run_net r2)) as [o n] eqn:E2. intros [= -> <-].
  destruct (He _ _ _ _ HR E2) as (s1' & -> & HR'). eexists. split; [reflexivity|]. by repeat split.
Qed.

Lemma sim_sleep R R' secs :
  sim R R' (p1 secs) (p2 secs) → sim (on_run R) (on_run R') (sleep p1 secs) (sleep p2 secs).
Proof.
  intros He r1 r2 a r2' (HR & Es & El). unfold sleep.
  destruct (p2 secs (run_net r2)) as [o n] eqn:E2. intros [= -> <-].
  destruct (He _ _ _ _ HR E2) as (s1' & -> & HR'). eexists. split; [reflexivity|].
  split; [done|]. cbn. by rewrite El.
Qed.

Lemma sim_on_sim {T} (R : S1 → S2 → Prop) (m : st SimState SimError T) : sim (on_run R) (on_run R) (on_sim m) (on_sim m).
Proof.
  intros r1 r2 a r2' (HR & Es & El). unfold on_sim. rewrite Es.
  destruct (m (run_sim r2)) as [o n]. intros [= -> <-]. eexists. split; [reflexivity|]. by repeat split.
Qed.

(** The association when the first request is accepted. *)
Lemma sim_associate R R' ts fuel config cnt s0 :
  (∀ req, association_request (E:=SimError) (next_seq s0) (smf_n4_addr config) ts = Ok req →
     sim R R' (e1 req) (e2 req) ∧
     ∀ n1 n2, R n1 n2 → ∃ rsp n', e2 req n2 = (Ok rsp, n') ∧
       validate_response PFCP_ASSOCIATION_SETUP_REQ (next_seq s0) rsp = Ok ()) →
  sim (λ r1 r2, on_run R r1 r2 ∧ run_sim r2 = s0) (on_run R')
    (associate e1 p1 ts fuel config cnt) (associate e2 p2 ts fuel config cnt).
Proof.
  intros He r1 r2 a r2' [(HR & Es & El) E0]. destruct fuel as [|fuel]; [done|]. cbn [associate].
  rewrite !st_bind_eq. unfold on_sim at 1 2, next_seq_num. rewrite Es, E0. rewrite !st_bind_eq. cbn [lift].
  destruct (association_request_ok (E:=SimError) (next_seq s0) (smf_n4_addr config) ts) as [req Hreq].
  rewrite Hreq. destruct (He req Hreq) as [Hsim Hok]. destruct (Hok _ _ HR) as (rsp & n2 & E2 & Hv).
  destruct (Hsim _ _ _ _ HR E2) as (n1 & E1 & HR').
  rewrite !st_bind_eq. unfold try_association, run_exchange. cbn [run_net run_sim run_sleeps].
  rewrite E1, E2, Hv. intros [= <- <-]. eexists. split; [reflexivity|]. by repeat split.
Qed.
End client.

Section concurrent.
Context {M P A : Type → Type}.
Context `{BpfMapLaws M} `{PerCpuMapLaws P} `{BpfArray A}.
Variable assoc_iter : gmap Z SmfAssociation → list (Z * SmfAssociation).
Hypothesis assoc_iter_perm : ∀ m, assoc_iter m ≡ₚ map_to_list m.
Variable src : SocketAddr.
Variables latency patience : Z.
Hypothesis latency_pos : 0 < latency.
(** What [recovery_ts()] returns. *)
Variable recovery_ts : Z.

Abbreviation World := (@World M P A).
Abbreviation Link := (@Link M P A).
Abbreviation exchange := (link_exchange (M:=M) (P:=P) (A:=A) assoc_iter src latency patience).

#[local] Existing Instance link_timed.

Definition link_at (t : Z) (l : Link) : Link := mkLink (lk_world l) t (lk_activity l) (lk_lost l).

(** ** The tasks *)

(** The keepalive task: the arguments of [keepalive::run], what it shares with
    [main], and when its sleep ends. *)
Record KeepaliveTask := mkTask {
  tk_smf : Z;
  tk_interval : Z;
  tk_due : Z;
  tk_seq : Z;              (* [seq_counter] *)
  tk_upf_ts : Z;
  tk_restarts : list Z;    (* the events, which [main] logs *)
}.

Record Shared := mkShared {
  sh_link : Link;
  sh_task : option KeepaliveTask;
  sh_turns : list (Z * Turn);   (* the turns of the task, with the time each was due *)
  sh_calls : list (Z * Z);      (* the exchanges of [main]: begin and end *)
}.

(** [tokio::spawn] of [keepalive::run]. *)
Definition spawn_keepalive (config : FileConfig) : st Shared SimError unit :=
  modify (λ s, mkShared (sh_link s)
    (Some (mkTask (nc_smf_n4_addr (network config))
       (tc_heartbeat_interval_sec (timing config) * 1000000000) (lk_clock (sh_link s)) 100 0 []))
    (sh_turns s) (sh_calls s)).

(** A turn of the task, which has slept until it is due.  The sleep at its end
    only says when the next one is due.  A task that fails is gone. *)
Definition task_turn (task : KeepaliveTask) : st Shared SimError unit := λ s,
  let start := Z.max (lk_clock (sh_link s)) (tk_due task) in
  let k := mkKeepalive (link_at start (sh_link s)) (tk_seq task) (tk_upf_ts task) (tk_restarts task) in
  match keepalive_loop_turn exchange recovery_ts (tk_smf task) (tk_interval task) k with
  | (Ok t, k) =>
      let over := if tn_beat t then tn_settled t else tn_start t in
      (Ok (), mkShared (link_at over (ka_net k))
         (Some (mkTask (tk_smf task) (tk_interval task) (lk_clock (ka_net k)) (ka_seq k)
            (ka_upf_ts k) (ka_restarts k)))
         (sh_turns s ++ [(tk_due task, t)]) (sh_calls s))
  | (_, k) => (Ok (), mkShared (ka_net k) None (sh_turns s) (sh_calls s))
  end.

(** The turns that are due, up to a time; [turns] bounds their number. *)
Fixpoint catch_up (turns : nat) (until : Z) : st Shared SimError unit :=
  task ← gets sh_task;
  match task with
  | Some task =>
      if tk_due task <=? until then
        match turns with
        | O => fail (ScenarioError "more turns")
        | S turns => task_turn task;; catch_up turns until
        end
      else mret ()
  | None => mret ()
  end.

Variable turns : nat.

(** [send_and_recv] of [main]. *)
Definition main_call (req : list Z) : st Shared SimError (list Z) := λ s,
  let '(r, l) := exchange req (sh_link s) in
  (r, mkShared l (sh_task s) (sh_turns s) (sh_calls s ++ [(lk_clock (sh_link s), lk_clock l)])).

Definition main_exchange (req : list Z) : st Shared SimError (list Z) :=
  now ← gets (λ s, lk_clock (sh_link s));
  catch_up turns now;;
  main_call req.

(** [tokio::time::sleep] of [main]: the task goes on meanwhile. *)
Definition main_sleep (secs : Z) : st Shared SimError unit :=
  now ← gets (λ s, lk_clock (sh_link s));
  let until := now + secs * 1000000000 in
  catch_up turns until;;
  modify (λ s, mkShared (link_at (Z.max until (lk_clock (sh_link s))) (sh_link s)) (sh_task s)
                 (sh_turns s) (sh_calls s)).

(** The program without its keepalive, for comparison: a sleep only takes time. *)
Definition link_sleep (secs : Z) : st Link SimError unit :=
  modify (λ l, link_at (lk_clock l + secs * 1000000000) l).

(** A process that has just opened its transport. *)
Definition opened (l : Link) : Shared := mkShared l None [] [].

Variable read_to_string : str → option str.
Variable from_str : str → option SimDoc.
Variables unix now : Z.

(** [main], with and without its keepalive, once the transport is there. *)
Definition program (fuel : nat) (cli : Cli) : st Shared SimError Finish :=
  main read_to_string from_str (λ _ _ _ _, mret ()) main_exchange main_sleep spawn_keepalive
    (λ n, ([], n)) recovery_ts unix now fuel cli.
Definition program_alone (fuel : nat) (cli : Cli) : st Link SimError Finish :=
  main read_to_string from_str (λ _ _ _ _, mret ()) exchange link_sleep (λ _, mret ())
    (λ n, ([], n)) recovery_ts unix now fuel cli.

(** ** Turns of the task *)

Abbreviation busy w t a task done calls := (mkShared (mkLink w t a []) (Some task) done calls).
Implicit Types (w : World) (task : KeepaliveTask) (done : list (Z * Turn)) (calls : list (Z * Z)).

Definition with_due (due : Z) (task : KeepaliveTask) : KeepaliveTask :=
  mkTask (tk_smf task) (tk_interval task) due (tk_seq task) (tk_upf_ts task) (tk_restarts task).

(** A turn that finds the link active only sleeps. *)
Lemma idle_turn task w t a done calls :
  let start := Z.max t (tk_due task) in
  a ≤ start → start < a + tk_interval task →
  task_turn task (busy w t a task done calls) =
  (Ok (), busy w start a (with_due (a + tk_interval task) task)
    (done ++ [(tk_due task, mkTurn start a false a)]) calls).
Proof.
  cbv zeta. intros Ha Hs. unfold task_turn, keepalive_loop_turn. cbn [sh_link lk_clock].
  do 2 (rewrite st_bind_eq; cbn [gets]). cbv zeta. cbn [ka_net clock link_activity link_timed link_at lk_clock lk_activity].
  rewrite Z.max_r by lia. replace (_ <=? _) with false by lia.
  rewrite st_bind_eq. cbn -[Z.max]. unfold link_at, with_due. cbn -[Z.max].
  set (start := Z.max t (tk_due task)) in *.
  by replace (start - (start - a)) with a by lia;
    replace (start + (tk_interval task - (start - a))) with (a + tk_interval task) by lia.
Qed.

(** A heartbeat with the time stamp the server knows the SMF by: the server
    stays as it is but for the times. *)
Lemma quiet_heartbeat w t a seq req node :
  a ≤ t → 0 ≤ seq < 2 ^ 24 → u32 recovery_ts → known node recovery_ts src (w_srv w) →
  heartbeat_request (E:=SimError) seq recovery_ts = Ok req →
  ∃ rsp w', exchange req (mkLink w t a []) = (Ok rsp, mkLink w' (t + latency) (t + latency) []) ∧
    alike w' w ∧ extract_recovery_ts rsp = Some (Server.recovery_ts (w_srv w)) ∧
    ∃ x, decode rsp = Ok x.
Proof.
  intros Ha Hs Ht Hk Hreq.
  destruct (link_heartbeat assoc_iter assoc_iter_perm src latency patience (mkLink w t a []) seq recovery_ts req
    Hs Ht (kn_server_ts _ _ _ _ Hk) Hreq eq_refl) as (rsp & l' & El & Hx & Hd & _).
  pose proof El as El'. unfold link_exchange, server_exchange in El. cbn [lk_lost head default lk_clock lk_world lk_activity tail] in El.
  destruct (heartbeat_handled assoc_iter src t seq recovery_ts req w Hs Ht Hreq) as (h & body & r & Er & _ & Hb & Hr).
  pose proof (heartbeat_alike assoc_iter assoc_iter_perm t h body src w r _ _ Hb Hr Hk) as Hal.
  rewrite Er in El. destruct (handle_heartbeat _ _ _ _ _ w) as [[[|b rsp']|e|] w']; try discriminate El.
  injection El as <- <-. exists (b :: rsp'), w'. rewrite El'. split; [|by split_and!].
  by rewrite Z.max_l by lia.
Qed.

(** A round of the keepalive that finds nothing new. *)
Lemma quiet_round node w t a seq upf_ts restarts :
  a ≤ t → 0 ≤ seq → seq + 1 < 2 ^ 24 → u32 recovery_ts → known node recovery_ts src (w_srv w) →
  upf_ts = 0 ∨ upf_ts = Server.recovery_ts (w_srv w) →
  ∃ w', alike w' w ∧
    keepalive_exchange exchange recovery_ts node (mkKeepalive (mkLink w t a []) seq upf_ts restarts) =
    (Ok (), mkKeepalive (mkLink w' (t + latency) (t + latency) []) (seq + 1)
              (Server.recovery_ts (w_srv w)) restarts).
Proof.
  intros Ha Hs0 Hs Ht Hk Hts. unfold keepalive_exchange. rewrite st_bind_eq. cbn [ka_next_seq ka_seq].
  rewrite st_bind_eq. cbn [lift].
  destruct (heartbeat_request_ok (E:=SimError) seq recovery_ts) as [req Hreq]. rewrite Hreq.
  destruct (quiet_heartbeat w t a seq req node Ha ltac:(lia) Ht Hk Hreq) as (rsp & w' & El & Hal & Hx & [x Hd]).
  exists w'. split; [done|]. unfold heartbeat_round, ka_exchange. cbn [ka_net]. rewrite El.
  unfold on_heartbeat_response. rewrite Hd, Hx, st_bind_eq. cbn [gets ka_upf_ts ka_seq ka_restarts].
  replace (wrap 32 (seq + 1)) with (seq + 1) by (unfold wrap; rewrite Z.mod_small; lia).
  destruct Hts as [->| ->]; [done|].
  replace (wrap 32 (Server.recovery_ts (w_srv w))) with (Server.recovery_ts (w_srv w))
    by (symmetry; apply Z.mod_small, (kn_server_ts _ _ _ _ Hk)).
  by rewrite Z.eqb_refl; destruct (_ =? 0).
Qed.

(** A turn that finds it idle sends a heartbeat. *)
Lemma beat_turn task w t a done calls :
  let start := Z.max t (tk_due task) in
  let server_ts := Server.recovery_ts (w_srv w) in
  a ≤ start → a + tk_interval task ≤ start →
  0 ≤ tk_seq task → tk_seq task + 1 < 2 ^ 24 → u32 recovery_ts →
  known (tk_smf task) recovery_ts src (w_srv w) →
  tk_upf_ts task = 0 ∨ tk_upf_ts task = server_ts →
  ∃ w', alike w' w ∧
    task_turn task (busy w t a task done calls) =
    (Ok (), busy w' (start + latency) (start + latency)
      (mkTask (tk_smf task) (tk_interval task) (start + latency + tk_interval task)
         (tk_seq task + 1) server_ts (tk_restarts task))
      (done ++ [(tk_due task, mkTurn start a true (start + latency))]) calls).
Proof.
  cbv zeta. set (start := Z.max t (tk_due task)). intros Ha Hi Hs0 Hs Ht Hk Hts.
  destruct (quiet_round _ w start a _ _ (tk_restarts task) Ha Hs0 Hs Ht Hk Hts) as (w' & Hal & Er).
  exists w'. split; [done|]. unfold task_turn, keepalive_loop_turn. cbn [sh_link lk_clock].
  do 2 (rewrite st_bind_eq; cbn [gets]). cbv zeta.
  unfold link_at at 1. cbn [ka_net clock link_activity link_timed link_at lk_clock lk_activity lk_world lk_lost].
  fold start. rewrite Z.max_r by lia. replace (_ <=? _) with true by lia.
  rewrite st_bind_eq. unfold link_at at 1. cbn [lk_world lk_activity lk_lost]. rewrite Er.
  rewrite st_bind_eq. cbn [gets]. done.
Qed.

Lemma catch_up_none n until w t a task done calls :
  until < tk_due task → catch_up n until (busy w t a task done calls) = (Ok (), busy w t a task done calls).
Proof.
  intros Hd. destruct n; cbn [catch_up]; rewrite st_bind_eq; cbn [gets sh_task];
    by replace (_ <=? _) with false by lia.
Qed.

Lemma catch_up_turn n until w t a task done calls s :
  tk_due task ≤ until → task_turn task (busy w t a task done calls) = (Ok (), s) →
  catch_up (S n) until (busy w t a task done calls) = catch_up n until s.
Proof.
  intros Hd Et. cbn [catch_up]. rewrite st_bind_eq. cbn [gets sh_task].
  replace (_ <=? _) with true by lia. by rewrite st_bind_eq, Et.
Qed.

(** ** The wait *)

(** The turns of a link that nothing but the task uses: heartbeats, the first
    one due at [due], after an activity at [activity]. *)
Fixpoint beats (interval due activity : Z) (n : nat) : list (Z * Turn) :=
  match n with
  | O => []
  | S n =>
      let over := due + latency in
      (due, mkTurn due activity true over) :: beats interval (over + interval) over n
  end.

(** Those of a wait that begins at [t], when the link was just active: one that is due too early first. *)
Definition wait_turns (interval due t : Z) (n : nat) : list (Z * Turn) :=
  (due, mkTurn due t false t) :: beats interval (t + interval) t n.

Lemma alike_known_keeps smf w w' :
  alike w' w → known smf recovery_ts src (w_srv w) →
  known smf recovery_ts src (w_srv w') ∧ Server.recovery_ts (w_srv w') = Server.recovery_ts (w_srv w).
Proof.
  intros [E _ _] Hk. split; [by apply (known_timeless _ _ _ _ _ (eq_sym E))|].
  exact (f_equal Server.recovery_ts E).
Qed.

(** When the [n]-th heartbeat after the one due at [due] is due. *)
Definition beat_at (interval due : Z) (n : nat) : Z := due + Z.of_nat n * (interval + latency).

Lemma beats_run k n until w t a task done calls :
  let interval := tk_interval task in
  let due := tk_due task in
  a ≤ t → t ≤ due → a + interval ≤ due → 0 < interval →
  (∀ j, (j < k)%nat → beat_at interval due j ≤ until) → until < beat_at interval due k →
  0 ≤ tk_seq task → tk_seq task + Z.of_nat k < 2 ^ 24 → u32 recovery_ts →
  known (tk_smf task) recovery_ts src (w_srv w) →
  tk_upf_ts task = 0 ∨ tk_upf_ts task = Server.recovery_ts (w_srv w) →
  ∃ w' t' a' task', alike w' w ∧ tk_due task' = beat_at interval due k ∧
    tk_restarts task' = tk_restarts task ∧ a' ≤ t' ∧
    t' = (if k is S j then beat_at interval due j + latency else t) ∧
    catch_up (k + n) until (busy w t a task done calls) =
    (Ok (), busy w' t' a' task' (done ++ beats interval due a k) calls).
Proof.
  cbv zeta. revert w t a task done. induction k as [|k IH];
    intros w t a task done Hat Htd Had Hi Hlast Hnext Hs0 Hs Ht Hk Hts.
  { exists w, t, a, task. unfold beat_at in *. split; [reflexivity|]. split; [lia|]. do 3 (split; [done|]).
    rewrite app_nil_r. apply catch_up_none. lia. }
  pose proof (Hlast 0%nat ltac:(lia)) as Hfirst. unfold beat_at in *.
  destruct (beat_turn task w t a done calls) as (w1 & Ha1 & E1); [lia..|done|done|done|].
  rewrite Z.max_r in E1 by lia. cbn [Nat.add]. erewrite catch_up_turn; [|lia|exact E1].
  destruct (alike_known_keeps _ _ _ Ha1 Hk) as [Hk1 Hr1].
  match type of E1 with _ = (_, busy _ ?t1 _ ?task1 ?done1 _) =>
    destruct (IH w1 t1 t1 task1 done1) as (w2 & t2 & a2 & task2 & Ha2 & Hd2 & Hre2 & Hle2 & Ht2 & E2) end.
  all: cbn [tk_due tk_interval tk_seq tk_upf_ts tk_smf tk_restarts] in *; try lia; try done.
  { intros j Hj. specialize (Hlast (S j) ltac:(lia)). lia. }
  exists w2, t2, a2, task2. split; [by transitivity w1|]. split; [lia|]. split; [done|]. split; [done|].
  split; [destruct k; cbn in *; lia|]. rewrite E2, <-(assoc_L (++)). done.
Qed.

(** ** The messages *)

Variable node : Z.
Hypothesis node_u32 : u32 node.
Hypothesis ts_u32 : u32 recovery_ts.

(** What the two runs have in common: at first everything, after heartbeats
    everything but the times. *)
Definition no_other_peer w : Prop :=
  ∀ k a, associations (w_srv w) !! k = Some a → as_peer_addr a = src → k = node.
Definition unheard w w0 : Prop :=
  w = w0 ∧ u32 (Server.recovery_ts (w_srv w)) ∧ no_other_peer w.
Definition same_known w w0 : Prop := w = w0 ∧ known node recovery_ts src (w_srv w).
Abbreviation alike_but_times := (alike_known (M:=M) (P:=P) (A:=A) node recovery_ts src).

(** One request, answered to both runs. *)
Definition answered (t : Z) (req : list Z) (R R' : World → World → Prop) : Prop :=
  ∀ w w0 rsp w0', R w w0 → server_exchange assoc_iter t src req w0 = (Ok rsp, w0') →
  ∃ w', server_exchange assoc_iter t src req w = (Ok rsp, w') ∧ R' w' w0'.

Lemma association_answered t seq req :
  0 ≤ seq < 2 ^ 24 → association_request (E:=SimError) seq node recovery_ts = Ok req →
  answered t req unheard same_known.
Proof.
  intros Hs Hreq w w0 rsp w0' (-> & Ht & Hm) Er. exists w0'. split; [done|]. split; [done|].
  destruct (association_handled assoc_iter src t seq node recovery_ts req w0 Hs node_u32 ts_u32 Hreq)
    as (h & body & Eh & _ & Hd).
  pose proof (association_setup t h body src w0 _ Hd) as Ha. cbv zeta in Ha. cbn [asr_node_id asr_recovery_ts] in Ha.
  unfold server_exchange in Er. rewrite Eh, Ha in Er. clear Ha Eh.
  case_decide as Hdup; destruct (build_association_setup_response _ _ _) as [[|b r]|e|]; try discriminate Er;
    injection Er as _ <-; (split; [|done]).
  - intros k a Hk Hp. pose proof (Hm k a Hk Hp) as ->. split; [done|]. rewrite Hk in Hdup. by injection Hdup.
  - intros k a Hk Hp. cbn in Hk. destruct (decide (k = node)) as [->|Hn].
    + rewrite lookup_insert_eq in Hk. by injection Hk as <-.
    + rewrite lookup_insert_ne in Hk by done. by destruct Hn; apply (Hm k a).
Qed.

Lemma built_type {E} h body buf h' body' :
  finish (E:=E) (encode h ++ body) = Ok buf → decode buf = Ok (h', body') → hdr_msg_type h' = hdr_msg_type h.
Proof.
  intros Hf Hd%decode_msg_type. unfold finish, encode in Hf. cbn [app] in Hf.
  destruct (_ <? 4)%nat; [done|]. injection Hf as <-. cbn in Hd. by injection Hd.
Qed.

Lemma answered_decodes t req w rsp w' :
  server_exchange assoc_iter t src req w = (Ok rsp, w') → ∃ h body, decode req = Ok (h, body).
Proof.
  unfold server_exchange, handle_message, decode_header. rewrite st_bind_eq. cbn [lift].
  destruct (decode req) as [[h' body']|e|]; cbn [map_err]; [by eauto|done|done].
Qed.

Lemma establishment_answered {E} t req hdr rest :
  hdr_msg_type hdr = PFCP_SESSION_ESTABLISHMENT_REQ → finish (E:=E) (encode hdr ++ rest) = Ok req →
  answered t req same_known same_known.
Proof.
  intros Ht Hreq w w0 rsp w0' [-> Hk] Er. exists w0'. split; [done|]. split; [done|].
  destruct (answered_decodes _ _ _ _ _ Er) as (h & body & Hd).
  pose proof (built_type _ _ _ _ _ Hreq Hd) as Eh. rewrite Ht in Eh.
  pose proof (establishment_peers assoc_iter src t h body w0) as Hp.
  assert (handle_message assoc_iter t req src w0 = handle_session_establishment assoc_iter t h body src w0) as Em.
  { unfold handle_message, decode_header. rewrite st_bind_eq. cbn [lift]. rewrite Hd. cbn [map_err]. by rewrite Eh. }
  unfold server_exchange in Er. rewrite Em in Er.
  destruct (handle_session_establishment _ _ _ _ _ w0) as [[[|b r]|e|] w']; try discriminate Er.
  injection Er as _ <-. exact (same_peers_known _ _ _ _ _ Hp Hk).
Qed.

Lemma session_answered {E} t req hdr rest :
  hdr_msg_type hdr ∈ [PFCP_SESSION_MODIFICATION_REQ; PFCP_SESSION_DELETION_REQ] →
  finish (E:=E) (encode hdr ++ rest) = Ok req →
  answered t req alike_but_times alike_but_times.
Proof.
  intros Ht Hreq w w0 rsp w0' HR Er.
  destruct (answered_decodes _ _ _ _ _ Er) as (h & body & Hd).
  rewrite <-(built_type _ _ _ _ _ Hreq Hd) in Ht.
  destruct (handle_message_together assoc_iter assoc_iter_perm node recovery_ts src t req h body Hd Ht w w0 HR)
    as [E1 E2]. unfold server_exchange in *.
  destruct (handle_message _ _ _ _ w) as [r w'], (handle_message _ _ _ _ w0) as [r0 w1]. cbn [fst snd] in E1, E2.
  subst r0. destruct r as [[|b r]|e|]; try discriminate Er. injection Er as <- <-. by exists w'.
Qed.

(** ** The two runs, stage by stage *)

Definition stage (R : World → World → Prop) (t a : Z) task done calls (s : Shared) (l : Link) : Prop :=
  ∃ w w0 a0, s = busy w t a task done calls ∧ l = mkLink w0 t a0 [] ∧ a ≤ t ∧ a0 ≤ t ∧ R w w0.

Lemma stage_exchange R R' t a task task' done done' calls req :
  (∀ w, catch_up turns t (busy w t a task done calls) = (Ok (), busy w t a task' done' calls)) →
  answered t req R R' →
  sim (stage R t a task done calls)
    (stage R' (t + latency) (t + latency) task' done' (calls ++ [(t, t + latency)]))
    (main_exchange req) (exchange req).
Proof.
  intros Hc Ha s l rsp l' (w & w0 & a0 & -> & -> & Hat & Hat0 & HR) El.
  unfold link_exchange in El. cbn [lk_lost head default lk_clock lk_world lk_activity tail] in El.
  destruct (server_exchange assoc_iter t src req w0) as [[r|e|] w0'] eqn:Er; try discriminate El.
  injection El as -> <-. destruct (Ha _ _ _ _ HR Er) as (w' & Er' & HR').
  unfold main_exchange. rewrite st_bind_eq. cbn [gets sh_link lk_clock]. rewrite st_bind_eq, Hc.
  unfold main_call, link_exchange. cbn [sh_link lk_lost head default lk_clock lk_world lk_activity tail sh_task sh_turns sh_calls].
  rewrite Er'. eexists. split; [reflexivity|]. cbn [lk_clock].
  rewrite !Z.max_l by lia. exists w', w0', (t + latency). by repeat split.
Qed.

(** One while the task is asleep. *)
Lemma quiet_exchange R R' t a task done calls req :
  t < tk_due task → answered t req R R' →
  sim (stage R t a task done calls)
    (stage R' (t + latency) (t + latency) task done (calls ++ [(t, t + latency)]))
    (main_exchange req) (exchange req).
Proof. intros Hd. apply stage_exchange. intros w. by apply catch_up_none. Qed.

(** After the wait: the task is not due before [due] and has reported nothing. *)
Definition rested (due t : Z) done calls (s : Shared) (l : Link) : Prop :=
  ∃ a task, tk_due task = due ∧ tk_restarts task = [] ∧ stage alike_but_times t a task done calls s l.

Lemma rested_exchange due t done calls req :
  t < due → answered t req alike_but_times alike_but_times →
  sim (rested due t done calls) (rested due (t + latency) done (calls ++ [(t, t + latency)]))
    (main_exchange req) (exchange req).
Proof.
  intros Hd Ha s l rsp l' (a & task & <- & Hre & Hst) El.
  destruct (quiet_exchange _ _ t a task done calls req Hd Ha _ _ _ _ Hst El) as (s' & E & Hst').
  exists s'. split; [exact E|]. by exists (t + latency), task.
Qed.

Lemma stage_sleep k secs t task done calls :
  let interval := tk_interval task in
  let until := t + secs * 1000000000 in
  tk_smf task = node → tk_seq task = 100 → tk_upf_ts task = 0 → tk_restarts task = [] →
  t ≤ tk_due task < t + interval → (S k ≤ turns)%nat → 0 < interval → (0 < k)%nat → Z.of_nat k < 10000 →
  (∀ j, (j < k)%nat → beat_at interval (t + interval) j + latency ≤ until) →
  until < beat_at interval (t + interval) k →
  sim (stage same_known t t task done calls)
    (rested (beat_at interval (t + interval) k) until (done ++ wait_turns interval (tk_due task) t k) calls)
    (main_sleep secs) (link_sleep secs).
Proof.
  cbv zeta. intros Hsmf Hseq Hts Hre Hdue Hturns Hi Hk0 Hk Hlast Hnext s l [] l' (w & w0 & a0 & -> & -> & _ & Ha0 & -> & Hkn).
  unfold link_sleep. intros [= <-]. unfold main_sleep. rewrite st_bind_eq. cbn [gets sh_link lk_clock].
  rewrite st_bind_eq. set (until := t + secs * 1000000000) in *.
  replace turns with (S (k + (turns - S k))) by lia.
  assert (tk_due task ≤ until) as Hdu by (specialize (Hlast 0%nat ltac:(lia)); unfold beat_at in Hlast; lia).
  erewrite catch_up_turn; [|exact Hdu|apply idle_turn; lia]. rewrite (Z.max_r t) by lia.
  destruct (beats_run k (turns - S k) until w0 (tk_due task) t (with_due (t + tk_interval task) task)
    (done ++ [(tk_due task, mkTurn (tk_due task) t false t)]) calls)
    as (w' & t' & a' & task' & Hal & Hd' & Hre' & Hat' & Ht' & E).
  all: unfold with_due; cbn [tk_due tk_interval tk_seq tk_upf_ts tk_smf tk_restarts]; try lia; try done.
  { intros j Hj. specialize (Hlast j Hj). unfold with_due in *. cbn in *. lia. }
  { by rewrite Hsmf. }
  unfold with_due in E. rewrite E. cbn [modify sh_link lk_clock sh_task sh_turns sh_calls].
  eexists. split; [reflexivity|]. exists a', task'. split; [exact Hd'|]. split; [by rewrite Hre'|].
  destruct k as [|k]; [lia|]. specialize (Hlast k ltac:(lia)). unfold with_due in Ht'.
  cbn [tk_interval tk_due] in Ht'.
  exists w', w0, a0. unfold link_at. cbn [sh_link lk_clock lk_world lk_activity lk_lost sh_task sh_turns sh_calls]. rewrite (Z.max_l until t') by lia. split; [by rewrite <-(assoc_L (++))|].
  split; [done|]. split; [lia|]. split; [unfold beat_at in *; lia|]. split; [done|].
  by apply (alike_known_keeps _ _ _ Hal).
Qed.

(** ** Scenario 1 *)

Definition scenario_calls (t wait : Z) : list (Z * Z) :=
  let resumed := t + latency + latency + wait in
  [(t, t + latency); (t + latency, t + latency + latency);
   (resumed, resumed + latency); (resumed + latency, resumed + latency + latency)].

Lemma lifecycle_sim k fuel config secs t task s0 :
  let interval := secs * 1000000000 in
  let wait := 3 * interval + 5000000000 in
  let began := t + latency + latency in
  smf_n4_addr config = node → heartbeat_interval_sec config = secs → next_seq s0 = 1 →
  task = mkTask node interval t 100 0 [] →
  1 ≤ secs → 3 * secs + 5 < 2 ^ 64 → 2 * latency ≤ interval →
  Z.of_nat k * (interval + latency) ≤ wait →
  wait + 2 * latency ≤ interval + Z.of_nat k * (interval + latency) → (S k ≤ turns)%nat →
  sim (λ r1 r2, on_run (stage unheard t t task [] []) r1 r2 ∧ run_sim r2 = s0)
    (on_run (rested (beat_at interval (began + interval) k) (began + wait + latency + latency)
       ((t, mkTurn t t false t) :: wait_turns interval (t + interval) began k) (scenario_calls t wait)))
    (basic_lifecycle main_exchange main_sleep recovery_ts fuel now config)
    (basic_lifecycle exchange link_sleep recovery_ts fuel now config).
Proof.
  cbv zeta. intros Hnode Hsecs Hseq -> Hs1 Hs2 Hlat Hk Hend Hturns. unfold basic_lifecycle.
  set (interval := secs * 1000000000) in *. set (task := mkTask _ _ _ _ _ _).
  assert (0 < Z.of_nat k < 10000) as Hk9 by nia.
  eapply sim_bind.
  { apply (sim_associate _ _ _ _ (stage unheard t t task [] [])
      (stage same_known (t + latency) (t + latency) (with_due (t + interval) task)
         [(t, mkTurn t t false t)] [(t, t + latency)])).
    intros req Hreq. rewrite Hnode, Hseq in Hreq. rewrite Hseq. split.
    - apply (stage_exchange unheard same_known t t task _ [] _ []);
        [|by apply (association_answered t 1)].
      intros w. destruct turns as [|m]; [lia|].
      erewrite catch_up_turn; [|cbn; lia|apply idle_turn; cbn [tk_due tk_interval task]; lia].
      cbn [tk_due tk_interval task]. rewrite Z.max_id. apply catch_up_none. cbn. lia.
    - intros s l (w & w0 & a0 & _ & -> & _ & _ & -> & Ht & _).
      destruct (link_association assoc_iter src latency patience (mkLink w0 t a0 []) 1 node recovery_ts req)
        as (rsp & l' & E & Hv & _); [lia|done..|]. by exists rsp, l'. }
  intros [_ cnt]. do 4 (eapply sim_bind; [apply sim_on_sim|]; intros ?).
  apply sim_bind_lift. intros req Hreq.
  rewrite session_establishment_msg_body in Hreq.
  eapply sim_bind.
  { apply sim_exchange, (quiet_exchange same_known same_known); [cbn; lia|eapply establishment_answered; [|exact Hreq]; done]. }
  intros rsp. apply sim_bind_lift. intros [] _. apply sim_bind_lift. intros [[upf_seid teid] n3] _.
  eapply sim_bind; [apply sim_on_sim|]. intros [].
  eapply sim_bind.
  { rewrite Hsecs. apply sim_sleep.
    replace (wrap 64 (wrap 64 (secs * 3) + 5)) with (3 * secs + 5)
      by (unfold wrap; rewrite (Z.mod_small (secs * 3)), Z.mod_small by lia; lia).
    apply (stage_sleep k (3 * secs + 5)); unfold with_due; cbn [tk_smf tk_seq tk_upf_ts tk_restarts tk_due tk_interval task];
      try done; try lia; unfold beat_at; [intros j Hj; nia|nia]. }
  intros []. unfold with_due. cbn [tk_interval tk_due task].
  replace ((3 * secs + 5) * 1000000000) with (3 * interval + 5000000000) by lia.
  eapply sim_bind; [apply sim_on_sim|]. intros seq. apply sim_bind_lift. intros mreq Hmreq.
  rewrite session_modification_msg_body in Hmreq.
  eapply sim_bind.
  { apply sim_exchange, rested_exchange; [unfold beat_at; lia|].
    eapply session_answered; [|exact Hmreq]. cbn [new_session_msg hdr_msg_type]. by left. }
  intros mrsp. apply sim_bind_lift. intros [] _.
  eapply sim_bind; [apply sim_on_sim|]. intros dseq. apply sim_bind_lift. intros dreq Hdreq.
  unfold deletion_request, msg_new in Hdreq. rewrite <-(app_nil_r (encode _)) in Hdreq.
  eapply sim_bind.
  { apply sim_exchange, rested_exchange; [unfold beat_at; lia|].
    eapply session_answered; [|exact Hdreq]. cbn [new_session_msg hdr_msg_type]. by right; left. }
  intros drsp. apply sim_bind_lift. intros [] _. apply sim_on_sim.
Qed.

(** [main] when it runs the scenario. *)
Lemma main_scenario {N} new (ex : list Z → st N SimError (list Z)) el spawn listen fuel cli config ues (n n' : N) :
  read_config read_to_string from_str (cli_config cli) = Ok config → cli_command cli = Run 1 ues →
  (∀ a b c d, new a b c d n = (Ok (), n)) → spawn config n = (Ok (), n') →
  main read_to_string from_str new ex el spawn listen recovery_ts unix now fuel cli n =
  match basic_lifecycle ex el recovery_ts fuel now (sim_view config) (mkRun n' (initial_state unix config) []) with
  | (Ok _, r) => (Ok Finished, run_net r)
  | (Err e, r) => (Err e, run_net r)
  | (Panic, r) => (Panic, run_net r)
  end.
Proof.
  intros Hc Hcmd Hnew Hsp. unfold main. rewrite st_bind_eq. cbn [lift]. rewrite Hc, st_bind_eq, Hnew, Hcmd.
  rewrite st_bind_eq, Hsp, st_bind_eq. unfold run_scenario. cbn [Z.eqb Pos.eqb].
  by destruct (basic_lifecycle _ _ _ _ _ _ _) as [[a|e|] r].
Qed.

(** C17. Scenario 1 with its keepalive beside it.  If the scenario passes on its
    own (against a server that answers in time and has no other association
    with this sender), it passes with the keepalive task too, in the same time,
    and leaves the same sessions, maps, counters, log and associations, but for
    their times and what the terminal shows.  Of the task's turns, each begins
    when it is due; the first two find the link active; all [k] others fall
    into the wait for heartbeats, and each is a heartbeat whose exchange is over
    before the next turn and before the scenario goes on; no turn is due during
    an exchange of the scenario; no restart is reported.  [k] is the number of
    heartbeats for which the wait has room; it is the announced 3 when the
    interval is at least 5 seconds and an answer takes at most 5/3. *)
Theorem scenario_beside_keepalive fuel cli config ues w t l1 k :
  read_config read_to_string from_str (cli_config cli) = Ok config → cli_command cli = Run 1 ues →
  nc_smf_n4_addr (network config) = node →
  u32 (Server.recovery_ts (w_srv w)) → no_other_peer w →
  let secs := tc_heartbeat_interval_sec (timing config) in
  let interval := secs * 1000000000 in
  let wait := 3 * interval + 5000000000 in
  let began := t + latency + latency in
  1 ≤ secs → 3 * secs + 5 < 2 ^ 64 → 2 * latency ≤ interval →
  Z.of_nat k * (interval + latency) ≤ wait →
  wait + 2 * latency ≤ interval + Z.of_nat k * (interval + latency) → (S k ≤ turns)%nat →
  program_alone fuel cli (mkLink w t t []) = (Ok Finished, l1) →
  ∃ s1, program fuel cli (opened (mkLink w t t [])) = (Ok Finished, s1) ∧
    alike (lk_world (sh_link s1)) (lk_world l1) ∧ lk_clock (sh_link s1) = lk_clock l1 ∧
    sh_turns s1 = (t, mkTurn t t false t) :: wait_turns interval (t + interval) began k ∧
    sh_calls s1 = scenario_calls t wait ∧
    (∃ task, sh_task s1 = Some task ∧ tk_restarts task = [] ∧ lk_clock l1 ≤ tk_due task) ∧
    (5 ≤ secs → 3 * latency ≤ 5000000000 → k = 3%nat).
Proof.
  intros Hc Hcmd Hnode Hts Hw. cbv zeta. intros Hs1 Hs2 Hlat Hk Hend Hturns Hrun.
  set (secs := tc_heartbeat_interval_sec (timing config)) in *. set (interval := secs * 1000000000) in *.
  unfold program_alone in Hrun. unfold program.
  rewrite (main_scenario _ _ _ _ _ _ _ config ues _ _ Hc Hcmd (λ _ _ _ _, eq_refl) eq_refl) in Hrun.
  rewrite (main_scenario _ _ _ _ _ _ _ config ues _ _ Hc Hcmd (λ _ _ _ _, eq_refl) eq_refl).
  destruct (basic_lifecycle exchange link_sleep _ _ _ _ _) as [[[]|e|] run2] eqn:E2; [|discriminate Hrun..].
  injection Hrun as <-.
  cbn [sh_link opened lk_clock sh_turns sh_calls]. rewrite Hnode. fold secs interval.
  destruct (lifecycle_sim k fuel (sim_view config) secs t (mkTask node interval t 100 0 [])
    (initial_state unix config) Hnode eq_refl eq_refl eq_refl Hs1 Hs2 Hlat Hk Hend Hturns
    (mkRun (busy w t t (mkTask node interval t 100 0 []) [] []) (initial_state unix config) [])
    (mkRun (mkLink w t t []) (initial_state unix config) []) () run2)
    as (run1 & E1 & (a & task & Hdue & Hre & Hst) & _ & _); [|exact E2|].
  { split; [|done]. split; [|done]. by exists w, w, t. }
  rewrite E1. eexists. split; [reflexivity|].
  destruct Hst as (w1 & w2 & a2 & Es & -> & _ & _ & [Hal _]). rewrite Es.
  cbn [sh_link sh_task sh_turns sh_calls lk_world lk_clock].
  split; [done|]. split; [done|]. split; [done|]. split; [done|].
  split; [exists task; split; [done|]; split; [done|]; rewrite Hdue; unfold beat_at; lia|].
  intros H5 H53. nia.
Qed.
End concurrent.

(** ** Runs *)

#[local] Existing Instance link_timed.

Definition sample_link : Link (M:=bounded_map) (P:=percpu_map) (A:=array_map) := mkLink initial 0 0 [].
Definition sample_cli : Cli := mkCli (lit "sim.toml") (lit "info") (Run 1 1).
Definition doc_with_interval (secs : option Z) (s : str) : option SimDoc :=
  (λ d, mkSimDoc (sd_smf_n4_addr d) (sd_smf_n4_port d) (sd_upf_n4_addr d) (sd_upf_n4_port d)
     (sd_gnb_addr d) (sd_gnb_gtpu_port d) (sd_ue_ip_pool_start d) (sd_ue_ip_pool_end d)
     (sd_gnb_teid_start d) (sd_max_sessions d) secs (sd_response_timeout_ms d) (sd_max_retries d))
    <$> sample_sim_toml s.

(** [smf-sim run --scenario 1]; an answer takes a millisecond. *)
Definition sample_program (secs : option Z) :=
  program map_to_list src_a 1000000 20000000000 (ntp_of_unix 1700000000) 20 (λ _, Some [])
    (doc_with_interval secs) 1700000000 0 1 sample_cli (opened sample_link).
Definition sample_alone (secs : option Z) :=
  program_alone map_to_list src_a 1000000 20000000000 (ntp_of_unix 1700000000) (λ _, Some [])
    (doc_with_interval secs) 1700000000 0 1 sample_cli sample_link.

Definition heartbeats (turns : list (Z * Turn)) : list Z :=
  tn_start ∘ snd <$> List.filter (tn_beat ∘ snd) turns.

(** With the default of 15 seconds: three heartbeats. *)
Lemma scenario_beside_keepalive_witness :
  (sample_program None).1 = Ok Finished ∧
  heartbeats (sh_turns (sample_program None).2) = [15002000000; 30003000000; 45004000000] ∧
  w_maps (lk_world (sh_link (sample_program None).2)) = w_maps (lk_world (sample_alone None).2).
Proof.
  destruct (sample_alone None) as [r l1] eqn:E.
  assert (r = Ok Finished) as -> by (transitivity (sample_alone None).1; [by rewrite E|vm_compute; reflexivity]).
  destruct (scenario_beside_keepalive map_to_list map_iter_perm src_a 1000000 20000000000 ltac:(lia)
    (ntp_of_unix 1700000000) 20 (λ _, Some []) (doc_with_interval None) 1700000000 0 smf_a
    ltac:(split; vm_compute; congruence) ltac:(split; vm_compute; congruence) 1 sample_cli
    (config_of_doc (default (mkSimDoc 0 0 0 None 0 None 0 0 None None None None None) (sample_sim_toml [])))
    1 initial 0 l1 3)
    as (s1 & E1 & [_ Em _] & _ & Ht & _); [..|exact E|]; try (vm_compute; reflexivity).
  - split; vm_compute; congruence.
  - intros k a Ha. cbn in Ha. by rewrite lookup_empty in Ha.
  - vm_compute. congruence.
  - vm_compute. congruence.
  - vm_compute. congruence.
  - vm_compute. congruence.
  - lia.
  - assert (sample_program None = (Ok Finished, s1)) as -> by exact E1.
    cbn [fst snd]. split; [done|]. split; [rewrite Ht; vm_compute; reflexivity|exact Em].
Defined.

(** With an interval of one second the wait for three heartbeats sees seven. *)
Example short_interval :
  (sample_program (Some 1)).1 = Ok Finished ∧
  length (heartbeats (sh_turns (sample_program (Some 1)).2)) = 7%nat.
Proof. split; vm_compute; reflexivity. Qed.
